(* ===== verification/_CoqProject ===== *)
-Q . S2P
Prelude.v
Endian.v
IoBuf.v
PbMessages.v
MuxEvent.v
CipherContext.v
Io.v
Transports.v
AsyncMutex.v
MuxConnection.v
MuxStream.v
MuxConnManager.v
MuxDispatch.v
Sni.v
TimeWheel.v
Text.v
HttpHelper.v
WsSocket.v
Address.v
NetHelper.v
LocalProxy.v
Transfer.v
Connect.v
Relay.v
TunnelServer.v
EntryServer.v
DnsOptions.v
DnsProxy.v
MuxClient.v
MuxServer.v
Stat.v
Main.v
EndToEnd.v
Arrival.v
Passage.v
Middle.v
Interleaving.v
ClientPath.v
ConnInvariant.v
