(* ===== verification/Prelude.v ===== *)
(** * snova-asio: a verification development

    snova-asio is a proxy.  Local clients connect to an entry node by SOCKS5, HTTP or TLS; the
    entry node carries their connections as streams over a few encrypted, multiplexed connections
    to an exit node (possibly through a relay node), which connects to the destinations.  This
    library models the parts of the program that carry this logic and proves what makes them
    correct.  Every definition that stands for code names its source; paths are under src/snova/.

    ** The parts and how they interact

    [main] (app/snova.cc) checks the options and starts the services of the node's role.  An accepted
    socket is classified by [handle_conn] (server/entry_server.cc) and handed to a protocol handler
    (server/socks5.cc, http.cc, tls.cc), which finds the destination, for TLS in the client hello
    (util/sni.cc), and calls the relay (server/relay.cc).  The relay takes a stream
    (mux/mux_stream.cc) whose writer is chosen by the connection manager (mux/mux_conn_manager.cc),
    or a new socket, and copies in both directions (io/transfer.cc) until both loops end or a
    timeout of the time wheel (util/time_wheel.cc) closes the local end.  A stream writes events
    (mux/mux_event.cc); a connection (mux/mux_connection.cc) serialises writers with a mutex
    (util/async_channel_mutex.cc), seals the events (mux/cipher_context.cc) and writes the frames to
    a transport that implements the interface of io/io.h: TCP, TLS or a WebSocket (io/ws_socket.cc)
    over a buffered connection (io/buffered_io.cc).  The client (mux/mux_client.cc) dials the
    connections of a session, replaces them when they end or expire, and asks for tunnels; the
    server (server/mux_server.cc) accepts them, registers them and runs their read loops, which
    dispatch the events to streams, new relays and tunnel servers (server/tunnel_server.cc).  Beside
    all this a DNS proxy (server/dns_proxy_server.cc) sends queries to one of two name servers, and a
    timer prints the statistics that the parts registered (util/stat.cc), which also closes the
    connections that were idle for too long.

    ** Conventions

    Bytes are values of [Z] in a list; sizes and offsets are [Z]; an integer whose width matters
    is kept in range with [wrap].  An operation has an outcome [res]: [Ok], an error code [Err],
    [Ub] for an access outside an object, through a null pointer or to an object that was given back,
    [Hang] for an operation that
    did not complete.  A method is a state transformer [st] that returns the object also when it
    fails; [Preserves] and [Maintains] say what it leaves alone, and follow its shape.  Code that
    is not part of the repository is a class of operations (nanopb, the AEAD, absl/strings, SHA-1,
    asio's addresses, resolver, sockets and acceptors, TLS, the hash order of a map, channels), with
    a class of the laws that its documentation gives where a theorem needs them, and at least one
    instance on which the witnesses run.

    ** Files

    - [Prelude]: integers, byte lists, outcomes, state, list lemmas, tactics, hints.
    - [Endian]: util/endian.h on a little and a big endian [Platform], and the flag bits of an
      event head.
    - [IoBuf]: the buffer pool of io/io.cc.
    - [PbMessages]: the messages of mux/mux_event.pb.h and what is relied on of nanopb.
    - [MuxEvent]: event heads, bodies, encoders and decoders of mux/mux_event.cc.
    - [CipherContext]: mux/cipher_context.cc; the state holds key, counters and buffers.
    - [Io]: the interface [IOConnection], its laws [IOConnectionOk] (never stores more than asked)
      and [ByteStream] (a reliable stream in arbitrary pieces), io/io_util.cc and
      io/buffered_io.cc; [BufferedIO] is proved an instance of [ByteStream].
    - [Transports]: the operations of io/tcp_socket.cc and io/tls_socket.cc over asio's sockets; both
      are instances of [ByteStream] when the socket below is.
    - [AsyncMutex]: util/async_channel_mutex.cc and the step relation of tasks that use it.
    - [MuxConnection]: the connection of mux/mux_connection.cc: handshake, [ReadEvent], [Write],
      [OpenTunnel], load counters and [ComparePriority].
    - [MuxStream]: the table and the objects of mux/mux_stream.cc, in an explicit store because
      the table and the coroutines share the objects.
    - [MuxConnManager]: users, sessions, slots of mux/mux_conn_manager.cc, also in a store.
    - [MuxDispatch]: [ProcessReadEvent] and [ReadEventLoop] of mux/mux_connection.cc, which join
      a connection and the streams; the handlers for new relays and tunnels are arguments.
    - [Sni]: util/sni.cc.
    - [TimeWheel]: util/time_wheel.cc; a run works on the wheel and the rest of the process, which goes
      on while a callback is awaited.
    - [Text]: the standard library and absl functions on text that the sources use.
    - [HttpHelper]: util/http_helper.cc and [sha1_sum] of util/misc_helper.cc.
    - [WsSocket]: io/ws_socket.cc.
    - [Address]: util/address.cc and util/tunnel_opt.cc.
    - [NetHelper]: the DNS parsers and the private address test of util/net_helper.cc.
    - [LocalProxy]: server/entry_server.cc, socks5.cc, http.cc and tls.cc up to the relay call; a relay of
      a buffer that the TLS handler took and gave back is [Ub].
    - [Transfer]: the four copy loops of io/transfer.cc over one world of sockets and streams, cut
      at their awaits, alone ([transfer]) and two at once, as a step relation ([duplex_step]) and
      with a given schedule ([duplex]), whose turns run one of the loops or whatever else happens
      [Meanwhile] in the same world.  [WriterLog] says what the sessions promise: that a writer
      sends the events it is given.
    - [Connect]: resolving, connecting and connecting through an HTTP proxy, util/net_helper.cc.
    - [Relay]: server/relay.cc over [Transfer], [Connect], [TimeWheel] and, through the interface
      [RelayFactories], the connection manager.
    - [TunnelServer]: server/tunnel_server.cc and the destructor of a session; [tunnel_step] lets other
      requests run while one waits for the resolver.
    - [EntryServer]: the accept loop of server/entry_server.cc with its socket options, and the
      original destination of a redirected connection (util/net_helper.cc).
    - [DnsOptions]: util/dns_options.cc; the tree map is a sorted list.
    - [DnsProxy]: server/dns_proxy_server.cc; each turn of its three loops is an operation on the
      table of pending queries, the wheel and the sockets; [dns_step] runs them with the tasks of the wheel
      in any order.
    - [MuxClient]: mux/mux_client.cc, the transports behind an [IOConnectionPtr] and the connect
      functions of io/tls_socket.cc.
    - [MuxServer]: server/mux_server.cc.  The calls of the retire callback are counted by the read
      loop and made when it has ended; the callback only unregisters and arms a timer, which the
      loop does not look at.
    - [Stat]: util/stat.cc and every function that is registered there, [ReportStatInfo] of the
      sessions in particular.
    - [Main]: the options, flags and services of app/snova.cc and util/flags.cc.
    - [EndToEnd]: theorems about the two nodes together.
    - [Arrival]: what arrives at a node.  The connection manager is proved an instance of [WriterLog]; a
      turn of a connection's read loop ([read_turn]) runs in the world of the copy loops, over the same
      connection objects as the writers.  [order] runs two counters through an order of the turns of the
      read loop and of the copy loop it feeds, and says whether the close overtook the last chunk; [given]
      is what a destination has then.  [stream_wire] says what one relayed stream puts on a connection.
    - [Passage]: the whole way of a client's bytes and of the answer, in every such order.
    - [Middle]: a node between the two ([forwards]), and the chain of three nodes.
    - [Interleaving]: the read loop of a connection and the copy loop of a relay in every order of
      their turns ([node_run]), where a full or an empty channel makes them wait.
    - [ClientPath]: the whole coroutine of an accepted connection ([handle_client]), front end and
      relay together, and the way from a client of the local proxy to the destination.
    - [ConnInvariant]: the invariant of a connection under all its methods.

    ** What the theorems show

    - Frames: [encrypt_decrypt_roundtrip], [decrypt_waits_for_whole_frame],
      [decrypt_memory_safe].
    - Connections: [events_delivered_in_order] (a connection over any byte stream refines an
      ordered channel of events), [handshake_synchronises], [same_role_refused],
      [read_event_safe_and_returns], [connection_well_typed], [unencodable_chunk_not_sent],
      [mutex_excludes].
    - Streams and sessions: [stream_ids_unique], [close_is_final], [offer_then_read],
      [failed_write_closes_stream], [only_client_hello_sealed], [writer_selects_least_loaded],
      [add_uses_first_free_slot], [relay_session_of_user], and end to end
      [stream_chunk_reaches_peer].
    - Dispatch: [chunk_goes_to_its_stream], [unknown_stream_closed_once],
      [remote_close_closes_stream], [events_touch_only_own_client].
    - Copying: [transfer_copies_and_terminates], [socket_to_stream], [stream_to_socket], and for the
      two directions between two sockets at once, in every order of their steps, [duplex_conserves_bytes]
      (nothing is lost or reordered at any point) and [duplex_completes] (every schedule ends, none is
      stuck).
    - Relay: [direct_relay_exchanges], [mux_relay_events], [relay_without_session],
      [relay_timeout_canceled], [relay_handler_cleans_up], [idle_timeout_ends_copying];
      from node to node [open_spawns_relay] and [exit_relay_answers]; over the whole way
      [bytes_reach_destination], [answer_reaches_client] and [middle_node_forwards], whose
      conclusion has the form of its hypothesis, so that nodes can be chained, as
      [bytes_cross_middle_node] does, all of them for every order of the coroutines of each node, with
      the direction of the answer quiet, and up to the one chunk that a close can overtake; what holds in
      the middle of such an order is [every_order_delivers_prefix].
    - Client and server: [new_connection_fills_slot], [client_slots_invariant],
      [expired_connection_retired], [http_proxy_connect], [conn_counter_restored],
      [served_connection_unregistered].
    - Tunnels: [tunnel_tables_inverse] (up to addresses asked for twice at once), [tunnel_start_idempotent], [session_destroy_closes],
      [tunnel_request_answered].
    - DNS proxy: [match_ip_ranges_spec], [load_ip_ranges], [pending_queries_time_out],
      [query_answered_to_its_client], [trusted_domain_not_leaked], [dot_answer_delivered].
    - Transports: [buffered_read_exact], [read_until_first_occurrence],
      [ws_messages_delivered], [ws_read_memory_safe], [ws_handshake].
    - Front end: [socks5_client_reaches_destination] and [tls_client_reaches_server] from the first
      byte of a client to the destination; [entry_loop_serves_every_connection],
      [redirected_connection_relayed], [entry_memory_safe], [socks5_connect_relayed], [http_request_relayed],
      [http_get_header_correct], [parse_sni_finds_server_name], [parse_sni_safe_and_total],
      [address_roundtrip], [dns_response_parsed], [dns_name_memory_safe].
    - Resources: [iobuf_accounting], [timeout_fires_only_when_due], [no_timeout_lost],
      [canceled_timeout_never_fires], [stats_last_value_printed], [session_report_complete],
      [stats_close_idle_connections].
    - Program: [main_starts_iff_valid], [main_services], [default_node_services],
      [option_names_distinct], [started_roles_accept], [local_tunnels_listen].
    - Other theorems state where the code does not do what it means to, for instance
      [none_cipher_loses_bodies], [oversize_chunk_rejected], [open_tunnel_null_dereference],
      [duplicate_id_unregisters_open_stream], [unvisited_slots_never_fire],
      [private_address_overruns], [dns_pointer_loop_never_returns],
      [http_last_host_header_dropped], [socks5_domain_tls_port_lost],
      [last_range_never_matches], [colliding_query_never_answered],
      [dot_oversize_answer_overflows], [shared_tunnel_closed_with_first_session],
      [wide_id_closes_another], [relay_handler_without_session],
      [tls_listen_address_served_plain], [tls_close_fails_open],
      [socket_option_error_ends_accepting], [limit_enlarges_send_buffer],
      [clock_set_back_closes_connection], [late_activity_fires], [overlapping_requests_orphan_server],
      [tls_fallback_uses_moved_socket], [close_overtakes_chunk], [http_client_not_relayed].

    ** Bounds

    Loops that are not structural take fuel, and the theorems that say that a result is produced
    give enough of it.  [ReadEvent] has 16385 steps: each turn stores at least one byte of the
    16384 its buffer holds, and a full buffer ends the loop.  [read_exact] of [n] bytes has [n]
    steps and [read_until] one more than there are bytes to come, since each read yields a byte;
    the parsers of [Sni] and [skip_name] have the length of their input, since each step consumes
    a byte.  [transfer] has two steps for every byte of its source and one more, since a turn is a
    read of at least one byte and a write; two loops at once have the sum of this for both, and a
    schedule is long enough when each loop gets its share of turns: the theorems about a relay over a
    stream speak of every schedule that does not end in [Hang], and [alone] is one; [in_step] is an order
    of the read loop and the copy loop it feeds that [order] accepts, and no order of these turns has more
    than [3 n + 2] for [n] chunks.  [dns_parse_name] takes its fuel as an argument because no bound
    exists: [dns_pointer_loop_never_returns]; 128 are enough for names without pointers, which have fewer
    labels than that.  The read loop of an
    accepted connection runs as long as the peer sends, so [MuxServer.handle_conn] has its fuel as
    an argument and its theorems speak of the runs that return; the same holds of the loops of the
    DNS proxy, which never return and are modelled turn by turn.

    ** What is not modelled

    The parser of the command line (CLI11) and the loggers (spdlog) are libraries whose result, the
    options, and whose input, the logged text, the models have.  asio's sockets, resolver and timers,
    the handshake of OpenSSL and random numbers are parameters.  The destructor of a stream changes a
    counter of the statistics only and is not called
    by the relay's model.  Coroutines run on one thread and interleave only at awaits: the mutex and
    the copy loops are modelled with all interleavings, the tables of tunnels and queries with all
    sequences of operations, where a start of a tunnel is cut at its wait for the resolver and a run of the
    time wheel between its tasks, the slots with all sequences of operations, a read loop and the copy loop it
    feeds with all orders of their turns, and the other operations as the sequence of their steps.  The theorems
    about the whole way take one direction at a time: the other one is quiet until the end.  Dispatching a
    request to open a stream records the relay to spawn; what that relay does is [relay_handler].  A relay that the read loop
    spawns is taken to run up to its first await, which registers its stream, before the next event is
    read; were the next event read first, [unknown_stream_closed_once] says what happens. *)

From stdpp Require Export base numbers list gmap strings.
From Stdlib Require Export ZArith Lia.

Declare Scope snova_scope.
Delimit Scope snova_scope with snova.
#[export] Set Default Goal Selector "!".
#[global] Open Scope Z_scope.

(** ** Machine integers

    A [w]-bit unsigned integer is a [Z]; [wrap w] is the conversion to it. *)

Definition wrap (w z : Z) : Z := z mod 2 ^ w.
Definition fits (w z : Z) : Prop := 0 <= z < 2 ^ w.

Lemma wrap_range w z : 0 <= w -> fits w (wrap w z).
Proof. intros; unfold wrap, fits; apply Z.mod_pos_bound; lia. Qed.

Lemma wrap_small w z : fits w z -> wrap w z = z.
Proof. unfold wrap, fits; intros; by apply Z.mod_small. Qed.

Lemma wrap_wrap w z : 0 <= w -> wrap w (wrap w z) = wrap w z.
Proof. intros; by apply wrap_small, wrap_range. Qed.

(** ** Byte strings

    A C++ buffer, span or [std::string] is a list of byte values in [Z]; sizes and offsets
    ([size_t], [int]) are [Z] as well. *)

Abbreviation bytes := (list Z).

Definition is_byte (b : Z) : Prop := 0 <= b < 256.
Definition is_bytes (l : bytes) : Prop := Forall is_byte l.

Definition zlen {A} (l : list A) : Z := Z.of_nat (length l).
Definition ztake {A} (n : Z) (l : list A) : list A := take (Z.to_nat n) l.
Definition zdrop {A} (n : Z) (l : list A) : list A := drop (Z.to_nat n) l.
Definition zget {A} (l : list A) (i : Z) : option A :=
  if i <? 0 then None else l !! Z.to_nat i.
Definition zrepeat {A} (n : Z) (x : A) : list A := replicate (Z.to_nat n) x.

(** The [n] bytes at offset [off]; [None] when the range leaves the buffer. *)
Definition zslice {A} (off n : Z) (l : list A) : option (list A) :=
  if decide (0 <= off /\ 0 <= n /\ off + n <= zlen l)
  then Some (ztake n (zdrop off l)) else None.

(** [memcpy] of [d] to offset [off] of a buffer; [None] when the range leaves the buffer. *)
Definition zblit {A} (off : Z) (d l : list A) : option (list A) :=
  if decide (0 <= off /\ off + zlen d <= zlen l)
  then Some (ztake off l ++ d ++ zdrop (off + zlen d) l) else None.

#[global] Arguments wrap : simpl never.
#[global] Arguments zlen : simpl never.
#[global] Arguments ztake : simpl never.
#[global] Arguments zdrop : simpl never.
#[global] Arguments zget : simpl never.
#[global] Arguments zslice : simpl never.
#[global] Arguments zblit : simpl never.

Definition zsum (l : list Z) : Z := foldr Z.add 0 l.

#[global] Instance is_byte_dec b : Decision (is_byte b).
Proof. unfold is_byte; apply _. Defined.
#[global] Instance is_bytes_dec l : Decision (is_bytes l).
Proof. unfold is_bytes; apply _. Defined.
#[global] Instance fits_dec w z : Decision (fits w z).
Proof. unfold fits; apply _. Defined.

(** A Rocq string literal as the bytes of a C++ string literal. *)
Fixpoint bs (s : string) : bytes :=
  match s with
  | EmptyString => []
  | String.String a s => Z.of_N (Ascii.N_of_ascii a) :: bs s
  end.

(** [std::string_view::find]: the first position of [pat] in [l]. *)
Fixpoint bfind (pat l : bytes) : option Z :=
  if decide (pat `prefix_of` l) then Some 0 else
  match l with
  | [] => None
  | _ :: l => Z.succ <$> bfind pat l
  end.

Lemma bfind_app pat l k p : bfind pat l = Some p -> bfind pat (l ++ k) = Some p.
Proof.
  revert p; induction l as [|x l IH]; intros p; cbn -[decide].
  - destruct (decide _) as [Hp|]; [|done]; intros [= <-].
    apply prefix_nil_inv in Hp as ->; destruct k; cbn -[decide]; by rewrite decide_True by apply prefix_nil.
  - destruct (decide (pat `prefix_of` x :: l)) as [Hp|Hp]; intros H.
    + rewrite decide_True; [done|]; trans (x :: l); [done | by exists k].
    + destruct (bfind pat l) as [q|] eqn:Eq; [|done]; specialize (IH q eq_refl).
      assert (length pat <= length l)%nat as Hlen.
      { clear -Eq; revert q Eq; induction l as [|y l IH]; intros q; cbn -[decide].
        - destruct (decide _) as [Hp|]; [|done]; by apply prefix_length in Hp.
        - destruct (decide _) as [Hp|]; [by apply prefix_length in Hp|].
          destruct (bfind pat l); [|done]; intros _; etrans; [by eapply IH | simpl; lia]. }
      rewrite decide_False; [by rewrite IH|].
      intros [z Hz]; apply Hp; destruct (app_eq_inv (x :: l) k pat z Hz) as [(y & -> & _)|(y & -> & _)].
      * by exists y.
      * rewrite length_app in Hlen; simpl in Hlen; lia.
Qed.

Lemma bfind_range pat l p : bfind pat l = Some p -> 0 <= p /\ p + zlen pat <= zlen l.
Proof.
  revert p; induction l as [|x l IH]; intros p; cbn -[decide]; destruct (decide _) as [Hp|]; try done;
    try (intros [= <-]; apply prefix_length in Hp; unfold zlen; simpl in *; lia).
  destruct (bfind pat l) as [q|]; [|done]; intros [= <-]; destruct (IH q eq_refl); unfold zlen in *; simpl; lia.
Qed.

(** ** Outcomes

    [Ok] is a normal return, [Err] an error code of the program, [Ub] an access outside an object
    or through a null pointer, [Hang] an operation that has not completed: a coroutine that is
    never resumed, or a loop that used up the steps it was given. *)

Inductive res (A : Type) : Type :=
| Ok (a : A)
| Err (rc : Z)
| Ub
| Hang.
Arguments Ok {A} a.
Arguments Err {A} rc.
Arguments Ub {A}.
Arguments Hang {A}.

Definition rbind {A B} (r : res A) (f : A -> res B) : res B :=
  match r with Ok a => f a | Err rc => Err rc | Ub => Ub | Hang => Hang end.

(** The operation completes without undefined behaviour. *)
Definition returns {A} (r : res A) : Prop :=
  match r with Ok _ | Err _ => True | Ub | Hang => False end.

Lemma returns_rbind {A B} (r : res A) (f : A -> res B) :
  returns r -> (forall a, returns (f a)) -> returns (rbind r f).
Proof. by destruct r; simpl. Qed.

(** A memory access: undefined when it is out of range. *)
Definition access {A} (o : option A) : res A :=
  match o with Some a => Ok a | None => Ub end.

Notation "'do' x <- r ; k" := (rbind r (fun x => k))
  (at level 10, x binder, r at level 100, k at level 200) : snova_scope.
#[global] Open Scope snova_scope.

#[global] Instance res_eq_dec {A} `{EqDecision A} : EqDecision (res A).
Proof. solve_decision. Defined.

(** ** State and outcome

    A method of a class: it takes the object, may change it also when it fails, and has an
    outcome. *)

Definition st (S A : Type) : Type := S -> S * res A.

Definition sret {S A} (a : A) : st S A := fun s => (s, Ok a).
Definition sbind {S A B} (m : st S A) (k : A -> st S B) : st S B := fun s =>
  match m s with
  | (s, Ok a) => k a s
  | (s, Err rc) => (s, Err rc)
  | (s, Ub) => (s, Ub)
  | (s, Hang) => (s, Hang)
  end.
Definition slift {S A} (r : res A) : st S A := fun s => (s, r).
Definition sfail {S A} (rc : Z) : st S A := fun s => (s, Err rc).
Definition sget {S} : st S S := fun s => (s, Ok s).
Definition smodify {S} (f : S -> S) : st S unit := fun s => (f s, Ok tt).
Definition sor {A} (rc : Z) (o : option A) : res A :=
  match o with Some a => Ok a | None => Err rc end.

Notation "'let!' x := m 'in' k" := (sbind m (fun x => k))
  (at level 10, x binder, m at level 100, k at level 200) : snova_scope.

(** One step of a method on a known state. *)
Ltac srun := lazy beta iota zeta delta [sbind slift sget smodify sret sfail sor access rbind].
Ltac srun_in H := lazy beta iota zeta delta [sbind slift sget smodify sret sfail sor access rbind] in H.

Lemma sbind_ok {S A B} (m : st S A) (k : A -> st S B) s s' a : m s = (s', Ok a) -> sbind m k s = k a s'.
Proof. intros Hm; unfold sbind; by rewrite Hm. Qed.

Lemma sbind_inv {S A B} (m : st S A) (k : A -> st S B) s s' b :
  sbind m k s = (s', Ok b) -> exists s1 a, m s = (s1, Ok a) /\ k a s1 = (s', Ok b).
Proof. unfold sbind; destruct (m s) as [s1 [a| | |]]; try done; eauto. Qed.

(** ** What a method leaves alone

    [Preserves f m]: the view [f] of the object is the same after [m], whatever its outcome.  The
    instances follow the shape of a program, so that the property of a method is found from those
    of its steps. *)

Class Preserves {S X A} (f : S -> X) (m : st S A) : Prop := preserves : forall s, f (fst (m s)) = f s.

Section preserves.
Context {S X : Type} (f : S -> X).

#[export] Instance preserves_sret {A} (a : A) : Preserves f (sret a).
Proof. done. Qed.
#[export] Instance preserves_slift {A} (r : res A) : Preserves f (slift r).
Proof. done. Qed.
#[export] Instance preserves_sget : Preserves f sget.
Proof. done. Qed.
#[export] Instance preserves_sbind {A B} (m : st S A) (k : A -> st S B) :
  Preserves f m -> (forall a, Preserves f (k a)) -> Preserves f (sbind m k).
Proof.
  intros Hm Hk s; unfold sbind; specialize (Hm s); destruct (m s) as [s1 [a| | |]]; cbn in *; try done.
  by rewrite (Hk a s1).
Qed.
#[export] Instance preserves_if {A} (b : bool) (m m' : st S A) :
  Preserves f m -> Preserves f m' -> Preserves f (if b then m else m').
Proof. by destruct b. Qed.
#[export] Instance preserves_decide {A} (P : Prop) (b : {P} + {~ P}) (m m' : st S A) :
  Preserves f m -> Preserves f m' -> Preserves f (if b then m else m').
Proof. by destruct b. Qed.
#[export] Instance preserves_option {A B} (o : option B) (m : B -> st S A) (m' : st S A) :
  (forall b, Preserves f (m b)) -> Preserves f m' -> Preserves f (match o with Some b => m b | None => m' end).
Proof. by destruct o. Qed.
#[export] Instance preserves_pair {A B C} (o : B * C) (m : B -> C -> st S A) :
  (forall b c, Preserves f (m b c)) -> Preserves f (let '(b, c) := o in m b c).
Proof. by destruct o. Qed.

Lemma preserves_smodify (g : S -> S) : (forall s, f (g s) = f s) -> Preserves f (smodify g).
Proof. intros Hg s; apply Hg. Qed.

Lemma preserves_eq {A} (m : st S A) `{!Preserves f m} s s' r : m s = (s', r) -> f s' = f s.
Proof. intros E; specialize (preserves s) as Hp; by rewrite E in Hp. Qed.

End preserves.

(** [Maintains P m]: [m] keeps the invariant [P], whatever its outcome. *)
Class Maintains {S A} (P : S -> Prop) (m : st S A) : Prop := maintains : forall s, P s -> P (fst (m s)).

Section maintains.
Context {S : Type} (P : S -> Prop).

#[export] Instance maintains_sret {A} (a : A) : Maintains P (sret a).
Proof. by intros s. Qed.
#[export] Instance maintains_slift {A} (r : res A) : Maintains P (slift r).
Proof. by intros s. Qed.
#[export] Instance maintains_sget : Maintains P sget.
Proof. by intros s. Qed.
#[export] Instance maintains_sbind {A B} (m : st S A) (k : A -> st S B) :
  Maintains P m -> (forall a, Maintains P (k a)) -> Maintains P (sbind m k).
Proof.
  intros Hm Hk s Hs; unfold sbind; specialize (Hm s Hs); destruct (m s) as [s1 [a| | |]]; cbn in *; try done.
  by apply (Hk a s1).
Qed.
#[export] Instance maintains_if {A} (b : bool) (m m' : st S A) :
  Maintains P m -> Maintains P m' -> Maintains P (if b then m else m').
Proof. by destruct b. Qed.
#[export] Instance maintains_option {A B} (o : option B) (m : B -> st S A) (m' : st S A) :
  (forall b, Maintains P (m b)) -> Maintains P m' -> Maintains P (match o with Some b => m b | None => m' end).
Proof. by destruct o. Qed.
#[export] Instance maintains_pair {A B C} (o : B * C) (m : B -> C -> st S A) :
  (forall b c, Maintains P (m b c)) -> Maintains P (let '(b, c) := o in m b c).
Proof. by destruct o. Qed.

Lemma maintains_smodify (g : S -> S) : (forall s, P s -> P (g s)) -> Maintains P (smodify g).
Proof. intros Hg s; apply Hg. Qed.

Lemma maintains_inv {A} (m : st S A) `{!Maintains P m} s s' r : m s = (s', r) -> P s -> P s'.
Proof. intros E Hs; specialize (maintains s Hs) as Hp; by rewrite E in Hp. Qed.

End maintains.

(** ** List lemmas on [Z] indices *)

Section zlist.
Context {A : Type}.
Implicit Types (l k : list A) (n m off : Z).

Lemma zlen_nil : zlen ([] : list A) = 0.
Proof. done. Qed.

Lemma zlen_cons x l : zlen (x :: l) = 1 + zlen l.
Proof. unfold zlen; simpl; lia. Qed.

Lemma zlen_nonneg l : 0 <= zlen l.
Proof. unfold zlen; lia. Qed.

Lemma zlen_app l k : zlen (l ++ k) = zlen l + zlen k.
Proof. unfold zlen; rewrite length_app; lia. Qed.

Lemma zlen_zero l : zlen l = 0 -> l = [].
Proof. unfold zlen; destruct l; simpl; [done | lia]. Qed.

Lemma zlen_pos l : l <> [] -> 0 < zlen l.
Proof. unfold zlen; destruct l; simpl; [done | lia]. Qed.

Lemma zlen_take n l : 0 <= n <= zlen l -> zlen (ztake n l) = n.
Proof. unfold zlen, ztake; rewrite length_take; lia. Qed.

Lemma zlen_take_le n l : zlen (ztake n l) <= zlen l.
Proof. unfold zlen, ztake; rewrite length_take; lia. Qed.

Lemma zlen_drop n l : 0 <= n <= zlen l -> zlen (zdrop n l) = zlen l - n.
Proof. unfold zlen, zdrop; rewrite length_drop; lia. Qed.

Lemma zlen_repeat n (x : A) : 0 <= n -> zlen (zrepeat n x) = n.
Proof. unfold zlen, zrepeat; rewrite length_replicate; lia. Qed.

Lemma ztake_drop n l : ztake n l ++ zdrop n l = l.
Proof. apply take_drop. Qed.

Lemma ztake_app_exact l k n : n = zlen l -> ztake n (l ++ k) = l.
Proof. intros ->; unfold ztake, zlen; rewrite Nat2Z.id; apply take_app_length. Qed.

Lemma zdrop_app_exact l k n : n = zlen l -> zdrop n (l ++ k) = k.
Proof. intros ->; unfold zdrop, zlen; rewrite Nat2Z.id; apply drop_app_length. Qed.

Lemma ztake_app_le l k n : n <= zlen l -> ztake n (l ++ k) = ztake n l.
Proof. unfold zlen, ztake; intros; rewrite take_app_le; [done | lia]. Qed.

Lemma ztake_all n l : zlen l <= n -> ztake n l = l.
Proof. unfold ztake, zlen; intros; apply take_ge; lia. Qed.

Lemma ztake_0 l : ztake 0 l = [].
Proof. done. Qed.

Lemma zdrop_0 l : zdrop 0 l = l.
Proof. done. Qed.

Lemma zdrop_all n l : zlen l <= n -> zdrop n l = [].
Proof. unfold zdrop, zlen; intros; apply drop_ge; lia. Qed.

Lemma zdrop_zdrop n m l : 0 <= n -> 0 <= m -> zdrop n (zdrop m l) = zdrop (m + n) l.
Proof. intros; unfold zdrop; rewrite drop_drop; f_equal; lia. Qed.

Lemma zdrop_app_ge l k n : zlen l <= n -> zdrop n (l ++ k) = zdrop (n - zlen l) k.
Proof. unfold zlen, zdrop; intros; rewrite drop_app_ge; [f_equal|]; lia. Qed.

Lemma zget_Some_range l n x : zget l n = Some x -> 0 <= n < zlen l.
Proof.
  unfold zget, zlen; case Z.ltb_spec; [done|]; intros ? H%lookup_lt_Some; lia.
Qed.

Lemma zget_in_range l n : 0 <= n < zlen l -> exists x, zget l n = Some x.
Proof.
  unfold zget, zlen; intros ?; case Z.ltb_spec; [lia|]; intros _.
  apply lookup_lt_is_Some; lia.
Qed.

Lemma zget_app_l l k n : n < zlen l -> zget (l ++ k) n = zget l n.
Proof.
  unfold zget, zlen; intros; case Z.ltb_spec; [done|]; intros; apply lookup_app_l; lia.
Qed.

Lemma zget_app_r l k n : zlen l <= n -> zget (l ++ k) n = zget k (n - zlen l).
Proof.
  unfold zget, zlen; intros; case Z.ltb_spec; [lia|]; intros; case Z.ltb_spec; [lia|]; intros.
  rewrite lookup_app_r by lia; f_equal; lia.
Qed.

Lemma zget_0 x l : zget (x :: l) 0 = Some x.
Proof. done. Qed.

Lemma zget_drop l n m : 0 <= n -> 0 <= m -> zget (zdrop n l) m = zget l (n + m).
Proof.
  unfold zget, zdrop; intros; case Z.ltb_spec; [lia|]; intros; case Z.ltb_spec; [lia|]; intros.
  rewrite lookup_drop; f_equal; lia.
Qed.

Lemma zslice_Some off n l :
  0 <= off -> 0 <= n -> off + n <= zlen l -> zslice off n l = Some (ztake n (zdrop off l)).
Proof. intros; unfold zslice; by rewrite decide_True by lia. Qed.

Lemma zslice_inv off n l d :
  zslice off n l = Some d ->
  0 <= off /\ 0 <= n /\ off + n <= zlen l /\ zlen d = n /\ d = ztake n (zdrop off l).
Proof.
  unfold zslice; case_decide; [|done]; intros [= <-].
  rewrite zlen_take; [by split_and!; try lia|]; rewrite zlen_drop; lia.
Qed.

Lemma zslice_app off n l k d :
  off = zlen l -> n = zlen d -> zslice off n (l ++ d ++ k) = Some d.
Proof.
  intros -> ->; rewrite zslice_Some.
  - by rewrite zdrop_app_exact, ztake_app_exact.
  - apply zlen_nonneg.
  - apply zlen_nonneg.
  - rewrite !zlen_app; pose proof (zlen_nonneg k); lia.
Qed.

Lemma zslice_prefix n d k : n = zlen d -> zslice 0 n (d ++ k) = Some d.
Proof. intros; by apply (zslice_app 0 n [] k d). Qed.

Lemma zblit_inv off d l r :
  zblit off d l = Some r ->
  0 <= off /\ off + zlen d <= zlen l /\ zlen r = zlen l /\
  r = ztake off l ++ d ++ zdrop (off + zlen d) l.
Proof.
  unfold zblit; case_decide; [|done]; intros [= <-]; pose proof (zlen_nonneg d).
  rewrite !zlen_app, zlen_take, zlen_drop by lia. repeat split; lia.
Qed.

Lemma zblit_Some off d l :
  0 <= off -> off + zlen d <= zlen l ->
  zblit off d l = Some (ztake off l ++ d ++ zdrop (off + zlen d) l).
Proof. intros; unfold zblit; by rewrite decide_True by lia. Qed.

Lemma zblit_head d l :
  zlen d <= zlen l -> zblit 0 d l = Some (d ++ zdrop (zlen d) l).
Proof. intros; rewrite zblit_Some by lia; by rewrite ztake_0. Qed.

(** Reading back what [memcpy] wrote. *)
Lemma zslice_zblit_same off d l r n :
  zblit off d l = Some r -> n = zlen d -> zslice off n r = Some d.
Proof.
  intros (? & ? & ? & ->)%zblit_inv ->; apply zslice_app; [|done].
  pose proof (zlen_nonneg d); rewrite zlen_take; lia.
Qed.

(** A read of a range before the written one sees the old contents. *)
Lemma zslice_zblit_before off d l r o n :
  zblit off d l = Some r -> o + n <= off -> zslice o n r = zslice o n l.
Proof.
  intros (? & ? & Hlen & ->)%zblit_inv ?; unfold zslice; rewrite Hlen.
  case_decide; [|done]; f_equal; pose proof (zlen_nonneg d).
  unfold ztake, zdrop; rewrite !take_drop_commute; f_equal.
  rewrite take_app_le by (rewrite length_take; unfold zlen in *; lia).
  rewrite take_take; f_equal; lia.
Qed.

(** A read of a range behind the written one sees the old contents. *)
Lemma zslice_zblit_after off d l r o n :
  zblit off d l = Some r -> off + zlen d <= o -> zslice o n r = zslice o n l.
Proof.
  intros (? & ? & Hlen & ->)%zblit_inv ?; unfold zslice; rewrite Hlen.
  case_decide; [|done]; do 2 f_equal; pose proof (zlen_nonneg d).
  assert (zlen (ztake off l) = off) by (apply zlen_take; lia).
  rewrite zdrop_app_ge by lia; rewrite zdrop_app_ge by lia.
  rewrite zdrop_zdrop by lia; f_equal; lia.
Qed.

End zlist.

Lemma is_bytes_app l k : is_bytes (l ++ k) <-> is_bytes l /\ is_bytes k.
Proof. apply Forall_app. Qed.

Lemma is_bytes_take n l : is_bytes l -> is_bytes (ztake n l).
Proof. apply Forall_take. Qed.

Lemma is_bytes_drop n l : is_bytes l -> is_bytes (zdrop n l).
Proof. apply Forall_drop. Qed.

Lemma is_bytes_bs s : is_bytes (bs s).
Proof.
  unfold is_bytes; induction s as [|a s IH]; simpl; constructor; [|done].
  unfold is_byte; pose proof (Ascii.N_ascii_bounded a); lia.
Qed.

(** ** Record updates

    [setter eta p] builds the update of the field [p] of a record from the record's expansion
    [eta r = {| ...; p := p r; ... |}]. *)
Ltac setter eta p :=
  let f := fresh "f" in
  let r := fresh "r" in
  intros f r;
  let t := eval cbv beta delta [eta] in (eta r) in
  let t := eval pattern (p r) in t in
  match t with ?F _ => let u := eval cbv beta in (F (f (p r))) in exact u end.

(** ** Automation of the development *)

Create HintDb snova discriminated.
Create Rewrite HintDb zlen.
#[export] Hint Resolve zlen_nonneg is_bytes_take is_bytes_drop is_bytes_bs : snova.
#[export] Hint Rewrite @zlen_nil @zlen_cons @zlen_app : zlen.

(** Normalises lengths and closes the linear goals on them. *)
Ltac zlen_solve :=
  autorewrite with zlen in *;
  repeat match goal with
  | |- context [zlen ?l] =>
      lazymatch goal with H : 0 <= zlen l |- _ => fail | _ => pose proof (zlen_nonneg l) end
  | _ : context [zlen ?l] |- _ =>
      lazymatch goal with H : 0 <= zlen l |- _ => fail | _ => pose proof (zlen_nonneg l) end
  end;
  lia.

(** Case analysis on the boolean comparisons of the program's conditions. *)
Ltac bool_cases :=
  repeat match goal with
  | |- context [?a <? ?b] => destruct (Z.ltb_spec a b)
  | |- context [?a <=? ?b] => destruct (Z.leb_spec a b)
  | |- context [?a =? ?b] => destruct (Z.eqb_spec a b)
  end.

(** Resolves a boolean comparison whose value follows by arithmetic. *)
Ltac bool_true c := replace c with true by (symmetry; (apply Z.ltb_lt || apply Z.leb_le || apply Z.eqb_eq); lia).
Ltac bool_false c := replace c with false by (symmetry; (apply Z.ltb_ge || apply Z.leb_gt || apply Z.eqb_neq); lia).
