(* ===== verification/Endian.v ===== *)
(** * Byte order (snova/util/endian.h)

    [be_bytes]/[be_val] are the network byte order; [Platform] is the machine the program runs on:
    the object representation of an unsigned integer, as [memcpy] copies it, absl's [ghton*] and
    [gntoh*] (absl/base/internal/endian.h), and the layout of the one-byte bit field of
    [MuxFlags].  [PlatformOk] states what the program relies on; it is discharged for a
    little-endian and for a big-endian machine. *)

From S2P Require Import Prelude.

(** ** Network byte order *)

Fixpoint le_bytes (n : nat) (v : Z) : bytes :=
  match n with
  | O => []
  | S n => v mod 256 :: le_bytes n (v / 256)
  end.

Fixpoint le_val (l : bytes) : Z :=
  match l with
  | [] => 0
  | b :: l => b + 256 * le_val l
  end.

Definition be_bytes (n : nat) (v : Z) : bytes := rev (le_bytes n v).
Definition be_val (l : bytes) : Z := le_val (rev l).

#[global] Arguments be_bytes : simpl never.
#[global] Arguments be_val : simpl never.

Lemma pow_256_succ n : 256 ^ Z.of_nat (S n) = 256 * 256 ^ Z.of_nat n.
Proof. rewrite Nat2Z.inj_succ, Z.pow_succ_r; lia. Qed.

Lemma pow_256_bits n : 256 ^ Z.of_nat n = 2 ^ (8 * Z.of_nat n).
Proof. rewrite Z.pow_mul_r; [done | lia..]. Qed.

Lemma length_le_bytes n v : length (le_bytes n v) = n.
Proof. revert v; induction n as [|n IH]; intros v; simpl; [done | by rewrite IH]. Qed.

Lemma zlen_be_bytes n v : zlen (be_bytes n v) = Z.of_nat n.
Proof. unfold zlen, be_bytes; by rewrite length_rev, length_le_bytes. Qed.

Lemma is_bytes_le_bytes n v : is_bytes (le_bytes n v).
Proof.
  unfold is_bytes; revert v; induction n as [|n IH]; intros v; simpl; constructor; [|apply IH].
  unfold is_byte; apply Z.mod_pos_bound; lia.
Qed.

Lemma is_bytes_be_bytes n v : is_bytes (be_bytes n v).
Proof. unfold is_bytes, be_bytes; apply Forall_rev, is_bytes_le_bytes. Qed.

Lemma le_val_le_bytes n v : le_val (le_bytes n v) = v mod 256 ^ Z.of_nat n.
Proof.
  revert v; induction n as [|n IH]; intros v; [by rewrite Z.mod_1_r|].
  simpl le_bytes; simpl le_val; rewrite IH, pow_256_succ.
  rewrite Z.rem_mul_r; lia.
Qed.

Lemma le_val_range l : is_bytes l -> 0 <= le_val l < 256 ^ Z.of_nat (length l).
Proof.
  unfold is_bytes; induction 1 as [|b l Hb _ IH]; [simpl; lia|].
  simpl le_val; simpl length; rewrite pow_256_succ; unfold is_byte in Hb; lia.
Qed.

Lemma le_bytes_le_val l : is_bytes l -> le_bytes (length l) (le_val l) = l.
Proof.
  unfold is_bytes; induction 1 as [|b l Hb _ IH]; [done|]; simpl; unfold is_byte in Hb.
  f_equal.
  - rewrite Z.mul_comm, Z.mod_add by lia; by apply Z.mod_small.
  - rewrite Z.mul_comm, Z.div_add by lia; by rewrite Z.div_small, Z.add_0_l by lia.
Qed.

Lemma be_val_be_bytes n v : fits (8 * Z.of_nat n) v -> be_val (be_bytes n v) = v.
Proof.
  intros; unfold be_val, be_bytes; rewrite rev_involutive, le_val_le_bytes, pow_256_bits.
  by apply wrap_small.
Qed.

Lemma be_bytes_be_val l n : is_bytes l -> zlen l = Z.of_nat n -> be_bytes n (be_val l) = l.
Proof.
  intros Hl Hn; unfold be_bytes, be_val.
  replace n with (length (rev l)) by (rewrite length_rev; unfold zlen in Hn; lia).
  rewrite le_bytes_le_val; [apply rev_involutive | by apply Forall_rev].
Qed.

Lemma be_val_range l n : is_bytes l -> zlen l = n -> fits (8 * n) (be_val l).
Proof.
  intros Hl <-; unfold fits, be_val, zlen; rewrite <- pow_256_bits, <- length_rev.
  apply le_val_range; by apply Forall_rev.
Qed.

(** ** The platform *)

Record MuxFlags := { body_no_encrypt : Z; reserved : Z }.

Definition MuxFlags_wf (f : MuxFlags) : Prop := fits 1 (body_no_encrypt f) /\ fits 7 (reserved f).

#[global] Instance MuxFlags_eq_dec : EqDecision MuxFlags.
Proof. solve_decision. Defined.

Class Platform := {
  (** object representation of an [n]-byte unsigned integer *)
  mem_store : nat -> Z -> bytes;
  mem_load : bytes -> Z;
  (** absl::ghtons / ghtonl / ghtonll and gntohs / gntohl / gntohll, by operand size *)
  absl_ghton : nat -> Z -> Z;
  absl_gntoh : nat -> Z -> Z;
  (** the byte of a [MuxFlags] object and back *)
  flags_store : MuxFlags -> Z;
  flags_load : Z -> MuxFlags
}.

Class PlatformOk `{Platform} : Prop := {
  ghton_network : forall n v, fits (8 * Z.of_nat n) v -> mem_store n (absl_ghton n v) = be_bytes n v;
  gntoh_network : forall n l, is_bytes l -> zlen l = Z.of_nat n -> absl_gntoh n (mem_load l) = be_val l;
  flags_store_byte : forall f, MuxFlags_wf f -> is_byte (flags_store f);
  flags_load_store : forall f, MuxFlags_wf f -> flags_load (flags_store f) = f;
  flags_load_wf : forall b, is_byte b -> MuxFlags_wf (flags_load b)
}.

(** The two templates dispatch on the operand type, one of the three unsigned sizes. *)
Definition native_to_big `{Platform} (n : nat) (v : Z) : Z := absl_ghton n v.
Definition big_to_native `{Platform} (n : nat) (v : Z) : Z := absl_gntoh n v.

(** ** The two machines *)

Definition bswap (n : nat) (v : Z) : Z := le_val (rev (le_bytes n v)).

Definition little_endian : Platform := {|
  mem_store := le_bytes;
  mem_load := le_val;
  absl_ghton := bswap;
  absl_gntoh := bswap;
  flags_store f := body_no_encrypt f + 2 * reserved f;
  flags_load b := {| body_no_encrypt := b mod 2; reserved := b / 2 |}
|}.

Definition big_endian : Platform := {|
  mem_store := be_bytes;
  mem_load := be_val;
  absl_ghton _ v := v;
  absl_gntoh _ v := v;
  flags_store f := 128 * body_no_encrypt f + reserved f;
  flags_load b := {| body_no_encrypt := b / 128; reserved := b mod 128 |}
|}.

Lemma little_endian_ok : @PlatformOk little_endian.
Proof.
  split; cbn -[Z.of_nat Z.mul Z.div Z.modulo].
  - intros n v _; unfold bswap, be_bytes.
    replace n with (length (rev (le_bytes n v))) at 1 by (by rewrite length_rev, length_le_bytes).
    apply le_bytes_le_val, Forall_rev, is_bytes_le_bytes.
  - intros n l Hl Hn; unfold bswap, be_val.
    replace n with (length l) by (unfold zlen in Hn; lia).
    by rewrite le_bytes_le_val.
  - unfold MuxFlags_wf, fits, is_byte; intros; lia.
  - unfold MuxFlags_wf, fits; intros [a b] [? ?]; simpl in *; f_equal; Z.to_euclidean_division_equations; lia.
  - unfold MuxFlags_wf, fits, is_byte; simpl; intros; Z.to_euclidean_division_equations; lia.
Qed.

Lemma big_endian_ok : @PlatformOk big_endian.
Proof.
  split; cbn -[Z.of_nat Z.mul Z.div Z.modulo].
  - done.
  - done.
  - unfold MuxFlags_wf, fits, is_byte; intros; lia.
  - unfold MuxFlags_wf, fits; intros [a b] [? ?]; simpl in *; f_equal; Z.to_euclidean_division_equations; lia.
  - unfold MuxFlags_wf, fits, is_byte; simpl; intros; Z.to_euclidean_division_equations; lia.
Qed.
