(* ===== verification/IoBuf.v ===== *)
(** * Buffer pool (snova/io/io.h, snova/io/io.cc)

    The constants of io.h and the pool of [IOBuf]s behind [get_iobuf]: a stack of released
    vectors and three counters that the statistics report.  A vector is represented by its size
    and its capacity; how far [std::vector::resize] grows the capacity is left to the standard
    library ([vec_grow], at least the requested size). *)

From S2P Require Import Prelude.

Definition kMaxChunkSize : Z := 8192.
Definition kReservedBufferSize : Z := 256.

Record IOBuf := { buf_size : Z; buf_capacity : Z }.

#[global] Instance IOBuf_eq_dec : EqDecision IOBuf.
Proof. solve_decision. Defined.

Class VectorGrowth := {
  vec_grow : Z -> Z -> Z;
  vec_grow_ge : forall cap n, n <= vec_grow cap n
}.

Definition vec_empty : IOBuf := {| buf_size := 0; buf_capacity := 0 |}.

Definition vec_resize `{VectorGrowth} (v : IOBuf) (n : Z) : IOBuf :=
  {| buf_size := n;
     buf_capacity := if buf_capacity v <? n then vec_grow (buf_capacity v) n else buf_capacity v |}.

(** The file-level variables of io.cc. *)
Record IOBufPool := {
  g_io_bufs : list IOBuf;
  g_iobuf_pool_bytes : Z;
  g_active_iobuf_bytes : Z;
  g_active_iobuf_num : Z
}.

Definition pool_init : IOBufPool :=
  {| g_io_bufs := []; g_iobuf_pool_bytes := 0; g_active_iobuf_bytes := 0; g_active_iobuf_num := 0 |}.

(** [IOBufDeleter::operator()]. *)
Definition IOBufDeleter (g_iobuf_max_pool_size : Z) (st : IOBufPool) (v : IOBuf) : IOBufPool :=
  let num := wrap 32 (g_active_iobuf_num st - 1) in
  let active := wrap 64 (g_active_iobuf_bytes st - buf_capacity v) in
  if zlen (g_io_bufs st) <? g_iobuf_max_pool_size then
    {| g_io_bufs := v :: g_io_bufs st;
       g_iobuf_pool_bytes := wrap 64 (g_iobuf_pool_bytes st + buf_capacity v);
       g_active_iobuf_bytes := active; g_active_iobuf_num := num |}
  else
    {| g_io_bufs := g_io_bufs st; g_iobuf_pool_bytes := g_iobuf_pool_bytes st;
       g_active_iobuf_bytes := active; g_active_iobuf_num := num |}.

Definition get_raw_iobuf `{VectorGrowth} (st : IOBufPool) (n : Z) : IOBufPool * IOBuf :=
  let '(p, bufs, pool_bytes) :=
    match g_io_bufs st with
    | [] => (vec_empty, [], g_iobuf_pool_bytes st)
    | p :: rest => (p, rest, wrap 64 (g_iobuf_pool_bytes st - buf_capacity p))
    end in
  let n := if n <? kMaxChunkSize + kReservedBufferSize
           then kMaxChunkSize + kReservedBufferSize else n in
  let p := if buf_size p <? n then vec_resize p n else p in
  ({| g_io_bufs := bufs; g_iobuf_pool_bytes := pool_bytes;
      g_active_iobuf_bytes := wrap 64 (g_active_iobuf_bytes st + buf_capacity p);
      g_active_iobuf_num := wrap 32 (g_active_iobuf_num st + 1) |}, p).

(** [get_iobuf] and [get_shared_iobuf] wrap the raw pointer in a smart pointer with the deleter, one
    that has a single owner and one that is shared. *)
Definition get_iobuf `{VectorGrowth} (st : IOBufPool) (n : Z) : IOBufPool * IOBuf := get_raw_iobuf st n.
Definition get_shared_iobuf `{VectorGrowth} (st : IOBufPool) (n : Z) : IOBufPool * IOBuf := get_raw_iobuf st n.

(** ** The pool in use

    A state of the pool with the buffers that are out: a buffer is taken in one of the two ways, or
    one that is out is released (a shared one with its last owner). *)

Section pool.
Context `{VectorGrowth} (max_pool : Z).

Inductive pool_step : IOBufPool * list IOBuf -> IOBufPool * list IOBuf -> Prop :=
| pool_get st live n :
    pool_step (st, live) ((get_iobuf st n).1, (get_iobuf st n).2 :: live)
| pool_get_shared st live n :
    pool_step (st, live) ((get_shared_iobuf st n).1, (get_shared_iobuf st n).2 :: live)
| pool_release st l1 b l2 :
    pool_step (st, l1 ++ b :: l2) (IOBufDeleter max_pool st b, l1 ++ l2).

Definition caps (l : list IOBuf) : Z := zsum (buf_capacity <$> l).

Lemma caps_cons b l : caps (b :: l) = buf_capacity b + caps l.
Proof. done. Qed.

Lemma caps_app l k : caps (l ++ k) = caps l + caps k.
Proof.
  induction l as [|b l IH]; [done|].
  rewrite <- app_comm_cons, !caps_cons, IH; lia.
Qed.

Definition pool_inv (s : IOBufPool * list IOBuf) : Prop :=
  let '(st, live) := s in
  zlen (g_io_bufs st) <= max_pool /\
  g_iobuf_pool_bytes st = wrap 64 (caps (g_io_bufs st)) /\
  g_active_iobuf_bytes st = wrap 64 (caps live) /\
  g_active_iobuf_num st = wrap 32 (zlen live) /\
  Forall (fun b => kMaxChunkSize + kReservedBufferSize <= buf_size b) live.

Lemma wrap_add_l w a b : wrap w (wrap w a + b) = wrap w (a + b).
Proof. unfold wrap; by rewrite Zplus_mod_idemp_l. Qed.

Lemma wrap_sub_l w a b : wrap w (wrap w a - b) = wrap w (a - b).
Proof. unfold wrap; by rewrite Zminus_mod_idemp_l. Qed.

Lemma get_iobuf_size st n :
  Z.max n (kMaxChunkSize + kReservedBufferSize) <= buf_size (get_iobuf st n).2.
Proof.
  unfold get_iobuf, get_raw_iobuf.
  set (m := if n <? _ then _ else n).
  assert (m = Z.max n (kMaxChunkSize + kReservedBufferSize)) as <- by (subst m; bool_cases; lia).
  clearbody m; destruct (g_io_bufs st); unfold vec_resize; bool_cases; simpl in *; lia.
Qed.

Lemma pool_get_inv st live n :
  pool_inv (st, live) -> pool_inv ((get_raw_iobuf st n).1, (get_raw_iobuf st n).2 :: live).
Proof.
  intros (Hmax & Hpool & Hact & Hnum & Hlive); pose proof (get_iobuf_size st n) as Hsz.
  unfold pool_inv; revert Hsz; unfold get_iobuf, get_raw_iobuf.
  destruct (g_io_bufs st) as [|p rest] eqn:E; intros Hsz; rewrite Hpool, Hact, Hnum;
    simpl in *; rewrite ?wrap_add_l, ?wrap_sub_l; rewrite ?caps_cons in *.
  - split_and!; [done | done | f_equal; lia | f_equal; rewrite zlen_cons; lia |].
    constructor; [simpl in Hsz; lia | done].
  - split_and!; [rewrite zlen_cons in Hmax; lia | f_equal; lia | f_equal; lia |
      f_equal; rewrite zlen_cons; lia |].
    constructor; [simpl in Hsz; lia | done].
Qed.

Lemma pool_step_inv s s' : pool_inv s -> pool_step s s' -> pool_inv s'.
Proof.
  intros Hinv Hstep; destruct Hstep as [st live n | st live n | st l1 b l2]; [by apply pool_get_inv..|].
  destruct Hinv as (Hmax & Hpool & Hact & Hnum & Hlive).
  unfold pool_inv, IOBufDeleter; rewrite Hpool, Hact, Hnum.
  apply Forall_app in Hlive as [? [? ?]%Forall_cons_1].
  assert (Forall (fun b => kMaxChunkSize + kReservedBufferSize <= buf_size b) (l1 ++ l2))
    by (by apply Forall_app).
  rewrite caps_app, caps_cons, zlen_app, zlen_cons.
  case Z.ltb_spec; intros; simpl; rewrite ?wrap_add_l, ?wrap_sub_l, ?caps_cons;
    rewrite ?zlen_cons, ?caps_app, ?zlen_app;
    split_and!; try done; try lia; f_equal; lia.
Qed.

End pool.

(** ** Theorems *)

(** A growth policy of the kind the standard libraries use. *)
#[global] Instance doubling : VectorGrowth := {| vec_grow cap n := Z.max n (2 * cap); vec_grow_ge cap n := Z.le_max_l n (2 * cap) |}.

(** C36. Whatever the sequence of takes and releases, the pool never holds more than
    [g_iobuf_max_pool_size] buffers, the three counters are exactly the bytes in the pool, the bytes
    out and the number of buffers out (at their widths), and every buffer handed out has room for a
    chunk and the reserve, whatever size was asked. *)
Theorem iobuf_accounting `{VectorGrowth} max_pool s :
  0 <= max_pool -> rtc (pool_step max_pool) (pool_init, []) s -> pool_inv max_pool s.
Proof.
  intros Hmax Hrtc.
  assert (pool_inv max_pool (pool_init, [])) as Hinit by (by split_and!).
  remember (pool_init, []) as s0 eqn:E; clear E.
  induction Hrtc as [|s1 s2 s3 Hstep _ IH]; [done | eauto using pool_step_inv].
Qed.

Lemma iobuf_accounting_witness :
  pool_inv 64 (IOBufDeleter 64 (get_iobuf pool_init 100).1 (get_iobuf pool_init 100).2, []).
Proof.
  apply (iobuf_accounting 64); [lia|].
  eapply rtc_l; [apply (pool_get 64 pool_init [] 100)|].
  eapply rtc_l; [apply (pool_release 64 _ [] _ [])|]. apply rtc_refl.
Defined.

(** A buffer that is resized while it is out, as [read_until] does when a request head does
    not fit, is released with another capacity than it was taken with: the counter of active bytes
    is off by the growth, and with no buffer out it stands near 2^64 instead of at 0. *)
Theorem resized_buffer_corrupts_counter `{VectorGrowth} max_pool n :
  let st := (get_iobuf pool_init n).1 in
  let b := (get_iobuf pool_init n).2 in
  let b' := vec_resize b (2 * buf_size b) in
  buf_capacity b < buf_capacity b' -> buf_capacity b' < 2 ^ 64 -> 0 <= buf_capacity b ->
  g_active_iobuf_num (IOBufDeleter max_pool st b') = 0 /\
  g_active_iobuf_bytes (IOBufDeleter max_pool st b') = 2 ^ 64 - (buf_capacity b' - buf_capacity b).
Proof.
  intros st b b' Hlt Hmax Hpos.
  assert (g_active_iobuf_bytes st = buf_capacity b) as E1.
  { subst st b; unfold get_iobuf, get_raw_iobuf; simpl; rewrite wrap_small; [done|].
    revert Hlt Hmax Hpos; subst b'; unfold get_iobuf, get_raw_iobuf; simpl; unfold fits; lia. }
  assert (g_active_iobuf_num st = 1) as E2 by done.
  unfold IOBufDeleter; rewrite E1, E2; clearbody b st b'.
  assert (wrap 64 (buf_capacity b - buf_capacity b') = 2 ^ 64 - (buf_capacity b' - buf_capacity b)) as E3.
  { unfold wrap; symmetry; apply Z.mod_unique with (-1); lia. }
  case Z.ltb_spec; intros; simpl; by rewrite E3.
Qed.

Lemma resized_buffer_corrupts_counter_witness :
  let st := (get_iobuf pool_init 8192).1 in
  let b := (get_iobuf pool_init 8192).2 in
  g_active_iobuf_bytes (IOBufDeleter 64 st (vec_resize b (2 * buf_size b))) = 2 ^ 64 - 8448.
Proof.
  destruct (resized_buffer_corrupts_counter 64 8192) as [_ E];
    [vm_compute; done | vm_compute; done | vm_compute; done | exact E].
Defined.
