(* ===== verification/PbMessages.v ===== *)
(** * The protobuf messages (snova/mux/mux_event.pb.h) and the nanopb interface

    The structs, the field lists and the size bounds of the generated header; the nanopb runtime
    ([pb_encode_delimited], [pb_decode_delimited]) is not part of the repository and is the
    interface [Nanopb], with what its documentation promises in [NanopbOk].  A small codec
    ([FlatCodec]) discharges the interface. *)

From S2P Require Import Prelude Endian.

(** ** Field descriptors and values

    The row of a [*_FIELDLIST] macro: the type of the field; the tag is the position. *)

Inductive pb_field :=
| PB_BOOL
| PB_INT32
| PB_UINT32
| PB_UINT64
| PB_STRING (max_size : Z).

Inductive pb_value :=
| VBool (b : bool)
| VInt (z : Z)
| VStr (s : bytes).

#[global] Instance pb_value_eq_dec : EqDecision pb_value.
Proof. solve_decision. Defined.

(** The contents of a [char\[max\]]: the bytes before the terminator. *)
Definition cstring_wf (max : Z) (s : bytes) : Prop :=
  zlen s < max /\ Forall (fun b => 0 < b < 256) s.

#[global] Instance cstring_wf_dec max s : Decision (cstring_wf max s).
Proof. unfold cstring_wf; apply _. Defined.

(** What [snprintf(buf, max, "%s", s.c_str())] leaves in a [char\[max\]]. *)
Fixpoint c_str (s : bytes) : bytes :=
  match s with
  | [] => []
  | b :: s => if b =? 0 then [] else b :: c_str s
  end.
Definition snprintf_s (max : Z) (s : bytes) : bytes := ztake (max - 1) (c_str s).

Lemma c_str_nonzero s : is_bytes s -> Forall (fun b => 0 < b < 256) (c_str s).
Proof.
  induction 1 as [|b s Hb Hs IH]; simpl; [constructor|]; case Z.eqb_spec; constructor; [|done].
  unfold is_byte in Hb; lia.
Qed.

Lemma snprintf_s_wf max s : 0 < max -> is_bytes s -> cstring_wf max (snprintf_s max s).
Proof.
  intros Hm Hs; split; [|by apply Forall_take, c_str_nonzero].
  unfold snprintf_s, zlen, ztake; rewrite length_take; lia.
Qed.

(** A string without zero bytes that fits is kept. *)
Lemma snprintf_s_id max s : cstring_wf max s -> snprintf_s max s = s.
Proof.
  intros [Hl Hs]; unfold snprintf_s.
  assert (c_str s = s) as ->.
  { clear Hl; induction Hs as [|b s Hb Hs IH]; simpl; [done|]; bool_false (b =? 0); by rewrite IH. }
  apply ztake_all; lia.
Qed.

Definition pb_field_ok (f : pb_field) (v : pb_value) : Prop :=
  match f, v with
  | PB_BOOL, VBool _ => True
  | PB_INT32, VInt z => - 2 ^ 31 <= z < 2 ^ 31
  | PB_UINT32, VInt z => fits 32 z
  | PB_UINT64, VInt z => fits 64 z
  | PB_STRING max, VStr s => cstring_wf max s
  | _, _ => False
  end.

Definition pb_conforms (d : list pb_field) (vs : list pb_value) : Prop := Forall2 pb_field_ok d vs.

#[global] Instance pb_field_ok_dec f v : Decision (pb_field_ok f v).
Proof. destruct f, v; simpl; apply _. Defined.
#[global] Instance pb_conforms_dec d vs : Decision (pb_conforms d vs).
Proof. unfold pb_conforms; apply _. Defined.

(** Largest wire size of a field: tag byte, then a varint or a length and the characters. *)
Definition pb_field_max (f : pb_field) : Z :=
  match f with
  | PB_BOOL => 1 + 1
  | PB_INT32 => 1 + 10
  | PB_UINT32 => 1 + 5
  | PB_UINT64 => 1 + 10
  | PB_STRING max => 1 + 2 + (max - 1)
  end.
Definition pb_max (d : list pb_field) : Z := zsum (pb_field_max <$> d).

(** ** The messages *)

Record snova_AuthRequest := {
  auth_user : bytes; auth_client_id : Z; is_entry : bool; is_exit : bool; is_middle : bool
}.
Record snova_AuthResponse := { authres_success : bool; iv : Z }.
Record snova_CommonResponse := { common_success : bool; common_errc : Z; reason : bytes }.
Record snova_StreamOpenRequest := {
  remote_host : bytes; remote_port : Z; is_tcp : bool; is_tls : bool
}.
Record snova_TunnelCloseRequest := { close_tunnel_id : Z }.
Record snova_TunnelOpenRequest := {
  local_host : bytes; local_port : Z; tunnel_remote_port : Z; tunnel_is_tcp : bool
}.
Record snova_TunnelOpenResponse := {
  tunnel_success : bool; tunnel_id : Z; tunnel_errc : Z
}.

(** A message type: its field list, its fields in order and the struct they make. *)
Class PbMessage (M : Type) := {
  pb_fields : list pb_field;
  pb_values : M -> list pb_value;
  pb_struct : list pb_value -> option M;
  init_default : M
}.
Arguments pb_fields M {_}.

Class PbMessageOk (M : Type) `{PbMessage M} : Prop :=
  pb_struct_values : forall m, pb_struct (pb_values m) = Some m.

Definition pb_wf {M} `{PbMessage M} (m : M) : Prop := pb_conforms (pb_fields M) (pb_values m).

#[global] Instance pb_wf_dec {M} `{PbMessage M} (m : M) : Decision (pb_wf m).
Proof. unfold pb_wf; apply _. Defined.

#[export] Instance snova_AuthRequest_msg : PbMessage snova_AuthRequest := {|
  pb_fields := [PB_STRING 256; PB_UINT64; PB_BOOL; PB_BOOL; PB_BOOL];
  pb_values m := [VStr (auth_user m); VInt (auth_client_id m); VBool (is_entry m);
                  VBool (is_exit m); VBool (is_middle m)];
  pb_struct vs := match vs with
    | [VStr u; VInt c; VBool e; VBool x; VBool d] =>
        Some {| auth_user := u; auth_client_id := c; is_entry := e; is_exit := x; is_middle := d |}
    | _ => None end;
  init_default := {| auth_user := []; auth_client_id := 0; is_entry := false;
                     is_exit := false; is_middle := false |}
|}.

#[export] Instance snova_AuthResponse_msg : PbMessage snova_AuthResponse := {|
  pb_fields := [PB_BOOL; PB_UINT64];
  pb_values m := [VBool (authres_success m); VInt (iv m)];
  pb_struct vs := match vs with
    | [VBool s; VInt i] => Some {| authres_success := s; iv := i |}
    | _ => None end;
  init_default := {| authres_success := false; iv := 0 |}
|}.

#[export] Instance snova_CommonResponse_msg : PbMessage snova_CommonResponse := {|
  pb_fields := [PB_BOOL; PB_INT32; PB_STRING 512];
  pb_values m := [VBool (common_success m); VInt (common_errc m); VStr (reason m)];
  pb_struct vs := match vs with
    | [VBool s; VInt e; VStr r] =>
        Some {| common_success := s; common_errc := e; reason := r |}
    | _ => None end;
  init_default := {| common_success := false; common_errc := 0; reason := [] |}
|}.

#[export] Instance snova_StreamOpenRequest_msg : PbMessage snova_StreamOpenRequest := {|
  pb_fields := [PB_STRING 512; PB_UINT32; PB_BOOL; PB_BOOL];
  pb_values m := [VStr (remote_host m); VInt (remote_port m); VBool (is_tcp m); VBool (is_tls m)];
  pb_struct vs := match vs with
    | [VStr h; VInt p; VBool t; VBool s] =>
        Some {| remote_host := h; remote_port := p; is_tcp := t; is_tls := s |}
    | _ => None end;
  init_default := {| remote_host := []; remote_port := 0; is_tcp := false; is_tls := false |}
|}.

#[export] Instance snova_TunnelOpenRequest_msg : PbMessage snova_TunnelOpenRequest := {|
  pb_fields := [PB_STRING 512; PB_UINT32; PB_UINT32; PB_BOOL];
  pb_values m := [VStr (local_host m); VInt (local_port m); VInt (tunnel_remote_port m);
                  VBool (tunnel_is_tcp m)];
  pb_struct vs := match vs with
    | [VStr h; VInt p; VInt r; VBool t] =>
        Some {| local_host := h; local_port := p; tunnel_remote_port := r; tunnel_is_tcp := t |}
    | _ => None end;
  init_default := {| local_host := []; local_port := 0; tunnel_remote_port := 0; tunnel_is_tcp := false |}
|}.

#[export] Instance snova_TunnelOpenResponse_msg : PbMessage snova_TunnelOpenResponse := {|
  pb_fields := [PB_BOOL; PB_UINT64; PB_INT32];
  pb_values m := [VBool (tunnel_success m); VInt (tunnel_id m); VInt (tunnel_errc m)];
  pb_struct vs := match vs with
    | [VBool s; VInt i; VInt e] =>
        Some {| tunnel_success := s; tunnel_id := i; tunnel_errc := e |}
    | _ => None end;
  init_default := {| tunnel_success := false; tunnel_id := 0; tunnel_errc := 0 |}
|}.

#[export] Instance snova_TunnelCloseRequest_msg : PbMessage snova_TunnelCloseRequest := {|
  pb_fields := [PB_UINT64];
  pb_values m := [VInt (close_tunnel_id m)];
  pb_struct vs := match vs with [VInt i] => Some {| close_tunnel_id := i |} | _ => None end;
  init_default := {| close_tunnel_id := 0 |}
|}.

#[export] Instance AuthRequest_pbok : PbMessageOk snova_AuthRequest.
Proof. by intros []. Qed.
#[export] Instance AuthResponse_pbok : PbMessageOk snova_AuthResponse.
Proof. by intros []. Qed.
#[export] Instance CommonResponse_pbok : PbMessageOk snova_CommonResponse.
Proof. by intros []. Qed.
#[export] Instance StreamOpenRequest_pbok : PbMessageOk snova_StreamOpenRequest.
Proof. by intros []. Qed.
#[export] Instance TunnelOpenRequest_pbok : PbMessageOk snova_TunnelOpenRequest.
Proof. by intros []. Qed.
#[export] Instance TunnelOpenResponse_pbok : PbMessageOk snova_TunnelOpenResponse.
Proof. by intros []. Qed.
#[export] Instance TunnelCloseRequest_pbok : PbMessageOk snova_TunnelCloseRequest.
Proof. by intros []. Qed.

(** The "maximum encoded size" constants of the header. *)
Definition snova_AuthRequest_size : Z := 275.
Definition snova_AuthResponse_size : Z := 13.
Definition snova_CommonResponse_size : Z := 527.
Definition snova_StreamOpenRequest_size : Z := 524.
Definition snova_TunnelCloseRequest_size : Z := 11.
Definition snova_TunnelOpenRequest_size : Z := 528.
Definition snova_TunnelOpenResponse_size : Z := 24.

(** ** The nanopb runtime

    Encoding fails when the output buffer ([cap] bytes) is too small; decoding reads one
    delimited message.  The delimiter of the messages of this program takes at most two bytes. *)

Class Nanopb := {
  pb_encode_delimited : list pb_field -> list pb_value -> Z -> option bytes;
  pb_decode_delimited : list pb_field -> bytes -> option (list pb_value)
}.

Class NanopbOk `{Nanopb} : Prop := {
  pb_encode_fits : forall d vs cap,
    pb_conforms d vs -> pb_max d < 16384 -> pb_max d + 2 <= cap ->
    exists b, pb_encode_delimited d vs cap = Some b;
  pb_encode_length : forall d vs cap b,
    pb_conforms d vs -> pb_max d < 16384 -> pb_encode_delimited d vs cap = Some b ->
    0 < zlen b <= pb_max d + 2 /\ is_bytes b;
  pb_decode_encode : forall d vs cap b,
    pb_conforms d vs -> pb_max d < 16384 -> pb_encode_delimited d vs cap = Some b ->
    pb_decode_delimited d b = Some vs
}.

(** ** A codec that meets the interface

    Fields one after the other behind a zero byte: booleans in one byte, integers in fixed width
    big endian, strings behind a two-byte length. *)

Module FlatCodec.

Definition put_field (v : pb_field * pb_value) : bytes :=
  match v with
  | (PB_BOOL, VBool b) => [if b then 1 else 0]
  | (PB_INT32, VInt z) => be_bytes 4 (wrap 32 z)
  | (PB_UINT32, VInt z) => be_bytes 4 z
  | (PB_UINT64, VInt z) => be_bytes 8 z
  | (PB_STRING _, VStr s) => be_bytes 2 (zlen s) ++ s
  | _ => []
  end.

Definition get_int (n : Z) (l : bytes) : option (Z * bytes) :=
  match zslice 0 n l with Some d => Some (be_val d, zdrop n l) | None => None end.

Definition sign32 (z : Z) : Z := if z <? 2 ^ 31 then z else z - 2 ^ 32.

Definition get_field (f : pb_field) (l : bytes) : option (pb_value * bytes) :=
  match f with
  | PB_BOOL => match l with b :: l => Some (VBool (b =? 1), l) | [] => None end
  | PB_INT32 => '(z, l) ← get_int 4 l; Some (VInt (sign32 z), l)
  | PB_UINT32 => '(z, l) ← get_int 4 l; Some (VInt z, l)
  | PB_UINT64 => '(z, l) ← get_int 8 l; Some (VInt z, l)
  | PB_STRING _ => '(n, l) ← get_int 2 l; s ← zslice 0 n l; Some (VStr s, zdrop n l)
  end.

Fixpoint get_fields (d : list pb_field) (l : bytes) : option (list pb_value) :=
  match d with
  | [] => Some []
  | f :: d => '(v, l) ← get_field f l; vs ← get_fields d l; Some (v :: vs)
  end.

Definition put_fields (d : list pb_field) (vs : list pb_value) : bytes :=
  concat (put_field <$> zip d vs).

Definition flat : Nanopb := {|
  pb_encode_delimited d vs cap :=
    let b := 0 :: put_fields d vs in if zlen b <=? cap then Some b else None;
  pb_decode_delimited d l := match l with _ :: l => get_fields d l | [] => None end
|}.

Lemma get_int_app n z l :
  fits (8 * Z.of_nat n) z -> get_int (Z.of_nat n) (be_bytes n z ++ l) = Some (z, l).
Proof.
  intros; unfold get_int; rewrite zslice_prefix by (by rewrite zlen_be_bytes).
  by rewrite be_val_be_bytes, zdrop_app_exact by (done || by rewrite zlen_be_bytes).
Qed.

Lemma sign32_wrap z : - 2 ^ 31 <= z < 2 ^ 31 -> sign32 (wrap 32 z) = z.
Proof.
  intros; unfold sign32, wrap.
  destruct (Z.lt_ge_cases z 0).
  - replace (z mod 2 ^ 32) with (z + 2 ^ 32) by (apply Z.mod_unique with (-1); lia).
    case Z.ltb_spec; lia.
  - rewrite Z.mod_small by lia; case Z.ltb_spec; lia.
Qed.

Lemma field_size f v : pb_field_ok f v -> zlen (put_field (f, v)) <= pb_field_max f.
Proof.
  destruct f as [| | | |max], v as [b|z|s]; try done; intros Hv; cbn [put_field pb_field_max];
    rewrite ?zlen_app, ?zlen_be_bytes; try lia.
  destruct Hv; lia.
Qed.

Lemma field_bytes f v : pb_field_ok f v -> is_bytes (put_field (f, v)).
Proof.
  destruct f as [| | | |max], v as [[]| |s]; cbn [put_field pb_field_ok]; intros Hv; try done;
    try apply is_bytes_be_bytes; try (by repeat constructor).
  rewrite is_bytes_app; split; [apply is_bytes_be_bytes|].
  destruct Hv as [_ Hs]; eapply Forall_impl; [exact Hs|]; unfold is_byte; simpl; lia.
Qed.

Lemma field_roundtrip f v l :
  pb_field_ok f v -> pb_field_max f < 16384 -> get_field f (put_field (f, v) ++ l) = Some (v, l).
Proof.
  destruct f as [| | | |max], v as [b|z|s]; intros Hv Hmax; try done.
  - by destruct b.
  - unfold get_field, put_field; rewrite (get_int_app 4) by (apply wrap_range; lia); simpl.
    by rewrite sign32_wrap.
  - unfold get_field, put_field; by rewrite (get_int_app 4).
  - unfold get_field, put_field; by rewrite (get_int_app 8).
  - destruct Hv as [Hlen _]; simpl in Hmax.
    unfold get_field, put_field; rewrite <- app_assoc, (get_int_app 2)
      by (unfold fits; pose proof (zlen_nonneg s); change (8 * Z.of_nat 2) with 16; lia).
    simpl; by rewrite zslice_prefix, zdrop_app_exact.
Qed.

Lemma pb_max_cons f d : pb_max (f :: d) = pb_field_max f + pb_max d.
Proof. done. Qed.

Lemma put_fields_cons f d v vs : put_fields (f :: d) (v :: vs) = put_field (f, v) ++ put_fields d vs.
Proof. done. Qed.

Lemma fields_spec d vs :
  pb_conforms d vs -> pb_max d < 16384 ->
  zlen (put_fields d vs) <= pb_max d /\ is_bytes (put_fields d vs) /\
  get_fields d (put_fields d vs) = Some vs.
Proof.
  unfold pb_conforms; induction 1 as [|f v d vs Hf Hd IH]; [intros _; split_and!; by try constructor|].
  rewrite pb_max_cons, put_fields_cons; intros Hmax.
  assert (0 <= pb_max d /\ 0 <= pb_field_max f) as [??].
  { split; [|pose proof (field_size f v Hf); pose proof (zlen_nonneg (put_field (f, v))); lia].
    clear -Hd; induction Hd as [|f v d vs Hf Hd IH]; [done|]; rewrite pb_max_cons.
    pose proof (field_size f v Hf); pose proof (zlen_nonneg (put_field (f, v))); lia. }
  destruct IH as (? & ? & IH); [lia|]; split_and!.
  - rewrite zlen_app; pose proof (field_size f v Hf); lia.
  - rewrite is_bytes_app; split; [by apply field_bytes | done].
  - cbn [get_fields]; rewrite (field_roundtrip f v _ Hf) by lia; simpl; by rewrite IH.
Qed.

Lemma flat_ok : @NanopbOk flat.
Proof.
  split; simpl; intros d vs cap; [intros Hc Hm Hcap | intros b Hc Hm E | intros b Hc Hm E];
    destruct (fields_spec d vs Hc Hm) as (? & ? & ?).
  - eexists; case Z.leb_spec; [done|]; rewrite zlen_cons; lia.
  - revert E; case Z.leb_spec; [|done]; intros _ [= <-]; rewrite zlen_cons.
    pose proof (zlen_nonneg (put_fields d vs)); split; [lia|].
    by constructor.
  - revert E; case Z.leb_spec; [|done]; by intros _ [= <-].
Qed.

End FlatCodec.

(** ** Sizes *)

(** The size constants of the header are the sums of their fields' bounds. *)
Lemma message_sizes :
  pb_max (pb_fields snova_AuthRequest) = snova_AuthRequest_size /\
  pb_max (pb_fields snova_AuthResponse) = snova_AuthResponse_size /\
  pb_max (pb_fields snova_CommonResponse) = snova_CommonResponse_size /\
  pb_max (pb_fields snova_StreamOpenRequest) = snova_StreamOpenRequest_size /\
  pb_max (pb_fields snova_TunnelCloseRequest) = snova_TunnelCloseRequest_size /\
  pb_max (pb_fields snova_TunnelOpenRequest) = snova_TunnelOpenRequest_size /\
  pb_max (pb_fields snova_TunnelOpenResponse) = snova_TunnelOpenResponse_size.
Proof. by vm_compute. Qed.
