(* ===== verification/MuxEvent.v ===== *)
(** * Mux events (snova/mux/mux_event.h, snova/mux/mux_event.cc)

    The eight-byte event head, the ten event classes with their [Encode] and [Decode], and the
    factory [NewEvent].  [Encode] gets the capacity of its buffer and returns the bytes the buffer
    is cut to; [Decode] gets the whole body. *)

From S2P Require Import Prelude Endian IoBuf PbMessages.

Definition ERR_NEED_MORE_INPUT_DATA : Z := -1000.
Definition ERR_NEED_MORE_OUTPUT_BUFFER : Z := -1001.
Definition ERR_INVALID_EVENT : Z := -1002.
Definition ERR_TOO_LARGE_EVENT_ENCODE_CONTENT : Z := -1003.
Definition ERR_TOO_LARGE_EVENT_DECODE_LENGTH : Z := -1004.
Definition ERR_READ_EOF : Z := -1005.
Definition ERR_TOO_SMALL_EVENT_DECODE_CONTENT : Z := -1006.
Definition ERR_PB_ENCODE : Z := -1007.
Definition ERR_PB_DECODE : Z := -1008.
Definition ERR_EMPTY_MUX_SESSION : Z := -1009.
Definition ERR_CIPHER_HEADER_ENCRYPT : Z := -1010.
Definition ERR_CIPHER_HEADER_DECRYPT : Z := -1011.
Definition ERR_CIPHER_BODY_ENCRYPT : Z := -1012.
Definition ERR_CIPHER_BODY_DECRYPT : Z := -1013.

Definition kEventHeadSize : Z := 8.

Definition EVENT_AUTH_REQ : Z := 1.
Definition EVENT_AUTH_RES : Z := 2.
Definition EVENT_STREAM_OPEN : Z := 3.
Definition EVENT_STREAM_CLOSE : Z := 4.
Definition EVENT_STREAM_CHUNK : Z := 5.
Definition EVENT_RETIRE_CONN_REQ : Z := 6.
Definition EVENT_TUNNEL_OPEN_REQ : Z := 7.
Definition EVENT_TUNNEL_OPEN_RSP : Z := 8.
Definition EVENT_TUNNEL_CLOSE_REQ : Z := 9.
Definition EVENT_COMMON_RES : Z := 100.

(** ** The head *)

Definition default_flags : MuxFlags := {| body_no_encrypt := 0; reserved := 0 |}.

Record MuxEventHead := { sid : Z; len : Z; type : Z; flags : MuxFlags }.

#[global] Instance MuxEventHead_eq_dec : EqDecision MuxEventHead.
Proof. solve_decision. Defined.

Definition MuxEventHead_wf (h : MuxEventHead) : Prop :=
  fits 32 (sid h) /\ fits 16 (len h) /\ fits 8 (type h) /\ MuxFlags_wf (flags h).

Definition with_len (n : Z) (h : MuxEventHead) : MuxEventHead :=
  {| sid := sid h; len := n; type := type h; flags := flags h |}.

Section head.
Context `{Platform}.

(** [MuxEventHead::Encode]: the buffer with the head written at its start. *)
Definition MuxEventHead_Encode (h : MuxEventHead) (buffer : bytes) : res bytes :=
  if zlen buffer <? kEventHeadSize then Err (-1) else
  let id := native_to_big 4 (sid h) in
  do buffer <- access (zblit 0 (mem_store 4 id) buffer);
  let pos := 4 in
  let length := native_to_big 2 (len h) in
  do buffer <- access (zblit pos (mem_store 2 length) buffer);
  let pos := pos + 2 in
  do buffer <- access (zblit pos [type h] buffer);
  let pos := pos + 1 in
  access (zblit pos [flags_store (flags h)] buffer).

(** [MuxEventHead::Decode]. *)
Definition MuxEventHead_Decode (buffer : bytes) : res MuxEventHead :=
  if zlen buffer <? kEventHeadSize then Err (-1) else
  do sid <- access (zslice 0 4 buffer);
  let pos := 4 in
  do len <- access (zslice pos 2 buffer);
  let pos := pos + 2 in
  do ty <- access (zget buffer pos);
  let pos := pos + 1 in
  do fl <- access (zget buffer pos);
  Ok {| sid := big_to_native 4 (mem_load sid); len := big_to_native 2 (mem_load len);
        type := ty; flags := flags_load fl |}.

(** The head on the wire. *)
Definition head_wire (h : MuxEventHead) : bytes :=
  be_bytes 4 (sid h) ++ be_bytes 2 (len h) ++ [type h; flags_store (flags h)].

Lemma zlen_head_wire h : zlen (head_wire h) = kEventHeadSize.
Proof. unfold head_wire; by rewrite !zlen_app, !zlen_be_bytes. Qed.

Lemma head_wire_bytes `{!PlatformOk} h : MuxEventHead_wf h -> is_bytes (head_wire h).
Proof.
  intros (? & ? & ? & ?); unfold head_wire; rewrite !is_bytes_app.
  split_and!; [apply is_bytes_be_bytes..|].
  apply Forall_cons; split; [done|]. apply Forall_cons; split; [by apply flags_store_byte | done].
Qed.

(** Appending to a prefix that was written before: [memcpy] at the end of the prefix. *)
Lemma zblit_next (p d l : bytes) off n :
  off = zlen p -> n = off + zlen d -> n <= zlen l ->
  zblit off d (p ++ zdrop off l) = Some ((p ++ d) ++ zdrop n l).
Proof.
  intros -> -> Hn; pose proof (zlen_nonneg d); pose proof (zlen_nonneg p).
  rewrite zblit_Some; [| lia | rewrite zlen_app, zlen_drop; lia].
  rewrite ztake_app_exact, zdrop_app_ge by lia.
  rewrite zdrop_zdrop by lia. rewrite <- app_assoc; do 4 f_equal; lia.
Qed.

Lemma MuxEventHead_Encode_spec `{!PlatformOk} h buffer :
  MuxEventHead_wf h -> kEventHeadSize <= zlen buffer ->
  MuxEventHead_Encode h buffer = Ok (head_wire h ++ zdrop kEventHeadSize buffer).
Proof.
  unfold kEventHeadSize; intros (Hs & Hl & ? & ?) Hlen; unfold MuxEventHead_Encode.
  unfold kEventHeadSize; bool_false (zlen buffer <? 8); unfold native_to_big.
  rewrite !ghton_network by done.
  rewrite zblit_head by (rewrite zlen_be_bytes; lia); rewrite zlen_be_bytes.
  cbn [access rbind]; change (Z.of_nat 4) with 4.
  rewrite (zblit_next (be_bytes 4 (sid h)) _ buffer 4 6)
    by (rewrite ?zlen_app, ?zlen_be_bytes; done || lia).
  cbn [access rbind]; change (4 + 2) with 6.
  rewrite (zblit_next _ [type h] buffer 6 7) by (rewrite ?zlen_app, ?zlen_be_bytes; done || lia).
  cbn [access rbind]; change (6 + 1) with 7.
  rewrite (zblit_next _ [flags_store (flags h)] buffer 7 8)
    by (rewrite ?zlen_app, ?zlen_be_bytes; done || lia).
  unfold head_wire; simpl access; by rewrite <- !app_assoc.
Qed.

Lemma MuxEventHead_Decode_spec `{!PlatformOk} h k :
  MuxEventHead_wf h -> MuxEventHead_Decode (head_wire h ++ k) = Ok h.
Proof.
  intros (Hs & Hl & ? & ?); unfold MuxEventHead_Decode.
  assert (zlen (head_wire h ++ k) = 8 + zlen k) as -> by (by rewrite zlen_app, zlen_head_wire).
  pose proof (zlen_nonneg k); unfold kEventHeadSize; bool_false (8 + zlen k <? 8).
  unfold head_wire; rewrite <- !app_assoc.
  rewrite zslice_prefix by (by rewrite zlen_be_bytes); cbn [access rbind].
  rewrite zslice_app by (by rewrite zlen_be_bytes); cbn [access rbind].
  rewrite !zget_app_r by (rewrite ?zlen_be_bytes; lia).
  rewrite !zlen_be_bytes; set (fb := flags_store (flags h)).
  unfold zget; simpl; unfold big_to_native; subst fb.
  rewrite !gntoh_network by (apply is_bytes_be_bytes || by rewrite zlen_be_bytes).
  rewrite !be_val_be_bytes by done. rewrite flags_load_store by done. by destruct h.
Qed.

Lemma MuxEventHead_Decode_total `{!PlatformOk} buffer :
  is_bytes buffer -> kEventHeadSize <= zlen buffer ->
  exists h, MuxEventHead_Decode buffer = Ok h /\ MuxEventHead_wf h.
Proof.
  unfold kEventHeadSize; intros Hb Hlen; unfold MuxEventHead_Decode.
  unfold kEventHeadSize; bool_false (zlen buffer <? 8).
  rewrite !zslice_Some by lia; cbn [access rbind].
  destruct (zget_in_range buffer (4 + 2)) as [ty Hty]; [lia|].
  destruct (zget_in_range buffer (4 + 2 + 1)) as [fl Hfl]; [lia|].
  rewrite Hty; cbn [access rbind]; rewrite Hfl; cbn [access rbind].
  eexists; split; [done|]; unfold big_to_native.
  assert (forall n x, zget buffer n = Some x -> is_byte x) as Hget.
  { unfold zget; intros n x; case Z.ltb_spec; [done|]; intros _ Hx.
    by eapply Forall_lookup_1 in Hx. }
  assert (forall o n, 0 <= o -> 0 <= n -> o + n <= zlen buffer -> zlen (ztake n (zdrop o buffer)) = n)
    as Htk by (intros; rewrite zlen_take; [done|]; rewrite zlen_drop; lia).
  rewrite !gntoh_network by (auto with snova || (rewrite Htk; lia)).
  unfold MuxEventHead_wf; simpl; split_and!.
  - apply (be_val_range _ 4); [auto with snova | rewrite Htk; lia].
  - apply (be_val_range _ 2); [auto with snova | rewrite Htk; lia].
  - by apply (Hget (4 + 2)).
  - by apply flags_load_wf, (Hget (4 + 2 + 1)).
Qed.

End head.

(** ** The events

    The members of the event classes beside [head].  The buffer behind [StreamChunk::chunk] is
    represented by its contents; the pooled vector may be longer than what was received. *)

Inductive EventBody :=
| AuthRequest (event : snova_AuthRequest)
| AuthResponse (event : snova_AuthResponse)
| StreamOpenRequest (event : snova_StreamOpenRequest)
| StreamCloseRequest
| StreamChunk (chunk : option bytes) (chunk_len : Z)
| RetireConnRequest
| TunnelOpenRequest (event : snova_TunnelOpenRequest)
| TunnelOpenResponse (event : snova_TunnelOpenResponse)
| TunnelCloseRequest (event : snova_TunnelCloseRequest)
| CommonResponse (event : snova_CommonResponse).

Record MuxEvent := { head : MuxEventHead; body : EventBody }.

(** The type the constructor of each class stores in its head. *)
Definition event_type (b : EventBody) : Z :=
  match b with
  | AuthRequest _ => EVENT_AUTH_REQ
  | AuthResponse _ => EVENT_AUTH_RES
  | StreamOpenRequest _ => EVENT_STREAM_OPEN
  | StreamCloseRequest => EVENT_STREAM_CLOSE
  | StreamChunk _ _ => EVENT_STREAM_CHUNK
  | RetireConnRequest => EVENT_RETIRE_CONN_REQ
  | TunnelOpenRequest _ => EVENT_TUNNEL_OPEN_REQ
  | TunnelOpenResponse _ => EVENT_TUNNEL_OPEN_RSP
  | TunnelCloseRequest _ => EVENT_TUNNEL_CLOSE_REQ
  | CommonResponse _ => EVENT_COMMON_RES
  end.

(** An event as its class's constructor makes it, with a stream id. *)
Definition make_event (s : Z) (b : EventBody) : MuxEvent :=
  {| head := {| sid := s; len := 0; type := event_type b; flags := default_flags |}; body := b |}.

Definition set_head (h : MuxEventHead) (e : MuxEvent) : MuxEvent := {| head := h; body := body e |}.

(** [MuxEvent::NewEvent]. *)
Definition NewEvent (h : MuxEventHead) : option MuxEvent :=
  let mk b := Some {| head := h; body := b |} in
  if type h =? EVENT_AUTH_REQ then mk (AuthRequest init_default)
  else if type h =? EVENT_AUTH_RES then mk (AuthResponse init_default)
  else if type h =? EVENT_STREAM_OPEN then mk (StreamOpenRequest init_default)
  else if type h =? EVENT_STREAM_CLOSE then mk StreamCloseRequest
  else if type h =? EVENT_STREAM_CHUNK then mk (StreamChunk None 0)
  else if type h =? EVENT_RETIRE_CONN_REQ then mk RetireConnRequest
  else if type h =? EVENT_TUNNEL_OPEN_REQ then mk (TunnelOpenRequest init_default)
  else if type h =? EVENT_TUNNEL_OPEN_RSP then mk (TunnelOpenResponse init_default)
  else if type h =? EVENT_TUNNEL_CLOSE_REQ then mk (TunnelCloseRequest init_default)
  else if type h =? EVENT_COMMON_RES then mk (CommonResponse init_default)
  else None.

Section codec.
Context `{Nanopb}.

(** The body of the seven [Encode]s that call nanopb. *)
Definition pb_Encode {M} `{PbMessage M} (event : M) (cap : Z) : res bytes :=
  match pb_encode_delimited (pb_fields M) (pb_values event) cap with
  | Some b => Ok b
  | None => Err ERR_PB_ENCODE
  end.

(** The body of the seven [Decode]s that call nanopb. *)
Definition pb_Decode {M} `{PbMessage M} (mk : M -> EventBody) (buffer : bytes) : res EventBody :=
  match pb_decode_delimited (pb_fields M) buffer with
  | Some vs => match pb_struct vs with Some m => Ok (mk m) | None => Err ERR_PB_DECODE end
  | None => Err ERR_PB_DECODE
  end.

Definition AuthRequest_Encode (event : snova_AuthRequest) (cap : Z) : res bytes := pb_Encode event cap.
Definition AuthRequest_Decode (buffer : bytes) : res EventBody := pb_Decode AuthRequest buffer.
Definition AuthResponse_Encode (event : snova_AuthResponse) (cap : Z) : res bytes := pb_Encode event cap.
Definition AuthResponse_Decode (buffer : bytes) : res EventBody := pb_Decode AuthResponse buffer.
Definition StreamOpenRequest_Encode (event : snova_StreamOpenRequest) (cap : Z) : res bytes := pb_Encode event cap.
Definition StreamOpenRequest_Decode (buffer : bytes) : res EventBody := pb_Decode StreamOpenRequest buffer.
Definition StreamCloseRequest_Encode (cap : Z) : res bytes := Ok [].
Definition StreamCloseRequest_Decode (buffer : bytes) : res EventBody := Ok StreamCloseRequest.
Definition RetireConnRequest_Encode (cap : Z) : res bytes := Ok [].
Definition RetireConnRequest_Decode (buffer : bytes) : res EventBody := Ok RetireConnRequest.

Definition StreamChunk_Encode (chunk : option bytes) (chunk_len cap : Z) : res bytes :=
  if cap <? chunk_len then Err ERR_TOO_LARGE_EVENT_ENCODE_CONTENT
  else if 0 <? chunk_len then
    do c <- access chunk;
    access (zslice 0 chunk_len c)
  else Ok [].

Definition StreamChunk_Decode (h : MuxEventHead) (buffer : bytes) : res EventBody :=
  let chunk_len := len h in
  if 2 * kMaxChunkSize <? chunk_len then Err ERR_INVALID_EVENT
  else if zlen buffer <? chunk_len then Err ERR_TOO_SMALL_EVENT_DECODE_CONTENT
  else
    do c <- access (zslice 0 chunk_len buffer);
    Ok (StreamChunk (Some c) chunk_len).

Definition CommonResponse_Encode (event : snova_CommonResponse) (cap : Z) : res bytes := pb_Encode event cap.
Definition CommonResponse_Decode (buffer : bytes) : res EventBody := pb_Decode CommonResponse buffer.
Definition TunnelOpenRequest_Encode (event : snova_TunnelOpenRequest) (cap : Z) : res bytes := pb_Encode event cap.
Definition TunnelOpenRequest_Decode (buffer : bytes) : res EventBody := pb_Decode TunnelOpenRequest buffer.
Definition TunnelOpenResponse_Encode (event : snova_TunnelOpenResponse) (cap : Z) : res bytes := pb_Encode event cap.
Definition TunnelOpenResponse_Decode (buffer : bytes) : res EventBody := pb_Decode TunnelOpenResponse buffer.
Definition TunnelCloseRequest_Encode (event : snova_TunnelCloseRequest) (cap : Z) : res bytes := pb_Encode event cap.
Definition TunnelCloseRequest_Decode (buffer : bytes) : res EventBody := pb_Decode TunnelCloseRequest buffer.

(** The virtual calls [MuxEvent::Encode] and [MuxEvent::Decode]. *)
Definition Encode (e : MuxEvent) (cap : Z) : res bytes :=
  match body e with
  | AuthRequest ev => AuthRequest_Encode ev cap
  | AuthResponse ev => AuthResponse_Encode ev cap
  | StreamOpenRequest ev => StreamOpenRequest_Encode ev cap
  | StreamCloseRequest => StreamCloseRequest_Encode cap
  | StreamChunk chunk chunk_len => StreamChunk_Encode chunk chunk_len cap
  | RetireConnRequest => RetireConnRequest_Encode cap
  | TunnelOpenRequest ev => TunnelOpenRequest_Encode ev cap
  | TunnelOpenResponse ev => TunnelOpenResponse_Encode ev cap
  | TunnelCloseRequest ev => TunnelCloseRequest_Encode ev cap
  | CommonResponse ev => CommonResponse_Encode ev cap
  end.

Definition Decode (e : MuxEvent) (buffer : bytes) : res MuxEvent :=
  do b <- match body e with
  | AuthRequest _ => AuthRequest_Decode buffer
  | AuthResponse _ => AuthResponse_Decode buffer
  | StreamOpenRequest _ => StreamOpenRequest_Decode buffer
  | StreamCloseRequest => StreamCloseRequest_Decode buffer
  | StreamChunk _ _ => StreamChunk_Decode (head e) buffer
  | RetireConnRequest => RetireConnRequest_Decode buffer
  | TunnelOpenRequest _ => TunnelOpenRequest_Decode buffer
  | TunnelOpenResponse _ => TunnelOpenResponse_Decode buffer
  | TunnelCloseRequest _ => TunnelCloseRequest_Decode buffer
  | CommonResponse _ => CommonResponse_Decode buffer
  end;
  Ok {| head := head e; body := b |}.

(** ** Well-formed events *)

Definition body_wf (b : EventBody) : Prop :=
  match b with
  | AuthRequest ev => pb_wf ev
  | AuthResponse ev => pb_wf ev
  | StreamOpenRequest ev => pb_wf ev
  | StreamCloseRequest | RetireConnRequest => True
  | StreamChunk chunk n => 0 <= n < 2 ^ 32 /\
      match chunk with Some c => n <= zlen c /\ is_bytes c | None => n = 0 end
  | TunnelOpenRequest ev => pb_wf ev
  | TunnelOpenResponse ev => pb_wf ev
  | TunnelCloseRequest ev => pb_wf ev
  | CommonResponse ev => pb_wf ev
  end.

#[global] Instance body_wf_dec b : Decision (body_wf b).
Proof. destruct b as [| | | |[]| | | | |]; simpl; apply _. Defined.

Definition event_wf (e : MuxEvent) : Prop :=
  fits 32 (sid (head e)) /\ MuxFlags_wf (flags (head e)) /\
  type (head e) = event_type (body e) /\ body_wf (body e).

(** Largest encoding of a body. *)
Definition body_max (b : EventBody) : Z :=
  match b with StreamChunk _ n => n | _ => 530 end.

(** What a connection can send. *)
Definition sendable (e : MuxEvent) : Prop := event_wf e /\ body_max (body e) <= kMaxChunkSize.

(** Size of an encoded body. *)
Definition body_size (b : EventBody) (n : Z) : Prop :=
  match b with
  | StreamChunk _ k => n = k
  | StreamCloseRequest | RetireConnRequest => n = 0
  | _ => 0 < n <= 530
  end.

Lemma body_size_max b n : body_wf b -> body_size b n -> 0 <= n <= body_max b.
Proof. destruct b as [| | | |[]| | | | |]; simpl; lia. Qed.

(** What a receiver rebuilds: the chunk cut to its length, no buffer for an empty chunk. *)
Definition received (b : EventBody) : EventBody :=
  match b with
  | StreamChunk (Some c) n => if n =? 0 then StreamChunk None 0 else StreamChunk (Some (ztake n c)) n
  | StreamChunk None _ => StreamChunk None 0
  | b => b
  end.

Context `{!NanopbOk}.

Lemma pb_Encode_spec {M} `{PbMessage M} (ev : M) mk cap :
  PbMessageOk M -> pb_wf ev -> pb_max (pb_fields M) + 2 <= 530 -> 530 <= cap ->
  exists w, pb_Encode ev cap = Ok w /\ 0 < zlen w <= 530 /\ is_bytes w /\ pb_Decode mk w = Ok (mk ev).
Proof.
  intros Hok Hwf Hmax Hcap; unfold pb_Encode, pb_Decode.
  destruct (pb_encode_fits (pb_fields M) (pb_values ev) cap) as [w E]; [done | lia | lia |].
  destruct (pb_encode_length _ _ _ _ Hwf ltac:(lia) E) as [? ?].
  rewrite E; exists w; split_and!; try done; try lia.
  rewrite (pb_decode_encode _ _ _ _ Hwf ltac:(lia) E). by rewrite Hok.
Qed.

Lemma StreamChunk_Encode_spec chunk n cap :
  body_wf (StreamChunk chunk n) -> n <= cap ->
  exists w, StreamChunk_Encode chunk n cap = Ok w /\ zlen w = n /\ is_bytes w /\
    (0 < n -> received (StreamChunk chunk n) = StreamChunk (Some w) n).
Proof.
  intros [Hn Hc] Hcap; unfold StreamChunk_Encode; bool_false (cap <? n).
  case Z.ltb_spec; intros.
  - destruct chunk as [c|]; [|lia]; destruct Hc as [? ?]; cbn [access rbind].
    rewrite zslice_Some, zdrop_0 by lia; exists (ztake n c).
    rewrite zlen_take by lia; split_and!; try done; [by apply is_bytes_take|].
    intros _; simpl; by bool_false (n =? 0).
  - exists []; split_and!; [done | rewrite zlen_nil; lia | constructor | lia].
Qed.

(** One event class whose body is a protobuf message. *)
#[local] Ltac pb_case mk :=
  match goal with Hwf : body_wf (_ ?ev), Hcap : 530 <= ?cap, Hty : type _ = _ |- _ =>
    let w := fresh "w" in let E := fresh in let HD := fresh in
    destruct (pb_Encode_spec ev mk cap _ Hwf ltac:(by vm_compute) Hcap) as (w & E & ? & ? & HD);
    exists w; split_and!; [exact E | simpl; lia | done | lia |];
    let h' := fresh "h" in let Ht := fresh in
    intros h' Ht _ _; unfold NewEvent; rewrite Ht, Hty; eexists; split; [reflexivity|];
    change (rbind (pb_Decode mk w) (fun b => Ok {| head := h'; body := b |}) = Ok {| head := h'; body := mk ev |});
    by rewrite HD
  end.

(** [Encode] of a well-formed event succeeds in a buffer of its bound, and [Decode] of its output,
    on the event [NewEvent] makes from the completed head, gives the body back. *)
Lemma Encode_spec e cap :
  event_wf e -> body_max (body e) <= cap -> 530 <= cap ->
  exists w, Encode e cap = Ok w /\ body_size (body e) (zlen w) /\ is_bytes w /\
    (zlen w = 0 -> NewEvent (head e) = Some {| head := head e; body := received (body e) |}) /\
    forall h, type h = type (head e) -> len h = zlen w -> 0 < zlen w <= 2 * kMaxChunkSize ->
      exists e0, NewEvent h = Some e0 /\ Decode e0 w = Ok {| head := h; body := received (body e) |}.
Proof.
  destruct e as [h b]; intros (_ & _ & Hty & Hwf); cbn [head body] in *; intros Hmax Hcap.
  unfold Encode, Decode; cbn [body head].
  destruct b as [ev|ev|ev| |chunk n| |ev|ev|ev|ev].
  - pb_case AuthRequest.
  - pb_case AuthResponse.
  - pb_case StreamOpenRequest.
  - exists []; split_and!; try done; [constructor | | rewrite zlen_nil; lia].
    intros _; unfold NewEvent; by rewrite Hty.
  - destruct (StreamChunk_Encode_spec chunk n cap Hwf Hmax) as (w & E & Hw & Hb & HR).
    exists w; split_and!; [done | simpl; lia | done | |].
    + intros E0; unfold NewEvent; rewrite Hty; simpl; do 2 f_equal.
      destruct chunk as [c|]; [|done]. by bool_true (n =? 0).
    + intros h' Ht Hl Hlen; unfold NewEvent; rewrite Ht, Hty; eexists; split; [reflexivity|].
      cbn [body head]; unfold StreamChunk_Decode; rewrite Hl.
      bool_false (2 * kMaxChunkSize <? zlen w); bool_false (zlen w <? zlen w).
      rewrite <- (app_nil_r w) at 2; rewrite zslice_prefix by done; cbn [access rbind].
      rewrite HR by lia; by rewrite Hw.
  - exists []; split_and!; try done; [constructor | | rewrite zlen_nil; lia].
    intros _; unfold NewEvent; by rewrite Hty.
  - pb_case TunnelOpenRequest.
  - pb_case TunnelOpenResponse.
  - pb_case TunnelCloseRequest.
  - pb_case CommonResponse.
Qed.

(** [Decode] never leaves its buffer, whatever the bytes and the length the head announces. *)
Lemma Decode_returns e buffer : 0 <= len (head e) -> returns (Decode e buffer).
Proof.
  intros Hl; unfold Decode.
  assert (forall M (P : PbMessage M) (mk : M -> EventBody), returns (pb_Decode mk buffer)) as Hpb.
  { intros M P mk; unfold pb_Decode; by repeat case_match. }
  apply returns_rbind; [|done].
  destruct (body e) as [ev|ev|ev| |chunk n| |ev|ev|ev|ev]; simpl; try done; try apply Hpb.
  unfold StreamChunk_Decode; case Z.ltb_spec; [done|]; intros _; case Z.ltb_spec; [done|]; intros ?.
  by rewrite zslice_Some by lia.
Qed.

Lemma NewEvent_with_len h n e :
  NewEvent h = Some e -> NewEvent (with_len n h) = Some (set_head (with_len n h) e).
Proof. unfold NewEvent; simpl; repeat (case_match; [by intros [= <-]|]); done. Qed.

Lemma NewEvent_head h e : NewEvent h = Some e -> head e = h.
Proof. unfold NewEvent; repeat case_match; by intros [= <-]. Qed.

End codec.
