(* ===== verification/CipherContext.v ===== *)
(** * Framing and encryption (snova/mux/cipher_context.h, snova/mux/cipher_context.cc)

    [Encrypt] writes one event as a frame into an output buffer, [Decrypt] takes the first frame
    of a byte string apart.  BoringSSL's AEAD is the interface [Aead]; [AeadOk] is what its
    documentation promises; [ToyAead] discharges it.  The scratch and output buffers are byte
    lists that the code writes at offsets, so the placing of head and body is part of the model. *)

From S2P Require Import Prelude Endian IoBuf PbMessages MuxEvent.

(** ** BoringSSL's AEAD interface *)

Class Aead := {
  EVP_AEAD_key_length : Z;
  EVP_AEAD_nonce_length : Z;
  EVP_AEAD_max_tag_len : Z;
  (** key, [max_out_len], nonce, input: the bytes written, or failure *)
  EVP_AEAD_CTX_seal : bytes -> Z -> bytes -> bytes -> option bytes;
  EVP_AEAD_CTX_open : bytes -> Z -> bytes -> bytes -> option bytes
}.

Class AeadOk `{Aead} : Prop := {
  aead_nonce_room : 8 <= EVP_AEAD_nonce_length;
  aead_tag_room : 0 <= EVP_AEAD_max_tag_len <= 20;
  aead_key_len : 0 <= EVP_AEAD_key_length;
  aead_seal_fits : forall k mo n p,
    zlen n = EVP_AEAD_nonce_length -> zlen p + EVP_AEAD_max_tag_len <= mo ->
    exists c, EVP_AEAD_CTX_seal k mo n p = Some c;
  aead_seal_length : forall k mo n p c,
    EVP_AEAD_CTX_seal k mo n p = Some c -> zlen c = zlen p + EVP_AEAD_max_tag_len /\ zlen c <= mo;
  aead_open_seal : forall k mo mo' n p c,
    EVP_AEAD_CTX_seal k mo n p = Some c -> zlen c <= mo' -> EVP_AEAD_CTX_open k mo' n c = Some p;
  aead_open_length : forall k mo n p c,
    EVP_AEAD_CTX_open k mo n c = Some p -> zlen c = zlen p + EVP_AEAD_max_tag_len /\ zlen p <= mo;
  aead_open_bytes : forall k mo n p c,
    is_bytes c -> EVP_AEAD_CTX_open k mo n c = Some p -> is_bytes p
}.

(** An instance with the sizes of ChaCha20-Poly1305: the input is kept and a tag made of nonce and
    key is appended and compared. *)
Module ToyAead.

Definition tag (k n : bytes) : bytes := ztake 16 (n ++ k ++ zrepeat 16 0).

Definition seal (k : bytes) (mo : Z) (n p : bytes) : option bytes :=
  if bool_decide (zlen n = 12 /\ zlen p + 16 <= mo) then Some (p ++ tag k n) else None.

Definition open (k : bytes) (mo : Z) (n c : bytes) : option bytes :=
  let m := zlen c - 16 in
  if bool_decide (0 <= m <= mo /\ zdrop m c = tag k n) then Some (ztake m c) else None.

Definition toy : Aead := {|
  EVP_AEAD_key_length := 32; EVP_AEAD_nonce_length := 12; EVP_AEAD_max_tag_len := 16;
  EVP_AEAD_CTX_seal := seal; EVP_AEAD_CTX_open := open
|}.

Lemma zlen_tag k n : zlen (tag k n) = 16.
Proof. unfold tag; rewrite zlen_take; [done|]; rewrite !zlen_app, zlen_repeat by lia; zlen_solve. Qed.

Lemma toy_ok : @AeadOk toy.
Proof.
  split; simpl; unfold seal, open; try (intros k mo); try intros n p; try done.
  - intros Hn Hp; eexists; by rewrite bool_decide_true.
  - intros c; case_bool_decide as E; [|done]; intros [= <-]; rewrite zlen_app, zlen_tag; lia.
  - intros p' c; case_bool_decide as E; [|done]; intros [= <-]; rewrite zlen_app, zlen_tag; intros Hmo.
    pose proof (zlen_nonneg p').
    rewrite ztake_app_exact, zdrop_app_exact by lia. rewrite bool_decide_true; [done|]; split; [lia|done].
  - intros c; case_bool_decide as E; [|done]; intros [= <-]; pose proof (zlen_nonneg c).
    rewrite zlen_take; lia.
  - intros c Hc; case_bool_decide; [|done]; intros [= <-]; by apply is_bytes_take.
Qed.

End ToyAead.

(** ** The context *)

(** [cipher_key] is the key both [EVP_AEAD_CTX] objects were made with, [None] when they are
    null (method "none"). *)
Record CipherContext := {
  cipher_key : option bytes;
  encrypt_iv : Z;
  decrypt_iv : Z;
  cipher_nonce_len : Z;
  cipher_tag_len : Z;
  encode_buffer : bytes;
  decode_buffer : bytes
}.

Definition set_encrypt_iv (v : Z) (c : CipherContext) : CipherContext :=
  {| cipher_key := cipher_key c; encrypt_iv := v; decrypt_iv := decrypt_iv c;
     cipher_nonce_len := cipher_nonce_len c; cipher_tag_len := cipher_tag_len c;
     encode_buffer := encode_buffer c; decode_buffer := decode_buffer c |}.
Definition set_decrypt_iv (v : Z) (c : CipherContext) : CipherContext :=
  {| cipher_key := cipher_key c; encrypt_iv := encrypt_iv c; decrypt_iv := v;
     cipher_nonce_len := cipher_nonce_len c; cipher_tag_len := cipher_tag_len c;
     encode_buffer := encode_buffer c; decode_buffer := decode_buffer c |}.
Definition set_encode_buffer (b : bytes) (c : CipherContext) : CipherContext :=
  {| cipher_key := cipher_key c; encrypt_iv := encrypt_iv c; decrypt_iv := decrypt_iv c;
     cipher_nonce_len := cipher_nonce_len c; cipher_tag_len := cipher_tag_len c;
     encode_buffer := b; decode_buffer := decode_buffer c |}.
Definition set_decode_buffer (b : bytes) (c : CipherContext) : CipherContext :=
  {| cipher_key := cipher_key c; encrypt_iv := encrypt_iv c; decrypt_iv := decrypt_iv c;
     cipher_nonce_len := cipher_nonce_len c; cipher_tag_len := cipher_tag_len c;
     encode_buffer := encode_buffer c; decode_buffer := b |}.

(** [std::string::resize] of the key: cut, or filled up with zero bytes. *)
Definition str_resize (n : Z) (s : bytes) : bytes := ztake n (s ++ zrepeat n 0).

Section cipher.
Context `{Platform} `{Nanopb} `{Aead}.

(** [CipherContext::UpdateNonce]. *)
Definition UpdateNonce (nonce : Z) (c : CipherContext) : CipherContext :=
  set_decrypt_iv nonce (set_encrypt_iv nonce c).

(** [get_cipher_aead]: whether the method names the one AEAD. *)
Definition get_cipher_aead (method : bytes) : bool := bool_decide (method = bs "chacha20_poly1305").

Definition default_iv : Z := 102477889876.

(** [CipherContext::New]. *)
Definition New (cipher_method key : bytes) : option CipherContext :=
  let aead := get_cipher_aead cipher_method in
  if negb aead && negb (bool_decide (cipher_method = bs "none")) then None else
  let p := {| cipher_key := None; encrypt_iv := 0; decrypt_iv := 0; cipher_nonce_len := 0;
              cipher_tag_len := 0; encode_buffer := []; decode_buffer := [] |} in
  let p :=
    if aead then
      UpdateNonce default_iv
        {| cipher_key := Some (str_resize EVP_AEAD_key_length key);
           encrypt_iv := 0; decrypt_iv := 0;
           cipher_nonce_len := EVP_AEAD_nonce_length; cipher_tag_len := EVP_AEAD_max_tag_len;
           encode_buffer := []; decode_buffer := [] |}
    else p in
  Some (set_decode_buffer (zrepeat (kMaxChunkSize + kReservedBufferSize) 0)
         (set_encode_buffer (zrepeat (kMaxChunkSize + kEventHeadSize + kReservedBufferSize) 0) p)).

(** The nonce of the current frame: the counter in network order, padded with zeros. *)
Definition make_nonce (n iv : Z) : res bytes :=
  access (zblit 0 (mem_store 8 (native_to_big 8 iv)) (zrepeat n 0)).

(** [CipherContext::Encrypt] with null contexts: head and body one after the other. *)
Definition Encrypt_none (e : MuxEvent) (out : bytes) : res bytes :=
  do head_buffer <- access (zslice 0 kEventHeadSize out);
  do head_buffer <- MuxEventHead_Encode (head e) head_buffer;
  do out <- access (zblit 0 head_buffer out);
  do body_buffer <- Encode e (zlen out - kEventHeadSize);
  do out <- access (zblit kEventHeadSize body_buffer out);
  let total_len := kEventHeadSize + zlen body_buffer in
  access (zslice 0 total_len out).

(** [CipherContext::Encrypt], encoding of the body: into its final place when it is not to be
    encrypted, else into the scratch buffer behind the head; and the assignment of [head.len]. *)
Definition Encrypt_body (plain : bool) (out : bytes) : st (CipherContext * MuxEvent) (bytes * bytes) :=
  let! '(c, e) := sget in
  let tag := cipher_tag_len c in
  let cap := if plain then zlen out - kEventHeadSize - tag
             else zlen (encode_buffer c) - kEventHeadSize in
  let! body_buffer := slift (Encode e cap) in
  let! out :=
    if plain then slift (access (zblit (kEventHeadSize + tag) body_buffer out))
    else
      let! eb := slift (access (zblit kEventHeadSize body_buffer (encode_buffer c))) in
      let! _ := smodify (fun '(c, e) => (set_encode_buffer eb c, e)) in
      sret out in
  let! _ := smodify (fun '(c, e) =>
              (c, set_head (with_len (wrap 16 (zlen body_buffer)) (head e)) e)) in
  sret (body_buffer, out).

(** [CipherContext::Encrypt], from the encoding of the head on. *)
Definition Encrypt_seal (key : bytes) (plain : bool) (body_buffer out : bytes)
  : st (CipherContext * MuxEvent) bytes :=
  let! '(c, e) := sget in
  let! head_buffer := slift (access (zslice 0 kEventHeadSize (encode_buffer c))) in
  let! head_buffer := slift (MuxEventHead_Encode (head e) head_buffer) in
  let! eb := slift (access (zblit 0 head_buffer (encode_buffer c))) in
  let! _ := smodify (fun '(c, e) => (set_encode_buffer eb c, e)) in
  let! nonce := slift (make_nonce (cipher_nonce_len c) (encrypt_iv c)) in
  let! hd := slift (access (zslice 0 kEventHeadSize eb)) in
  let! sealed := slift (sor ERR_CIPHER_HEADER_ENCRYPT (EVP_AEAD_CTX_seal key (zlen out) nonce hd)) in
  let! out := slift (access (zblit 0 sealed out)) in
  let header_len := zlen sealed in
  let body_len := zlen body_buffer in
  let! '(out, body_len) :=
    if (0 <? body_len) && negb plain then
      let! b := slift (access (zslice kEventHeadSize body_len eb)) in
      let! sb := slift (sor ERR_CIPHER_BODY_ENCRYPT
                          (EVP_AEAD_CTX_seal key (zlen out - header_len) nonce b)) in
      let! out := slift (access (zblit header_len sb out)) in
      sret (out, zlen sb)
    else sret (out, body_len) in
  let total_len := header_len + body_len in
  let out := if total_len <? zlen out then ztake total_len out else out in
  let! _ := smodify (fun '(c, e) => (set_encrypt_iv (wrap 64 (encrypt_iv c + 1)) c, e)) in
  sret out.

(** [CipherContext::Encrypt].  The state is the context and the event, whose [head.len] is assigned
    on the way; the outcome is the output buffer cut to the frame. *)
Definition Encrypt (out : bytes) : st (CipherContext * MuxEvent) bytes :=
  let! '(c, e) := sget in
  let max_encrypt_buffer_size := wrap 32 (kEventHeadSize + kMaxChunkSize + 2 * cipher_tag_len c) in
  if zlen out <? max_encrypt_buffer_size then sfail ERR_NEED_MORE_OUTPUT_BUFFER else
  match cipher_key c with
  | None => slift (Encrypt_none e out)
  | Some key =>
      let plain := negb (body_no_encrypt (flags (head e)) =? 0) in
      let! '(body_buffer, out) := Encrypt_body plain out in
      Encrypt_seal key plain body_buffer out
  end.

(** [CipherContext::Decrypt], the head: decoded as it is or opened first; with the nonce. *)
Definition Decrypt_head (c : CipherContext) (inp : bytes) : res (MuxEventHead * bytes) :=
  match cipher_key c with
  | None => do h <- MuxEventHead_Decode inp; Ok (h, [])
  | Some key =>
      do nonce <- make_nonce (cipher_nonce_len c) (decrypt_iv c);
      do sealed <- access (zslice 0 (kEventHeadSize + cipher_tag_len c) inp);
      do head_buf <- sor ERR_CIPHER_HEADER_DECRYPT
                       (EVP_AEAD_CTX_open key (kEventHeadSize + 20) nonce sealed);
      do head_buf <- access (zslice 0 kEventHeadSize head_buf);
      do h <- MuxEventHead_Decode head_buf; Ok (h, nonce)
  end.

(** [CipherContext::Decrypt], the body: the bytes to decode and the input consumed. *)
Definition Decrypt_body (h : MuxEventHead) (nonce inp : bytes) (decrypt_len : Z)
  : st CipherContext (bytes * Z) :=
  let! c := sget in
  let tag := cipher_tag_len c in
  match cipher_key c with
  | None =>
      let! b := slift (access (zslice kEventHeadSize (len h) inp)) in
      sret (b, decrypt_len + len h)
  | Some key =>
      if 0 <? body_no_encrypt (flags h) then
        let! b := slift (access (zslice (kEventHeadSize + tag) (len h) inp)) in
        sret (b, decrypt_len + len h)
      else
        let! sealed := slift (access (zslice (kEventHeadSize + tag) (len h + tag) inp)) in
        let! p := slift (sor ERR_CIPHER_BODY_DECRYPT
                           (EVP_AEAD_CTX_open key (zlen (decode_buffer c)) nonce sealed)) in
        let! db := slift (access (zblit 0 p (decode_buffer c))) in
        let! _ := smodify (set_decode_buffer db) in
        let! b := slift (access (zslice 0 (len h) db)) in
        sret (b, decrypt_len + (len h + tag))
  end.

(** [decrypt_iv_++]. *)
Definition next_decrypt_iv (c : CipherContext) : CipherContext :=
  set_decrypt_iv (wrap 64 (decrypt_iv c + 1)) c.

(** Length of the frame a head announces. *)
Definition expected_len (tag : Z) (h : MuxEventHead) : Z :=
  let n := kEventHeadSize + len h + tag in
  if (body_no_encrypt (flags h) =? 0) && (0 <? len h) then n + tag else n.

(** [CipherContext::Decrypt].  On success the event and [decrypt_len], the number of input bytes
    the frame took. *)
Definition Decrypt (inp : bytes) : st CipherContext (MuxEvent * Z) :=
  let! c := sget in
  let tag := cipher_tag_len c in
  if zlen inp <? kEventHeadSize + tag then sfail ERR_NEED_MORE_INPUT_DATA else
  let! '(h, nonce) := slift (Decrypt_head c inp) in
  if kMaxChunkSize + 128 <? len h then sfail ERR_INVALID_EVENT else
  let decrypt_len := kEventHeadSize + tag in
  if zlen inp <? expected_len tag h then sfail ERR_NEED_MORE_INPUT_DATA else
  let! out := slift (sor ERR_INVALID_EVENT (NewEvent h)) in
  if len h =? 0 then
    let! _ := smodify next_decrypt_iv in
    sret (out, decrypt_len)
  else
    let! '(decode_body, decrypt_len) := Decrypt_body h nonce inp decrypt_len in
    let! out := slift (Decode out decode_body) in
    let! _ := smodify next_decrypt_iv in
    sret (out, decrypt_len).

(** ** Well-formed contexts and frames *)

Definition kWriteBufferSize : Z := kMaxChunkSize + kEventHeadSize + kReservedBufferSize.

Definition ctx_wf (c : CipherContext) : Prop :=
  zlen (encode_buffer c) = kMaxChunkSize + kEventHeadSize + kReservedBufferSize /\
  zlen (decode_buffer c) = kMaxChunkSize + kReservedBufferSize /\
  fits 64 (encrypt_iv c) /\ fits 64 (decrypt_iv c) /\
  match cipher_key c with
  | Some _ => cipher_nonce_len c = EVP_AEAD_nonce_length /\ cipher_tag_len c = EVP_AEAD_max_tag_len
  | None => cipher_tag_len c = 0
  end.

Definition nonce_bytes (v : Z) : bytes := be_bytes 8 v ++ zrepeat (EVP_AEAD_nonce_length - 8) 0.

Definition plain_body (e : MuxEvent) : bool := negb (body_no_encrypt (flags (head e)) =? 0).

(** [w] is the frame, sealed with counter [v], that carries the event [e] (with its length). *)
Definition frame_of (key : bytes) (v : Z) (e : MuxEvent) (w : bytes) : Prop :=
  exists b sh tl mo mo' e0,
    MuxEventHead_wf (head e) /\ len (head e) = zlen b /\
    EVP_AEAD_CTX_seal key mo (nonce_bytes v) (head_wire (head e)) = Some sh /\
    (if (0 <? zlen b) && negb (plain_body e)
     then EVP_AEAD_CTX_seal key mo' (nonce_bytes v) b = Some tl else tl = b) /\
    w = sh ++ tl /\
    NewEvent (head e) = Some e0 /\ (if zlen b =? 0 then e0 = e else Decode e0 b = Ok e).

(** The event the peer gets. *)
Definition delivered (n : Z) (e : MuxEvent) : MuxEvent :=
  {| head := with_len n (head e); body := received (body e) |}.

Section facts.
Context `{!PlatformOk} `{!NanopbOk} `{!AeadOk}.

Lemma New_wf m k c : New m k = Some c -> ctx_wf c.
Proof.
  unfold New; case_match; [done|]; intros [= <-]; unfold ctx_wf; simpl.
  destruct (get_cipher_aead m); simpl; split_and!; by rewrite ?zlen_repeat.
Qed.

Lemma make_nonce_spec v :
  fits 64 v -> make_nonce EVP_AEAD_nonce_length v = Ok (nonce_bytes v).
Proof.
  intros; unfold make_nonce, native_to_big; rewrite ghton_network by done.
  pose proof aead_nonce_room.
  rewrite zblit_head by (rewrite zlen_be_bytes, zlen_repeat; lia).
  rewrite zlen_be_bytes; unfold nonce_bytes, zdrop, zrepeat; cbn [access].
  rewrite drop_replicate; do 3 f_equal; lia.
Qed.

Lemma zlen_nonce v : zlen (nonce_bytes v) = EVP_AEAD_nonce_length.
Proof.
  pose proof aead_nonce_room; unfold nonce_bytes.
  rewrite zlen_app, zlen_be_bytes, zlen_repeat; lia.
Qed.

Lemma ctx_crypt c key :
  ctx_wf c -> cipher_key c = Some key ->
  cipher_nonce_len c = EVP_AEAD_nonce_length /\ cipher_tag_len c = EVP_AEAD_max_tag_len.
Proof. intros (_ & _ & _ & _ & Hk) E; by rewrite E in Hk. Qed.

Lemma head_wf_len h n : MuxEventHead_wf h -> fits 16 n -> MuxEventHead_wf (with_len n h).
Proof. by intros (? & ? & ? & ?) ?. Qed.

Lemma event_head_wf e n : event_wf e -> fits 16 n -> MuxEventHead_wf (with_len n (head e)).
Proof.
  intros (? & ? & Hty & ?) ?; split_and!; try done; simpl; rewrite Hty.
  by destruct (body e).
Qed.

(** The scratch buffer after body and head were written: the head, then the body. *)
Lemma scratch_head (eb hw : bytes) :
  zlen hw = kEventHeadSize -> kEventHeadSize <= zlen eb ->
  exists eb', zblit 0 hw eb = Some eb' /\ zlen eb' = zlen eb /\
    zslice 0 kEventHeadSize eb' = Some hw /\
    forall o n, kEventHeadSize <= o -> zslice o n eb' = zslice o n eb.
Proof.
  intros Hw Heb; rewrite zblit_Some by (rewrite ?Hw; lia).
  eexists; split; [done|].
  assert (zblit 0 hw eb = Some (ztake 0 eb ++ hw ++ zdrop (0 + zlen hw) eb)) as E
    by (rewrite zblit_Some by (rewrite ?Hw; lia); done).
  split_and!.
  - by apply zblit_inv in E as (_ & _ & ? & _).
  - by eapply zslice_zblit_same.
  - intros; eapply zslice_zblit_after; [done | lia].
Qed.

(** State and buffers between the two halves of [Encrypt]: the body [b] is encoded, at offset 8 of
    the scratch buffer or in its place in the output. *)
Definition body_placed (plain : bool) (c : CipherContext) (b out : bytes) : Prop :=
  if plain
  then exists p q, out = p ++ b ++ q /\ zlen p = kEventHeadSize + EVP_AEAD_max_tag_len
  else zslice kEventHeadSize (zlen b) (encode_buffer c) = Some b.

(** The sizes [Encrypt] accepts: the output holds the largest regular frame and this one, the body
    fits the scratch buffer. *)
Definition encodable (e : MuxEvent) (out : bytes) : Prop :=
  kEventHeadSize + kMaxChunkSize + 2 * EVP_AEAD_max_tag_len <= zlen out /\
  kEventHeadSize + body_max (body e) + 2 * EVP_AEAD_max_tag_len <= zlen out /\
  body_max (body e) <= kMaxChunkSize + kReservedBufferSize.

Definition same_ctx (c c' : CipherContext) : Prop :=
  ctx_wf c' /\ cipher_key c' = cipher_key c /\ decrypt_iv c' = decrypt_iv c.

Lemma Encrypt_body_spec c e out key plain :
  ctx_wf c -> cipher_key c = Some key -> event_wf e -> encodable e out ->
  exists b c' out', Encrypt_body plain out (c, e) =
      ((c', set_head (with_len (zlen b) (head e)) e), Ok (b, out')) /\
    same_ctx c c' /\ encrypt_iv c' = encrypt_iv c /\ zlen out' = zlen out /\
    body_size (body e) (zlen b) /\ is_bytes b /\ body_placed plain c' b out' /\
    exists e0, NewEvent (with_len (zlen b) (head e)) = Some e0 /\
      (if zlen b =? 0 then e0 = delivered (zlen b) e else Decode e0 b = Ok (delivered (zlen b) e)).
Proof.
  intros Hc Hk He (Hout & Hout' & Hmax); pose proof Hc as (Heb & Hdb & Hei & Hdi & Hkk).
  destruct (ctx_crypt c key Hc Hk) as [Hn Ht]; pose proof aead_tag_room as Htag.
  unfold kEventHeadSize, kMaxChunkSize, kReservedBufferSize in *.
  unfold Encrypt_body; srun; rewrite Ht; unfold kEventHeadSize.
  set (cap := if plain then _ else _).
  assert (8192 <= cap /\ body_max (body e) <= cap) as [? ?] by (subst cap; destruct plain; lia).
  destruct (Encode_spec e cap) as (b & HE & Hb & Hbb & HN0 & HN); [done | lia | lia |].
  rewrite HE; srun; pose proof (body_size_max _ _ (proj2 (proj2 (proj2 He))) Hb).
  rewrite wrap_small by (unfold fits; lia).
  assert (exists e0, NewEvent (with_len (zlen b) (head e)) = Some e0 /\
      (if zlen b =? 0 then e0 = delivered (zlen b) e else Decode e0 b = Ok (delivered (zlen b) e))) as HD.
  { case Z.eqb_spec; intros.
    - specialize (HN0 ltac:(done)); eexists; split; [by apply NewEvent_with_len|done].
    - apply HN; [done | done | unfold kMaxChunkSize; lia]. }
  destruct plain; srun.
  - rewrite zblit_Some by lia; srun; eexists b, c, _; split; [done|].
    split_and!; try done; try lia; [by rewrite !zlen_app, zlen_take, zlen_drop by lia; lia|].
    eexists _, _; split; [done|]; rewrite zlen_take; unfold kEventHeadSize; lia.
  - assert (zblit 8 b (encode_buffer c) =
      Some (ztake 8 (encode_buffer c) ++ b ++ zdrop (8 + zlen b) (encode_buffer c))) as E
      by (apply zblit_Some; lia).
    rewrite E; srun; eexists b, _, _; split; [done|].
    split_and!; try done; try lia; [|by eapply zslice_zblit_same].
    apply zblit_inv in E as (_ & _ & E & _); split; [|done].
    unfold ctx_wf; simpl; rewrite E; by split_and!.
Qed.

(** [remove_suffix] under its guard. *)
Lemma cut_spec (n : Z) (l : bytes) : (if n <? zlen l then ztake n l else l) = ztake n l.
Proof. case Z.ltb_spec; intros; [done | by rewrite ztake_all]. Qed.

(** The two frames [Encrypt_seal] leaves in the output. *)
Lemma cut_plain (plain : bool) c b out sh :
  body_placed plain c b out -> zlen sh = kEventHeadSize + EVP_AEAD_max_tag_len ->
  (0 <? zlen b) && negb plain = false ->
  ztake (zlen sh + zlen b) (sh ++ zdrop (zlen sh) out) = sh ++ b.
Proof.
  unfold body_placed; intros Hp Hsh Hc; destruct plain.
  - destruct Hp as (p & q & -> & Hpl); rewrite zdrop_app_exact by lia.
    rewrite app_assoc; apply ztake_app_exact; by rewrite zlen_app.
  - rewrite andb_true_r in Hc; apply Z.ltb_ge in Hc; pose proof (zlen_nonneg b).
    rewrite (zlen_zero b) by lia; rewrite zlen_nil, app_nil_r; apply ztake_app_exact; lia.
Qed.

Lemma Encrypt_seal_spec c e key b out plain :
  ctx_wf c -> cipher_key c = Some key -> MuxEventHead_wf (head e) ->
  zlen b <= kMaxChunkSize + kReservedBufferSize ->
  kEventHeadSize + zlen b + 2 * EVP_AEAD_max_tag_len <= zlen out ->
  body_placed plain c b out ->
  exists c' sh tl mo mo', Encrypt_seal key plain b out (c, e) = ((c', e), Ok (sh ++ tl)) /\
    same_ctx c c' /\ encrypt_iv c' = wrap 64 (encrypt_iv c + 1) /\
    EVP_AEAD_CTX_seal key mo (nonce_bytes (encrypt_iv c)) (head_wire (head e)) = Some sh /\
    (if (0 <? zlen b) && negb plain
     then EVP_AEAD_CTX_seal key mo' (nonce_bytes (encrypt_iv c)) b = Some tl else tl = b).
Proof.
  intros Hc Hk Hh Hlb Hout Hplaced; pose proof Hc as (Heb & Hdb & Hei & Hdi & Hkk).
  destruct (ctx_crypt c key Hc Hk) as [Hn Ht]; pose proof aead_tag_room as Htag.
  unfold kEventHeadSize, kMaxChunkSize, kReservedBufferSize in *; pose proof (zlen_nonneg b).
  unfold Encrypt_seal; srun; unfold kEventHeadSize.
  rewrite zslice_Some by lia; srun.
  rewrite MuxEventHead_Encode_spec by
    (done || (unfold kEventHeadSize; rewrite zlen_take; [lia | rewrite zlen_drop; lia])); srun.
  rewrite zdrop_all, app_nil_r by
    (unfold kEventHeadSize; rewrite zlen_take; [lia | rewrite zlen_drop; lia]).
  destruct (scratch_head (encode_buffer c) (head_wire (head e))) as (eb & -> & Hebl & Hhd & Hrest);
    [apply zlen_head_wire | unfold kEventHeadSize; lia |]; srun.
  rewrite Hn, make_nonce_spec by done; srun; unfold kEventHeadSize in *; rewrite Hhd; srun.
  destruct (aead_seal_fits key (zlen out) (nonce_bytes (encrypt_iv c)) (head_wire (head e)))
    as [sh Hsh]; [apply zlen_nonce | rewrite zlen_head_wire; unfold kEventHeadSize; lia |].
  rewrite Hsh; srun; apply aead_seal_length in Hsh as Hshl; rewrite zlen_head_wire in Hshl.
  unfold kEventHeadSize in Hshl; rewrite zblit_head by lia; srun.
  assert (same_ctx c (set_encrypt_iv (wrap 64 (encrypt_iv c + 1)) (set_encode_buffer eb c))) as Hc'.
  { split; [|done]; unfold ctx_wf; simpl; rewrite Hebl; split_and!; try done; by apply wrap_range. }
  destruct ((0 <? zlen b) && negb plain) eqn:Eb; srun.
  - apply andb_true_iff in Eb as [_ ->%negb_true_iff].
    unfold body_placed, kEventHeadSize in Hplaced; rewrite Hrest, Hplaced by lia; srun.
    set (mo' := zlen (sh ++ _) - zlen sh).
    assert (mo' = zlen out - zlen sh) as Hmo by (subst mo'; rewrite zlen_app, zlen_drop; lia).
    destruct (aead_seal_fits key mo' (nonce_bytes (encrypt_iv c)) b) as [sb Hsb];
      [apply zlen_nonce | lia |].
    rewrite Hsb; srun; apply aead_seal_length in Hsb as Hsbl.
    rewrite (zblit_next sh sb out _ (zlen sh + zlen sb)) by lia; srun.
    rewrite cut_spec, ztake_app_exact by (by rewrite zlen_app).
    by eexists _, sh, sb, _, mo'.
  - rewrite cut_spec, cut_plain with (plain := plain) (c := c)
      by (done || unfold kEventHeadSize; lia).
    by eexists _, sh, b, _, 0.
Qed.

Definition enc_result (c : CipherContext) (key : bytes) (e : MuxEvent)
    (r : CipherContext * MuxEvent * res bytes) : Prop :=
  exists w n c', r = ((c', set_head (with_len n (head e)) e), Ok w) /\
    same_ctx c c' /\ encrypt_iv c' = wrap 64 (encrypt_iv c + 1) /\
    body_size (body e) n /\ frame_of key (encrypt_iv c) (delivered n e) w.

Lemma Encrypt_frame c e out key :
  ctx_wf c -> cipher_key c = Some key -> event_wf e -> encodable e out ->
  enc_result c key e (Encrypt out (c, e)).
Proof.
  intros Hc Hk He Hfit; destruct (ctx_crypt c key Hc Hk) as [_ Ht]; pose proof Hfit as (Hout & Hout' & Hmax).
  pose proof aead_tag_room as Htag; unfold Encrypt; srun; rewrite Ht, Hk.
  rewrite wrap_small by (unfold fits, kEventHeadSize, kMaxChunkSize; lia).
  bool_false (zlen out <? kEventHeadSize + kMaxChunkSize + 2 * EVP_AEAD_max_tag_len).
  set (plain := negb _).
  destruct (Encrypt_body_spec c e out key plain Hc Hk He Hfit)
    as (b & c1 & out1 & -> & (Hc1 & Hk1 & Hd1) & Hi1 & Ho1 & Hb & Hbb & Hpl & e0 & HN & HD); srun.
  pose proof (body_size_max _ _ (proj2 (proj2 (proj2 He))) Hb) as Hb0.
  assert (fits 16 (zlen b)) by (unfold fits, kMaxChunkSize, kReservedBufferSize in *; lia).
  destruct (Encrypt_seal_spec c1 (set_head (with_len (zlen b) (head e)) e) key b out1 plain)
    as (c2 & sh & tl & mo & mo' & -> & (Hc2 & Hk2 & Hd2) & Hi2 & Hsh & Htl);
    [done | congruence | by apply event_head_wf | lia | lia | done |].
  exists (sh ++ tl), (zlen b), c2; rewrite Hi1 in *; split; [done|]; split_and!; try done; try lia.
  - split_and!; congruence.
  - exists b, sh, tl, mo, mo', e0; simpl in *; split_and!; try done; by apply event_head_wf.
Qed.

Lemma Decrypt_head_frame d key e sh k mo :
  ctx_wf d -> cipher_key d = Some key -> MuxEventHead_wf (head e) ->
  EVP_AEAD_CTX_seal key mo (nonce_bytes (decrypt_iv d)) (head_wire (head e)) = Some sh ->
  Decrypt_head d (sh ++ k) = Ok (head e, nonce_bytes (decrypt_iv d)).
Proof.
  intros Hd Hk Hh Hsh; pose proof Hd as (_ & _ & _ & Hdi & _).
  destruct (ctx_crypt d key Hd Hk) as [Hn Ht]; pose proof aead_tag_room.
  unfold Decrypt_head; rewrite Hk, Hn, Ht, make_nonce_spec by done; srun.
  apply aead_seal_length in Hsh as Hl; rewrite zlen_head_wire in Hl.
  rewrite zslice_prefix by lia; srun.
  rewrite (aead_open_seal _ _ _ _ _ _ Hsh) by lia; srun.
  rewrite <- (app_nil_r (head_wire _)), zslice_prefix by (by rewrite zlen_head_wire); srun.
  rewrite <- (app_nil_r (head_wire _)), MuxEventHead_Decode_spec by done; done.
Qed.

Lemma frame_length key v e w :
  frame_of key v e w ->
  zlen w = expected_len EVP_AEAD_max_tag_len (head e) /\ 0 <= len (head e).
Proof.
  intros (b & sh & tl & mo & mo' & e0 & Hh & Hl & Hsh & Htl & -> & _).
  pose proof (zlen_nonneg b); split; [|lia].
  apply aead_seal_length in Hsh as [Hsh _]; rewrite zlen_head_wire in Hsh.
  unfold expected_len; rewrite zlen_app, Hl, Hsh; revert Htl; unfold plain_body.
  rewrite negb_involutive, andb_comm; case_match; [intros [-> _]%aead_seal_length | intros ->]; lia.
Qed.

(** The body of a frame, behind its sealed head. *)
Lemma Decrypt_body_frame d key e sh b tl rest mo' n :
  ctx_wf d -> cipher_key d = Some key -> MuxFlags_wf (flags (head e)) ->
  len (head e) = zlen b -> 0 < zlen b <= kMaxChunkSize + 128 ->
  zlen sh = kEventHeadSize + EVP_AEAD_max_tag_len ->
  (if (0 <? zlen b) && negb (plain_body e)
   then EVP_AEAD_CTX_seal key mo' (nonce_bytes (decrypt_iv d)) b = Some tl else tl = b) ->
  exists d', Decrypt_body (head e) (nonce_bytes (decrypt_iv d)) ((sh ++ tl) ++ rest) n d =
      (d', Ok (b, n + zlen tl)) /\ ctx_wf d' /\ cipher_key d' = cipher_key d /\
    encrypt_iv d' = encrypt_iv d /\ decrypt_iv d' = decrypt_iv d.
Proof.
  intros Hd Hk [Hf _] Hl Hb Hsh Htl; pose proof Hd as (Heb & Hdb & Hei & Hdi & Hkk).
  destruct (ctx_crypt d key Hd Hk) as [Hn Ht]; pose proof aead_tag_room.
  unfold Decrypt_body; srun; rewrite Hk, Ht, Hl; unfold plain_body in Htl; rewrite negb_involutive in Htl.
  revert Htl; bool_true (0 <? zlen b); unfold fits in Hf; rewrite <- app_assoc.
  destruct (Z.eqb_spec (body_no_encrypt (flags (head e))) 0) as [E|E]; simpl; intros Htl.
  - rewrite E; cbn [Z.ltb]; apply aead_seal_length in Htl as Htll.
    change (0 <? 0) with false; srun.
    rewrite zslice_app by lia; srun.
    rewrite (aead_open_seal _ _ _ _ _ _ Htl)
      by (rewrite Hdb; unfold kMaxChunkSize, kReservedBufferSize in *; lia); srun.
    assert (zlen b <= zlen (decode_buffer d)) by (rewrite Hdb; unfold kMaxChunkSize, kReservedBufferSize in *; lia).
    rewrite zblit_head by done; srun.
    rewrite zslice_prefix by done; srun; eexists; split; [by rewrite (proj1 Htll)|].
    split_and!; try done; unfold ctx_wf; simpl; split_and!; try done.
    rewrite zlen_app, zlen_drop; lia.
  - subst tl; bool_true (0 <? body_no_encrypt (flags (head e))); srun.
    rewrite zslice_app by lia; srun. by eexists.
Qed.

Lemma Decrypt_frame d key e w rest :
  ctx_wf d -> cipher_key d = Some key -> frame_of key (decrypt_iv d) e w ->
  len (head e) <= kMaxChunkSize + 128 ->
  exists d', Decrypt (w ++ rest) d = (d', Ok (e, zlen w)) /\ ctx_wf d' /\
    cipher_key d' = cipher_key d /\ encrypt_iv d' = encrypt_iv d /\
    decrypt_iv d' = wrap 64 (decrypt_iv d + 1).
Proof.
  intros Hd Hk Hf Hmax; destruct (frame_length _ _ _ _ Hf) as [Hwl Hlen].
  destruct Hf as (b & sh & tl & mo & mo' & e0 & Hh & Hl & Hsh & Htl & -> & HN & HD).
  destruct (ctx_crypt d key Hd Hk) as [Hn Ht]; pose proof aead_tag_room.
  pose proof (zlen_nonneg rest); pose proof (zlen_nonneg tl); pose proof (zlen_nonneg b).
  pose proof (aead_seal_length _ _ _ _ _ Hsh) as [Hshl _]; rewrite zlen_head_wire in Hshl.
  unfold Decrypt; srun; rewrite Ht, (zlen_app (sh ++ tl)).
  assert (zlen (sh ++ tl) = zlen sh + zlen tl) as Hsum by apply zlen_app.
  bool_false (zlen (sh ++ tl) + zlen rest <? kEventHeadSize + EVP_AEAD_max_tag_len).
  rewrite <- (app_assoc sh tl rest), (Decrypt_head_frame d key e sh _ mo) by done; srun.
  bool_false (kMaxChunkSize + 128 <? len (head e)); rewrite <- Hwl.
  bool_false (zlen (sh ++ tl) + zlen rest <? zlen (sh ++ tl)); rewrite HN; srun; rewrite Hl.
  assert (ctx_wf (next_decrypt_iv d)) as Hnext.
  { destruct Hd as (? & ? & ? & ? & ?); split_and!; try done; simpl; by apply wrap_range. }
  revert HD; case Z.eqb_spec; intros Hb0 HD.
  - subst e0; exists (next_decrypt_iv d); split_and!; try done.
    revert Htl; bool_false (0 <? zlen b); simpl; intros ->; do 3 f_equal; lia.
  - rewrite app_assoc; destruct (Decrypt_body_frame d key e sh b tl rest mo' (kEventHeadSize + EVP_AEAD_max_tag_len))
      as (d' & -> & Hd' & Hk' & Hi' & Hdi'); try done; [apply Hh | lia |].
    rewrite HD; exists (next_decrypt_iv d'); split_and!; try done.
    + do 3 f_equal; lia.
    + destruct Hd' as (? & ? & ? & ? & ?); split_and!; try done; simpl; by apply wrap_range.
    + unfold next_decrypt_iv; simpl; by rewrite Hdi'.
Qed.

(** A proper prefix of a frame makes [Decrypt] ask for more and changes nothing. *)
Lemma Decrypt_prefix d key e p q :
  ctx_wf d -> cipher_key d = Some key -> frame_of key (decrypt_iv d) e (p ++ q) ->
  len (head e) <= kMaxChunkSize + 128 -> q <> [] ->
  Decrypt p d = (d, Err ERR_NEED_MORE_INPUT_DATA).
Proof.
  intros Hd Hk Hf Hmax Hq; destruct (frame_length _ _ _ _ Hf) as [Hwl Hlen].
  destruct Hf as (b & sh & tl & mo & mo' & e0 & Hh & Hl & Hsh & Htl & Ew & HN & HD).
  destruct (ctx_crypt d key Hd Hk) as [Hn Ht]; pose proof aead_tag_room.
  apply aead_seal_length in Hsh as Hshl; rewrite zlen_head_wire in Hshl.
  assert (0 < zlen q) by by apply zlen_pos.
  unfold Decrypt; srun; rewrite Ht; case Z.ltb_spec; [done|]; intros Hp.
  assert (exists k, p = sh ++ k) as [k ->].
  { exists (zdrop (zlen sh) p); rewrite <- (ztake_drop (zlen sh) p) at 1; f_equal.
    rewrite <- (ztake_app_le p q) by lia; rewrite Ew; by apply ztake_app_exact. }
  rewrite (Decrypt_head_frame d key e sh k mo) by done; srun.
  bool_false (kMaxChunkSize + 128 <? len (head e)); rewrite <- Hwl.
  rewrite (zlen_app (sh ++ k) q). by bool_true (zlen (sh ++ k) <? zlen (sh ++ k) + zlen q).
Qed.

(** A frame whose head announces more than the receiver allows is refused as soon as the head is
    there, and the counter stays. *)
Lemma Decrypt_too_large d key e w rest :
  ctx_wf d -> cipher_key d = Some key -> frame_of key (decrypt_iv d) e w ->
  kMaxChunkSize + 128 < len (head e) ->
  Decrypt (w ++ rest) d = (d, Err ERR_INVALID_EVENT).
Proof.
  intros Hd Hk Hf Hmax; destruct Hf as (b & sh & tl & mo & mo' & e0 & Hh & Hl & Hsh & _ & -> & _).
  destruct (ctx_crypt d key Hd Hk) as [Hn Ht]; pose proof aead_tag_room.
  pose proof (aead_seal_length _ _ _ _ _ Hsh) as [Hshl _]; rewrite zlen_head_wire in Hshl.
  unfold Decrypt; srun; rewrite Ht, <- app_assoc, (zlen_app sh).
  pose proof (zlen_nonneg (tl ++ rest)).
  bool_false (zlen sh + zlen (tl ++ rest) <? kEventHeadSize + EVP_AEAD_max_tag_len).
  rewrite (Decrypt_head_frame d key e sh _ mo) by done; srun.
  by bool_true (kMaxChunkSize + 128 <? len (head e)).
Qed.

(** ** Any input *)

Lemma Decrypt_head_safe d inp :
  ctx_wf d -> is_bytes inp -> kEventHeadSize + cipher_tag_len d <= zlen inp ->
  match Decrypt_head d inp with
  | Ok (h, _) => MuxEventHead_wf h
  | Err _ => True
  | Ub | Hang => False
  end.
Proof.
  intros Hd Hb Hl; pose proof Hd as (_ & _ & _ & Hdi & Hk).
  unfold Decrypt_head; destruct (cipher_key d) as [key|] eqn:E.
  - destruct Hk as [Hn Ht]; rewrite Hn, make_nonce_spec by done; srun.
    pose proof aead_tag_room; rewrite Ht in *.
    rewrite zslice_Some by (unfold kEventHeadSize in *; lia); srun; rewrite zdrop_0.
    destruct (EVP_AEAD_CTX_open _ _ _ _) as [p|] eqn:Eo; [|done]; srun.
    assert (is_bytes p) by (eapply aead_open_bytes; [|done]; auto with snova).
    apply aead_open_length in Eo as [Ep _]; unfold kEventHeadSize in *; rewrite zlen_take in Ep by lia.
    rewrite zslice_Some, zdrop_0, ztake_all by lia; srun.
    destruct (MuxEventHead_Decode_total p) as (h & -> & Hh); [done | unfold kEventHeadSize; lia|]; done.
  - rewrite Hk in Hl; destruct (MuxEventHead_Decode_total inp) as (h & -> & Hh); [done | lia | done].
Qed.

Lemma Decrypt_body_safe d h nonce inp n :
  ctx_wf d -> 0 < len h <= kMaxChunkSize + 128 -> MuxFlags_wf (flags h) ->
  expected_len (cipher_tag_len d) h <= zlen inp ->
  match Decrypt_body h nonce inp n d with
  | (d', Ub) | (d', Hang) => False
  | (d', Err _) => ctx_wf d'
  | (d', Ok (b, m)) => ctx_wf d' /\ m = n - (kEventHeadSize + cipher_tag_len d) + expected_len (cipher_tag_len d) h
  end.
Proof.
  intros Hd Hl [Hf _] He; pose proof Hd as (Heb & Hdb & Hei & Hdi & Hk); pose proof aead_tag_room.
  revert He; unfold expected_len, Decrypt_body; srun; unfold fits, kMaxChunkSize in *.
  bool_true (0 <? len h); rewrite andb_true_r; unfold kEventHeadSize; intros He.
  destruct (cipher_key d) as [key|] eqn:E; [destruct Hk as [Hn Ht]|].
  - rewrite Ht in *; case Z.ltb_spec; intros Hfl; revert He.
    + bool_false (body_no_encrypt (flags h) =? 0); intros He.
      rewrite zslice_Some by lia; srun; split; [done | lia].
    + bool_true (body_no_encrypt (flags h) =? 0); intros He.
      rewrite zslice_Some by lia; srun.
      destruct (EVP_AEAD_CTX_open _ _ _ _) as [p|] eqn:Eo; [|done]; srun.
      apply aead_open_length in Eo as [Ep ?]; rewrite zlen_take in Ep by (rewrite zlen_drop; lia).
      rewrite zblit_head by lia; srun.
      rewrite zslice_prefix by lia; srun; split; [|lia]; unfold ctx_wf; simpl; rewrite E.
      assert (zlen (p ++ zdrop (zlen p) (decode_buffer d)) = zlen (decode_buffer d)) as ->
        by (rewrite zlen_app, zlen_drop; lia).
      by split_and!.
  - rewrite Hk in *; rewrite zslice_Some; [srun; split; [done|] | lia | lia |]; revert He; case_match; lia.
Qed.

Lemma next_decrypt_iv_wf d : ctx_wf d -> ctx_wf (next_decrypt_iv d).
Proof. intros (? & ? & ? & ? & ?); split_and!; try done; simpl; by apply wrap_range. Qed.

Lemma Decrypt_safe d inp :
  ctx_wf d -> is_bytes inp ->
  match Decrypt inp d with
  | (d', Ub) | (d', Hang) => False
  | (d', Err _) => ctx_wf d'
  | (d', Ok (e, n)) => ctx_wf d' /\ kEventHeadSize <= n <= zlen inp
  end.
Proof.
  intros Hd Hb; unfold Decrypt; srun.
  case Z.ltb_spec; [done|]; intros Hl.
  pose proof (Decrypt_head_safe d inp Hd Hb Hl) as Hh.
  destruct (Decrypt_head d inp) as [[h nonce]| | |]; [|done..]; srun.
  case Z.ltb_spec; [done|]; intros Hlen; case Z.ltb_spec; [done|]; intros Hexp.
  destruct (NewEvent h) as [e0|] eqn:HN; [|done]; srun.
  destruct Hh as (? & Hln & ? & Hfl); unfold fits in Hln.
  assert (0 <= cipher_tag_len d) as Htag.
  { destruct Hd as (_ & _ & _ & _ & Hk); pose proof aead_tag_room; case_match; lia. }
  case Z.eqb_spec; intros Hz; [split; [by apply next_decrypt_iv_wf | unfold kEventHeadSize in *; lia]|].
  pose proof (Decrypt_body_safe d h nonce inp (kEventHeadSize + cipher_tag_len d) Hd
    ltac:(lia) Hfl Hexp) as Hbody.
  destruct (Decrypt_body _ _ _ _ _) as [d' [[b m]| | |]]; [destruct Hbody as [Hd' ->] | done..].
  pose proof (Decode_returns e0 b) as Hub; rewrite (NewEvent_head _ _ HN) in Hub.
  destruct (Decode e0 b); [split; [by apply next_decrypt_iv_wf|] | done | apply Hub; lia | apply Hub; lia].
  unfold expected_len, kEventHeadSize in *; revert Hexp; case_match; lia.
Qed.

(** ** Without a cipher *)

Lemma Encrypt_none_spec c e out :
  ctx_wf c -> cipher_key c = None -> event_wf e -> fits 16 (len (head e)) ->
  body_max (body e) <= kMaxChunkSize -> kEventHeadSize + kMaxChunkSize <= zlen out ->
  exists b, Encode e (zlen out - kEventHeadSize) = Ok b /\
    Encrypt out (c, e) = ((c, e), Ok (head_wire (head e) ++ b)).
Proof.
  intros Hc Hk He Hl Hmax Hout; pose proof Hc as (_ & _ & _ & _ & Ht); rewrite Hk in Ht.
  unfold kEventHeadSize, kMaxChunkSize in *.
  destruct (Encode_spec e (zlen out - 8)) as (b & HE & Hb & _); [done | lia | lia |].
  pose proof (body_size_max _ _ (proj2 (proj2 (proj2 He))) Hb).
  exists b; split; [done|]; unfold Encrypt; srun; rewrite Ht, Hk.
  rewrite wrap_small by (unfold fits, kEventHeadSize, kMaxChunkSize; lia).
  unfold kEventHeadSize, kMaxChunkSize; bool_false (zlen out <? 8 + 8192 + 2 * 0).
  f_equal; unfold Encrypt_none, kEventHeadSize; rewrite zslice_Some by lia; srun.
  assert (MuxEventHead_wf (head e)) by (by apply (event_head_wf e (len (head e))) in Hl; destruct (head e)).
  assert (zlen (ztake 8 (zdrop 0 out)) = 8) as H8 by (rewrite zlen_take; [done | rewrite zlen_drop; lia]).
  rewrite MuxEventHead_Encode_spec by (done || (unfold kEventHeadSize; lia)); srun.
  rewrite zdrop_all, app_nil_r by (unfold kEventHeadSize; lia).
  pose proof (zlen_head_wire (head e)) as Hw; unfold kEventHeadSize in Hw.
  rewrite zblit_head by lia; srun; rewrite Hw, zlen_app, zlen_drop, Hw by lia.
  replace (8 + (zlen out - 8) - 8) with (zlen out - 8) by lia; rewrite HE; srun.
  rewrite (zblit_next _ b out 8 (8 + zlen b)) by lia; srun.
  rewrite zslice_prefix by (rewrite zlen_app; lia); done.
Qed.

(** ** Theorems *)

(** C6. One event through the cipher.  Whatever the event (any class, any flags) and the bytes that
    follow, [Encrypt] writes a frame that the peer's [Decrypt], with the same key and its counter at
    the sender's, turns back into the event: the same stream id, type and flags, the length filled
    in, the same message or chunk; it consumes exactly the frame, and the two counters agree again. *)
Theorem encrypt_decrypt_roundtrip c d e out key rest :
  ctx_wf c -> ctx_wf d -> cipher_key c = Some key -> cipher_key d = Some key ->
  encrypt_iv c = decrypt_iv d -> event_wf e -> body_max (body e) <= kMaxChunkSize ->
  kEventHeadSize + kMaxChunkSize + 2 * EVP_AEAD_max_tag_len <= zlen out ->
  exists c' d' w n,
    Encrypt out (c, e) = ((c', set_head (with_len n (head e)) e), Ok w) /\
    Decrypt (w ++ rest) d = (d', Ok (delivered n e, zlen w)) /\
    ctx_wf c' /\ ctx_wf d' /\ cipher_key c' = Some key /\ cipher_key d' = Some key /\
    encrypt_iv c' = decrypt_iv d'.
Proof.
  intros Hc Hd Hkc Hkd Hiv He Hmax Hout.
  destruct (Encrypt_frame c e out key Hc Hkc He) as (w & n & c' & -> & (? & Hk' & ?) & Hi & Hn%body_size_max & Hf);
    [split_and!; [done | lia | unfold kReservedBufferSize; lia] | | apply He].
  rewrite Hiv in Hf, Hi.
  destruct (Decrypt_frame d key _ w rest Hd Hkd Hf) as (d' & HD & ? & Hk'' & ? & Hi');
    [simpl; lia|].
  exists c', d', w, n; split_and!; try done; congruence.
Qed.

(** An incomplete frame is not an error and not consumed: for every proper prefix of what
    [Encrypt] wrote, [Decrypt] asks for more input and leaves the receiver's context as it was. *)
Theorem decrypt_waits_for_whole_frame c d e out key :
  ctx_wf c -> ctx_wf d -> cipher_key c = Some key -> cipher_key d = Some key ->
  encrypt_iv c = decrypt_iv d -> event_wf e -> body_max (body e) <= kMaxChunkSize ->
  kEventHeadSize + kMaxChunkSize + 2 * EVP_AEAD_max_tag_len <= zlen out ->
  exists w, snd (Encrypt out (c, e)) = Ok w /\
    forall p q, w = p ++ q -> q <> [] -> Decrypt p d = (d, Err ERR_NEED_MORE_INPUT_DATA).
Proof.
  intros Hc Hd Hkc Hkd Hiv He Hmax Hout.
  destruct (Encrypt_frame c e out key Hc Hkc He) as (w & n & c' & -> & _ & _ & Hn%body_size_max & Hf);
    [split_and!; [done | lia | unfold kReservedBufferSize; lia] | | apply He].
  exists w; split; [done|]; intros p q -> Hq; rewrite Hiv in Hf.
  eapply Decrypt_prefix; [done | done | exact Hf | simpl; lia | done].
Qed.

(** Memory safety of the receiver against any peer: on every byte string, with any key and
    counter, [Decrypt] stays inside its input and its buffers, keeps its context well formed, and
    reports between 8 and the length of the input as consumed. *)
Theorem decrypt_memory_safe d inp :
  ctx_wf d -> is_bytes inp ->
  match Decrypt inp d with
  | (d', Ub) | (d', Hang) => False
  | (d', Err _) => ctx_wf d'
  | (d', Ok (e, n)) => ctx_wf d' /\ kEventHeadSize <= n <= zlen inp
  end.
Proof. apply Decrypt_safe. Qed.

(** The sizes of the two ends do not match.  A chunk of 8321 to 8416 bytes passes [Encrypt] with
    the connection's write buffer, but every receiver refuses the frame as an invalid event. *)
Theorem oversize_chunk_rejected c d s data out key rest :
  ctx_wf c -> ctx_wf d -> cipher_key c = Some key -> cipher_key d = Some key ->
  encrypt_iv c = decrypt_iv d -> fits 32 s -> is_bytes data ->
  zlen out = kWriteBufferSize ->
  kMaxChunkSize + 128 < zlen data -> zlen data + kEventHeadSize + 2 * EVP_AEAD_max_tag_len <= kWriteBufferSize ->
  exists w, snd (Encrypt out (c, make_event s (StreamChunk (Some data) (zlen data)))) = Ok w /\
    Decrypt (w ++ rest) d = (d, Err ERR_INVALID_EVENT).
Proof.
  intros Hc Hd Hkc Hkd Hiv Hs Hb Hout Hlo Hhi.
  pose proof aead_tag_room; unfold kWriteBufferSize, kMaxChunkSize, kReservedBufferSize, kEventHeadSize in *.
  assert (event_wf (make_event s (StreamChunk (Some data) (zlen data)))) as He.
  { do 3 (split; [done|]); simpl; split_and!; try done; lia. }
  destruct (Encrypt_frame c _ out key Hc Hkc He) as (w & n & c' & -> & _ & _ & Hn & Hf).
  { unfold encodable, kMaxChunkSize, kReservedBufferSize, kEventHeadSize; simpl; lia. }
  exists w; split; [done|]; rewrite Hiv in Hf; eapply Decrypt_too_large; [done | done | exact Hf |].
  unfold kMaxChunkSize; simpl in *; lia.
Qed.

(** The method "none" is accepted by [New], but [Encrypt] then writes the head before the body
    and never fills in [head.len]: of every event as the program makes it, the receiver takes only
    the eight bytes of the head, hands out an event with default contents, and is left with the
    body, which it will read as the next head. *)
Theorem none_cipher_loses_bodies c d s ev out :
  ctx_wf c -> ctx_wf d -> cipher_key c = None -> cipher_key d = None ->
  fits 32 s -> body_wf ev -> body_max ev <= kMaxChunkSize -> zlen out = kWriteBufferSize ->
  exists b e0,
    Encode (make_event s ev) (zlen out - kEventHeadSize) = Ok b /\ body_size ev (zlen b) /\
    Encrypt out (c, make_event s ev) =
      ((c, make_event s ev), Ok (head_wire (head (make_event s ev)) ++ b)) /\
    NewEvent (head (make_event s ev)) = Some e0 /\
    Decrypt (head_wire (head (make_event s ev)) ++ b) d = (next_decrypt_iv d, Ok (e0, kEventHeadSize)).
Proof.
  intros Hc Hd Hkc Hkd Hs Hev Hmax Hout; unfold kWriteBufferSize in Hout.
  assert (event_wf (make_event s ev)) as He by done.
  destruct (Encrypt_none_spec c (make_event s ev) out) as (b & HE & ->); try done;
    [rewrite Hout; unfold kReservedBufferSize; lia|].
  destruct (Encode_spec (make_event s ev) (zlen out - kEventHeadSize)) as (b' & HE' & Hb & _); try done;
    [simpl; rewrite Hout; unfold kReservedBufferSize; lia | rewrite Hout; unfold kEventHeadSize, kMaxChunkSize, kReservedBufferSize; lia |].
  assert (b' = b) as -> by congruence.
  assert (MuxEventHead_wf (head (make_event s ev))) as Hh
    by (by apply (event_head_wf (make_event s ev) 0)).
  assert (exists e0, NewEvent (head (make_event s ev)) = Some e0) as [e0 HN] by (destruct ev; by eexists).
  exists b, e0; split_and!; try done.
  pose proof Hd as (_ & _ & _ & _ & Ht); rewrite Hkd in Ht.
  unfold Decrypt; srun; rewrite Ht, zlen_app, zlen_head_wire, Z.add_0_r; pose proof (zlen_nonneg b).
  bool_false (kEventHeadSize + zlen b <? kEventHeadSize).
  unfold Decrypt_head; rewrite Hkd, MuxEventHead_Decode_spec by done; srun.
  unfold expected_len; change (len (head (make_event s ev))) with 0.
  change (0 <? 0) with false; rewrite andb_false_r.
  change (kMaxChunkSize + 128 <? 0) with false; bool_false (kEventHeadSize + zlen b <? kEventHeadSize + 0 + 0).
  by rewrite HN.
Qed.

(** Every frame with an encrypted body is sealed twice, head and body, under the same key and
    the same nonce. *)
Theorem frame_seals_head_and_body_with_one_nonce c e out key :
  ctx_wf c -> cipher_key c = Some key -> event_wf e -> body_max (body e) <= kMaxChunkSize ->
  kEventHeadSize + kMaxChunkSize + 2 * EVP_AEAD_max_tag_len <= zlen out ->
  plain_body e = false -> ~ body_size (body e) 0 ->
  exists sh sb mo mo' h b,
    snd (Encrypt out (c, e)) = Ok (sh ++ sb) /\ 0 < zlen b /\
    EVP_AEAD_CTX_seal key mo (nonce_bytes (encrypt_iv c)) h = Some sh /\
    EVP_AEAD_CTX_seal key mo' (nonce_bytes (encrypt_iv c)) b = Some sb.
Proof.
  intros Hc Hk He Hmax Hout Hp Hne.
  destruct (Encrypt_frame c e out key Hc Hk He) as (w & n & c' & -> & _ & _ & Hn & Hf).
  { split_and!; [done | lia | unfold kReservedBufferSize; lia]. }
  destruct Hf as (b & sh & tl & mo & mo' & e0 & _ & Hl & Hsh & Htl & -> & _); simpl in Hl.
  pose proof (zlen_nonneg b).
  assert (0 < zlen b) by (destruct (Z.eq_dec n 0) as [->|]; [done | lia]).
  revert Htl; unfold plain_body in *; simpl; rewrite Hp; bool_true (0 <? zlen b); simpl; intros Htl.
  by eexists sh, tl, mo, mo', _, b.
Qed.

End facts.

End cipher.

(** ** Witnesses *)

(** A little-endian machine with the flat codec and the toy AEAD. *)
Module Demo.

#[export] Existing Instances little_endian FlatCodec.flat ToyAead.toy.
#[export] Existing Instances little_endian_ok FlatCodec.flat_ok ToyAead.toy_ok.

Definition null_ctx : CipherContext :=
  {| cipher_key := None; encrypt_iv := 0; decrypt_iv := 0; cipher_nonce_len := 0; cipher_tag_len := 0;
     encode_buffer := []; decode_buffer := [] |}.

Definition ctx : CipherContext := default null_ctx (New (bs "chacha20_poly1305") (bs "hello,world")).
Definition none_ctx : CipherContext := default null_ctx (New (bs "none") []).
Definition key : bytes := str_resize 32 (bs "hello,world").
Definition wbuf : bytes := zrepeat kWriteBufferSize 0.
Definition chunk_event : MuxEvent := make_event 7 (StreamChunk (Some (bs "hello")) 5).
Definition big_chunk : bytes := zrepeat 8400 65.

Lemma ctx_ok : ctx_wf ctx.
Proof. by apply (New_wf (bs "chacha20_poly1305") (bs "hello,world")). Qed.

Lemma none_ctx_ok : ctx_wf none_ctx.
Proof. by apply (New_wf (bs "none") []). Qed.

Lemma chunk_event_ok : event_wf chunk_event.
Proof. repeat split; try done; try (by vm_compute). apply (is_bytes_bs "hello"). Qed.

End Demo.

Section witnesses.
Import Demo.

Lemma encrypt_decrypt_roundtrip_witness :
  exists c' d' w n,
    Encrypt wbuf (ctx, chunk_event) = ((c', set_head (with_len n (head chunk_event)) chunk_event), Ok w) /\
    Decrypt (w ++ bs "next") ctx = (d', Ok (delivered n chunk_event, zlen w)) /\
    ctx_wf c' /\ ctx_wf d' /\ cipher_key c' = Some key /\ cipher_key d' = Some key /\
    encrypt_iv c' = decrypt_iv d'.
Proof.
  apply (encrypt_decrypt_roundtrip ctx ctx chunk_event wbuf key (bs "next"));
    [apply ctx_ok | apply ctx_ok | done | done | done | apply chunk_event_ok | done | by vm_compute].
Defined.

Lemma decrypt_waits_for_whole_frame_witness :
  exists w, snd (Encrypt wbuf (ctx, chunk_event)) = Ok w /\
    forall p q, w = p ++ q -> q <> [] -> Decrypt p ctx = (ctx, Err ERR_NEED_MORE_INPUT_DATA).
Proof.
  apply (decrypt_waits_for_whole_frame ctx ctx chunk_event wbuf key);
    [apply ctx_ok | apply ctx_ok | done | done | done | apply chunk_event_ok | done | by vm_compute].
Defined.

Lemma decrypt_memory_safe_witness :
  match Decrypt (bs "GET / HTTP/1.1 with more than 24 bytes") ctx with
  | (d', Ub) | (d', Hang) => False
  | (d', Err _) => ctx_wf d'
  | (d', Ok (e, n)) => ctx_wf d' /\ kEventHeadSize <= n <= zlen (bs "GET / HTTP/1.1 with more than 24 bytes")
  end.
Proof. apply (decrypt_memory_safe ctx); [apply ctx_ok | apply is_bytes_bs]. Defined.

Lemma oversize_chunk_rejected_witness :
  exists w, snd (Encrypt wbuf (ctx, make_event 9 (StreamChunk (Some big_chunk) (zlen big_chunk)))) = Ok w /\
    Decrypt (w ++ []) ctx = (ctx, Err ERR_INVALID_EVENT).
Proof.
  apply (oversize_chunk_rejected ctx ctx 9 big_chunk wbuf key []);
    [apply ctx_ok | apply ctx_ok | done | done | done | done |
     by apply Forall_replicate | by vm_compute | by vm_compute | by vm_compute].
Defined.

Lemma none_cipher_loses_bodies_witness :
  let e := make_event 7 (StreamChunk (Some (bs "hello")) 5) in
  exists b e0,
    Encode e (zlen wbuf - kEventHeadSize) = Ok b /\ body_size (body e) (zlen b) /\
    Encrypt wbuf (none_ctx, e) = ((none_ctx, e), Ok (head_wire (head e) ++ b)) /\
    NewEvent (head e) = Some e0 /\
    Decrypt (head_wire (head e) ++ b) none_ctx = (next_decrypt_iv none_ctx, Ok (e0, kEventHeadSize)).
Proof.
  apply (none_cipher_loses_bodies none_ctx none_ctx 7 (StreamChunk (Some (bs "hello")) 5) wbuf);
    [apply none_ctx_ok | apply none_ctx_ok | done | done | done | apply chunk_event_ok | done | by vm_compute].
Defined.

Lemma frame_seals_head_and_body_with_one_nonce_witness :
  exists sh sb mo mo' h b,
    snd (Encrypt wbuf (ctx, chunk_event)) = Ok (sh ++ sb) /\ 0 < zlen b /\
    EVP_AEAD_CTX_seal key mo (nonce_bytes (encrypt_iv ctx)) h = Some sh /\
    EVP_AEAD_CTX_seal key mo' (nonce_bytes (encrypt_iv ctx)) b = Some sb.
Proof.
  apply (frame_seals_head_and_body_with_one_nonce ctx chunk_event wbuf key);
    [apply ctx_ok | done | apply chunk_event_ok | done | by vm_compute | done | done].
Defined.

End witnesses.
