(* ===== verification/Io.v ===== *)
(** * Connections

    The interface [IOConnection] of src/snova/io/io.h as a class of operations, what a connection
    promises to its users as classes of laws, [read_exact] and [read_until] of
    src/snova/io/io_util.cc and the buffering connection of src/snova/io/buffered_io.cc, which
    implements the interface over another connection. *)

From S2P Require Import Prelude IoBuf.

(** ** The interface

    A read is given the size of the destination and yields the bytes stored at its front with the
    error code (0 for none); a write yields the count of written bytes and the error code. *)

Class IOConnection (C : Type) := {
  AsyncRead : Z -> st C (bytes * Z);
  AsyncWrite : bytes -> st C (Z * Z);
  AsyncWriteV : list bytes -> st C (Z * Z);
  IoClose : C -> C
}.

(** A read never stores more than the destination holds. *)
Class IOConnectionOk (C : Type) `{IOConnection C} : Prop :=
  read_fits : forall cap c, 0 <= cap ->
    match AsyncRead cap c with
    | (c', Ok (d, ec)) => zlen d <= cap /\ is_bytes d
    | (c', Hang) => True
    | _ => False
    end.

(** A connection in use: the bytes that are still to be read from it, the bytes that were written
    to it, and the states from which it does not fail. *)
Class StreamView (C : Type) := {
  live : C -> Prop;
  rx : C -> bytes;
  tx : C -> bytes
}.

(** A byte stream: a read takes some bytes, not necessarily all that were asked for; a write
    takes all. *)
Class ByteStream (C : Type) `{IOConnection C, StreamView C} : Prop := {
  stream_read : forall cap c, live c -> 0 < cap -> rx c <> [] ->
    exists c' d, AsyncRead cap c = (c', Ok (d, 0)) /\ d <> [] /\ zlen d <= cap /\
      rx c = d ++ rx c' /\ tx c' = tx c /\ live c';
  stream_write : forall b c, live c ->
    exists c', AsyncWrite b c = (c', Ok (zlen b, 0)) /\ tx c' = tx c ++ b /\ rx c' = rx c /\ live c';
  stream_writev : forall bufs c, live c ->
    exists c', AsyncWriteV bufs c = (c', Ok (zlen (concat bufs), 0)) /\
      tx c' = tx c ++ concat bufs /\ rx c' = rx c /\ live c'
}.

(** ** A concrete connection

    The input arrives in the given pieces; after them the peer has closed ([asio::error::eof]). *)
Module Pipe.

Record pipe := { chunks : list bytes; sent : bytes }.

Definition read (cap : Z) : st pipe (bytes * Z) := fun p =>
  match chunks p with
  | [] => (p, Ok ([], 2))
  | ch :: t =>
      let rest := zdrop cap ch in
      ({| chunks := if decide (rest = []) then t else rest :: t; sent := sent p |}, Ok (ztake cap ch, 0))
  end.

Definition write (b : bytes) : st pipe (Z * Z) := fun p =>
  ({| chunks := chunks p; sent := sent p ++ b |}, Ok (zlen b, 0)).

#[export] Instance pipe_conn : IOConnection pipe := {|
  AsyncRead := read;
  AsyncWrite := write;
  AsyncWriteV bufs := write (concat bufs);
  IoClose p := p
|}.

#[export] Instance pipe_view : StreamView pipe := {|
  live p := Forall (fun ch => ch <> []) (chunks p);
  rx p := concat (chunks p);
  tx := sent
|}.

#[export] Instance pipe_stream : ByteStream pipe.
Proof.
  split; simpl; [|by eauto..].
  intros cap [[|ch t] s]; simpl; [done|]; intros [Hch Ht]%Forall_cons Hcap _.
  unfold read; simpl; eexists _, _; split; [done|]; simpl.
  assert (ztake cap ch <> []) as Hne.
  { intros E; apply (f_equal zlen) in E; apply zlen_pos in Hch.
    unfold zlen, ztake in *; rewrite length_take in E; simpl in E; lia. }
  split_and!; [done | | | done |].
  - unfold zlen, ztake; rewrite length_take; lia.
  - rewrite <- (ztake_drop cap ch) at 1; case_decide as E; [by rewrite E, app_nil_r | by rewrite <- app_assoc].
  - case_decide; [done | by constructor].
Qed.

End Pipe.

(** A peer that sends zero bytes for ever, at most three at a time. *)
Module ZeroConn.

Definition conn : Type := unit.

#[export] Instance zero_conn : IOConnection conn := {|
  AsyncRead cap := sret (zrepeat (Z.min cap 3) 0, 0);
  AsyncWrite b := sret (zlen b, 0);
  AsyncWriteV bufs := sret (zlen (concat bufs), 0);
  IoClose c := c
|}.

#[export] Instance zero_conn_ok : IOConnectionOk conn.
Proof.
  intros cap c Hc; simpl; unfold sret; split; [rewrite zlen_repeat; lia|].
  by apply Forall_replicate.
Qed.

End ZeroConn.

(** ** io_util.cc *)

Section io_util.
Context {C : Type} `{IOConnection C}.

(** [read_exact]: [stored] holds the bytes stored so far, [rest] is what is missing. *)
Fixpoint read_exact (fuel : nat) (rest : Z) (stored : bytes) : st C (bytes * Z) :=
  if 0 <? rest then
    match fuel with
    | O => fun c => (c, Hang)
    | S fuel =>
        let! '(d, ec) := AsyncRead rest in
        if negb (ec =? 0) then sret (stored, ec)
        else read_exact fuel (rest - zlen d) (stored ++ d)
    end
  else sret (stored, 0).

(** [read_until]: [buf] is the whole vector, its first [readed_len] bytes have been read; the
    result is the vector, the new [readed_len] and the position, or -1. *)
Fixpoint read_until (fuel : nat) (until buf : bytes) (readed_len : Z) : st C (bytes * Z * Z) :=
  match fuel with
  | O => fun c => (c, Hang)
  | S fuel =>
      let! readed_view := slift (access (zslice 0 readed_len buf)) in
      match bfind until readed_view with
      | Some pos => sret (buf, readed_len, pos)
      | None =>
          let buf := if zlen buf - readed_len <? zlen until
                     then buf ++ zrepeat (zlen buf) 0 else buf in
          let! '(d, ec) := AsyncRead (zlen buf - readed_len) in
          if 0 <? zlen d then
            let! buf := slift (access (zblit readed_len d buf)) in
            read_until fuel until buf (readed_len + zlen d)
          else sret (buf, readed_len, -1)
      end
  end.

Context `{!StreamView C, !ByteStream C}.

Lemma read_exact_spec fuel : forall n stored c,
  live c -> n <= zlen (rx c) -> (Z.to_nat n <= fuel)%nat ->
  exists c', read_exact fuel n stored c = (c', Ok (stored ++ ztake n (rx c), 0)) /\
    rx c' = zdrop n (rx c) /\ tx c' = tx c /\ live c'.
Proof.
  induction fuel as [|fuel IH]; intros n stored c Hc Hn Hf; cbn [read_exact]; case Z.ltb_spec; intros Hp;
    try lia;
    try (exists c; unfold ztake, zdrop; replace (Z.to_nat n) with 0%nat by lia; by rewrite app_nil_r).
  destruct (stream_read n c) as (c1 & d & E & Hd & Hl & Hrx & Htx & Hc1);
    [done | done | intros E; rewrite E, zlen_nil in Hn; lia|].
  srun; rewrite E; cbn [negb Z.eqb]; apply zlen_pos in Hd.
  rewrite Hrx, zlen_app in Hn.
  destruct (IH (n - zlen d) (stored ++ d) c1) as (c' & -> & Hrx' & Htx' & Hc'); [done | lia | lia|].
  exists c'; rewrite Hrx; split_and!; [| | by rewrite Htx' | done].
  - rewrite <- app_assoc; do 4 f_equal; unfold ztake, zlen in *; rewrite take_app_ge by lia; do 2 f_equal; lia.
  - rewrite zdrop_app_ge by lia; done.
Qed.

Lemma read_until_spec fuel : forall until buf n c p,
  live c -> until <> [] -> 0 <= n <= zlen buf -> 0 < zlen buf ->
  bfind until (ztake n buf ++ rx c) = Some p -> (length (rx c) < fuel)%nat ->
  exists c' buf' n', read_until fuel until buf n c = (c', Ok (buf', n', p)) /\
    0 <= n' <= zlen buf' /\ ztake n' buf' ++ rx c' = ztake n buf ++ rx c /\
    p + zlen until <= n' /\ tx c' = tx c /\ live c'.
Proof.
  induction fuel as [|fuel IH]; intros u buf n c p Hc Hu Hn Hb Hp Hf; [lia|].
  cbn [read_until]; srun; rewrite zslice_Some, zdrop_0 by lia.
  destruct (bfind u (ztake n buf)) as [q|] eqn:Eq.
  { pose proof (bfind_app _ _ (rx c) _ Eq) as E; rewrite E in Hp; injection Hp as ->.
    exists c, buf, n; split_and!; try done; try lia.
    apply bfind_range in Eq as [? ?]; by rewrite zlen_take in *. }
  set (buf1 := if zlen buf - n <? zlen u then _ else buf).
  assert (ztake n buf1 = ztake n buf /\ 0 <= n < zlen buf1) as [Htk Hn1].
  { apply zlen_pos in Hu; unfold buf1; case Z.ltb_spec; intros; [|split; [done | lia]].
    rewrite ztake_app_le, zlen_app, zlen_repeat by lia; split; [done | lia]. }
  destruct (stream_read (zlen buf1 - n) c) as (c1 & d & E & Hd & Hl & Hrx & Htx & Hc1);
    [done | lia | intros E; rewrite E, app_nil_r, Eq in Hp; done|].
  rewrite E; apply zlen_pos in Hd as Hd'; bool_true (0 <? zlen d).
  rewrite zblit_Some by lia; set (buf2 := _ ++ _ ++ _).
  assert (ztake (n + zlen d) buf2 = ztake n buf ++ d /\ zlen buf2 = zlen buf1) as [Htk2 Hl2].
  { unfold buf2; rewrite app_assoc, ztake_app_exact, !zlen_app, zlen_drop, zlen_take, Htk
      by (rewrite ?zlen_app, ?zlen_take; lia); split; [done | lia]. }
  destruct (IH u buf2 (n + zlen d) c1 p) as (c' & buf' & n' & -> & ? & Happ & ? & ? & ?);
    [done | done | lia | lia | | |].
  - by rewrite Htk2, <- app_assoc, <- Hrx.
  - rewrite Hrx, length_app in Hf; unfold zlen in Hd'; lia.
  - exists c', buf', n'; split_and!; try done; try lia; [|congruence].
    by rewrite Happ, Htk2, <- app_assoc, <- Hrx.
Qed.

End io_util.

(** ** buffered_io.cc *)

Record BufferedIO (C : Type) := {
  bio_io : C;
  recv_buffer : bytes;
  bio_offset : Z;
  bio_length : Z
}.
Arguments Build_BufferedIO {C}.
Arguments bio_io {C}.
Arguments recv_buffer {C}.
Arguments bio_offset {C}.
Arguments bio_length {C}.

Section buffered_io.
Context {C : Type} `{IOConnection C}.

(** The constructor: [buf] is what [get_iobuf(kMaxChunkSize)] returned. *)
Definition BufferedIO_new (io : C) (buf : bytes) : BufferedIO C :=
  {| bio_io := io; recv_buffer := buf; bio_offset := 0; bio_length := 0 |}.

(** An operation of the wrapped connection. *)
Definition on_io {A} (m : st C A) : st (BufferedIO C) A := fun b =>
  let '(io, r) := m (bio_io b) in
  ({| bio_io := io; recv_buffer := recv_buffer b; bio_offset := bio_offset b;
      bio_length := bio_length b |}, r).

Definition set_window (off len : Z) : st (BufferedIO C) unit :=
  smodify (fun b => {| bio_io := bio_io b; recv_buffer := recv_buffer b; bio_offset := off; bio_length := len |}).

(** The destination of a read at the front of the buffer. *)
Definition recv_store (d : bytes) : st (BufferedIO C) unit := fun b =>
  match zblit 0 d (recv_buffer b) with
  | Some r => ({| bio_io := bio_io b; recv_buffer := r; bio_offset := bio_offset b;
                  bio_length := bio_length b |}, Ok tt)
  | None => (b, Ub)
  end.

(** Hands out what is buffered, at most [cap] bytes. *)
Definition BufferedIO_take (cap : Z) : st (BufferedIO C) (bytes * Z) :=
  let! b := sget in
  if bio_offset b <? bio_length b then
    let read_len := bio_length b - bio_offset b in
    let read_len := if cap <? read_len then cap else read_len in
    let! d := slift (access (zslice (bio_offset b) read_len (recv_buffer b))) in
    let! _ := set_window (bio_offset b + read_len) (bio_length b) in
    sret (d, 0)
  else sret ([], 0).

Definition BufferedIO_AsyncRead (cap : Z) : st (BufferedIO C) (bytes * Z) :=
  let! b := sget in
  if bio_length b <=? bio_offset b then
    let! _ := set_window 0 0 in
    let! '(d, ec) := on_io (AsyncRead kMaxChunkSize) in
    let! _ := recv_store d in
    if negb (ec =? 0) then sret ([], ec)
    else
      let! _ := set_window 0 (zlen d) in
      BufferedIO_take cap
  else BufferedIO_take cap.

#[export] Instance BufferedIO_conn : IOConnection (BufferedIO C) := {|
  AsyncRead := BufferedIO_AsyncRead;
  AsyncWrite b := on_io (AsyncWrite b);
  AsyncWriteV bufs := on_io (AsyncWriteV bufs);
  IoClose b := {| bio_io := IoClose (bio_io b); recv_buffer := recv_buffer b;
                  bio_offset := bio_offset b; bio_length := bio_length b |}
|}.

Definition BufferedIO_wf (b : BufferedIO C) : Prop :=
  0 <= bio_offset b /\ 0 <= bio_length b <= zlen (recv_buffer b) /\
  kMaxChunkSize <= zlen (recv_buffer b).

(** The bytes read from the wrapped connection and not yet handed out. *)
Definition unread (b : BufferedIO C) : bytes :=
  ztake (bio_length b - bio_offset b) (zdrop (bio_offset b) (recv_buffer b)).

Context `{!StreamView C, !ByteStream C}.

#[export] Instance BufferedIO_view : StreamView (BufferedIO C) := {|
  live b := live (bio_io b) /\ BufferedIO_wf b;
  rx b := unread b ++ rx (bio_io b);
  tx b := tx (bio_io b)
|}.

Lemma BufferedIO_new_live io buf :
  live io -> kMaxChunkSize <= zlen buf -> live (BufferedIO_new io buf) /\ rx (BufferedIO_new io buf) = rx io.
Proof. intros; repeat split; simpl; unfold kMaxChunkSize in *; lia || done. Qed.

Lemma unread_empty b : bio_length b <= bio_offset b -> unread b = [].
Proof. intros; unfold unread, ztake; by replace (Z.to_nat _) with 0%nat by lia. Qed.

(** What the second half of a read does when the buffer holds something. *)
Lemma BufferedIO_take_spec b cap :
  live b -> 0 < cap -> bio_offset b < bio_length b ->
  exists b' d, BufferedIO_take cap b = (b', Ok (d, 0)) /\ d <> [] /\ zlen d <= cap /\
    rx b = d ++ rx b' /\ tx b' = tx b /\ live b'.
Proof.
  intros (Hl & Ho & Hn & Hk) Hc Hlt; unfold BufferedIO_take, set_window; srun.
  bool_true (bio_offset b <? bio_length b); set (n := if cap <? _ then cap else _).
  assert (0 < n <= cap /\ n <= bio_length b - bio_offset b) as [Hn1 Hn2] by (unfold n; bool_cases; lia).
  rewrite zslice_Some by lia; eexists _, _; split; [done|]; simpl; unfold BufferedIO_wf, unread; simpl.
  assert (zlen (ztake n (zdrop (bio_offset b) (recv_buffer b))) = n) as Hz
    by (rewrite zlen_take; [done | rewrite zlen_drop; lia]).
  split_and!; try done; try lia.
  - intros E; rewrite E, zlen_nil in Hz; lia.
  - rewrite app_assoc; f_equal; set (l := zdrop (bio_offset b) (recv_buffer b)).
    rewrite <- (zdrop_zdrop n) by lia; fold l; unfold ztake, zdrop.
    replace (Z.to_nat (bio_length b - bio_offset b))
      with (Z.to_nat n + Z.to_nat (bio_length b - (bio_offset b + n)))%nat by lia.
    rewrite take_take_drop; done.
Qed.

#[export] Instance BufferedIO_stream : ByteStream (BufferedIO C).
Proof.
  split.
  - intros cap b Hb Hc Hr; change (AsyncRead cap b) with (BufferedIO_AsyncRead cap b).
    unfold BufferedIO_AsyncRead; srun; case Z.leb_spec; intros Hlt; [|by apply BufferedIO_take_spec].
    assert (unread b = []) as Hu by (by apply unread_empty).
    destruct Hb as (Hl & Ho & Hn & Hk); cbn [rx BufferedIO_view] in Hr; rewrite Hu in Hr.
    destruct (stream_read kMaxChunkSize (bio_io b)) as (io & d & E & Hd & Hdl & Hrx & Htx & Hio);
      [done | done | done |].
    unfold set_window, on_io, recv_store; srun; simpl; rewrite E; simpl.
    apply zlen_pos in Hd as Hd'; rewrite zblit_head by lia; simpl.
    destruct (BufferedIO_take_spec {| bio_io := io; recv_buffer := d ++ zdrop (zlen d) (recv_buffer b);
       bio_offset := 0; bio_length := zlen d |} cap) as (b' & d' & E' & ? & ? & Hrx' & Htx' & ?);
      [|done | simpl; lia|].
    + split; [done|]; unfold BufferedIO_wf; simpl; rewrite zlen_app, zlen_drop; lia.
    + exists b', d'; do 3 (split; [done|]); split; [|split; [exact (eq_trans Htx' Htx) | done]].
      cbn [rx BufferedIO_view]; rewrite Hu, Hrx; cbn [app].
      etrans; [|exact Hrx']; cbn [rx BufferedIO_view]; unfold unread; simpl.
      by rewrite zdrop_0, ztake_app_exact by lia.
  - intros w b [Hl Hw]; simpl; unfold on_io.
    destruct (stream_write w (bio_io b)) as (io & -> & ? & ? & ?); [done|].
    eexists; split; [done|]; simpl; unfold unread; simpl; split_and!; try done; [by f_equal | done..].
  - intros w b [Hl Hw]; simpl; unfold on_io.
    destruct (stream_writev w (bio_io b)) as (io & -> & ? & ? & ?); [done|].
    eexists; split; [done|]; simpl; unfold unread; simpl; split_and!; try done; [by f_equal | done..].
Qed.

End buffered_io.

(** ** Safety of a buffered connection *)

Section buffered_safety.
Context {C : Type} `{IOConnection C, !IOConnectionOk C}.

Lemma BufferedIO_take_safe (b : BufferedIO C) cap :
  BufferedIO_wf b -> is_bytes (recv_buffer b) -> 0 <= cap ->
  exists b' d, BufferedIO_take cap b = (b', Ok (d, 0)) /\ BufferedIO_wf b' /\
    is_bytes (recv_buffer b') /\ zlen d <= cap /\ is_bytes d.
Proof.
  intros (Ho & Hn & Hk) Hb Hc; unfold BufferedIO_take, set_window; srun.
  case Z.ltb_spec; intros Hlt;
    [|exists b, []; unfold BufferedIO_wf; split_and!; try done; try zlen_solve; constructor].
  set (n := if cap <? _ then cap else _).
  assert (0 <= n <= cap /\ n <= bio_length b - bio_offset b) as [Hn1 Hn2] by (unfold n; bool_cases; lia).
  rewrite zslice_Some by lia; eexists _, _; split; [done|]; unfold BufferedIO_wf; simpl.
  rewrite zlen_take by (rewrite zlen_drop; lia).
  split_and!; try done; try lia; auto with snova.
Qed.

Lemma BufferedIO_read_safe (b : BufferedIO C) cap :
  BufferedIO_wf b -> is_bytes (recv_buffer b) -> 0 <= cap ->
  match AsyncRead cap b with
  | (b', Ok (d, ec)) =>
      BufferedIO_wf b' /\ is_bytes (recv_buffer b') /\ zlen d <= cap /\ is_bytes d
  | (b', Hang) => BufferedIO_wf b' /\ is_bytes (recv_buffer b')
  | _ => False
  end.
Proof.
  intros Hwf Hb Hc; change (AsyncRead cap b) with (BufferedIO_AsyncRead cap b).
  unfold BufferedIO_AsyncRead; srun; case Z.leb_spec; intros Hlt;
    [|destruct (BufferedIO_take_safe b cap) as (b' & d & -> & ?); done].
  unfold set_window, on_io, recv_store; srun; simpl.
  destruct Hwf as (Ho & Hn & Hk); pose proof (read_fits kMaxChunkSize (bio_io b)) as Hr.
  destruct (AsyncRead kMaxChunkSize (bio_io b)) as [io [[d ec]| | |]];
    [| by destruct Hr | by destruct Hr |]; simpl.
  - destruct Hr as [Hd Hdb]; [done|]; pose proof (zlen_nonneg d); rewrite zblit_head by lia; simpl.
    assert (zlen (d ++ zdrop (zlen d) (recv_buffer b)) = zlen (recv_buffer b)) as Hl
      by (rewrite zlen_app, zlen_drop; lia).
    assert (is_bytes (d ++ zdrop (zlen d) (recv_buffer b))) by (apply is_bytes_app; auto with snova).
    destruct (negb (ec =? 0)); simpl.
    + unfold BufferedIO_wf; simpl; rewrite Hl; split_and!; try done; try zlen_solve; constructor.
    + match goal with |- context [BufferedIO_take cap ?b0] =>
        destruct (BufferedIO_take_safe b0 cap) as (b' & d' & -> & ?) end; try done.
      unfold BufferedIO_wf; simpl; lia.
  - unfold BufferedIO_wf; simpl; split_and!; try done; lia.
Qed.

End buffered_safety.

(** ** Theorems *)

Section theorems.
Context {C : Type} `{IOConnection C, !StreamView C, !ByteStream C}.

(** C31. However the input is cut into pieces, [read_exact] on a buffered connection stores exactly
    the next [n] bytes of the wrapped stream and leaves the following ones to be read: buffering
    loses, repeats and reorders nothing.  It finishes within [n] reads. *)
Theorem buffered_read_exact (io : C) buf n :
  live io -> kMaxChunkSize <= zlen buf -> 0 <= n <= zlen (rx io) ->
  exists b', read_exact (Z.to_nat n) n [] (BufferedIO_new io buf) = (b', Ok (ztake n (rx io), 0)) /\
    rx b' = zdrop n (rx io) /\ tx b' = tx io /\ live b'.
Proof.
  intros Hio Hbuf Hn; destruct (BufferedIO_new_live io buf Hio Hbuf) as [Hl Hrx].
  destruct (read_exact_spec (Z.to_nat n) n [] (BufferedIO_new io buf)) as (b' & E & Hr & Ht & Hb');
    [done | rewrite Hrx; lia | done |].
  exists b'; rewrite Hrx in *; by split_and!.
Qed.

(** When the delimiter occurs in what was read already or is still to come, [read_until]
    returns the position of its first occurrence, has read past it, and keeps every byte: what
    it read and what is left are the original input, in order.  It needs no more reads than there
    are bytes. *)
Theorem read_until_first_occurrence (until buf : bytes) n (c : C) p :
  live c -> until <> [] -> 0 <= n <= zlen buf -> 0 < zlen buf ->
  bfind until (ztake n buf ++ rx c) = Some p ->
  exists c' buf' n', read_until (S (length (rx c))) until buf n c = (c', Ok (buf', n', p)) /\
    0 <= n' <= zlen buf' /\ ztake n' buf' ++ rx c' = ztake n buf ++ rx c /\
    p + zlen until <= n' /\ tx c' = tx c /\ live c'.
Proof. intros; apply read_until_spec; try done; lia. Qed.

End theorems.

(** A read from a buffered connection never copies outside its receive buffer or the
    caller's, and keeps its window inside the receive buffer, whatever the wrapped connection
    delivers and also when it fails. *)
Theorem buffered_io_memory_safe {C} `{IOConnection C, !IOConnectionOk C} (b : BufferedIO C) cap :
  BufferedIO_wf b -> is_bytes (recv_buffer b) -> 0 <= cap ->
  match AsyncRead cap b with
  | (b', Ok (d, ec)) =>
      BufferedIO_wf b' /\ is_bytes (recv_buffer b') /\ zlen d <= cap /\ is_bytes d
  | (b', Hang) => BufferedIO_wf b' /\ is_bytes (recv_buffer b')
  | _ => False
  end.
Proof. apply BufferedIO_read_safe. Qed.

(** ** Witnesses *)

Module PipeDemo.
Import Pipe.

(** "hello, world" and a blank line, in three pieces. *)
Definition pieces : pipe :=
  {| chunks := [bs "hel"; bs "lo, wor"; bs "ld" ++ [13; 10; 13; 10]]; sent := [] |}.
Definition crlf2 : bytes := [13; 10; 13; 10].

Lemma pieces_live : live pieces.
Proof. repeat constructor; discriminate. Qed.

End PipeDemo.

Section witnesses.
Import Pipe PipeDemo ZeroConn.

Lemma buffered_read_exact_witness :
  exists b', read_exact 8 8 [] (BufferedIO_new pieces (zrepeat 8448 0)) = (b', Ok (bs "hello, w", 0)) /\
    rx b' = bs "orld" ++ crlf2 /\ tx b' = [] /\ live b'.
Proof.
  destruct (buffered_read_exact pieces (zrepeat 8448 0) 8) as (b' & E & Hr & Ht & Hl);
    [apply pieces_live | by vm_compute | by vm_compute |].
  exists b'; exact (conj E (conj Hr (conj Ht Hl))).
Defined.

Lemma read_until_first_occurrence_witness :
  exists c' buf' n',
    read_until 17 crlf2 (zrepeat 8 0) 0 pieces = (c', Ok (buf', n', 12)) /\
    0 <= n' <= zlen buf' /\ ztake n' buf' ++ rx c' = bs "hello, world" ++ crlf2 /\
    12 + zlen crlf2 <= n' /\ tx c' = [] /\ live c'.
Proof.
  destruct (read_until_first_occurrence crlf2 (zrepeat 8 0) 0 pieces 12)
    as (c' & buf' & n' & E & Hn & Hr & Hp & Ht & Hl); [apply pieces_live | by vm_compute..|].
  exists c', buf', n'; exact (conj E (conj Hn (conj Hr (conj Hp (conj Ht Hl))))).
Defined.

Lemma buffered_io_memory_safe_witness :
  match AsyncRead 100 (BufferedIO_new (tt : ZeroConn.conn) (zrepeat 8448 0)) with
  | (b', Ok (d, ec)) =>
      BufferedIO_wf b' /\ is_bytes (recv_buffer b') /\ zlen d <= 100 /\ is_bytes d
  | (b', Hang) => BufferedIO_wf b' /\ is_bytes (recv_buffer b')
  | _ => False
  end.
Proof.
  apply (buffered_io_memory_safe (BufferedIO_new tt (zrepeat 8448 0)) 100);
    [by vm_compute | by apply Forall_replicate | by vm_compute].
Defined.

End witnesses.
