(* ===== verification/Transports.v ===== *)
(** * TCP and TLS transports

    src/snova/io/tcp_socket.h and .cc, tls_socket.h and .cc: the two implementations of
    [IOConnection] on asio's sockets.  The connect functions are in [MuxClient]. *)

From S2P Require Import Prelude IoBuf Io.

(** What is used of an asio stream: [async_read_some], [async_write], which completes when all of the
    buffers were written or an error occurred, and, for a TLS stream, [shutdown], which throws, and
    the close of the layer below. *)
Class AsioStream (S : Type) := {
  async_read_some : Z -> st S (bytes * Z);
  async_write : list bytes -> st S (Z * Z);
  ssl_shutdown : st S unit;
  lowest_close : S -> S
}.

Class AsioStreamOk (S : Type) `{AsioStream S, StreamView S} : Prop := {
  read_some_live : forall cap s, live s -> 0 < cap -> rx s <> [] ->
    exists s' d, async_read_some cap s = (s', Ok (d, 0)) /\ d <> [] /\ zlen d <= cap /\
      rx s = d ++ rx s' /\ tx s' = tx s /\ live s';
  write_live : forall bufs s, live s ->
    exists s', async_write bufs s = (s', Ok (zlen (concat bufs), 0)) /\
      tx s' = tx s ++ concat bufs /\ rx s' = rx s /\ live s'
}.

Record TcpConn (S : Type) := { socket_ : S }.
Record TlsConn (S : Type) := { tls_socket_ : S; tls_host_ : bytes }.
Arguments Build_TcpConn {S}. Arguments socket_ {S}.
Arguments Build_TlsConn {S}. Arguments tls_socket_ {S}. Arguments tls_host_ {S}.

Section transports.
Context {S : Type} `{AsioStream S}.

(** ** tcp_socket.cc *)

Definition on_socket {A} (m : st S A) : st (TcpConn S) A := fun c =>
  let '(s, r) := m (socket_ c) in ({| socket_ := s |}, r).

Definition tcp_AsyncRead (cap : Z) : st (TcpConn S) (bytes * Z) := on_socket (async_read_some cap).
Definition tcp_DoAsyncWrite (bufs : list bytes) : st (TcpConn S) (Z * Z) := on_socket (async_write bufs).
Definition tcp_Close (c : TcpConn S) : TcpConn S := {| socket_ := lowest_close (socket_ c) |}.

#[export] Instance tcp_conn : IOConnection (TcpConn S) := {|
  AsyncRead := tcp_AsyncRead;
  AsyncWrite b := tcp_DoAsyncWrite [b];
  AsyncWriteV := tcp_DoAsyncWrite;
  IoClose := tcp_Close
|}.

(** ** tls_socket.cc *)

Definition on_tls {A} (m : st S A) : st (TlsConn S) A := fun c =>
  let '(s, r) := m (tls_socket_ c) in ({| tls_socket_ := s; tls_host_ := tls_host_ c |}, r).

Definition SetHost (v : bytes) (c : TlsConn S) : TlsConn S := {| tls_socket_ := tls_socket_ c; tls_host_ := v |}.
Definition tls_AsyncRead (cap : Z) : st (TlsConn S) (bytes * Z) := on_tls (async_read_some cap).
Definition tls_DoAsyncWrite (bufs : list bytes) : st (TlsConn S) (Z * Z) := on_tls (async_write bufs).

(** [Close]: the exception of [shutdown] leaves the function. *)
Definition tls_Close : st (TlsConn S) unit :=
  let! _ := on_tls ssl_shutdown in
  on_tls (smodify lowest_close).

#[export] Instance tls_conn : IOConnection (TlsConn S) := {|
  AsyncRead := tls_AsyncRead;
  AsyncWrite b := tls_DoAsyncWrite [b];
  AsyncWriteV := tls_DoAsyncWrite;
  IoClose c := (tls_Close c).1
|}.

End transports.

(** ** The interface is implemented *)

Section streams.
Context {S : Type} `{AsioStream S, !StreamView S, !AsioStreamOk S}.

#[export] Instance tcp_view : StreamView (TcpConn S) := {|
  live c := live (socket_ c); rx c := rx (socket_ c); tx c := tx (socket_ c) |}.
#[export] Instance tls_view : StreamView (TlsConn S) := {|
  live c := live (tls_socket_ c); rx c := rx (tls_socket_ c); tx c := tx (tls_socket_ c) |}.

#[export] Instance tcp_stream : ByteStream (TcpConn S).
Proof.
  split.
  - intros cap [s] Hl Hc Hr; destruct (read_some_live cap s Hl Hc Hr) as (s' & d & E & Hd).
    exists {| socket_ := s' |}, d; split; [|done]; cbn; unfold tcp_AsyncRead, on_socket; cbn; by rewrite E.
  - intros b [s] Hl; destruct (write_live [b] s Hl) as (s' & E & Hs); cbn [concat] in *; rewrite app_nil_r in *.
    exists {| socket_ := s' |}; split; [|done]; cbn; unfold tcp_DoAsyncWrite, on_socket; cbn; by rewrite E.
  - intros bufs [s] Hl; destruct (write_live bufs s Hl) as (s' & E & Hs).
    exists {| socket_ := s' |}; split; [|done]; cbn; unfold tcp_DoAsyncWrite, on_socket; cbn; by rewrite E.
Qed.

#[export] Instance tls_stream : ByteStream (TlsConn S).
Proof.
  split.
  - intros cap [s h] Hl Hc Hr; destruct (read_some_live cap s Hl Hc Hr) as (s' & d & E & Hd).
    exists {| tls_socket_ := s'; tls_host_ := h |}, d; split; [|done]; cbn; unfold tls_AsyncRead, on_tls; cbn; by rewrite E.
  - intros b [s h] Hl; destruct (write_live [b] s Hl) as (s' & E & Hs); cbn [concat] in *; rewrite app_nil_r in *.
    exists {| tls_socket_ := s'; tls_host_ := h |}; split; [|done]; cbn; unfold tls_DoAsyncWrite, on_tls; cbn; by rewrite E.
  - intros bufs [s h] Hl; destruct (write_live bufs s Hl) as (s' & E & Hs).
    exists {| tls_socket_ := s'; tls_host_ := h |}; split; [|done]; cbn; unfold tls_DoAsyncWrite, on_tls; cbn; by rewrite E.
Qed.

(** A TLS connection whose shutdown fails, as it does when the peer has gone, is not closed: the
    exception leaves [Close] before the socket below is closed. *)
Theorem tls_close_fails_open (c : TlsConn S) s' e :
  ssl_shutdown (tls_socket_ c) = (s', Err e) ->
  tls_Close c = ({| tls_socket_ := s'; tls_host_ := tls_host_ c |}, Err e).
Proof. intros E; unfold tls_Close, on_tls, sbind; by rewrite E. Qed.

End streams.

(** ** Witnesses *)

Module TransportDemo.
Export Pipe.

(** A pipe whose peer has gone: the shutdown fails. *)
#[export] Instance pipe_asio : AsioStream pipe := {|
  async_read_some := Pipe.read;
  async_write bufs := Pipe.write (concat bufs);
  ssl_shutdown := sfail 335544539;
  lowest_close p := {| chunks := []; sent := sent p |}
|}.
#[export] Instance pipe_asio_ok : AsioStreamOk pipe.
Proof. split; [exact stream_read | exact stream_writev]. Qed.

Definition gone : TlsConn pipe := {| tls_socket_ := {| chunks := [bs "x"]; sent := [] |}; tls_host_ := bs "a.com" |}.

End TransportDemo.

Section witnesses.
Import TransportDemo.

Lemma tls_close_fails_open_witness : tls_Close gone = (gone, Err 335544539) /\ rx gone = bs "x".
Proof. split; [exact (tls_close_fails_open gone _ 335544539 eq_refl) | done]. Defined.

End witnesses.
