(* ===== verification/AsyncMutex.v ===== *)
(** * The asynchronous mutex

    src/snova/util/async_channel_mutex.h and .cc.  [Lock] and [Unlock] are coroutines: the code
    between two [co_await]s is one function here, and a step relation runs the coroutines of any
    number of tasks in any order.  Of the channel the steps use only that an operation on an open
    channel that was not cancelled completes without error; in which order, and how often,
    waiting receivers are woken is left open. *)

From S2P Require Import Prelude.

Record AsyncChannelMutex := { chan_open : bool; wait_count : Z; locked : bool }.

Definition mutex_new : AsyncChannelMutex := {| chan_open := true; wait_count := 0; locked := false |}.

Definition mutex_Close (m : AsyncChannelMutex) : AsyncChannelMutex :=
  {| chan_open := false; wait_count := wait_count m; locked := locked m |}.

(** Where a run of [Lock] stops: it holds the lock, it returned without it, or it waits for the
    channel. *)
Inductive lock_out := Acquired | Returned (ec : Z) | Receiving.

(** The loop [while (locked_)] up to its next [co_await], and the assignment behind it. *)
Definition Lock_loop (m : AsyncChannelMutex) : AsyncChannelMutex * lock_out :=
  if locked m then
    ({| chan_open := chan_open m; wait_count := wait_count m + 1; locked := true |}, Receiving)
  else ({| chan_open := chan_open m; wait_count := wait_count m; locked := true |}, Acquired).

Definition Lock (m : AsyncChannelMutex) : AsyncChannelMutex * lock_out :=
  if chan_open m then Lock_loop m else (m, Returned 0).

(** [Lock] from the completion of its [async_receive] with [ec]. *)
Definition Lock_resume (ec : Z) (m : AsyncChannelMutex) : AsyncChannelMutex * lock_out :=
  let m := {| chan_open := chan_open m; wait_count := wait_count m - 1; locked := locked m |} in
  if ec =? 0 then Lock_loop m else (m, Returned ec).

(** [Unlock]; [true] when it goes on to [async_send]. *)
Definition Unlock (m : AsyncChannelMutex) : AsyncChannelMutex * bool :=
  if chan_open m then
    ({| chan_open := true; wait_count := wait_count m; locked := false |}, 0 <? wait_count m)
  else (m, false).

(** ** Tasks

    A task is outside, waits in [Lock], holds the lock, is sending in [Unlock], or went on after
    a [Lock] that returned without the lock. *)
Inductive task := Outside | Waiting | Holding | Sending | Unguarded (ec : Z).

#[global] Instance task_eq_dec : EqDecision task.
Proof. solve_decision. Defined.

Definition after_lock (o : lock_out) : task :=
  match o with Acquired => Holding | Returned ec => Unguarded ec | Receiving => Waiting end.

Inductive mutex_step : AsyncChannelMutex * list task -> AsyncChannelMutex * list task -> Prop :=
| step_lock m m' o ts i :
    ts !! i = Some Outside -> Lock m = (m', o) ->
    mutex_step (m, ts) (m', <[i:=after_lock o]> ts)
| step_wake m m' o ts i ec :
    ts !! i = Some Waiting -> (chan_open m = true -> ec = 0) -> Lock_resume ec m = (m', o) ->
    mutex_step (m, ts) (m', <[i:=after_lock o]> ts)
| step_unlock m m' (send : bool) ts i :
    ts !! i = Some Holding -> Unlock m = (m', send) ->
    mutex_step (m, ts) (m', <[i:=if send then Sending else Outside]> ts)
| step_sent m ts i :
    ts !! i = Some Sending -> mutex_step (m, ts) (m, <[i:=Outside]> ts)
| step_leave m ts i ec :
    ts !! i = Some (Unguarded ec) -> mutex_step (m, ts) (m, <[i:=Outside]> ts)
| step_close m ts : mutex_step (m, ts) (mutex_Close m, ts).

(** ** Counting tasks *)

Definition count_task (t : task) (ts : list task) : Z :=
  zsum ((fun x => if decide (x = t) then 1 else 0) <$> ts).

Lemma count_task_cons t x ts :
  count_task t (x :: ts) = (if decide (x = t) then 1 else 0) + count_task t ts.
Proof. done. Qed.

Lemma count_task_nonneg t ts : 0 <= count_task t ts.
Proof. induction ts; [done | rewrite count_task_cons; case_decide; lia]. Qed.

Lemma count_task_insert t ts i a b :
  ts !! i = Some a ->
  count_task t (<[i:=b]> ts) =
    count_task t ts - (if decide (a = t) then 1 else 0) + (if decide (b = t) then 1 else 0).
Proof.
  revert i; induction ts as [|x ts IH]; intros [|i]; simpl; try done; rewrite !count_task_cons.
  - intros [= ->]; lia.
  - intros Hi; rewrite (IH i Hi); lia.
Qed.

Lemma count_task_pos t ts i : ts !! i = Some t -> 1 <= count_task t ts.
Proof.
  revert i; induction ts as [|x ts IH]; intros [|i]; simpl; try done; rewrite count_task_cons.
  - intros [= ->]; rewrite decide_True by done; pose proof (count_task_nonneg t ts); lia.
  - intros Hi; specialize (IH i Hi); case_decide; lia.
Qed.

Lemma count_task_two t ts i j :
  ts !! i = Some t -> ts !! j = Some t -> count_task t ts <= 1 -> i = j.
Proof.
  revert i j; induction ts as [|x ts IH]; intros [|i] [|j]; simpl; try done; rewrite count_task_cons.
  - intros [= ->] Hj; rewrite decide_True by done; pose proof (count_task_pos t ts j Hj); lia.
  - intros Hi [= ->]; rewrite decide_True by done; pose proof (count_task_pos t ts i Hi); lia.
  - intros Hi Hj Hc; f_equal; apply IH; try done; revert Hc; case_decide; lia.
Qed.

(** ** The invariant *)

(** [wait_count_] counts the waiting tasks; while the mutex is open, [locked_] says whether a task
    holds it, no two do, and no task is past [Lock] without it. *)
Definition mutex_inv (s : AsyncChannelMutex * list task) : Prop :=
  let '(m, ts) := s in
  wait_count m = count_task Waiting ts /\
  (chan_open m = true ->
     count_task Holding ts = (if locked m then 1 else 0) /\
     forall i ec, ts !! i <> Some (Unguarded ec)).

Definition reachable (n : nat) : AsyncChannelMutex * list task -> Prop :=
  rtc mutex_step (mutex_new, replicate n Outside).

(** No new unguarded task at the updated place. *)
Lemma no_unguarded_insert (ts : list task) (i : nat) t :
  (forall ec, t <> Unguarded ec) -> (forall i ec, ts !! i <> Some (Unguarded ec)) ->
  forall j ec, <[i:=t]> ts !! j <> Some (Unguarded ec).
Proof.
  intros Ht Hu j ec; destruct (decide (i = j)) as [->|]; [|by rewrite list_lookup_insert_ne].
  destruct (decide (j < length ts)%nat); [|by rewrite list_insert_ge by lia].
  rewrite list_lookup_insert_eq by done; intros [= E]; by apply (Ht ec).
Qed.

Ltac count_cases := rewrite !(count_task_insert _ _ _ _ _ ltac:(eassumption)); repeat case_decide; try done.

Lemma mutex_step_inv s s' : mutex_inv s -> mutex_step s s' -> mutex_inv s'.
Proof.
  intros Hi Hs; destruct Hs as [m m' o ts i Ht Hl | m m' o ts i ec Ht He Hl | m m' send ts i Ht Hl
    | m ts i Ht | m ts i ec Ht | m ts]; destruct Hi as [Hw Ho]; unfold mutex_inv.
  - revert Hl; unfold Lock, Lock_loop; destruct (chan_open m) eqn:E.
    + destruct (Ho eq_refl) as [Hh Hu]; destruct (locked m) eqn:El; intros [= <- <-]; simpl;
        (split; [count_cases; lia|]); intros _; (split; [count_cases; lia | by apply no_unguarded_insert]).
    + intros [= <- <-]; split; [count_cases; lia | by rewrite E].
  - revert Hl; unfold Lock_resume, Lock_loop; destruct (Z.eqb_spec ec 0) as [->|Hne]; simpl.
    + destruct (locked m) eqn:El; intros [= <- <-]; simpl; (split; [count_cases; lia|]);
        intros E; destruct (Ho E) as [Hh Hu]; (split; [count_cases; lia | by apply no_unguarded_insert]).
    + intros [= <- <-]; simpl; split; [count_cases; lia|]; intros E; by specialize (He E).
  - revert Hl; unfold Unlock; destruct (chan_open m) eqn:E.
    + destruct (Ho eq_refl) as [Hh Hu]; intros [= <- <-]; simpl.
      pose proof (count_task_pos _ _ _ Ht).
      split; [count_cases; destruct (0 <? wait_count m); simpl in *; try done; lia|].
      intros _; destruct (locked m); [|lia].
      split; [count_cases; destruct (0 <? wait_count m); simpl in *; try done; lia|].
      apply no_unguarded_insert; [|done]; by destruct (0 <? wait_count m).
    + intros [= <- <-]; split; [count_cases; lia | by rewrite E].
  - split; [count_cases; lia|]; intros E; destruct (Ho E); split; [count_cases; lia | by apply no_unguarded_insert].
  - split; [count_cases; lia|]; intros E; destruct (Ho E) as [? Hu]; by destruct (Hu i ec).
  - by split.
Qed.

Lemma count_task_outside t n : t <> Outside -> count_task t (replicate n Outside) = 0.
Proof. intros; induction n; [done|]; simpl; by rewrite count_task_cons, decide_False. Qed.

Lemma reachable_inv n s : reachable n s -> mutex_inv s.
Proof.
  intros Hr; assert (mutex_inv (mutex_new, replicate n Outside)) as H0.
  { split; [by rewrite count_task_outside|]; intros _; split; [by rewrite count_task_outside|].
    intros i ec [? _]%lookup_replicate; done. }
  unfold reachable in Hr; revert H0; induction Hr; eauto using mutex_step_inv.
Qed.

(** ** Theorems *)

(** C30. Mutual exclusion.  Until [Close], whatever the channel does and in whatever order tasks run and
    waiters are woken, no task goes on after a [Lock] that did not take the lock; and while a task holds the
    lock every other one is outside, waits in [Lock] or is about to leave [Unlock], and a [Lock] now waits. *)
Theorem mutex_excludes n m ts :
  reachable n (m, ts) -> chan_open m = true ->
  (forall i ec, ts !! i <> Some (Unguarded ec)) /\
  forall i, ts !! i = Some Holding ->
    (forall j t, j <> i -> ts !! j = Some t -> t ∈ [Outside; Waiting; Sending]) /\ snd (Lock m) = Receiving.
Proof.
  intros Hr Ho; destruct (reachable_inv _ _ Hr) as [_ [Hh Hu]]; [done|]; split; [done|]; intros i Hi.
  pose proof (count_task_pos _ _ _ Hi) as Hpos; destruct (locked m) eqn:El; [|lia]; split.
  - intros j t Hj Ht; destruct t; [set_solver..| | set_solver | by destruct (Hu j ec)].
    destruct Hj; apply (count_task_two Holding ts); [done | done | lia].
  - unfold Lock, Lock_loop; by rewrite Ho, El.
Qed.

(** [GetWaitCount] is the number of tasks that wait in [Lock], and while the mutex is open
    [IsLocked] says whether a task holds it: the two values that connections are ranked by. *)
Theorem mutex_counters_exact n m ts :
  reachable n (m, ts) ->
  wait_count m = count_task Waiting ts /\
  (chan_open m = true -> (locked m = true <-> exists i, ts !! i = Some Holding)).
Proof.
  intros Hr; destruct (reachable_inv _ _ Hr) as [Hw Ho]; split; [done|]; intros E; destruct (Ho E) as [Hh _].
  split; [intros El | intros [i Hi]].
  - rewrite El in Hh; clear -Hh; induction ts as [|x ts IH]; [done|]; rewrite count_task_cons in Hh.
    destruct (decide (x = Holding)) as [->|]; [by exists 0%nat|].
    destruct IH as [i Hi]; [lia | by exists (S i)].
  - apply count_task_pos in Hi; destruct (locked m); [done | lia].
Qed.

(** After [Close] the mutex excludes nothing: [Lock] returns success at once to every caller
    and takes no lock, so two tasks can be behind it together. *)
Theorem closed_mutex_does_not_exclude m ts i j :
  chan_open m = false -> ts !! i = Some Outside -> ts !! j = Some Outside -> i <> j ->
  exists ts', rtc mutex_step (m, ts) (m, ts') /\
    ts' !! i = Some (Unguarded 0) /\ ts' !! j = Some (Unguarded 0).
Proof.
  intros Ho Hi Hj Hij; exists (<[j:=Unguarded 0]> (<[i:=Unguarded 0]> ts)).
  assert (Lock m = (m, Returned 0)) as HL by (unfold Lock; by rewrite Ho).
  apply lookup_lt_Some in Hi as Hli; apply lookup_lt_Some in Hj as Hlj; split_and!.
  - eapply rtc_l; [by eapply (step_lock m m (Returned 0) ts i)|].
    apply rtc_once; eapply (step_lock m m (Returned 0)); [by rewrite list_lookup_insert_ne | done].
  - rewrite list_lookup_insert_ne by done; by apply list_lookup_insert_eq.
  - apply list_lookup_insert_eq; by rewrite length_insert.
Qed.

(** ** Witnesses *)

(** The first of two tasks has the lock, the second waits for it. *)
Definition contended : AsyncChannelMutex := {| chan_open := true; wait_count := 1; locked := true |}.

Lemma contended_reachable : reachable 2 (contended, [Holding; Waiting]).
Proof.
  eapply rtc_l; [by eapply (step_lock mutex_new _ Acquired _ 0)|].
  apply rtc_once; by eapply (step_lock _ contended Receiving [Holding; Outside] 1).
Qed.

(** The first one gives it back and the second one has it. *)
Definition handed_over : AsyncChannelMutex := {| chan_open := true; wait_count := 0; locked := true |}.

Lemma handed_over_reachable : reachable 2 (handed_over, [Sending; Holding]).
Proof.
  eapply rtc_r; [eapply rtc_r; [apply contended_reachable|]|].
  - by eapply (step_unlock contended {| chan_open := true; wait_count := 1; locked := false |} true [Holding; Waiting] 0).
  - by eapply (step_wake {| chan_open := true; wait_count := 1; locked := false |} handed_over Acquired [Sending; Waiting] 1 0).
Qed.

Lemma mutex_excludes_witness :
  (forall j t, j <> 0%nat -> [Holding; Waiting] !! j = Some t -> t ∈ [Outside; Waiting; Sending]) /\ snd (Lock contended) = Receiving /\
  (forall j t, j <> 1%nat -> [Sending; Holding] !! j = Some t -> t ∈ [Outside; Waiting; Sending]) /\ snd (Lock handed_over) = Receiving.
Proof.
  destruct (mutex_excludes 2 contended [Holding; Waiting] contended_reachable eq_refl) as [_ H1].
  destruct (mutex_excludes 2 handed_over [Sending; Holding] handed_over_reachable eq_refl) as [_ H2].
  destruct (H1 0%nat eq_refl) as [H1a H1b], (H2 1%nat eq_refl) as [H2a H2b]; exact (conj H1a (conj H1b (conj H2a H2b))).
Defined.

Lemma mutex_counters_exact_witness :
  wait_count contended = count_task Waiting [Holding; Waiting] /\
  (chan_open contended = true ->
     (locked contended = true <-> exists i, [Holding; Waiting] !! i = Some Holding)).
Proof. apply (mutex_counters_exact 2 contended [Holding; Waiting]), contended_reachable. Defined.

Lemma closed_mutex_does_not_exclude_witness :
  exists ts', rtc mutex_step (mutex_Close mutex_new, [Outside; Outside]) (mutex_Close mutex_new, ts') /\
    ts' !! 0%nat = Some (Unguarded 0) /\ ts' !! 1%nat = Some (Unguarded 0).
Proof. by apply (closed_mutex_does_not_exclude _ [Outside; Outside] 0 1). Defined.
