(* ===== verification/MuxConnection.v ===== *)
(** * The multiplexed connection

    src/snova/mux/mux_connection.h and .cc: one transport connection that carries the events of
    many streams in both directions.  Modelled here: its state, the reader ([ReadEventFromBuffer],
    [ReadEvent]) with its buffer and span, the writer ([Write], [WriteEvent]), the handshake
    ([ClientAuth], [ServerAuth]), [OpenTunnel], the traffic windows and [ComparePriority].  The
    transport is any [IOConnection]; [unix_time] is what [time(nullptr)] returns. *)

From S2P Require Import Prelude Endian IoBuf PbMessages MuxEvent CipherContext Io AsyncMutex.

(** [time(nullptr)] as it is read in a state of the transport. *)
Class Clock (C : Type) := unix_time : C -> Z.

Class ClockOk (C : Type) `{Clock C} : Prop := unix_time_nonneg : forall c, 0 <= unix_time c.

Inductive MuxConnectionType := MUX_ENTRY_CONN | MUX_EXIT_CONN.

#[global] Instance MuxConnectionType_eq_dec : EqDecision MuxConnectionType.
Proof. solve_decision. Defined.

(** The role flags of src/snova/util/flags.cc. *)
Record NodeRole := { g_is_entry_node : bool; g_is_middle_node : bool; g_is_exit_node : bool }.

(** [MuxConnReadState]. *)
Definition STATE_INIT : Z := 0.
Definition STATE_READING : Z := 1.
Definition STATE_READED : Z := 2.
Definition STATE_CLOSING_STREAM : Z := 3.
Definition STATE_OFFER_CHUNK : Z := 4.
Definition STATE_READ_LOOP_EXIT : Z := 5.

(** A span inside [read_buffer_]. *)
Record Span := { sp_off : Z; sp_len : Z }.

Definition remove_prefix (n : Z) (b : Span) : Span := {| sp_off := sp_off b + n; sp_len := sp_len b - n |}.

Record MuxConnection (C : Type) := {
  type_ : MuxConnectionType;
  io_conn : C;
  cipher_ctx : CipherContext;
  write_mutex : AsyncChannelMutex;
  write_buffer : bytes;
  read_buffer : bytes;
  readable_data : Span;
  conn_user : bytes;
  conn_client_id : Z;
  idx : Z;
  expire_at_unix_secs : Z;
  last_unmatch_stream_id : Z;
  last_active_write_unix_secs : Z;
  last_active_read_unix_secs : Z;
  recv_bytes : Z;
  send_bytes : Z;
  read_state : Z;
  latest_window_recv_bytes : list Z;
  latest_window_send_bytes : list Z;
  has_server_relay : bool;
  has_retire_callback : bool;
  is_local : bool;
  is_authed : bool;
  retired : bool
}.
Arguments Build_MuxConnection {C}.
Arguments type_ {C}. Arguments io_conn {C}. Arguments cipher_ctx {C}. Arguments write_mutex {C}.
Arguments write_buffer {C}. Arguments read_buffer {C}. Arguments readable_data {C}.
Arguments conn_user {C}. Arguments conn_client_id {C}. Arguments idx {C}.
Arguments expire_at_unix_secs {C}. Arguments last_unmatch_stream_id {C}.
Arguments last_active_write_unix_secs {C}. Arguments last_active_read_unix_secs {C}.
Arguments recv_bytes {C}. Arguments send_bytes {C}. Arguments read_state {C}.
Arguments latest_window_recv_bytes {C}. Arguments latest_window_send_bytes {C}.
Arguments has_server_relay {C}. Arguments has_retire_callback {C}. Arguments is_local {C}.
Arguments is_authed {C}. Arguments retired {C}.

Section setters.
Context {C : Type}.

Definition conn_eta (r : MuxConnection C) : MuxConnection C := {|
  type_ := type_ r; io_conn := io_conn r; cipher_ctx := cipher_ctx r; write_mutex := write_mutex r;
  write_buffer := write_buffer r; read_buffer := read_buffer r; readable_data := readable_data r;
  conn_user := conn_user r; conn_client_id := conn_client_id r; idx := idx r;
  expire_at_unix_secs := expire_at_unix_secs r; last_unmatch_stream_id := last_unmatch_stream_id r;
  last_active_write_unix_secs := last_active_write_unix_secs r;
  last_active_read_unix_secs := last_active_read_unix_secs r;
  recv_bytes := recv_bytes r; send_bytes := send_bytes r; read_state := read_state r;
  latest_window_recv_bytes := latest_window_recv_bytes r;
  latest_window_send_bytes := latest_window_send_bytes r;
  has_server_relay := has_server_relay r; has_retire_callback := has_retire_callback r;
  is_local := is_local r; is_authed := is_authed r; retired := retired r |}.

Definition upd (T : Type) : Type := (T -> T) -> MuxConnection C -> MuxConnection C.
Definition set_type : upd MuxConnectionType := ltac:(setter conn_eta (@type_ C)).
Definition set_io : upd C := ltac:(setter conn_eta (@io_conn C)).
Definition set_cipher : upd CipherContext := ltac:(setter conn_eta (@cipher_ctx C)).
Definition set_mutex : upd AsyncChannelMutex := ltac:(setter conn_eta (@write_mutex C)).
Definition set_write_buffer : upd bytes := ltac:(setter conn_eta (@write_buffer C)).
Definition set_read_buffer : upd bytes := ltac:(setter conn_eta (@read_buffer C)).
Definition set_readable : upd Span := ltac:(setter conn_eta (@readable_data C)).
Definition set_user : upd bytes := ltac:(setter conn_eta (@conn_user C)).
Definition set_client_id : upd Z := ltac:(setter conn_eta (@conn_client_id C)).
Definition set_last_unmatch : upd Z := ltac:(setter conn_eta (@last_unmatch_stream_id C)).
Definition set_last_write : upd Z := ltac:(setter conn_eta (@last_active_write_unix_secs C)).
Definition set_last_read : upd Z := ltac:(setter conn_eta (@last_active_read_unix_secs C)).
Definition set_recv_bytes : upd Z := ltac:(setter conn_eta (@recv_bytes C)).
Definition set_send_bytes : upd Z := ltac:(setter conn_eta (@send_bytes C)).
Definition set_read_state : upd Z := ltac:(setter conn_eta (@read_state C)).
Definition set_window_recv : upd (list Z) := ltac:(setter conn_eta (@latest_window_recv_bytes C)).
Definition set_window_send : upd (list Z) := ltac:(setter conn_eta (@latest_window_send_bytes C)).
Definition set_authed : upd bool := ltac:(setter conn_eta (@is_authed C)).
Definition set_retired : upd bool := ltac:(setter conn_eta (@retired C)).
Definition set_idx : upd Z := ltac:(setter conn_eta (@idx C)).
Definition set_server_relay : upd bool := ltac:(setter conn_eta (@has_server_relay C)).
Definition set_retire_callback : upd bool := ltac:(setter conn_eta (@has_retire_callback C)).

End setters.

Section connection.
Context `{Platform} `{Nanopb} `{Aead}.
Context {C : Type} `{IOConnection C} `{Clock C}.

(** The constructor; [jitter] is [random_uint64(0, 60)], [expire_secs] is
    [g_connection_expire_secs]. *)
Definition MuxConnection_new (ty : MuxConnectionType) (io : C) (ctx : CipherContext)
    (local relay callback : bool) (expire_secs jitter : Z) : MuxConnection C := {|
  type_ := ty; io_conn := io; cipher_ctx := ctx; write_mutex := mutex_new;
  write_buffer := zrepeat kWriteBufferSize 0; read_buffer := zrepeat (2 * kMaxChunkSize) 0;
  readable_data := {| sp_off := 0; sp_len := 0 |};
  conn_user := []; conn_client_id := 0; idx := 0;
  expire_at_unix_secs := wrap 32 (unix_time io + expire_secs + jitter);
  last_unmatch_stream_id := 0; last_active_write_unix_secs := 0; last_active_read_unix_secs := 0;
  recv_bytes := 0; send_bytes := 0; read_state := STATE_INIT;
  latest_window_recv_bytes := zrepeat 32 0; latest_window_send_bytes := zrepeat 32 0;
  has_server_relay := relay; has_retire_callback := callback;
  is_local := local; is_authed := false; retired := false |}.

(** An operation of the transport, and one of the cipher context. *)
Definition on_conn {A} (m : st C A) : st (MuxConnection C) A := fun cn =>
  let '(io, r) := m (io_conn cn) in (set_io (fun _ => io) cn, r).
Definition on_cipher {A} (m : st CipherContext A) : st (MuxConnection C) A := fun cn =>
  let '(ctx, r) := m (cipher_ctx cn) in (set_cipher (fun _ => ctx) cn, r).

(** ** Traffic windows *)

(** [w\[t % w.size()\] += n] on a [std::vector<uint32_t>]. *)
Definition window_add (t n : Z) (w : list Z) : list Z :=
  alter (fun v => wrap 32 (v + n)) (Z.to_nat (t mod zlen w)) w.
Definition window_clear (t : Z) (w : list Z) : list Z := <[Z.to_nat (t mod zlen w) := 0]> w.

Definition ResetCounter (now : Z) (cn : MuxConnection C) : MuxConnection C :=
  let clear w := window_clear (wrap 32 (now + 1 + 1)) (window_clear (wrap 32 (now + 1 + 0)) w) in
  set_window_send clear (set_window_recv clear cn).

Definition window_sum (w : list Z) : Z := foldl (fun n v => wrap 64 (n + v)) 0 w.
Definition GetLatestWindowRecvBytes (cn : MuxConnection C) : Z := window_sum (latest_window_recv_bytes cn).
Definition GetLatestWindowSendBytes (cn : MuxConnection C) : Z := window_sum (latest_window_send_bytes cn).

Definition GetLastActiveUnixSecs (cn : MuxConnection C) : Z :=
  if last_active_read_unix_secs cn <? last_active_write_unix_secs cn
  then last_active_write_unix_secs cn else last_active_read_unix_secs cn.

(** [ComparePriority]. *)
Definition ComparePriority (this other : MuxConnection C) : Z :=
  let wc cn := wait_count (write_mutex cn) in
  let lk cn := locked (write_mutex cn) in
  if wc this <? wc other then 1
  else if wc other <? wc this then -1
  else if negb (lk this) && lk other then 1
  else if lk this && negb (lk other) then -1
  else
    let latest_send_bytes := GetLatestWindowSendBytes this in
    let other_latest_send_bytes := GetLatestWindowSendBytes other in
    if latest_send_bytes <? other_latest_send_bytes then 1
    else if other_latest_send_bytes <? latest_send_bytes then -1
    else 0.

(** ** The reader *)

(** [ReadEventFromBuffer]: the rest of the span and the event, or the error code. *)
Definition ReadEventFromBuffer (buffer : Span) : st (MuxConnection C) (Span * (MuxEvent + Z)) :=
  if sp_len buffer =? 0 then sret (buffer, inr ERR_NEED_MORE_INPUT_DATA) else
  let! cn := sget in
  let! inp := slift (access (zslice (sp_off buffer) (sp_len buffer) (read_buffer cn))) in
  let '(ctx, r) := Decrypt inp (cipher_ctx cn) in
  let! _ := smodify (set_cipher (fun _ => ctx)) in
  match r with
  | Ok (event, decrypt_len) => sret (remove_prefix decrypt_len buffer, inl event)
  | Err rc =>
      if negb (rc =? ERR_NEED_MORE_INPUT_DATA) then sret (buffer, inr rc)
      else if negb (sp_off buffer =? 0) then
        let! moved := slift (access (zblit 0 inp (read_buffer cn))) in
        let! _ := smodify (set_read_buffer (fun _ => moved)) in
        sret (buffer, inr ERR_NEED_MORE_INPUT_DATA)
      else sret (buffer, inr ERR_NEED_MORE_INPUT_DATA)
  | Ub => slift Ub
  | Hang => slift Hang
  end.

(** The loop of [ReadEvent]. *)
Fixpoint ReadEvent_loop (fuel : nat) (cur : Span) : st (MuxConnection C) (Span * (MuxEvent + Z)) :=
  match fuel with
  | O => fun cn => (cn, Hang)
  | S fuel =>
      let! '(cur, r) := ReadEventFromBuffer cur in
      match r with
      | inl event => sret (cur, inl event)
      | inr rc =>
          if negb (rc =? ERR_NEED_MORE_INPUT_DATA) then sret (cur, inr rc) else
          let read_pos := sp_len cur in
          let! cn := sget in
          let! '(d, ec) := on_conn (AsyncRead (zlen (read_buffer cn) - read_pos)) in
          let! stored := slift (access (zblit read_pos d (read_buffer cn))) in
          let! _ := smodify (set_read_buffer (fun _ => stored)) in
          if negb (ec =? 0) then sret (cur, inr ec)
          else if zlen d =? 0 then sret (cur, inr ERR_READ_EOF)
          else
            let! cn := sget in
            let now := unix_time (io_conn cn) in
            let! _ := smodify (set_last_read (fun _ => wrap 32 now)) in
            let! _ := smodify (set_window_recv (window_add now (zlen d))) in
            let! _ := smodify (set_recv_bytes (fun v => wrap 64 (v + zlen d))) in
            ReadEvent_loop fuel {| sp_off := 0; sp_len := read_pos + zlen d |}
      end
  end.

(** Every turn of the loop but the last stores a byte into a buffer of 16384 bytes. *)
Definition read_fuel : nat := Z.to_nat (2 * kMaxChunkSize + 1).

(** [ReadEvent]. *)
Definition ReadEvent : st (MuxConnection C) MuxEvent :=
  let! cn := sget in
  let! '(cur, r) := ReadEvent_loop read_fuel (readable_data cn) in
  let! _ := smodify (set_readable (fun _ => cur)) in
  match r with inl event => sret event | inr rc => sfail rc end.

(** ** The writer *)

Definition conn_Unlock : st (MuxConnection C) unit :=
  smodify (set_mutex (fun m => fst (Unlock m))).

(** [Write]: the event (its length filled in) and whether it was sent. *)
Definition Write (write_ev : MuxEvent) : st (MuxConnection C) (MuxEvent * bool) :=
  let! cn := sget in
  let '(m, o) := Lock (write_mutex cn) in
  let! _ := smodify (set_mutex (fun _ => m)) in
  match o with
  | Receiving => slift Hang
  | _ =>
      let now := unix_time (io_conn cn) in
      let! _ := smodify (set_last_write (fun _ => wrap 32 now)) in
      let '((ctx, write_ev), r) := Encrypt (write_buffer cn) (cipher_ctx cn, write_ev) in
      let! _ := smodify (set_cipher (fun _ => ctx)) in
      match r with
      | Err rc => let! _ := conn_Unlock in sret (write_ev, false)
      | Ok wbuffer =>
          let! stored := slift (access (zblit 0 wbuffer (write_buffer cn))) in
          let! _ := smodify (set_write_buffer (fun _ => stored)) in
          let! '(n, ec) := on_conn (AsyncWrite wbuffer) in
          let! _ := conn_Unlock in
          if negb (ec =? 0) then sret (write_ev, false)
          else
            let! _ := smodify (set_send_bytes (fun v => wrap 64 (v + zlen wbuffer))) in
            let! _ := smodify (set_window_send (window_add now (zlen wbuffer))) in
            sret (write_ev, true)
      | Ub => slift Ub
      | Hang => slift Hang
      end
  end.

Definition WriteEvent (event : MuxEvent) : st (MuxConnection C) bool :=
  let! '(_, r) := Write event in sret r.

(** [Close]. *)
Definition conn_Close (cn : MuxConnection C) : MuxConnection C :=
  set_mutex mutex_Close (set_io IoClose cn).

(** ** The handshake *)

Definition auth_request (role : NodeRole) (user : bytes) (client_id : Z) : snova_AuthRequest := {|
  auth_user := snprintf_s 256 user; auth_client_id := client_id;
  is_entry := g_is_entry_node role; is_exit := g_is_exit_node role;
  is_middle := g_is_middle_node role |}.

(** [ClientAuth] up to the write of the request. *)
Definition ClientAuth_send (role : NodeRole) (user : bytes) (client_id : Z) : st (MuxConnection C) bool :=
  let! cn := sget in
  if negb (is_local cn) then sret false else
  let! _ := smodify (set_client_id (fun _ => client_id)) in
  WriteEvent (make_event 0 (AuthRequest (auth_request role user client_id))).

(** [ClientAuth] from the read of the response. *)
Definition ClientAuth_recv (user : bytes) : st (MuxConnection C) bool := fun cn =>
  match ReadEvent cn with
  | (cn, Ok auth_res) =>
      match body auth_res with
      | AuthResponse event =>
          let cn := if authres_success event
                    then set_authed (fun _ => true) (set_cipher (UpdateNonce (iv event)) cn) else cn in
          (set_user (fun _ => user) cn, Ok (authres_success event))
      | _ => (cn, Ok false)
      end
  | (cn, Err rc) => (cn, Ok false)
  | (cn, Ub) => (cn, Ub)
  | (cn, Hang) => (cn, Hang)
  end.

Definition ClientAuth (role : NodeRole) (user : bytes) (client_id : Z) : st (MuxConnection C) bool :=
  let! cn := sget in
  if negb (is_local cn) then sret false else
  let! write_success := ClientAuth_send role user client_id in
  if negb write_success then sret false else ClientAuth_recv user.

(** The roles the two ends must not share. *)
Definition invalid_role (role : NodeRole) (ev : snova_AuthRequest) : bool :=
  (g_is_entry_node role && is_entry ev) || (g_is_exit_node role && is_exit ev) ||
  (g_is_middle_node role && is_middle ev).

Definition role_type (ev : snova_AuthRequest) : MuxConnectionType :=
  if is_entry ev then MUX_ENTRY_CONN else if is_exit ev then MUX_EXIT_CONN else MUX_ENTRY_CONN.

(** [ServerAuth]; [iv0] is [random_uint64(0, 102 * 1024 * 1024)]. *)
Definition ServerAuth (role : NodeRole) (iv0 : Z) : st (MuxConnection C) (bytes * Z * bool) := fun cn =>
  if is_local cn then (cn, Ok ([], 0, false)) else
  match ReadEvent cn with
  | (cn, Ok auth_req) =>
      match body auth_req with
      | AuthRequest event =>
          if invalid_role role event then (cn, Ok ([], 0, false)) else
          (let! _ := smodify (set_type (fun _ => role_type event)) in
           let! write_success :=
             WriteEvent (make_event 0 (AuthResponse {| authres_success := true; iv := iv0 |})) in
           let! _ := smodify (set_cipher (if write_success then UpdateNonce iv0 else id)) in
           let! _ := smodify (set_client_id (fun _ => auth_client_id event)) in
           let! _ := smodify (set_user (fun _ => auth_user event)) in
           sret (auth_user event, auth_client_id event, write_success)) cn
      | _ => (cn, Ok ([], 0, false))
      end
  | (cn, Err rc) => (cn, Ok ([], 0, false))
  | (cn, Ub) => (cn, Ub)
  | (cn, Hang) => (cn, Hang)
  end.

(** [OpenTunnel], cut at the read as [ClientAuth] is.  When the answer is another event, the
    message that reports it reads the type through the null pointer the cast returned. *)
Definition OpenTunnel_send (remote_port0 : Z) (local_host0 : bytes) (local_port0 : Z) (tcp : bool)
  : st (MuxConnection C) bool :=
  WriteEvent (make_event 0 (TunnelOpenRequest {|
    local_host := snprintf_s 512 local_host0; local_port := local_port0;
    tunnel_remote_port := remote_port0; tunnel_is_tcp := tcp |})).

Definition OpenTunnel_recv : st (MuxConnection C) bool := fun cn =>
  match ReadEvent cn with
  | (cn, Ok tunnel_res) =>
      match body tunnel_res with
      | TunnelOpenResponse event => (cn, Ok (tunnel_success event))
      | _ => (cn, Ub)
      end
  | (cn, Err rc) => (cn, Ok false)
  | (cn, Ub) => (cn, Ub)
  | (cn, Hang) => (cn, Hang)
  end.

Definition OpenTunnel (remote_port0 : Z) (local_host0 : bytes) (local_port0 : Z) (tcp : bool)
  : st (MuxConnection C) bool :=
  let! write_success := OpenTunnel_send remote_port0 local_host0 local_port0 tcp in
  if negb write_success then sret false else OpenTunnel_recv.

End connection.

(** ** Well-formed connections *)

Section facts.
Context `{Platform, !PlatformOk} `{Nanopb, !NanopbOk} `{Aead, !AeadOk}.
Context {C : Type} `{IOConnection C} `{Clock C}.
Implicit Type cn : MuxConnection C.

Definition span_in (b : Span) (l : bytes) : Prop :=
  0 <= sp_off b /\ 0 <= sp_len b /\ sp_off b + sp_len b <= zlen l.

Definition span_bytes (b : Span) (l : bytes) : bytes := ztake (sp_len b) (zdrop (sp_off b) l).

Definition conn_wf (cn : MuxConnection C) : Prop :=
  ctx_wf (cipher_ctx cn) /\ zlen (read_buffer cn) = 2 * kMaxChunkSize /\
  zlen (write_buffer cn) = kWriteBufferSize /\ span_in (readable_data cn) (read_buffer cn).

(** The bytes received and not yet decoded. *)
Definition pending (cn : MuxConnection C) : bytes := span_bytes (readable_data cn) (read_buffer cn).

(** What the reader, and what the writer, leaves alone. *)
Definition reader_keeps (cn : MuxConnection C) :=
  (type_ cn, write_mutex cn, write_buffer cn, conn_user cn, conn_client_id cn,
   (idx cn, last_unmatch_stream_id cn, last_active_write_unix_secs cn, send_bytes cn, read_state cn,
    latest_window_send_bytes cn), (has_server_relay cn, has_retire_callback cn, is_local cn,
   is_authed cn, retired cn)).
Definition writer_keeps (cn : MuxConnection C) :=
  (type_ cn, write_mutex cn, read_buffer cn, readable_data cn, conn_user cn, conn_client_id cn,
   (idx cn, last_unmatch_stream_id cn, last_active_read_unix_secs cn, recv_bytes cn, read_state cn,
    latest_window_recv_bytes cn), (has_server_relay cn, has_retire_callback cn, is_local cn,
   is_authed cn, retired cn)).

Lemma MuxConnection_new_wf ty io ctx local relay callback expire jitter :
  ctx_wf ctx -> conn_wf (MuxConnection_new ty io ctx local relay callback expire jitter) /\
  pending (MuxConnection_new ty io ctx local relay callback expire jitter) = [].
Proof.
  intros Hc; split; [|reflexivity]; split; [exact Hc|]; cbn [read_buffer write_buffer readable_data MuxConnection_new].
  unfold span_in; rewrite !zlen_repeat by done; done.
Qed.

Lemma zlen_span b l : span_in b l -> zlen (span_bytes b l) = sp_len b.
Proof. intros (? & ? & ?); unfold span_bytes; rewrite zlen_take; [done|]; rewrite zlen_drop; lia. Qed.

Lemma zslice_span b l : span_in b l -> zslice (sp_off b) (sp_len b) l = Some (span_bytes b l).
Proof. intros (? & ? & ?); by apply zslice_Some. Qed.

(** Consuming a prefix of the span. *)
Lemma remove_prefix_spec b l w rest :
  span_in b l -> span_bytes b l = w ++ rest ->
  span_in (remove_prefix (zlen w) b) l /\ span_bytes (remove_prefix (zlen w) b) l = rest.
Proof.
  intros Hb E; pose proof (zlen_span b l Hb) as Hl; rewrite E, zlen_app in Hl.
  destruct Hb as (Ho & Hn & Hs); pose proof (zlen_nonneg w); pose proof (zlen_nonneg rest).
  unfold remove_prefix, span_in, span_bytes in *; simpl; split; [lia|].
  rewrite <- (zdrop_zdrop (zlen w)) by lia; set (t := zdrop (sp_off b) l) in *.
  assert (rest = zdrop (zlen w) (ztake (sp_len b) t)) as -> by (by rewrite E, zdrop_app_exact).
  unfold ztake, zdrop; rewrite skipn_firstn_comm; f_equal; lia.
Qed.

Lemma fresh_span_spec l p d r :
  zblit (zlen p) d l = Some r -> ztake (zlen p) l = p ->
  span_in {| sp_off := 0; sp_len := zlen p + zlen d |} r /\
  span_bytes {| sp_off := 0; sp_len := zlen p + zlen d |} r = p ++ d /\ zlen r = zlen l.
Proof.
  intros (Ho & Hs & Hl & ->)%zblit_inv E; rewrite E; pose proof (zlen_nonneg d).
  unfold span_in, span_bytes; simpl; rewrite zdrop_0, app_assoc, ztake_app_exact by (by rewrite zlen_app).
  rewrite !zlen_app, zlen_drop by lia; split_and!; try done; lia.
Qed.

(** ** Reading a frame *)

Definition next_ctx (d d' : CipherContext) : Prop :=
  ctx_wf d' /\ cipher_key d' = cipher_key d /\ encrypt_iv d' = encrypt_iv d /\
  decrypt_iv d' = wrap 64 (decrypt_iv d + 1).

Lemma ReadEventFromBuffer_frame cn cur key e w rest :
  ctx_wf (cipher_ctx cn) -> cipher_key (cipher_ctx cn) = Some key -> span_in cur (read_buffer cn) ->
  frame_of key (decrypt_iv (cipher_ctx cn)) e w -> len (head e) <= kMaxChunkSize + 128 ->
  span_bytes cur (read_buffer cn) = w ++ rest ->
  exists ctx, next_ctx (cipher_ctx cn) ctx /\
    ReadEventFromBuffer cur cn = (set_cipher (fun _ => ctx) cn, Ok (remove_prefix (zlen w) cur, inl e)).
Proof.
  intros Hc Hk Hs Hf Hlen E; destruct (frame_length _ _ _ _ Hf) as [Hwl Hl0]; pose proof aead_tag_room.
  assert (0 < sp_len cur) as Hp.
  { rewrite <- (zlen_span cur _ Hs), E, zlen_app, Hwl; unfold expected_len, kEventHeadSize.
    pose proof (zlen_nonneg rest); case_match; lia. }
  destruct (Decrypt_frame (cipher_ctx cn) key e w rest) as (ctx & HD & ?); try done.
  exists ctx; split; [done|]; unfold ReadEventFromBuffer; bool_false (sp_len cur =? 0); srun.
  by rewrite (zslice_span _ _ Hs), E, HD.
Qed.

Lemma ReadEventFromBuffer_prefix cn cur key e p q :
  ctx_wf (cipher_ctx cn) -> cipher_key (cipher_ctx cn) = Some key -> span_in cur (read_buffer cn) ->
  frame_of key (decrypt_iv (cipher_ctx cn)) e (p ++ q) -> len (head e) <= kMaxChunkSize + 128 -> q <> [] ->
  span_bytes cur (read_buffer cn) = p ->
  exists b, zlen b = zlen (read_buffer cn) /\ ztake (zlen p) b = p /\
    ReadEventFromBuffer cur cn = (set_read_buffer (fun _ => b) cn, Ok (cur, inr ERR_NEED_MORE_INPUT_DATA)).
Proof.
  intros Hc Hk Hs Hf Hlen Hq E; pose proof (zlen_span cur _ Hs) as Hpl; rewrite E in Hpl.
  unfold ReadEventFromBuffer; case Z.eqb_spec; intros Hz.
  { exists (read_buffer cn); split; [done|]; split; [|by destruct cn].
    rewrite Hpl, Hz, ztake_0; symmetry; apply zlen_zero; lia. }
  srun; rewrite (zslice_span _ _ Hs), E, (Decrypt_prefix _ key e p q) by done; cbn [negb Z.eqb].
  rewrite Z.eqb_refl; cbn [negb]; case Z.eqb_spec; intros Ho; cbn [negb].
  - exists (read_buffer cn); split; [done|]; split; [|by destruct cn].
    unfold span_bytes in E; by rewrite Ho, zdrop_0, <- Hpl in E.
  - destruct Hs as (? & ? & ?); rewrite zblit_head by lia; eexists; split_and!; [| |by destruct cn].
    + rewrite zlen_app, zlen_drop; lia.
    + by apply ztake_app_exact.
Qed.

Context `{!StreamView C, !ByteStream C}.

(** What a read of one event leaves behind: the next counter, the input behind the frame, nothing
    else but the reader's own fields changed. *)
Definition after_read (cn cn' : MuxConnection C) (cur : Span) (rest : bytes) : Prop :=
  next_ctx (cipher_ctx cn) (cipher_ctx cn') /\ span_in cur (read_buffer cn') /\
  zlen (read_buffer cn') = zlen (read_buffer cn) /\
  span_bytes cur (read_buffer cn') ++ rx (io_conn cn') = rest /\
  tx (io_conn cn') = tx (io_conn cn) /\ live (io_conn cn') /\ reader_keeps cn' = reader_keeps cn.

Lemma frame_room key v e w :
  frame_of key v e w -> len (head e) <= kMaxChunkSize + 128 -> zlen w < 2 * kMaxChunkSize.
Proof.
  intros Hf Hl; destruct (frame_length _ _ _ _ Hf) as [-> ?]; pose proof aead_tag_room.
  unfold expected_len, kEventHeadSize, kMaxChunkSize in *; case_match; lia.
Qed.

Lemma ReadEvent_loop_frame fuel : forall cn cur key e w rest,
  ctx_wf (cipher_ctx cn) -> cipher_key (cipher_ctx cn) = Some key -> span_in cur (read_buffer cn) ->
  zlen (read_buffer cn) = 2 * kMaxChunkSize -> live (io_conn cn) ->
  frame_of key (decrypt_iv (cipher_ctx cn)) e w -> len (head e) <= kMaxChunkSize + 128 ->
  span_bytes cur (read_buffer cn) ++ rx (io_conn cn) = w ++ rest ->
  zlen w - sp_len cur < Z.of_nat fuel -> (0 < fuel)%nat ->
  exists cn' cur', ReadEvent_loop fuel cur cn = (cn', Ok (cur', inl e)) /\ after_read cn cn' cur' rest.
Proof.
  induction fuel as [|fuel IH]; intros cn cur key e w rest Hc Hk Hs Hrb Hlv Hf Hlen E Hfu Hf0; [lia|].
  cbn [ReadEvent_loop]; srun.
  assert ((exists r1, span_bytes cur (read_buffer cn) = w ++ r1 /\ rest = r1 ++ rx (io_conn cn)) \/
          (exists q, q <> [] /\ w = span_bytes cur (read_buffer cn) ++ q /\ rx (io_conn cn) = q ++ rest))
    as [(r1 & E1 & ->) | (q & Hq & E1 & Er)].
  { destruct (app_eq_inv _ _ _ _ E) as [(k & E1 & E2)|(k & E1 & E2)]; [left; by exists k|].
    destruct k as [|x k]; [left; exists []; by rewrite app_nil_r in *|].
    right; exists (x :: k); done. }
  - destruct (ReadEventFromBuffer_frame cn cur key e w r1) as (ctx & Hctx & ->); try done.
    destruct (remove_prefix_spec _ _ _ _ Hs E1) as [? E2].
    eexists _, _; split; [done|]; split_and!; try done; apply Hctx || (cbn; by rewrite E2).
  - set (p := span_bytes cur (read_buffer cn)) in *; subst w.
    pose proof (frame_room _ _ _ _ Hf Hlen) as Hroom; apply zlen_pos in Hq as Hq'; rewrite zlen_app in *.
    pose proof (zlen_span cur _ Hs) as Hpl; fold p in Hpl; pose proof (zlen_nonneg p).
    destruct (ReadEventFromBuffer_prefix cn cur key e p q) as (b & Hbl & Hbp & ->); try done.
    cbn -[ReadEvent_loop read_fuel zlen]; rewrite Hbl; unfold on_conn; cbn -[ReadEvent_loop zlen].
    destruct (stream_read (zlen (read_buffer cn) - sp_len cur) (io_conn cn))
      as (io & d & -> & Hd & Hdl & Hrx & Htx & Hio); [done | lia | by rewrite Er; destruct q|].
    apply zlen_pos in Hd as Hd'; destruct (zblit (sp_len cur) d b) as [r|] eqn:Eb;
      [|by rewrite zblit_Some in Eb by lia].
    cbn -[ReadEvent_loop zlen Z.eqb]; rewrite Z.eqb_refl; bool_false (zlen d =? 0); cbn [negb].
    rewrite <- Hpl in Eb |- *; destruct (fresh_span_spec _ _ _ _ Eb Hbp) as (Hs' & Hsb & Hrl).
    match goal with |- exists cn' cur', ReadEvent_loop fuel ?s ?c1 = _ /\ _ =>
      destruct (IH c1 s key e (p ++ q) rest) as (cn' & cur' & -> & Hctx & ? & ? & ? & Ht & ? & ?) end;
      try done; cbn -[zlen] in *; try lia.
    + by rewrite Hsb, <- !app_assoc, <- Hrx, Er.
    + rewrite zlen_app; lia.
    + eexists _, _; split; [done|]; split_and!; try done; try lia; try congruence; apply Hctx.
Qed.

Lemma ReadEvent_frame cn key e w rest :
  conn_wf cn -> cipher_key (cipher_ctx cn) = Some key -> live (io_conn cn) ->
  frame_of key (decrypt_iv (cipher_ctx cn)) e w -> len (head e) <= kMaxChunkSize + 128 ->
  pending cn ++ rx (io_conn cn) = w ++ rest ->
  exists cn', ReadEvent cn = (cn', Ok e) /\ conn_wf cn' /\ next_ctx (cipher_ctx cn) (cipher_ctx cn') /\
    pending cn' ++ rx (io_conn cn') = rest /\ tx (io_conn cn') = tx (io_conn cn) /\
    live (io_conn cn') /\ reader_keeps cn' = reader_keeps cn.
Proof.
  intros (Hc & Hr & Hw & Hs) Hk Hl Hf Hlen E.
  pose proof (frame_room _ _ _ _ Hf Hlen); destruct Hs as (Ho & Hn & Hsl).
  destruct (ReadEvent_loop_frame read_fuel cn (readable_data cn) key e w rest)
    as (cn1 & cur & E1 & Hctx & Hin & Hrl & Hrest & Ht & Hl' & Hkeep); try done.
  { unfold read_fuel, kMaxChunkSize in *; lia. }
  { unfold read_fuel, kMaxChunkSize; lia. }
  unfold ReadEvent; srun; rewrite E1; eexists; split; [done|]; split_and!; try done; try apply Hctx.
  unfold conn_wf; cbn -[zlen]; rewrite Hrl; unfold reader_keeps in Hkeep.
  injection Hkeep as _ _ Hwb _; rewrite Hwb; split_and!; try done; apply Hctx.
Qed.

End facts.

Section writer_facts.
Context `{Platform, !PlatformOk} `{Nanopb, !NanopbOk} `{Aead, !AeadOk}.
Context {C : Type} `{IOConnection C} `{Clock C} `{!StreamView C, !ByteStream C}.
Implicit Type cn : MuxConnection C.

Definition mutex_free (m : AsyncChannelMutex) : Prop := chan_open m = true /\ locked m = false.

(** ** Writing a frame *)

Lemma Write_frame cn key e :
  conn_wf cn -> cipher_key (cipher_ctx cn) = Some key -> live (io_conn cn) ->
  mutex_free (write_mutex cn) -> event_wf e -> body_max (body e) <= kMaxChunkSize ->
  exists cn' w n,
    Write e cn = (cn', Ok (set_head (with_len n (head e)) e, true)) /\ conn_wf cn' /\
    body_size (body e) n /\ frame_of key (encrypt_iv (cipher_ctx cn)) (delivered n e) w /\
    cipher_key (cipher_ctx cn') = Some key /\
    encrypt_iv (cipher_ctx cn') = wrap 64 (encrypt_iv (cipher_ctx cn) + 1) /\
    decrypt_iv (cipher_ctx cn') = decrypt_iv (cipher_ctx cn) /\
    tx (io_conn cn') = tx (io_conn cn) ++ w /\ rx (io_conn cn') = rx (io_conn cn) /\
    live (io_conn cn') /\ writer_keeps cn' = writer_keeps cn.
Proof.
  intros (Hc & Hr & Hw & Hs) Hk Hl [Hmo Hml] He Hmax; pose proof aead_tag_room.
  destruct (Encrypt_frame (cipher_ctx cn) e (write_buffer cn) key Hc Hk He)
    as (w & n & ctx & HE & (Hc' & Hk' & Hd') & Hi & Hn & Hf).
  { unfold encodable; rewrite Hw; unfold kWriteBufferSize, kMaxChunkSize, kEventHeadSize, kReservedBufferSize in *.
    split_and!; lia. }
  pose proof (body_size_max _ _ (proj2 (proj2 (proj2 He))) Hn).
  assert (zlen w <= zlen (write_buffer cn)) as Hfit.
  { destruct (frame_length _ _ _ _ Hf) as [-> _]; rewrite Hw; simpl.
    unfold expected_len, kWriteBufferSize, kMaxChunkSize, kEventHeadSize, kReservedBufferSize in *; simpl.
    case_match; lia. }
  destruct (stream_write w (io_conn cn)) as (io & EW & Htx & Hrx & Hlv); [done|].
  unfold Write; srun; unfold Lock, Lock_loop; rewrite Hmo, Hml; srun; rewrite HE.
  rewrite zblit_head by done; cbn -[zlen zdrop]; unfold on_conn; cbn -[zlen zdrop]; rewrite EW; cbn -[zlen zdrop].
  eexists _, w, n; split; [done|]; split_and!; try done; try (by cbn; congruence).
  - pose proof (zlen_nonneg w); unfold conn_wf; cbn -[zlen]; split_and!; try done.
    rewrite zlen_app, zlen_drop; lia.
  - unfold writer_keeps, Unlock; cbn -[zlen]; do 6 f_equal; destruct (write_mutex cn); simpl in *; congruence.
Qed.

(** ** Sequences of events *)

Fixpoint WriteEvents (es : list MuxEvent) : st (MuxConnection C) (list bool) :=
  match es with
  | [] => sret []
  | e :: es => let! r := WriteEvent e in let! rs := WriteEvents es in sret (r :: rs)
  end.

Fixpoint ReadEvents (n : nat) : st (MuxConnection C) (list MuxEvent) :=
  match n with
  | O => sret []
  | S n => let! e := ReadEvent in let! es := ReadEvents n in sret (e :: es)
  end.

(** [wire] is the frames of [es] one after the other, from counter [v]. *)
Fixpoint frames_of (key : bytes) (v : Z) (es : list MuxEvent) (wire : bytes) : Prop :=
  match es with
  | [] => wire = []
  | e :: es => exists w rest, wire = w ++ rest /\ frame_of key v e w /\
      len (head e) <= kMaxChunkSize + 128 /\ frames_of key (wrap 64 (v + 1)) es rest
  end.

(** What the peer of a sender of [es] gets. *)
Definition delivery (es es' : list MuxEvent) : Prop :=
  Forall2 (fun e e' => exists n, body_size (body e) n /\ e' = delivered n e) es es'.

Lemma delivered_len e n :
  event_wf e -> body_max (body e) <= kMaxChunkSize -> body_size (body e) n ->
  len (head (delivered n e)) <= kMaxChunkSize + 128.
Proof. intros He Hm Hn; apply body_size_max in Hn; [simpl; lia | apply He]. Qed.

(** The counter after [k] frames. *)
Definition counter_after (v : Z) (k : nat) : Z := Nat.iter k (fun v => wrap 64 (v + 1)) v.

Lemma counter_after_S v k : counter_after v (S k) = counter_after (wrap 64 (v + 1)) k.
Proof. unfold counter_after; by rewrite Nat.iter_succ_r. Qed.

Lemma WriteEvents_frames es : forall cn key,
  conn_wf cn -> cipher_key (cipher_ctx cn) = Some key -> live (io_conn cn) ->
  mutex_free (write_mutex cn) -> Forall sendable es ->
  exists cn' wire es',
    WriteEvents es cn = (cn', Ok (replicate (length es) true)) /\ conn_wf cn' /\ delivery es es' /\
    frames_of key (encrypt_iv (cipher_ctx cn)) es' wire /\
    tx (io_conn cn') = tx (io_conn cn) ++ wire /\ rx (io_conn cn') = rx (io_conn cn) /\
    live (io_conn cn') /\ writer_keeps cn' = writer_keeps cn /\
    cipher_key (cipher_ctx cn') = Some key /\ decrypt_iv (cipher_ctx cn') = decrypt_iv (cipher_ctx cn) /\
    encrypt_iv (cipher_ctx cn') = counter_after (encrypt_iv (cipher_ctx cn)) (length es).
Proof.
  induction es as [|e es IH]; intros cn key Hcn Hk Hl Hm Hes; cbn [WriteEvents].
  { exists cn, [], []; rewrite app_nil_r; split_and!; try done; constructor. }
  apply Forall_cons in Hes as [[He Hmax] Hes].
  destruct (Write_frame cn key e) as (c1 & w & n & E1 & Hc1 & Hn & Hf & Hk1 & Hi1 & Hd1 & Ht1 & Hr1 & Hl1 & Hw1);
    try done.
  assert (write_mutex c1 = write_mutex cn) as Hm1 by (unfold writer_keeps in Hw1; congruence).
  destruct (IH c1 key) as (c2 & wire & es' & E2 & Hc2 & Hdl & Hfs & Ht2 & Hr2 & Hl2 & Hw2 & Hk2 & Hd2 & Hi2);
    try done; [by rewrite Hm1|].
  exists c2, (w ++ wire), (delivered n e :: es'); unfold WriteEvent; srun; rewrite E1, E2.
  split_and!; try done; try congruence.
  - constructor; [by exists n | done].
  - exists w, wire; split_and!; try done; [by apply delivered_len | by rewrite <- Hi1].
  - by rewrite Ht2, Ht1, app_assoc.
  - cbn [length]; by rewrite Hi2, Hi1, counter_after_S.
Qed.

Lemma ReadEvents_frames es : forall cn key wire rest,
  conn_wf cn -> cipher_key (cipher_ctx cn) = Some key -> live (io_conn cn) ->
  frames_of key (decrypt_iv (cipher_ctx cn)) es wire -> pending cn ++ rx (io_conn cn) = wire ++ rest ->
  exists cn', ReadEvents (length es) cn = (cn', Ok es) /\ conn_wf cn' /\
    pending cn' ++ rx (io_conn cn') = rest /\ live (io_conn cn') /\ reader_keeps cn' = reader_keeps cn /\
    cipher_key (cipher_ctx cn') = Some key /\ encrypt_iv (cipher_ctx cn') = encrypt_iv (cipher_ctx cn) /\
    decrypt_iv (cipher_ctx cn') = counter_after (decrypt_iv (cipher_ctx cn)) (length es).
Proof.
  induction es as [|e es IH]; intros cn key wire rest Hcn Hk Hl Hf E; cbn [ReadEvents length].
  { simpl in Hf; subst wire; by exists cn. }
  destruct Hf as (w & wire' & -> & Hf & Hlen & Hfs); rewrite <- app_assoc in E.
  destruct (ReadEvent_frame cn key e w (wire' ++ rest))
    as (c1 & E1 & Hc1 & (_ & Hk1 & He1 & Hd1) & Hp1 & _ & Hl1 & Hw1); try done.
  destruct (IH c1 key wire' rest) as (c2 & E2 & Hc2 & Hp2 & Hl2 & Hw2 & Hk2 & He2 & Hd2); try done;
    [by rewrite Hk1 | by rewrite Hd1 |].
  exists c2; srun; rewrite E1, E2; split_and!; try done; try congruence.
  by rewrite Hd2, Hd1, counter_after_S.
Qed.

End writer_facts.

(** ** Any input *)

Section safety.
Context `{Platform, !PlatformOk} `{Nanopb, !NanopbOk} `{Aead, !AeadOk}.
Context {C : Type} `{IOConnection C, !IOConnectionOk C} `{Clock C}.
Implicit Type cn : MuxConnection C.

Definition reader_ok (cn : MuxConnection C) (cur : Span) : Prop :=
  ctx_wf (cipher_ctx cn) /\ zlen (read_buffer cn) = 2 * kMaxChunkSize /\
  is_bytes (read_buffer cn) /\ span_in cur (read_buffer cn).

(** A read of the transport that does not complete. *)
Definition transport_hangs : Prop := exists cap (io io' : C), AsyncRead cap io = (io', Hang).

Lemma is_bytes_blit off d l r : is_bytes d -> is_bytes l -> zblit off d l = Some r -> is_bytes r.
Proof.
  intros ? ? (_ & _ & _ & ->)%zblit_inv; repeat (apply is_bytes_app; split); auto with snova.
Qed.

Lemma ReadEventFromBuffer_safe cn cur :
  reader_ok cn cur ->
  exists cn' cur' r, ReadEventFromBuffer cur cn = (cn', Ok (cur', r)) /\
    reader_ok cn' cur' /\ reader_keeps cn' = reader_keeps cn /\ io_conn cn' = io_conn cn /\
    match r with
    | inl _ => True
    | inr rc => sp_len cur' = sp_len cur
    end.
Proof.
  intros (Hc & Hr & Hb & Hs); unfold ReadEventFromBuffer; case Z.eqb_spec; intros Hz.
  { by eexists cn, cur, _. }
  srun; rewrite (zslice_span _ _ Hs).
  pose proof (Decrypt_safe (cipher_ctx cn) (span_bytes cur (read_buffer cn)) Hc) as HD.
  assert (is_bytes (span_bytes cur (read_buffer cn))) as Hsb by (unfold span_bytes; auto with snova).
  rewrite (zlen_span _ _ Hs) in HD.
  destruct (Decrypt _ _) as [ctx [[e n]|rc| |]]; [|..|by destruct HD|by destruct HD].
  - destruct HD as [Hctx Hn]; [done|]; destruct Hs as (? & ? & ?).
    eexists _, _, _; split; [done|]; unfold reader_ok, span_in, remove_prefix, kEventHeadSize in *; simpl.
    split_and!; try done; lia.
  - specialize (HD Hsb); destruct (negb (rc =? _)); [by eexists _, _, _|].
    destruct (negb (sp_off cur =? 0)); [|by eexists _, _, _].
    destruct (zblit 0 _ (read_buffer cn)) as [b|] eqn:Eb.
    + eexists _, _, _; split; [done|]; unfold reader_ok, span_in in *; simpl.
      pose proof (is_bytes_blit _ _ _ _ Hsb Hb Eb); apply zblit_inv in Eb as (_ & _ & Hbl & _).
      rewrite Hbl; destruct Hs as (? & ? & ?); split_and!; try done; lia.
    + rewrite zblit_head in Eb; [done|]; rewrite (zlen_span _ _ Hs); destruct Hs; lia.
Qed.

Lemma ReadEvent_loop_safe fuel : forall cn cur,
  reader_ok cn cur -> 2 * kMaxChunkSize - sp_len cur < Z.of_nat fuel ->
  match ReadEvent_loop fuel cur cn with
  | (cn', Ok (cur', _)) => reader_ok cn' cur' /\ reader_keeps cn' = reader_keeps cn
  | (cn', Hang) => transport_hangs
  | _ => False
  end.
Proof.
  induction fuel as [|fuel IH]; intros cn cur Hok Hf.
  { destruct Hok as (_ & Hr & _ & ? & ? & ?); lia. }
  cbn [ReadEvent_loop]; srun.
  destruct (ReadEventFromBuffer_safe cn cur Hok) as (c1 & cur1 & r & -> & Hok1 & Hk1 & Hio & Hr).
  destruct r as [e|rc]; [done|]; destruct (negb (rc =? _)); [done|].
  destruct Hok1 as (Hc1 & Hl1 & Hb1 & Hs1); pose proof Hs1 as (? & ? & ?); unfold on_conn.
  pose proof (read_fits (zlen (read_buffer c1) - sp_len cur1) (io_conn c1) ltac:(lia)) as Hrd.
  destruct (AsyncRead _ (io_conn c1)) as [io [[d ec]| | |]] eqn:Er; [|done|done|by eexists _, _, _].
  destruct Hrd as [Hdl Hdb]; cbn -[ReadEvent_loop zlen].
  destruct (zblit (sp_len cur1) d (read_buffer c1)) as [b|] eqn:Eb;
    [|by rewrite zblit_Some in Eb by lia].
  pose proof (is_bytes_blit _ _ _ _ Hdb Hb1 Eb); apply zblit_inv in Eb as (_ & _ & Hbl & _).
  cbn -[ReadEvent_loop zlen]; destruct (negb (ec =? 0)); cbn -[ReadEvent_loop zlen].
  { unfold reader_ok, span_in in *; cbn -[zlen]; split_and!; try done; lia. }
  case Z.eqb_spec; intros Hd; cbn -[ReadEvent_loop zlen].
  { unfold reader_ok, span_in in *; cbn -[zlen]; split_and!; try done; lia. }
  pose proof (zlen_nonneg d).
  match goal with |- context [ReadEvent_loop fuel ?s ?c2] => specialize (IH c2 s) end.
  destruct (ReadEvent_loop _ _ _) as [c3 [[cur3 r3]| | |]]; try apply IH; cbn -[zlen] in *; try lia;
    try (unfold reader_ok, span_in in *; cbn -[zlen]; split_and!; try done; lia).
  destruct IH as [? Hk3]; [|lia | split; [done|]; rewrite Hk3; exact Hk1].
  unfold reader_ok, span_in in *; cbn -[zlen]; split_and!; try done; lia.
Qed.

Lemma ReadEvent_safe cn :
  conn_wf cn -> is_bytes (read_buffer cn) ->
  match ReadEvent cn with
  | (cn', Ok _) | (cn', Err _) =>
      conn_wf cn' /\ is_bytes (read_buffer cn') /\ reader_keeps cn' = reader_keeps cn
  | (cn', Hang) => transport_hangs
  | (cn', Ub) => False
  end.
Proof.
  intros (Hc & Hr & Hw & Hs) Hb; unfold ReadEvent; srun.
  assert (2 * kMaxChunkSize - sp_len (readable_data cn) < Z.of_nat read_fuel) as Hf
    by (destruct Hs; unfold read_fuel, kMaxChunkSize; lia).
  assert (reader_ok cn (readable_data cn)) as Hok by (by split_and!).
  pose proof (ReadEvent_loop_safe read_fuel cn (readable_data cn) Hok Hf) as HL.
  destruct (ReadEvent_loop _ _ _) as [c1 [[cur r]| | |]]; try done.
  destruct HL as [(Hc1 & Hr1 & Hb1 & Hs1) Hk].
  assert (write_buffer c1 = write_buffer cn) as Hwb by (unfold reader_keeps in Hk; congruence).
  destruct r; simpl; unfold conn_wf; cbn -[zlen]; rewrite Hwb; by split_and!.
Qed.

End safety.

(** ** The order of connections *)

Section priority.
Context {C : Type}.
Implicit Types (a b c : MuxConnection C).

(** [ComparePriority] compares these three, in this order, smaller first. *)
Definition load_key (cn : MuxConnection C) : Z * Z * Z :=
  (wait_count (write_mutex cn), Z.b2z (locked (write_mutex cn)), GetLatestWindowSendBytes cn).

Definition lex_lt (x y : Z * Z * Z) : Prop :=
  let '(x1, x2, x3) := x in
  let '(y1, y2, y3) := y in
  x1 < y1 \/ x1 = y1 /\ (x2 < y2 \/ x2 = y2 /\ x3 < y3).

Lemma ComparePriority_spec a b :
  (ComparePriority a b = 1 /\ lex_lt (load_key a) (load_key b)) \/
  (ComparePriority a b = -1 /\ lex_lt (load_key b) (load_key a)) \/
  (ComparePriority a b = 0 /\ load_key a = load_key b).
Proof.
  unfold ComparePriority, load_key, lex_lt.
  destruct (Z.ltb_spec (wait_count (write_mutex a)) (wait_count (write_mutex b))); [left; lia|].
  destruct (Z.ltb_spec (wait_count (write_mutex b)) (wait_count (write_mutex a))); [right; left; lia|].
  destruct (locked (write_mutex a)), (locked (write_mutex b)); cbn [negb andb Z.b2z];
    try (left; lia); try (right; left; lia); bool_cases;
    try (left; lia); try (right; left; lia); right; right; split; [done | f_equal; [f_equal|]; lia | done | f_equal; [f_equal|]; lia].
Qed.

Ltac priority_cases a b c :=
  destruct (load_key a) as [[??]?], (load_key b) as [[??]?], (load_key c) as [[??]?];
  repeat match goal with
  | H : _ \/ _ |- _ => destruct H
  | H : _ /\ _ |- _ => destruct H
  | H : (_, _, _) = (_, _, _) |- _ => injection H as ???
  end; lia.

Lemma ComparePriority_opp a b : ComparePriority a b = - ComparePriority b a.
Proof.
  pose proof (ComparePriority_spec a b); pose proof (ComparePriority_spec b a); unfold lex_lt in *.
  priority_cases a b a.
Qed.

Lemma ComparePriority_trans a b c :
  0 <= ComparePriority a b -> 0 <= ComparePriority b c -> 0 <= ComparePriority a c.
Proof.
  pose proof (ComparePriority_spec a b); pose proof (ComparePriority_spec b c).
  pose proof (ComparePriority_spec a c); unfold lex_lt in *; intros; priority_cases a b c.
Qed.

End priority.

(** ** The events of the handshake *)

Lemma auth_request_sendable role user cid :
  is_bytes user -> fits 64 cid -> sendable (make_event 0 (AuthRequest (auth_request role user cid))).
Proof. intros Hu Hc; repeat split; try done; repeat constructor; try apply Hc; by apply snprintf_s_wf. Qed.

Lemma auth_response_sendable ok v :
  fits 64 v -> sendable (make_event 0 (AuthResponse {| authres_success := ok; iv := v |})).
Proof. intros Hv; repeat split; try done; repeat constructor; apply Hv. Qed.

(** ** Theorems *)

Section theorems.
Context `{Platform, !PlatformOk} `{Nanopb, !NanopbOk} `{Aead, !AeadOk}.
Context {C D : Type} `{IOConnection C} `{Clock C} `{!StreamView C, !ByteStream C}.
Context `{IOConnection D} `{Clock D} `{!StreamView D, !ByteStream D}.

(** C7. The multiplexed connection is a reliable ordered channel of events.  A sender writes any
    list of events whose chunks have at most 8192 bytes; all writes succeed.  A receiver with the
    same key and counter, to whom the written bytes arrive cut into any pieces, reads exactly those
    events in that order, consumes exactly the written bytes, and the counters agree again. *)
Theorem events_delivered_in_order (s : MuxConnection C) (r : MuxConnection D) key es :
  conn_wf s -> conn_wf r -> cipher_key (cipher_ctx s) = Some key -> cipher_key (cipher_ctx r) = Some key ->
  encrypt_iv (cipher_ctx s) = decrypt_iv (cipher_ctx r) -> live (io_conn s) -> live (io_conn r) ->
  mutex_free (write_mutex s) -> Forall sendable es ->
  exists s' wire es',
    WriteEvents es s = (s', Ok (replicate (length es) true)) /\
    tx (io_conn s') = tx (io_conn s) ++ wire /\ delivery es es' /\
    forall rest, pending r ++ rx (io_conn r) = wire ++ rest ->
      exists r', ReadEvents (length es) r = (r', Ok es') /\
        pending r' ++ rx (io_conn r') = rest /\ conn_wf r' /\
        decrypt_iv (cipher_ctx r') = encrypt_iv (cipher_ctx s').
Proof.
  intros Hs Hr Hks Hkr Hiv Hls Hlr Hm Hes.
  destruct (WriteEvents_frames es s key)
    as (s' & wire & es' & E & Hs' & Hdl & Hf & Ht & _ & _ & _ & _ & _ & Hi); try done.
  assert (length es = length es') as Hlen by (by eapply Forall2_length).
  exists s', wire, es'; split_and!; try done; intros rest Hrx.
  destruct (ReadEvents_frames es' r key wire rest) as (r' & E' & Hr' & Hp & _ & _ & _ & _ & Hd);
    try done; [by rewrite <- Hiv|].
  exists r'; rewrite Hlen; split_and!; try done; by rewrite Hd, Hi, Hlen, Hiv.
Qed.

(** C8. The handshake.  A client and a server with the same key and counters and compatible roles:
    the request the client writes makes the server answer, and that answer makes the client
    succeed.  Both ends then use the counter value the server chose, in both directions; the server
    knows the user (as it fits the message) and the client id and has the connection's type from
    the client's role. *)
Theorem handshake_synchronises (c : MuxConnection C) (s : MuxConnection D) key crole srole user cid iv0 :
  conn_wf c -> conn_wf s -> cipher_key (cipher_ctx c) = Some key -> cipher_key (cipher_ctx s) = Some key ->
  encrypt_iv (cipher_ctx c) = decrypt_iv (cipher_ctx s) ->
  decrypt_iv (cipher_ctx c) = encrypt_iv (cipher_ctx s) -> live (io_conn c) -> live (io_conn s) ->
  mutex_free (write_mutex c) -> mutex_free (write_mutex s) -> is_local c = true -> is_local s = false ->
  pending c = [] -> is_bytes user -> fits 64 cid -> fits 64 iv0 ->
  invalid_role srole (auth_request crole user cid) = false ->
  exists c1 w1, ClientAuth_send crole user cid c = (c1, Ok true) /\
    tx (io_conn c1) = tx (io_conn c) ++ w1 /\
    (pending s ++ rx (io_conn s) = w1 ->
     exists s' w2, ServerAuth srole iv0 s = (s', Ok (snprintf_s 256 user, cid, true)) /\
       tx (io_conn s') = tx (io_conn s) ++ w2 /\ conn_wf s' /\
       type_ s' = role_type (auth_request crole user cid) /\
       conn_user s' = snprintf_s 256 user /\ conn_client_id s' = cid /\
       encrypt_iv (cipher_ctx s') = iv0 /\ decrypt_iv (cipher_ctx s') = iv0 /\
       forall io, live io -> rx io = w2 ->
         exists c2, ClientAuth_recv user (set_io (fun _ => io) c1) = (c2, Ok true) /\ conn_wf c2 /\
           is_authed c2 = true /\ conn_client_id c2 = cid /\
           encrypt_iv (cipher_ctx c2) = iv0 /\ decrypt_iv (cipher_ctx c2) = iv0).
Proof.
  intros Hc Hs Hkc Hks Hcs Hsc Hlc Hls Hmc Hms Hloc Hrem Hpc Hu Hcid Hiv Hrole.
  destruct (auth_request_sendable crole user cid Hu Hcid) as [Hreq1 Hreq2].
  destruct (auth_response_sendable true iv0 Hiv) as [Hrsp1 Hrsp2].
  set (req := make_event 0 (AuthRequest (auth_request crole user cid))) in *.
  set (rsp := make_event 0 (AuthResponse {| authres_success := true; iv := iv0 |})) in *.
  destruct (Write_frame (set_client_id (fun _ => cid) c) key req)
    as (c1 & w1 & n1 & E1 & Hc1 & Hn1 & Hf1 & Hk1 & Hi1 & Hd1 & Ht1 & _ & Hl1 & Hw1); try done.
  exists c1, w1; split; [unfold ClientAuth_send, WriteEvent; srun; rewrite Hloc; cbn [negb]; fold req; by rewrite E1|].
  split; [done|]; intros Hrx; cbn in Hf1; rewrite Hcs in Hf1; rewrite <- (app_nil_r w1) in Hrx.
  destruct (ReadEvent_frame s key _ w1 [] Hs Hks Hls Hf1 (delivered_len req n1 Hreq1 Hreq2 Hn1) Hrx)
    as (s1 & E2 & Hs1 & (_ & Hks1 & Hes1 & _) & _ & Hts1 & Hls1 & Hkeep).
  assert (write_mutex s1 = write_mutex s) as Hm1 by (unfold reader_keeps in Hkeep; congruence).
  destruct (Write_frame (set_type (fun _ => role_type (auth_request crole user cid)) s1) key rsp)
    as (s2 & w2 & n2 & E3 & Hs2 & Hn2 & Hf2 & Hk2 & _ & _ & Ht2 & _ & _ & Hw2);
    try done; [by cbn; rewrite Hks1 | by cbn; rewrite Hm1 |].
  exists (set_user (fun _ => snprintf_s 256 user) (set_client_id (fun _ => cid) (set_cipher (UpdateNonce iv0) s2))), w2.
  split; [unfold ServerAuth; rewrite Hrem, E2; cbn [body delivered received req make_event];
    rewrite Hrole; unfold WriteEvent; srun; fold rsp; by rewrite E3|].
  split; [by rewrite <- Hts1|]; split; [by destruct Hs2 as ((? & ? & ? & ? & ?) & ?)|].
  split; [unfold writer_keeps in Hw2; cbn in *; congruence|]; do 4 (split; [done|]).
  intros io Hio Hrxio; cbn in Hf2, Hd1; rewrite Hes1, <- Hsc, <- Hd1 in Hf2.
  destruct (ReadEvent_frame (set_io (fun _ => io) c1) key _ w2 [] ltac:(done) Hk1 Hio Hf2
    (delivered_len rsp n2 Hrsp1 Hrsp2 Hn2))
    as (c2 & E4 & Hc2 & _ & _ & _ & _ & Hkeep2).
  { cbn; rewrite Hrxio, app_nil_r; unfold pending; cbn.
    assert (read_buffer c1 = read_buffer c /\ readable_data c1 = readable_data c) as [-> ->]
      by (unfold writer_keeps in Hw1; cbn in Hw1; split; congruence).
    fold (pending c); by rewrite Hpc. }
  unfold ClientAuth_recv; rewrite E4; cbn [body delivered received rsp make_event authres_success iv].
  eexists; split; [done|]; split; [by destruct Hc2 as ((? & ? & ? & ? & ?) & ?)|].
  split_and!; try done; unfold reader_keeps, writer_keeps in *; cbn in *; congruence.
Qed.

(** A server refuses a client that claims the server's own role: it answers nothing, stays
    without a user and keeps its counters for sending, and reports failure. *)
Theorem same_role_refused (s : MuxConnection D) key req w rest role iv0 :
  conn_wf s -> cipher_key (cipher_ctx s) = Some key -> live (io_conn s) -> is_local s = false ->
  frame_of key (decrypt_iv (cipher_ctx s)) req w -> len (head req) <= kMaxChunkSize + 128 ->
  pending s ++ rx (io_conn s) = w ++ rest ->
  match body req with AuthRequest ev => invalid_role role ev = true | _ => False end ->
  exists s', ServerAuth role iv0 s = (s', Ok ([], 0, false)) /\ tx (io_conn s') = tx (io_conn s) /\
    encrypt_iv (cipher_ctx s') = encrypt_iv (cipher_ctx s) /\ conn_user s' = conn_user s /\
    type_ s' = type_ s.
Proof.
  intros Hs Hk Hl Hrem Hf Hlen Hrx Hbad.
  destruct (ReadEvent_frame s key req w rest Hs Hk Hl Hf Hlen Hrx)
    as (s1 & E & _ & (_ & _ & He & _) & _ & Ht & _ & Hkeep).
  exists s1; unfold ServerAuth; rewrite Hrem, E; destruct (body req); try done; rewrite Hbad.
  unfold reader_keeps in Hkeep; split_and!; congruence.
Qed.

(** While a tunnel is being opened every event that arrives first and is not the tunnel
    response makes the client read the type of the event through a null pointer. *)
Theorem open_tunnel_null_dereference (c : MuxConnection C) key e w rest :
  conn_wf c -> cipher_key (cipher_ctx c) = Some key -> live (io_conn c) ->
  frame_of key (decrypt_iv (cipher_ctx c)) e w -> len (head e) <= kMaxChunkSize + 128 ->
  pending c ++ rx (io_conn c) = w ++ rest ->
  match body e with TunnelOpenResponse _ => False | _ => True end ->
  snd (OpenTunnel_recv c) = Ub.
Proof.
  intros Hc Hk Hl Hf Hlen Hrx Hb.
  destruct (ReadEvent_frame c key e w rest Hc Hk Hl Hf Hlen Hrx) as (c1 & E & _).
  unfold OpenTunnel_recv; rewrite E; by destruct (body e).
Qed.

(** [ComparePriority] is the lexicographic order on the number of waiting writers, the write
    lock and the bytes sent lately, least loaded first: comparing in the other direction gives the
    opposite, and the relation "not worse than" is transitive. *)
Theorem compare_priority_total_preorder (a b c : MuxConnection C) :
  ComparePriority a b = - ComparePriority b a /\
  (0 <= ComparePriority a b -> 0 <= ComparePriority b c -> 0 <= ComparePriority a c).
Proof. split; [apply ComparePriority_opp | apply ComparePriority_trans]. Qed.

End theorems.

(** C9. Memory safety and termination of the reader against any peer.  Whatever bytes arrive, in
    whatever pieces, [ReadEvent] stays inside its buffers and returns an event or an error code,
    with the connection well formed; it fails to return only when a read of the transport does. *)
Theorem read_event_safe_and_returns `{Platform, !PlatformOk} `{Nanopb, !NanopbOk} `{Aead, !AeadOk}
    {C} `{IOConnection C, !IOConnectionOk C} `{Clock C} (cn : MuxConnection C) :
  conn_wf cn -> is_bytes (read_buffer cn) ->
  match ReadEvent cn with
  | (cn', Ok _) | (cn', Err _) =>
      conn_wf cn' /\ is_bytes (read_buffer cn') /\ reader_keeps cn' = reader_keeps cn
  | (cn', Hang) => @transport_hangs C _
  | (cn', Ub) => False
  end.
Proof. apply ReadEvent_safe. Qed.

(** A chunk that fits no frame is refused: [Write] reports failure, nothing reaches the
    transport, the cipher's counter is not used up and the write lock is free again, so the stream
    of frames stays intact for the other writers. *)
Theorem unencodable_chunk_not_sent `{Platform} `{Nanopb} `{Aead, !AeadOk} {C} `{IOConnection C} `{Clock C}
    (cn : MuxConnection C) key e chunk n :
  conn_wf cn -> cipher_key (cipher_ctx cn) = Some key -> mutex_free (write_mutex cn) ->
  body e = StreamChunk chunk n -> kMaxChunkSize + kReservedBufferSize < n ->
  exists cn', Write e cn = (cn', Ok (e, false)) /\ io_conn cn' = io_conn cn /\
    cipher_ctx cn' = cipher_ctx cn /\ writer_keeps cn' = writer_keeps cn /\
    send_bytes cn' = send_bytes cn.
Proof.
  intros (Hc & _ & Hw & _) Hk [Hmo Hml] Hb Hn; pose proof aead_tag_room.
  destruct (ctx_crypt _ key Hc Hk) as [_ Ht]; pose proof Hc as (Heb & _).
  assert (Encrypt (write_buffer cn) (cipher_ctx cn, e) =
          ((cipher_ctx cn, e), Err ERR_TOO_LARGE_EVENT_ENCODE_CONTENT)) as HE.
  { unfold Encrypt; srun; rewrite Ht, Hk, Hw.
    rewrite wrap_small by (unfold fits, kEventHeadSize, kMaxChunkSize; lia).
    unfold kWriteBufferSize, kMaxChunkSize, kEventHeadSize, kReservedBufferSize in *.
    bool_false (8192 + 8 + 256 <? 8 + 8192 + 2 * EVP_AEAD_max_tag_len).
    unfold Encrypt_body; srun; unfold Encode; rewrite Ht, Hw, Heb, Hb; unfold StreamChunk_Encode, kEventHeadSize.
    destruct (negb _);
      [bool_true (8192 + 8 + 256 - 8 - EVP_AEAD_max_tag_len <? n) | bool_true (8192 + 8 + 256 - 8 <? n)]; done. }
  unfold Write; srun; unfold Lock, Lock_loop; rewrite Hmo, Hml; srun; rewrite HE; srun.
  eexists; split; [done|]; split_and!; try done.
  unfold writer_keeps, Unlock; cbn; do 6 f_equal; destruct (write_mutex cn); simpl in *; congruence.
Qed.

(** ** Witnesses *)

Module ConnDemo.
Export Demo Pipe ZeroConn.

#[export] Instance pipe_clock : Clock pipe := fun _ => 1700000000.
#[export] Instance zero_clock : Clock ZeroConn.conn := fun _ => 1700000000.

Definition conn_on {C} `{Clock C} (io : C) (local : bool) : MuxConnection C :=
  MuxConnection_new MUX_ENTRY_CONN io ctx local true true 1800 30.
Definition quiet : pipe := {| chunks := []; sent := [] |}.

Lemma conn_on_wf {C} `{Clock C} (io : C) local : conn_wf (conn_on io local).
Proof. apply MuxConnection_new_wf, ctx_ok. Qed.

Definition open_event : MuxEvent := make_event 7 (StreamOpenRequest
  {| remote_host := bs "example.com"; remote_port := 443; is_tcp := true; is_tls := false |}).
Definition events : list MuxEvent := [open_event; chunk_event; make_event 7 StreamCloseRequest].

Lemma events_sendable : Forall sendable events.
Proof.
  repeat constructor; try done; try (by vm_compute); try apply (bool_decide_unpack _); by vm_compute.
Qed.

(** What a sender puts on the wire. *)
Definition wire_of (es : list MuxEvent) : bytes :=
  tx (io_conn (fst (WriteEvents es (conn_on quiet true)))).

(** The same bytes arriving in three pieces. *)
Definition in_pieces (w : bytes) : pipe :=
  {| chunks := [ztake 5 w; ztake 10 (zdrop 5 w); zdrop 15 w]; sent := [] |}.

Definition receiver : MuxConnection pipe := conn_on (in_pieces (wire_of events)) false.

Lemma receiver_live : live (io_conn receiver).
Proof. vm_compute; repeat constructor; discriminate. Qed.

(** The frame of one event. *)
Definition frame_bytes (e : MuxEvent) : bytes :=
  match Encrypt wbuf (ctx, e) with (_, Ok w) => w | _ => [] end.

Lemma frame_bytes_ok e :
  sendable e ->
  exists n, body_size (body e) n /\ frame_of key (decrypt_iv ctx) (delivered n e) (frame_bytes e).
Proof.
  intros [He Hm]; destruct (Encrypt_frame ctx e wbuf key) as (w & n & c' & E & _ & _ & Hn & Hf);
    [apply ctx_ok | done | done | |].
  - unfold encodable, kReservedBufferSize in *; unfold wbuf; rewrite zlen_repeat by done.
    cbn [EVP_AEAD_max_tag_len ToyAead.toy]; unfold kWriteBufferSize, kEventHeadSize, kMaxChunkSize, kReservedBufferSize in *; lia.
  - exists n; split; [done|]; unfold frame_bytes; by rewrite E.
Qed.

Definition entry_role : NodeRole :=
  {| g_is_entry_node := true; g_is_middle_node := false; g_is_exit_node := false |}.
Definition exit_role : NodeRole :=
  {| g_is_entry_node := false; g_is_middle_node := false; g_is_exit_node := true |}.

Definition alice_request : MuxEvent := make_event 0 (AuthRequest (auth_request entry_role (bs "alice") 42)).

Lemma alice_request_sendable : sendable alice_request.
Proof. by apply auth_request_sendable; [apply is_bytes_bs|]. Qed.

(** The request of a client, and a server to which it arrives in pieces. *)
Definition auth_wire : bytes :=
  tx (io_conn (fst (ClientAuth_send entry_role (bs "alice") 42 (conn_on quiet true)))).
Definition auth_server : MuxConnection pipe := conn_on (in_pieces auth_wire) false.

Lemma in_pieces_rx w local : pending (conn_on (in_pieces w) local) ++ rx (io_conn (conn_on (in_pieces w) local)) = w.
Proof.
  change (pending _) with (@nil Z); cbn [app conn_on MuxConnection_new io_conn rx pipe_view in_pieces concat chunks].
  rewrite app_nil_r, <- (zdrop_zdrop 10 5), ztake_drop by lia; by rewrite ztake_drop.
Qed.

(** A connection to which the frame of [e] arrives in pieces. *)
Definition getting (e : MuxEvent) (local : bool) : MuxConnection pipe := conn_on (in_pieces (frame_bytes e)) local.

Lemma getting_rx e local :
  pending (getting e local) ++ rx (io_conn (getting e local)) = frame_bytes e ++ [].
Proof. rewrite app_nil_r; apply in_pieces_rx. Qed.

Lemma chunk_event_sendable : sendable chunk_event.
Proof. by split; [apply chunk_event_ok|]. Qed.

End ConnDemo.

Section witnesses.
Import ConnDemo ZeroConn.

Lemma events_delivered_in_order_witness :
  exists es' r', delivery events es' /\ ReadEvents (length events) receiver = (r', Ok es') /\
    pending r' ++ rx (io_conn r') = [] /\ conn_wf r'.
Proof.
  destruct (events_delivered_in_order (conn_on quiet true) receiver key events)
    as (s' & wire & es' & E & Ht & Hdl & HR);
    [apply conn_on_wf | apply conn_on_wf | done | done | done | constructor | apply receiver_live
    | done | apply events_sendable |].
  assert (wire = wire_of events) as -> by (unfold wire_of; rewrite E; cbn [fst]; by rewrite Ht).
  destruct (HR []) as (r' & Er & Hp & Hw & _); [by vm_compute|].
  exists es', r'; exact (conj Hdl (conj Er (conj Hp Hw))).
Defined.

Lemma handshake_synchronises_witness :
  exists c1 s' w2,
    ClientAuth_send entry_role (bs "alice") 42 (conn_on quiet true) = (c1, Ok true) /\
    ServerAuth exit_role 1000 auth_server = (s', Ok (snprintf_s 256 (bs "alice"), 42, true)) /\
    encrypt_iv (cipher_ctx s') = 1000 /\
    forall io, live io -> rx io = w2 ->
      exists c2, ClientAuth_recv (bs "alice") (set_io (fun _ => io) c1) = (c2, Ok true) /\
        decrypt_iv (cipher_ctx c2) = 1000.
Proof.
  destruct (handshake_synchronises (conn_on quiet true) auth_server key entry_role exit_role (bs "alice") 42 1000)
    as (c1 & w1 & E1 & Ht & HS);
    [apply conn_on_wf | apply conn_on_wf | reflexivity | reflexivity | reflexivity | reflexivity | constructor
    | vm_compute; repeat constructor; discriminate | by split | by split | reflexivity | reflexivity
    | reflexivity | apply is_bytes_bs | by vm_compute | by vm_compute | reflexivity |].
  assert (w1 = auth_wire) as -> by (unfold auth_wire; rewrite E1; cbn [fst]; by rewrite Ht).
  destruct HS as (s' & w2 & E2 & _ & _ & _ & _ & _ & Hi & _ & HC).
  { apply in_pieces_rx. }
  exists c1, s', w2; refine (conj E1 (conj E2 (conj Hi _))); intros io Hl Hr.
  destruct (HC io Hl Hr) as (c2 & E3 & _ & _ & _ & _ & Hd); exists c2; exact (conj E3 Hd).
Defined.

Lemma same_role_refused_witness :
  exists s', ServerAuth entry_role 1000 (getting alice_request false) = (s', Ok ([], 0, false)) /\
    tx (io_conn s') = tx (io_conn (getting alice_request false)) /\
    encrypt_iv (cipher_ctx s') = encrypt_iv (cipher_ctx (getting alice_request false)) /\
    conn_user s' = [] /\ type_ s' = MUX_ENTRY_CONN.
Proof.
  destruct (frame_bytes_ok alice_request alice_request_sendable) as (n & Hn & Hf).
  apply (same_role_refused (getting alice_request false) key (delivered n alice_request)
           (frame_bytes alice_request) [] entry_role 1000);
    [apply conn_on_wf | done | vm_compute; repeat constructor; discriminate | done | exact Hf
    | by apply delivered_len; [apply alice_request_sendable..|] | apply getting_rx | done].
Defined.

Lemma open_tunnel_null_dereference_witness : snd (OpenTunnel_recv (getting chunk_event true)) = Ub.
Proof.
  destruct (frame_bytes_ok chunk_event chunk_event_sendable) as (n & Hn & Hf).
  apply (open_tunnel_null_dereference (getting chunk_event true) key (delivered n chunk_event)
           (frame_bytes chunk_event) []);
    [apply conn_on_wf | done | vm_compute; repeat constructor; discriminate | exact Hf
    | by apply delivered_len; [apply chunk_event_sendable..|] | apply getting_rx | done].
Defined.

Lemma compare_priority_total_preorder_witness :
  ComparePriority (conn_on quiet true) receiver = - ComparePriority receiver (conn_on quiet true) /\
  0 <= ComparePriority (conn_on quiet true) (conn_on quiet false).
Proof.
  destruct (compare_priority_total_preorder (conn_on quiet true) receiver (conn_on quiet false)) as [E HT].
  split; [exact E | apply HT; by vm_compute].
Defined.

Lemma read_event_safe_and_returns_witness :
  match ReadEvent (conn_on (tt : ZeroConn.conn) true) with
  | (cn', Ok _) | (cn', Err _) =>
      conn_wf cn' /\ is_bytes (read_buffer cn') /\
      reader_keeps cn' = reader_keeps (conn_on (tt : ZeroConn.conn) true)
  | (cn', Hang) => @transport_hangs ZeroConn.conn _
  | (cn', Ub) => False
  end.
Proof.
  apply (read_event_safe_and_returns (conn_on (tt : ZeroConn.conn) true));
    [apply conn_on_wf | by apply Forall_replicate].
Defined.

Lemma unencodable_chunk_not_sent_witness :
  let e := make_event 7 (StreamChunk (Some (zrepeat 9000 65)) 9000) in
  exists cn', Write e (conn_on quiet true) = (cn', Ok (e, false)) /\
    io_conn cn' = quiet /\ cipher_ctx cn' = ctx /\
    writer_keeps cn' = writer_keeps (conn_on quiet true) /\ send_bytes cn' = 0.
Proof.
  apply (unencodable_chunk_not_sent (conn_on quiet true) key
           (make_event 7 (StreamChunk (Some (zrepeat 9000 65)) 9000)) (Some (zrepeat 9000 65)) 9000);
    [apply conn_on_wf | done | done | done | done].
Defined.

End witnesses.
