(* ===== verification/MuxStream.v ===== *)
(** * Multiplexed streams

    src/snova/mux/mux_stream.h and .cc: the table of streams, the stream ids, and the stream
    object with its data channel and its event writer.  Stream objects are shared between the
    table and the coroutines that use them, so they live in a store and are named by pointers;
    [ms_env] is everything the event writers act on (the connections). *)

From S2P Require Import Prelude Endian IoBuf PbMessages MuxEvent.

(** ** Event writers and channels

    [EventWriterFactory] and [EventWriter] are [std::function]s: values of types [F] and [Wr] that
    are called with the environment.  A factory may return an empty writer. *)
Class EventWriters (E F Wr : Type) := {
  make_writer : F -> st E (option Wr);
  call_writer : Wr -> MuxEvent -> st E (MuxEvent * bool)
}.

(** What a channel carries from [Offer] to [Read]: a buffer and its length. *)
Definition chunk_msg : Type := option bytes * Z.

(** [asio::experimental::channel]: [Hang] is an operation that waits, an [Err] its error. *)
Class DataChannel (Ch : Type) := {
  chan_new : Ch;
  chan_send : chunk_msg -> st Ch unit;
  chan_receive : st Ch chunk_msg;
  chan_close : Ch -> Ch
}.

(** A channel of capacity 1 delivers what was sent; [chan_items] are the contents of an open
    channel. *)
Class DataChannelOk (Ch : Type) `{DataChannel Ch} := {
  chan_items : Ch -> option (list chunk_msg);
  chan_new_empty : chan_items chan_new = Some [];
  chan_send_empty : forall m c, chan_items c = Some [] ->
    exists c', chan_send m c = (c', Ok tt) /\ chan_items c' = Some [m];
  chan_receive_head : forall m ms c, chan_items c = Some (m :: ms) ->
    exists c', chan_receive c = (c', Ok m) /\ chan_items c' = Some ms;
  chan_close_closes : forall c, chan_items (chan_close c) = None
}.

(** It makes its users wait: a send into the full channel, and a receive from the empty one. *)
Class WaitingChannel (Ch : Type) `{DataChannelOk Ch} : Prop := {
  chan_send_full : forall m x l c, chan_items c = Some (x :: l) -> exists c', chan_send m c = (c', Hang);
  chan_receive_none : forall c, chan_items c = Some [] -> exists c', chan_receive c = (c', Hang)
}.

(** ** State *)

Record MuxStream (F Wr Ch : Type) := {
  event_writer_factory : F;
  event_writer : option Wr;
  data_channel : Ch;
  write_bytes : Z;
  stream_client_id : Z;
  stream_sid : Z;
  stream_is_tls : bool;
  stream_closed : bool
}.
Arguments Build_MuxStream {F Wr Ch}.
Arguments event_writer_factory {F Wr Ch}. Arguments event_writer {F Wr Ch}.
Arguments data_channel {F Wr Ch}. Arguments write_bytes {F Wr Ch}.
Arguments stream_client_id {F Wr Ch}. Arguments stream_sid {F Wr Ch}.
Arguments stream_is_tls {F Wr Ch}. Arguments stream_closed {F Wr Ch}.

(** The globals of mux_stream.cc, the stream objects and the environment. *)
Record Streams (E F Wr Ch : Type) := {
  g_streams : gmap (Z * Z) nat;
  objects : gmap nat (MuxStream F Wr Ch);
  g_active_stream_size : Z;
  g_client_sid : Z;
  g_server_sid : Z;
  ms_env : E
}.
Arguments Build_Streams {E F Wr Ch}.
Arguments g_streams {E F Wr Ch}. Arguments objects {E F Wr Ch}.
Arguments g_active_stream_size {E F Wr Ch}. Arguments g_client_sid {E F Wr Ch}.
Arguments g_server_sid {E F Wr Ch}. Arguments ms_env {E F Wr Ch}.

(** [std::errc::no_link]; and the exception of calling an empty [std::function]. *)
Definition no_link : Z := 67.
Definition bad_function_call : Z := -1.

Section stream_ops.
Context {E F Wr Ch : Type} `{EventWriters E F Wr} `{DataChannel Ch}.

Definition stream_eta (r : MuxStream F Wr Ch) : MuxStream F Wr Ch := {|
  event_writer_factory := event_writer_factory r; event_writer := event_writer r;
  data_channel := data_channel r; write_bytes := write_bytes r;
  stream_client_id := stream_client_id r; stream_sid := stream_sid r;
  stream_is_tls := stream_is_tls r; stream_closed := stream_closed r |}.
Definition supd (T : Type) : Type := (T -> T) -> MuxStream F Wr Ch -> MuxStream F Wr Ch.
Definition set_writer : supd (option Wr) := ltac:(setter stream_eta (@event_writer F Wr Ch)).
Definition set_channel : supd Ch := ltac:(setter stream_eta (@data_channel F Wr Ch)).
Definition set_write_bytes : supd Z := ltac:(setter stream_eta (@write_bytes F Wr Ch)).
Definition set_is_tls : supd bool := ltac:(setter stream_eta (@stream_is_tls F Wr Ch)).
Definition set_closed : supd bool := ltac:(setter stream_eta (@stream_closed F Wr Ch)).

Definition streams_eta (r : Streams E F Wr Ch) : Streams E F Wr Ch := {|
  g_streams := g_streams r; objects := objects r; g_active_stream_size := g_active_stream_size r;
  g_client_sid := g_client_sid r; g_server_sid := g_server_sid r; ms_env := ms_env r |}.
Definition gupd (T : Type) : Type := (T -> T) -> Streams E F Wr Ch -> Streams E F Wr Ch.
Definition set_table : gupd (gmap (Z * Z) nat) := ltac:(setter streams_eta (@g_streams E F Wr Ch)).
Definition set_objects : gupd (gmap nat (MuxStream F Wr Ch)) := ltac:(setter streams_eta (@objects E F Wr Ch)).
Definition set_active : gupd Z := ltac:(setter streams_eta (@g_active_stream_size E F Wr Ch)).
Definition set_client_sid : gupd Z := ltac:(setter streams_eta (@g_client_sid E F Wr Ch)).
Definition set_server_sid : gupd Z := ltac:(setter streams_eta (@g_server_sid E F Wr Ch)).
Definition set_env : gupd E := ltac:(setter streams_eta (@ms_env E F Wr Ch)).

(** An operation of the environment; access to a stream object. *)
Definition on_env {A} (m : st E A) : st (Streams E F Wr Ch) A := fun s =>
  let '(e, r) := m (ms_env s) in (set_env (fun _ => e) s, r).
Definition deref (p : nat) : st (Streams E F Wr Ch) (MuxStream F Wr Ch) := fun s => (s, access (objects s !! p)).
Definition assign (p : nat) (f : MuxStream F Wr Ch -> MuxStream F Wr Ch) : st (Streams E F Wr Ch) unit :=
  smodify (set_objects (alter f p)).
Definition on_channel {A} (p : nat) (m : st Ch A) : st (Streams E F Wr Ch) A :=
  let! o := deref p in
  let '(c, r) := m (data_channel o) in
  let! _ := assign p (set_channel (fun _ => c)) in
  slift r.

(** ** Operations *)

(** [std::atomic<uint32_t>::fetch_add(2)]. *)
Definition NextID (is_client : bool) : st (Streams E F Wr Ch) Z :=
  let! s := sget in
  if is_client then
    let! _ := smodify (set_client_sid (fun v => wrap 32 (v + 2))) in sret (g_client_sid s)
  else
    let! _ := smodify (set_server_sid (fun v => wrap 32 (v + 2))) in sret (g_server_sid s).

(** [New]: the constructor calls the factory; [emplace] does not replace an entry. *)
Definition New (factory : option F) (client_id sid : Z) : st (Streams E F Wr Ch) nat :=
  let! f := slift (match factory with Some f => Ok f | None => Err bad_function_call end) in
  let! w := on_env (make_writer f) in
  let! s := sget in
  let p := fresh (dom (objects s)) in
  let o := {| event_writer_factory := f; event_writer := w; data_channel := chan_new; write_bytes := 0;
              stream_client_id := client_id; stream_sid := sid; stream_is_tls := false;
              stream_closed := false |} in
  let! _ := smodify (set_active (fun n => wrap 32 (n + 1))) in
  let! _ := smodify (set_objects (insert p o)) in
  let! _ := smodify (set_table (fun t => match t !! (client_id, sid) with
                                         | Some _ => t | None => <[(client_id, sid) := p]> t end)) in
  sret p.

Definition Get (client_id sid : Z) (s : Streams E F Wr Ch) : option nat := g_streams s !! (client_id, sid).

Definition Remove (client_id sid : Z) : st (Streams E F Wr Ch) unit :=
  smodify (set_table (delete (client_id, sid))).

(** [~MuxStream], when the last pointer to the object goes. *)
Definition stream_destroy (p : nat) : st (Streams E F Wr Ch) unit :=
  let! _ := smodify (set_active (fun n => wrap 32 (n - 1))) in
  smodify (set_objects (delete p)).

(** One attempt of [WriteEvent]; the three attempts. *)
Definition attempt (o : MuxStream F Wr Ch) (write_ev : MuxEvent) : st (Streams E F Wr Ch) (MuxEvent * bool) :=
  match event_writer o with
  | Some w => on_env (call_writer w write_ev)
  | None => sret (write_ev, false)
  end.
Fixpoint WriteEvent_attempts (n : nat) (p : nat) (write_ev : MuxEvent) : st (Streams E F Wr Ch) bool :=
  match n with
  | O => sret false
  | S n =>
      let! o := deref p in
      let! '(write_ev, success) := attempt o write_ev in
      if success : bool then sret true else
      let! w := on_env (make_writer (event_writer_factory o)) in
      let! _ := assign p (set_writer (fun _ => w)) in
      WriteEvent_attempts n p write_ev
  end.

(** [Close].  Its [WriteEvent] ends, after three failures, in a second [Close] that returns at
    once because [closed_] is set. *)
Definition Close (close_by_remote : bool) (p : nat) : st (Streams E F Wr Ch) Z :=
  let! o := deref p in
  if stream_closed o then sret 0 else
  let! _ := Remove (stream_client_id o) (stream_sid o) in
  let! _ := assign p (set_closed (fun _ => true)) in
  let! _ := assign p (set_channel chan_close) in
  if close_by_remote then sret 0 else
  let! success := WriteEvent_attempts 3 p (make_event (stream_sid o) StreamCloseRequest) in
  sret (if success then 0 else no_link).

(** [WriteEvent]. *)
Definition WriteEvent (p : nat) (event : MuxEvent) : st (Streams E F Wr Ch) bool :=
  let! success := WriteEvent_attempts 3 p event in
  if success : bool then sret true else
  let! _ := Close false p in
  sret false.

(** [Open]. *)
Definition Open (host : bytes) (port : Z) (tcp tls : bool) (p : nat) : st (Streams E F Wr Ch) Z :=
  let! o := deref p in
  let! _ := assign p (set_is_tls (fun _ => tls)) in
  let! success := WriteEvent p (make_event (stream_sid o) (StreamOpenRequest
    {| remote_host := snprintf_s 512 host; remote_port := port; is_tcp := tcp; is_tls := tls |})) in
  sret (if success : bool then 0 else no_link).

(** [Offer] and [Read]. *)
Definition Offer (m : chunk_msg) (p : nat) : st (Streams E F Wr Ch) Z :=
  let! o := deref p in
  if stream_closed o then sret no_link else
  fun s => match on_channel p (chan_send m) s with
           | (s, Ok _) => (s, Ok 0)
           | (s, Err ec) => (s, Ok ec)
           | (s, Ub) => (s, Ub)
           | (s, Hang) => (s, Hang)
           end.

Definition Read (p : nat) : st (Streams E F Wr Ch) (chunk_msg * Z) :=
  let! o := deref p in
  if stream_closed o then sret ((None, 0), no_link) else
  fun s => match on_channel p chan_receive s with
           | (s, Ok m) => (s, Ok (m, 0))
           | (s, Err ec) => (s, Ok ((None, 0), ec))
           | (s, Ub) => (s, Ub)
           | (s, Hang) => (s, Hang)
           end.

(** The event [Write] sends: on a TLS stream the body goes out as it is, except the first bytes
    an entry node sends, which hold the client hello. *)
Definition chunk_event_of (entry : bool) (o : MuxStream F Wr Ch) (buf : option bytes) (n : Z) : MuxEvent :=
  let fl := if stream_is_tls o
            then if (write_bytes o =? 0) && entry then 0 else 1 else 0 in
  {| head := {| sid := stream_sid o; len := 0; type := EVENT_STREAM_CHUNK;
                flags := {| body_no_encrypt := fl; reserved := 0 |} |};
     body := StreamChunk buf (wrap 32 n) |}.

(** [Write]; [entry] is [g_is_entry_node]. *)
Definition stream_Write (entry : bool) (buf : option bytes) (n : Z) (p : nat) : st (Streams E F Wr Ch) Z :=
  let! o := deref p in
  let! _ := assign p (set_write_bytes (fun v => wrap 64 (v + n))) in
  let! success := WriteEvent p (chunk_event_of entry o buf n) in
  sret (if success : bool then 0 else no_link).

Definition SetTLS (v : bool) (p : nat) : st (Streams E F Wr Ch) unit := assign p (set_is_tls (fun _ => v)).

End stream_ops.

(** ** Facts *)

(** Event writers that complete. *)
Class EventWritersOk (E F Wr : Type) `{EventWriters E F Wr} : Prop := {
  make_writer_returns : forall f e, exists e' w, make_writer f e = (e', Ok w);
  call_writer_returns : forall w ev e, exists e' ev' b, call_writer w ev e = (e', Ok (ev', b))
}.

Section stream_facts.
Context {E F Wr Ch : Type} `{EventWriters E F Wr, !EventWritersOk E F Wr} `{DataChannel Ch}.
Implicit Type s : Streams E F Wr Ch.

(** Every entry of the table points to an object. *)
Definition table_ok (s : Streams E F Wr Ch) : Prop :=
  forall k p, g_streams s !! k = Some p -> is_Some (objects s !! p).

(** The attempts change the environment and the writer of the stream, nothing else. *)
Lemma WriteEvent_attempts_spec n : forall p ev s o,
  objects s !! p = Some o ->
  exists s' b w, WriteEvent_attempts n p ev s = (s', Ok b) /\
    g_streams s' = g_streams s /\ g_active_stream_size s' = g_active_stream_size s /\
    objects s' = <[p := set_writer (fun _ => w) o]> (objects s).
Proof.
  induction n as [|n IH]; intros p ev s o Ho; cbn [WriteEvent_attempts].
  { exists s, false, (event_writer o); split; [done|]; split_and!; try done.
    rewrite insert_id; [done|]; rewrite Ho; by destruct o. }
  unfold deref; srun; rewrite Ho.
  assert (exists e1 ev1 b, attempt o ev s = (set_env (fun _ => e1) s, Ok (ev1, b))) as (e1 & ev1 & b & ->).
  { unfold attempt; destruct (event_writer o) as [w|]; unfold on_env.
    - destruct (call_writer_returns w ev (ms_env s)) as (e' & ev' & b & ->); by eexists _, _, _.
    - exists (ms_env s), ev, false; by destruct s. }
  destruct b.
  { eexists _, true, (event_writer o); split; [done|]; split_and!; try done; cbn.
    rewrite insert_id; [done|]; rewrite Ho; by destruct o. }
  unfold on_env; destruct (make_writer_returns (event_writer_factory o) (ms_env (set_env (fun _ => e1) s)))
    as (e2 & w2 & ->); unfold assign; srun.
  match goal with |- context [WriteEvent_attempts n p ev1 ?s2] =>
    destruct (IH p ev1 s2 (set_writer (fun _ => w2) o)) as (s' & b & w & -> & ? & ? & Hobj) end.
  { cbn; by rewrite lookup_alter_eq, Ho. }
  exists s', b, w; split; [done|]; split_and!; try done; rewrite Hobj; cbn.
  apply map_eq; intros q; destruct (decide (p = q)) as [->|]; [by rewrite !lookup_insert_eq|].
  by rewrite !lookup_insert_ne, lookup_alter_ne.
Qed.

(** [Close] of an open stream. *)
Lemma Close_open b p s o :
  objects s !! p = Some o -> stream_closed o = false ->
  exists s' ec o', Close b p s = (s', Ok ec) /\
    g_streams s' = delete (stream_client_id o, stream_sid o) (g_streams s) /\
    objects s' = <[p := o']> (objects s) /\ stream_closed o' = true /\
    stream_client_id o' = stream_client_id o /\ stream_sid o' = stream_sid o /\
    g_active_stream_size s' = g_active_stream_size s.
Proof.
  intros Ho Hc; unfold Close, deref; srun; rewrite Ho; srun; rewrite Hc; unfold Remove, assign; srun.
  set (o1 := set_channel chan_close (set_closed (fun _ => true) o)).
  set (s1 := set_objects _ _).
  assert (objects s1 = <[p := o1]> (objects s)) as Ho1.
  { unfold s1; cbn; apply map_eq; intros q.
    destruct (decide (p = q)) as [->|]; [by rewrite !lookup_alter_eq, lookup_insert_eq, Ho|].
    by rewrite !lookup_alter_ne, lookup_insert_ne. }
  destruct b; [by exists s1, 0, o1|].
  destruct (WriteEvent_attempts_spec 3 p (make_event (stream_sid o) StreamCloseRequest) s1 o1)
    as (s' & b & w & -> & Ht & Ha & Hobj); [by rewrite Ho1, lookup_insert_eq|].
  eexists s', _, _; split; [done|]; split_and!; [by rewrite Ht | by rewrite Hobj, Ho1, insert_insert_eq | done..|].
  by rewrite Ha.
Qed.

(** [Close] of a closed stream. *)
Lemma Close_closed b p s o : objects s !! p = Some o -> stream_closed o = true -> Close b p s = (s, Ok 0).
Proof. intros Ho Hc; unfold Close, deref; srun; by rewrite Ho, Hc. Qed.

Lemma New_spec f cid sid0 s :
  exists s' e w, New (Some f) cid sid0 s = (s', Ok (fresh (dom (objects s)))) /\
    make_writer f (ms_env s) = (e, Ok w) /\
    objects s' = <[fresh (dom (objects s)) := {| event_writer_factory := f; event_writer := w;
       data_channel := chan_new; write_bytes := 0; stream_client_id := cid; stream_sid := sid0;
       stream_is_tls := false; stream_closed := false |}]> (objects s) /\
    g_streams s' = (match g_streams s !! (cid, sid0) with
      | Some _ => g_streams s | None => <[(cid, sid0) := fresh (dom (objects s))]> (g_streams s) end) /\
    g_active_stream_size s' = wrap 32 (g_active_stream_size s + 1).
Proof.
  unfold New, on_env; destruct (make_writer_returns f (ms_env s)) as (e & w & Hm); srun; rewrite Hm.
  by eexists _, e, w.
Qed.

(** The [n] next ids. *)
Fixpoint NextIDs (is_client : bool) (n : nat) : st (Streams E F Wr Ch) (list Z) :=
  match n with
  | O => sret []
  | S n => let! i := NextID is_client in let! ids := NextIDs is_client n in sret (i :: ids)
  end.

Definition id_seq (v : Z) (n : nat) : list Z := (fun k => wrap 32 (v + 2 * Z.of_nat k)) <$> seq 0 n.

Lemma id_seq_S v n : fits 32 v -> id_seq v (S n) = v :: id_seq (wrap 32 (v + 2)) n.
Proof.
  intros Hv; unfold id_seq; cbn [seq fmap list_fmap]; rewrite Z.add_0_r, wrap_small by done; f_equal.
  rewrite <- (fmap_S_seq 0 n), <- list_fmap_compose; apply list_fmap_ext; intros _ k _; simpl.
  unfold wrap; rewrite Zplus_mod_idemp_l; f_equal; lia.
Qed.

Lemma NextIDs_spec (is_client : bool) n : forall (s : Streams E F Wr Ch),
  fits 32 (if is_client then g_client_sid s else g_server_sid s) ->
  exists s', NextIDs is_client n s =
    (s', Ok (id_seq (if is_client then g_client_sid s else g_server_sid s) n)).
Proof.
  induction n as [|n IH]; intros s Hv; [by exists s|]; cbn [NextIDs]; rewrite id_seq_S by done.
  unfold NextID; destruct is_client; srun.
  - destruct (IH (set_client_sid (fun v : Z => wrap 32 (v + 2)) s)) as (s' & ->); [by apply wrap_range|].
    by exists s'.
  - destruct (IH (set_server_sid (fun v : Z => wrap 32 (v + 2)) s)) as (s' & ->); [by apply wrap_range|].
    by exists s'.
Qed.

Lemma id_seq_NoDup v n : Z.of_nat n <= 2 ^ 31 -> NoDup (id_seq v n).
Proof.
  intros Hn; apply NoDup_alt; intros i j x Hi Hj; unfold id_seq in *.
  apply list_lookup_fmap_Some in Hi as (a & -> & [-> Hi]%lookup_seq), Hj as (b & Eq & [-> Hj]%lookup_seq).
  unfold wrap in Eq.
  assert ((2 ^ 32 | 2 * (Z.of_nat i - Z.of_nat j))) as [k Hk].
  { apply Z.mod_divide; [lia|]; rewrite <- (Z.mod_0_l (2 ^ 32)) by lia.
    replace (2 * (Z.of_nat i - Z.of_nat j)) with ((v + 2 * Z.of_nat (0 + i)) - (v + 2 * Z.of_nat (0 + j))) by lia.
    rewrite Zminus_mod, Eq, Z.sub_diag; done. }
  lia.
Qed.

Lemma id_seq_parity v n x : x ∈ id_seq v n -> x mod 2 = v mod 2.
Proof.
  intros (k & -> & _)%list_elem_of_fmap; unfold wrap.
  Z.to_euclidean_division_equations; lia.
Qed.

End stream_facts.

(** An operation on the channel of a stream. *)
Lemma on_channel_spec {E F Wr Ch A : Type} (s : Streams E F Wr Ch) p o (m : st Ch A) c r :
  objects s !! p = Some o -> m (data_channel o) = (c, r) ->
  on_channel p m s = (set_objects (alter (set_channel (fun _ => c)) p) s, r).
Proof. intros Ho Hm; unfold on_channel, deref; srun; by rewrite Ho, Hm. Qed.

(** An event that the writer takes at once. *)
Lemma WriteEvent_attempts_accepted {E F Wr Ch : Type} `{EventWriters E F Wr} `{DataChannel Ch}
    (s : Streams E F Wr Ch) n p o w ev e ev' :
  objects s !! p = Some o -> event_writer o = Some w ->
  call_writer w ev (ms_env s) = (e, Ok (ev', true)) ->
  WriteEvent_attempts (S n) p ev s = (set_env (fun _ => e) s, Ok true).
Proof.
  intros Ho Hw Hc; cbn [WriteEvent_attempts]; unfold deref; srun; rewrite Ho; unfold attempt, on_env.
  by rewrite Hw, Hc.
Qed.

(** A chunk of at most the size of a buffer can be sent. *)
Lemma chunk_event_of_sendable {F Wr Ch : Type} entry (o : MuxStream F Wr Ch) buf n :
  fits 32 (stream_sid o) -> is_bytes buf -> 0 < n <= zlen buf -> n <= kMaxChunkSize ->
  sendable (chunk_event_of entry o (Some buf) n).
Proof.
  intros Hs Hb Hn Hm; unfold kMaxChunkSize in *.
  assert (wrap 32 n = n) as Hw by (apply wrap_small; unfold fits; lia).
  unfold sendable, event_wf, MuxFlags_wf; cbn -[wrap]; rewrite Hw; split_and!; try done; try lia.
  by repeat case_match.
Qed.

(** An accepted chunk. *)
Lemma stream_Write_accepted {E F Wr Ch : Type} `{EventWriters E F Wr} `{DataChannel Ch}
    (s : Streams E F Wr Ch) entry buf n p o w e ev :
  objects s !! p = Some o -> event_writer o = Some w ->
  call_writer w (chunk_event_of entry o buf n) (ms_env s) = (e, Ok (ev, true)) ->
  exists s', stream_Write entry buf n p s = (s', Ok 0) /\ ms_env s' = e /\
    objects s' = alter (set_write_bytes (fun v => wrap 64 (v + n))) p (objects s) /\ g_streams s' = g_streams s.
Proof.
  intros Ho Hw Hc; unfold stream_Write, deref, assign, WriteEvent; srun; rewrite Ho.
  erewrite WriteEvent_attempts_accepted; [| cbn; by rewrite lookup_alter_eq, Ho | exact Hw | exact Hc].
  by eexists.
Qed.

(** [Close] of an open stream whose writer takes the event. *)
Lemma Close_accepted {E F Wr Ch : Type} `{EventWriters E F Wr} `{DataChannel Ch}
    (s : Streams E F Wr Ch) p o w e ev :
  objects s !! p = Some o -> stream_closed o = false -> event_writer o = Some w ->
  call_writer w (make_event (stream_sid o) StreamCloseRequest) (ms_env s) = (e, Ok (ev, true)) ->
  exists s' o', Close false p s = (s', Ok 0) /\ ms_env s' = e /\ objects s' !! p = Some o' /\
    stream_closed o' = true /\ g_streams s' = delete (stream_client_id o, stream_sid o) (g_streams s) /\
    (forall p', p' <> p -> objects s' !! p' = objects s !! p').
Proof.
  intros Ho Hc Hw He; unfold Close, deref, Remove, assign; srun; rewrite Ho, Hc.
  erewrite WriteEvent_attempts_accepted;
    [| cbn; by rewrite !lookup_alter_eq, Ho | exact Hw | exact He].
  eexists _, _; split; [done|]; cbn; rewrite !lookup_alter_eq, Ho; do 4 (split; [done|]).
  intros p' Hp; by rewrite !lookup_alter_ne.
Qed.

(** ** Attempts to write

    What the writers make of an event, apart from the stream. *)

Section attempts.
Context {E F Wr Ch : Type} `{EventWriters E F Wr} `{DataChannel Ch}.

(** No writer refuses too. *)
Definition refuses (w : option Wr) (ev : MuxEvent) (e : E) (ev' : MuxEvent) (e' : E) : Prop :=
  match w with Some w => call_writer w ev e = (e', Ok (ev', false)) | None => ev' = ev /\ e' = e end.
Definition accepts (w : option Wr) (ev : MuxEvent) (e e' : E) : Prop :=
  exists w0 ev', w = Some w0 /\ call_writer w0 ev e = (e', Ok (ev', true)).

(** [n] refusals, after each of which the factory gives a new writer. *)
Inductive refusals (f : F) : nat -> option Wr * MuxEvent * E -> option Wr * MuxEvent * E -> Prop :=
| refusals_O x : refusals f 0 x x
| refusals_S n w ev e ev1 e1 w2 e2 y :
    refuses w ev e ev1 e1 -> make_writer f e1 = (e2, Ok w2) -> refusals f n (w2, ev1, e2) y -> refusals f (S n) (w, ev, e) y.

(** The stream with another writer, in another environment. *)
Definition with_writer (p : nat) (o : MuxStream F Wr Ch) (w : option Wr) (e : E) (s : Streams E F Wr Ch) : Streams E F Wr Ch :=
  set_env (fun _ => e) (set_objects (insert p (set_writer (fun _ => w) o)) s).

Lemma with_writer_id p o s : objects s !! p = Some o -> with_writer p o (event_writer o) (ms_env s) s = s.
Proof.
  intros Ho; unfold with_writer, set_env, set_objects; cbn -[insert]; rewrite insert_id; [by destruct s|]; rewrite Ho; by destruct o.
Qed.

Lemma attempts_refused k n p s o ev w' ev' e' :
  objects s !! p = Some o -> refusals (event_writer_factory o) k (event_writer o, ev, ms_env s) (w', ev', e') ->
  WriteEvent_attempts (k + n) p ev s = WriteEvent_attempts n p ev' (with_writer p o w' e' s).
Proof.
  revert s o ev; induction k as [|k IH]; intros s o ev Ho Hr; inversion Hr; subst; clear Hr.
  - by rewrite with_writer_id.
  - cbn [Nat.add WriteEvent_attempts]; unfold deref; srun; rewrite Ho.
    match goal with Hf : refuses _ _ _ ?ev1 ?e1 |- _ =>
      assert (attempt o ev s = (set_env (fun _ => e1) s, Ok (ev1, false))) as -> by
        (unfold refuses, attempt, on_env in *; destruct (event_writer o); [by rewrite Hf | destruct Hf as [-> ->]; by destruct s]) end.
    unfold on_env; cbn [ms_env set_env]; match goal with Hm : make_writer _ _ = _ |- _ => rewrite Hm end; unfold assign; srun.
    match goal with |- context [WriteEvent_attempts _ _ _ ?s2] => set (s2' := s2) end.
    match goal with Hr : refusals _ k (?w2, _, _) _ |- _ => rewrite (IH s2' (set_writer (fun _ => w2) o)) end;
      [|unfold s2'; cbn; by rewrite lookup_alter_eq, Ho | done].
    f_equal; unfold with_writer, s2', set_objects, set_env; cbn; f_equal; apply map_eq; intros q.
    destruct (decide (p = q)) as [->|]; [by rewrite !lookup_insert_eq | by rewrite !lookup_insert_ne, lookup_alter_ne].
Qed.

(** Writers that complete refuse [n] times or accept before. *)
Lemma refusals_or_accepted `{!EventWritersOk E F Wr} f n w ev e :
  (exists k w' ev1 e1 e2, (k < n)%nat /\ refusals f k (w, ev, e) (w', ev1, e1) /\ accepts w' ev1 e1 e2) \/
  exists w' ev1 e1, refusals f n (w, ev, e) (w', ev1, e1).
Proof.
  revert w ev e; induction n as [|n IH]; intros w ev e; [right; do 3 eexists; constructor|].
  assert ((exists e1, accepts w ev e e1) \/ exists ev1 e1, refuses w ev e ev1 e1) as [[e1 Ha]|(ev1 & e1 & Hr)].
  { destruct w as [w|]; [|right; by eexists _, _].
    destruct (call_writer_returns w ev e) as (e1 & ev1 & [|] & Hc); [left; by exists e1, w, ev1 | right; by exists ev1, e1]. }
  - left; exists 0%nat, w, ev, e, e1; split; [lia|]; split; [constructor | done].
  - destruct (make_writer_returns f e1) as (e2 & w2 & Hm); destruct (IH w2 ev1 e2) as [(k & w' & ev' & e' & e3 & Hk & Hf & Ha)|(w' & ev' & e' & Hf)].
    + left; exists (S k), w', ev', e', e3; split; [lia|]; split; [by econstructor | done].
    + right; exists w', ev', e'; by econstructor.
Qed.

End attempts.

(** ** Theorems *)

Section theorems.
Context {E F Wr Ch : Type} `{EventWriters E F Wr, !EventWritersOk E F Wr} `{DataChannel Ch}.
Implicit Type s : Streams E F Wr Ch.

(** C33. Stream ids.  Up to 2^31 ids taken from one counter are pairwise different although the
    counter has 32 bits, and an id of the odd counter never equals one of the even counter: the
    two ends of a connection cannot choose the same id. *)
Theorem stream_ids_unique s (n m : nat) :
  fits 32 (g_client_sid s) -> fits 32 (g_server_sid s) ->
  g_client_sid s mod 2 = 1 -> g_server_sid s mod 2 = 0 -> Z.of_nat n <= 2 ^ 31 ->
  exists s1 s2 ids ids', NextIDs true n s = (s1, Ok ids) /\ NextIDs false m s = (s2, Ok ids') /\
    length ids = n /\ NoDup ids /\ forall i j, i ∈ ids -> j ∈ ids' -> i <> j.
Proof.
  intros Hc Hs Hcp Hsp Hn.
  destruct (NextIDs_spec true n s Hc) as (s1 & E1), (NextIDs_spec false m s Hs) as (s2 & E2).
  exists s1, s2; eexists _, _; split; [exact E1|]; split; [exact E2|]; split_and!.
  - unfold id_seq; by rewrite length_fmap, length_seq.
  - by apply id_seq_NoDup.
  - intros i j Hi%id_seq_parity Hj%id_seq_parity ->; congruence.
Qed.

(** A new stream under an unused id is found by that id, and no other stream is affected: the
    table of the other ids and the other objects are as before. *)
Theorem new_stream_registered s f cid sid0 :
  table_ok s -> Get cid sid0 s = None ->
  exists s' p, New (Some f) cid sid0 s = (s', Ok p) /\ Get cid sid0 s' = Some p /\
    objects s !! p = None /\ table_ok s' /\
    (forall k, k <> (cid, sid0) -> g_streams s' !! k = g_streams s !! k) /\
    (forall q, q <> p -> objects s' !! q = objects s !! q).
Proof.
  intros Ht Hg; destruct (New_spec f cid sid0 s) as (s' & e & w & HN & _ & Ho & Hs & _).
  unfold Get in *; rewrite Hg in Hs; set (p := fresh _) in *; exists s', p.
  assert (objects s !! p = None) as Hp by (apply not_elem_of_dom, is_fresh).
  split_and!; [done | by rewrite Hs, lookup_insert_eq | done | | |].
  - intros k q; rewrite Hs, Ho; destruct (decide (k = (cid, sid0))) as [->|].
    + rewrite lookup_insert_eq; intros [= <-]; by rewrite lookup_insert_eq.
    + rewrite lookup_insert_ne by done; intros Hk; destruct (decide (q = p)) as [->|];
        [by rewrite lookup_insert_eq | rewrite lookup_insert_ne by done; by apply (Ht k)].
  - intros k Hk; by rewrite Hs, lookup_insert_ne.
  - intros q Hq; by rewrite Ho, lookup_insert_ne.
Qed.

(** Two streams under one id.  When a stream is opened with an id that is in use, the table
    keeps the first one, and closing the second takes the first one out of the table although it
    is still open: data for it is then answered as for an unknown stream. *)
Theorem duplicate_id_unregisters_open_stream s f cid sid0 q o :
  table_ok s -> Get cid sid0 s = Some q -> objects s !! q = Some o -> stream_closed o = false ->
  exists s1 p s2 ec, New (Some f) cid sid0 s = (s1, Ok p) /\ Get cid sid0 s1 = Some q /\ p <> q /\
    Close true p s1 = (s2, Ok ec) /\ Get cid sid0 s2 = None /\ objects s2 !! q = Some o.
Proof.
  intros Ht Hg Ho Hc; destruct (New_spec f cid sid0 s) as (s1 & e & w & HN & _ & Hobj & Hs & _).
  unfold Get in *; rewrite Hg in Hs; set (p := fresh _) in *.
  assert (objects s !! p = None) as Hp by (apply not_elem_of_dom, is_fresh).
  assert (p <> q) as Hpq by (intros ->; congruence).
  destruct (Close_open true p s1 {| event_writer_factory := f; event_writer := w;
       data_channel := chan_new; write_bytes := 0; stream_client_id := cid; stream_sid := sid0;
       stream_is_tls := false; stream_closed := false |}) as (s2 & ec & o' & HC & Hs2 & Ho2 & _);
    [by rewrite Hobj, lookup_insert_eq | done |].
  exists s1, p, s2, ec; split_and!; try done; [by rewrite Hs | by rewrite Hs2, lookup_delete_eq |].
  by rewrite Ho2, Hobj, !lookup_insert_ne.
Qed.

(** C32. [Close] closes once.  Of an open stream that is the one registered under its id, it always returns,
    also when the peer cannot be told: the stream is marked closed and gone from the table, and every other
    stream is registered as before and its object untouched.  A second [Close] of either kind changes nothing
    and sends nothing, and [Offer] and [Read] are refused from then on.  (A second stream under an id that is
    in use is not registered; its [Close] is [duplicate_id_unregisters_open_stream].) *)
Theorem close_is_final s p o b b' m :
  objects s !! p = Some o -> stream_closed o = false -> Get (stream_client_id o) (stream_sid o) s = Some p ->
  exists s' ec o', Close b p s = (s', Ok ec) /\
    objects s' !! p = Some o' /\ stream_closed o' = true /\ Get (stream_client_id o) (stream_sid o) s' = None /\
    (forall q, q <> p -> objects s' !! q = objects s !! q) /\
    (forall k q, q <> p -> g_streams s !! k = Some q -> g_streams s' !! k = Some q) /\
    (forall k q, g_streams s' !! k = Some q -> g_streams s !! k = Some q) /\
    Close b' p s' = (s', Ok 0) /\ Offer m p s' = (s', Ok no_link) /\
    Read p s' = (s', Ok ((None, 0), no_link)).
Proof.
  intros Ho Hc Hg; destruct (Close_open b p s o Ho Hc) as (s' & ec & o' & HC & Hs & Hobj & Hcl & _).
  assert (objects s' !! p = Some o') as Ho' by (by rewrite Hobj, lookup_insert_eq).
  exists s', ec, o'; do 3 (split; [done|]); split; [by unfold Get; rewrite Hs, lookup_delete_eq|].
  split; [intros q Hq; by rewrite Hobj, lookup_insert_ne|].
  split; [intros k q Hq Hk; rewrite Hs, lookup_delete_ne; [done | unfold Get in Hg; congruence]|].
  split; [intros k q; rewrite Hs; by intros [_ ?]%lookup_delete_Some|].
  split; [by eapply Close_closed|].
  split; unfold Offer, Read, deref; srun; by rewrite Ho', Hcl.
Qed.

(** C40. Three attempts to write.  An event is offered to the stream's writer, and after a refusal to a new
    writer of its factory: when one of the first three takes it, [WriteEvent] succeeds, only the writer of the
    stream and what the writer did changed, and the stream stays open and registered; when all three refuse,
    no fourth is asked, [WriteEvent] fails, and the stream was closed.  One of the two happens. *)
Theorem failed_write_closes_stream s p o ev :
  objects s !! p = Some o -> stream_closed o = false ->
  (forall k w ev1 e1 e2, (k < 3)%nat -> refusals (event_writer_factory o) k (event_writer o, ev, ms_env s) (w, ev1, e1) ->
     accepts w ev1 e1 e2 -> WriteEvent p ev s = (with_writer p o w e2 s, Ok true)) /\
  (forall w ev1 e1, refusals (event_writer_factory o) 3 (event_writer o, ev, ms_env s) (w, ev1, e1) ->
     exists s' ec o', Close false p (with_writer p o w e1 s) = (s', Ok ec) /\ WriteEvent p ev s = (s', Ok false) /\
       Get (stream_client_id o) (stream_sid o) s' = None /\ objects s' !! p = Some o' /\ stream_closed o' = true) /\
  ((exists k w ev1 e1 e2, (k < 3)%nat /\ refusals (event_writer_factory o) k (event_writer o, ev, ms_env s) (w, ev1, e1) /\
      accepts w ev1 e1 e2) \/
   exists w ev1 e1, refusals (event_writer_factory o) 3 (event_writer o, ev, ms_env s) (w, ev1, e1)).
Proof.
  intros Ho Hc; split_and!.
  - intros k w ev1 e1 e2 Hk Hr Ha; unfold WriteEvent; srun; replace 3%nat with (k + S (2 - k))%nat by lia.
    rewrite (attempts_refused k (S (2 - k)) p s o ev w ev1 e1 Ho Hr); destruct Ha as (w0 & ev2 & -> & Ha).
    rewrite (WriteEvent_attempts_accepted _ _ p (set_writer (fun _ => Some w0) o) w0 ev1 e2 ev2); [done | | done | done].
    cbn; by rewrite lookup_insert_eq.
  - intros w ev1 e1 Hr; unfold WriteEvent; srun; change 3%nat with (3 + 0)%nat.
    rewrite (attempts_refused 3 0 p s o ev w ev1 e1 Ho Hr); cbn [WriteEvent_attempts sret].
    destruct (Close_open false p (with_writer p o w e1 s) (set_writer (fun _ => w) o)) as (s' & ec & o' & HC & Hs & Hobj & Hcl & _);
      [cbn; by rewrite lookup_insert_eq | done |].
    exists s', ec, o'; split; [done|]; rewrite HC; split; [done|]; unfold Get; rewrite Hs, Hobj, lookup_insert_eq.
    by rewrite lookup_delete_eq.
  - destruct (refusals_or_accepted (event_writer_factory o) 3 (event_writer o) ev (ms_env s)) as [Hk|Hk]; [by left | by right].
Qed.

(** What an entry node encrypts on a TLS stream: the first chunk, which carries the client
    hello, is sent sealed; once bytes were sent, chunks are marked to be sent as they are.  On a
    stream that is not TLS every chunk is sealed. *)
Theorem only_client_hello_sealed s p o w buf n buf' n' e1 ev1 e2 ev2 :
  objects s !! p = Some o -> event_writer o = Some w -> write_bytes o = 0 -> 0 < n < 2 ^ 32 ->
  let c1 := chunk_event_of true o buf n in
  let c2 := chunk_event_of true (set_write_bytes (fun v => wrap 64 (v + n)) o) buf' n' in
  call_writer w c1 (ms_env s) = (e1, Ok (ev1, true)) -> call_writer w c2 e1 = (e2, Ok (ev2, true)) ->
  exists s1 s2, stream_Write true buf n p s = (s1, Ok 0) /\ ms_env s1 = e1 /\
    stream_Write true buf' n' p s1 = (s2, Ok 0) /\ ms_env s2 = e2 /\
    body_no_encrypt (flags (head c1)) = 0 /\
    body_no_encrypt (flags (head c2)) = (if stream_is_tls o then 1 else 0).
Proof.
  intros Ho Hw Hb Hn c1 c2 H1 H2.
  destruct (stream_Write_accepted s true buf n p o w e1 ev1 Ho Hw H1) as (s1 & E1 & He1 & Ho1 & _).
  apply (f_equal (lookup p)) in Ho1; rewrite lookup_alter_eq, Ho in Ho1; rewrite <- He1 in H2; destruct (stream_Write_accepted s1 true buf' n' p _ w e2 ev2 Ho1 Hw H2)
    as (s2 & E2 & He2 & _).
  exists s1, s2; do 4 (split; [done|]).
  assert ((wrap 64 (write_bytes o + n) =? 0) = false) as Hnz.
  { rewrite Hb, wrap_small by (unfold fits; lia); apply Z.eqb_neq; lia. }
  unfold c1, c2, chunk_event_of; cbn [head flags body_no_encrypt stream_is_tls set_write_bytes write_bytes].
  rewrite Hnz, Hb; by destruct (stream_is_tls o).
Qed.

(** A chunk offered to a stream whose channel is empty is what its next [Read] returns; no
    other stream, and nothing else of this one, changes on the way. *)
Theorem offer_then_read s p o m `{!DataChannelOk Ch} :
  objects s !! p = Some o -> stream_closed o = false -> chan_items (data_channel o) = Some [] ->
  exists s1 s2, Offer m p s = (s1, Ok 0) /\ Read p s1 = (s2, Ok (m, 0)) /\
    g_streams s2 = g_streams s /\ ms_env s2 = ms_env s /\
    (forall q, q <> p -> objects s2 !! q = objects s !! q).
Proof.
  intros Ho Hc Hi; destruct (chan_send_empty m (data_channel o) Hi) as (c1 & Hs & Hi1).
  destruct (chan_receive_head m [] c1 Hi1) as (c2 & Hr & _).
  unfold Offer, Read, deref; srun; rewrite Ho, Hc, (on_channel_spec s p o _ c1 (Ok tt)) by done.
  eexists; eexists; split; [done|]; cbn [objects set_objects].
  rewrite lookup_alter_eq, Ho; cbn [fmap option_fmap option_map stream_closed set_channel]; rewrite Hc.
  erewrite on_channel_spec; [| cbn [objects set_objects]; by rewrite lookup_alter_eq, Ho | exact Hr].
  split; [done|]; split_and!; try done; intros q Hq; cbn; by rewrite !lookup_alter_ne.
Qed.

End theorems.

(** ** Witnesses *)

(** A writer that keeps a log and accepts while fewer than [n] events were sent; a channel of
    capacity 1. *)
Module StreamDemo.

Definition env : Type := nat * list MuxEvent.

#[export] Instance log_writers : EventWriters env unit unit := {|
  make_writer _ := sret (Some tt);
  call_writer _ ev := fun '(n, log) =>
    if decide (length log < n)%nat then ((n, log ++ [ev]), Ok (ev, true)) else ((n, log), Ok (ev, false))
|}.

#[export] Instance log_writers_ok : EventWritersOk env unit unit.
Proof.
  split; [by intros f e; exists e, (Some tt)|].
  intros w ev [n log]; simpl; case_decide; eauto.
Qed.

Definition chan : Type := option (list chunk_msg).

#[export] Instance chan1 : DataChannel chan := {|
  chan_new := Some [];
  chan_send m := fun c => match c with
    | Some [] => (Some [m], Ok tt)
    | Some _ => (c, Hang)
    | None => (c, Err 1)
    end;
  chan_receive := fun c => match c with
    | Some (m :: ms) => (Some ms, Ok m)
    | Some [] => (c, Hang)
    | None => (c, Err 1)
    end;
  chan_close _ := None
|}.

#[export] Instance chan1_ok : DataChannelOk chan.
Proof.
  refine {| chan_items := id |}; simpl; try done.
  - intros m [[|]|]; simpl; try done; intros _; by eexists.
  - intros m ms [[|]|]; simpl; try done; intros [= -> ->]; by eexists.
Defined.

#[export] Instance chan1_waits : WaitingChannel chan.
Proof. split; [intros m x l [[|]|] [=]; by eexists | intros [[|]|] [=]; by eexists]. Qed.

Definition world : Type := Streams env unit unit chan.

(** No stream yet; the writer accepts [n] events. *)
Definition start (n : nat) : world :=
  {| g_streams := ∅; objects := ∅; g_active_stream_size := 0; g_client_sid := 1; g_server_sid := 2;
     ms_env := (n, []) |}.

Definition stream0 : MuxStream unit unit chan :=
  {| event_writer_factory := tt; event_writer := Some tt; data_channel := Some []; write_bytes := 0;
     stream_client_id := 9; stream_sid := 1; stream_is_tls := true; stream_closed := false |}.

(** One open TLS stream, at pointer 0. *)
Definition one (n : nat) : world :=
  {| g_streams := {[ (9, 1) := 0%nat ]}; objects := {[ 0%nat := stream0 ]}; g_active_stream_size := 1;
     g_client_sid := 3; g_server_sid := 2; ms_env := (n, []) |}.

(** And a second one of the same client. *)
Definition stream1 : MuxStream unit unit chan :=
  {| event_writer_factory := tt; event_writer := Some tt; data_channel := Some []; write_bytes := 0;
     stream_client_id := 9; stream_sid := 3; stream_is_tls := false; stream_closed := false |}.
Definition two (n : nat) : world :=
  {| g_streams := {[ (9, 1) := 0%nat; (9, 3) := 1%nat ]}; objects := {[ 0%nat := stream0; 1%nat := stream1 ]};
     g_active_stream_size := 2; g_client_sid := 5; g_server_sid := 2; ms_env := (n, []) |}.

Lemma start_ok n : table_ok (start n).
Proof. intros k p Hk; cbn in Hk; by rewrite lookup_empty in Hk. Qed.

Lemma one_ok n : table_ok (one n).
Proof.
  intros k p Hk; cbn in Hk; apply lookup_singleton_Some in Hk as [<- <-]; by eexists.
Qed.

End StreamDemo.

Section witnesses.
Import StreamDemo.

Lemma stream_ids_unique_witness :
  exists s1 s2 ids ids', NextIDs true 1000 (start 0) = (s1, Ok ids) /\
    NextIDs false 1000 (start 0) = (s2, Ok ids') /\
    length ids = 1000%nat /\ NoDup ids /\ forall i j, i ∈ ids -> j ∈ ids' -> i <> j.
Proof. apply (stream_ids_unique (start 0) 1000 1000); by vm_compute. Defined.

Lemma new_stream_registered_witness :
  exists s' p, New (Some tt) 9 1 (start 5) = (s', Ok p) /\ Get 9 1 s' = Some p /\
    objects (start 5) !! p = None /\ table_ok s' /\
    (forall k, k <> (9, 1) -> g_streams s' !! k = g_streams (start 5) !! k) /\
    (forall q, q <> p -> objects s' !! q = objects (start 5) !! q).
Proof. apply (new_stream_registered (start 5) tt 9 1); [apply start_ok | reflexivity]. Defined.

Lemma duplicate_id_unregisters_open_stream_witness :
  exists s1 p s2 ec, New (Some tt) 9 1 (one 5) = (s1, Ok p) /\ Get 9 1 s1 = Some 0%nat /\ p <> 0%nat /\
    Close true p s1 = (s2, Ok ec) /\ Get 9 1 s2 = None /\ objects s2 !! 0%nat = Some stream0.
Proof.
  apply (duplicate_id_unregisters_open_stream (one 5) tt 9 1 0 stream0);
    [apply one_ok | reflexivity | reflexivity | reflexivity].
Defined.

(** Of two streams the first is closed. *)
Lemma close_is_final_witness :
  exists s' ec, Close false 0 (two 5) = (s', Ok ec) /\ Get 9 1 s' = None /\ Get 9 3 s' = Some 1%nat /\ objects s' !! 1%nat = Some stream1 /\
    Close true 0 s' = (s', Ok 0) /\ Offer (None, 0) 0 s' = (s', Ok no_link) /\ Read 0 s' = (s', Ok ((None, 0), no_link)).
Proof.
  destruct (close_is_final (two 5) 0 stream0 false true (None, 0) eq_refl eq_refl eq_refl)
    as (s' & ec & o' & E1 & _ & _ & Hg & Hq & Hk & _ & Hr); exists s', ec; split; [exact E1|]; split; [exact Hg|].
  split; [exact (Hk (9, 3) 1%nat ltac:(done) eq_refl)|]; split; [exact (Hq 1%nat ltac:(done)) | exact Hr].
Defined.

(** A writer that accepts nothing. *)
Lemma failed_write_closes_stream_witness :
  exists s' o', WriteEvent 0 (make_event 1 RetireConnRequest) (one 0) = (s', Ok false) /\
    Get 9 1 s' = None /\ objects s' !! 0%nat = Some o' /\ stream_closed o' = true.
Proof.
  destruct (failed_write_closes_stream (one 0) 0 stream0 (make_event 1 RetireConnRequest) eq_refl eq_refl) as (_ & Hf & _).
  destruct (Hf (Some tt) (make_event 1 RetireConnRequest) (0%nat, [])) as (s' & ec & o' & _ & Hr).
  { repeat (eapply refusals_S; [reflexivity | reflexivity|]); constructor. }
  exists s', o'; exact Hr.
Defined.

Lemma only_client_hello_sealed_witness :
  exists s1 s2, stream_Write true (Some (bs "hello")) 5 0 (one 5) = (s1, Ok 0) /\
    stream_Write true (Some (bs "world")) 5 0 s1 = (s2, Ok 0) /\
    (fun e => body_no_encrypt (flags (head e))) <$> snd (ms_env s2) = [0; 1].
Proof.
  edestruct (only_client_hello_sealed (one 5) 0 stream0 tt (Some (bs "hello")) 5 (Some (bs "world")) 5)
    as (s1 & s2 & E1 & _ & E2 & He2 & _);
    [reflexivity | reflexivity | reflexivity | lia | vm_compute; reflexivity | vm_compute; reflexivity |].
  exists s1, s2; split; [exact E1|]; split; [exact E2|]; by rewrite He2.
Defined.

Lemma offer_then_read_witness :
  exists s1 s2, Offer (Some (bs "data"), 4) 0 (one 5) = (s1, Ok 0) /\
    Read 0 s1 = (s2, Ok ((Some (bs "data"), 4), 0)) /\
    g_streams s2 = g_streams (one 5) /\ ms_env s2 = ms_env (one 5) /\
    (forall q, q <> 0%nat -> objects s2 !! q = objects (one 5) !! q).
Proof. apply (offer_then_read (one 5) 0 stream0 (Some (bs "data"), 4)); reflexivity. Defined.

End witnesses.
