(* ===== verification/MuxConnManager.v ===== *)
(** * Sessions and the connection manager

    src/snova/mux/mux_conn_manager.h and .cc: the sessions of every user, each a vector of
    connections with empty slots, the choice of the connection an event is written to, and the
    registration of connections.  Sessions and connections are shared ([std::shared_ptr]), so they
    live in stores and the tables hold pointers.  The manager implements the event writers that
    streams use. *)

From S2P Require Import Prelude Endian IoBuf PbMessages MuxEvent CipherContext Io AsyncMutex MuxConnection MuxStream.

Record MuxSession := { conns : list (option nat); tunnel_servers : list Z }.

(** [UserMuxConn]: the two tables of sessions by client id. *)
Record UserMuxConn := { entry_sessions : gmap Z nat; exit_sessions : gmap Z nat }.

Definition sessions (ty : MuxConnectionType) (u : UserMuxConn) : gmap Z nat :=
  match ty with MUX_ENTRY_CONN => entry_sessions u | MUX_EXIT_CONN => exit_sessions u end.
Definition set_sessions (ty : MuxConnectionType) (t : gmap Z nat) (u : UserMuxConn) : UserMuxConn :=
  match ty with
  | MUX_ENTRY_CONN => {| entry_sessions := t; exit_sessions := exit_sessions u |}
  | MUX_EXIT_CONN => {| entry_sessions := entry_sessions u; exit_sessions := t |}
  end.
Definition empty_user : UserMuxConn := {| entry_sessions := ∅; exit_sessions := ∅ |}.
Definition empty_session : MuxSession := {| conns := []; tunnel_servers := [] |}.

Record MuxConnManager (C : Type) := {
  mux_conns : gmap bytes UserMuxConn;
  session_store : gmap nat MuxSession;
  conn_store : gmap nat (MuxConnection C)
}.
Arguments Build_MuxConnManager {C}.
Arguments mux_conns {C}. Arguments session_store {C}. Arguments conn_store {C}.

(** The order in which a hash table is traversed. *)
Class HashOrder := hash_order : gmap Z nat -> list (Z * nat).
Class HashOrderOk `{HashOrder} : Prop := hash_order_perm : forall t, hash_order t ≡ₚ map_to_list t.

Section manager.
Context `{Platform} `{Nanopb} `{Aead}.
Context {C : Type} `{IOConnection C} `{Clock C} `{HashOrder}.
Implicit Type m : MuxConnManager C.

Definition manager_eta (r : MuxConnManager C) : MuxConnManager C :=
  {| mux_conns := mux_conns r; session_store := session_store r; conn_store := conn_store r |}.
Definition mupd (T : Type) : Type := (T -> T) -> MuxConnManager C -> MuxConnManager C.
Definition set_users : mupd (gmap bytes UserMuxConn) := ltac:(setter manager_eta (@mux_conns C)).
Definition set_session_store : mupd (gmap nat MuxSession) := ltac:(setter manager_eta (@session_store C)).
Definition set_conn_store : mupd (gmap nat (MuxConnection C)) := ltac:(setter manager_eta (@conn_store C)).

(** ** Choosing a connection *)

(** The loop of the factory: [i] is the position, [select_idx] the best one so far with its
    connection. *)
Fixpoint select_loop (store : gmap nat (MuxConnection C)) (i : Z) (best : option (Z * MuxConnection C))
    (l : list (option nat)) : res (option Z) :=
  match l with
  | [] => Ok (fst <$> best)
  | None :: l => select_loop store (i + 1) best l
  | Some p :: l =>
      do c <- access (store !! p);
      match best with
      | None => select_loop store (i + 1) (Some (i, c)) l
      | Some (_, b) =>
          if 0 <? ComparePriority c b then select_loop store (i + 1) (Some (i, c)) l
          else select_loop store (i + 1) best l
      end
  end.

(** Calling the factory of a session: the chosen index, or an empty writer. *)
Definition session_make_writer (sp : nat) : st (MuxConnManager C) (option (nat * Z)) := fun m =>
  (m, do s <- access (session_store m !! sp);
      do i <- select_loop (conn_store m) 0 None (conns s);
      Ok ((fun i => (sp, i)) <$> i)).

(** Calling the writer: the slot may have been emptied or reused since. *)
Definition session_call_writer (w : nat * Z) (event : MuxEvent) : st (MuxConnManager C) (MuxEvent * bool) := fun m =>
  let '(sp, select_idx) := w in
  match session_store m !! sp with
  | None => (m, Ub)
  | Some s =>
      if zlen (conns s) <=? select_idx then (m, Ok (event, false)) else
      match zget (conns s) select_idx with
      | Some (Some p) =>
          match conn_store m !! p with
          | None => (m, Ub)
          | Some c => let '(c', r) := Write event c in (set_conn_store (insert p c') m, r)
          end
      | Some None => (m, Ok (event, false))
      | None => (m, Ub)
      end
  end.

#[export] Instance session_writers : EventWriters (MuxConnManager C) nat (nat * Z) := {|
  make_writer := session_make_writer;
  call_writer := session_call_writer
|}.

(** ** Sessions *)

(** [GetUserMuxConn]. *)
Definition GetUserMuxConn (user : bytes) : st (MuxConnManager C) UserMuxConn :=
  let! m := sget in
  match mux_conns m !! user with
  | Some u => sret u
  | None => let! _ := smodify (set_users (insert user empty_user)) in sret empty_user
  end.

(** [GetSession]: [sessions\[type\]\[client_id\]], created when it is missing. *)
Definition GetSession (user : bytes) (client_id : Z) (ty : MuxConnectionType) : st (MuxConnManager C) nat :=
  let! u := GetUserMuxConn user in
  match sessions ty u !! client_id with
  | Some sp => sret sp
  | None =>
      let! m := sget in
      let sp := fresh (dom (session_store m)) in
      let! _ := smodify (set_session_store (insert sp empty_session)) in
      let! _ := smodify (set_users (insert user (set_sessions ty (<[client_id := sp]> (sessions ty u)) u))) in
      sret sp
  end.

(** The search of [Add] for an empty slot: the new slots and the index. *)
Fixpoint add_conn (p : nat) (l : list (option nat)) : list (option nat) * Z :=
  match l with
  | [] => ([Some p], 0)
  | None :: l => (Some p :: l, 0)
  | Some q :: l => let '(l, i) := add_conn p l in (Some q :: l, i + 1)
  end.

Definition Add (user : bytes) (client_id : Z) (p : nat) : st (MuxConnManager C) (nat * Z) :=
  let! m := sget in
  let! c := slift (access (conn_store m !! p)) in
  let! sp := GetSession user client_id (type_ c) in
  let! m := sget in
  let! s := slift (access (session_store m !! sp)) in
  let '(l, i) := add_conn p (conns s) in
  let! _ := smodify (set_session_store (insert sp {| conns := l; tunnel_servers := tunnel_servers s |})) in
  sret (sp, i).

(** The loop of [Remove]: the slots, and [all_empty]. *)
Fixpoint remove_conn (p : nat) (all_empty match_ : bool) (l : list (option nat)) : list (option nat) * bool :=
  match l with
  | [] => ([], all_empty)
  | c :: l =>
      let '(c, match_) := if decide (c = Some p) then (None, true) else (c, match_) in
      match c with
      | Some _ => if match_ : bool then (c :: l, false)
                  else let '(l, e) := remove_conn p false match_ l in (c :: l, e)
      | None => let '(l, e) := remove_conn p all_empty match_ l in (None :: l, e)
      end
  end.

Definition manager_Remove (user : bytes) (client_id : Z) (p : nat) : st (MuxConnManager C) unit :=
  let! m := sget in
  let! c := slift (access (conn_store m !! p)) in
  match mux_conns m !! user with
  | None => sret tt
  | Some u =>
      match sessions (type_ c) u !! client_id with
      | None => sret tt
      | Some sp =>
          let! s := slift (access (session_store m !! sp)) in
          let '(l, all_empty) := remove_conn p true false (conns s) in
          let! _ := smodify (set_session_store (insert sp {| conns := l; tunnel_servers := tunnel_servers s |})) in
          if all_empty : bool then
            smodify (set_users (insert user (set_sessions (type_ c) (delete client_id (sessions (type_ c) u)) u)))
          else sret tt
      end
  end.

(** [GetEventWriterFactory]: the factory of a session is the pointer to it. *)
Definition GetEventWriterFactory (user : bytes) (client_id : Z) (ty : MuxConnectionType) (m : MuxConnManager C)
  : option nat :=
  u ← mux_conns m !! user; sessions ty u !! client_id.

(** The loop of [GetRelayEventWriterFactory]. *)
Fixpoint relay_loop (store : gmap nat MuxSession) (l : list (Z * nat)) : res (option (Z * nat)) :=
  match l with
  | [] => Ok None
  | (cid, sp) :: l =>
      do s <- access (store !! sp);
      if zlen (conns s) =? 0 then relay_loop store l else Ok (Some (cid, sp))
  end.

(** The client id and the factory. *)
Definition GetRelayEventWriterFactory (user : bytes) (m : MuxConnManager C) : res (option (Z * nat)) :=
  match mux_conns m !! user with
  | None => Ok None
  | Some u => relay_loop (session_store m) (hash_order (sessions MUX_EXIT_CONN u))
  end.

End manager.

(** ** Facts *)

Section manager_facts.
Context `{Platform} `{Nanopb} `{Aead}.
Context {C : Type} `{IOConnection C} `{Clock C} `{HashOrder}.
Implicit Types (m : MuxConnManager C) (store : gmap nat (MuxConnection C)).

(** The connection in slot [i]. *)
Definition slot_conn (store : gmap nat (MuxConnection C)) (l : list (option nat)) (i : Z) (c : MuxConnection C) : Prop :=
  exists p, zget l i = Some (Some p) /\ store !! p = Some c.

(** The best of the slots of [l]. *)
Definition best_slot (store : gmap nat (MuxConnection C)) (l : list (option nat)) (i : Z) : Prop :=
  exists c, slot_conn store l i c /\ forall j d, slot_conn store l j d -> ComparePriority d c <= 0.

Lemma slot_conn_app store l x i c :
  slot_conn store (l ++ [x]) i c -> slot_conn store l i c \/ (i = zlen l /\ exists p, x = Some p /\ store !! p = Some c).
Proof.
  intros (p & Hi & Hp); pose proof (zget_Some_range _ _ _ Hi) as Hr; rewrite zlen_app in Hr.
  change (zlen [x]) with 1 in Hr; destruct (Z.lt_ge_cases i (zlen l)).
  - left; exists p; by rewrite zget_app_l in Hi by done.
  - right; split; [lia|]; rewrite zget_app_r in Hi by lia; replace (i - zlen l) with 0 in Hi by lia.
    rewrite zget_0 in Hi; injection Hi as ->; by exists p.
Qed.

Lemma slot_conn_app_l store l k i c : slot_conn store l i c -> slot_conn store (l ++ k) i c.
Proof.
  intros (p & Hi & Hp); exists p; split; [|done]; rewrite zget_app_l; [done|].
  apply zget_Some_range in Hi; lia.
Qed.

Lemma slot_conn_last store l p c : store !! p = Some c -> slot_conn store (l ++ [Some p]) (zlen l) c.
Proof. intros Hp; exists p; split; [|done]; rewrite zget_app_r by lia; by rewrite Z.sub_diag. Qed.

Definition select_inv store (pre : list (option nat)) (best : option (Z * MuxConnection C)) : Prop :=
  match best with
  | None => forall j d, ~ slot_conn store pre j d
  | Some (i, c) => slot_conn store pre i c /\ forall j d, slot_conn store pre j d -> ComparePriority d c <= 0
  end.

Lemma select_inv_skip store pre best : select_inv store pre best -> select_inv store (pre ++ [None]) best.
Proof.
  destruct best as [[i c]|]; simpl.
  - intros [Hi Hb]; split; [by apply slot_conn_app_l|].
    intros j d [?|(-> & p & ? & _)]%slot_conn_app; [by apply (Hb j) | done].
  - intros Hn j d [?|(-> & p & ? & _)]%slot_conn_app; [by apply (Hn j d) | done].
Qed.

Lemma select_inv_take store pre best p c :
  store !! p = Some c -> select_inv store pre best ->
  match best with Some (_, b) => 0 <? ComparePriority c b | None => true end = true ->
  select_inv store (pre ++ [Some p]) (Some (zlen pre, c)).
Proof.
  intros Hp Hi Hb; split; [by apply slot_conn_last|].
  intros j d [Hj|(-> & q & [= <-] & Hq)]%slot_conn_app.
  - destruct best as [[i b]|]; [|by destruct (Hi j d)].
    destruct Hi as [_ Hm]; apply Hm in Hj; apply Z.ltb_lt in Hb.
    pose proof (ComparePriority_opp c d); pose proof (ComparePriority_opp b d).
    pose proof (ComparePriority_trans c b d ltac:(lia) ltac:(lia)); lia.
  - assert (d = c) as -> by congruence; pose proof (ComparePriority_opp c c); lia.
Qed.

Lemma select_inv_keep store pre i b p c :
  store !! p = Some c -> select_inv store pre (Some (i, b)) -> (0 <? ComparePriority c b) = false ->
  select_inv store (pre ++ [Some p]) (Some (i, b)).
Proof.
  intros Hp [Hi Hm] Hb; split; [by apply slot_conn_app_l|]; apply Z.ltb_ge in Hb.
  intros j d [Hj|(-> & q & [= <-] & Hq)]%slot_conn_app; [by apply (Hm j)|].
  by assert (d = c) as -> by congruence.
Qed.

Lemma select_loop_spec store : forall l pre best,
  (forall p, Some p ∈ l -> is_Some (store !! p)) -> select_inv store pre best ->
  exists r, select_loop store (zlen pre) best l = Ok r /\
    match r with
    | None => forall j d, ~ slot_conn store (pre ++ l) j d
    | Some i => best_slot store (pre ++ l) i
    end.
Proof.
  induction l as [|[p|] l IH]; intros pre best Hl Hi; cbn [select_loop].
  - rewrite app_nil_r; destruct best as [[i c]|]; eexists; (split; [done|]); simpl; [by exists c | done].
  - destruct (Hl p) as [c Hp]; [by left|]; rewrite Hp; cbn [access rbind].
    assert (forall q, Some q ∈ l -> is_Some (store !! q)) as Hl' by (intros; apply Hl; by right).
    assert (zlen pre + 1 = zlen (pre ++ [Some p])) as -> by (rewrite zlen_app; done).
    replace (pre ++ Some p :: l) with ((pre ++ [Some p]) ++ l) by (by rewrite <- app_assoc).
    destruct best as [[i b]|].
    + destruct (0 <? ComparePriority c b) eqn:Eb; apply IH; try done; [by eapply select_inv_take | by eapply select_inv_keep].
    + apply IH; try done; by eapply select_inv_take.
  - assert (zlen pre + 1 = zlen (pre ++ [None : option nat])) as -> by (rewrite zlen_app; done).
    replace (pre ++ None :: l) with ((pre ++ [None]) ++ l) by (by rewrite <- app_assoc); apply IH; [intros; apply Hl; by right | by apply select_inv_skip].
Qed.

(** ** Slots *)

Lemma zget_cons {A} (x : A) l i : 0 <= i -> zget (x :: l) (i + 1) = zget l i.
Proof.
  intros; unfold zget; case Z.ltb_spec; [lia|]; case Z.ltb_spec; [lia|]; intros.
  by replace (Z.to_nat (i + 1)) with (S (Z.to_nat i)) by lia.
Qed.

Lemma add_conn_spec p l l' i :
  add_conn p l = (l', i) ->
  exists a b, 0 <= i /\ i = zlen a /\ Forall is_Some a /\ l' = a ++ Some p :: b /\
    (l = a ++ None :: b \/ (l = a /\ b = [])).
Proof.
  revert l' i; induction l as [|[q|] l IH]; intros l' i; cbn [add_conn].
  - intros [= <- <-]; exists [], []; split_and!; try done; by right.
  - destruct (add_conn p l) as [l1 i1] eqn:E1; intros [= <- <-].
    destruct (IH l1 i1 eq_refl) as (a & b & ? & -> & Ha & -> & Hb).
    exists (Some q :: a), b; rewrite zlen_cons; split_and!; try lia; try done.
    + constructor; [by eexists | done].
    + destruct Hb as [->|[-> ->]]; [by left | by right].
  - intros [= <- <-]; exists [], l; split_and!; try done; by left.
Qed.

Lemma remove_conn_spec p : forall l ae mt,
  (mt = true -> Some p ∉ l) -> (forall a b, l = a ++ Some p :: b -> Some p ∉ b) ->
  remove_conn p ae mt l =
    ((fun c => if decide (c = Some p) then None else c) <$> l,
     ae && forallb (fun c => bool_decide (c = None \/ c = Some p)) l).
Proof.
  induction l as [|c l IH]; intros ae mt Hmt Hnd; cbn [remove_conn fmap list_fmap forallb].
  { by rewrite andb_true_r. }
  assert (forall a b, l = a ++ Some p :: b -> Some p ∉ b) as Hnd'
    by (intros a b ->; by apply (Hnd (c :: a))).
  destruct (decide (c = Some p)) as [->|Hc].
  - rewrite bool_decide_true by auto; cbn [andb].
    rewrite (IH ae true) by (try done; intros _; by apply (Hnd [])). done.
  - destruct c as [q|].
    + rewrite bool_decide_false by (by intros [?|?]); rewrite andb_false_r.
      destruct mt.
      * assert (Some p ∉ l) as Hp by (intros ?; by apply (Hmt eq_refl); right).
        f_equal; f_equal; symmetry; etrans; [|apply list_fmap_id]; apply list_fmap_ext.
        intros i x Hx; rewrite decide_False; [done|]; intros ->; by apply list_elem_of_lookup_2 in Hx.
      * rewrite IH by done; done.
    + rewrite bool_decide_true by auto; cbn [andb].
      rewrite (IH ae mt) by (try done; intros Hm Hi; by apply (Hmt Hm); right); done.
Qed.

(** ** Registration *)

(** Tables point to sessions, sessions to connections. *)
Definition manager_wf (m : MuxConnManager C) : Prop :=
  (forall user u ty cid sp, mux_conns m !! user = Some u -> sessions ty u !! cid = Some sp ->
     is_Some (session_store m !! sp)) /\
  (forall sp s p, session_store m !! sp = Some s -> Some p ∈ conns s -> is_Some (conn_store m !! p)).

(** A connection object that exists may change. *)
Lemma manager_wf_insert m q c : manager_wf m -> manager_wf (set_conn_store (insert q c) m).
Proof.
  intros [Hu Hs]; split; [exact Hu|]; intros sp s p Hsp Hp; cbn; rewrite lookup_insert_is_Some'; right; by eapply Hs.
Qed.

Lemma sessions_set ty ty' t u :
  sessions ty' (set_sessions ty t u) = if decide (ty = ty') then t else sessions ty' u.
Proof. by destruct ty, ty'. Qed.

End manager_facts.

(** ** Theorems *)

Section theorems.
Context `{Platform, !PlatformOk} `{Nanopb, !NanopbOk} `{Aead, !AeadOk}.
Context {C : Type} `{IOConnection C} `{Clock C} `{HashOrder}.
Implicit Type m : MuxConnManager C.

(** The choice of a connection returns. *)
Lemma make_writer_spec m sp s :
  manager_wf m -> session_store m !! sp = Some s ->
  exists r, make_writer sp m = (m, Ok r) /\
    match r with
    | None => forall j c, ~ slot_conn (conn_store m) (conns s) j c
    | Some (sp', i) => sp' = sp /\ best_slot (conn_store m) (conns s) i
    end.
Proof.
  intros [_ Hw] Hs; destruct (select_loop_spec (conn_store m) (conns s) [] None) as (r & E & Hr).
  - intros p Hp; by eapply Hw.
  - intros j d (p & Hj & _); unfold zget in Hj; by case_match.
  - exists ((fun i => (sp, i)) <$> r); cbn [make_writer session_writers]; unfold session_make_writer.
    rewrite Hs; cbn [access rbind]; change 0 with (zlen (@nil (option nat))); rewrite E; split; [done|].
    by destruct r.
Qed.

(** C34. The factory of a session picks a connection of the session that is not worse than any
    other of its connections, and an empty writer exactly when every slot is empty. *)
Theorem writer_selects_least_loaded m sp s :
  manager_wf m -> session_store m !! sp = Some s ->
  exists r, make_writer sp m = (m, Ok r) /\
    match r with
    | None => forall j c, ~ slot_conn (conn_store m) (conns s) j c
    | Some (sp', i) => sp' = sp /\ best_slot (conn_store m) (conns s) i
    end.
Proof. apply make_writer_spec. Qed.

(** A connection is registered in the first free slot: after [Add] the session of its user,
    client id and type holds the connection at the reported index, all lower slots are in use, and
    the other slots are as they were. *)
Theorem add_uses_first_free_slot m user cid p c sp s :
  conn_store m !! p = Some c -> GetEventWriterFactory user cid (type_ c) m = Some sp ->
  session_store m !! sp = Some s ->
  exists m' i s', Add user cid p m = (m', Ok (sp, i)) /\ session_store m' !! sp = Some s' /\
    zget (conns s') i = Some (Some p) /\
    (forall j, 0 <= j < i -> exists q, zget (conns s) j = Some (Some q)) /\
    (forall j, j <> i -> zget (conns s') j = zget (conns s) j) /\
    GetEventWriterFactory user cid (type_ c) m' = Some sp /\
    (forall sp', sp' <> sp -> session_store m' !! sp' = session_store m !! sp').
Proof.
  intros Hc Hg Hs; unfold GetEventWriterFactory in *.
  destruct (mux_conns m !! user) as [u|] eqn:Hu; [|done]; simpl in Hg.
  destruct (add_conn p (conns s)) as [l i] eqn:Ea.
  destruct (add_conn_spec _ _ _ _ Ea) as (a & b & Hi & Hia & Ha & -> & Hb).
  unfold Add, GetSession, GetUserMuxConn; srun; rewrite Hc, Hu; srun; rewrite Hg, Hs; srun; rewrite Ea.
  eexists _, i, _; split; [done|]; cbn; rewrite lookup_insert_eq; split; [done|]; subst i; split_and!.
  - cbn; rewrite zget_app_r by lia; by rewrite Z.sub_diag.
  - intros j Hj; assert (zget (conns s) j = zget a j) as -> by (destruct Hb as [->|[-> ->]]; [apply zget_app_l; lia | done]).
    destruct (zget_in_range a j Hj) as [x Hx]; rewrite Hx; unfold zget in Hx.
    destruct (j <? 0); [done|]; rewrite Forall_lookup in Ha; destruct (Ha _ _ Hx) as [q ->]; by exists q.
  - intros j Hj; cbn; destruct (Z.lt_ge_cases j (zlen a)).
    + rewrite zget_app_l by done; destruct Hb as [->|[-> ->]]; [by rewrite zget_app_l | done].
    + rewrite zget_app_r by done; replace (j - zlen a) with ((j - zlen a - 1) + 1) by lia.
      rewrite zget_cons by lia; destruct Hb as [->|[-> ->]].
      * rewrite zget_app_r by done; rewrite <- (zget_cons (@None nat)) by lia; f_equal; lia.
      * destruct (zget a j) eqn:Ez; [apply zget_Some_range in Ez; lia|].
        by unfold zget; case_match.
  - cbn; by rewrite Hu.
  - intros sp' Hne; by rewrite lookup_insert_ne.
Qed.

(** [Remove] empties the connection's slot and no other; it forgets the session exactly when
    no connection is slots in it, and keeps it registered otherwise. *)
Theorem remove_empties_slot m user u cid p c sp s :
  conn_store m !! p = Some c -> mux_conns m !! user = Some u -> sessions (type_ c) u !! cid = Some sp ->
  session_store m !! sp = Some s ->
  (forall a b, conns s = a ++ Some p :: b -> Some p ∉ b) ->
  let slots := (fun x => if decide (x = Some p) then None else x) <$> conns s in
  exists m', manager_Remove user cid p m = (m', Ok tt) /\
    session_store m' !! sp = Some {| conns := slots; tunnel_servers := tunnel_servers s |} /\
    ~ (Some p ∈ slots) /\
    GetEventWriterFactory user cid (type_ c) m' =
      (if decide (Forall (fun x => x = None) slots) then None else Some sp).
Proof.
  intros Hc Hu Hg Hs Hnd slots; unfold manager_Remove; srun; rewrite Hc, Hu; srun; rewrite Hg, Hs; srun.
  rewrite (remove_conn_spec p (conns s) true false) by done; cbn [andb].
  assert (Some p ∉ slots) as Hp.
  { intros (x & Hx & _)%list_elem_of_fmap; case_decide; [done | by subst]. }
  assert ((forallb (fun x => bool_decide (x = None \/ x = Some p)) (conns s) = true) <-> Forall (fun x => x = None) slots) as Hall.
  { unfold slots; rewrite Forall_fmap, <- Is_true_true, forallb_True; split; intros HF; (eapply Forall_impl; [exact HF|]); intros x; simpl.
    - intros [->| ->]%bool_decide_unpack; by case_decide.
    - case_decide; intros; apply bool_decide_pack; auto. }
  case_match eqn:Ef.
  - eexists; split; [done|]; cbn; rewrite lookup_insert_eq; split_and!; try done.
    unfold GetEventWriterFactory; cbn; rewrite lookup_insert_eq; simpl; rewrite sessions_set, decide_True by done.
    rewrite lookup_delete_eq, decide_True; [done|]; by apply Hall.
  - eexists; split; [done|]; cbn; rewrite lookup_insert_eq; split_and!; try done.
    unfold GetEventWriterFactory; cbn; rewrite Hu; simpl; rewrite decide_False; [done|].
    intros Hn; apply Hall in Hn; congruence.
Qed.

(** The session used to relay for a user is one of that user's sessions towards an exit, under
    the reported client id, and has slots; there is none exactly when all of them have no slots. *)
Theorem relay_session_of_user `{!HashOrderOk} m user u :
  manager_wf m -> mux_conns m !! user = Some u ->
  exists r, GetRelayEventWriterFactory user m = Ok r /\
    match r with
    | Some (cid, sp) => GetEventWriterFactory user cid MUX_EXIT_CONN m = Some sp /\
        exists s, session_store m !! sp = Some s /\ conns s <> []
    | None => forall cid sp s, exit_sessions u !! cid = Some sp -> session_store m !! sp = Some s -> conns s = []
    end.
Proof.
  intros [Hw _] Hu; unfold GetRelayEventWriterFactory, GetEventWriterFactory; rewrite Hu; simpl.
  assert (forall l, (forall cid sp, (cid, sp) ∈ l -> exit_sessions u !! cid = Some sp) ->
    exists r, relay_loop (session_store m) l = Ok r /\
    match r with
    | Some (cid, sp) => exit_sessions u !! cid = Some sp /\
        exists s, session_store m !! sp = Some s /\ conns s <> []
    | None => forall cid sp s, (cid, sp) ∈ l -> session_store m !! sp = Some s -> conns s = []
    end) as Hloop.
  { induction l as [|[cid sp] l IH]; intros Hl; cbn [relay_loop].
    - exists None; split; [done|]; intros ??? Hx; by apply not_elem_of_nil in Hx.
    - destruct (Hw user u MUX_EXIT_CONN cid sp Hu) as [s Hs]; [apply Hl; by left|].
      rewrite Hs; cbn [access rbind]; case Z.eqb_spec; intros Hz.
      + destruct IH as (r & -> & Hr); [intros; apply Hl; by right|]; exists r; split; [done|].
        destruct r as [[cid' sp']|]; [done|]; intros cid1 sp1 s1 [[= -> ->]|Hin]%elem_of_cons Hs1; [|by eapply Hr].
        rewrite Hs in Hs1; injection Hs1 as <-; by apply zlen_zero.
      + exists (Some (cid, sp)); split; [done|]; split; [apply Hl; by left|].
        exists s; split; [done|]; intros E; by rewrite E in Hz. }
  destruct (Hloop (hash_order (exit_sessions u))) as (r & -> & Hr).
  - intros cid sp; rewrite hash_order_perm; apply elem_of_map_to_list.
  - exists r; split; [done|]; destruct r as [[cid sp]|]; [done|]; intros cid sp s Hin Hs.
    apply (Hr cid sp s); [by rewrite hash_order_perm, elem_of_map_to_list | done].
Qed.

End theorems.

(** ** From a stream to the peer *)

Section end_to_end.
Context `{Platform, !PlatformOk} `{Nanopb, !NanopbOk} `{Aead, !AeadOk}.
Context {C D Ch : Type} `{IOConnection C} `{Clock C} `{!StreamView C, !ByteStream C}.
Context `{IOConnection D} `{Clock D} `{!StreamView D, !ByteStream D} `{DataChannel Ch}.

(** One chunk from end to end.  A chunk written to a stream goes, through the writer of the
    stream's session, to the chosen connection and to no other, as one frame; the peer that reads
    that frame gets a chunk event with the stream's id and exactly the bytes written. *)
Theorem stream_chunk_reaches_peer (s : Streams (MuxConnManager C) nat (nat * Z) Ch) (r : MuxConnection D)
    entry p o sp i sess q c key buf n :
  objects s !! p = Some o -> event_writer o = Some (sp, i) ->
  session_store (ms_env s) !! sp = Some sess -> zget (conns sess) i = Some (Some q) ->
  conn_store (ms_env s) !! q = Some c -> conn_wf c -> cipher_key (cipher_ctx c) = Some key ->
  live (io_conn c) -> mutex_free (write_mutex c) -> fits 32 (stream_sid o) -> is_bytes buf ->
  0 < n <= zlen buf -> n <= kMaxChunkSize ->
  conn_wf r -> cipher_key (cipher_ctx r) = Some key -> live (io_conn r) ->
  encrypt_iv (cipher_ctx c) = decrypt_iv (cipher_ctx r) ->
  exists s' c' w, stream_Write entry (Some buf) n p s = (s', Ok 0) /\
    conn_store (ms_env s') = <[q := c']> (conn_store (ms_env s)) /\
    tx (io_conn c') = tx (io_conn c) ++ w /\
    forall rest, pending r ++ rx (io_conn r) = w ++ rest ->
      exists r' e, ReadEvent r = (r', Ok e) /\ sid (head e) = stream_sid o /\
        body e = StreamChunk (Some (ztake n buf)) n /\ pending r' ++ rx (io_conn r') = rest.
Proof.
  intros Ho Hwr Hse Hi Hq Hc Hk Hl Hm Hsid Hb Hn Hmax Hr Hkr Hlr Hiv.
  destruct (chunk_event_of_sendable entry o buf n) as [He Hbm]; try done.
  destruct (Write_frame c key (chunk_event_of entry o (Some buf) n))
    as (c' & w & k & E & _ & Hbs & Hf & _ & _ & _ & Ht & _); try done.
  destruct (stream_Write_accepted s entry (Some buf) n p o (sp, i) (set_conn_store (insert q c') (ms_env s))
    (set_head (with_len k (head (chunk_event_of entry o (Some buf) n))) (chunk_event_of entry o (Some buf) n)))
    as (s' & E' & Henv & _); [done | done | |].
  { cbn [call_writer session_writers]; unfold session_call_writer; rewrite Hse.
    apply zget_Some_range in Hi as Hi'; bool_false (zlen (conns sess) <=? i); by rewrite Hi, Hq, E. }
  exists s', c', w; split; [done|]; split; [by rewrite Henv|]; split; [done|]; intros rest Hrx.
  rewrite Hiv in Hf; destruct (ReadEvent_frame r key _ w rest Hr Hkr Hlr Hf) as (r' & Er & _ & _ & Hp & _);
    [by apply delivered_len | done |].
  eexists r', _; split; [done|]; split; [done|]; split; [|done].
  cbn -[wrap ztake]; rewrite wrap_small by (unfold fits, kMaxChunkSize in *; lia); by bool_false (n =? 0).
Qed.

End end_to_end.

(** ** Witnesses *)

Module ManagerDemo.
Export ConnDemo.

#[export] Instance some_order : HashOrder := map_to_list.
#[export] Instance some_order_ok : HashOrderOk.
Proof. intros t; unfold hash_order, some_order; reflexivity. Qed.

Definition alice : bytes := bs "alice".

(** Session 0 of alice's client 42 has an empty slot and two connections, session 1 (towards an
    exit) one. *)
Definition session0 : MuxSession := {| conns := [Some 0%nat; None; Some 1%nat]; tunnel_servers := [] |}.
Definition session1 : MuxSession := {| conns := [Some 1%nat]; tunnel_servers := [] |}.
Definition user0 : UserMuxConn := {| entry_sessions := {[ 42 := 0%nat ]}; exit_sessions := {[ 42 := 1%nat ]} |}.
Definition link : MuxConnection pipe := conn_on quiet true.
Definition manager : MuxConnManager pipe := {|
  mux_conns := {[ alice := user0 ]};
  session_store := {[ 0%nat := session0; 1%nat := session1 ]};
  conn_store := {[ 0%nat := link; 1%nat := link; 2%nat := link ]} |}.

Lemma manager_ok : manager_wf manager.
Proof.
  split.
  - intros user u ty cid sp Hu Hc; cbn [mux_conns manager] in Hu; apply lookup_singleton_Some in Hu as [<- <-].
    destruct ty; cbn [sessions entry_sessions exit_sessions user0] in Hc;
      apply lookup_singleton_Some in Hc as [<- <-]; by eexists.
  - intros sp s p Hs Hp; cbn [session_store manager] in Hs.
    apply lookup_insert_Some in Hs as [[<- <-]|[_ [<- <-]%lookup_singleton_Some]]; cbn in Hp;
      repeat (apply elem_of_cons in Hp as [Hp|Hp]; [try discriminate Hp; injection Hp as ->; by eexists|]);
      by apply not_elem_of_nil in Hp.
Qed.

(** A stream of that user whose writer is slot 2 of session 0. *)
Import StreamDemo.
Definition chunk_stream : MuxStream nat (nat * Z) chan :=
  {| event_writer_factory := 0%nat; event_writer := Some (0%nat, 2); data_channel := Some []; write_bytes := 0;
     stream_client_id := 42; stream_sid := 7; stream_is_tls := false; stream_closed := false |}.
Definition stream_world : Streams (MuxConnManager pipe) nat (nat * Z) chan :=
  {| g_streams := {[ (42, 7) := 0%nat ]}; objects := {[ 0%nat := chunk_stream ]}; g_active_stream_size := 1;
     g_client_sid := 1; g_server_sid := 2; ms_env := manager |}.

End ManagerDemo.

Section witnesses.
Import ManagerDemo StreamDemo.

Lemma writer_selects_least_loaded_witness :
  exists r, make_writer 0%nat manager = (manager, Ok r) /\
    match r with
    | None => forall j c, ~ slot_conn (conn_store manager) (conns session0) j c
    | Some (sp', i) => sp' = 0%nat /\ best_slot (conn_store manager) (conns session0) i
    end.
Proof. apply (writer_selects_least_loaded manager 0 session0); [apply manager_ok | reflexivity]. Defined.

Lemma add_uses_first_free_slot_witness :
  exists m' i s', Add alice 42 2 manager = (m', Ok (0%nat, i)) /\ session_store m' !! 0%nat = Some s' /\
    zget (conns s') i = Some (Some 2%nat) /\
    (forall j, 0 <= j < i -> exists q, zget (conns session0) j = Some (Some q)) /\
    (forall j, j <> i -> zget (conns s') j = zget (conns session0) j) /\
    GetEventWriterFactory alice 42 MUX_ENTRY_CONN m' = Some 0%nat /\
    (forall sp', sp' <> 0%nat -> session_store m' !! sp' = session_store manager !! sp').
Proof. apply (add_uses_first_free_slot manager alice 42 2 link 0 session0); reflexivity. Defined.

Lemma remove_empties_slot_witness :
  let slots := (fun x => if decide (x = Some 0%nat) then None else x) <$> conns session0 in
  exists m', manager_Remove alice 42 0 manager = (m', Ok tt) /\
    session_store m' !! 0%nat = Some {| conns := slots; tunnel_servers := [] |} /\
    ~ (Some 0%nat ∈ slots) /\
    GetEventWriterFactory alice 42 MUX_ENTRY_CONN m' =
      (if decide (Forall (fun x => x = None) slots) then None else Some 0%nat).
Proof.
  apply (remove_empties_slot manager alice user0 42 0 link 0 session0); [reflexivity..|].
  intros a b Hab Hin; destruct a as [|x1 [|x2 [|x3 a]]]; cbn in Hab; try discriminate Hab.
  - injection Hab as <-; apply (bool_decide_pack (Some 0%nat ∈ [None; Some 1%nat])) in Hin; exact Hin.
  - injection Hab as _ _ _ E; destruct a; discriminate E.
Defined.

Lemma relay_session_of_user_witness :
  exists r, GetRelayEventWriterFactory alice manager = Ok r /\
    match r with
    | Some (cid, sp) => GetEventWriterFactory alice cid MUX_EXIT_CONN manager = Some sp /\
        exists s, session_store manager !! sp = Some s /\ conns s <> []
    | None => forall cid sp s, exit_sessions user0 !! cid = Some sp ->
                session_store manager !! sp = Some s -> conns s = []
    end.
Proof. apply (relay_session_of_user manager alice user0); [apply manager_ok | reflexivity]. Defined.

Lemma stream_chunk_reaches_peer_witness :
  exists s' c' w, stream_Write true (Some (bs "hello")) 5 0 stream_world = (s', Ok 0) /\
    tx (io_conn c') = tx (io_conn link) ++ w /\
    forall rest, pending receiver ++ rx (io_conn receiver) = w ++ rest ->
      exists r' e, ReadEvent receiver = (r', Ok e) /\ sid (head e) = 7 /\
        body e = StreamChunk (Some (ztake 5 (bs "hello"))) 5.
Proof.
  destruct (stream_chunk_reaches_peer stream_world receiver true 0 chunk_stream 0 2 session0 1 link key (bs "hello") 5)
    as (s' & c' & w & E & _ & Ht & HR);
    [reflexivity | reflexivity | reflexivity | reflexivity | reflexivity | apply conn_on_wf | reflexivity
    | constructor | by split | by vm_compute | apply is_bytes_bs | by vm_compute | by vm_compute
    | apply conn_on_wf | reflexivity | apply receiver_live | reflexivity |].
  exists s', c', w; split; [exact E|]; split; [exact Ht|]; intros rest Hrest.
  destruct (HR rest Hrest) as (r' & e & Er & Hs & Hb & _); exists r', e; exact (conj Er (conj Hs Hb)).
Defined.

End witnesses.
