(* ===== verification/MuxDispatch.v ===== *)
(** * Dispatching the events of a connection

    [ProcessReadEvent] and [ReadEventLoop] of src/snova/mux/mux_connection.cc: what a received
    event does to the streams, to the connection itself and to the rest of the process.  The state
    joins the connection that reads, the streams, the relay coroutines that were spawned, the calls
    of the retire callback and the tunnel servers; the handler of tunnel requests
    (src/snova/server/tunnel_server.cc) is an argument. *)

From S2P Require Import Prelude Endian IoBuf PbMessages MuxEvent CipherContext Io AsyncMutex MuxConnection MuxStream.

Record Dispatch (C E F Wr Ch T : Type) := {
  d_conn : MuxConnection C;
  d_streams : Streams E F Wr Ch;
  d_spawned : list (bytes * Z * MuxEvent);
  d_retire_calls : Z;
  d_tunnels : T
}.
Arguments Build_Dispatch {C E F Wr Ch T}.
Arguments d_conn {C E F Wr Ch T}. Arguments d_streams {C E F Wr Ch T}.
Arguments d_spawned {C E F Wr Ch T}. Arguments d_retire_calls {C E F Wr Ch T}.
Arguments d_tunnels {C E F Wr Ch T}.

Section dispatch.
Context `{Platform} `{Nanopb} `{Aead}.
Context {C E F Wr Ch T : Type} `{IOConnection C} `{Clock C} `{EventWriters E F Wr} `{DataChannel Ch}.
Variable tunnel_server_handler : bytes -> Z -> MuxEvent -> st T (option MuxEvent).

Definition dispatch_eta (r : Dispatch C E F Wr Ch T) : Dispatch C E F Wr Ch T :=
  {| d_conn := d_conn r; d_streams := d_streams r; d_spawned := d_spawned r;
     d_retire_calls := d_retire_calls r; d_tunnels := d_tunnels r |}.
Definition dupd (A : Type) : Type := (A -> A) -> Dispatch C E F Wr Ch T -> Dispatch C E F Wr Ch T.
Definition set_d_conn : dupd (MuxConnection C) := ltac:(setter dispatch_eta (@d_conn C E F Wr Ch T)).
Definition set_d_streams : dupd (Streams E F Wr Ch) := ltac:(setter dispatch_eta (@d_streams C E F Wr Ch T)).
Definition set_d_spawned : dupd (list (bytes * Z * MuxEvent)) := ltac:(setter dispatch_eta (@d_spawned C E F Wr Ch T)).
Definition set_d_retire_calls : dupd Z := ltac:(setter dispatch_eta (@d_retire_calls C E F Wr Ch T)).
Definition set_d_tunnels : dupd T := ltac:(setter dispatch_eta (@d_tunnels C E F Wr Ch T)).

(** An operation of one of the parts. *)
Definition d_on_conn {A} (m : st (MuxConnection C) A) : st (Dispatch C E F Wr Ch T) A := fun d =>
  let '(c, r) := m (d_conn d) in (set_d_conn (fun _ => c) d, r).
Definition d_on_streams {A} (m : st (Streams E F Wr Ch) A) : st (Dispatch C E F Wr Ch T) A := fun d =>
  let '(s, r) := m (d_streams d) in (set_d_streams (fun _ => s) d, r).
Definition d_on_tunnels {A} (m : st T A) : st (Dispatch C E F Wr Ch T) A := fun d =>
  let '(t, r) := m (d_tunnels d) in (set_d_tunnels (fun _ => t) d, r).
Definition d_state (v : Z) : st (Dispatch C E F Wr Ch T) unit :=
  smodify (set_d_conn (set_read_state (fun _ => v))).

(** ** The cases of the switch *)

Definition on_retire : st (Dispatch C E F Wr Ch T) Z :=
  let! _ := smodify (set_d_conn (set_retired (fun _ => true))) in
  let! d := sget in
  let! _ := smodify (set_d_retire_calls (fun n => if has_retire_callback (d_conn d) then n + 1 else n)) in
  sret 0.

Definition on_tunnel_open (event : MuxEvent) : st (Dispatch C E F Wr Ch T) Z :=
  let! d := sget in
  let! rsp := d_on_tunnels (tunnel_server_handler (conn_user (d_conn d)) (conn_client_id (d_conn d)) event) in
  match rsp with
  | Some rsp => let! _ := d_on_conn (MuxConnection.WriteEvent rsp) in sret 0
  | None => sret 0
  end.

Definition on_stream_open (event : MuxEvent) : st (Dispatch C E F Wr Ch T) Z :=
  match body event with
  | StreamOpenRequest _ =>
      let! d := sget in
      if has_server_relay (d_conn d) then
        let! _ := smodify (set_d_spawned (fun l =>
          l ++ [(conn_user (d_conn d), conn_client_id (d_conn d), event)])) in sret 0
      else sret 0
  | _ => sret (-1)
  end.

Definition on_stream_close (event : MuxEvent) : st (Dispatch C E F Wr Ch T) Z :=
  let! d := sget in
  match Get (conn_client_id (d_conn d)) (sid (head event)) (d_streams d) with
  | None => sret 0
  | Some p => let! _ := d_on_streams (Close true p) in sret 0
  end.

(** A chunk for an unknown stream: the remote stream is closed, once for a run of chunks of the
    same stream. *)
Definition on_unknown_stream (event : MuxEvent) : st (Dispatch C E F Wr Ch T) Z :=
  let! d := sget in
  if negb (last_unmatch_stream_id (d_conn d) =? sid (head event)) then
    let! _ := smodify (set_d_conn (set_last_unmatch (fun _ => sid (head event)))) in
    let! _ := d_state STATE_CLOSING_STREAM in
    let! _ := d_on_conn (MuxConnection.WriteEvent (make_event (sid (head event)) StreamCloseRequest)) in
    sret 0
  else sret 0.

Definition on_stream_chunk (event : MuxEvent) : st (Dispatch C E F Wr Ch T) Z :=
  let! d := sget in
  match Get (conn_client_id (d_conn d)) (sid (head event)) (d_streams d) with
  | None => on_unknown_stream event
  | Some p =>
      match body event with
      | StreamChunk chunk chunk_len =>
          let! _ := d_state STATE_OFFER_CHUNK in
          let! _ := d_on_streams (Offer (chunk, chunk_len) p) in
          sret 0
      | _ => sret (-1)
      end
  end.

Definition dispatch_event (event : MuxEvent) : st (Dispatch C E F Wr Ch T) Z :=
  let ty := type (head event) in
  if ty =? EVENT_RETIRE_CONN_REQ then on_retire
  else if ty =? EVENT_TUNNEL_OPEN_REQ then on_tunnel_open event
  else if ty =? EVENT_STREAM_OPEN then on_stream_open event
  else if ty =? EVENT_STREAM_CLOSE then on_stream_close event
  else if ty =? EVENT_STREAM_CHUNK then on_stream_chunk event
  else sret 0.

(** [ProcessReadEvent]. *)
Definition ProcessReadEvent : st (Dispatch C E F Wr Ch T) Z := fun d =>
  let d := fst (d_state STATE_READING d) in
  match d_on_conn ReadEvent d with
  | (d, Ok event) => dispatch_event event (fst (d_state STATE_READED d))
  | (d, Err rc) => (fst (d_state STATE_READED d), Ok rc)
  | (d, Ub) => (d, Ub)
  | (d, Hang) => (d, Hang)
  end.

(** [ReadEventLoop]; [Hang] when the loop has not ended after [fuel] events. *)
Fixpoint ReadEventLoop_body (fuel : nat) : st (Dispatch C E F Wr Ch T) unit :=
  match fuel with
  | O => slift Hang
  | S fuel =>
      let! rc := ProcessReadEvent in
      if negb (rc =? 0) && negb (rc =? ERR_NEED_MORE_INPUT_DATA) then sret tt else ReadEventLoop_body fuel
  end.

Definition ReadEventLoop (fuel : nat) : st (Dispatch C E F Wr Ch T) unit :=
  let! _ := ReadEventLoop_body fuel in
  let! _ := d_state STATE_READ_LOOP_EXIT in
  smodify (set_d_conn conn_Close).

End dispatch.

(** ** Facts *)

Section dispatch_facts.
Context `{Platform, !PlatformOk} `{Nanopb, !NanopbOk} `{Aead, !AeadOk}.
Context {C E F Wr Ch T : Type} `{IOConnection C} `{Clock C} `{!StreamView C, !ByteStream C}.
Context `{EventWriters E F Wr, !EventWritersOk E F Wr} `{DataChannel Ch, !DataChannelOk Ch}.
Variable handler : bytes -> Z -> MuxEvent -> st T (option MuxEvent).
Implicit Type d : Dispatch C E F Wr Ch T.

(** The next event on the connection is [e]. *)
Definition next_event (d : Dispatch C E F Wr Ch T) (key : bytes) (e : MuxEvent) (w rest : bytes) : Prop :=
  conn_wf (d_conn d) /\ cipher_key (cipher_ctx (d_conn d)) = Some key /\ live (io_conn (d_conn d)) /\
  frame_of key (decrypt_iv (cipher_ctx (d_conn d))) e w /\ len (head e) <= kMaxChunkSize + 128 /\
  pending (d_conn d) ++ rx (io_conn (d_conn d)) = w ++ rest.

(** The connection after that event was read. *)
Definition event_read (c c' : MuxConnection C) (rest : bytes) : Prop :=
  conn_wf c' /\ next_ctx (cipher_ctx c) (cipher_ctx c') /\ pending c' ++ rx (io_conn c') = rest /\
  tx (io_conn c') = tx (io_conn c) /\ live (io_conn c') /\
  reader_keeps c' = reader_keeps (set_read_state (fun _ => STATE_READED) c).

Lemma ProcessReadEvent_frame d key e w rest :
  next_event d key e w rest ->
  exists c, event_read (d_conn d) c rest /\
    ProcessReadEvent handler d = dispatch_event handler e (set_d_conn (fun _ => c) d).
Proof.
  intros (Hc & Hk & Hl & Hf & Hlen & Hrx).
  destruct (ReadEvent_frame (set_read_state (fun _ => STATE_READING) (d_conn d)) key e w rest)
    as (c & E1 & Hc1 & Hn & Hp & Ht & Hl1 & Hkeep); try done.
  exists (set_read_state (fun _ => STATE_READED) c); split.
  - split; [by destruct Hc1 as (? & ? & ? & ?)|]; do 4 (split; [done|]).
    unfold reader_keeps in *; cbn in *; congruence.
  - unfold ProcessReadEvent, d_on_conn, d_state, smodify; cbn [fst d_conn set_d_conn].
    by rewrite E1.
Qed.

(** The table maps an id to the stream that has it. *)
Definition table_keys (s : Streams E F Wr Ch) : Prop :=
  forall c i p, g_streams s !! (c, i) = Some p ->
    exists o, objects s !! p = Some o /\ stream_client_id o = c /\ stream_sid o = i.

(** The streams of a client other than [cid], and their objects. *)
Definition others_kept (cid : Z) (s s' : Streams E F Wr Ch) : Prop :=
  forall c i, c <> cid -> g_streams s' !! (c, i) = g_streams s !! (c, i) /\
    forall p, g_streams s !! (c, i) = Some p -> objects s' !! p = objects s !! p.

(** Every stream registered in [s'] was so in [s]. *)
Definition no_new (s' s : Streams E F Wr Ch) : Prop :=
  forall k p, g_streams s' !! k = Some p -> g_streams s !! k = Some p.

Lemma no_new_same s s' : g_streams s' = g_streams s -> no_new s' s.
Proof. by unfold no_new; intros -> k p. Qed.

(** Handling [e] keeps the streams of the other clients, registers none, and spawns at most the relay of
    [e], for the user and the client of the connection. *)
Definition only_own (e : MuxEvent) (d d' : Dispatch C E F Wr Ch T) : Prop :=
  others_kept (conn_client_id (d_conn d)) (d_streams d) (d_streams d') /\ no_new (d_streams d') (d_streams d) /\
  (d_spawned d' = d_spawned d \/
   (exists req, body e = StreamOpenRequest req) /\ d_spawned d' = d_spawned d ++ [(conn_user (d_conn d), conn_client_id (d_conn d), e)]).

Lemma only_own_same e d d' : d_streams d' = d_streams d -> d_spawned d' = d_spawned d -> only_own e d d'.
Proof. intros Hs Hp; unfold only_own; rewrite Hs; split; [done | split; [by apply no_new_same | by left]]. Qed.

Lemma Close_true_others cid i p (s s' : Streams E F Wr Ch) r :
  table_keys s -> g_streams s !! (cid, i) = Some p -> Close true p s = (s', Ok r) -> others_kept cid s s' /\ no_new s' s.
Proof.
  intros Hk Hp HC; destruct (Hk _ _ _ Hp) as (o & Ho & Hcid & Hsid).
  destruct (stream_closed o) eqn:Ec.
  - rewrite (Close_closed true p s o Ho Ec) in HC; injection HC as <- _; by split; [|apply no_new_same].
  - destruct (Close_open true p s o Ho Ec) as (s1 & ec & o' & HC' & Ht & Hobj & _).
    rewrite HC in HC'; injection HC' as -> ->; split; [|unfold no_new; rewrite Ht; by intros k q [_ ?]%lookup_delete_Some].
    intros c j Hc; rewrite Ht, Hobj, Hcid, Hsid; split.
    + apply lookup_delete_ne; congruence.
    + intros q Hq; apply lookup_insert_ne; intros <-.
      destruct (Hk _ _ _ Hq) as (o2 & Ho2 & ? & _); congruence.
Qed.

Lemma Offer_others cid i p m (s s' : Streams E F Wr Ch) r :
  table_keys s -> g_streams s !! (cid, i) = Some p -> Offer m p s = (s', r) -> others_kept cid s s' /\ no_new s' s.
Proof.
  intros Hk Hp; destruct (Hk _ _ _ Hp) as (o & Ho & Hcid & _).
  unfold Offer, deref; srun; rewrite Ho; destruct (stream_closed o); [intros [= <- _]; by split; [|apply no_new_same]|].
  destruct (chan_send m (data_channel o)) as [ch rr] eqn:Ech.
  rewrite (on_channel_spec s p o _ ch rr Ho Ech); intros Hr.
  assert (s' = set_objects (alter (set_channel (fun _ => ch)) p) s) as -> by (by destruct rr; injection Hr as <- _).
  split; [|by apply no_new_same]; intros c j Hc; split; [done|]; intros q Hq; cbn; apply lookup_alter_ne; intros <-.
  destruct (Hk _ _ _ Hq) as (o2 & Ho2 & ? & _); congruence.
Qed.

End dispatch_facts.

(** ** Theorems *)

Section theorems.
Context `{Platform, !PlatformOk} `{Nanopb, !NanopbOk} `{Aead, !AeadOk}.
Context {C E F Wr Ch T : Type} `{IOConnection C} `{Clock C} `{!StreamView C, !ByteStream C}.
Context `{EventWriters E F Wr, !EventWritersOk E F Wr} `{DataChannel Ch, !DataChannelOk Ch}.
Variable handler : bytes -> Z -> MuxEvent -> st T (option MuxEvent).
Implicit Type d : Dispatch C E F Wr Ch T.

(** Demultiplexing.  When the next event is a chunk of a registered open stream with room in its
    channel, processing it puts exactly that chunk into the channel of that stream; the table, every
    other stream, the spawned relays and what was written stay as they are. *)
Theorem chunk_goes_to_its_stream d key e w rest p o chunk n :
  next_event d key e w rest -> type (head e) = EVENT_STREAM_CHUNK -> body e = StreamChunk chunk n ->
  Get (conn_client_id (d_conn d)) (sid (head e)) (d_streams d) = Some p ->
  objects (d_streams d) !! p = Some o -> stream_closed o = false -> chan_items (data_channel o) = Some [] ->
  exists d' ch, ProcessReadEvent handler d = (d', Ok 0) /\ chan_items ch = Some [(chunk, n)] /\
    objects (d_streams d') = alter (set_channel (fun _ => ch)) p (objects (d_streams d)) /\
    g_streams (d_streams d') = g_streams (d_streams d) /\ d_spawned d' = d_spawned d /\
    tx (io_conn (d_conn d')) = tx (io_conn (d_conn d)) /\
    pending (d_conn d') ++ rx (io_conn (d_conn d')) = rest.
Proof.
  intros Hnext Hty Hb Hget Ho Hc Hi.
  destruct (ProcessReadEvent_frame handler d key e w rest Hnext) as (c & (Hwf & _ & Hp & Ht & _ & Hkeep) & ->).
  destruct (chan_send_empty (chunk, n) (data_channel o) Hi) as (ch & Hs & Hi1).
  assert (conn_client_id c = conn_client_id (d_conn d)) as Hcid by (unfold reader_keeps in Hkeep; cbn in Hkeep; congruence).
  unfold dispatch_event; rewrite Hty; cbn -[on_stream_chunk]; unfold on_stream_chunk; srun.
  cbn [d_conn d_streams set_d_conn]; rewrite Hcid, Hget, Hb; unfold d_state, d_on_streams; srun.
  cbn [d_conn d_streams set_d_conn]; unfold Offer, deref; srun; rewrite Ho, Hc.
  rewrite (on_channel_spec (d_streams d) p o _ ch (Ok tt) Ho Hs).
  eexists _, ch; split; [done|]; split_and!; done.
Qed.

(** A chunk for a stream that does not exist: the first one makes the connection tell the peer,
    with one close event for that id, and following ones for the same id are dropped without a
    word; the streams are not touched. *)
Theorem unknown_stream_closed_once d key e w rest :
  next_event d key e w rest -> type (head e) = EVENT_STREAM_CHUNK -> fits 32 (sid (head e)) ->
  Get (conn_client_id (d_conn d)) (sid (head e)) (d_streams d) = None ->
  mutex_free (write_mutex (d_conn d)) ->
  exists d' w', ProcessReadEvent handler d = (d', Ok 0) /\ d_streams d' = d_streams d /\
    tx (io_conn (d_conn d')) = tx (io_conn (d_conn d)) ++ w' /\
    last_unmatch_stream_id (d_conn d') = sid (head e) /\
    (if last_unmatch_stream_id (d_conn d) =? sid (head e) then w' = []
     else frame_of key (encrypt_iv (cipher_ctx (d_conn d)))
            (delivered 0 (make_event (sid (head e)) StreamCloseRequest)) w').
Proof.
  intros Hnext Hty Hsid Hget Hm; pose proof Hnext as (_ & Hkey & _).
  destruct (ProcessReadEvent_frame handler d key e w rest Hnext)
    as (c & (Hwf & (_ & Hk & Hei & _) & Hp & Ht & Hl & Hkeep) & ->).
  assert (conn_client_id c = conn_client_id (d_conn d) /\ write_mutex c = write_mutex (d_conn d) /\
    last_unmatch_stream_id c = last_unmatch_stream_id (d_conn d)) as (Hcid & Hmx & Hum)
    by (unfold reader_keeps in Hkeep; cbn in Hkeep; split_and!; congruence).
  unfold dispatch_event; rewrite Hty; cbn -[on_stream_chunk]; unfold on_stream_chunk; srun.
  cbn [d_conn d_streams set_d_conn]; rewrite Hcid, Hget; unfold on_unknown_stream; srun.
  cbn [d_conn set_d_conn]; rewrite Hum; case Z.eqb_spec; intros Hz; cbn [negb].
  { eexists _, []; split; [done|]; cbn; rewrite app_nil_r; split_and!; congruence. }
  unfold d_state, d_on_conn; srun; cbn [d_conn set_d_conn].
  set (close := make_event (sid (head e)) StreamCloseRequest).
  destruct (Write_frame (set_read_state (fun _ => STATE_CLOSING_STREAM)
    (set_last_unmatch (fun _ => sid (head e)) c)) key close)
    as (c2 & w' & n & E2 & _ & Hn & Hf & _ & _ & _ & Ht2 & _ & _ & Hk2); try done;
    [by cbn; rewrite Hk | by cbn; rewrite Hmx |].
  unfold MuxConnection.WriteEvent; srun; rewrite E2; eexists _, w'; split; [done|]; split; [done|]; split_and!.
  - cbn; by rewrite Ht2, <- Ht.
  - unfold writer_keeps in Hk2; cbn in *; congruence.
  - cbn in Hf; rewrite Hei in Hf; cbn in Hn; by subst n.
Qed.

(** A close event of the peer closes the stream and takes it out of the table. *)
Theorem remote_close_closes_stream d key e w rest p o :
  next_event d key e w rest -> type (head e) = EVENT_STREAM_CLOSE -> table_keys (d_streams d) ->
  Get (conn_client_id (d_conn d)) (sid (head e)) (d_streams d) = Some p ->
  objects (d_streams d) !! p = Some o -> stream_closed o = false ->
  exists d' o', ProcessReadEvent handler d = (d', Ok 0) /\
    Get (conn_client_id (d_conn d)) (sid (head e)) (d_streams d') = None /\
    objects (d_streams d') !! p = Some o' /\ stream_closed o' = true /\
    tx (io_conn (d_conn d')) = tx (io_conn (d_conn d)).
Proof.
  intros Hnext Hty Hkeys Hget Ho Hc.
  destruct (ProcessReadEvent_frame handler d key e w rest Hnext) as (c & (_ & _ & _ & Ht & _ & Hkeep) & ->).
  assert (conn_client_id c = conn_client_id (d_conn d)) as Hcid by (unfold reader_keeps in Hkeep; cbn in Hkeep; congruence).
  destruct (Close_open true p (d_streams d) o Ho Hc) as (s' & ec & o' & HC & Htab & Hobj & Hcl & _).
  destruct (Hkeys _ _ _ Hget) as (o2 & Ho2 & E1 & E2); rewrite Ho in Ho2; injection Ho2 as <-.
  unfold dispatch_event; rewrite Hty; cbn -[on_stream_close]; unfold on_stream_close; srun.
  cbn [d_conn d_streams set_d_conn]; rewrite Hcid, Hget; unfold d_on_streams; cbn [d_streams set_d_conn].
  rewrite HC; eexists _, o'; split; [done|]; unfold Get; cbn; rewrite Htab, Hobj, E1, E2.
  split_and!; [by rewrite lookup_delete_eq | by rewrite lookup_insert_eq | done | done].
Qed.

(** C15. Isolation of clients.  Handling an event that arrived on a connection leaves the streams of all
    other client ids registered as they were, and their objects untouched, and registers no stream at all.
    A request to open a stream only records a relay to spawn, with the event and with the user and the client
    id of this connection, whatever the event says; every other event records none. *)
Theorem events_touch_only_own_client d e d' rc :
  table_keys (d_streams d) -> dispatch_event handler e d = (d', Ok rc) -> only_own e d d'.
Proof.
  intros Hk; unfold dispatch_event.
  repeat (case_match; [|]);
    unfold on_retire, on_tunnel_open, on_stream_open, on_stream_close, on_stream_chunk, on_unknown_stream, d_state,
      d_on_tunnels, d_on_conn, d_on_streams; srun.
  - intros [= <- _]; by apply only_own_same.
  - destruct (handler _ _ _ _) as [t [[rsp|]| | |]]; try done; [|intros [= <- _]; by apply only_own_same].
    cbn [d_conn set_d_tunnels]; destruct (MuxConnection.WriteEvent _ _) as [c [b| | |]]; try done.
    intros [= <- _]; by apply only_own_same.
  - destruct (body e) eqn:Eb; try (intros [= <- _]; by apply only_own_same).
    destruct (has_server_relay _); intros [= <- _]; [|by apply only_own_same].
    split; [done|]; split; [by apply no_new_same|]; right; by split; [eexists|].
  - destruct (Get _ _ _) as [p|] eqn:Eg; [|intros [= <- _]; by apply only_own_same].
    destruct (Close true p (d_streams d)) as [s' [r| | |]] eqn:Ec; try done; intros [= <- _].
    destruct (Close_true_others _ _ _ _ _ _ Hk Eg Ec); split; [done | split; [done | by left]].
  - destruct (Get _ _ _) as [p|] eqn:Eg.
    + destruct (body e); try (intros [= <- _]; by apply only_own_same); cbn [d_streams set_d_conn].
      destruct (Offer _ p (d_streams d)) as [s' [r| | |]] eqn:Eo; try done; intros [= <- _].
      destruct (Offer_others _ _ _ _ _ _ _ Hk Eg Eo); split; [done | split; [done | by left]].
    + destruct (negb _); [|intros [= <- _]; by apply only_own_same]; cbn [d_conn set_d_conn].
      destruct (MuxConnection.WriteEvent _ _) as [c [b| | |]]; try done; intros [= <- _]; by apply only_own_same.
  - intros [= <- _]; by apply only_own_same.
Qed.

End theorems.

(** ** Witnesses *)

Module DispatchDemo.
Export ConnDemo StreamDemo.

(** No tunnel server: every request is answered with nothing. *)
Definition no_tunnels : bytes -> Z -> MuxEvent -> st unit (option MuxEvent) := fun _ _ _ => sret None.

Definition stream7 : MuxStream unit unit chan :=
  {| event_writer_factory := tt; event_writer := Some tt; data_channel := Some []; write_bytes := 0;
     stream_client_id := 0; stream_sid := 7; stream_is_tls := false; stream_closed := false |}.
Definition with_stream7 : world :=
  {| g_streams := {[ (0, 7) := 0%nat ]}; objects := {[ 0%nat := stream7 ]}; g_active_stream_size := 1;
     g_client_sid := 3; g_server_sid := 2; ms_env := (5%nat, []) |}.

Lemma with_stream7_keys : table_keys with_stream7.
Proof.
  intros c i p Hp; cbn in Hp; apply lookup_singleton_Some in Hp as [[= <- <-] <-]; by exists stream7.
Qed.

(** A second client with a stream of the same id. *)
Definition stream7' : MuxStream unit unit chan :=
  {| event_writer_factory := tt; event_writer := Some tt; data_channel := Some []; write_bytes := 0;
     stream_client_id := 1; stream_sid := 7; stream_is_tls := false; stream_closed := false |}.
Definition two_clients : world :=
  {| g_streams := {[ (0, 7) := 0%nat; (1, 7) := 1%nat ]}; objects := {[ 0%nat := stream7; 1%nat := stream7' ]};
     g_active_stream_size := 2; g_client_sid := 3; g_server_sid := 2; ms_env := (5%nat, []) |}.

Lemma two_clients_keys : table_keys two_clients.
Proof.
  intros c i p Hp; cbn in Hp; apply lookup_insert_Some in Hp as [[[= <- <-] <-]|[_ Hp]]; [by exists stream7|].
  apply lookup_singleton_Some in Hp as [[= <- <-] <-]; by exists stream7'.
Qed.

(** A process to whose connection [e] arrives. *)
Definition process (e : MuxEvent) (s : world) : Dispatch pipe env unit unit chan unit :=
  {| d_conn := getting e true; d_streams := s; d_spawned := []; d_retire_calls := 0; d_tunnels := tt |}.

Definition close_event : MuxEvent := make_event 7 StreamCloseRequest.
Lemma close_event_sendable : sendable close_event.
Proof. by repeat split. Qed.

Lemma process_next e s :
  sendable e -> live (io_conn (getting e true)) ->
  exists n, body_size (body e) n /\ next_event (process e s) key (delivered n e) (frame_bytes e) [].
Proof.
  intros He Hl; destruct (frame_bytes_ok e He) as (n & Hn & Hf); exists n; split; [done|].
  split; [apply conn_on_wf|]; split; [reflexivity|]; split; [done|]; split; [exact Hf|].
  split; [apply delivered_len; [apply He.. | done] | apply getting_rx].
Qed.

Ltac live_pieces := vm_compute; repeat constructor; discriminate.

End DispatchDemo.

Section witnesses.
Import DispatchDemo.

Lemma chunk_goes_to_its_stream_witness :
  exists d' ch, ProcessReadEvent no_tunnels (process chunk_event with_stream7) = (d', Ok 0) /\
    chan_items ch = Some [(Some (bs "hello"), 5)] /\
    objects (d_streams d') = alter (set_channel (fun _ => ch)) 0%nat (objects with_stream7).
Proof.
  destruct (process_next chunk_event with_stream7 chunk_event_sendable ltac:(live_pieces)) as (n & Hn & Hnext).
  destruct (chunk_goes_to_its_stream no_tunnels (process chunk_event with_stream7) key (delivered n chunk_event)
    (frame_bytes chunk_event) [] 0 stream7 (Some (bs "hello")) 5) as (d' & ch & E & Hi & Ho & _);
    [exact Hnext | reflexivity | reflexivity | reflexivity | reflexivity | reflexivity | reflexivity |].
  exists d', ch; exact (conj E (conj Hi Ho)).
Defined.

Lemma unknown_stream_closed_once_witness :
  exists d' w', ProcessReadEvent no_tunnels (process chunk_event (start 5)) = (d', Ok 0) /\
    tx (io_conn (d_conn d')) = tx (io_conn (getting chunk_event true)) ++ w' /\
    frame_of key (encrypt_iv ctx) (delivered 0 close_event) w'.
Proof.
  destruct (process_next chunk_event (start 5) chunk_event_sendable ltac:(live_pieces)) as (n & Hn & Hnext).
  destruct (unknown_stream_closed_once no_tunnels (process chunk_event (start 5)) key (delivered n chunk_event)
    (frame_bytes chunk_event) []) as (d' & w' & E & _ & Ht & _ & Hf);
    [exact Hnext | reflexivity | by vm_compute | reflexivity | by split |].
  exists d', w'; exact (conj E (conj Ht Hf)).
Defined.

Lemma remote_close_closes_stream_witness :
  exists d' o', ProcessReadEvent no_tunnels (process close_event with_stream7) = (d', Ok 0) /\
    Get 0 7 (d_streams d') = None /\ objects (d_streams d') !! 0%nat = Some o' /\ stream_closed o' = true.
Proof.
  destruct (process_next close_event with_stream7 close_event_sendable ltac:(live_pieces)) as (n & Hn & Hnext).
  destruct (remote_close_closes_stream no_tunnels (process close_event with_stream7) key (delivered n close_event)
    (frame_bytes close_event) [] 0 stream7) as (d' & o' & E & Hg & Ho & Hc & _);
    [exact Hnext | reflexivity | apply with_stream7_keys | reflexivity | reflexivity | reflexivity |].
  exists d', o'; exact (conj E (conj Hg (conj Ho Hc))).
Defined.

(** The close of the first client's stream leaves the second client's stream of the same id. *)
Lemma events_touch_only_own_client_witness :
  let d' := fst (dispatch_event no_tunnels close_event (process close_event two_clients)) in
  Get 0 7 (d_streams d') = None /\ Get 1 7 (d_streams d') = Some 1%nat /\ objects (d_streams d') !! 1%nat = Some stream7'.
Proof.
  intros d'; split; [reflexivity|].
  destruct (events_touch_only_own_client no_tunnels (process close_event two_clients) close_event d' 0) as (Hk & _);
    [apply two_clients_keys | reflexivity |].
  destruct (Hk 1 7 ltac:(done)) as [Ht Ho]; split; [exact Ht | exact (Ho 1%nat eq_refl)].
Defined.

End witnesses.
