(* ===== verification/Sni.v ===== *)
(** * The server name of a TLS client hello

    src/snova/util/sni.cc: the parser that finds the host name in the first bytes a client sends.
    A pointer and a length are a byte list; an index outside it is undefined.  The success value 0
    is [Ok] with the host name, a negative result is [Err]. *)

From S2P Require Import Prelude Endian.

Definition TLS_HEADER_LEN : Z := 5.
Definition TLS_HANDSHAKE_CONTENT_TYPE : Z := 22.
Definition TLS_HANDSHAKE_TYPE_CLIENT_HELLO : Z := 1.

(** [data\[pos\]], and the big endian pair of bytes at [pos]. *)
Definition rd8 (data : bytes) (pos : Z) : res Z := access (zget data pos).
Definition rd16 (data : bytes) (pos : Z) : res Z :=
  do a <- rd8 data pos;
  do b <- rd8 data (pos + 1);
  Ok (Z.shiftl a 8 + b).

(** [parse_server_name_extension], from [pos] on. *)
Fixpoint parse_server_name_extension (fuel : nat) (data : bytes) (pos : Z) : res bytes :=
  if pos + 3 <? zlen data then
    match fuel with
    | O => Hang
    | S fuel =>
        do len <- rd16 data (pos + 1);
        if zlen data <? pos + 3 + len then Err (-5) else
        do name_type <- rd8 data pos;
        if name_type =? 0 then access (zslice (pos + 3) len data)
        else parse_server_name_extension fuel data (pos + (3 + len))
    end
  else if negb (pos =? zlen data) then Err (-5) else Err (-2).

(** [parse_extensions], from [pos] on. *)
Fixpoint parse_extensions (fuel : nat) (data : bytes) (pos : Z) : res bytes :=
  if pos + 4 <=? zlen data then
    match fuel with
    | O => Hang
    | S fuel =>
        do len <- rd16 data (pos + 2);
        do t0 <- rd8 data pos;
        do t1 <- rd8 data (pos + 1);
        if (t0 =? 0) && (t1 =? 0) then
          if zlen data <? pos + 4 + len then Err (-5) else
          do ext <- access (zslice (pos + 4) len data);
          parse_server_name_extension (length ext) ext 2
        else parse_extensions fuel data (pos + (4 + len))
    end
  else if negb (pos =? zlen data) then Err (-5) else Err (-2).

(** [parse_tls_header] from the session id on; [data_len] is the length of the record. *)
Definition parse_client_hello (data : bytes) (data_len pos major minor : Z) : res bytes :=
  if data_len <? pos + 1 then Err (-5) else
  do len <- rd8 data pos;
  let pos := pos + (1 + len) in
  if data_len <? pos + 2 then Err (-5) else
  do len <- rd16 data pos;
  let pos := pos + (2 + len) in
  if data_len <? pos + 1 then Err (-5) else
  do len <- rd8 data pos;
  let pos := pos + (1 + len) in
  if (pos =? data_len) && (major =? 3) && (minor =? 0) then Err (-2) else
  if data_len <? pos + 2 then Err (-5) else
  do len <- rd16 data pos;
  let pos := pos + 2 in
  if data_len <? pos + len then Err (-5) else
  do exts <- access (zslice pos len data);
  parse_extensions (length exts) exts 0.

(** [parse_tls_header]. *)
Definition parse_tls_header (data : bytes) : res bytes :=
  let pos := TLS_HEADER_LEN in
  if zlen data <? TLS_HEADER_LEN then Err (-1) else
  do d0 <- rd8 data 0;
  do d2 <- rd8 data 2;
  if negb (Z.land d0 128 =? 0) && (d2 =? 1) then Err (-2) else
  if negb (d0 =? TLS_HANDSHAKE_CONTENT_TYPE) then Err (-5) else
  do major <- rd8 data 1;
  do minor <- rd8 data 2;
  if major <? 3 then Err (-2) else
  do len <- rd16 data 3;
  let len := len + TLS_HEADER_LEN in
  let data_len := if zlen data <? len then zlen data else len in
  if data_len <? len then Err (-1) else
  if data_len <? pos + 1 then Err (-5) else
  do ty <- rd8 data pos;
  if negb (ty =? TLS_HANDSHAKE_TYPE_CLIENT_HELLO) then Err (-5) else
  parse_client_hello data data_len (pos + 38) major minor.

Definition parse_sni (data : bytes) : res bytes := parse_tls_header data.

(** ** Memory safety *)

Lemma rd8_ok data pos : is_bytes data -> 0 <= pos < zlen data -> exists v, rd8 data pos = Ok v /\ 0 <= v < 256.
Proof.
  intros Hb Hp; unfold rd8; destruct (zget_in_range data pos Hp) as [v Hv]; rewrite Hv; exists v.
  split; [done|]; unfold zget in Hv; destruct (pos <? 0); [done|].
  by apply (Forall_lookup_1 _ _ _ _ Hb Hv).
Qed.

Lemma rd16_ok data pos :
  is_bytes data -> 0 <= pos -> pos + 1 < zlen data -> exists v, rd16 data pos = Ok v /\ 0 <= v < 65536.
Proof.
  intros Hb ? ?; unfold rd16.
  destruct (rd8_ok data pos) as (a & -> & Ha); [done | lia|]; destruct (rd8_ok data (pos + 1)) as (b & -> & Hb'); [done | lia|].
  cbn [rbind]; eexists; split; [done|]; rewrite Z.shiftl_mul_pow2 by lia; lia.
Qed.

Lemma parse_server_name_extension_returns fuel : forall data pos,
  is_bytes data -> 0 <= pos -> zlen data - pos <= Z.of_nat fuel -> returns (parse_server_name_extension fuel data pos).
Proof.
  induction fuel as [|fuel IH]; intros data pos Hb Hp Hf; cbn [parse_server_name_extension];
    case Z.ltb_spec; intros Hl; try lia; try (by destruct (negb _)).
  destruct (rd16_ok data (pos + 1)) as (n & -> & Hn); [done | lia | lia|]; cbn [rbind].
  case Z.ltb_spec; intros Hlen; [done|].
  destruct (rd8_ok data pos) as (t & -> & _); [done | lia|]; cbn [rbind].
  destruct (t =? 0); [by rewrite zslice_Some by lia|]; apply IH; [done | lia | lia].
Qed.

Lemma parse_extensions_returns fuel : forall data pos,
  is_bytes data -> 0 <= pos -> zlen data - pos <= Z.of_nat fuel -> returns (parse_extensions fuel data pos).
Proof.
  induction fuel as [|fuel IH]; intros data pos Hb Hp Hf; cbn [parse_extensions];
    case Z.leb_spec; intros Hl; try lia; try (by destruct (negb _)).
  destruct (rd16_ok data (pos + 2)) as (n & -> & Hn); [done | lia | lia|]; cbn [rbind].
  destruct (rd8_ok data pos) as (t0 & -> & _); [done | lia|]; cbn [rbind].
  destruct (rd8_ok data (pos + 1)) as (t1 & -> & _); [done | lia|]; cbn [rbind].
  destruct (_ && _); [|apply IH; [done | lia | lia]].
  case Z.ltb_spec; intros Hlen; [done|]; rewrite zslice_Some by lia; cbn [access rbind].
  apply parse_server_name_extension_returns; [auto with snova | lia | unfold zlen; lia].
Qed.

Lemma parse_client_hello_returns data data_len pos major minor :
  is_bytes data -> 0 <= pos -> data_len <= zlen data -> returns (parse_client_hello data data_len pos major minor).
Proof.
  intros Hb Hp Hd; unfold parse_client_hello; case Z.ltb_spec; intros; [done|].
  destruct (rd8_ok data pos) as (l1 & -> & ?); [done | lia|]; cbn [rbind]; case Z.ltb_spec; intros; [done|].
  destruct (rd16_ok data (pos + (1 + l1))) as (l2 & -> & ?); [done | lia | lia|]; cbn [rbind].
  case Z.ltb_spec; intros; [done|].
  destruct (rd8_ok data (pos + (1 + l1) + (2 + l2))) as (l3 & -> & ?); [done | lia|]; cbn [rbind].
  destruct (_ && _); [done|]; case Z.ltb_spec; intros; [done|].
  destruct (rd16_ok data (pos + (1 + l1) + (2 + l2) + (1 + l3))) as (l4 & -> & ?); [done | lia | lia|]; cbn [rbind].
  case Z.ltb_spec; intros; [done|]; rewrite zslice_Some by lia; cbn [access rbind].
  apply parse_extensions_returns; [auto with snova | lia | unfold zlen; lia].
Qed.

Lemma parse_sni_returns data : is_bytes data -> returns (parse_sni data).
Proof.
  intros Hb; unfold parse_sni, parse_tls_header, TLS_HEADER_LEN; case Z.ltb_spec; intros; [done|].
  destruct (rd8_ok data 0) as (d0 & -> & _); [done | lia|]; destruct (rd8_ok data 2) as (d2 & -> & _); [done | lia|].
  cbn [rbind]; destruct (_ && _); [done|]; destruct (negb _); [done|].
  destruct (rd8_ok data 1) as (major & -> & _); [done | lia|]; cbn [rbind]; case Z.ltb_spec; intros; [done|].
  destruct (rd16_ok data 3) as (n & -> & Hn); [done | lia | lia|]; cbn [rbind].
  case (Z.ltb_spec (zlen data)); intros; case Z.ltb_spec; intros; try lia; try done.
  case Z.ltb_spec; intros; [done|].
  destruct (rd8_ok data 5) as (ty & -> & _); [done | lia|]; cbn [rbind]; destruct (negb _); [done|].
  apply parse_client_hello_returns; [done | lia | lia].
Qed.

(** ** The client hello as a client writes it (RFC 5246 and RFC 6066) *)

Definition be16 (v : Z) : bytes := [v / 256; v mod 256].

(** An extension: its type and its contents. *)
Definition tls_extension (e : Z * bytes) : bytes := be16 (fst e) ++ be16 (zlen (snd e)) ++ snd e.

Definition server_name_extension (host : bytes) : Z * bytes :=
  (0, be16 (3 + zlen host) ++ 0 :: be16 (zlen host) ++ host).

Record hello := {
  hello_minor : Z;
  hello_fixed : bytes;
  session_id : bytes;
  cipher_suites : bytes;
  compression : bytes;
  exts_before : list (Z * bytes);
  server_name : bytes;
  exts_after : list (Z * bytes)
}.

Definition hello_exts (h : hello) : bytes :=
  concat (tls_extension <$> exts_before h) ++ tls_extension (server_name_extension (server_name h)) ++
  concat (tls_extension <$> exts_after h).

(** The handshake message: type, length, version and random ([hello_fixed] is 37 bytes), session
    id, cipher suites, compression methods, extensions. *)
Definition hello_message (h : hello) : bytes :=
  TLS_HANDSHAKE_TYPE_CLIENT_HELLO :: hello_fixed h ++ zlen (session_id h) :: session_id h ++
  be16 (zlen (cipher_suites h)) ++ cipher_suites h ++ zlen (compression h) :: compression h ++
  be16 (zlen (hello_exts h)) ++ hello_exts h.

Definition hello_record (h : hello) : bytes :=
  TLS_HANDSHAKE_CONTENT_TYPE :: 3 :: hello_minor h :: be16 (zlen (hello_message h)) ++ hello_message h.

Definition hello_wf (h : hello) : Prop :=
  zlen (hello_fixed h) = 37 /\ zlen (session_id h) < 256 /\ zlen (compression h) < 256 /\
  Forall (fun e => 0 < fst e < 65536 /\ zlen (snd e) < 65536) (exts_before h) /\
  server_name h <> [] /\ zlen (hello_message h) < 65536.

(** ** Parsing it *)

Lemma rd8_at data a x b pos : data = a ++ x :: b -> pos = zlen a -> rd8 data pos = Ok x.
Proof. intros -> ->; unfold rd8; rewrite zget_app_r by lia; by rewrite Z.sub_diag. Qed.

Lemma rd16_at data a v b pos :
  data = a ++ be16 v ++ b -> pos = zlen a -> 0 <= v < 65536 -> rd16 data pos = Ok v.
Proof.
  intros -> -> Hv; unfold rd16, be16.
  rewrite (rd8_at _ a (v / 256) (v mod 256 :: b)) by done; cbn [rbind].
  rewrite (rd8_at _ (a ++ [v / 256]) (v mod 256) b); cbn [rbind].
  - rewrite Z.shiftl_mul_pow2 by lia; f_equal; Z.to_euclidean_division_equations; lia.
  - by rewrite <- app_assoc.
  - rewrite zlen_app; done.
Qed.

Lemma zlen_be16 v : zlen (be16 v) = 2.
Proof. done. Qed.

Lemma zlen_tls_extension e : zlen (tls_extension e) = 4 + zlen (snd e).
Proof. unfold tls_extension; rewrite !zlen_app, !zlen_be16; lia. Qed.

Ltac assoc := repeat (first [rewrite <- app_assoc | progress cbn [app]]); reflexivity.

Lemma parse_server_name host fuel :
  host <> [] -> zlen host < 65536 -> (0 < fuel)%nat ->
  parse_server_name_extension fuel (snd (server_name_extension host)) 2 = Ok host.
Proof.
  intros Hh Hl Hf; apply zlen_pos in Hh; destruct fuel as [|fuel]; [lia|]; cbn [parse_server_name_extension].
  set (data := snd _).
  assert (zlen data = 5 + zlen host) as Hd
    by (unfold data, server_name_extension; cbn [snd]; rewrite zlen_app, zlen_cons, zlen_app, !zlen_be16; lia).
  rewrite Hd; bool_true (2 + 3 <? 5 + zlen host).
  rewrite (rd16_at data (be16 (3 + zlen host) ++ [0]) (zlen host) host); [|assoc | done | lia].
  cbn [rbind]; bool_false (5 + zlen host <? 2 + 3 + zlen host).
  rewrite (rd8_at data (be16 (3 + zlen host)) 0 (be16 (zlen host) ++ host)) by done; cbn [rbind Z.eqb].
  pose proof (zslice_app (2 + 3) (zlen host) (be16 (3 + zlen host) ++ 0 :: be16 (zlen host)) [] host) as Hs.
  rewrite app_nil_r in Hs; replace data with ((be16 (3 + zlen host) ++ 0 :: be16 (zlen host)) ++ host) by assoc.
  by rewrite Hs.
Qed.

Lemma parse_extensions_finds host post : forall pre consumed fuel,
  Forall (fun e => 0 < fst e < 65536 /\ zlen (snd e) < 65536) pre -> host <> [] -> zlen host < 65530 ->
  (length pre < fuel)%nat ->
  parse_extensions fuel
    (consumed ++ concat (tls_extension <$> pre) ++ tls_extension (server_name_extension host) ++ post)
    (zlen consumed) = Ok host.
Proof.
  intros pre; induction pre as [|[ty b] pre IH]; intros consumed fuel Hpre Hh Hl Hf;
    (destruct fuel as [|fuel]; [simpl in Hf; lia|]); cbn [parse_extensions]; set (data := consumed ++ _);
    pose proof (zlen_nonneg post); pose proof (zlen_nonneg host).
  - cbn [fmap list_fmap concat app] in data; set (ext := snd (server_name_extension host)).
    assert (zlen ext = 5 + zlen host) as He
      by (unfold ext, server_name_extension; cbn [snd]; rewrite zlen_app, zlen_cons, zlen_app, !zlen_be16; lia).
    assert (zlen data = zlen consumed + 9 + zlen host + zlen post) as Hd
      by (unfold data; rewrite !zlen_app, zlen_tls_extension; fold ext; lia).
    bool_true (zlen consumed + 4 <=? zlen data).
    rewrite (rd16_at data (consumed ++ be16 0) (zlen ext) (ext ++ post));
      [| unfold data, tls_extension; cbn [fst]; fold ext; assoc | rewrite zlen_app; done | lia]; cbn [rbind].
    rewrite (rd8_at data consumed 0 (0 :: be16 (zlen ext) ++ ext ++ post)) by (done || (unfold data, tls_extension; fold ext; assoc)).
    cbn [rbind]; rewrite (rd8_at data (consumed ++ [0]) 0 (be16 (zlen ext) ++ ext ++ post));
      [| unfold data, tls_extension; fold ext; assoc | rewrite zlen_app; done]; cbn [rbind Z.eqb andb].
    bool_false (zlen data <? zlen consumed + 4 + zlen ext).
    replace data with ((consumed ++ be16 0 ++ be16 (zlen ext)) ++ ext ++ post)
      by (unfold data, tls_extension; fold ext; assoc).
    rewrite zslice_app by (rewrite ?zlen_app, ?zlen_be16; lia); cbn [access rbind].
    apply parse_server_name; [done | lia | unfold zlen in He; lia].
  - apply Forall_cons in Hpre as [[Hty Hb] Hpre]; cbn [fst snd] in *; pose proof (zlen_nonneg b).
    cbn [fmap list_fmap concat] in data.
    set (rest := concat (tls_extension <$> pre) ++ tls_extension (server_name_extension host) ++ post) in *.
    assert (data = consumed ++ be16 ty ++ be16 (zlen b) ++ b ++ rest) as Ed
      by (unfold data, tls_extension, rest; cbn [fst snd]; by rewrite <- !app_assoc).
    assert (zlen data = zlen consumed + 4 + zlen b + zlen rest) as Hd
      by (rewrite Ed, !zlen_app, !zlen_be16; lia).
    pose proof (zlen_nonneg rest); bool_true (zlen consumed + 4 <=? zlen data).
    rewrite (rd16_at data (consumed ++ be16 ty) (zlen b) (b ++ rest));
      [| rewrite Ed; assoc | rewrite zlen_app; done | lia]; cbn [rbind].
    rewrite (rd8_at data consumed (ty / 256) (ty mod 256 :: be16 (zlen b) ++ b ++ rest)) by done; cbn [rbind].
    rewrite (rd8_at data (consumed ++ [ty / 256]) (ty mod 256) (be16 (zlen b) ++ b ++ rest));
      [| rewrite Ed; assoc | rewrite zlen_app; done]; cbn [rbind].
    assert ((ty / 256 =? 0) && (ty mod 256 =? 0) = false) as ->.
    { apply andb_false_iff; destruct (Z.eqb_spec (ty / 256) 0); [right; apply Z.eqb_neq | by left].
      Z.to_euclidean_division_equations; lia. }
    replace (zlen consumed + (4 + zlen b)) with (zlen (consumed ++ be16 ty ++ be16 (zlen b) ++ b))
      by (rewrite !zlen_app, !zlen_be16; lia).
    rewrite Ed; specialize (IH (consumed ++ be16 ty ++ be16 (zlen b) ++ b) fuel Hpre Hh Hl ltac:(simpl in Hf; lia)).
    fold rest in IH; by rewrite <- !app_assoc in IH.
Qed.

Lemma zlen_extensions pre : zlen pre <= zlen (concat (tls_extension <$> pre)).
Proof.
  induction pre as [|e pre IH]; [done|]; rewrite fmap_cons; cbn [concat].
  rewrite zlen_cons, zlen_app, zlen_tls_extension; pose proof (zlen_nonneg (snd e)); lia.
Qed.

Lemma parse_client_hello_finds P S Cs Co pre host post tail major minor data_len :
  let X := concat (tls_extension <$> pre) ++ tls_extension (server_name_extension host) ++ post in
  let data := P ++ zlen S :: S ++ be16 (zlen Cs) ++ Cs ++ zlen Co :: Co ++ be16 (zlen X) ++ X ++ tail in
  Forall (fun e => 0 < fst e < 65536 /\ zlen (snd e) < 65536) pre -> host <> [] ->
  zlen Cs < 65536 -> zlen X < 65536 -> data_len = zlen data - zlen tail ->
  parse_client_hello data data_len (zlen P) major minor = Ok host.
Proof.
  intros X data Hpre Hh HCs HX Hdl; apply zlen_pos in Hh as Hh'.
  assert (zlen X = zlen (concat (tls_extension <$> pre)) + (9 + zlen host) + zlen post) as HXl.
  { unfold X; rewrite !zlen_app, zlen_tls_extension; unfold server_name_extension; cbn [snd].
    rewrite zlen_app, zlen_cons, zlen_app, !zlen_be16; lia. }
  assert (data_len = zlen P + (1 + zlen S) + (2 + zlen Cs) + (1 + zlen Co) + 2 + zlen X) as Hd
    by (rewrite Hdl; unfold data; rewrite !zlen_app, !zlen_cons, !zlen_app, !zlen_cons, !zlen_app, !zlen_be16; lia).
  pose proof (zlen_nonneg S); pose proof (zlen_nonneg Cs); pose proof (zlen_nonneg Co).
  pose proof (zlen_nonneg (concat (tls_extension <$> pre))); pose proof (zlen_nonneg post).
  unfold parse_client_hello; clear Hdl; subst data_len.
  match goal with |- context [?a <? zlen P + 1] => bool_false (a <? zlen P + 1) end.
  rewrite (rd8_at data P (zlen S) (S ++ be16 (zlen Cs) ++ Cs ++ zlen Co :: Co ++ be16 (zlen X) ++ X ++ tail)) by done.
  cbn [rbind]; match goal with |- context [?a <? ?b + 2] => bool_false (a <? b + 2) end.
  rewrite (rd16_at data (P ++ zlen S :: S) (zlen Cs) (Cs ++ zlen Co :: Co ++ be16 (zlen X) ++ X ++ tail));
    [|unfold data; assoc | rewrite zlen_app, zlen_cons; lia | lia].
  cbn [rbind]; match goal with |- context [?a <? ?b + 1] => bool_false (a <? b + 1) end.
  rewrite (rd8_at data (P ++ (zlen S :: S) ++ be16 (zlen Cs) ++ Cs) (zlen Co) (Co ++ be16 (zlen X) ++ X ++ tail));
    [|unfold data; assoc | rewrite !zlen_app, zlen_cons, zlen_be16; lia].
  cbn [rbind]; match goal with |- context [?a =? ?b] => bool_false (a =? b) end; cbn [andb].
  match goal with |- context [?a <? ?b + 2] => bool_false (a <? b + 2) end.
  rewrite (rd16_at data (P ++ (zlen S :: S) ++ be16 (zlen Cs) ++ Cs ++ (zlen Co :: Co)) (zlen X) (X ++ tail));
    [|unfold data; assoc | rewrite !zlen_app, !zlen_cons, zlen_be16; lia | lia].
  cbn [rbind]; match goal with |- context [?a <? ?b] => bool_false (a <? b) end.
  replace data with ((P ++ (zlen S :: S) ++ be16 (zlen Cs) ++ Cs ++ (zlen Co :: Co) ++ be16 (zlen X)) ++ X ++ tail)
    by (unfold data; assoc).
  rewrite zslice_app by (rewrite ?zlen_app, ?zlen_cons, ?zlen_be16; lia); cbn [access rbind].
  pose proof (zlen_extensions pre).
  apply (parse_extensions_finds host post pre [] (length X)); [done | done | lia |].
  unfold zlen in *; lia.
Qed.

(** ** Theorems *)

(** C19. The parser is memory safe and total: on every byte string, a hostile or cut off client hello
    included, it reads only inside the bytes it was given, terminates, and yields a name or an error
    code. *)
Theorem parse_sni_safe_and_total data : is_bytes data -> returns (parse_sni data).
Proof. apply parse_sni_returns. Qed.

(** C18. The parser finds the name: for every client hello that carries a non-empty server name,
    whatever the session id, the cipher suites, the compression methods, the extensions before
    and after, and whatever follows the record, the result is exactly that name. *)
Theorem parse_sni_finds_server_name h tail :
  hello_wf h -> parse_sni (hello_record h ++ tail) = Ok (server_name h).
Proof.
  intros (Hfix & Hsid & Hcomp & Hpre & Hname & Hmsg); pose proof (zlen_nonneg (hello_message h)).
  set (msg := hello_message h) in *.
  assert (38 <= zlen msg) by (unfold msg, hello_message; rewrite zlen_cons, zlen_app; zlen_solve).
  set (data := hello_record h ++ tail).
  assert (data = [22; 3; hello_minor h] ++ be16 (zlen msg) ++ msg ++ tail) as Ed
    by (unfold data, hello_record; fold msg; assoc).
  assert (zlen data = 5 + zlen msg + zlen tail) as Hd by (rewrite Ed, !zlen_app, zlen_be16; change (zlen [22; 3; hello_minor h]) with 3; lia).
  pose proof (zlen_nonneg tail); unfold parse_sni, parse_tls_header, TLS_HEADER_LEN; bool_false (zlen data <? 5).
  rewrite (rd8_at data [] 22 ([3; hello_minor h] ++ be16 (zlen msg) ++ msg ++ tail)) by done; cbn [rbind].
  rewrite (rd8_at data [22; 3] (hello_minor h) (be16 (zlen msg) ++ msg ++ tail)) by done.
  cbn [rbind Z.land Z.eqb negb andb Pos.land]; change (negb (22 =? TLS_HANDSHAKE_CONTENT_TYPE)) with false.
  rewrite (rd8_at data [22] 3 (hello_minor h :: be16 (zlen msg) ++ msg ++ tail)) by done; cbn [rbind].
  change (3 <? 3) with false; rewrite (rd16_at data [22; 3; hello_minor h] (zlen msg) (msg ++ tail)) by (done || lia).
  cbn [rbind]; bool_false (zlen data <? zlen msg + 5); bool_false (zlen msg + 5 <? zlen msg + 5).
  bool_false (zlen msg + 5 <? 5 + 1).
  assert (exists m1, msg = 1 :: m1) as [m1 Em] by (by eexists).
  rewrite (rd8_at data ([22; 3; hello_minor h] ++ be16 (zlen msg)) 1 (m1 ++ tail));
    [|rewrite Ed; set (l := be16 (zlen msg)); rewrite Em; assoc | done].
  cbn [rbind]; change (negb (1 =? TLS_HANDSHAKE_TYPE_CLIENT_HELLO)) with false.
  set (P := [22; 3; hello_minor h] ++ be16 (zlen msg) ++ 1 :: hello_fixed h).
  assert (zlen P = 43) as HP by (unfold P; rewrite !zlen_app, zlen_be16, !zlen_cons, Hfix; done).
  change (5 + 38) with 43; rewrite <- HP.
  assert (zlen (cipher_suites h) < 65536 /\ zlen (hello_exts h) < 65536) as [? ?].
  { unfold msg, hello_message in Hmsg.
    rewrite zlen_cons, zlen_app, zlen_cons, !zlen_app, zlen_cons, !zlen_app in Hmsg; zlen_solve. }
  assert (data = P ++ zlen (session_id h) :: session_id h ++ be16 (zlen (cipher_suites h)) ++ cipher_suites h ++
    zlen (compression h) :: compression h ++ be16 (zlen (hello_exts h)) ++ hello_exts h ++ tail) as Ed2
    by (rewrite Ed; unfold P, msg, hello_message; assoc).
  rewrite Ed2.
  apply (parse_client_hello_finds P (session_id h) (cipher_suites h) (compression h) (exts_before h) (server_name h));
    [done | done | done | done |].
  fold (hello_exts h); rewrite <- Ed2; lia.
Qed.

(** ** Witnesses *)

Definition sample_hello : hello := {|
  hello_minor := 1; hello_fixed := zrepeat 37 7; session_id := zrepeat 32 1; cipher_suites := [19; 1; 192; 47];
  compression := [0]; exts_before := [(23, []); (65281, [0])]; server_name := bs "example.com";
  exts_after := [(16, [0; 3; 2; 104; 50])] |}.

Lemma parse_sni_safe_and_total_witness : returns (parse_sni (bs "GET / HTTP/1.1")).
Proof. apply (parse_sni_safe_and_total (bs "GET / HTTP/1.1")), is_bytes_bs. Defined.

Lemma parse_sni_finds_server_name_witness :
  parse_sni (hello_record sample_hello ++ bs "more") = Ok (bs "example.com").
Proof.
  apply (parse_sni_finds_server_name sample_hello (bs "more")).
  split_and!; try done; try (by vm_compute); by repeat constructor.
Defined.
