(* ===== verification/TimeWheel.v ===== *)
(** * The time wheel

    src/snova/util/time_wheel.h and .cc: registration of timeouts in slots of ten milliseconds, the
    periodic run over one slot, cancellation.  Tasks are shared between the wheel and the cancel
    functions, so they live in a store.  A run works on the wheel and on the rest [X] of the process:
    [active] says what [get_active_time] returns for a task there (nothing when the function is not set),
    and [callback] what happens to both while the run waits for a timeout callback, which other
    coroutines use too. *)

From S2P Require Import Prelude.

Record TimerTask := { timeout_msecs : Z; create_time : Z; canceled : bool }.

Record TimeWheel := { time_wheel : list (list nat); tasks : gmap nat TimerTask }.

Definition TimeWheel_new (slot_size : Z) : TimeWheel :=
  {| time_wheel := zrepeat slot_size []; tasks := ∅ |}.

Definition GetIdxByMillsecs (ms : Z) (w : TimeWheel) : nat := Z.to_nat ((ms / 10) mod zlen (time_wheel w)).

(** [time_wheel_\[idx\].emplace_back(task)]. *)
Definition enqueue (i p : nat) (w : TimeWheel) : TimeWheel :=
  {| time_wheel := alter (fun q => q ++ [p]) i (time_wheel w); tasks := tasks w |}.

(** [Add] and [DoRegister]; [now] is the time in milliseconds. *)
Definition Add (now timeout : Z) (w : TimeWheel) : TimeWheel * nat :=
  let p := fresh (dom (tasks w)) in
  let timeout := if timeout =? 0 then 500 else timeout in
  let t := {| timeout_msecs := timeout; create_time := wrap 64 now; canceled := false |} in
  let idx := GetIdxByMillsecs (wrap 64 (now + timeout)) w in
  (enqueue idx p {| time_wheel := time_wheel w; tasks := <[p := t]> (tasks w) |}, p).

(** The cancel function of a task. *)
Definition cancel (p : nat) (w : TimeWheel) : TimeWheel :=
  {| time_wheel := time_wheel w;
     tasks := alter (fun t => {| timeout_msecs := timeout_msecs t; create_time := create_time t;
                                 canceled := true |}) p (tasks w) |}.

(** The queue of a slot is moved out. *)
Definition take_slot (now : Z) (w : TimeWheel) : TimeWheel * list nat :=
  let idx := GetIdxByMillsecs now w in
  ({| time_wheel := <[idx := []]> (time_wheel w); tasks := tasks w |}, default [] (time_wheel w !! idx)).

Section run.
Context {X : Type}.
Variables (active : nat -> X -> option Z) (callback : nat -> TimeWheel * X -> TimeWheel * X).
Implicit Type s : TimeWheel * X.

Definition active_time (p : nat) (t : TimerTask) (x : X) : Z := default (create_time t) (active p x).

(** [now - active_time > timeout_msecs], on unsigned 64-bit integers. *)
Definition due (now : Z) (p : nat) (t : TimerTask) (x : X) : bool :=
  timeout_msecs t <? wrap 64 (now - active_time p t x).

(** The body of the loop over the moved queue; [true] when the callback ran. *)
Definition run_task (now : Z) (p : nat) (s : TimeWheel * X) : TimeWheel * X * bool :=
  let '(w, x) := s in
  match tasks w !! p with
  | None => (s, false)
  | Some t =>
      if canceled t then (s, false)
      else if due now p t x then (callback p s, true)
      else
        let next_idx := GetIdxByMillsecs (wrap 64 (active_time p t x + timeout_msecs t + 100)) w in
        ((enqueue next_idx p w, x), false)
  end.

(** The loop: what it leaves, and the tasks whose callback ran, in order. *)
Fixpoint run_queue (now : Z) (queue : list nat) (s : TimeWheel * X) : TimeWheel * X * list nat :=
  match queue with
  | [] => (s, [])
  | p :: queue =>
      let '(s, ran) := run_task now p s in
      let '(s, fired) := run_queue now queue s in
      (s, if ran : bool then p :: fired else fired)
  end.

(** One turn of [Run]. *)
Definition tick (now : Z) (s : TimeWheel * X) : TimeWheel * X * list nat :=
  let '(w, queue) := take_slot now (fst s) in run_queue now queue (w, snd s).

(** ** Facts *)

Definition in_slot (i p : nat) (w : TimeWheel) : Prop := exists q, time_wheel w !! i = Some q /\ p ∈ q.

(** What one wheel keeps of another: no task forgotten or un-canceled, nothing taken from a slot. *)
Record keeps (w w' : TimeWheel) : Prop := {
  keeps_tasks : forall p t, tasks w !! p = Some t ->
    exists t', tasks w' !! p = Some t' /\ timeout_msecs t' = timeout_msecs t /\
      create_time t' = create_time t /\ (canceled t = true -> canceled t' = true);
  keeps_slots : forall i p, in_slot i p w -> in_slot i p w';
  keeps_size : zlen (time_wheel w') = zlen (time_wheel w)
}.

#[export] Instance keeps_preorder : PreOrder keeps.
Proof.
  split.
  - intros w; split; eauto 10.
  - intros w1 w2 w3 [T1 S1 Z1] [T2 S2 Z2]; split; [|by eauto | by rewrite Z2].
    intros p t Ht; destruct (T1 p t Ht) as (t1 & H1 & ? & ? & ?), (T2 p t1 H1) as (t2 & ? & ? & ? & ?).
    exists t2; split_and!; try congruence; eauto.
Qed.

Lemma enqueue_keeps i p w : keeps w (enqueue i p w).
Proof.
  split; cbn; [eauto 10 | | unfold zlen; by rewrite length_alter].
  intros j q (l & Hl & Hq); unfold in_slot; cbn; destruct (decide (i = j)) as [->|].
  - exists (l ++ [p]); rewrite list_lookup_alter_eq, Hl; split; [done|]; apply elem_of_app; by left.
  - exists l; by rewrite list_lookup_alter_ne.
Qed.

Lemma enqueue_in i p w : (i < length (time_wheel w))%nat -> in_slot i p (enqueue i p w).
Proof.
  intros Hi; destruct (lookup_lt_is_Some_2 _ _ Hi) as [l Hl]; exists (l ++ [p]); cbn.
  rewrite list_lookup_alter_eq, Hl; split; [done|]; apply elem_of_app; right; by apply list_elem_of_singleton.
Qed.

Lemma idx_range ms w : 0 < zlen (time_wheel w) -> (GetIdxByMillsecs ms w < length (time_wheel w))%nat.
Proof.
  intros Hz; unfold GetIdxByMillsecs; pose proof (Z.mod_pos_bound (ms / 10) _ Hz); unfold zlen in *; lia.
Qed.

Lemma cancel_keeps p w : keeps w (cancel p w).
Proof.
  split; cbn; [|done | done]; intros q t Ht; destruct (decide (p = q)) as [->|].
  - rewrite lookup_alter_eq, Ht; eexists; by split_and!.
  - rewrite lookup_alter_ne by done; eauto 10.
Qed.

Lemma Add_keeps now timeout w : keeps w (fst (Add now timeout w)).
Proof.
  unfold Add; cbn [fst]; etrans; [|apply enqueue_keeps]; split; cbn; [|done | done].
  intros q t Ht; rewrite lookup_insert_ne; [eauto 10|]; intros <-.
  assert (fresh (dom (tasks w)) ∉ dom (tasks w)) as Hf by apply is_fresh; by apply Hf, elem_of_dom.
Qed.

Hypothesis callback_keeps : forall p s, keeps (fst s) (fst (callback p s)).

Lemma run_task_keeps now p s : keeps (fst s) (fst (fst (run_task now p s))).
Proof.
  destruct s as [w x]; cbn [run_task]; destruct (tasks w !! p) as [t|]; [|reflexivity].
  destruct (canceled t); [reflexivity|]; destruct (due now p t x); [apply (callback_keeps p (w, x)) | apply enqueue_keeps].
Qed.

Lemma run_queue_keeps now queue : forall s, keeps (fst s) (fst (fst (run_queue now queue s))).
Proof.
  induction queue as [|p queue IH]; intros s; cbn [run_queue]; [reflexivity|].
  pose proof (run_task_keeps now p s) as Hk; destruct (run_task now p s) as [s1 ran]; specialize (IH s1).
  destruct (run_queue now queue s1) as [s2 fired]; by etrans.
Qed.

(** A task whose callback runs was due when its turn came, and not canceled, so neither when the run began. *)
Lemma run_queue_fired now queue : forall s p t,
  p ∈ snd (run_queue now queue s) -> tasks (fst s) !! p = Some t ->
  canceled t = false /\ exists pre post t', queue = pre ++ p :: post /\
    let at_turn := fst (run_queue now pre s) in
    tasks (fst at_turn) !! p = Some t' /\ canceled t' = false /\ timeout_msecs t' = timeout_msecs t /\
    due now p t (snd at_turn) = true.
Proof.
  induction queue as [|q queue IH]; intros s p t; cbn [run_queue]; [by intros Hp%not_elem_of_nil|].
  pose proof (run_task_keeps now q s) as Hk; destruct (run_task now q s) as [s1 ran] eqn:Et.
  destruct (run_queue now queue s1) as [s2 fired] eqn:Er; cbn [snd]; intros Hp Ht.
  assert (p ∈ fired \/ ran = true /\ p = q) as [Hin|[-> ->]].
  { destruct ran; [apply elem_of_cons in Hp as [->|?]; auto | by left]. }
  - destruct (keeps_tasks _ _ Hk p t Ht) as (t1 & Ht1 & E1 & E2 & E3).
    destruct (IH s1 p t1) as (Hc & pre & post & t' & -> & Ht' & Hc' & E' & Hd); [by rewrite Er | done|].
    split; [destruct (canceled t); [|done]; by rewrite E3 in Hc|].
    exists (q :: pre), post, t'; split; [done|]; cbn [run_queue]; rewrite Et.
    destruct (run_queue now pre s1) as [s3 f3]; cbn [fst] in *; split_and!; try done; [by rewrite E'|].
    unfold due, active_time in *; by rewrite <- E1, <- E2.
  - destruct s as [w x]; cbn [run_task fst] in *; rewrite Ht in Et; destruct (canceled t) eqn:Ec; [done|].
    split; [done|]; exists [], queue, t; cbn; destruct (due now q t x); by split_and!.
Qed.

(** A task of the queue is canceled, fired or in a slot again. *)
Lemma run_queue_not_lost now queue : forall s p t,
  0 < zlen (time_wheel (fst s)) -> p ∈ queue -> tasks (fst s) !! p = Some t ->
  let '(s', fired) := run_queue now queue s in
  p ∈ fired \/ (exists i, in_slot i p (fst s')) \/ (exists t', tasks (fst s') !! p = Some t' /\ canceled t' = true).
Proof.
  induction queue as [|q queue IH]; intros s p t Hz; [by intros Hp%not_elem_of_nil|].
  intros Hp Ht; cbn [run_queue]; pose proof (run_task_keeps now q s) as Hk.
  destruct (run_task now q s) as [s1 ran] eqn:Et; cbn [fst] in Hk.
  destruct (keeps_tasks _ _ Hk p t Ht) as (t1 & Ht1 & _); pose proof (run_queue_keeps now queue s1) as Hk2.
  destruct (decide (p ∈ queue)) as [Hin|Hnin].
  - specialize (IH s1 p t1); destruct (run_queue now queue s1) as [s2 fired].
    destruct IH as [?|?]; [by rewrite (keeps_size _ _ Hk) | done | done | left; destruct ran; [by right | done] | by right].
  - apply elem_of_cons in Hp as [->|?]; [|done]; destruct s as [w x]; cbn [run_task fst] in *; rewrite Ht in Et.
    destruct (run_queue now queue s1) as [s2 fired]; cbn [fst] in *; destruct (canceled t) eqn:Ec.
    + injection Et as <- <-; right; right; destruct (keeps_tasks _ _ Hk2 q t Ht) as (t' & Ht' & _ & _ & Hc); exists t'; auto.
    + destruct (due now q t x); injection Et as <- <-; [left; by left | right; left].
      set (i := GetIdxByMillsecs _ w) in *; exists i; apply (keeps_slots _ _ Hk2), enqueue_in, idx_range, Hz.
Qed.

End run.

(** ** Theorems *)

Section theorems.
Context {X : Type}.
Variables (active : nat -> X -> option Z) (callback : nat -> TimeWheel * X -> TimeWheel * X).
Hypothesis callback_keeps : forall p s, keeps (fst s) (fst (callback p s)).

(** C35. No early and no canceled timeout.  A callback runs only for a task that was not canceled when the run
    began, nor when its turn came, and whose last activity, as read at its turn, is more than its timeout
    before the time the run began with; except that a task whose activity is later than that time, because
    it was active while the run waited for another callback or because the clock was set back, is not
    covered. *)
Theorem timeout_fires_only_when_due now w x p t :
  fits 64 now -> p ∈ snd (tick active callback now (w, x)) -> tasks w !! p = Some t ->
  canceled t = false /\
  exists pre post t', snd (take_slot now w) = pre ++ p :: post /\
    let '(w', x') := fst (run_queue active callback now pre (fst (take_slot now w), x)) in
    tasks w' !! p = Some t' /\ canceled t' = false /\
    (0 <= active_time active p t x' <= now -> timeout_msecs t < now - active_time active p t x').
Proof.
  intros Hnow Hp Ht; unfold tick in Hp; cbn [fst snd] in Hp; destruct (take_slot now w) as [w0 queue] eqn:Eq.
  assert (tasks w0 !! p = Some t) as Ht0 by (injection Eq as <- _; done).
  destruct (run_queue_fired active callback callback_keeps _ _ _ _ _ Hp Ht0) as (Hc & pre & post & t' & -> & Ht' & Hc' & _ & Hd).
  split; [done|]; exists pre, post, t'; cbn [fst snd]; split; [done|].
  destruct (run_queue active callback now pre (w0, x)) as [[w' x'] fired]; cbn [fst snd] in *; split; [done|]; split; [done|].
  intros Ha; unfold due in Hd; apply Z.ltb_lt in Hd; rewrite wrap_small in Hd; [done|]; unfold fits in *; lia.
Qed.

(** A task that was active after the run took the time: the unsigned difference wraps around and the callback
    runs, although the task was never idle. *)
Theorem late_activity_fires now w x p t :
  tasks w !! p = Some t -> canceled t = false -> 0 <= now < active_time active p t x -> active_time active p t x < 2 ^ 63 ->
  timeout_msecs t < 2 ^ 63 ->
  run_task active callback now p (w, x) = (callback p (w, x), true).
Proof.
  intros Ht Hc Ha Hb Hm; cbn [run_task]; rewrite Ht, Hc; unfold due, wrap.
  rewrite <- (Z.mod_unique_pos (now - active_time active p t x) (2 ^ 64) (-1) (now - active_time active p t x + 2 ^ 64)) by lia.
  by bool_true (timeout_msecs t <? now - active_time active p t x + 2 ^ 64).
Qed.

(** No timeout is lost: after a run every task of the wheel has fired, or was canceled, or is in
    some slot; tasks in slots that were not visited are where they were. *)
Theorem no_timeout_lost now w x i p t :
  0 < zlen (time_wheel w) -> in_slot i p w -> tasks w !! p = Some t ->
  let '((w', _), fired) := tick active callback now (w, x) in
  if decide (i = GetIdxByMillsecs now w)
  then p ∈ fired \/ (exists j, in_slot j p w') \/ (exists t', tasks w' !! p = Some t' /\ canceled t' = true)
  else in_slot i p w'.
Proof.
  intros Hz (q & Hq & Hp) Ht; unfold tick, take_slot; cbn [fst snd]; set (idx := GetIdxByMillsecs now w).
  set (w0 := {| time_wheel := <[idx := []]> (time_wheel w); tasks := tasks w |}).
  destruct (decide (i = idx)) as [->|Hne].
  - rewrite Hq; cbn [default]; pose proof (run_queue_not_lost active callback callback_keeps now q (w0, x) p t) as Hr.
    destruct (run_queue _ _ _ _ _) as [[w' x'] fired]; apply Hr; [|done | done].
    unfold w0, zlen in *; cbn; by rewrite length_insert.
  - pose proof (run_queue_keeps active callback callback_keeps now (default [] (time_wheel w !! idx)) (w0, x)) as [_ S _].
    destruct (run_queue _ _ _ _ _) as [[w' x'] fired]; apply S; exists q; split; [|done].
    unfold w0; cbn; by rewrite list_lookup_insert_ne.
Qed.

(** A canceled task never fires afterwards. *)
Theorem canceled_timeout_never_fires now w x p :
  is_Some (tasks w !! p) -> ~ (p ∈ snd (tick active callback now (cancel p w, x))).
Proof.
  intros [t Ht] Hp; unfold tick, take_slot in Hp.
  destruct (run_queue_fired active callback callback_keeps _ _ _ p
    {| timeout_msecs := timeout_msecs t; create_time := create_time t; canceled := true |} Hp) as [Hc _]; [|done].
  unfold cancel; cbn; by rewrite lookup_alter_eq, Ht.
Qed.

(** The wheel after [n] runs, [period] milliseconds apart. *)
Fixpoint runs (period : Z) (n : nat) (t0 : Z) (s : TimeWheel * X) : TimeWheel * X :=
  match n with
  | O => s
  | S n => runs period n (t0 + period) (fst (tick active callback t0 s))
  end.

(** A run visits one slot of ten milliseconds, but runs are about a hundred milliseconds apart.
    When they are exactly 100 ms apart, the 99 ms timer and one more for the run, only every second
    slot of the 128 is ever visited: a task in one of the others stays there for ever and its
    timeout never fires. *)
Theorem unvisited_slots_never_fire n t0 w x i p :
  zlen (time_wheel w) = 128 -> 0 <= t0 -> in_slot i p w -> Z.of_nat i mod 2 <> (t0 / 10) mod 2 ->
  in_slot i p (fst (runs 100 n t0 (w, x))) /\ GetIdxByMillsecs (t0 + 100 * Z.of_nat n) w <> i.
Proof.
  intros Hz Ht0 Hp Hpar.
  assert (forall t v, zlen (time_wheel v) = 128 -> (t / 10) mod 2 = (t0 / 10) mod 2 -> GetIdxByMillsecs t v <> i) as Hidx.
  { intros t v Hv Ht E; unfold GetIdxByMillsecs in E; rewrite Hv in E.
    pose proof (Z.mod_pos_bound (t / 10) 128 ltac:(lia)); apply Hpar; rewrite <- Ht, <- E, Z2Nat.id by lia.
    Z.to_euclidean_division_equations; lia. }
  split; [|apply Hidx; [done | Z.to_euclidean_division_equations; lia]].
  assert (forall t (v : TimeWheel * X), zlen (time_wheel (fst v)) = 128 -> in_slot i p (fst v) -> (t / 10) mod 2 = (t0 / 10) mod 2 ->
    in_slot i p (fst (runs 100 n t v))) as H; [|by apply H].
  clear w Hz Hp; induction n as [|n IH]; intros t [v y] Hv Hp Ht; cbn [runs]; [done|]; cbn [fst] in *.
  unfold tick, take_slot; cbn [fst snd]; set (idx := GetIdxByMillsecs t v).
  set (v0 := {| time_wheel := <[idx := []]> (time_wheel v); tasks := tasks v |}).
  pose proof (run_queue_keeps active callback callback_keeps t (default [] (time_wheel v !! idx)) (v0, y)) as [_ S Sz].
  apply IH; [| |Z.to_euclidean_division_equations; lia].
  - rewrite Sz; unfold v0, zlen in *; cbn; by rewrite length_insert.
  - apply S; destruct Hp as (q & Hq & Hp); exists q; split; [|done]; unfold v0; cbn.
    rewrite list_lookup_insert_ne; [done|]; by apply (Hidx t v).
Qed.

End theorems.

(** ** Witnesses *)

(** A task with a timeout of one second, added at second 100.  The rest of the process is the time of the
    last activity of the tasks, which a callback moves on. *)
Definition at_time (p : nat) (x : option Z) : option Z := x.
Definition moves_on (p : nat) (s : TimeWheel * option Z) : TimeWheel * option Z := (fst s, Some 999999).

Lemma moves_on_keeps p s : keeps (fst s) (fst (moves_on p s)).
Proof. reflexivity. Qed.

Definition wheel1 : TimeWheel := fst (Add 100000 1000 (TimeWheel_new 128)).
Definition task1 : TimerTask := {| timeout_msecs := 1000; create_time := 100000; canceled := false |}.

Lemma timeout_fires_only_when_due_witness :
  snd (tick at_time moves_on 102280 (wheel1, Some 101000)) = [0%nat] /\ canceled task1 = false /\ 1000 < 102280 - 101000.
Proof.
  split; [by vm_compute|].
  destruct (timeout_fires_only_when_due at_time moves_on moves_on_keeps 102280 wheel1 (Some 101000) 0 task1)
    as (Hc & pre & post & t' & E & Hrun); [by vm_compute | vm_compute; left | reflexivity |].
  assert (pre = []) as -> by (destruct pre as [|? [|? ?]]; [done | discriminate E | discriminate E]).
  split; [exact Hc|]; destruct Hrun as (_ & _ & Hd); exact (Hd ltac:(by split; vm_compute)).
Defined.

(** The task was active a millisecond after the run took the time. *)
Lemma late_activity_fires_witness :
  run_task at_time moves_on 102280 0 (wheel1, Some 102281) = (moves_on 0 (wheel1, Some 102281), true).
Proof. apply (late_activity_fires at_time moves_on 102280 wheel1 (Some 102281) 0 task1); by vm_compute. Defined.

Lemma no_timeout_lost_witness :
  let '((w', _), fired) := tick at_time moves_on 102280 (wheel1, None) in
  0%nat ∈ fired \/ (exists j, in_slot j 0 w') \/ (exists t', tasks w' !! 0%nat = Some t' /\ canceled t' = true).
Proof.
  apply (no_timeout_lost at_time moves_on moves_on_keeps 102280 wheel1 None 116 0 task1); [by vm_compute | | reflexivity].
  exists [0%nat]; split; [reflexivity | left].
Defined.

Lemma canceled_timeout_never_fires_witness : ~ (0%nat ∈ snd (tick at_time moves_on 102280 (cancel 0 wheel1, None))).
Proof. apply (canceled_timeout_never_fires at_time moves_on moves_on_keeps 102280 wheel1 None 0); by eexists. Defined.

Lemma unvisited_slots_never_fire_witness :
  in_slot 116 0 (fst (runs at_time moves_on 100 1000 100090 (wheel1, None))) /\
  GetIdxByMillsecs (100090 + 100 * 1000) wheel1 <> 116%nat.
Proof.
  apply (unvisited_slots_never_fire at_time moves_on moves_on_keeps 1000 100090 wheel1 None 116 0);
    [reflexivity | lia | exists [0%nat]; split; [reflexivity | left] | done].
Defined.
