(* ===== verification/Text.v ===== *)
(** * Text

    What the sources use of the standard library on text ([std::to_string], [std::stoi],
    [std::string_view::find] with a start position) and the functions of absl/strings they call,
    as a class of operations with their documented behaviour.  [RefAbsl] is one implementation of
    that class. *)

From S2P Require Import Prelude.

(** ** Searching *)

(** A separator that the pattern does not contain cannot be part of an occurrence. *)
Lemma bfind_sep pat a x b :
  pat <> [] -> x ∉ pat -> bfind pat a = None ->
  bfind pat (a ++ x :: b) = (fun q => zlen a + 1 + q) <$> bfind pat b.
Proof.
  intros Hne Hx; induction a as [|y a IH]; intros Ha.
  - cbn -[decide]; rewrite decide_False.
    + by destruct (bfind pat b); simpl; f_equal; unfold zlen; simpl; lia.
    + intros [z Hz]; destruct pat as [|p pat]; [done|]; injection Hz as -> _; set_solver.
  - cbn -[decide] in Ha |- *; destruct (decide (pat `prefix_of` y :: a)) as [|Hn]; [done|].
    destruct (bfind pat a) as [|] eqn:E; [done|]; rewrite IH by done.
    rewrite decide_False.
    + destruct (bfind pat b); simpl; f_equal; unfold zlen; simpl; lia.
    + intros [z Hz]; change (y :: a ++ x :: b) with ((y :: a) ++ x :: b) in Hz.
      destruct (app_eq_inv _ _ _ _ Hz) as [(k & Hk & _)|(k & Hk & Hk2)]; [by apply Hn; exists k|].
      destruct k as [|w k]; [apply Hn; exists []; by rewrite Hk, !app_nil_r|].
      injection Hk2 as <- _; apply Hx; rewrite Hk; set_solver.
Qed.

(** A pattern made of bytes that the text does not contain does not occur in it. *)
Lemma bfind_absent x pat l : x ∈ pat -> x ∉ l -> bfind pat l = None.
Proof.
  intros Hp; induction l as [|y l IH]; intros Hl; cbn -[decide].
  - rewrite decide_False; [done|]; intros ->%prefix_nil_inv; set_solver.
  - rewrite IH by set_solver; rewrite decide_False; [done|].
    intros [z Hz]; apply Hl; rewrite Hz; set_solver.
Qed.

Lemma bfind_here pat l : bfind pat (pat ++ l) = Some 0.
Proof. destruct (pat ++ l) eqn:E; cbn -[decide]; rewrite <- E; by rewrite decide_True by (by exists l). Qed.

(** An occurrence is where [bfind] says it is. *)
Lemma bfind_split pat l p : bfind pat l = Some p -> zdrop p l = pat ++ zdrop (p + zlen pat) l.
Proof.
  intros H; destruct (bfind_range _ _ _ H) as [Hp _]; revert p H Hp.
  induction l as [|x l IH]; intros p; cbn -[decide]; destruct (decide _) as [[z Hz]|]; try done.
  - intros [= <-] _; rewrite zdrop_0, Hz, zdrop_app_exact; [done | lia].
  - intros [= <-] _; rewrite zdrop_0, Hz, zdrop_app_exact; [done | lia].
  - destruct (bfind pat l) as [q|] eqn:E; [|done]; intros [= <-] _.
    destruct (bfind_range _ _ _ E) as [Hq _]; specialize (IH q eq_refl Hq).
    replace (Z.succ q + zlen pat) with (1 + (q + zlen pat)) by lia; replace (Z.succ q) with (1 + q) by lia.
    pose proof (zlen_nonneg pat); rewrite <- (zdrop_zdrop q 1), <- (zdrop_zdrop (q + zlen pat) 1) by lia; done.
Qed.

(** Bytes that cannot begin an occurrence are skipped. *)
Lemma bfind_skip x pat h l :
  x ∉ h -> bfind (x :: pat) (h ++ l) = (fun q => zlen h + q) <$> bfind (x :: pat) l.
Proof.
  induction h as [|y h IH]; intros Hx; cbn -[decide bfind].
  - destruct (bfind (x :: pat) l); done.
  - cbn -[decide]; rewrite decide_False by (intros [z Hz]; injection Hz as -> _; set_solver).
    rewrite IH by set_solver; destruct (bfind (x :: pat) l); cbn; f_equal; unfold zlen; simpl; lia.
Qed.

(** [string_view::find(pat, pos)]. *)
Definition bfind_from (pat l : bytes) (pos : Z) : option Z :=
  (fun q => pos + q) <$> bfind pat (zdrop pos l).

Definition CRLF : bytes := [13; 10].

(** The first line break behind a line that contains none. *)
Lemma bfind_crlf v post : bfind CRLF v = None -> bfind CRLF (v ++ CRLF ++ post) = Some (zlen v).
Proof.
  induction v as [|x v IH]; intros Hv; [apply (bfind_here CRLF)|].
  cbn -[decide] in Hv |- *; destruct (decide (CRLF `prefix_of` x :: v)) as [|Hn]; [done|].
  destruct (bfind CRLF v); [done|]; specialize (IH eq_refl); cbn -[decide bfind] in IH; rewrite IH.
  rewrite decide_False; [cbn; f_equal; unfold zlen; simpl; lia|].
  intros [z Hz]; unfold CRLF in *; simpl in Hz; injection Hz as -> Hz.
  destruct v as [|y v]; [done|]; injection Hz as -> _; apply Hn; by exists v.
Qed.

(** ** Decimal numbers *)

Definition is_digit (b : Z) : bool := (48 <=? b) && (b <=? 57).

Fixpoint dec (fuel : nat) (v : Z) (acc : bytes) : bytes :=
  match fuel with
  | O => acc
  | S fuel =>
      let acc := (48 + v mod 10) :: acc in
      if v <? 10 then acc else dec fuel (v / 10) acc
  end.

(** [std::to_string] of an unsigned integer; 20 digits hold every 64-bit value. *)
Definition to_string (v : Z) : bytes := dec 20 v [].

(** The value of the digits at the front of a text and the text behind them. *)
Fixpoint dec_prefix (acc : Z) (l : bytes) : Z * bytes :=
  match l with
  | b :: t => if is_digit b then dec_prefix (10 * acc + (b - 48)) t else (acc, l)
  | [] => (acc, [])
  end.

(** [isspace] of the C locale. *)
Definition is_space (b : Z) : bool := (b =? 32) || ((9 <=? b) && (b <=? 13)).

Fixpoint skip_space (l : bytes) : bytes :=
  match l with b :: t => if is_space b then skip_space t else l | [] => [] end.

Definition kInvalidArgument : Z := 22.
Definition kOutOfRange : Z := 34.

(** [std::stoi]: leading space, a sign, digits; what follows the digits is ignored.  [Err] is one
    of its two exceptions. *)
Definition stoi (s : bytes) : res Z :=
  let s := skip_space s in
  let '(neg, s) := match s with
                   | b :: t => if b =? 45 then (true, t) else if b =? 43 then (false, t) else (false, s)
                   | [] => (false, s)
                   end in
  match s with
  | b :: _ =>
      if is_digit b then
        let v := (dec_prefix 0 s).1 in
        let v := if neg then - v else v in
        if (v <? - 2 ^ 31) || (2 ^ 31 <=? v) then Err kOutOfRange else Ok v
      else Err kInvalidArgument
  | [] => Err kInvalidArgument
  end.

Lemma dec_digits fuel : forall v acc,
  0 <= v -> Forall (fun b => is_digit b = true) acc -> Forall (fun b => is_digit b = true) (dec fuel v acc).
Proof.
  induction fuel as [|fuel IH]; intros v acc Hv Ha; cbn [dec]; [done|].
  assert (is_digit (48 + v mod 10) = true) as Hd.
  { pose proof (Z.mod_pos_bound v 10); unfold is_digit; apply andb_true_intro; split; apply Z.leb_le; lia. }
  case Z.ltb_spec; intros; [by constructor|]; apply IH; [apply Z.div_pos; lia | by constructor].
Qed.

Lemma dec_prefix_app l k acc :
  Forall (fun b => is_digit b = true) l -> dec_prefix acc (l ++ k) = dec_prefix (dec_prefix acc l).1 k.
Proof.
  revert acc; induction l as [|b l IH]; intros acc; [done|]; intros [Hb Hl]%Forall_cons; simpl.
  rewrite Hb; auto.
Qed.

Lemma dec_prefix_dec fuel : forall v acc,
  0 <= v < 10 ^ Z.of_nat fuel -> dec_prefix 0 (dec fuel v acc) = dec_prefix v acc.
Proof.
  induction fuel as [|fuel IH]; intros v acc Hv; cbn [dec].
  - by replace v with 0 by (simpl in Hv; lia).
  - pose proof (Z.mod_pos_bound v 10); pose proof (Z.div_mod v 10).
    rewrite Nat2Z.inj_succ, Z.pow_succ_r in Hv by lia.
    case Z.ltb_spec; intros.
    + simpl; unfold is_digit; rewrite Z.mod_small by lia; bool_true (48 <=? 48 + v); bool_true (48 + v <=? 57).
      simpl; f_equal; lia.
    + rewrite IH by (split; [apply Z.div_pos | apply Z.div_lt_upper_bound]; lia).
      simpl; unfold is_digit; bool_true (48 <=? 48 + v mod 10); bool_true (48 + v mod 10 <=? 57).
      simpl; f_equal; lia.
Qed.

Lemma to_string_digits v : 0 <= v -> Forall (fun b => is_digit b = true) (to_string v).
Proof. intros; by apply dec_digits. Qed.

Lemma dec_not_nil fuel v acc : (0 < fuel)%nat -> dec fuel v acc <> [].
Proof.
  revert v acc; induction fuel as [|fuel IH]; intros v acc H; [lia|]; cbn [dec].
  case (v <? 10); [done|]; destruct fuel; [done | apply IH; lia].
Qed.

Lemma to_string_cons v : 0 <= v -> exists b t, to_string v = b :: t /\ is_digit b = true.
Proof.
  intros Hv; pose proof (to_string_digits v Hv) as H.
  destruct (to_string v) as [|b t] eqn:E; [by apply dec_not_nil in E; [|lia]|].
  exists b, t; by apply Forall_cons in H as [? _].
Qed.

(** [stoi] reads back what [to_string] printed. *)
Lemma stoi_to_string v : 0 <= v < 2 ^ 31 -> stoi (to_string v) = Ok v.
Proof.
  intros Hv; assert (dec_prefix 0 (to_string v) = (v, [])) as Hd
    by (apply (dec_prefix_dec 20 v []); simpl; lia).
  destruct (to_string_cons v) as (b & t & E & Hb); [lia|]; unfold stoi; rewrite E in *.
  assert (48 <= b <= 57) as Hr by (unfold is_digit in Hb; apply andb_prop in Hb as [?%Z.leb_le ?%Z.leb_le]; lia).
  assert (skip_space (b :: t) = b :: t) as ->.
  { simpl; unfold is_space; bool_false (b =? 32); bool_true (9 <=? b); by bool_false (b <=? 13). }
  bool_false (b =? 45); bool_false (b =? 43); rewrite Hb, Hd; cbn [fst].
  bool_false (v <? - 2 ^ 31); by bool_false (2 ^ 31 <=? v).
Qed.

(** ** absl/strings

    [StrSplit] with a string delimiter cuts at its first occurrence and goes on behind it;
    [StripAsciiWhitespace] removes space at both ends; [SimpleAtoi] to a [uint32_t] accepts the
    decimal digits of a value that fits and never yields one that does not; [Base64Escape] uses
    letters, digits and three other characters; the other two compare. *)

Definition is_base64 (b : Z) : bool :=
  is_digit b || ((65 <=? b) && (b <=? 90)) || ((97 <=? b) && (b <=? 122)) ||
  (b =? 43) || (b =? 47) || (b =? 61).

Definition to_lower (b : Z) : Z := if (65 <=? b) && (b <=? 90) then b + 32 else b.

Definition trimmed (s : bytes) : Prop :=
  match s with [] => True | b :: _ => is_space b = false /\ is_space (List.last s 0) = false end.

Class AbslStrings := {
  StrSplit : bytes -> bytes -> list bytes;
  StripAsciiWhitespace : bytes -> bytes;
  SimpleAtoi : bytes -> option Z;
  Base64Escape : bytes -> bytes;
  EqualsIgnoreCase : bytes -> bytes -> bool;
  StartsWith : bytes -> bytes -> bool
}.

Class AbslStringsOk `{AbslStrings} : Prop := {
  split_none : forall d s, bfind d s = None -> StrSplit d s = [s];
  split_some : forall d s p, d <> [] -> bfind d s = Some p ->
    StrSplit d s = ztake p s :: StrSplit d (zdrop (p + zlen d) s);
  strip_spec : forall w1 s w2, Forall (fun b => is_space b = true) (w1 ++ w2) -> trimmed s ->
    StripAsciiWhitespace (w1 ++ s ++ w2) = s;
  strip_shorter : forall s, zlen (StripAsciiWhitespace s) <= zlen s;
  atoi_digits : forall v, fits 32 v -> SimpleAtoi (to_string v) = Some v;
  atoi_fits : forall s v, SimpleAtoi s = Some v -> fits 32 v;
  base64_chars : forall s, Forall (fun b => is_base64 b = true) (Base64Escape s);
  equals_ignore_case : forall s t, EqualsIgnoreCase s t = true <-> to_lower <$> s = to_lower <$> t;
  starts_with : forall s p, StartsWith s p = true <-> p `prefix_of` s
}.

(** ** An implementation of the class *)
Module RefAbsl.

Fixpoint split (fuel : nat) (d s : bytes) : list bytes :=
  match fuel, bfind d s with
  | S fuel, Some p => ztake p s :: split fuel d (zdrop (p + zlen d) s)
  | _, _ => [s]
  end.

Definition strip (s : bytes) : bytes := rev (skip_space (rev (skip_space s))).

(** Only plain digits: the documentation also allows space and a sign. *)
Definition atoi (s : bytes) : option Z :=
  match s, dec_prefix 0 s with
  | _ :: _, (v, []) => if decide (fits 32 v) then Some v else None
  | _, _ => None
  end.

Definition b64_char (i : Z) : Z :=
  if i <? 26 then 65 + i else if i <? 52 then 71 + i else if i <? 62 then i - 4
  else if i =? 62 then 43 else 47.

Fixpoint base64 (s : bytes) : bytes :=
  match s with
  | a :: b :: c :: t =>
      [b64_char (a mod 256 / 4); b64_char (a mod 4 * 16 + b mod 256 / 16);
       b64_char (b mod 16 * 4 + c mod 256 / 64); b64_char (c mod 64)] ++ base64 t
  | [a; b] => [b64_char (a mod 256 / 4); b64_char (a mod 4 * 16 + b mod 256 / 16); b64_char (b mod 16 * 4); 61]
  | [a] => [b64_char (a mod 256 / 4); b64_char (a mod 4 * 16); 61; 61]
  | [] => []
  end.

#[export] Instance ref_absl : AbslStrings := {|
  StrSplit d s := split (S (length s)) d s;
  StripAsciiWhitespace := strip;
  SimpleAtoi := atoi;
  Base64Escape := base64;
  EqualsIgnoreCase s t := bool_decide (to_lower <$> s = to_lower <$> t);
  StartsWith s p := bool_decide (p `prefix_of` s)
|}.

Lemma split_fuel f g d s :
  d <> [] -> (length s < f)%nat -> (length s < g)%nat -> split f d s = split g d s.
Proof.
  intros Hd; revert g s; induction f as [|f IH]; intros [|g] s Hf Hg; try lia; cbn [split].
  destruct (bfind d s) as [p|] eqn:E; [|done]; f_equal.
  apply bfind_range in E as [? ?]; apply zlen_pos in Hd.
  apply IH; unfold zdrop, zlen in *; rewrite length_drop; lia.
Qed.

Lemma split_step f d s p :
  bfind d s = Some p -> split (S f) d s = ztake p s :: split f d (zdrop (p + zlen d) s).
Proof. intros H; cbn [split]; by rewrite H. Qed.

Lemma skip_space_app w s : Forall (fun b => is_space b = true) w -> skip_space (w ++ s) = skip_space s.
Proof. induction 1 as [|b w Hb Hw IH]; simpl; [done|]; by rewrite Hb. Qed.

Lemma skip_space_id b t : is_space b = false -> skip_space (b :: t) = b :: t.
Proof. simpl; by intros ->. Qed.

Lemma skip_space_length s : (length (skip_space s) <= length s)%nat.
Proof. induction s as [|b s IH]; simpl; [lia|]; destruct (is_space b); simpl; lia. Qed.

Lemma b64_char_ok i : 0 <= i < 64 -> is_base64 (b64_char i) = true.
Proof.
  intros Hi; assert (Forall (fun i => is_base64 (b64_char i) = true) (seqZ 0 64)) as H
    by (by apply (bool_decide_unpack _); vm_compute).
  rewrite Forall_forall in H; apply H, elem_of_seqZ; lia.
Qed.

Lemma base64_ok s : Forall (fun b => is_base64 b = true) (base64 s).
Proof.
  induction s as [s IH] using (induction_ltof1 _ (@length Z)); unfold ltof in IH.
  destruct s as [|a [|b [|c t]]]; cbn [base64 app]; repeat constructor;
    try (apply b64_char_ok; Z.to_euclidean_division_equations; lia).
  apply IH; simpl; lia.
Qed.

#[export] Instance ref_absl_ok : AbslStringsOk.
Proof.
  split; cbn [StrSplit StripAsciiWhitespace SimpleAtoi Base64Escape EqualsIgnoreCase StartsWith ref_absl].
  - intros d s H; cbn [split]; by rewrite H.
  - intros d s p Hd H; rewrite (split_step _ d s p H); f_equal.
    apply bfind_range in H as [? ?]; apply zlen_pos in Hd as ?.
    apply split_fuel; [done|..]; unfold zdrop, zlen in *; rewrite length_drop; lia.
  - intros w1 s w2 [H1 H2]%Forall_app Ht; unfold strip; rewrite skip_space_app by done.
    assert (forall t, trimmed t -> skip_space (t ++ w2) = t ++ w2 \/ t = []) as Hk.
    { intros [|b t]; [by right|]; intros [Hb _]; left; by apply skip_space_id. }
    destruct (Hk s Ht) as [E | ->].
    + rewrite E, rev_app_distr, skip_space_app by (by apply Forall_rev).
      destruct s as [|b s]; [done|]; destruct Ht as [_ Hl].
      destruct (exists_last (l := b :: s)) as (i & x & Ex); [done|]; rewrite Ex, last_last in *.
      rewrite rev_app_distr; cbn [rev app]; rewrite skip_space_id by done; cbn [rev].
      by rewrite rev_involutive.
    + cbn [app]; rewrite <- (app_nil_r w2), skip_space_app by done; done.
  - intros s; unfold strip, zlen; rewrite length_rev; pose proof (skip_space_length (rev (skip_space s))) as Hs.
    rewrite length_rev in Hs; pose proof (skip_space_length s); lia.
  - intros v Hv; assert (dec_prefix 0 (to_string v) = (v, [])) as Hd
      by (apply (dec_prefix_dec 20 v []); unfold fits in Hv; simpl; lia).
    unfold atoi; destruct (to_string_cons v) as (b & t & E & _); [unfold fits in Hv; lia|].
    rewrite E in *; rewrite Hd; by rewrite decide_True.
  - intros s v; unfold atoi; destruct s; [done|]; destruct (dec_prefix _ _) as [u [|]]; [|done].
    case_decide; [|done]; by intros [= <-].
  - apply base64_ok.
  - intros; apply bool_decide_eq_true.
  - intros; apply bool_decide_eq_true.
Qed.

End RefAbsl.
