(* ===== verification/HttpHelper.v ===== *)
(** * HTTP helpers

    src/snova/util/http_helper.cc and [sha1_sum] of src/snova/util/misc_helper.cc: the header
    lookup shared by the HTTP proxy and the WebSocket handshake, and the WebSocket accept key.
    OpenSSL's SHA-1 is a parameter. *)

From S2P Require Import Prelude Text.

(** SHA1_Init, SHA1_Update, SHA1_Final of OpenSSL on one message. *)
Class OpenSSL := SHA1 : bytes -> bytes.

Definition sha1_sum `{OpenSSL} (src dst : bytes) : bytes := dst ++ SHA1 src.

Section http_helper.
Context `{AbslStrings}.

(** [Ok] is the value behind the header, [Err (-1)] that there is none. *)
Definition http_get_header (recv_data header : bytes) : res bytes :=
  match bfind header recv_data with
  | None => Err (-1)
  | Some pos =>
      match bfind_from CRLF recv_data pos with
      | None => Err (-1)
      | Some end_pos =>
          let n := wrap 64 (end_pos - pos - zlen header) in
          do tmp <- access (zslice (pos + zlen header) n recv_data);
          Ok (StripAsciiWhitespace tmp)
      end
  end.

Definition parse_http_hostport (recv_data : bytes) : res bytes :=
  http_get_header recv_data (bs "Host:").

Definition ws_get_accept_secret_key `{OpenSSL} (key : bytes) : bytes :=
  Base64Escape (sha1_sum (key ++ bs "258EAFA5-E914-47DA-95CA-C5AB0DC85B11") []).

(** The lookup in terms of the text behind the first occurrence of the header. *)
Lemma http_get_header_eq recv header :
  13 ∉ header -> zlen recv < 2 ^ 64 ->
  http_get_header recv header =
    match bfind header recv with
    | None => Err (-1)
    | Some pos =>
        let t := zdrop (pos + zlen header) recv in
        match bfind CRLF t with
        | None => Err (-1)
        | Some n => Ok (StripAsciiWhitespace (ztake n t))
        end
    end.
Proof.
  intros Hh Hl; unfold http_get_header, bfind_from; destruct (bfind header recv) as [pos|] eqn:E; [|done].
  destruct (bfind_range _ _ _ E) as [Hp Hr]; rewrite (bfind_split _ _ _ E), (bfind_skip 13 [10]) by done.
  set (t := zdrop (pos + zlen header) recv); change [13; 10] with CRLF.
  destruct (bfind CRLF t) as [n|] eqn:En; [|done]; cbn [fmap option_fmap option_map].
  destruct (bfind_range _ _ _ En) as [Hn Hn2]; pose proof (zlen_nonneg header).
  unfold t in Hn2; rewrite zlen_drop in Hn2 by lia; change (zlen CRLF) with 2 in Hn2.
  replace (pos + (zlen header + n) - pos - zlen header) with n by lia.
  rewrite wrap_small by (unfold fits; lia); rewrite zslice_Some by lia; done.
Qed.

(** The value behind a header that stands in a line. *)
Lemma http_get_header_line pre header v post :
  13 ∉ header -> zlen (pre ++ header ++ v ++ CRLF ++ post) < 2 ^ 64 ->
  bfind header (pre ++ header ++ v ++ CRLF ++ post) = Some (zlen pre) -> bfind CRLF v = None ->
  http_get_header (pre ++ header ++ v ++ CRLF ++ post) header = Ok (StripAsciiWhitespace v).
Proof.
  intros Hh Hl Hf Hv; rewrite http_get_header_eq, Hf by done; cbn zeta.
  rewrite (app_assoc pre), zdrop_app_exact by (by rewrite zlen_app).
  by rewrite bfind_crlf, ztake_app_exact.
Qed.

End http_helper.

(** ** Theorems *)

(** The header lookup reads only inside the text it is given, whatever that text is, and finds
    exactly the first occurrence of the header that a line break follows: it returns the bytes
    between the header and the next line break without the space around them, and -1 when the
    header or a line break behind it is missing. *)
Theorem http_get_header_correct `{AbslStrings} (recv header : bytes) :
  13 ∉ header -> zlen recv < 2 ^ 64 ->
  (forall v, http_get_header recv header = Ok v <->
     exists pos n, bfind header recv = Some pos /\ bfind CRLF (zdrop (pos + zlen header) recv) = Some n /\
       v = StripAsciiWhitespace (ztake n (zdrop (pos + zlen header) recv))) /\
  (http_get_header recv header = Err (-1) <->
     bfind header recv = None \/
     exists pos, bfind header recv = Some pos /\ bfind CRLF (zdrop (pos + zlen header) recv) = None) /\
  returns (http_get_header recv header).
Proof.
  intros Hh Hl; rewrite http_get_header_eq by done; cbn zeta.
  destruct (bfind header recv) as [pos|]; [destruct (bfind CRLF _) as [n|] eqn:E|];
    split_and!; try done; try (intros v; split); try split; intros Hr; try done; eauto 7;
    repeat match goal with
    | Hr : Ok _ = Ok _ |- _ => injection Hr as <-; eauto 7
    | Hr : exists _, _ |- _ => destruct Hr as (? & Hr)
    | Hr : _ \/ _ |- _ => destruct Hr as [Hr|Hr]
    | Hr : _ /\ _ |- _ => destruct Hr as [? Hr]
    end; by simplify_eq.
Qed.

Import RefAbsl.

Lemma http_get_header_correct_witness :
  http_get_header (bs "GET / HTTP/1.1" ++ CRLF ++ bs "Host:  a.com:80 " ++ CRLF) (bs "Host:") = Ok (bs "a.com:80").
Proof.
  refine (proj2 (proj1 (http_get_header_correct (bs "GET / HTTP/1.1" ++ CRLF ++ bs "Host:  a.com:80 " ++ CRLF) (bs "Host:") _ _)
    (bs "a.com:80")) _); [by apply (bool_decide_unpack _); vm_compute | by vm_compute |].
  exists 16, 11; by vm_compute.
Defined.
