(* ===== verification/WsSocket.v ===== *)
(** * WebSocket

    src/snova/io/ws_socket.cc: the connection that carries each write as one binary WebSocket
    frame over a buffered connection, its upgrade handshake on both sides, and what a peer's
    reads yield.  The masking key is an argument of a write: the source takes it from
    uninitialised stack memory. *)

From S2P Require Import Prelude Endian IoBuf Io Text HttpHelper.

Definition kBadMessage : Z := 74.
Definition kNoBufferSpace : Z := 105.

Record WebSocket (C : Type) := { ws_io : BufferedIO C; is_server : bool }.
Arguments Build_WebSocket {C}.
Arguments ws_io {C}.
Arguments is_server {C}.

(** ** The texts of the handshake *)

Definition ws_request (host ws_sec_key : bytes) : bytes :=
  bs "GET /echo HTTP/1.1" ++ CRLF ++
  bs "Host: " ++ host ++ CRLF ++
  bs "User-Agent: Go-http-client/1.1" ++ CRLF ++
  bs "Connection: Upgrade" ++ CRLF ++
  bs "Sec-WebSocket-Key: " ++ ws_sec_key ++ CRLF ++
  bs "Sec-WebSocket-Version: 13" ++ CRLF ++
  bs "Upgrade: websocket" ++ CRLF ++ CRLF.

Definition ws_response (resp_text_key : bytes) : bytes :=
  bs "HTTP/1.1 101 Switching Protocols" ++ CRLF ++
  bs "Upgrade: websocket" ++ CRLF ++
  bs "Connection: Upgrade" ++ CRLF ++
  bs "Sec-WebSocket-Accept: " ++ resp_text_key ++ CRLF ++ CRLF.

(** The page a browser is shown; a single quote stands for a double one. *)
Definition kErrorHtml : bytes := (fun b => if b =? 39 then 34 else b) <$> bs "
<!DOCTYPE html PUBLIC '-//W3C//DTD XHTML 1.0 Strict//EN' 'http://www.w3.org/TR/xhtml1/DTD/xhtml1-strict.dtd'>
<html xmlns='http://www.w3.org/1999/xhtml' xml:lang='en' lang='en'>
 <head> 
  <meta http-equiv='Content-Type' content='text/html; charset=utf-8' /> 
  <title>GSnova PAAS Server</title> 
 </head> 
 <body> 
  <div id='container'> 
   <h1><a href='https://github.com/yinqiwen/snova-asio'>Snova-ASIO</a> <span class='small'>by <a href='http://twitter.com/yinqiwen'>@yinqiwen</a></span></h1> 
   <div class='description'>
     Welcome to use Snova-ASIO WebSocket Server! 
   </div> 
   <h2>Code</h2> 
   <p>You can clone the project with <a href='http://git-scm.com'>Git</a> by running: </p>
   <pre>$ git clone https://github.com/yinqiwen/snova-asio.git</pre> 
   <p></p> 
   <div class='footer'>
     get the source code on GitHub : 
    <a href='http://github.com/yinqiwen/snova-asio'>yinqiwen/snova-asio</a> 
   </div> 
  </div>  
 </body>
</html>
".

Definition ws_error_page : bytes :=
  bs "HTTP/1.0 200 OK" ++ CRLF ++ bs "Content-Type: text/html; charset=utf-8" ++ CRLF ++
  bs "Content-Length:" ++ to_string (zlen kErrorHtml) ++ CRLF ++ CRLF ++ kErrorHtml.

(** ** Frames *)

(** The 7-bit length of a frame and the bytes of the extended length. *)
Definition ws_length `{Platform} (data_len : Z) : Z * bytes :=
  if data_len <=? 125 then (Z.land data_len 127, [])
  else if 65535 <? data_len then (127, mem_store 8 (native_to_big 8 (wrap 64 data_len)))
  else (126, mem_store 2 (native_to_big 2 (wrap 16 data_len))).

(** The loops that combine byte [i] of the data with byte [i % 4] of the key. *)
Definition ws_mask (mask_key data : bytes) : bytes :=
  imap (fun i b => Z.lxor b (nth (i mod 4) mask_key 0)) data.

Section ws_socket.
Context {C : Type} `{IOConnection C, Platform}.

Definition on_ws {A} (m : st (BufferedIO C) A) : st (WebSocket C) A := fun w =>
  let '(b, r) := m (ws_io w) in ({| ws_io := b; is_server := is_server w |}, r).

Definition set_is_server (s : bool) : st (WebSocket C) unit :=
  smodify (fun w => {| ws_io := ws_io w; is_server := s |}).

(** The constructor: [buf] is the buffer the new [BufferedIO] allocates. *)
Definition WebSocket_new (io : C) (buf : bytes) : WebSocket C :=
  {| ws_io := BufferedIO_new io buf; is_server := false |}.

Section handshake.
Context `{AbslStrings, OpenSSL}.

(** [now] is [time(nullptr)]; the result is the error code. *)
Definition AsyncConnect (now : Z) (host : bytes) : st (WebSocket C) Z :=
  let ws_sec_key := Base64Escape (to_string now) in
  let! '(wn, wec) := on_ws (AsyncWrite (ws_request host ws_sec_key)) in
  if negb (wec =? 0) then sret wec
  else
    let! '(recv_response, ec) := on_ws (AsyncRead kMaxChunkSize) in
    if negb (ec =? 0) then sret ec
    else
      let accept_key := ws_get_accept_secret_key ws_sec_key in
      match http_get_header recv_response (bs "Sec-WebSocket-Accept:") with
      | Ok sec_ws_accept => let! _ := set_is_server false in sret 0
      | Err rc => sret kBadMessage
      | r => slift (rbind r (fun _ => Ok 0))
      end.

Definition AsyncAccept : st (WebSocket C) Z :=
  let! '(recv_request, ec) := on_ws (AsyncRead kMaxChunkSize) in
  if negb (ec =? 0) then sret ec
  else
    match http_get_header recv_request (bs "Sec-WebSocket-Key:") with
    | Ok sec_ws_key =>
        let resp_text_key := ws_get_accept_secret_key sec_ws_key in
        let! '(wn, wec) := on_ws (AsyncWrite (ws_response resp_text_key)) in
        if negb (wec =? 0) then sret wec
        else let! _ := set_is_server true in sret 0
    | Err rc =>
        let! _ := on_ws (AsyncWrite ws_error_page) in
        sret kBadMessage
    | r => slift (rbind r (fun _ => Ok 0))
    end.

End handshake.

(** The result is the count, the error code and the caller's buffer after the call: a client
    masks the data in place. *)
Definition WebSocket_AsyncWrite (mask_key data : bytes) : st (WebSocket C) (Z * Z * bytes) :=
  let! w := sget in
  let data_len := zlen data in
  let '(b1, ext) := ws_length data_len in
  let '(head, send_data) :=
    if negb (is_server w) then ([130; Z.lor 128 b1] ++ ext ++ mask_key, ws_mask mask_key data)
    else ([130; b1] ++ ext, data) in
  let! '(n, ec) := on_ws (AsyncWriteV [head; send_data]) in
  sret (data_len, ec, send_data).

(** The overload for several buffers. *)
Definition WebSocket_AsyncWriteV (bufs : list bytes) : st (WebSocket C) (Z * Z) := sret (0, 0).

(** [read_exact] into [n] bytes of storage: the stored bytes, or the error code. *)
Definition ws_read_exact (n : Z) : st (WebSocket C) (bytes * Z) :=
  on_ws (read_exact (Z.to_nat n) n []).

(** The length of the frame: the error code, or the length. *)
Definition ws_read_length (frame_payload_len : Z) : st (WebSocket C) (Z * Z) :=
  if frame_payload_len =? 126 then
    let! '(d, ec) := ws_read_exact 2 in
    if negb (ec =? 0) then sret (0, ec) else sret (big_to_native 2 (mem_load d), 0)
  else if frame_payload_len =? 127 then
    let! '(d, ec) := ws_read_exact 8 in
    if negb (ec =? 0) then sret (0, ec) else sret (big_to_native 8 (mem_load d), 0)
  else sret (frame_payload_len, 0).

Definition WebSocket_AsyncRead (cap : Z) : st (WebSocket C) (bytes * Z) :=
  let! '(header_bytes, ec) := ws_read_exact 2 in
  if negb (ec =? 0) then sret ([], ec)
  else
    let! byte0 := slift (access (zget header_bytes 0)) in
    let! byte1 := slift (access (zget header_bytes 1)) in
    let frame_mask := Z.shiftr byte1 7 in
    let frame_payload_len := Z.land byte1 127 in
    let! '(data_msg_len, ec) := ws_read_length frame_payload_len in
    if negb (ec =? 0) then sret ([], ec)
    else if cap <? data_msg_len then sret ([], kNoBufferSpace)
    else if frame_mask =? 1 then
      let! '(mask_key, ec) := ws_read_exact 4 in
      if negb (ec =? 0) then sret ([], ec)
      else
        let! '(d, ec) := ws_read_exact data_msg_len in
        if negb (ec =? 0) then sret ([], ec) else sret (ws_mask mask_key d, 0)
    else
      let! '(d, ec) := ws_read_exact data_msg_len in
      if negb (ec =? 0) then sret ([], ec) else sret (d, 0).

Definition WebSocket_Close (w : WebSocket C) : WebSocket C :=
  {| ws_io := IoClose (ws_io w); is_server := is_server w |}.

(** A WebSocket is itself a connection; [stack w] is what the stack holds at a write. *)
Definition WebSocket_conn (stack : WebSocket C -> bytes) : IOConnection (WebSocket C) := {|
  AsyncRead := WebSocket_AsyncRead;
  AsyncWrite b := fun w =>
    let '(w', r) := WebSocket_AsyncWrite (stack w) b w in (w', do x <- r; Ok x.1);
  AsyncWriteV := WebSocket_AsyncWriteV;
  IoClose := WebSocket_Close
|}.

End ws_socket.

(** ** Masking *)

Lemma zlen_ws_mask k d : zlen (ws_mask k d) = zlen d.
Proof. unfold ws_mask, zlen; by rewrite length_imap. Qed.

(** Masking twice with one key gives the data back. *)
Lemma ws_mask_involutive k d : ws_mask k (ws_mask k d) = d.
Proof.
  apply list_eq; intros i; unfold ws_mask; rewrite !list_lookup_imap.
  destruct (d !! i) as [b|]; simpl; [|done]; f_equal.
  by rewrite Z.lxor_assoc, Z.lxor_nilpotent, Z.lxor_0_r.
Qed.

Lemma is_byte_lxor a b : is_byte a -> is_byte b -> is_byte (Z.lxor a b).
Proof.
  unfold is_byte; intros [] []; change 256 with (2 ^ 8).
  assert (0 <= Z.lxor a b) by (by apply Z.lxor_nonneg).
  split; [done|]; destruct (decide (Z.lxor a b = 0)) as [->|]; [lia|].
  apply Z.log2_lt_pow2; [lia|]; eapply Z.le_lt_trans; [by apply Z.log2_lxor|].
  apply Z.max_lub_lt; [destruct (decide (a = 0)) as [->|]|destruct (decide (b = 0)) as [->|]];
    try done; apply Z.log2_lt_pow2; lia.
Qed.

Lemma is_bytes_ws_mask k d : is_bytes k -> is_bytes d -> is_bytes (ws_mask k d).
Proof.
  intros Hk Hd; unfold is_bytes; rewrite Forall_lookup; intros i x; unfold ws_mask.
  rewrite list_lookup_imap; destruct (d !! i) as [b|] eqn:E; [|done]; intros [= <-].
  apply is_byte_lxor; [exact (Forall_lookup_1 _ _ _ _ Hd E)|].
  assert (forall j, is_byte (nth j k 0)) as Hj; [|apply Hj].
  intros j; destruct (nth_in_or_default j k 0) as [Hin| ->]; [|done].
  apply list_elem_of_In in Hin; by apply (proj1 (Forall_forall _ _) Hk).
Qed.

(** ** Delivery *)

(** The bytes on the wire for one message: [Some key] is a client's frame. *)
Definition ws_frame `{Platform} (mask : option bytes) (data : bytes) : bytes :=
  let '(b1, ext) := ws_length (zlen data) in
  match mask with
  | Some key => [130; Z.lor 128 b1] ++ ext ++ key ++ ws_mask key data
  | None => [130; b1] ++ ext ++ data
  end.

Section delivery.
Context {C : Type} `{IOConnection C, !StreamView C, !ByteStream C, Platform, !PlatformOk}.

#[export] Instance WebSocket_view : StreamView (WebSocket C) := {|
  live w := live (ws_io w);
  rx w := rx (ws_io w);
  tx w := tx (ws_io w)
|}.

Definition ws_key (w : WebSocket C) (mask_key : bytes) : option bytes :=
  if is_server w then None else Some mask_key.

Lemma ws_write_spec (w : WebSocket C) mask_key data :
  live w ->
  exists w' data', WebSocket_AsyncWrite mask_key data w = (w', Ok (zlen data, 0, data')) /\
    tx w' = tx w ++ ws_frame (ws_key w mask_key) data /\ rx w' = rx w /\ live w' /\
    is_server w' = is_server w.
Proof.
  intros Hl; unfold WebSocket_AsyncWrite, ws_frame, ws_key; srun; destruct (ws_length _) as [b1 ext].
  unfold on_ws; destruct (is_server w) eqn:E; cbn [negb].
  - destruct (stream_writev [[130; b1] ++ ext; data] (ws_io w)) as (b & Ew & Ht & Hr & Hb); [done|].
    rewrite Ew; eexists _, _; split; [done|]; split; [|by split; [exact Hr | split]].
    etrans; [exact Ht|]; f_equal; cbn; by rewrite app_nil_r.
  - destruct (stream_writev [[130; Z.lor 128 b1] ++ ext ++ mask_key; ws_mask mask_key data] (ws_io w))
      as (b & Ew & Ht & Hr & Hb); [done|].
    rewrite Ew; eexists _, _; split; [done|]; split; [|by split; [exact Hr | split]].
    etrans; [exact Ht|]; f_equal; cbn; by rewrite app_nil_r, <- app_assoc.
Qed.

(** [n] bytes of storage take the next [n] bytes of the stream. *)
Lemma ws_read_exact_spec (w : WebSocket C) d rest :
  live w -> rx w = d ++ rest ->
  exists w', ws_read_exact (zlen d) w = (w', Ok (d, 0)) /\ rx w' = rest /\ tx w' = tx w /\ live w' /\
    is_server w' = is_server w.
Proof.
  intros Hl Hr; unfold ws_read_exact, on_ws; pose proof (zlen_nonneg rest); pose proof (zlen_nonneg d).
  destruct (read_exact_spec (Z.to_nat (zlen d)) (zlen d) [] (ws_io w)) as (b & E & Hrx & Htx & Hb);
    [done | cbn [rx WebSocket_view] in Hr; rewrite Hr, zlen_app; lia | done |].
  rewrite E; eexists; cbn [rx WebSocket_view] in Hr; rewrite Hr, ztake_app_exact, zdrop_app_exact in * by done.
  by split_and!.
Qed.

(** The three length classes, as the reader sees them. *)
Lemma ws_read_length_spec (w : WebSocket C) n b1 ext rest :
  0 <= n < 2 ^ 63 -> ws_length n = (b1, ext) -> live w -> rx w = ext ++ rest ->
  0 <= b1 < 128 /\
  exists w', ws_read_length b1 w = (w', Ok (n, 0)) /\ rx w' = rest /\ tx w' = tx w /\ live w' /\
    is_server w' = is_server w.
Proof.
  intros Hn; unfold ws_length, ws_read_length, native_to_big, big_to_native.
  case Z.leb_spec; intros Hc1; [|case Z.ltb_spec; intros Hc2]; intros [= <- <-] Hl Hr.
  - assert (Z.land n 127 = n) as -> by (change 127 with (Z.ones 7); rewrite Z.land_ones, Z.mod_small; lia).
    bool_false (n =? 126); bool_false (n =? 127); split; [lia|]; by exists w.
  - split; [lia|]; cbn [Z.eqb Pos.eqb]; rewrite wrap_small, ghton_network in Hr by (unfold fits; lia).
    destruct (ws_read_exact_spec w (be_bytes 8 n) rest) as (w' & E & ?); [done | done |].
    rewrite zlen_be_bytes in E; change (Z.of_nat 8) with 8 in E; exists w'; srun; rewrite E; cbn [negb Z.eqb].
    rewrite gntoh_network, be_val_be_bytes by
      (try apply is_bytes_be_bytes; try apply zlen_be_bytes; unfold fits; lia); by split.
  - split; [lia|]; cbn [Z.eqb Pos.eqb]; rewrite wrap_small, ghton_network in Hr by (unfold fits; lia).
    destruct (ws_read_exact_spec w (be_bytes 2 n) rest) as (w' & E & ?); [done | done |].
    rewrite zlen_be_bytes in E; change (Z.of_nat 2) with 2 in E; exists w'; srun; rewrite E; cbn [negb Z.eqb].
    rewrite gntoh_network, be_val_be_bytes by
      (try apply is_bytes_be_bytes; try apply zlen_be_bytes; unfold fits; lia); by split.
Qed.

(** The mask bit and the length of the second header byte. *)
Lemma ws_byte1 b1 : 0 <= b1 < 128 ->
  Z.shiftr (Z.lor 128 b1) 7 = 1 /\ Z.land (Z.lor 128 b1) 127 = b1 /\ Z.shiftr b1 7 = 0 /\ Z.land b1 127 = b1.
Proof.
  intros Hb; assert (Forall (fun b1 => Z.shiftr (Z.lor 128 b1) 7 = 1 /\ Z.land (Z.lor 128 b1) 127 = b1 /\
    Z.shiftr b1 7 = 0 /\ Z.land b1 127 = b1) (seqZ 0 128)) as Hf by (by apply (bool_decide_unpack _); vm_compute).
  rewrite Forall_forall in Hf; apply Hf, elem_of_seqZ; lia.
Qed.

Lemma ws_read_spec (w : WebSocket C) mask data rest cap :
  live w -> rx w = ws_frame mask data ++ rest -> zlen data <= cap -> zlen data < 2 ^ 63 ->
  (forall k, mask = Some k -> zlen k = 4) ->
  exists w', WebSocket_AsyncRead cap w = (w', Ok (data, 0)) /\ rx w' = rest /\ tx w' = tx w /\ live w' /\
    is_server w' = is_server w.
Proof.
  intros Hl Hr Hcap Hlen Hk; unfold ws_frame in Hr; destruct (ws_length (zlen data)) as [b1 ext] eqn:El.
  set (h := match mask with Some _ => Z.lor 128 b1 | None => b1 end).
  set (body := match mask with Some key => key ++ ws_mask key data | None => data end).
  assert (rx w = [130; h] ++ ext ++ body ++ rest) as Hr1
    by (rewrite Hr; unfold h, body; destruct mask; by rewrite <- !app_assoc).
  destruct (ws_read_exact_spec w _ _ Hl Hr1) as (w1 & E1 & Hr2 & Ht1 & Hl1 & Hs1).
  change (zlen [130; h]) with 2 in E1; unfold WebSocket_AsyncRead; srun; rewrite E1; cbn [negb Z.eqb].
  change (zget [130; h] 0) with (Some 130); change (zget [130; h] 1) with (Some h); cbv iota.
  destruct (ws_read_length_spec w1 (zlen data) b1 ext (body ++ rest)) as (Hb1 & w2 & E2 & Hr3 & Ht2 & Hl2 & Hs2);
    [pose proof (zlen_nonneg data); lia | done | done | done |].
  destruct (ws_byte1 b1 Hb1) as (Hm1 & Hm2 & Hm3 & Hm4).
  assert (Z.land h 127 = b1) as -> by (unfold h; by destruct mask); rewrite E2; cbn [negb Z.eqb].
  bool_false (cap <? zlen data); destruct mask as [key|]; unfold h, body in *.
  - rewrite Hm1; cbn [Z.eqb Pos.eqb]; rewrite <- app_assoc in Hr3.
    destruct (ws_read_exact_spec w2 _ _ Hl2 Hr3) as (w3 & E3 & Hr4 & Ht3 & Hl3 & Hs3).
    rewrite (Hk key eq_refl) in E3; rewrite E3; cbn [negb Z.eqb].
    destruct (ws_read_exact_spec w3 _ _ Hl3 Hr4) as (w4 & E4 & Hr5 & Ht4 & Hl4 & Hs4).
    rewrite zlen_ws_mask in E4; rewrite E4; cbn [negb Z.eqb]; rewrite ws_mask_involutive.
    exists w4; split_and!; try done; congruence.
  - rewrite Hm3; cbn [Z.eqb].
    destruct (ws_read_exact_spec w2 _ _ Hl2 Hr3) as (w3 & E3 & Hr4 & Ht3 & Hl3 & Hs3).
    rewrite E3; cbn [negb Z.eqb]; exists w3; split_and!; try done; congruence.
Qed.

(** Writing messages one after the other, each with what the stack holds then. *)
Fixpoint ws_write_all (msgs : list (bytes * bytes)) : st (WebSocket C) unit :=
  match msgs with
  | [] => sret tt
  | (mask_key, data) :: msgs =>
      let! '(_, ec, _) := WebSocket_AsyncWrite mask_key data in
      if negb (ec =? 0) then sfail ec else ws_write_all msgs
  end.

(** Reading [n] messages into storage of size [cap]. *)
Fixpoint ws_read_all (n : nat) (cap : Z) : st (WebSocket C) (list bytes) :=
  match n with
  | O => sret []
  | S n =>
      let! '(d, ec) := WebSocket_AsyncRead cap in
      if negb (ec =? 0) then sfail ec
      else let! ds := ws_read_all n cap in sret (d :: ds)
  end.

Lemma ws_write_all_spec msgs (w : WebSocket C) :
  live w -> exists w', ws_write_all msgs w = (w', Ok tt) /\ live w' /\
    tx w' = tx w ++ concat ((fun m => ws_frame (ws_key w m.1) m.2) <$> msgs).
Proof.
  revert w; induction msgs as [|[k d] msgs IH]; intros w Hl; cbn [ws_write_all].
  - exists w; split_and!; [done | exact Hl | by rewrite app_nil_r].
  - destruct (ws_write_spec w k d Hl) as (w1 & d' & E & Ht & Hr & Hl1 & Hs); srun; rewrite E; cbn [negb Z.eqb].
    destruct (IH w1 Hl1) as (w' & E' & Hl' & Ht'); exists w'; split_and!; [exact E' | exact Hl' |].
    rewrite Ht', Ht, <- app_assoc; f_equal; cbn; f_equal.
    f_equal; apply list_fmap_ext; intros i [k' d'']; simpl; unfold ws_key; by rewrite Hs.
Qed.

Lemma ws_read_all_spec ms cap rest (w : WebSocket C) :
  live w -> rx w = concat ((fun m => ws_frame m.1 m.2) <$> ms) ++ rest -> cap < 2 ^ 63 ->
  Forall (fun m => zlen m.2 <= cap /\ forall k, m.1 = Some k -> zlen k = 4) ms ->
  exists w', ws_read_all (length ms) cap w = (w', Ok (ms.*2)) /\ rx w' = rest /\ live w'.
Proof.
  intros Hl Hr Hc Hf; revert w Hl Hr; induction Hf as [|[k d] ms [Hd Hk] Hf IH]; intros w Hl Hr.
  - exists w; split_and!; [done | exact Hr | exact Hl].
  - cbn in Hr; rewrite <- app_assoc in Hr.
    destruct (ws_read_spec w k d _ cap Hl Hr) as (w1 & E & Hr1 & _ & Hl1 & _); [done | simpl in *; lia | done |].
    destruct (IH w1 Hl1 Hr1) as (w' & E' & Hr' & Hl').
    cbn [length ws_read_all]; srun; rewrite E; cbn [negb Z.eqb].
    exists w'; split_and!; [|exact Hr' | exact Hl'].
    lazy beta iota zeta delta [sbind slift sget smodify sret sfail sor access rbind] in E'; rewrite E'; done.
Qed.

End delivery.

(** ** Safety of reads *)

Section safety.
Context {C : Type} `{IOConnection C, !IOConnectionOk C, Platform, !PlatformOk}.

Definition WebSocket_wf (w : WebSocket C) : Prop :=
  BufferedIO_wf (ws_io w) /\ is_bytes (recv_buffer (ws_io w)).

Lemma read_exact_safe fuel : forall n stored (b : BufferedIO C),
  BufferedIO_wf b -> is_bytes (recv_buffer b) -> is_bytes stored ->
  match read_exact fuel n stored b with
  | (b', Ok (d, ec)) =>
      BufferedIO_wf b' /\ is_bytes (recv_buffer b') /\ is_bytes d /\ (ec = 0 -> 0 <= n -> zlen d = zlen stored + n)
  | (b', Hang) => BufferedIO_wf b' /\ is_bytes (recv_buffer b')
  | _ => False
  end.
Proof.
  induction fuel as [|fuel IH]; intros n stored b Hwf Hb Hs; cbn [read_exact]; case Z.ltb_spec; intros Hn;
    try (unfold sret; split_and!; try done; by intros; lia).
  srun; pose proof (BufferedIO_read_safe b n Hwf Hb ltac:(lia)) as Hr.
  destruct (AsyncRead n b) as [b1 [[d ec]| | |]]; [|done..].
  destruct Hr as (Hwf1 & Hb1 & Hd & Hdb); case Z.eqb_spec; intros Hec; cbn [negb].
  - specialize (IH (n - zlen d) (stored ++ d) b1 Hwf1 Hb1 ltac:(by apply is_bytes_app)).
    destruct (read_exact fuel _ _ b1) as [b2 [[d2 ec2]| | |]]; try done.
    destruct IH as (? & ? & ? & IH); split_and!; try done; intros; rewrite IH, zlen_app; lia.
  - by split_and!.
Qed.

(** What every step of a read guarantees. *)
Definition ws_ok {A} (P : A -> Prop) (x : WebSocket C * res A) : Prop :=
  match x with
  | (w', Ok a) => WebSocket_wf w' /\ P a
  | (w', Hang) => WebSocket_wf w'
  | _ => False
  end.

Lemma ws_ok_bind {A B} (P : A -> Prop) (Q : B -> Prop) (m : st (WebSocket C) A) k w :
  ws_ok P (m w) -> (forall a w', P a -> WebSocket_wf w' -> ws_ok Q (k a w')) -> ws_ok Q (sbind m k w).
Proof. unfold sbind; destruct (m w) as [w' [a| | |]]; simpl; [intros [? ?] ?; auto | done | done | auto]. Qed.

Lemma ws_read_exact_ok n w : WebSocket_wf w -> 0 <= n ->
  ws_ok (fun x : bytes * Z => is_bytes x.1 /\ (x.2 = 0 -> zlen x.1 = n)) (ws_read_exact n w).
Proof.
  intros [Hwf Hb] Hn; unfold ws_read_exact, on_ws.
  pose proof (read_exact_safe (Z.to_nat n) n [] (ws_io w) Hwf Hb ltac:(constructor)) as Hr.
  destruct (read_exact _ _ _ _) as [b [[d ec]| | |]]; [|done..].
  destruct Hr as (? & ? & ? & Hr); split; [done|]; split; [done|]; simpl; intros; by rewrite Hr.
Qed.

Lemma ws_read_length_ok l w : WebSocket_wf w -> 0 <= l ->
  ws_ok (fun x : Z * Z => 0 <= x.1) (ws_read_length l w).
Proof.
  intros Hwf Hl; unfold ws_read_length.
  repeat (match goal with |- context [if ?c then _ else _] => destruct c end; try done).
  all: eapply ws_ok_bind; [apply ws_read_exact_ok; [done | lia]|]; intros [d ec] w' [Hd Hz] Hw'; cbn -[mem_load].
  all: case Z.eqb_spec; intros Hec; cbn [negb]; [|by split].
  all: split; [done|]; unfold big_to_native; simpl in Hz; rewrite gntoh_network by (try done; by apply Hz);
    eapply (proj1 (be_val_range d _ Hd eq_refl)).
Qed.

Lemma ws_read_ok cap w : WebSocket_wf w -> 0 <= cap ->
  ws_ok (fun x : bytes * Z => zlen x.1 <= cap /\ is_bytes x.1) (WebSocket_AsyncRead cap w).
Proof.
  intros Hwf Hcap; unfold WebSocket_AsyncRead.
  assert (forall (ec : Z) (w' : WebSocket C), WebSocket_wf w' ->
    ws_ok (fun x : bytes * Z => zlen x.1 <= cap /\ is_bytes x.1) (sret ([], ec) w')) as Hnil
    by (intros; split; [done|]; split; [done | constructor]).
  assert (forall n k (f : bytes -> bytes), 0 <= n <= cap -> WebSocket_wf k ->
    (forall d, is_bytes d -> is_bytes (f d) /\ zlen (f d) = zlen d) ->
    ws_ok (fun x : bytes * Z => zlen x.1 <= cap /\ is_bytes x.1)
      ((let! '(d, ec) := ws_read_exact n in if negb (ec =? 0) then sret ([], ec) else sret (f d, 0)) k)) as Hbody.
  { intros n k f Hn Hk Hf; eapply ws_ok_bind; [apply ws_read_exact_ok; [done | lia]|].
    intros [d ec] w' [Hd Hz] Hw'; simpl in *; case Z.eqb_spec; intros; cbn [negb]; [|by apply Hnil].
    destruct (Hf d Hd) as [? Hfz]; split; [done|]; split; [|done]; simpl; rewrite Hfz, Hz; lia. }
  eapply ws_ok_bind; [by apply ws_read_exact_ok|]; intros [h ec] w1 [Hh Hz] Hw1; simpl in Hz.
  case Z.eqb_spec; intros; cbn [negb]; [|by apply Hnil].
  destruct h as [|b0 [|b1 [|]]]; try (specialize (Hz ltac:(done)); unfold zlen in Hz; simpl in Hz; lia).
  do 2 (eapply (ws_ok_bind (fun _ => True)); [done|]; intros ? ? _ ?).
  eapply ws_ok_bind; [apply ws_read_length_ok; [done | apply Z.land_nonneg; right; lia]|].
  intros [n ec'] w2 Hn Hw2; simpl in Hn; case Z.eqb_spec; intros; cbn [negb]; [|by apply Hnil].
  case Z.ltb_spec; intros; [by apply Hnil|]; case Z.eqb_spec; intros.
  - eapply ws_ok_bind; [by apply ws_read_exact_ok|]; intros [k ec4] w3 [Hk _] Hw3.
    case Z.eqb_spec; intros; cbn [negb]; [|by apply Hnil].
    apply Hbody; [done | done |]; intros; split; [by apply is_bytes_ws_mask | apply zlen_ws_mask].
  - by apply (Hbody n w2 (fun d => d)).
Qed.

End safety.

(** ** The handshake *)

Section handshake_lemmas.
Context `{AbslStringsOk}.

Lemma base64_no_space s b : b ∈ Base64Escape s -> is_space b = false.
Proof.
  intros Hb; pose proof (proj1 (Forall_forall _ _) (base64_chars s) b Hb) as Hc; revert Hc.
  unfold is_base64, is_digit, is_space; bool_cases; simpl; try done; lia.
Qed.

(** A header line whose value is base64 text after one space. *)
Lemma header_base64 pre header s post :
  13 ∉ header -> zlen (pre ++ header ++ (32 :: Base64Escape s) ++ CRLF ++ post) < 2 ^ 64 ->
  bfind header (pre ++ header ++ (32 :: Base64Escape s) ++ CRLF ++ post) = Some (zlen pre) ->
  http_get_header (pre ++ header ++ (32 :: Base64Escape s) ++ CRLF ++ post) header = Ok (Base64Escape s).
Proof.
  intros Hh Hl Hf; rewrite http_get_header_line; [|done..|].
  - f_equal; replace (32 :: Base64Escape s) with ([32] ++ Base64Escape s ++ []) by (by rewrite app_nil_r).
    apply strip_spec; [by repeat constructor|].
    assert (forall b, b ∈ Base64Escape s -> is_space b = false) as Hs by apply base64_no_space.
    destruct (Base64Escape s) as [|b t]; [done|]; split; apply Hs; [set_solver|].
    apply list_elem_of_In; destruct (exists_last (l := b :: t)) as (i & x & ->); [done|].
    rewrite last_last; apply in_app_iff; right; by left.
  - apply (bfind_absent 13); [set_solver|]; rewrite elem_of_cons; intros [|Hin]; [done|].
    by apply base64_no_space in Hin.
Qed.

(** Where the key stands in the request and in the response. *)
Lemma ws_request_key host s :
  zlen (ws_request host (Base64Escape s)) < 2 ^ 64 -> bfind (bs "Sec-WebSocket-Key:") host = None ->
  http_get_header (ws_request host (Base64Escape s)) (bs "Sec-WebSocket-Key:") = Ok (Base64Escape s).
Proof.
  set (A := bs "GET /echo HTTP/1.1" ++ CRLF ++ bs "Host:").
  set (B := 10 :: bs "User-Agent: Go-http-client/1.1" ++ CRLF ++ bs "Connection: Upgrade" ++ [13]).
  set (D := CRLF ++ bs "Sec-WebSocket-Version: 13" ++ CRLF ++ bs "Upgrade: websocket" ++ CRLF ++ CRLF).
  assert (forall k, ws_request host k = (A ++ 32 :: host ++ 13 :: B ++ [10]) ++ bs "Sec-WebSocket-Key:" ++ (32 :: k) ++ D) as E
    by (intros k; unfold ws_request, A, B, D; cbn; rewrite <- !app_assoc; cbn; by rewrite <- ?app_assoc).
  intros Hl Hh; rewrite E in *; unfold D in *; apply header_base64; [by apply (bool_decide_unpack _); vm_compute | done |].
  rewrite <- app_assoc; cbn [app]; rewrite <- app_assoc; cbn [app]; rewrite <- app_assoc; cbn [app].
  rewrite bfind_sep by (done || by (apply (bool_decide_unpack _); vm_compute)).
  rewrite bfind_sep by (done || by (apply (bool_decide_unpack _); vm_compute)).
  rewrite bfind_sep by (done || by (apply (bool_decide_unpack _); vm_compute)).
  rewrite bfind_here; cbn [fmap option_fmap option_map]; f_equal.
  clearbody A B; unfold zlen; rewrite !length_app; cbn [length]; rewrite !length_app; cbn [length].
  rewrite !length_app; cbn [length]; lia.
Qed.

Lemma ws_response_key s :
  zlen (ws_response (Base64Escape s)) < 2 ^ 64 ->
  http_get_header (ws_response (Base64Escape s)) (bs "Sec-WebSocket-Accept:") = Ok (Base64Escape s).
Proof.
  set (A := bs "HTTP/1.1 101 Switching Protocols" ++ CRLF ++ bs "Upgrade: websocket" ++ CRLF ++ bs "Connection: Upgrade" ++ [13]).
  assert (forall k, ws_response k = (A ++ [10]) ++ bs "Sec-WebSocket-Accept:" ++ (32 :: k) ++ CRLF ++ CRLF) as E by done.
  intros Hl; rewrite E in *; apply header_base64; [by apply (bool_decide_unpack _); vm_compute | done |].
  rewrite <- app_assoc; cbn [app].
  rewrite bfind_sep by (done || by (apply (bool_decide_unpack _); vm_compute)).
  by rewrite bfind_here.
Qed.

End handshake_lemmas.

(** ** Theorems *)

Section theorems.
Context {C : Type} `{IOConnection C, !StreamView C, !ByteStream C, Platform, !PlatformOk}.

(** C16. Messages written to a WebSocket by either side, with any contents of the masking key, are
    framed so that the reads of the peer yield exactly those messages, one per read and in order,
    and leave the following bytes untouched, however the transport cuts the stream; a read's
    storage only has to hold the longest message.  All three length classes are covered. *)
Theorem ws_messages_delivered (w r : WebSocket C) (msgs : list (bytes * bytes)) cap :
  live w -> live r -> cap < 2 ^ 63 -> Forall (fun m => zlen m.1 = 4 /\ zlen m.2 <= cap) msgs ->
  exists w' out, ws_write_all msgs w = (w', Ok tt) /\ tx w' = tx w ++ out /\
    forall rest, rx r = out ++ rest ->
      exists r', ws_read_all (length msgs) cap r = (r', Ok (msgs.*2)) /\ rx r' = rest.
Proof.
  intros Hw Hr Hc Hm; destruct (ws_write_all_spec msgs w Hw) as (w' & E & Hl & Ht).
  exists w', (concat ((fun m => ws_frame (ws_key w m.1) m.2) <$> msgs)); split_and!; [done | done |].
  intros rest Hrx; set (ms := (fun m => (ws_key w m.1, m.2)) <$> msgs).
  destruct (ws_read_all_spec ms cap rest r) as (r' & Er & Hr' & _).
  - exact Hr.
  - rewrite Hrx; f_equal; unfold ms; by rewrite <- list_fmap_compose.
  - done.
  - unfold ms; apply Forall_fmap; eapply Forall_impl; [exact Hm|]; intros [k d] [? ?]; split; [done|].
    unfold compose, ws_key; simpl; destruct (is_server w); [done|]; by intros ? [= <-].
  - exists r'; unfold ms in Er; rewrite length_fmap in Er; rewrite Er; split; [|done].
    do 2 f_equal; by rewrite <- list_fmap_compose.
Qed.

End theorems.

(** Whatever a peer sends, a WebSocket read stores at most the bytes its caller has room for,
    a frame that claims more is refused before anything is stored, the receive buffer stays
    inside its bounds, and no read leaves an object. *)
Theorem ws_read_memory_safe {C} `{IOConnection C, !IOConnectionOk C, Platform, !PlatformOk} (w : WebSocket C) cap :
  WebSocket_wf w -> 0 <= cap ->
  match WebSocket_AsyncRead cap w with
  | (w', Ok (d, ec)) => WebSocket_wf w' /\ zlen d <= cap /\ is_bytes d
  | (w', Hang) => WebSocket_wf w'
  | _ => False
  end.
Proof.
  intros Hw Hc; pose proof (ws_read_ok cap w Hw Hc) as H2.
  by destruct (WebSocket_AsyncRead cap w) as [w' [[d ec]| | |]].
Qed.

Section handshake_theorems.
Context {C : Type} `{IOConnection C, Platform, AbslStringsOk, OpenSSL}.

Lemma connect_on_response (cl : WebSocket C) now host wn b1 b2 resp v :
  AsyncWrite (ws_request host (Base64Escape (to_string now))) (ws_io cl) = (b1, Ok (wn, 0)) ->
  AsyncRead kMaxChunkSize b1 = (b2, Ok (resp, 0)) ->
  http_get_header resp (bs "Sec-WebSocket-Accept:") = Ok v ->
  AsyncConnect now host cl = ({| ws_io := b2; is_server := false |}, Ok 0).
Proof.
  intros Hwr Hrd Hv; unfold AsyncConnect, set_is_server, on_ws; srun; rewrite Hwr; cbn [negb Z.eqb ws_io is_server].
  rewrite Hrd; cbn [negb Z.eqb]; rewrite Hv; done.
Qed.

(** The upgrade handshake between the two sides of the program: when the request and the
    response each arrive in one read, the server accepts the client's request, answers with the
    key derived from the client's key and becomes the server side, and the client accepts that
    answer and stays the client side. *)
Theorem ws_handshake `{!StreamView C, !ByteStream C} (cl sv : WebSocket C) now host wn s1 b1 b2 :
  let key := Base64Escape (to_string now) in
  let accept := ws_get_accept_secret_key key in
  bfind (bs "Sec-WebSocket-Key:") host = None ->
  zlen (ws_request host key) <= kMaxChunkSize -> zlen (ws_response accept) <= kMaxChunkSize ->
  AsyncRead kMaxChunkSize (ws_io sv) = (s1, Ok (ws_request host key, 0)) -> live s1 ->
  AsyncWrite (ws_request host key) (ws_io cl) = (b1, Ok (wn, 0)) ->
  AsyncRead kMaxChunkSize b1 = (b2, Ok (ws_response accept, 0)) ->
  (exists sv', AsyncAccept sv = (sv', Ok 0) /\ tx (ws_io sv') = tx s1 ++ ws_response accept /\
     rx (ws_io sv') = rx s1 /\ is_server sv' = true) /\
  AsyncConnect now host cl = ({| ws_io := b2; is_server := false |}, Ok 0).
Proof.
  intros key accept Hh Hq Hp Hrd Hs1 Hwr Hrd2; unfold kMaxChunkSize in Hq, Hp; split.
  - unfold AsyncAccept, set_is_server, on_ws; srun; rewrite Hrd; cbn [negb Z.eqb ws_io is_server].
    unfold key in *; rewrite ws_request_key by (done || lia); cbn [ws_io is_server].
    destruct (stream_write (ws_response accept) s1 Hs1) as (s2 & Ew & Ht & Hr & Hl).
    unfold accept in Ew; rewrite Ew; cbn [negb Z.eqb ws_io]; eexists; split; [done|]; by split_and!.
  - eapply connect_on_response; [done | done |]; apply ws_response_key.
    eapply Z.le_lt_trans; [exact Hp | lia].
Qed.

(** The client does not check the server's accept key: it takes the handshake as successful
    whatever key the response carries, also one derived from another client's key. *)
Theorem ws_client_ignores_accept_key (cl : WebSocket C) now host wn b1 b2 other :
  zlen (ws_response (Base64Escape other)) <= kMaxChunkSize ->
  AsyncWrite (ws_request host (Base64Escape (to_string now))) (ws_io cl) = (b1, Ok (wn, 0)) ->
  AsyncRead kMaxChunkSize b1 = (b2, Ok (ws_response (Base64Escape other), 0)) ->
  AsyncConnect now host cl = ({| ws_io := b2; is_server := false |}, Ok 0).
Proof.
  intros Hp Hwr Hrd; unfold kMaxChunkSize in Hp; eapply connect_on_response; [done | done |].
  apply ws_response_key; lia.
Qed.

End handshake_theorems.

(** ** Witnesses *)

Module WsDemo.
Import Pipe RefAbsl.

#[export] Instance demo_platform : Platform := little_endian.
#[export] Instance demo_platform_ok : PlatformOk := little_endian_ok.
#[export] Instance demo_ssl : OpenSSL := fun s => ztake 20 (s ++ zrepeat 20 0).

Definition demo_pipe (chunks : list bytes) : pipe := {| Pipe.chunks := chunks; Pipe.sent := [] |}.
Definition ws_over (chunks : list bytes) : WebSocket pipe :=
  WebSocket_new (demo_pipe chunks) (zrepeat kMaxChunkSize 0).

Lemma ws_over_live chunks : Forall (fun ch => ch <> []) chunks -> live (ws_over chunks).
Proof.
  intros Hc; apply (BufferedIO_new_live (demo_pipe chunks)); [done|].
  rewrite zlen_repeat; unfold kMaxChunkSize; lia.
Qed.

Definition demo_msgs : list (bytes * bytes) := [([1; 2; 3; 4], bs "hello"); ([9; 9; 9; 9], zrepeat 200 7)].
Definition demo_wire : bytes := concat ((fun m => ws_frame (Some m.1) m.2) <$> demo_msgs).
Definition demo_key : bytes := Base64Escape (to_string 1700000000).
Definition demo_accept : bytes := ws_get_accept_secret_key demo_key.

End WsDemo.

Section witnesses.
Import RefAbsl WsDemo Pipe ZeroConn.

Lemma ws_messages_delivered_witness :
  exists w' out, ws_write_all demo_msgs (ws_over []) = (w', Ok tt) /\ tx w' = tx (ws_over []) ++ out /\
    forall rest, rx (ws_over [ztake 3 demo_wire; zdrop 3 demo_wire]) = out ++ rest ->
      exists r', ws_read_all (length demo_msgs) 1000 (ws_over [ztake 3 demo_wire; zdrop 3 demo_wire]) = (r', Ok (demo_msgs.*2)) /\
        rx r' = rest.
Proof.
  apply (ws_messages_delivered (ws_over []) (ws_over [ztake 3 demo_wire; zdrop 3 demo_wire]) demo_msgs 1000);
    [apply ws_over_live; constructor | apply ws_over_live; repeat constructor; by vm_compute | done
    | by apply (bool_decide_unpack _); vm_compute].
Defined.

Lemma ws_read_memory_safe_witness :
  match WebSocket_AsyncRead 100 (WebSocket_new (tt : ZeroConn.conn) (zrepeat kMaxChunkSize 0)) with
  | (w', Ok (d, ec)) => WebSocket_wf w' /\ zlen d <= 100 /\ is_bytes d
  | (w', Hang) => WebSocket_wf w'
  | _ => False
  end.
Proof.
  apply (ws_read_memory_safe (WebSocket_new (tt : ZeroConn.conn) (zrepeat kMaxChunkSize 0)) 100); [|by vm_compute].
  split; [by vm_compute | by apply Forall_replicate].
Defined.

Definition demo_read (chunks : list bytes) := (AsyncRead kMaxChunkSize (ws_io (ws_over chunks))).1.
Definition demo_sent (chunks : list bytes) := (AsyncWrite (ws_request (bs "example.com") demo_key) (ws_io (ws_over chunks))).1.

Lemma ws_handshake_witness :
  (exists sv', AsyncAccept (ws_over [ws_request (bs "example.com") demo_key]) = (sv', Ok 0) /\
     tx (ws_io sv') = tx (demo_read [ws_request (bs "example.com") demo_key]) ++ ws_response demo_accept /\
     rx (ws_io sv') = rx (demo_read [ws_request (bs "example.com") demo_key]) /\ is_server sv' = true) /\
  AsyncConnect 1700000000 (bs "example.com") (ws_over [ws_response demo_accept]) =
    ({| ws_io := (AsyncRead kMaxChunkSize (demo_sent [ws_response demo_accept])).1; is_server := false |}, Ok 0).
Proof.
  apply (ws_handshake (ws_over [ws_response demo_accept]) (ws_over [ws_request (bs "example.com") demo_key])
    1700000000 (bs "example.com") (zlen (ws_request (bs "example.com") demo_key))
    (demo_read [ws_request (bs "example.com") demo_key]) (demo_sent [ws_response demo_accept])
    (AsyncRead kMaxChunkSize (demo_sent [ws_response demo_accept])).1); try (by vm_compute).
Defined.

Lemma ws_client_ignores_accept_key_witness :
  AsyncConnect 1700000000 (bs "example.com") (ws_over [ws_response (Base64Escape (bs "forged"))]) =
    ({| ws_io := (AsyncRead kMaxChunkSize (demo_sent [ws_response (Base64Escape (bs "forged"))])).1;
        is_server := false |}, Ok 0).
Proof.
  apply (ws_client_ignores_accept_key (ws_over [ws_response (Base64Escape (bs "forged"))]) 1700000000
    (bs "example.com") (zlen (ws_request (bs "example.com") demo_key))
    (demo_sent [ws_response (Base64Escape (bs "forged"))]) _ (bs "forged")); by vm_compute.
Defined.

End witnesses.
