(* ===== verification/Address.v ===== *)
(** * Addresses

    src/snova/util/address.cc: the parser and printer of listen and remote addresses
    ([schema://host:port/path]), and src/snova/util/tunnel_opt.cc: the parser of the tunnel
    options ([port:host:port]).  Both store a port in a [uint16_t]. *)

From S2P Require Import Prelude Text.

Record NetAddress := { schema : bytes; host : bytes; port : Z; path : bytes }.

#[global] Instance NetAddress_eq_dec : EqDecision NetAddress.
Proof. solve_decision. Defined.

Definition SLASH : Z := 47.
Definition COLON : Z := 58.

(** The port of a schema for which none is given. *)
Definition default_port (schema : bytes) (port : Z) : Z :=
  if decide (schema = bs "https" \/ schema = bs "tls" \/ schema = bs "doh") then
    if port =? 0 then 443 else port
  else if decide (schema = bs "http") then if port =? 0 then 80 else port
  else if decide (schema = bs "dns") then if port =? 0 then 53 else port
  else if decide (schema = bs "dot") then if port =? 0 then 853 else port
  else port.

Section address.
Context `{AbslStrings}.

(** [Err] is [std::errc::invalid_argument]. *)
Definition NetAddress_Parse (addr : bytes) : res NetAddress :=
  let '(schema, url_part) :=
    match StrSplit (bs "://") addr with
    | [s; u] => (s, u)
    | _ => ([], addr)
    end in
  let '(host_port_part, path) :=
    match bfind [SLASH] url_part with
    | Some pos => (ztake pos url_part, if pos + 1 <? zlen url_part then zdrop (pos + 1) url_part else [])
    | None => (url_part, [])
    end in
  let host_port :=
    match StrSplit [COLON] host_port_part with
    | [h; p] =>
        match stoi p with
        | Ok v => Ok (h, wrap 16 v)
        | _ => Err kInvalidArgument
        end
    | _ => Ok (host_port_part, 0)
    end in
  do '(host_view, port) <- host_port;
  let host_view := if decide (host_view = []) then bs "0.0.0.0" else host_view in
  Ok {| schema := schema; host := host_view; port := default_port schema port; path := path |}.

Definition NetAddress_String (a : NetAddress) : bytes :=
  (if decide (schema a = []) then [] else schema a ++ bs "://") ++
  host a ++ [COLON] ++ to_string (port a) ++
  (if decide (path a = []) then [] else SLASH :: path a).

Definition parse_tunnel_opt (addr : bytes) : option (Z * bytes * Z) :=
  match StrSplit [COLON] addr with
  | [p0; h; p2] =>
      match SimpleAtoi p0, SimpleAtoi p2 with
      | Some port0, Some port2 => Some (wrap 16 port0, h, wrap 16 port2)
      | _, _ => None
      end
  | _ => None
  end.

End address.

Module LocalTunnelOption.
Record opt := { local_port : Z; remote_host : bytes; remote_port : Z }.
End LocalTunnelOption.

Module RemoteTunnelOption.
Record opt := { remote_port : Z; local_host : bytes; local_port : Z }.
End RemoteTunnelOption.

Definition LocalTunnelOption_Parse `{AbslStrings} (addr : bytes) (o : LocalTunnelOption.opt)
  : bool * LocalTunnelOption.opt :=
  match parse_tunnel_opt addr with
  | Some (p0, h, p2) =>
      (true, {| LocalTunnelOption.local_port := p0; LocalTunnelOption.remote_host := h;
                LocalTunnelOption.remote_port := p2 |})
  | None => (false, o)
  end.

Definition RemoteTunnelOption_Parse `{AbslStrings} (addr : bytes) (o : RemoteTunnelOption.opt)
  : bool * RemoteTunnelOption.opt :=
  match parse_tunnel_opt addr with
  | Some (p0, h, p2) =>
      (true, {| RemoteTunnelOption.remote_port := p0; RemoteTunnelOption.local_host := h;
                RemoteTunnelOption.local_port := p2 |})
  | None => (false, o)
  end.

(** ** Splitting *)

Section split.
Context `{AbslStringsOk}.

Lemma bfind_byte x l : x ∉ l -> bfind [x] l = None.
Proof. apply bfind_absent; set_solver. Qed.

Lemma bfind_byte_at x a b : x ∉ a -> bfind [x] (a ++ x :: b) = Some (zlen a).
Proof.
  intros Ha; rewrite (bfind_skip x []) by done; change (x :: b) with ([x] ++ b).
  rewrite bfind_here; cbn; f_equal; lia.
Qed.

(** One separator splits a text in two, a second one in three. *)
Lemma split_one x l : x ∉ l -> StrSplit [x] l = [l].
Proof. intros; by apply split_none, bfind_byte. Qed.

Lemma split_cons x a b : x ∉ a -> StrSplit [x] (a ++ x :: b) = a :: StrSplit [x] b.
Proof.
  intros Ha; rewrite (split_some [x] _ (zlen a)) by (done || by apply bfind_byte_at).
  rewrite ztake_app_exact by done; do 2 f_equal.
  change (a ++ x :: b) with (a ++ [x] ++ b); rewrite app_assoc, zdrop_app_exact; [done|].
  by rewrite zlen_app.
Qed.

Lemma digits_not b l : is_digit b = false -> Forall (fun b => is_digit b = true) l -> b ∉ l.
Proof. intros Hb Hl Hin; rewrite Forall_forall in Hl; specialize (Hl b Hin); congruence. Qed.

End split.

(** ** Reading back a printed address *)

(** The text of an address whose port is written as [v]. *)
Definition address_text (a : NetAddress) (v : Z) : bytes :=
  (if decide (schema a = []) then [] else schema a ++ bs "://") ++
  host a ++ [COLON] ++ to_string v ++ (if decide (path a = []) then [] else SLASH :: path a).

(** The parts contain no delimiter. *)
Definition address_ok (a : NetAddress) : Prop :=
  (COLON ∉ schema a) /\ host a <> [] /\ (COLON ∉ host a) /\ (SLASH ∉ host a) /\ bfind (bs "://") (path a) = None.

#[global] Instance address_ok_dec a : Decision (address_ok a).
Proof. unfold address_ok; apply _. Defined.

Section parse_text.
Context `{AbslStringsOk}.
Implicit Types (a : NetAddress) (v : Z).

Definition rest_text a v : bytes :=
  (host a ++ COLON :: to_string v) ++ (if decide (path a = []) then [] else SLASH :: path a).

Lemma address_text_eq a v :
  address_text a v = (if decide (schema a = []) then [] else schema a ++ bs "://") ++ rest_text a v.
Proof. unfold address_text, rest_text; by rewrite <- (app_assoc (host a)). Qed.

Lemma bfind_cons pat y l : ~ (pat `prefix_of` y :: l) -> bfind pat (y :: l) = Z.succ <$> bfind pat l.
Proof. intros; cbn -[decide]; by rewrite decide_False. Qed.

Lemma rest_no_schema a v : address_ok a -> 0 <= v -> bfind (bs "://") (rest_text a v) = None.
Proof.
  intros (_ & _ & Hh & _ & Hp) Hv; unfold rest_text; rewrite <- app_assoc.
  change (bs "://") with [58; 47; 47] in *; rewrite (bfind_skip 58) by done.
  destruct (to_string_cons v Hv) as (b & t & E & Hb); pose proof (to_string_digits v Hv) as Hd.
  assert (bfind [58; 47; 47] (to_string v ++ (if decide (path a = []) then [] else SLASH :: path a)) = None) as Hn.
  { rewrite (bfind_skip 58) by (by apply digits_not); case_decide; [done|].
    cbn -[decide]; rewrite decide_False by (by intros [z Hz]); by rewrite Hp. }
  cbn [app]; rewrite bfind_cons, Hn; [done|].
  rewrite E; intros [z Hz]; by injection Hz as -> _.
Qed.

Lemma split_schema a v : address_ok a -> 0 <= v ->
  match StrSplit (bs "://") (address_text a v) with
  | [s; u] => (s, u)
  | _ => ([], address_text a v)
  end = (schema a, rest_text a v).
Proof.
  intros Ha Hv; pose proof (rest_no_schema a v Ha Hv) as Hn; rewrite address_text_eq.
  case_decide as E; cbn [app].
  - by rewrite split_none, E.
  - destruct Ha as (Hs & _); rewrite <- app_assoc.
    assert (bfind (bs "://") (schema a ++ bs "://" ++ rest_text a v) = Some (zlen (schema a))) as Hf.
    { change (bs "://") with [58; 47; 47]; rewrite (bfind_skip 58) by done; rewrite bfind_here; cbn; f_equal; lia. }
    rewrite (split_some (bs "://") _ _ ltac:(done) Hf), ztake_app_exact by done.
    by rewrite (app_assoc (schema a)), zdrop_app_exact, split_none by (done || by rewrite zlen_app).
Qed.

Lemma split_path a v : address_ok a -> 0 <= v ->
  match bfind [SLASH] (rest_text a v) with
  | Some pos => (ztake pos (rest_text a v),
                 if pos + 1 <? zlen (rest_text a v) then zdrop (pos + 1) (rest_text a v) else [])
  | None => (rest_text a v, [])
  end = (host a ++ COLON :: to_string v, path a).
Proof.
  intros (_ & _ & _ & Hh & _) Hv.
  assert (SLASH ∉ host a ++ COLON :: to_string v) as Hn.
  { pose proof (digits_not SLASH (to_string v) ltac:(done) (to_string_digits v Hv)).
    by rewrite elem_of_app, elem_of_cons; intros [|[|]]. }
  unfold rest_text; case_decide as E.
  - by rewrite app_nil_r, bfind_byte, E.
  - rewrite bfind_byte_at, ztake_app_exact by done; f_equal; set (p := host a ++ _).
    pose proof (zlen_pos _ E); rewrite zlen_app, zlen_cons; bool_true (zlen p + 1 <? zlen p + (1 + zlen (path a))).
    change (p ++ SLASH :: path a) with (p ++ [SLASH] ++ path a); rewrite app_assoc.
    apply zdrop_app_exact; by rewrite zlen_app.
Qed.

(** The parser on the text of an address, for every number a port is written with. *)
Lemma parse_address_text a v : address_ok a -> 0 <= v < 2 ^ 31 ->
  NetAddress_Parse (address_text a v) =
    Ok {| schema := schema a; host := host a; port := default_port (schema a) (wrap 16 v); path := path a |}.
Proof.
  intros Ha Hv; unfold NetAddress_Parse; rewrite split_schema, split_path by (done || lia).
  destruct Ha as (_ & Hne & Hh & _); rewrite split_cons by done.
  rewrite split_one by (apply digits_not; [done | apply to_string_digits; lia]).
  rewrite stoi_to_string by lia; cbn [rbind]; by rewrite decide_False.
Qed.

End parse_text.

(** ** Theorems *)

(** An address that is printed and parsed again is unchanged, for every schema, host, port and
    path that contain no delimiter (a port that the schema's default replaces, zero, apart). *)
Theorem address_roundtrip `{AbslStringsOk} (a : NetAddress) :
  address_ok a -> fits 16 (port a) -> default_port (schema a) (port a) = port a ->
  NetAddress_Parse (NetAddress_String a) = Ok a.
Proof.
  intros Ha Hp Hd; change (NetAddress_String a) with (address_text a (port a)).
  rewrite parse_address_text, wrap_small, Hd by (done || (unfold fits in Hp; lia)); by destruct a.
Qed.

(** The parser takes a port that does not fit 16 bits modulo 65536 instead of refusing it:
    [host:65616] is port 80. *)
Theorem address_port_wraps `{AbslStringsOk} (a : NetAddress) v :
  address_ok a -> 0 <= v < 2 ^ 31 ->
  NetAddress_Parse (address_text a v) =
    Ok {| schema := schema a; host := host a; port := default_port (schema a) (wrap 16 v); path := path a |}.
Proof. apply parse_address_text. Qed.

(** A tunnel option [p0:host:p2] sets the three fields of either direction in the order its
    type gives them, the ports reduced to 16 bits; a text without exactly two colons, and one
    whose ports are not numbers, is refused and leaves the option as it was. *)
Theorem tunnel_option_parse `{AbslStringsOk} (p0 p2 : Z) (h : bytes) (lo : LocalTunnelOption.opt) (ro : RemoteTunnelOption.opt) :
  fits 32 p0 -> fits 32 p2 -> COLON ∉ h ->
  let addr := to_string p0 ++ COLON :: h ++ COLON :: to_string p2 in
  LocalTunnelOption_Parse addr lo =
    (true, LocalTunnelOption.Build_opt (wrap 16 p0) h (wrap 16 p2)) /\
  RemoteTunnelOption_Parse addr ro =
    (true, RemoteTunnelOption.Build_opt (wrap 16 p0) h (wrap 16 p2)) /\
  (forall s, length (StrSplit [COLON] s) <> 3%nat ->
    LocalTunnelOption_Parse s lo = (false, lo) /\ RemoteTunnelOption_Parse s ro = (false, ro)) /\
  (forall x y, COLON ∉ x -> COLON ∉ y -> SimpleAtoi x = None \/ SimpleAtoi y = None ->
    let s := x ++ COLON :: h ++ COLON :: y in
    LocalTunnelOption_Parse s lo = (false, lo) /\ RemoteTunnelOption_Parse s ro = (false, ro)).
Proof.
  intros Hp0 Hp2 Hh addr; unfold addr, LocalTunnelOption_Parse, RemoteTunnelOption_Parse, parse_tunnel_opt.
  assert (forall v, fits 32 v -> COLON ∉ to_string v) as Hc
    by (intros v Hv; apply digits_not; [done | apply to_string_digits; unfold fits in Hv; lia]).
  rewrite !split_cons, split_one, !atoi_digits by auto; split; [done|]; split; [done|]; split.
  - intros s Hs; by destruct (StrSplit [COLON] s) as [|? [|? [|? [|]]]].
  - intros x y Hx Hy Hn; rewrite !split_cons, split_one by done.
    destruct Hn as [-> | ->]; [done|]; by destruct (SimpleAtoi x).
Qed.

(** ** Witnesses *)

Section witnesses.
Import RefAbsl.

Definition demo_addr : NetAddress :=
  {| schema := bs "wss"; host := bs "example.com"; port := 8443; path := bs "relay/x" |}.

Lemma address_roundtrip_witness :
  NetAddress_String demo_addr = bs "wss://example.com:8443/relay/x" /\
  NetAddress_Parse (bs "wss://example.com:8443/relay/x") = Ok demo_addr.
Proof.
  split; [by vm_compute|]; apply (address_roundtrip demo_addr);
    [by apply (bool_decide_unpack _); vm_compute | by vm_compute | by vm_compute].
Defined.

Lemma address_port_wraps_witness :
  address_text demo_addr 65616 = bs "wss://example.com:65616/relay/x" /\
  NetAddress_Parse (address_text demo_addr 65616) =
    Ok {| schema := bs "wss"; host := bs "example.com"; port := 80; path := bs "relay/x" |}.
Proof.
  split; [by vm_compute|]; apply (address_port_wraps demo_addr 65616);
    [by apply (bool_decide_unpack _); vm_compute | lia].
Defined.

Lemma tunnel_option_parse_witness :
  LocalTunnelOption_Parse (bs "8080:h:65616") (LocalTunnelOption.Build_opt 0 [] 0) =
    (true, LocalTunnelOption.Build_opt 8080 (bs "h") 80).
Proof.
  apply (tunnel_option_parse 8080 65616 (bs "h") (LocalTunnelOption.Build_opt 0 [] 0)
           (RemoteTunnelOption.Build_opt 0 [] 0)); [by vm_compute | by vm_compute |].
  by apply (bool_decide_unpack _); vm_compute.
Defined.

End witnesses.
