(* ===== verification/NetHelper.v ===== *)
(** * Network helpers

    The parsers of src/snova/util/net_helper.cc: the domain name and the answers of a DNS message,
    which decide which name server answers a query, and the test for private addresses of the
    transparent proxy.  A message lies at the front of a buffer: [payload] is the whole buffer,
    [payload_len] the length of the message. *)

From S2P Require Import Prelude Endian.

(** ** Private addresses

    The three networks and the ranges of their hosts are those of asio: [hosts_contain] says
    whether a range contains an address, [range_size] is the size of a range object. *)

Inductive ip_address := V4 (a : Z) | V6 (a : Z).

Class AsioIp := {
  is_loopback : Z -> bool;
  hosts_contain : bytes -> Z -> bool;
  range_size : Z
}.

Definition g_private_networks : list bytes :=
  [bs "10.0.0.0/8"; bs "172.16.0.0/12"; bs "192.168.0.0/16"].

Section private.
Context `{AsioIp}.

(** [sizeof(g_private_networks)]. *)
Definition sizeof_private_networks : Z := zlen g_private_networks * range_size.

(** The loop from index [i] with [steps] iterations left. *)
Fixpoint private_loop (steps : nat) (i v4_addr : Z) : res bool :=
  match steps with
  | O => Ok false
  | S steps =>
      do net <- access (zget g_private_networks i);
      if hosts_contain net v4_addr then Ok true else private_loop steps (i + 1) v4_addr
  end.

Definition is_private_address (addr : ip_address) : res bool :=
  match addr with
  | V6 _ => Ok false
  | V4 v4_addr =>
      if is_loopback v4_addr then Ok true
      else private_loop (Z.to_nat sizeof_private_networks) 0 v4_addr
  end.

End private.

(** ** DNS names *)

Definition MAX_STR_LEN : Z := 256.
Definition DOT : Z := 46.

(** The loop of [dns_parse_name]: [p] is the read position, [dest] the offset of the write
    position in [tmp].  The result is the return code and the name; each label and each pointer
    takes one step of [fuel]. *)
Fixpoint dns_name_loop (fuel : nat) (payload : bytes) (payload_len pstart p : Z) (tmp : bytes) (dest : Z)
  : res (Z * bytes) :=
  if p <? payload_len then
    match fuel with
    | O => Hang
    | S fuel =>
        do dot_len <- access (zget payload p);
        if Z.land dot_len 192 =? 192 then
          do name <- (if pstart <? p then access (zslice 0 (p - pstart - 1) tmp) else Ok []);
          do sub_offset <- access (zget payload (p + 1));
          do sub <- (if (sub_offset =? 0) || (payload_len <=? sub_offset) then Ok (-1, [])
                     else dns_name_loop fuel payload payload_len sub_offset sub_offset
                            (zrepeat MAX_STR_LEN 0) 0);
          Ok (0, name ++ DOT :: sub.2)
        else if payload_len <=? p + dot_len then Ok (-1, [])
        else if dot_len =? 0 then
          do name <- (if pstart <? p then access (zslice 0 (p - pstart - 1) tmp) else Ok []);
          Ok (0, name)
        else if MAX_STR_LEN <=? dest + dot_len + 1 then Ok (-1, [])
        else
          do tmp <- (if negb (dest =? 0) then access (zblit dest [DOT] tmp) else Ok tmp);
          let dest := if negb (dest =? 0) then dest + 1 else dest in
          do d <- access (zslice (p + 1) dot_len payload);
          do tmp <- access (zblit dest d tmp);
          dns_name_loop fuel payload payload_len pstart (p + 1 + dot_len) tmp (dest + dot_len)
    end
  else Ok (-1, []).

Definition dns_parse_name (fuel : nat) (payload : bytes) (payload_offset payload_len : Z) : res (Z * bytes) :=
  if (payload_offset =? 0) || (payload_len <=? payload_offset) then Ok (-1, [])
  else dns_name_loop fuel payload payload_len payload_offset payload_offset (zrepeat MAX_STR_LEN 0) 0.

(** The loop of [skip_name] from [p]; [fin] is its [end]. *)
Fixpoint skip_name_loop (fuel : nat) (payload : bytes) (ptr fin p remaining : Z) : res Z :=
  if p <? fin then
    match fuel with
    | O => Hang
    | S fuel =>
        do dot_len <- access (zget payload p);
        if (dot_len <? 0) || (remaining <=? dot_len) then Ok (-1)
        else if dot_len =? 0 then Ok (p - ptr + 1)
        else skip_name_loop fuel payload ptr fin (p + (dot_len + 1)) (remaining - (dot_len + 1))
    end
  else Ok (-1).

Definition skip_name (payload : bytes) (ptr remaining : Z) : res Z :=
  skip_name_loop (Z.to_nat remaining) payload ptr (ptr + remaining) ptr remaining.

(** ** DNS answers *)

Record DNSAnswer := {
  nm : Z; ans_type : Z; cls : Z; datalen : Z;
  v4_ip : bytes; v6_ip : bytes
}.

Definition DNS_ANS_TYPE_CNAME : Z := 5.
Definition DNS_ANS_TYPE_A : Z := 1.
Definition DNS_ANS_TYPE_AAAA : Z := 28.
Definition kDNSAnswerHeaderSize : Z := 12.

Definition IsV4 (a : DNSAnswer) : bool := ans_type a =? DNS_ANS_TYPE_A.
Definition IsV6 (a : DNSAnswer) : bool := ans_type a =? DNS_ANS_TYPE_AAAA.

Section dns.
Context `{Platform}.

Definition READ_U16 (payload : bytes) (off : Z) : res Z :=
  do d <- access (zslice off 2 payload);
  Ok (big_to_native 2 (mem_load d)).

(** The questions: the offset and the remaining length behind them, or [Err (-1)]. *)
Fixpoint skip_questions (question_num : nat) (payload : bytes) (parse_offset parse_remaining : Z) : res (Z * Z) :=
  match question_num with
  | O => Ok (parse_offset, parse_remaining)
  | S question_num =>
      do name_len <- skip_name payload parse_offset parse_remaining;
      if name_len <=? 0 then Err (-1)
      else
        let parse_remaining := parse_remaining - (name_len + 4) in
        let parse_offset := parse_offset + (name_len + 4) in
        if parse_remaining <? 0 then Err (-1)
        else skip_questions question_num payload parse_offset parse_remaining
  end.

(** One answer at [parse_offset]: the answer and the offset behind it. *)
Definition parse_answer (fuel : nat) (payload : bytes) (parse_offset payload_len : Z) : res (DNSAnswer * Z) :=
  do nm <- READ_U16 payload parse_offset;
  do '(namr_rc, fields_offset) <-
    (if Z.land nm 49152 =? 49152 then
       do '(rc, name) <- dns_parse_name fuel payload (Z.land nm 16383) payload_len; Ok (rc, 0)
     else
       do '(rc, name) <- dns_parse_name fuel payload parse_offset payload_len; Ok (rc, zlen name));
  if namr_rc <? 0 then Err (-1)
  else
    do type <- READ_U16 payload (parse_offset + fields_offset + 2);
    do cls <- READ_U16 payload (parse_offset + fields_offset + 4);
    do datalen <- READ_U16 payload (parse_offset + fields_offset + 10);
    if payload_len <? parse_offset + fields_offset + kDNSAnswerHeaderSize + datalen then Err (-1)
    else
      let data := parse_offset + kDNSAnswerHeaderSize + fields_offset in
      do '(v4, v6) <-
        (if type =? DNS_ANS_TYPE_CNAME then Ok (zrepeat 4 0, zrepeat 16 0)
         else if type =? DNS_ANS_TYPE_A then
           do ip <- access (zslice data 4 payload); Ok (ip, zrepeat 16 0)
         else if type =? DNS_ANS_TYPE_AAAA then
           do ip <- access (zslice data 16 payload); Ok (zrepeat 4 0, ip)
         else Err (-1));
      Ok ({| nm := nm; ans_type := type; cls := cls; datalen := datalen; v4_ip := v4; v6_ip := v6 |},
          parse_offset + (kDNSAnswerHeaderSize + fields_offset + datalen)).

(** The answers parsed so far stay in the vector also when a later one is refused: the result is
    the vector with the return code. *)
Fixpoint parse_answers (answers_num fuel : nat) (payload : bytes) (parse_offset payload_len : Z)
  (answers : list DNSAnswer) : res (Z * list DNSAnswer) :=
  match answers_num with
  | O => Ok (0, answers)
  | S answers_num =>
      match parse_answer fuel payload parse_offset payload_len with
      | Ok (ans, parse_offset) => parse_answers answers_num fuel payload parse_offset payload_len (answers ++ [ans])
      | Err rc => Ok (rc, answers)
      | Ub => Ub
      | Hang => Hang
      end
  end.

Definition dns_parse_answers (fuel : nat) (payload : bytes) (payload_len : Z) (answers : list DNSAnswer)
  : res (Z * list DNSAnswer) :=
  do txid <- READ_U16 payload 0;
  do question_num <- READ_U16 payload 4;
  do answers_num <- READ_U16 payload 6;
  match skip_questions (Z.to_nat question_num) payload 12 (payload_len - 12) with
  | Ok (parse_offset, _) => parse_answers (Z.to_nat answers_num) fuel payload parse_offset payload_len answers
  | Err rc => Ok (rc, answers)
  | Ub => Ub
  | Hang => Hang
  end.

End dns.

(** ** Wire format of names *)

(** A domain name on the wire, and its text. *)
Definition enc_labels (labels : list bytes) : bytes := concat ((fun l => zlen l :: l) <$> labels).
Definition enc_name (labels : list bytes) : bytes := enc_labels labels ++ [0].
Definition dotted (labels : list bytes) : bytes := concat ((fun l => DOT :: l) <$> labels).
Definition name_text (labels : list bytes) : bytes :=
  match labels with [] => [] | l :: t => l ++ dotted t end.

Definition labels_ok (labels : list bytes) : Prop := Forall (fun l => 0 < zlen l < 64) labels.

Lemma zget_mid {A} (a : list A) x b n : n = zlen a -> zget (a ++ x :: b) n = Some x.
Proof. intros ->; rewrite zget_app_r, Z.sub_diag by lia; done. Qed.

Lemma land_short x : 0 <= x < 64 -> Z.land x 192 = 0.
Proof.
  intros Hx; assert (Forall (fun x => Z.land x 192 = 0) (seqZ 0 64)) as Hf by (by apply (bool_decide_unpack _); vm_compute).
  rewrite Forall_forall in Hf; apply Hf, elem_of_seqZ; lia.
Qed.

(** What the rest of a name adds to the [dest] bytes that are in [tmp]. *)
Definition text_from (dest : Z) (labels : list bytes) : bytes :=
  if dest =? 0 then name_text labels else dotted labels.

Lemma text_from_cons dest l labels : 0 <= dest -> 0 < zlen l ->
  text_from dest (l :: labels) =
    (if dest =? 0 then [] else [DOT]) ++ l ++ text_from (dest + (if dest =? 0 then 0 else 1) + zlen l) labels.
Proof.
  intros Hd Hl; unfold text_from; case Z.eqb_spec; intros; cbn [app name_text dotted].
  - by bool_false (dest + 0 + zlen l =? 0).
  - by bool_false (dest + 1 + zlen l =? 0).
Qed.

(** Writing behind the text in [tmp]. *)
Lemma zblit_extend (tmp : bytes) dest d txt :
  ztake dest tmp = txt -> 0 <= dest -> dest + zlen d <= zlen tmp ->
  exists tmp', zblit dest d tmp = Some tmp' /\ ztake (dest + zlen d) tmp' = txt ++ d /\ zlen tmp' = zlen tmp.
Proof.
  intros Ht Hd Hl; pose proof (zlen_nonneg d).
  destruct (zblit dest d tmp) as [tmp'|] eqn:E; [|rewrite zblit_Some in E by lia; done].
  destruct (zblit_inv _ _ _ _ E) as (_ & _ & Hz & ->); eexists; split_and!; [done | | done].
  rewrite app_assoc, ztake_app_exact; [by rewrite Ht|]; rewrite zlen_app, zlen_take; lia.
Qed.

Lemma dns_name_loop_spec labels : forall fuel (pre post : bytes) plen pstart (tmp : bytes) dest (txt : bytes),
  labels_ok labels -> (length labels < fuel)%nat ->
  zlen pre + zlen (enc_name labels) <= plen ->
  zlen tmp = MAX_STR_LEN -> 0 <= dest -> ztake dest tmp = txt -> pstart <= zlen pre ->
  (dest = 0 /\ zlen pre = pstart \/ 0 < dest /\ zlen pre - pstart - 1 = dest) ->
  dest + zlen (text_from dest labels) < 255 ->
  dns_name_loop fuel (pre ++ enc_name labels ++ post) plen pstart (zlen pre) tmp dest =
    Ok (0, txt ++ text_from dest labels).
Proof.
  induction labels as [|l labels IH]; intros [|fuel] pre post plen pstart tmp dest txt Hok Hf Hp Ht Hd Htx Hps Hinv Hlen;
    try (simpl in Hf; lia); cbn [dns_name_loop]; unfold enc_name in *.
  - cbn [enc_labels fmap list_fmap concat app] in Hp |- *; rewrite zlen_cons, zlen_nil in Hp.
    bool_true (zlen pre <? plen); rewrite zget_mid by done; cbn [access rbind].
    change (Z.land 0 192 =? 192) with false; rewrite Z.add_0_r; bool_false (plen <=? zlen pre); cbn [Z.eqb].
    assert (text_from dest [] = []) as -> by (unfold text_from; by destruct (dest =? 0)).
    rewrite app_nil_r; case Z.ltb_spec; intros Hlt.
    + replace (zlen pre - pstart - 1) with dest by lia; unfold MAX_STR_LEN in *.
      pose proof (zlen_nonneg (text_from dest [])); rewrite zslice_Some, zdrop_0, Htx by lia; done.
    + cbn; do 2 f_equal; rewrite <- Htx; by replace dest with 0 by lia.
  - apply Forall_cons in Hok as [Hl Hok].
    assert (enc_labels (l :: labels) ++ [0] = zlen l :: l ++ enc_labels labels ++ [0]) as Ee
      by (unfold enc_labels; cbn; by rewrite <- app_assoc).
    rewrite Ee, !zlen_cons, !zlen_app in Hp; change (zlen [0]) with 1 in Hp; rewrite Ee; cbn [app]; rewrite <- app_assoc.
    pose proof (zlen_nonneg (enc_labels labels)).
    bool_true (zlen pre <? plen); rewrite zget_mid by done; cbn [access rbind].
    rewrite land_short by lia; cbn [Z.eqb]; bool_false (plen <=? zlen pre + zlen l); bool_false (zlen l =? 0).
    rewrite text_from_cons in Hlen |- * by lia; set (dest1 := dest + _ + zlen l) in *.
    set (sep := if dest =? 0 then [] else [DOT]) in *.
    rewrite !zlen_app in Hlen; pose proof (zlen_nonneg (text_from dest1 labels)).
    assert (zlen sep = if dest =? 0 then 0 else 1) as Hsep by (unfold sep; by case Z.eqb_spec).
    assert (0 <= zlen sep <= 1) by (rewrite Hsep; case Z.eqb_spec; lia).
    unfold MAX_STR_LEN in *; bool_false (256 <=? dest + zlen l + 1).
    destruct (zblit_extend tmp dest sep txt) as (tmp1 & E1 & Ht1 & Hz1); [done | done | lia |].
    destruct (zblit_extend tmp1 (dest + zlen sep) l (txt ++ sep)) as (tmp2 & E2 & Ht2 & Hz2); [done | lia | lia |].
    assert (dest1 = dest + zlen sep + zlen l) as Hd1 by (unfold dest1; by rewrite Hsep).
    assert ((if negb (dest =? 0) then access (zblit dest [DOT] tmp) else Ok tmp) = Ok tmp1) as ->.
    { revert E1; unfold sep; case Z.eqb_spec; intros Hd0; cbn [negb]; [|by intros ->].
      rewrite zblit_Some by (rewrite ?zlen_nil; lia); intros [= <-]; cbn; by rewrite zlen_nil, Z.add_0_r, ztake_drop. }
    assert ((if negb (dest =? 0) then dest + 1 else dest) = dest + zlen sep) as ->
      by (rewrite Hsep; case Z.eqb_spec; cbn [negb]; lia).
    cbn [rbind]; replace (pre ++ zlen l :: l ++ (enc_labels labels ++ [0]) ++ post)
      with ((pre ++ [zlen l]) ++ l ++ (enc_labels labels ++ [0]) ++ post) by (by rewrite <- app_assoc).
    rewrite zslice_app by (rewrite ?zlen_app; done); cbn [access rbind]; rewrite E2; cbn [access rbind].
    rewrite (app_assoc (pre ++ [zlen l])), <- Hd1.
    replace (zlen pre + 1 + zlen l) with (zlen ((pre ++ [zlen l]) ++ l)) by (rewrite !zlen_app; done).
    rewrite (IH fuel _ post plen pstart tmp2 dest1 ((txt ++ sep) ++ l)); try done.
    + by rewrite <- !app_assoc.
    + simpl in Hf; lia.
    + rewrite !zlen_app; change (zlen [zlen l]) with 1; change (zlen [0]) with 1; lia.
    + lia.
    + lia.
    + by rewrite Hd1.
    + rewrite !zlen_app; change (zlen [zlen l]) with 1; lia.
    + right; split; [lia|]; rewrite !zlen_app; change (zlen [zlen l]) with 1; rewrite Hd1, Hsep; case Z.eqb_spec; lia.
    + lia.
Qed.

Lemma skip_name_loop_spec labels : forall fuel (pre post : bytes) ptr fin remaining,
  labels_ok labels -> (length labels < fuel)%nat -> ptr <= zlen pre ->
  fin = zlen pre + remaining -> zlen (enc_name labels) <= remaining ->
  skip_name_loop fuel (pre ++ enc_name labels ++ post) ptr fin (zlen pre) remaining =
    Ok (zlen pre - ptr + zlen (enc_name labels)).
Proof.
  unfold enc_name; induction labels as [|l labels IH]; intros [|fuel] pre post ptr fin remaining Hok Hf Hp -> Hr;
    try (simpl in Hf; lia); cbn [skip_name_loop].
  - cbn [enc_labels fmap list_fmap concat app] in *; change (zlen [0]) with 1 in *.
    bool_true (zlen pre <? zlen pre + remaining); rewrite zget_mid by done; cbn [access rbind Z.ltb Z.compare orb].
    bool_false (remaining <=? 0); cbn [Z.eqb]; done.
  - apply Forall_cons in Hok as [Hl Hok].
    assert (enc_labels (l :: labels) ++ [0] = zlen l :: l ++ enc_labels labels ++ [0]) as Ee
      by (unfold enc_labels; cbn; by rewrite <- app_assoc).
    rewrite Ee in *; rewrite zlen_cons, zlen_app in Hr |- *; cbn [app]; rewrite <- app_assoc.
    pose proof (zlen_nonneg (enc_labels labels ++ [0])).
    bool_true (zlen pre <? zlen pre + remaining); rewrite zget_mid by done; cbn [access rbind].
    bool_false (zlen l <? 0); bool_false (remaining <=? zlen l); bool_false (zlen l =? 0); cbn [orb].
    replace (pre ++ zlen l :: l ++ (enc_labels labels ++ [0]) ++ post)
      with ((pre ++ zlen l :: l) ++ (enc_labels labels ++ [0]) ++ post) by (by rewrite <- app_assoc).
    assert (zlen (pre ++ zlen l :: l) = zlen pre + (zlen l + 1)) as Hz by (rewrite zlen_app, zlen_cons; lia).
    rewrite <- Hz, IH; try done; try lia; [apply f_equal; lia | simpl in Hf; lia].
Qed.

Lemma enc_name_pos labels : (length labels < length (enc_name labels))%nat.
Proof.
  unfold enc_name; rewrite length_app; cbn [length].
  induction labels as [|l labels IH]; [simpl; lia|].
  change (enc_labels (l :: labels)) with ((zlen l :: l) ++ enc_labels labels).
  rewrite length_app; cbn [length]; lia.
Qed.

Lemma skip_name_spec labels (pre post : bytes) remaining :
  labels_ok labels -> zlen (enc_name labels) <= remaining ->
  skip_name (pre ++ enc_name labels ++ post) (zlen pre) remaining = Ok (zlen (enc_name labels)).
Proof.
  intros Hok Hr; unfold skip_name; pose proof (enc_name_pos labels).
  rewrite skip_name_loop_spec; try done; try lia; [f_equal; lia | unfold zlen in *; lia].
Qed.

(** ** The wire format of a response

    Questions, then answers, then whatever the authority and the additional section hold (RFC 1035, 4.1). *)

Definition u16 (v : Z) : bytes := be_bytes 2 v.

(** The name of an answer: a pointer into the message, or the name itself. *)
Inductive owner := Pointer (off : Z) | Full (labels : list bytes).
Inductive rdata := RdA (ip : bytes) | RdAAAA (ip : bytes) | RdCname (d : bytes).
Record record := { rr_owner : owner; rr_class : Z; rr_ttl : bytes; rr_data : rdata }.
Record question := { q_name : list bytes; q_type : Z; q_class : Z }.

Definition owner_wire (o : owner) : bytes :=
  match o with Pointer off => u16 (49152 + off) | Full labels => enc_name labels end.
Definition rdata_type (d : rdata) : Z :=
  match d with RdA _ => DNS_ANS_TYPE_A | RdAAAA _ => DNS_ANS_TYPE_AAAA | RdCname _ => DNS_ANS_TYPE_CNAME end.
Definition rdata_wire (d : rdata) : bytes := match d with RdA ip | RdAAAA ip => ip | RdCname d => d end.
Definition record_wire (r : record) : bytes :=
  owner_wire (rr_owner r) ++ u16 (rdata_type (rr_data r)) ++ u16 (rr_class r) ++ rr_ttl r ++
  u16 (zlen (rdata_wire (rr_data r))) ++ rdata_wire (rr_data r).
Definition question_wire (q : question) : bytes := enc_name (q_name q) ++ u16 (q_type q) ++ u16 (q_class q).

Definition response (txid flags nscount arcount : Z) (qs : list question) (rs : list record) (sections : bytes) : bytes :=
  (u16 txid ++ u16 flags ++ u16 (zlen qs) ++ u16 (zlen rs) ++ u16 nscount ++ u16 arcount) ++
  concat (question_wire <$> qs) ++ concat (record_wire <$> rs) ++ sections.

Definition name_ok (labels : list bytes) : Prop :=
  labels_ok labels /\ Forall is_bytes labels /\ zlen (name_text labels) < 255.

(** An uncompressed name lies at [off] of [msg]. *)
Definition name_at (msg : bytes) (off : Z) : Prop :=
  exists pre labels post, msg = pre ++ enc_name labels ++ post /\ zlen pre = off /\ name_ok labels.

Definition owner_ok (msg : bytes) (o : owner) : Prop :=
  match o with Pointer off => 0 < off < 16384 /\ name_at msg off | Full labels => labels <> [] /\ name_ok labels end.
Definition rdata_ok (d : rdata) : Prop :=
  match d with RdA ip => zlen ip = 4 | RdAAAA ip => zlen ip = 16 | RdCname d => zlen d < 65536 end.
Definition record_ok (msg : bytes) (r : record) : Prop :=
  owner_ok msg (rr_owner r) /\ rdata_ok (rr_data r) /\ fits 16 (rr_class r) /\ zlen (rr_ttl r) = 4.

(** The entry of the vector for a record. *)
Definition answer_of (r : record) : DNSAnswer :=
  {| nm := be_val (ztake 2 (owner_wire (rr_owner r))); ans_type := rdata_type (rr_data r); cls := rr_class r;
     datalen := zlen (rdata_wire (rr_data r));
     v4_ip := match rr_data r with RdA ip => ip | _ => zrepeat 4 0 end;
     v6_ip := match rr_data r with RdAAAA ip => ip | _ => zrepeat 16 0 end |}.

Lemma pointer_bits off : 0 <= off < 16384 ->
  Z.land (49152 + off) 49152 = 49152 /\ Z.land (49152 + off) 16383 = off /\ Z.land off 49152 = 0.
Proof.
  intros Ho.
  assert (Forall (fun off => Z.land (49152 + off) 49152 = 49152 /\ Z.land (49152 + off) 16383 = off /\ Z.land off 49152 = 0)
    (seqZ 0 16384)) as Hf by (by apply (bool_decide_unpack _); vm_compute).
  rewrite Forall_forall in Hf; apply Hf, elem_of_seqZ; lia.
Qed.

(** A full name takes two bytes more than its text. *)
Lemma zlen_enc_labels labels : zlen (enc_labels labels) = zlen (dotted labels).
Proof.
  unfold enc_labels, dotted; induction labels as [|l labels IH]; [done|].
  cbn [fmap list_fmap concat]; rewrite !zlen_app, !zlen_cons; by rewrite IH.
Qed.

Lemma zlen_full_name labels : labels <> [] -> zlen (enc_name labels) = zlen (name_text labels) + 2.
Proof.
  intros Hn; unfold enc_name; rewrite zlen_app, zlen_enc_labels; destruct labels as [|l labels]; [done|].
  change (dotted (l :: labels)) with ((DOT :: l) ++ dotted labels); cbn [name_text]; rewrite !zlen_app, zlen_cons.
  change (zlen [0]) with 1; lia.
Qed.

Lemma name_labels_count labels : labels_ok labels -> zlen (name_text labels) < 255 -> (length labels < 128)%nat.
Proof.
  intros Hok Ht; destruct labels as [|l labels]; [simpl; lia|].
  assert (2 * zlen (l :: labels) <= zlen (dotted (l :: labels))) as Hd.
  { unfold dotted; generalize dependent (l :: labels); intros ls Hls _; induction Hls as [|x ls Hx Hls IH]; [done|].
    cbn [fmap list_fmap concat]; rewrite zlen_app, !zlen_cons; cbv beta in Hx; lia. }
  change (dotted (l :: labels)) with (DOT :: name_text (l :: labels)) in Hd; rewrite zlen_cons in Hd; unfold zlen in *; cbn [length] in *; lia.
Qed.

(** The first two bytes of an answer. *)
Lemma owner_head o msg : owner_ok msg o -> exists v rest, owner_wire o = u16 v ++ rest /\ fits 16 v /\
  match o with Pointer off => v = 49152 + off /\ rest = [] | Full labels => 0 <= v < 16384 /\ zlen rest = zlen (name_text labels) end.
Proof.
  destruct o as [off|labels]; cbn [owner_ok owner_wire].
  - intros [Ho _]; exists (49152 + off), []; rewrite app_nil_r; unfold fits; split_and!; try done; lia.
  - intros (Hne & Hok & Hb & _); pose proof (zlen_full_name labels Hne) as Hz.
    destruct labels as [|[|b l] labels]; [done | by apply Forall_cons in Hok as [[Hl _] _] |].
    apply Forall_cons in Hok as [Hl _]; apply Forall_cons in Hb as [[Hb _]%Forall_cons _]; unfold is_byte in Hb.
    unfold enc_name, enc_labels in *; cbn [fmap list_fmap concat app] in *.
    set (n := zlen (b :: l)) in *; exists (be_val [n; b]), (l ++ concat ((fun l => zlen l :: l) <$> labels) ++ [0]).
    assert (is_bytes [n; b]) as Hnb by (repeat constructor; unfold is_byte; lia).
    assert (be_val [n; b] = n * 256 + b) as Hv by (unfold be_val; cbn; lia).
    split; [|split; [by apply (be_val_range _ 2) | split; [lia|]]].
    + unfold u16; rewrite be_bytes_be_val by done; cbn [app]; by rewrite <- app_assoc.
    + rewrite !zlen_cons, <- app_assoc in Hz; lia.
Qed.

Section dns_lemmas.
Context `{Platform, !PlatformOk}.

Lemma READ_U16_app (a : bytes) v (b : bytes) off :
  fits 16 v -> off = zlen a -> READ_U16 (a ++ u16 v ++ b) off = Ok v.
Proof.
  intros Hv ->; unfold READ_U16; rewrite zslice_app by (done || by rewrite zlen_be_bytes); cbn [access rbind].
  unfold big_to_native, u16; rewrite gntoh_network, be_val_be_bytes; try done.
  apply is_bytes_be_bytes.
Qed.

Lemma zlen_u16 v : zlen (u16 v) = 2.
Proof. apply zlen_be_bytes. Qed.

Lemma zlen_record_wire r : zlen (rr_ttl r) = 4 ->
  zlen (record_wire r) = zlen (owner_wire (rr_owner r)) + 10 + zlen (rdata_wire (rr_data r)).
Proof. intros Ht; unfold record_wire; rewrite !zlen_app, !zlen_u16, Ht; lia. Qed.

End dns_lemmas.

(** ** Safety of the name parser *)

Lemma dns_name_loop_safe fuel : forall payload plen pstart p tmp dest,
  is_bytes payload -> plen < zlen payload -> 0 <= pstart <= p -> zlen tmp = MAX_STR_LEN ->
  0 <= dest < MAX_STR_LEN -> (p = pstart /\ dest = 0 \/ 0 < dest /\ p - pstart - 1 = dest) ->
  match dns_name_loop fuel payload plen pstart p tmp dest with
  | Ok _ | Hang => True
  | Err _ | Ub => False
  end.
Proof.
  unfold MAX_STR_LEN; induction fuel as [|fuel IH]; intros payload plen pstart p tmp dest Hb Hl Hp Ht Hd Hi;
    cbn [dns_name_loop]; case Z.ltb_spec; intros Hlt; try done.
  destruct (zget_in_range payload p) as [x Ex]; [lia|]; rewrite Ex; cbn [access rbind].
  destruct (zget_in_range payload (p + 1)) as [y Ey]; [lia|]; rewrite Ey.
  assert (is_byte x /\ is_byte y) as [Hx Hy].
  { unfold zget in Ex, Ey; destruct (p <? 0), (p + 1 <? 0); try done.
    split; [eapply (Forall_lookup_1 _ _ _ _ Hb Ex) | eapply (Forall_lookup_1 _ _ _ _ Hb Ey)]. }
  unfold is_byte in *.
  assert (exists name, (if pstart <? p then access (zslice 0 (p - pstart - 1) tmp) else Ok []) = Ok name) as [name ->].
  { case Z.ltb_spec; intros; [|by eexists]; rewrite zslice_Some by lia; by eexists. }
  case Z.eqb_spec; intros; cbn [rbind access].
  - destruct ((y =? 0) || (plen <=? y)); [done|].
    specialize (IH payload plen y y (zrepeat MAX_STR_LEN 0) 0 Hb Hl).
    destruct (dns_name_loop fuel payload plen y y (zrepeat MAX_STR_LEN 0) 0); try done; apply IH; try done; lia.
  - case Z.leb_spec; intros; [done|]; case Z.eqb_spec; intros; [done|].
    case Z.leb_spec; intros; [done|]; unfold MAX_STR_LEN in *.
    rewrite (zslice_Some (p + 1) x payload) by lia.
    assert (zlen (ztake x (zdrop (p + 1) payload)) = x) as Hz by (rewrite zlen_take; [done | rewrite zlen_drop; lia]).
    case Z.eqb_spec; intros; cbn [negb rbind access].
    + destruct (zblit dest _ tmp) as [tmp'|] eqn:E; [|rewrite zblit_Some in E by lia; done].
      apply zblit_inv in E as (_ & _ & E & _); cbn [access rbind]; apply IH; try done; lia.
    + destruct (zblit dest [DOT] tmp) as [tmp'|] eqn:E;
        [|rewrite zblit_Some in E by (change (zlen [DOT]) with 1; lia); done].
      apply zblit_inv in E as (_ & _ & E & _); cbn [access rbind].
      destruct (zblit (dest + 1) _ tmp') as [tmp2|] eqn:E2; [|rewrite zblit_Some in E2 by lia; done].
      apply zblit_inv in E2 as (_ & _ & E2 & _); cbn [access rbind]; apply IH; try done; lia.
Qed.

Lemma zlen_enc_name labels : 0 < zlen (enc_name labels).
Proof. pose proof (enc_name_pos labels); unfold zlen; lia. Qed.

Section theorem_lemmas.
Context `{Platform, !PlatformOk}.

Lemma parse_name_spec labels fuel (pre post : bytes) plen :
  labels_ok labels -> zlen (name_text labels) < 255 -> 0 < zlen pre ->
  zlen pre + zlen (enc_name labels) <= plen -> (length labels < fuel)%nat ->
  dns_parse_name fuel (pre ++ enc_name labels ++ post) (zlen pre) plen = Ok (0, name_text labels).
Proof.
  intros Hok Ht Hp Hl Hf; unfold dns_parse_name; pose proof (zlen_enc_name labels).
  bool_false (zlen pre =? 0); bool_false (plen <=? zlen pre).
  cbn [orb]; rewrite (dns_name_loop_spec labels fuel pre post plen (zlen pre) _ 0 []); try done; try lia.
Qed.

(** The name of an answer, and where its fields are. *)
Lemma parse_owner_spec fuel msg slack (a b : bytes) r :
  (128 <= fuel)%nat -> record_ok msg r -> a ++ record_wire r ++ b = msg ++ slack -> 0 < zlen a ->
  zlen a + zlen (record_wire r) <= zlen msg ->
  exists v, READ_U16 (msg ++ slack) (zlen a) = Ok v /\ be_val (ztake 2 (owner_wire (rr_owner r))) = v /\
    (if Z.land v 49152 =? 49152 then
       do '(rc, name) <- dns_parse_name fuel (msg ++ slack) (Z.land v 16383) (zlen msg); Ok (rc, 0)
     else
       do '(rc, name) <- dns_parse_name fuel (msg ++ slack) (zlen a) (zlen msg); Ok (rc, zlen name)) =
    Ok (0, zlen (owner_wire (rr_owner r)) - 2).
Proof.
  intros Hfuel (Ho & _ & _ & Httl) E Ha Hl; destruct (owner_head _ _ Ho) as (v & rest & Ew & Hv & Hcase); exists v.
  rewrite zlen_record_wire in Hl by done; split.
  { rewrite <- E; unfold record_wire; rewrite Ew, <- !app_assoc; by apply READ_U16_app. }
  split; [rewrite Ew, ztake_app_exact by (by rewrite zlen_u16); by apply be_val_be_bytes|].
  destruct (rr_owner r) as [off|labels] eqn:Eo; cbn [owner_wire owner_ok] in *.
  - destruct Hcase as [-> _], Ho as [Hoff (pre & labels & post & Em & Hpre & Hok & _ & Ht)].
    destruct (pointer_bits off) as (-> & -> & _); [lia|]; cbn [Z.eqb Pos.eqb].
    rewrite Em, <- !app_assoc, <- Hpre, (parse_name_spec labels) by
      (done || lia || (pose proof (zlen_nonneg post); pose proof (name_labels_count labels Hok Ht); rewrite ?zlen_app; lia)).
    cbn [rbind]; by rewrite zlen_u16.
  - destruct Ho as (Hne & Hok & _ & Ht); destruct (pointer_bits v) as (_ & _ & ->); [lia|]; cbn [Z.eqb].
    rewrite <- E; unfold record_wire; rewrite Eo; cbn [owner_wire]; rewrite <- !app_assoc, (parse_name_spec labels) by
      (done || lia || (pose proof (zlen_nonneg (rdata_wire (rr_data r))); pose proof (name_labels_count labels Hok Ht); lia)).
    cbn [rbind]; rewrite zlen_full_name by done; do 2 f_equal; lia.
Qed.

(** One answer of the response. *)
Lemma parse_answer_spec fuel msg slack (a b : bytes) r :
  (128 <= fuel)%nat -> record_ok msg r -> a ++ record_wire r ++ b = msg ++ slack -> 0 < zlen a ->
  zlen a + zlen (record_wire r) <= zlen msg ->
  parse_answer fuel (msg ++ slack) (zlen a) (zlen msg) = Ok (answer_of r, zlen a + zlen (record_wire r)).
Proof.
  intros Hfuel Hr E Ha Hl; destruct (parse_owner_spec fuel msg slack a b r Hfuel Hr E Ha Hl) as (v & Ev & Hnm & Eo).
  unfold parse_answer; rewrite Ev; cbn [rbind]; rewrite Eo; cbn [rbind]; change (0 <? 0) with false; cbv iota.
  destruct Hr as (_ & Hd & Hc & Httl); rewrite zlen_record_wire in Hl |- * by done.
  set (o := owner_wire (rr_owner r)) in *; set (ty := rdata_type (rr_data r)); set (d := rdata_wire (rr_data r)) in *.
  assert (forall x w y off, record_wire r = x ++ u16 w ++ y -> fits 16 w -> off = zlen a + zlen x ->
    READ_U16 (msg ++ slack) off = Ok w) as Hrd.
  { intros x w y off Ex Hw ->; rewrite <- E, Ex, <- !app_assoc, app_assoc; apply READ_U16_app; [done | by rewrite zlen_app]. }
  rewrite (Hrd o ty (u16 (rr_class r) ++ rr_ttl r ++ u16 (zlen d) ++ d)) by (done || lia || by unfold ty; destruct (rr_data r)).
  cbn [rbind]; rewrite (Hrd (o ++ u16 ty) (rr_class r) (rr_ttl r ++ u16 (zlen d) ++ d))
    by (done || (rewrite ?zlen_app, ?zlen_u16; lia) || by rewrite <- !app_assoc).
  assert (fits 16 (zlen d)) as Hdl by (unfold d, fits; pose proof (zlen_nonneg d); destruct (rr_data r); cbn in *; lia).
  cbn [rbind]; rewrite (Hrd (o ++ u16 ty ++ u16 (rr_class r) ++ rr_ttl r) (zlen d) d)
    by (done || (rewrite ?zlen_app, ?zlen_u16; lia) || by rewrite <- !app_assoc).
  cbn [rbind]; unfold kDNSAnswerHeaderSize; bool_false (zlen msg <? zlen a + (zlen o - 2) + 12 + zlen d).
  assert (forall n, n = zlen d -> zslice (zlen a + 12 + (zlen o - 2)) n (msg ++ slack) = Some d) as Hsl.
  { intros n ->; rewrite <- E; unfold record_wire; fold o ty d.
    replace (a ++ (o ++ u16 ty ++ u16 (rr_class r) ++ rr_ttl r ++ u16 (zlen d) ++ d) ++ b)
      with ((a ++ o ++ u16 ty ++ u16 (rr_class r) ++ rr_ttl r ++ u16 (zlen d)) ++ d ++ b) by (by rewrite <- !app_assoc).
    apply zslice_app; [|done]; rewrite !zlen_app, !zlen_u16, Httl; lia. }
  unfold answer_of; fold o ty d; rewrite Hnm; unfold ty, d in *; destruct (rr_data r) as [ip|ip|cn]; cbn in Hd |- *;
    rewrite ?Hsl by (by cbn); cbn [access rbind]; do 2 f_equal; cbn; lia.
Qed.

Lemma parse_answers_spec fuel msg slack rs : forall (a b : bytes) answers,
  (128 <= fuel)%nat -> Forall (record_ok msg) rs -> a ++ concat (record_wire <$> rs) ++ b = msg ++ slack -> 0 < zlen a ->
  zlen a + zlen (concat (record_wire <$> rs)) <= zlen msg ->
  parse_answers (length rs) fuel (msg ++ slack) (zlen a) (zlen msg) answers = Ok (0, answers ++ (answer_of <$> rs)).
Proof.
  induction rs as [|r rs IH]; intros a b answers Hfuel Hrs E Ha Hl; cbn [length parse_answers fmap list_fmap concat] in *.
  - by rewrite app_nil_r.
  - apply Forall_cons in Hrs as [Hr Hrs]; rewrite <- app_assoc in E; rewrite zlen_app in Hl.
    pose proof (zlen_nonneg (concat (record_wire <$> rs))); pose proof (zlen_nonneg (record_wire r)).
    rewrite (parse_answer_spec fuel msg slack a _ r Hfuel Hr E Ha) by lia.
    rewrite <- zlen_app, (IH (a ++ record_wire r) b); [by rewrite <- app_assoc | done | done | by rewrite <- app_assoc | ..];
      rewrite ?zlen_app; lia.
Qed.

Lemma skip_questions_spec qs : forall (pre post : bytes) remaining,
  Forall (fun q => labels_ok (q_name q)) qs -> zlen (concat (question_wire <$> qs)) <= remaining ->
  skip_questions (length qs) (pre ++ concat (question_wire <$> qs) ++ post) (zlen pre) remaining =
    Ok (zlen pre + zlen (concat (question_wire <$> qs)), remaining - zlen (concat (question_wire <$> qs))).
Proof.
  induction qs as [|q qs IH]; intros pre post remaining Hq Hl; cbn [length skip_questions fmap list_fmap concat] in *.
  - by rewrite zlen_nil, Z.add_0_r, Z.sub_0_r.
  - apply Forall_cons in Hq as [Hq Hqs]; pose proof (zlen_enc_name (q_name q)); pose proof (zlen_nonneg (concat (question_wire <$> qs))).
    assert (zlen (question_wire q) = zlen (enc_name (q_name q)) + 4) as Hz by (unfold question_wire; rewrite !zlen_app, !zlen_u16; lia).
    rewrite zlen_app in Hl |- *; unfold question_wire at 1; rewrite <- !app_assoc, skip_name_spec by (done || lia); cbn [rbind].
    bool_false (zlen (enc_name (q_name q)) <=? 0); bool_false (remaining - (zlen (enc_name (q_name q)) + 4) <? 0).
    replace (zlen pre + (zlen (enc_name (q_name q)) + 4)) with (zlen (pre ++ question_wire q)) by (rewrite zlen_app; lia).
    rewrite (app_assoc pre), IH by (done || lia); rewrite zlen_app; do 2 f_equal; lia.
Qed.

End theorem_lemmas.

(** ** Theorems *)

(** A domain name encoded in a message (labels of 1 to 63 bytes, at most 254 bytes of text) is
    read back as its labels joined with dots, wherever behind the first byte it lies. *)
Theorem dns_name_roundtrip (labels : list bytes) (pre post : bytes) plen :
  labels_ok labels -> zlen (name_text labels) < 255 -> 0 < zlen pre ->
  zlen pre + zlen (enc_name labels) <= plen ->
  dns_parse_name (S (length labels)) (pre ++ enc_name labels ++ post) (zlen pre) plen = Ok (0, name_text labels).
Proof. intros; apply parse_name_spec; try done; lia. Qed.

(** C20. On a well-formed response the parser returns success with exactly its answers, in order, behind what
    the vector held: any number of questions; answers of type A with their version 4 address, AAAA with their
    version 6 address, and CNAME without an address; any class and TTL; names written in full, or a pointer to
    a name that is written in full elsewhere in the message; any authority and additional sections behind.
    (Names that mix labels and a pointer, the empty name as the name of an answer, and other types of
    answers are not meant.) *)
Theorem dns_response_parsed `{Platform, !PlatformOk} fuel txid flags nscount arcount qs rs (sections slack : bytes) answers :
  let msg := response txid flags nscount arcount qs rs sections in
  fits 16 txid -> fits 16 (zlen qs) -> fits 16 (zlen rs) -> Forall (fun q => labels_ok (q_name q)) qs ->
  Forall (record_ok msg) rs -> (128 <= fuel)%nat ->
  dns_parse_answers fuel (msg ++ slack) (zlen msg) answers = Ok (0, answers ++ (answer_of <$> rs)).
Proof.
  intros msg Ht Hnq Hnr Hqs Hrs Hfuel; unfold dns_parse_answers.
  set (head := u16 txid ++ u16 flags ++ u16 (zlen qs) ++ u16 (zlen rs) ++ u16 nscount ++ u16 arcount).
  set (wq := concat (question_wire <$> qs)); set (wr := concat (record_wire <$> rs)).
  assert (msg = head ++ wq ++ wr ++ sections) as Em by done; assert (zlen head = 12) as Hh by (unfold head; by rewrite !zlen_app, !zlen_u16).
  assert (zlen msg = 12 + zlen wq + zlen wr + zlen sections) as Hz by (rewrite Em, !zlen_app, Hh; lia).
  assert (forall x v y n, head = x ++ u16 v ++ y -> fits 16 v -> n = zlen x -> READ_U16 (msg ++ slack) n = Ok v) as Hrd
    by (intros x v y n E Hv ->; rewrite Em, E, <- !app_assoc; by apply READ_U16_app).
  rewrite (Hrd [] txid _ 0 eq_refl Ht eq_refl); cbn [rbind].
  rewrite (Hrd (u16 txid ++ u16 flags) (zlen qs) _ 4 eq_refl Hnq eq_refl); cbn [rbind].
  rewrite (Hrd (u16 txid ++ u16 flags ++ u16 (zlen qs)) (zlen rs) _ 6 eq_refl Hnr eq_refl); cbn [rbind].
  pose proof (zlen_nonneg wq); pose proof (zlen_nonneg wr); pose proof (zlen_nonneg sections).
  assert (forall {A} (l : list A), Z.to_nat (zlen l) = length l) as Hn by (intros A l; unfold zlen; lia).
  rewrite !Hn; assert (skip_questions (length qs) (msg ++ slack) 12 (zlen msg - 12) = Ok (12 + zlen wq, zlen msg - 12 - zlen wq)) as ->
    by (rewrite <- Hh, Em, <- !app_assoc; apply skip_questions_spec; [done | rewrite <- Em; fold wq; lia]).
  replace (12 + zlen wq) with (zlen (head ++ wq)) by (rewrite zlen_app; lia).
  apply (parse_answers_spec _ _ _ _ _ (sections ++ slack)); try done; [by rewrite Em, <- !app_assoc | ..]; rewrite zlen_app; fold wr; lia.
Qed.

(** For every message that ends before its buffer does, the name parser reads only inside the
    buffer and writes only inside its array of 256 bytes, whatever lengths and pointers the
    message contains. *)
Theorem dns_name_memory_safe fuel (payload : bytes) off plen :
  is_bytes payload -> plen < zlen payload -> 0 <= off ->
  match dns_parse_name fuel payload off plen with Ok _ | Hang => True | Err _ | Ub => False end.
Proof.
  intros Hb Hl Ho; unfold dns_parse_name; destruct (_ || _); [done|].
  apply dns_name_loop_safe; try done; unfold MAX_STR_LEN; lia.
Qed.

(** A compression pointer that points at itself makes the name parser call itself without
    bound: no number of steps lets it return. *)
Theorem dns_pointer_loop_never_returns fuel (payload : bytes) off plen :
  0 < off < 256 -> off + 1 < plen -> zget payload off = Some 192 -> zget payload (off + 1) = Some off ->
  dns_parse_name fuel payload off plen = Hang.
Proof.
  intros Ho Hl H0 H1; unfold dns_parse_name; bool_false (off =? 0); bool_false (plen <=? off); cbn [orb].
  induction fuel as [|fuel IH]; cbn [dns_name_loop]; bool_true (off <? plen); [done|].
  rewrite H0, H1; cbn [access rbind]; change (Z.land 192 192 =? 192) with true; bool_false (off <? off).
  cbv iota; cbn [rbind]; bool_false (off =? 0); bool_false (plen <=? off); cbn [orb]; by rewrite IH.
Qed.

(** A message that fills its buffer and ends in the first byte of a pointer makes the name
    parser read the byte behind the buffer. *)
Theorem dns_truncated_pointer_overreads fuel (pre : bytes) :
  0 < zlen pre -> dns_parse_name (S fuel) (pre ++ [192]) (zlen pre) (zlen (pre ++ [192])) = Ub.
Proof.
  intros Hp; unfold dns_parse_name; rewrite zlen_app; change (zlen [192]) with 1.
  bool_false (zlen pre =? 0); bool_false (zlen pre + 1 <=? zlen pre); cbn [orb dns_name_loop].
  bool_true (zlen pre <? zlen pre + 1); rewrite zget_mid by done; cbn [access rbind].
  change (Z.land 192 192 =? 192) with true; bool_false (zlen pre <? zlen pre); cbv iota; cbn [rbind].
  destruct (zget (pre ++ [192]) (zlen pre + 1)) as [x|] eqn:E; [|done].
  apply zget_Some_range in E; rewrite zlen_app in E; change (zlen [192]) with 1 in E; lia.
Qed.

(** The private-address test: loopback and the hosts of the three networks are private, version
    6 addresses are not; but its loop counts the bytes of the table instead of its entries, so for
    every other version 4 address it reads behind the table. *)
Theorem private_address_overruns `{AsioIp} (a : Z) :
  1 < range_size ->
  is_private_address (V6 a) = Ok false /\
  is_private_address (V4 a) =
    if is_loopback a || existsb (fun net => hosts_contain net a) g_private_networks then Ok true else Ub.
Proof.
  intros Hs; split; [done|]; unfold is_private_address; destruct (is_loopback a); [done|].
  assert (exists n, Z.to_nat sizeof_private_networks = (4 + n)%nat) as [n ->].
  { exists (Z.to_nat sizeof_private_networks - 4)%nat; unfold sizeof_private_networks.
    change (zlen g_private_networks) with 3; lia. }
  cbn [Nat.add private_loop orb existsb g_private_networks].
  change (zget g_private_networks 0) with (Some (bs "10.0.0.0/8")).
  change (zget g_private_networks (0 + 1)) with (Some (bs "172.16.0.0/12")).
  change (zget g_private_networks (0 + 1 + 1)) with (Some (bs "192.168.0.0/16")).
  change (zget g_private_networks (0 + 1 + 1 + 1)) with (@None bytes); cbn [access rbind].
  by destruct (hosts_contain (bs "10.0.0.0/8") a), (hosts_contain (bs "172.16.0.0/12") a),
    (hosts_contain (bs "192.168.0.0/16") a).
Qed.

(** ** Witnesses *)

Module DnsDemo.

#[export] Instance demo_platform : Platform := little_endian.
#[export] Instance demo_platform_ok : PlatformOk := little_endian_ok.

(** The hosts of the three networks: the network and broadcast addresses are left out. *)
#[export] Instance demo_asio : AsioIp := {|
  is_loopback a := Z.shiftr a 24 =? 127;
  hosts_contain net a :=
    if decide (net = bs "10.0.0.0/8") then (167772160 <? a) && (a <? 184549375)
    else if decide (net = bs "172.16.0.0/12") then (2886729728 <? a) && (a <? 2887778303)
    else (3232235520 <? a) && (a <? 3232301055);
  range_size := 8
|}.

Definition labels : list bytes := [bs "www"; bs "example"; bs "com"].
(** Two version 4 addresses of the name asked for, and a message with a CNAME, an AAAA record of the alias
    written in full, and bytes of a further section. *)
Definition a_record (ip : bytes) : record := {| rr_owner := Pointer 12; rr_class := 1; rr_ttl := [0; 0; 1; 44]; rr_data := RdA ip |}.
Definition asks (ty : Z) : question := {| q_name := labels; q_type := ty; q_class := 1 |}.
Definition alias : list bytes := [bs "cdn"; bs "net"].
Definition aliased : list record := [
  {| rr_owner := Pointer 12; rr_class := 1; rr_ttl := [0; 0; 0; 60]; rr_data := RdCname (enc_name alias) |};
  {| rr_owner := Pointer 45; rr_class := 1; rr_ttl := [0; 0; 0; 60]; rr_data := RdA [1; 2; 3; 4] |};
  {| rr_owner := Full alias; rr_class := 1; rr_ttl := [1; 0; 0; 0]; rr_data := RdAAAA (zrepeat 16 7) |}].
Definition aliased_message : bytes := response 4660 33152 0 1 [asks 28] aliased [0; 0; 41].

Lemma aliased_ok : Forall (record_ok aliased_message) aliased.
Proof.
  assert (name_ok labels /\ name_ok alias) as [Hl Ha] by (split; apply (bool_decide_unpack _); by vm_compute).
  repeat apply Forall_cons_2; [..|by apply Forall_nil_2]; (split; [|by split_and!; vm_compute]).
  - split; [lia|]; exists (ztake 12 aliased_message), labels, (zdrop 29 aliased_message); by split_and!; vm_compute.
  - split; [lia|]; exists (ztake 45 aliased_message), alias, (zdrop 54 aliased_message); by split_and!; vm_compute.
  - by split.
Qed.

End DnsDemo.

Section witnesses.
Import DnsDemo.

Lemma dns_name_roundtrip_witness :
  dns_parse_name 4 (zrepeat 12 7 ++ enc_name labels ++ [9; 9]) 12 31 = Ok (0, bs "www.example.com").
Proof.
  apply (dns_name_roundtrip labels (zrepeat 12 7) [9; 9] 31);
    [by apply (bool_decide_unpack _); vm_compute | by vm_compute..].
Defined.

Lemma dns_response_parsed_witness :
  dns_parse_answers 128 (aliased_message ++ zrepeat 100 0) (zlen aliased_message) [] = Ok (0, answer_of <$> aliased) /\
  (v4_ip <$> (answer_of <$> aliased)) !! 1%nat = Some [1; 2; 3; 4] /\
  (v6_ip <$> (answer_of <$> aliased)) !! 2%nat = Some (zrepeat 16 7).
Proof.
  split; [|done]; apply (dns_response_parsed 128 4660 33152 0 1 [asks 28] aliased [0; 0; 41] (zrepeat 100 0) []);
    [by vm_compute.. | by apply (bool_decide_unpack _); vm_compute | apply aliased_ok | lia].
Defined.

Lemma dns_name_memory_safe_witness :
  match dns_parse_name 5 (zrepeat 12 7 ++ [192; 12; 0]) 12 14 with Ok _ | Hang => True | Err _ | Ub => False end.
Proof.
  apply (dns_name_memory_safe 5 (zrepeat 12 7 ++ [192; 12; 0]) 12 14);
    [by apply (bool_decide_unpack _); vm_compute | by vm_compute | lia].
Defined.

Lemma dns_pointer_loop_never_returns_witness :
  dns_parse_name 1000 (zrepeat 12 0 ++ [192; 12; 0; 1]) 12 16 = Hang.
Proof.
  apply (dns_pointer_loop_never_returns 1000 (zrepeat 12 0 ++ [192; 12; 0; 1]) 12 16);
    [lia | lia | by vm_compute | by vm_compute].
Defined.

Lemma dns_truncated_pointer_overreads_witness :
  dns_parse_name 1 (zrepeat 12 0 ++ [192]) 12 13 = Ub.
Proof. apply (dns_truncated_pointer_overreads 0 (zrepeat 12 0)); by vm_compute. Defined.

(** 8.8.8.8. *)
Lemma private_address_overruns_witness :
  is_private_address (V6 134744072) = Ok false /\ is_private_address (V4 134744072) = Ub.
Proof.
  destruct (private_address_overruns 134744072) as [E1 E2]; [by vm_compute|].
  split; [exact E1 | exact (eq_trans E2 ltac:(by vm_compute))].
Defined.

End witnesses.
