(* ===== verification/LocalProxy.v ===== *)
(** * The local proxy front end

    What the entry server does with an accepted connection up to the point where it hands it to
    the relay: [handle_conn] of src/snova/server/entry_server.cc and the handlers of
    src/snova/server/socks5.cc, src/snova/server/http.cc and src/snova/server/tls.cc.  The accepted
    socket is a connection of [IOConnection]; a handler's result is the call of [relay] or
    [relay_direct] it makes, if any. *)

From S2P Require Import Prelude IoBuf Io Text HttpHelper Sni NetHelper.

Record RelayContext := {
  user : bytes; remote_host : bytes; remote_port : Z; is_tls : bool; is_tcp : bool
}.

(** A call of the relay. *)
Record relay_call := { data : bytes; ctx : RelayContext; direct : bool }.

Definition kMethodNoAuth : Z := 0.
Definition kCmdConnect : Z := 1.
Definition kAddrIPV4 : Z := 1.
Definition kAddrIPV6 : Z := 4.
Definition kAddrDomain : Z := 3.

(** [address::to_string] of asio for the bytes of an address. *)
Class AsioText := { v4_text : bytes -> bytes; v6_text : bytes -> bytes; addr_text : ip_address -> bytes }.

(** ** A socket that was moved from

    It is closed: every operation on it fails. *)
Module MovedSocket.

Definition conn : Type := unit.
Definition bad_descriptor : Z := 9.

#[export] Instance moved_conn : IOConnection conn := {|
  AsyncRead cap := sret ([], bad_descriptor);
  AsyncWrite b := sret (0, bad_descriptor);
  AsyncWriteV bufs := sret (0, bad_descriptor);
  IoClose c := c
|}.

End MovedSocket.

Section local_proxy.
Context {C : Type} `{IOConnection C, AbslStrings, AsioText, AsioIp}.

(** [GlobalFlags::GetUser()]. *)
Variable flag_user : bytes.

(** ** tls.cc *)

(** The relay call, or [None] when the handler returns false; the caller's socket and buffer are
    moved in either case. *)
Definition handle_tls_connection (readable : bytes) (orig_remote_port : option Z) : res (option relay_call) :=
  let remote_port := match orig_remote_port with Some p => p | None => 443 end in
  match parse_sni readable with
  | Ok remote_host =>
      if decide (remote_host = bs "courier.push.apple.com") then Ok None
      else
        Ok (Some {| data := readable; direct := false;
                    ctx := {| user := flag_user; remote_host := remote_host; remote_port := remote_port;
                              is_tls := true; is_tcp := true |} |})
  | Err rc => Ok None
  | Ub => Ub
  | Hang => Hang
  end.

(** ** socks5.cc *)

(** The address of a request of [n] bytes: the host, and the port when it is kept as an endpoint. *)
Definition socks5_target (read_buffer : bytes) (n remote_port : Z) : res (option (bytes * option Z)) :=
  do target_addr_type <- access (zget read_buffer 3);
  if target_addr_type =? kAddrIPV4 then
    if negb (n =? 10) then Ok None
    else
      do ip <- access (zslice 4 4 read_buffer);
      Ok (Some (v4_text ip, Some remote_port))
  else if target_addr_type =? kAddrIPV6 then
    if negb (n =? 22) then Ok None
    else
      do ip <- access (zslice 4 16 read_buffer);
      Ok (Some (v6_text ip, Some remote_port))
  else if target_addr_type =? kAddrDomain then
    do domain_len <- access (zget read_buffer 4);
    if negb (n =? 7 + domain_len) then Ok None
    else
      do name <- access (zslice 5 domain_len read_buffer);
      Ok (Some (name, None))
  else Ok None.

(** What is done with the first bytes for the remote side: a TLS hello goes to the TLS handler.  When that
    refuses it, the bytes are relayed from the buffer that was moved into the handler and released there. *)
Definition socks5_relay (first remote_host : bytes) (remote_port : Z) (endpoint_port : option Z)
  : res (option relay_call) :=
  let ctx := {| user := flag_user; remote_host := remote_host; remote_port := remote_port;
                is_tls := false; is_tcp := true |} in
  if (3 <? zlen first) && (nth 0 first 0 =? 22) then
    do tls_major_ver <- access (zget first 1);
    if tls_major_ver <? 3 then Ok None
    else
      do tls <- handle_tls_connection first endpoint_port;
      match tls with
      | Some call => Ok (Some call)
      | None => Ub
      end
  else Ok (Some {| data := first; ctx := ctx; direct := false |}).

(** [read_buffer] is the whole buffer, at whose front the greeting was read. *)
Definition handle_socks5_connection (read_buffer : bytes) : st C (option relay_call) :=
  let! num_methods := slift (access (zget read_buffer 1)) in
  let! methods_view := slift (access (zslice 2 num_methods read_buffer)) in
  match bfind [kMethodNoAuth] methods_view with
  | None => sret None
  | Some _ =>
      let! _ := AsyncWrite [5; kMethodNoAuth] in
      let! '(d, ec) := AsyncRead (zlen read_buffer) in
      let! read_buffer := slift (access (zblit 0 d read_buffer)) in
      let n := zlen d in
      if negb (ec =? 0) || (n <? 4) then sret None
      else
        let! b0 := slift (access (zget read_buffer 0)) in
        let! b1 := slift (access (zget read_buffer 1)) in
        if negb (b0 =? 5) then sret None
        else if negb (b1 =? kCmdConnect) then sret None
        else
          let! hi := slift (access (zget read_buffer (n - 2))) in
          let! lo := slift (access (zget read_buffer (n - 1))) in
          let remote_port := wrap 16 (Z.shiftl hi 8 + lo) in
          let! target := slift (socks5_target read_buffer n remote_port) in
          match target with
          | None => sret None
          | Some (remote_host, endpoint_port) =>
              let! _ := AsyncWrite [5; 0; 0; 1; 0; 0; 0; 0; 0; 0] in
              let! '(d, rec) := AsyncRead (zlen read_buffer) in
              let! read_buffer := slift (access (zblit 0 d read_buffer)) in
              let rn := zlen d in
              if negb (rec =? 0) then sret None
              else
                let! first := slift (access (zslice 0 rn read_buffer)) in
                slift (socks5_relay first remote_host remote_port endpoint_port)
          end
  end.

(** ** http.cc *)

Definition head_end : bytes := [13; 10; 13; 10].

(** The host and the port (0 for none) of a Host header; [None] for a port that is no number. *)
Definition http_target (host_port_view : bytes) : option (bytes * Z) :=
  match StrSplit [58] host_port_view with
  | [h; p] => match stoi p with Ok v => Some (h, wrap 16 v) | _ => None end
  | _ => Some (host_port_view, 0)
  end.

(** [read_until] is called on the parameter the socket was moved from. *)
Definition handle_http_connection (read_buffer : bytes) (readed_len : Z) : st C (option relay_call) :=
  let! '(read_buffer, readed_len, end_pos) :=
    slift (read_until (C := MovedSocket.conn) (H := MovedSocket.moved_conn) 2 head_end read_buffer readed_len tt).2 in
  if end_pos <? 0 then sret None
  else
    let! readable_data := slift (access (zslice 0 readed_len read_buffer)) in
    let! head := slift (access (zslice 0 end_pos readable_data)) in
    let http_headers_view := StripAsciiWhitespace head in
    match parse_http_hostport http_headers_view with
    | Ok host_port_view =>
        match http_target host_port_view with
        | None => sret None
        | Some (host_view, remote_port) =>
            match bfind [32] http_headers_view with
            | None => sret None
            | Some pos =>
                let method_view := ztake pos http_headers_view in
                if EqualsIgnoreCase method_view (bs "CONNECT") then
                  let tls := remote_port =? 0 in
                  let! _ := AsyncWrite (bs "HTTP/1.0 200 Connection established" ++ head_end) in
                  sret (Some {| data := []; direct := false;
                                ctx := {| user := []; remote_host := host_view;
                                          remote_port := if tls then 443 else remote_port;
                                          is_tls := tls; is_tcp := true |} |})
                else
                  sret (Some {| data := readable_data; direct := false;
                                ctx := {| user := []; remote_host := host_view;
                                          remote_port := if remote_port =? 0 then 80 else remote_port;
                                          is_tls := false; is_tcp := true |} |})
            end
        end
    | Err rc => sret None
    | r => slift (rbind r (fun _ => Ok None))
    end.

(** ** entry_server.cc *)

(** The address the connection was redirected from: [orig_dst] is what [get_orig_dst] yields on a
    redirect node, [None] elsewhere or when it fails; private addresses do not count. *)
Definition redirect_address (orig_dst : option (ip_address * Z)) : res (option (ip_address * Z)) :=
  match orig_dst with
  | None => Ok None
  | Some (addr, port) =>
      do private <- is_private_address addr;
      Ok (if private : bool then None else Some (addr, port))
  end.

Definition http_methods : list bytes :=
  [bs "GET"; bs "CON"; bs "PUT"; bs "POS"; bs "DEL"; bs "OPT"; bs "TRA"; bs "PAT"; bs "HEA"; bs "UPG"].

(** The fallback at the end of the handler. *)
Definition relay_redirected (remote_endpoint : option (ip_address * Z)) (readable : bytes) : option relay_call :=
  match remote_endpoint with
  | Some (addr, port) =>
      Some {| data := readable; direct := true;
              ctx := {| user := []; remote_host := addr_text addr; remote_port := port;
                        is_tls := false; is_tcp := true |} |}
  | None => None
  end.

(** [buffer] is what [get_iobuf(kMaxChunkSize)] returned.  The TLS handler releases it, also when it
    refuses the hello, but leaves the endpoint. *)
Definition handle_conn (orig_dst : option (ip_address * Z)) (buffer : bytes) : st C (option relay_call) :=
  let! remote_endpoint := slift (redirect_address orig_dst) in
  let has_redirect_address := match remote_endpoint with Some _ => true | None => false end in
  let! '(d, ec) := AsyncRead kMaxChunkSize in
  let! buffer := slift (access (zblit 0 d buffer)) in
  let n := zlen d in
  if negb (ec =? 0) then sret None
  else if n =? 0 then sret None
  else if n <? 3 then sret None
  else
    let! readable := slift (access (zslice 0 n buffer)) in
    let! cmd3 := slift (access (zslice 0 3 readable)) in
    let! b0 := slift (access (zget buffer 0)) in
    let! b1 := slift (access (zget buffer 1)) in
    if negb has_redirect_address && (b0 =? 5) then handle_socks5_connection buffer
    else if negb has_redirect_address && (b0 =? 4) then sret None
    else if b0 =? 22 then
      if b1 <? 3 then sret None
      else
        let! tls := slift (handle_tls_connection readable (snd <$> remote_endpoint)) in
        match tls with
        | Some call => sret (Some call)
        | None => match remote_endpoint with Some _ => slift Ub | None => sret None end
        end
    else if existsb (EqualsIgnoreCase cmd3) http_methods then handle_http_connection buffer n
    else sret (relay_redirected remote_endpoint readable).

End local_proxy.

(** ** SOCKS5 sessions *)

Inductive socks5_addr := SV4 (ip : bytes) | SV6 (ip : bytes) | SDomain (name : bytes).

Definition addr_wf (a : socks5_addr) : Prop :=
  match a with SV4 ip => zlen ip = 4 | SV6 ip => zlen ip = 16 | SDomain name => zlen name <= 255 end.

(** The CONNECT request of RFC 1928. *)
Definition socks5_request (a : socks5_addr) (port : Z) : bytes :=
  [5; 1; 0] ++
  match a with SV4 ip => 1 :: ip | SV6 ip => 4 :: ip | SDomain name => 3 :: zlen name :: name end ++
  [port / 256; port mod 256].

Definition addr_host `{AsioText} (a : socks5_addr) : bytes :=
  match a with SV4 ip => v4_text ip | SV6 ip => v6_text ip | SDomain name => name end.

(** The port that is kept for a TLS connection. *)
Definition addr_endpoint_port (a : socks5_addr) (port : Z) : option Z :=
  match a with SDomain _ => None | _ => Some port end.

Section socks5_lemmas.
Context {C : Type} `{IOConnection C, AbslStrings, AsioText, AsioIp}.

(** What the connection does during a session: the replies are written, and each of the client's
    two messages arrives in one read. *)
Definition session (c : C) (cap : Z) (request first : bytes) (c4 : C) : Prop :=
  exists c1 c2 c3 w1 w2,
    AsyncWrite [5; 0] c = (c1, Ok w1) /\ AsyncRead cap c1 = (c2, Ok (request, 0)) /\
    AsyncWrite [5; 0; 0; 1; 0; 0; 0; 0; 0; 0] c2 = (c3, Ok w2) /\ AsyncRead cap c3 = (c4, Ok (first, 0)).

(** A greeting that offers the method without authentication. *)
Definition greeting_ok (buf : bytes) : Prop :=
  match zget buf 1 with
  | Some n => match zslice 2 n buf with Some methods => 0 ∈ methods | None => False end
  | None => False
  end.

Lemma bfind_elem x l : x ∈ l -> exists p, bfind [x] l = Some p.
Proof.
  induction l as [|y l IH]; intros Hx; [by apply elem_of_nil in Hx|]; cbn -[decide].
  destruct (decide ([x] `prefix_of` y :: l)) as [|Hn]; [by eexists|].
  apply elem_of_cons in Hx as [->|Hx]; [exfalso; apply Hn; by exists l|].
  destruct (IH Hx) as [p ->]; by eexists.
Qed.

(** Reads of what a read put at the front of the buffer. *)
Lemma zget_blit (d buf buf' : bytes) i : zblit 0 d buf = Some buf' -> 0 <= i < zlen d -> zget buf' i = zget d i.
Proof. intros (_ & _ & _ & ->)%zblit_inv Hi; rewrite ztake_0; cbn [app]; apply zget_app_l; lia. Qed.

Lemma zslice_blit (d buf buf' : bytes) off n :
  zblit 0 d buf = Some buf' -> 0 <= off -> 0 <= n -> off + n <= zlen d -> zslice off n buf' = zslice off n d.
Proof.
  intros (_ & ? & Hl & ->)%zblit_inv Ho Hn Hle; rewrite ztake_0 in *; cbn [app] in *.
  rewrite !zslice_Some by lia; f_equal; unfold ztake, zdrop, zlen in *.
  rewrite !take_drop_commute; f_equal; apply take_app_le; lia.
Qed.

(** The address and port of a request. *)
Lemma socks5_target_spec a port buf buf' :
  addr_wf a -> fits 16 port -> zblit 0 (socks5_request a port) buf = Some buf' ->
  let n := zlen (socks5_request a port) in
  zget buf' 0 = Some 5 /\ zget buf' 1 = Some 1 /\ zget buf' (n - 2) = Some (port / 256) /\
  zget buf' (n - 1) = Some (port mod 256) /\ 4 <= n /\
  socks5_target buf' n port = Ok (Some (addr_host a, addr_endpoint_port a port)).
Proof.
  intros Ha Hp Hb n.
  set (h := match a with SV4 ip => 1 :: ip | SV6 ip => 4 :: ip | SDomain name => 3 :: zlen name :: name end).
  assert (socks5_request a port = [5; 1; 0] ++ h ++ [port / 256; port mod 256]) as E by done.
  assert (n = 3 + zlen h + 2) as Hn by (unfold n; rewrite E, !zlen_app; change (zlen [5; 1; 0]) with 3; zlen_solve).
  assert (1 <= zlen h) as Hh by (unfold h; destruct a; zlen_solve).
  assert (forall i, 0 <= i < n -> zget buf' i = zget ([5; 1; 0] ++ h ++ [port / 256; port mod 256]) i) as Hg
    by (intros; rewrite <- E; by eapply zget_blit).
  assert (forall off k, 0 <= off -> 0 <= k -> off + k <= n ->
    zslice off k buf' = zslice off k ([5; 1; 0] ++ h ++ [port / 256; port mod 256])) as Hsl
    by (intros; rewrite <- E; by eapply zslice_blit).
  do 2 (split; [by rewrite Hg by lia|]).
  split; [rewrite Hg by lia; rewrite app_assoc, zget_app_r; rewrite zlen_app; change (zlen [5; 1; 0]) with 3; [|lia];
    by replace (n - 2 - (3 + zlen h)) with 0 by lia|].
  split; [rewrite Hg by lia; rewrite app_assoc, zget_app_r; rewrite zlen_app; change (zlen [5; 1; 0]) with 3; [|lia];
    by replace (n - 1 - (3 + zlen h)) with 1 by lia|].
  split; [lia|]; unfold socks5_target; rewrite Hg by lia; unfold h in *; destruct a as [ip|ip|name]; cbn in Ha.
  - rewrite zlen_cons in Hn; assert (zslice 4 4 buf' = Some ip) as ->
      by (rewrite Hsl by lia; by apply (zslice_app 4 4 [5; 1; 0; 1] [port / 256; port mod 256] ip)).
    by bool_true (n =? 10).
  - rewrite zlen_cons in Hn; assert (zslice 4 16 buf' = Some ip) as ->
      by (rewrite Hsl by lia; by apply (zslice_app 4 16 [5; 1; 0; 4] [port / 256; port mod 256] ip)).
    by bool_true (n =? 22).
  - rewrite !zlen_cons in Hn; pose proof (zlen_nonneg name); rewrite Hg by lia.
    assert (zslice 5 (zlen name) buf' = Some name) as Es
      by (rewrite Hsl by lia; by apply (zslice_app 5 (zlen name) [5; 1; 0; 3; zlen name] [port / 256; port mod 256] name)).
    change (zget ([5; 1; 0] ++ (3 :: zlen name :: name) ++ [port / 256; port mod 256]) 3) with (Some 3).
    change (zget ([5; 1; 0] ++ (3 :: zlen name :: name) ++ [port / 256; port mod 256]) 4) with (Some (zlen name)).
    cbn -[zslice Z.add]; bool_true (n =? 7 + zlen name); cbn [negb]; by rewrite Es.
Qed.

Lemma port_of_bytes port : fits 16 port -> wrap 16 (Z.shiftl (port / 256) 8 + port mod 256) = port.
Proof.
  unfold fits; intros; rewrite Z.shiftl_mul_pow2 by lia; change (2 ^ 8) with 256.
  rewrite wrap_small; [|unfold fits]; pose proof (Z.div_mod port 256); lia.
Qed.

(** The session up to the first bytes for the remote side. *)
Lemma socks5_session_spec flag_user c buf a port first c4 :
  greeting_ok buf -> addr_wf a -> fits 16 port -> 300 <= zlen buf -> zlen first <= zlen buf ->
  session c (zlen buf) (socks5_request a port) first c4 ->
  handle_socks5_connection flag_user buf c =
    (c4, socks5_relay flag_user first (addr_host a) port (addr_endpoint_port a port)).
Proof.
  intros Hg Ha Hp Hb Hfl (c1 & c2 & c3 & w1 & w2 & E1 & E2 & E3 & E4).
  unfold greeting_ok in Hg; unfold handle_socks5_connection.
  destruct (zget buf 1) as [nm|]; [|done]; destruct (zslice 2 nm buf) as [ms|] eqn:Es; [|done]; srun; rewrite Es.
  destruct (bfind_elem _ _ Hg) as [p Ep]; change (bfind [kMethodNoAuth] ms) with (bfind [0] ms); rewrite Ep.
  change [5; kMethodNoAuth] with [5; 0]; rewrite E1, E2.
  assert (zlen (socks5_request a port) <= zlen buf) as Hreq
    by (unfold socks5_request; destruct a; cbn in Ha; zlen_solve).
  destruct (zblit 0 (socks5_request a port) buf) as [buf1|] eqn:Eb; [|rewrite zblit_Some in Eb by lia; done].
  destruct (socks5_target_spec a port buf buf1 Ha Hp Eb) as (G0 & G1 & G2 & G3 & Hn & Gt); cbn zeta in *.
  cbn [negb Z.eqb]; bool_false (zlen (socks5_request a port) <? 4); cbn [orb]; rewrite G0, G1, G2, G3.
  unfold kCmdConnect; cbn [negb Z.eqb Pos.eqb]; rewrite port_of_bytes, Gt by done; srun; rewrite E3.
  pose proof (zblit_inv _ _ _ _ Eb) as (_ & _ & Hz & _); rewrite Hz, E4.
  destruct (zblit 0 first buf1) as [buf2|] eqn:Eb2; [|rewrite zblit_Some in Eb2 by lia; done]; cbn [negb Z.eqb].
  pose proof (zblit_inv _ _ _ _ Eb2) as (_ & _ & _ & ->); rewrite ztake_0; cbn [app].
  by rewrite zslice_prefix.
Qed.

End socks5_lemmas.

(** ** Safety *)

(** Completes, or waits for the peer; undefined behaviour only when [Q]. *)
Definition safe (Q : Prop) {S A} (x : S * res A) : Prop :=
  match x.2 with Ok _ | Hang => True | Err _ => False | Ub => Q end.

Lemma safe_bind {S A B} (Q : Prop) (P : A -> Prop) (m : st S A) (k : A -> st S B) s :
  (forall s' a, m s = (s', Ok a) -> P a) -> safe Q (m s) -> (forall a s', P a -> safe Q (k a s')) -> safe Q (sbind m k s).
Proof.
  intros HP Hm Hk; unfold sbind; destruct (m s) as [s' [a| | |]] eqn:E; cbn in *; try done.
  apply Hk; by eapply HP.
Qed.

Lemma safe_weaken (Q : Prop) {S A} (x : S * res A) : safe False x -> safe Q x.
Proof. unfold safe; by destruct (x.2). Qed.

(** A pure step that succeeds. *)
Lemma safe_step {S A B} (Q : Prop) (r : res A) a (k : A -> st S B) s : r = Ok a -> safe Q (k a s) -> safe Q (sbind (slift r) k s).
Proof. by intros ->. Qed.

(** A TLS record whose hello names no server, or the one name that is excepted. *)
Definition refused_hello (d : bytes) : Prop :=
  zget d 0 = Some 22 /\ ((exists rc, parse_sni d = Err rc) \/ parse_sni d = Ok (bs "courier.push.apple.com")).

Section safety.
Context {C : Type} `{IOConnection C, !IOConnectionOk C, AbslStrings, !AbslStringsOk, AsioText, AsioIp}.
Variable flag_user : bytes.
Hypothesis writes_safe : forall b (c : C), safe False (AsyncWrite b c).

(** A refused hello was read. *)
Definition refused_hello_read : Prop :=
  exists cap (c c' : C) d, AsyncRead cap c = (c', Ok (d, 0)) /\ refused_hello d.

Lemma handle_tls_safe readable port : is_bytes readable -> zget readable 0 = Some 22 ->
  match handle_tls_connection flag_user readable port with
  | Ok (Some _) => True | Ok None => refused_hello readable | _ => False end.
Proof.
  intros Hb Hrec; unfold handle_tls_connection; pose proof (parse_sni_returns readable Hb) as Hr.
  destruct (parse_sni readable) as [sni|rc| |] eqn:E; cbn in Hr; try done; [case_decide; [|done]|]; split; try done.
  - right; congruence.
  - left; eauto.
Qed.

(** A read stored at the front of the buffer keeps its size and stays inside it. *)
Lemma safe_read {B} Q cap buf (k : bytes -> Z -> bytes -> st C B) (c : C) :
  0 <= cap <= zlen buf -> is_bytes buf ->
  (forall d ec buf' c', AsyncRead cap c = (c', Ok (d, ec)) -> zlen d <= cap -> is_bytes d -> is_bytes buf' -> zlen buf' = zlen buf ->
     buf' = d ++ zdrop (zlen d) buf -> safe Q (k d ec buf' c')) ->
  safe Q (sbind (AsyncRead cap) (fun x => let '(d, ec) := x in
          sbind (slift (access (zblit 0 d buf))) (fun buf' => k d ec buf')) c).
Proof.
  intros Hc Hb Hk; pose proof (read_fits cap c ltac:(lia)) as Hr.
  unfold sbind at 1; destruct (AsyncRead cap c) as [c' [[d ec]| | |]]; try done.
  destruct Hr as [Hd Hdb]; rewrite zblit_head by lia; eapply safe_step; [done|].
  apply Hk; try done; [apply is_bytes_app; auto with snova|].
  rewrite zlen_app, zlen_drop; zlen_solve.
Qed.

Lemma zget_bytes (l : bytes) i : is_bytes l -> 0 <= i < zlen l -> exists b, zget l i = Some b /\ 0 <= b < 256.
Proof.
  intros Hl Hi; destruct (zget_in_range l i Hi) as [b Hb]; exists b; split; [done|].
  unfold zget in Hb; destruct (i <? 0); [done|]; by apply (Forall_lookup_1 _ _ _ _ Hl Hb).
Qed.

Lemma socks5_target_safe buf n port : is_bytes buf -> 300 <= zlen buf ->
  exists t, socks5_target buf n port = Ok t.
Proof.
  intros Hb Hl; unfold socks5_target.
  destruct (zget_bytes buf 3 Hb) as (t & -> & _); [lia|]; destruct (zget_bytes buf 4 Hb) as (dl & -> & Hdl); [lia|].
  cbn [access rbind]; rewrite !zslice_Some by lia; cbn [access rbind].
  repeat match goal with |- context [if ?c then _ else _] => destruct c end; by eexists.
Qed.

Lemma socks5_relay_safe first host port ep : is_bytes first ->
  match socks5_relay flag_user first host port ep with
  | Ok _ => True | Ub => refused_hello first | _ => False end.
Proof.
  intros Hb; unfold socks5_relay; destruct (_ && _) eqn:E; [|done].
  apply andb_prop in E as [Hl%Z.ltb_lt Hrec%Z.eqb_eq]; destruct (zget_bytes first 1 Hb) as (b & -> & _); [lia|].
  cbn [access rbind]; destruct (b <? 3); [done|].
  assert (zget first 0 = Some 22) as H22 by (destruct first; cbn in Hrec; [done | by subst]).
  pose proof (handle_tls_safe first ep Hb H22); by destruct (handle_tls_connection flag_user first ep) as [[call|]| | |].
Qed.

Lemma socks5_safe buf (c : C) : is_bytes buf -> 300 <= zlen buf -> safe refused_hello_read (handle_socks5_connection flag_user buf c).
Proof.
  intros Hb Hl; unfold handle_socks5_connection.
  destruct (zget_bytes buf 1 Hb) as (nm & E & Hnm); [lia|]; eapply safe_step; [by rewrite E|].
  eapply safe_step; [by rewrite zslice_Some by lia|]; destruct (bfind _ _); [|done].
  apply (safe_bind _ (fun _ => True)); [done | apply safe_weaken, writes_safe |]; intros _ c1 _.
  apply safe_read; [lia | done |]; intros d ec buf1 c2 _ Hd Hdb Hb1 Hl1 _.
  destruct (negb (ec =? 0)) eqn:Eec; [done|]; cbn [orb]; case Z.ltb_spec; intros Hn; [done|].
  destruct (zget_bytes buf1 0 Hb1) as (b0 & E0 & _); [lia|]; eapply safe_step; [by rewrite E0|].
  destruct (zget_bytes buf1 1 Hb1) as (b1 & E1 & _); [lia|]; eapply safe_step; [by rewrite E1|].
  destruct (negb (b0 =? 5)); [done|]; destruct (negb (b1 =? kCmdConnect)); [done|].
  destruct (zget_bytes buf1 (zlen d - 2) Hb1) as (hi & Eh & _); [lia|]; eapply safe_step; [by rewrite Eh|].
  destruct (zget_bytes buf1 (zlen d - 1) Hb1) as (lo & Elo & _); [lia|]; eapply safe_step; [by rewrite Elo|].
  destruct (socks5_target_safe buf1 (zlen d) (wrap 16 (Z.shiftl hi 8 + lo)) Hb1) as [t Et]; [lia|].
  eapply safe_step; [exact Et|]; destruct t as [[host ep]|]; [|done].
  apply (safe_bind _ (fun _ => True)); [done | apply safe_weaken, writes_safe |]; intros _ c3 _.
  apply safe_read; [lia | done |]; intros d2 ec2 buf2 c4 Er2 Hd2 Hdb2 Hb2 Hl2 ->.
  case Z.eqb_spec; intros Hec2; [subst ec2|done]; cbn [negb]; eapply safe_step; [by rewrite zslice_prefix|].
  pose proof (socks5_relay_safe d2 host (wrap 16 (Z.shiftl hi 8 + lo)) ep Hdb2) as Hs; unfold slift, safe; cbn [snd].
  destruct (socks5_relay _ _ _ _ _); try done; by exists (zlen buf1), c3, c4, d2.
Qed.

(** [read_until] on the moved socket looks at what was read and reads nothing. *)
Lemma moved_read_until buf n : 0 <= n <= zlen buf ->
  exists buf' p, (read_until (C := MovedSocket.conn) (H := MovedSocket.moved_conn) 2 head_end buf n tt).2 = Ok (buf', n, p) /\
    (p = -1 \/ buf' = buf /\ bfind head_end (ztake n buf) = Some p).
Proof.
  intros Hn; cbn [read_until]; srun; rewrite zslice_Some, zdrop_0 by lia.
  destruct (bfind head_end (ztake n buf)) as [p|] eqn:E; [by exists buf, p; split; [|right]|].
  cbn; eexists _, (-1); by split; [|left].
Qed.

Lemma http_safe buf n (c : C) : 0 <= n <= zlen buf -> zlen buf < 2 ^ 63 -> safe False (handle_http_connection buf n c).
Proof.
  intros Hn Hl; unfold handle_http_connection.
  destruct (moved_read_until buf n Hn) as (buf' & p & E & Hp); eapply safe_step; [exact E|]; cbn beta iota.
  case Z.ltb_spec; intros Hp0; [done|]; destruct Hp as [|[-> Ep]]; [lia|].
  destruct (bfind_range _ _ _ Ep) as [_ Hr]; rewrite zlen_take in Hr by lia; change (zlen head_end) with 4 in Hr.
  eapply safe_step; [by rewrite zslice_Some, zdrop_0 by lia|].
  eapply safe_step; [by rewrite zslice_Some by (rewrite ?zlen_take; lia)|]; rewrite zdrop_0.
  set (h := StripAsciiWhitespace _); unfold parse_http_hostport.
  assert (zlen h < 2 ^ 64).
  { pose proof (strip_shorter (ztake p (ztake n buf))) as Hs; fold h in Hs.
    rewrite !zlen_take in Hs by (rewrite ?zlen_take; lia); lia. }
  rewrite http_get_header_eq by (done || by apply (bool_decide_unpack _); vm_compute).
  destruct (bfind (bs "Host:") h); [|done]; cbn zeta; destruct (bfind CRLF _); [|done].
  destruct (http_target _) as [[host port]|]; [|done]; destruct (bfind [32] h); [|done].
  destruct (EqualsIgnoreCase _ _); [|done].
  apply (safe_bind _ (fun _ => True)); [done | apply writes_safe | done].
Qed.

(** The test for private addresses returns or leaves its table. *)
Lemma redirect_address_outcome orig_dst :
  match redirect_address orig_dst with Ok _ | Ub => True | _ => False end.
Proof.
  destruct orig_dst as [[[a|a] port]|]; [|done..]; cbn; destruct (is_loopback a); [done|].
  generalize 0; induction (Z.to_nat sizeof_private_networks) as [|n IH]; intros i; [done|]; cbn [private_loop].
  destruct (zget g_private_networks i); [|done]; cbn [access rbind]; destruct (hosts_contain _ _); [done | apply IH].
Qed.

Lemma handle_conn_safe orig_dst buffer (c : C) :
  is_bytes buffer -> kMaxChunkSize <= zlen buffer < 2 ^ 63 ->
  safe (redirect_address orig_dst = Ub \/ refused_hello_read) (handle_conn flag_user orig_dst buffer c).
Proof.
  intros Hb Hl; unfold handle_conn, kMaxChunkSize in *; pose proof (redirect_address_outcome orig_dst) as Hro.
  destruct (redirect_address orig_dst) as [ep| | |] eqn:Hep; [|done | by left | done]; eapply safe_step; [done|].
  apply safe_read; [lia | done |]; intros d ec buf1 c1 Er Hd Hdb Hb1 Hl1 Hbuf1.
  case Z.eqb_spec; intros Hec; [subst ec|done]; cbn [negb].
  case Z.eqb_spec; intros Hz; [done|]; case Z.ltb_spec; intros Hn; [done|].
  eapply safe_step; [by rewrite Hbuf1, zslice_prefix|].
  eapply safe_step; [by rewrite zslice_Some by lia|].
  destruct (zget_bytes buf1 0 Hb1) as (b0 & E0 & _); [lia|]; eapply safe_step; [by rewrite E0|].
  destruct (zget_bytes buf1 1 Hb1) as (b1 & E1 & _); [lia|]; eapply safe_step; [by rewrite E1|].
  destruct (negb _ && (b0 =? 5)).
  { pose proof (socks5_safe buf1 c1 Hb1 ltac:(lia)) as Hs; revert Hs; unfold safe; destruct (_.2); try done; by right. }
  destruct (negb _ && (b0 =? 4)); [done|]; case Z.eqb_spec; intros H22; [subst b0|].
  - destruct (b1 <? 3); [done|]; rewrite Hbuf1, zget_app_l in E0 by lia; pose proof (handle_tls_safe d (snd <$> ep) Hdb E0) as Ht.
    destruct (handle_tls_connection flag_user d (snd <$> ep)) as [t| | |] eqn:Et; try done.
    eapply safe_step; [done|]; destruct t; [done|]; destruct ep; [|done]; right; by exists 8192, c, c1, d.
  - destruct (existsb _ _); [apply safe_weaken, http_safe; lia | done].
Qed.

End safety.

(** ** Theorems *)

Section theorems.
Context {C : Type} `{IOConnection C, AbslStrings, !AbslStringsOk, AsioText, AsioIp}.
Variable flag_user : bytes.

(** A SOCKS5 client that offers the method without authentication and asks to connect to a
    version 4 address, a version 6 address or a domain is answered with the two replies and its
    first bytes are handed to the relay for exactly the host and the port it asked for, unless
    those bytes are a TLS record. *)
Theorem socks5_connect_relayed (c : C) buf a port first c4 :
  greeting_ok buf -> addr_wf a -> fits 16 port -> 300 <= zlen buf -> zlen first <= zlen buf ->
  session c (zlen buf) (socks5_request a port) first c4 -> (zlen first <= 3 \/ nth 0 first 0 <> 22) ->
  handle_socks5_connection flag_user buf c =
    (c4, Ok (Some {| data := first; direct := false;
                     ctx := {| user := flag_user; remote_host := addr_host a; remote_port := port;
                               is_tls := false; is_tcp := true |} |})).
Proof.
  intros Hg Ha Hp Hb Hf Hs Hn; erewrite socks5_session_spec by done; unfold socks5_relay.
  assert ((3 <? zlen first) && (nth 0 first 0 =? 22) = false) as ->; [|done].
  apply andb_false_iff; destruct Hn; [left; by apply Z.ltb_ge | right; by apply Z.eqb_neq].
Qed.

(** When the first bytes of a SOCKS5 connection are a TLS hello that names a server, the
    connection goes to that server; a request by address keeps its port, but a request by domain
    goes to port 443 whatever port the client asked for. *)
Theorem socks5_domain_tls_port_lost (c : C) buf a port first c4 ver sni :
  greeting_ok buf -> addr_wf a -> fits 16 port -> 300 <= zlen buf -> zlen first <= zlen buf ->
  session c (zlen buf) (socks5_request a port) first c4 ->
  3 < zlen first -> zget first 0 = Some 22 -> zget first 1 = Some ver -> 3 <= ver ->
  parse_sni first = Ok sni -> sni <> bs "courier.push.apple.com" ->
  handle_socks5_connection flag_user buf c =
    (c4, Ok (Some {| data := first; direct := false;
                     ctx := {| user := flag_user; remote_host := sni;
                               remote_port := match a with SDomain _ => 443 | _ => port end;
                               is_tls := true; is_tcp := true |} |})).
Proof.
  intros Hg Ha Hp Hb Hf Hs Hl Hb0 Hb1 Hv Hsni Hne; erewrite socks5_session_spec by done; unfold socks5_relay.
  bool_true (3 <? zlen first); destruct first as [|b first]; [done|]; injection Hb0 as ->; cbn [nth andb Z.eqb Pos.eqb].
  rewrite Hb1; cbn [access rbind]; bool_false (ver <? 3); unfold handle_tls_connection; rewrite Hsni.
  rewrite decide_False by done; by destruct a.
Qed.

(** What the HTTP handler does once the head of the request is there. *)
Lemma http_on_head buf n head tail (c : C) :
  zslice 0 n buf = Some (head ++ head_end ++ tail) -> bfind head_end (head ++ head_end ++ tail) = Some (zlen head) ->
  StripAsciiWhitespace head = head ->
  handle_http_connection buf n c =
    match parse_http_hostport head with
    | Ok host_port_view =>
        match http_target host_port_view with
        | None => (c, Ok None)
        | Some (host_view, remote_port) =>
            match bfind [32] head with
            | None => (c, Ok None)
            | Some pos =>
                if EqualsIgnoreCase (ztake pos head) (bs "CONNECT") then
                  (let! _ := AsyncWrite (bs "HTTP/1.0 200 Connection established" ++ head_end) in
                   sret (Some {| data := []; direct := false;
                                 ctx := {| user := []; remote_host := host_view;
                                           remote_port := if remote_port =? 0 then 443 else remote_port;
                                           is_tls := remote_port =? 0; is_tcp := true |} |})) c
                else
                  (c, Ok (Some {| data := head ++ head_end ++ tail; direct := false;
                                  ctx := {| user := []; remote_host := host_view;
                                            remote_port := if remote_port =? 0 then 80 else remote_port;
                                            is_tls := false; is_tcp := true |} |}))
            end
        end
    | Err rc => (c, Ok None)
    | Ub => (c, Ub)
    | Hang => (c, Hang)
    end.
Proof.
  intros Hs Hf Hst; destruct (zslice_inv _ _ _ _ Hs) as (_ & Hn & Hl & Hz & Hd); rewrite zdrop_0 in Hd.
  unfold handle_http_connection; destruct (moved_read_until buf n) as (buf' & p & E & Hp); [lia|].
  assert (p = zlen head /\ buf' = buf) as [-> ->].
  { revert E Hp; cbn [read_until]; srun; rewrite Hs, Hf; cbn; intros [= <- <-] _; done. }
  srun; rewrite E; cbv beta iota; pose proof (zlen_nonneg head); bool_false (zlen head <? 0); rewrite Hs; cbv beta iota.
  rewrite zslice_prefix, Hst by done.
  destruct (parse_http_hostport head) as [hp| | |]; try done.
  destruct (http_target hp) as [[h port]|]; [|done]; destruct (bfind [32] head); [|done].
  by destruct (EqualsIgnoreCase _ _).
Qed.

(** An HTTP proxy request whose head arrived with the first read goes to the host and port of
    its Host header: a CONNECT is confirmed and starts an empty tunnel, any other request is
    forwarded whole, head and the bytes behind it. *)
Theorem http_request_relayed (c : C) buf n meth rest tail host port :
  let head := meth ++ 32 :: rest in
  zslice 0 n buf = Some (head ++ head_end ++ tail) -> bfind head_end (head ++ head_end ++ tail) = Some (zlen head) ->
  StripAsciiWhitespace head = head -> 32 ∉ meth ->
  parse_http_hostport head = Ok (host ++ 58 :: to_string port) -> 58 ∉ host -> 0 < port < 65536 ->
  handle_http_connection buf n c =
    if EqualsIgnoreCase meth (bs "CONNECT") then
      (let! _ := AsyncWrite (bs "HTTP/1.0 200 Connection established" ++ head_end) in
       sret (Some {| data := []; direct := false;
                     ctx := {| user := []; remote_host := host; remote_port := port;
                               is_tls := false; is_tcp := true |} |})) c
    else
      (c, Ok (Some {| data := head ++ head_end ++ tail; direct := false;
                      ctx := {| user := []; remote_host := host; remote_port := port;
                                is_tls := false; is_tcp := true |} |})).
Proof.
  intros head Hs Hf Hst Hm Hh Hc Hp; rewrite (http_on_head buf n head tail) by done; rewrite Hh.
  assert (http_target (host ++ 58 :: to_string port) = Some (host, port)) as ->.
  { unfold http_target; rewrite (split_some [58] _ (zlen host)); [|done|].
    2: { rewrite (bfind_skip 58 []) by done; change (58 :: to_string port) with ([58] ++ to_string port).
         rewrite bfind_here; cbn; f_equal; lia. }
    rewrite ztake_app_exact by done; change (host ++ 58 :: to_string port) with (host ++ [58] ++ to_string port).
    rewrite (app_assoc host), zdrop_app_exact by (by rewrite zlen_app).
    assert (58 ∉ to_string port) as Hd.
    { intros Hin; pose proof (proj1 (Forall_forall _ _) (to_string_digits port ltac:(lia)) 58 Hin) as Hx; done. }
    rewrite split_none by (apply (bfind_absent 58); [apply elem_of_cons; by left | done]).
    rewrite stoi_to_string by lia; by rewrite wrap_small by (unfold fits; lia). }
  assert (bfind [32] head = Some (zlen meth)) as ->.
  { unfold head; rewrite (bfind_skip 32 []) by done; change (32 :: rest) with ([32] ++ rest).
    rewrite bfind_here; cbn; f_equal; lia. }
  unfold head at 1; rewrite ztake_app_exact by done; by bool_false (port =? 0).
Qed.

(** A request whose Host header is the last one, the way many clients send it, is dropped: the
    head is cut before the blank line, so no line break follows the header and it is not found. *)
Theorem http_last_host_header_dropped (c : C) buf n pre value tail :
  let head := pre ++ bs "Host:" ++ value in
  zslice 0 n buf = Some (head ++ head_end ++ tail) -> bfind head_end (head ++ head_end ++ tail) = Some (zlen head) ->
  StripAsciiWhitespace head = head -> zlen head < 2 ^ 64 ->
  bfind (bs "Host:") head = Some (zlen pre) -> bfind CRLF value = None ->
  handle_http_connection buf n c = (c, Ok None).
Proof.
  intros head Hs Hf Hst Hl Hh Hv; rewrite (http_on_head buf n head tail) by done; unfold parse_http_hostport.
  rewrite http_get_header_eq, Hh by (done || by apply (bool_decide_unpack _); vm_compute); cbn zeta.
  unfold head; rewrite app_assoc, zdrop_app_exact by (by rewrite zlen_app); by rewrite Hv.
Qed.

(** A redirected TLS connection whose hello names no server, or the one name that is excepted,
    falls through to the direct relay with a socket and a buffer that were already moved into the
    TLS handler and released there. *)
Theorem tls_fallback_uses_moved_socket orig_dst addr port buffer (c c1 : C) d :
  redirect_address orig_dst = Ok (Some (addr, port)) -> zlen d <= zlen buffer ->
  AsyncRead kMaxChunkSize c = (c1, Ok (d, 0)) -> 3 <= zlen d -> zget d 0 = Some 22 -> zget d 1 = Some 3 ->
  (exists rc, parse_sni d = Err rc) \/ parse_sni d = Ok (bs "courier.push.apple.com") ->
  handle_conn flag_user orig_dst buffer c = (c1, Ub).
Proof.
  intros Hr Hl Hrd Hn Hb0 Hb1 Hsni; unfold handle_conn; srun; rewrite Hr, Hrd; cbv beta iota.
  rewrite zblit_head by done; cbn [negb Z.eqb]; bool_false (zlen d =? 0); bool_false (zlen d <? 3).
  rewrite zslice_prefix by done; cbv beta iota; rewrite zslice_Some by lia; cbv beta iota.
  rewrite !zget_app_l by lia; rewrite Hb0, Hb1; cbn [negb andb Z.eqb Pos.eqb]; change (3 <? 3) with false; cbv iota.
  unfold handle_tls_connection; destruct Hsni as [[rc ->]| ->]; [done|]; by rewrite decide_True.
Qed.

End theorems.


(** ** Witnesses *)

Module ProxyDemo.
Import Pipe RefAbsl.

#[export] Instance demo_text : AsioText := {| v4_text ip := ip; v6_text ip := ip; addr_text _ := bs "2001:db8::1" |}.
#[export] Instance demo_asio : AsioIp := {|
  is_loopback a := Z.shiftr a 24 =? 127; hosts_contain net a := false; range_size := 8 |}.

Definition buf : bytes := [5; 1; 0] ++ zrepeat kMaxChunkSize 0.
Definition connect_domain : bytes := socks5_request (SDomain (bs "example.com")) 8443.
Definition socks (first : bytes) : pipe := {| chunks := [connect_domain; first]; sent := [] |}.
Definition after (first : bytes) : pipe :=
  {| chunks := []; sent := [5; 0; 5; 0; 0; 1; 0; 0; 0; 0; 0; 0] |}.

Lemma buf_greets : greeting_ok buf.
Proof.
  assert (zget buf 1 = Some 1) as E1 by (by vm_compute); assert (zslice 2 1 buf = Some [0]) as E2 by (by vm_compute).
  unfold greeting_ok; rewrite E1, E2; apply elem_of_cons; by left.
Qed.

Lemma socks_session first :
  0 < zlen first <= zlen buf -> session (socks first) (zlen buf) connect_domain first (after first).
Proof.
  intros Hl; exists {| chunks := [connect_domain; first]; sent := [5; 0] |}, {| chunks := [first]; sent := [5; 0] |},
    {| chunks := [first]; sent := [5; 0; 5; 0; 0; 1; 0; 0; 0; 0; 0; 0] |}, (2, 0), (10, 0).
  split; [done|]; split; [by vm_compute|]; split; [done|].
  cbn [AsyncRead pipe_conn]; unfold Pipe.read; cbn [chunks sent]; rewrite zdrop_all, ztake_all by lia.
  by rewrite decide_True.
Qed.

Definition get_host : bytes := bs "GET / HTTP/1.1" ++ CRLF ++ bs "Host: a.com".
Definition get_more : bytes := get_host ++ bs ":8080" ++ CRLF ++ bs "Accept: text/html".
Definition idle : pipe := {| chunks := []; sent := [] |}.

(** A pipe that gives out bytes only. *)
Record byte_pipe := { raw : pipe }.
Definition talk (input : list bytes) : byte_pipe := {| raw := {| chunks := input; sent := [] |} |}.

#[export] Instance byte_pipe_conn : IOConnection byte_pipe := {|
  AsyncRead cap := fun c => let '(p, x) := Pipe.read cap (raw c) in
    ({| raw := p |}, do y <- x; let '(d, ec) := y in Ok (wrap 8 <$> ztake cap d, ec));
  AsyncWrite b := fun c => let '(p, x) := Pipe.write b (raw c) in ({| raw := p |}, x);
  AsyncWriteV bufs := fun c => let '(p, x) := Pipe.write (concat bufs) (raw c) in ({| raw := p |}, x);
  IoClose c := c
|}.

#[export] Instance byte_pipe_ok : IOConnectionOk byte_pipe.
Proof.
  intros cap [[chunks sent]] Hc; cbn; unfold Pipe.read; destruct chunks as [|d l]; cbn; (split;
    [unfold zlen, ztake; rewrite length_fmap, length_take; lia | apply Forall_fmap, Forall_true; intros b; apply (wrap_range 8); lia]).
Qed.

End ProxyDemo.

Section witnesses.
Import Pipe RefAbsl ProxyDemo ZeroConn.

Lemma socks5_connect_relayed_witness :
  handle_socks5_connection (bs "me") buf (socks (bs "hello")) =
    (after (bs "hello"), Ok (Some {| data := bs "hello"; direct := false;
       ctx := {| user := bs "me"; remote_host := bs "example.com"; remote_port := 8443;
                 is_tls := false; is_tcp := true |} |})).
Proof.
  apply (socks5_connect_relayed (bs "me") (socks (bs "hello")) buf (SDomain (bs "example.com")) 8443 (bs "hello"));
    [apply buf_greets | by vm_compute.. | apply socks_session; by vm_compute | by right].
Defined.

Lemma socks5_domain_tls_port_lost_witness :
  handle_socks5_connection (bs "me") buf (socks (hello_record sample_hello)) =
    (after (hello_record sample_hello), Ok (Some {| data := hello_record sample_hello; direct := false;
       ctx := {| user := bs "me"; remote_host := server_name sample_hello; remote_port := 443;
                 is_tls := true; is_tcp := true |} |})).
Proof.
  apply (socks5_domain_tls_port_lost (bs "me") (socks (hello_record sample_hello)) buf (SDomain (bs "example.com")) 8443
           (hello_record sample_hello) (after (hello_record sample_hello)) 3 (server_name sample_hello));
    [apply buf_greets | by vm_compute | by vm_compute | by vm_compute | by vm_compute
    | apply socks_session; by vm_compute | by vm_compute..].
Defined.

Lemma http_request_relayed_witness :
  handle_http_connection (get_more ++ head_end ++ zrepeat 100 0) (zlen get_more + 4) idle =
    (idle, Ok (Some {| data := get_more ++ head_end ++ []; direct := false;
       ctx := {| user := []; remote_host := bs "a.com"; remote_port := 8080; is_tls := false; is_tcp := true |} |})).
Proof.
  etrans; [apply (http_request_relayed idle (get_more ++ head_end ++ zrepeat 100 0) (zlen get_more + 4) (bs "GET")
           (zdrop 4 get_more) [] (bs "a.com") 8080); try (by vm_compute); try lia;
           by apply (bool_decide_unpack _); vm_compute | by vm_compute].
Defined.

Lemma http_last_host_header_dropped_witness :
  handle_http_connection (get_host ++ head_end ++ zrepeat 100 0) (zlen get_host + 4) idle = (idle, Ok None).
Proof.
  apply (http_last_host_header_dropped idle (get_host ++ head_end ++ zrepeat 100 0) (zlen get_host + 4)
           (bs "GET / HTTP/1.1" ++ CRLF) (bs " a.com") []); by vm_compute.
Defined.

Definition bad_hello : bytes := [22; 3; 1; 0; 1; 0].

Lemma tls_fallback_uses_moved_socket_witness :
  handle_conn (bs "me") (Some (V6 1, 443)) (zrepeat kMaxChunkSize 0) {| chunks := [bad_hello]; sent := [] |} =
    ({| chunks := []; sent := [] |}, Ub).
Proof.
  apply (tls_fallback_uses_moved_socket (bs "me") (Some (V6 1, 443)) (V6 1) 443 (zrepeat kMaxChunkSize 0)
           {| chunks := [bad_hello]; sent := [] |} {| chunks := []; sent := [] |} bad_hello); try (by vm_compute).
  left; eexists; by vm_compute.
Defined.


End witnesses.
