(* ===== verification/Transfer.v ===== *)
(** * Copying between two ends

    src/snova/io/transfer.cc: the four copy loops between sockets and streams.  The ends live in
    one world, because two loops in opposite directions run over the same pair of ends
    (src/snova/server/relay.cc) and because all streams share their table.  A loop is cut at its
    two awaits, so that the interleavings of two loops are sequences of its steps. *)

From S2P Require Import Prelude Endian IoBuf PbMessages MuxEvent Io MuxStream.

(** A socket or a stream, by its name in the world. *)
Inductive endpoint := Sock (k : nat) | Strm (p : nat).

#[global] Instance endpoint_eq_dec : EqDecision endpoint.
Proof. solve_decision. Defined.

Record World (C E F Wr Ch : Type) := {
  socks : gmap nat C;
  strs : Streams E F Wr Ch;
  latest_io_time : Z;
  now : Z
}.
Arguments Build_World {C E F Wr Ch}.
Arguments socks {C E F Wr Ch}. Arguments strs {C E F Wr Ch}.
Arguments latest_io_time {C E F Wr Ch}. Arguments now {C E F Wr Ch}.

(** Where a loop is: about to read, about to write what it read, or returned. *)
Inductive pump := Reading | Writing (m : chunk_msg) | Finished.

#[global] Instance pump_eq_dec : EqDecision pump.
Proof. solve_decision. Defined.

(** A turn of two loops that run at once: a step of one of them, or something that another coroutine
    does to the world while both wait. *)
Inductive turn (W : Type) := Loop (ab : bool) | Meanwhile (f : W -> W).
Arguments Loop {W}. Arguments Meanwhile {W}.

Section transfer.
Context {C E F Wr Ch : Type} `{IOConnection C, EventWriters E F Wr, DataChannel Ch}.
Abbreviation W := (World C E F Wr Ch).

Definition world_eta (r : W) : W :=
  {| socks := socks r; strs := strs r; latest_io_time := latest_io_time r; now := now r |}.
Definition wupd (T : Type) : Type := (T -> T) -> W -> W.
Definition set_socks : wupd (gmap nat C) := ltac:(setter world_eta (@socks C E F Wr Ch)).
Definition set_strs : wupd (Streams E F Wr Ch) := ltac:(setter world_eta (@strs C E F Wr Ch)).
Definition set_io_time : wupd Z := ltac:(setter world_eta (@latest_io_time C E F Wr Ch)).

(** An operation of a socket, and one of the streams. *)
Definition on_sock {A} (k : nat) (m : st C A) : st W A := fun w =>
  match socks w !! k with
  | None => (w, Ub)
  | Some c => let '(c', r) := m c in (set_socks (insert k c') w, r)
  end.
Definition on_strs {A} (m : st (Streams E F Wr Ch) A) : st W A := fun w =>
  let '(s, r) := m (strs w) in (set_strs (fun _ => s) w, r).

(** [entry] is [g_is_entry_node]; [iobuf] is what [get_iobuf(kMaxChunkSize)] returns; [timed] says
    that the routine is set, which stores the time of the last transfer. *)
Variables (entry timed : bool) (iobuf : bytes).

Definition routine : st W unit :=
  smodify (fun w => if timed then set_io_time (fun _ => now w) w else w).

Definition ep_read (from : endpoint) : st W (chunk_msg * Z) :=
  match from with
  | Sock k =>
      let! '(d, ec) := on_sock k (AsyncRead kMaxChunkSize) in
      let! buf := slift (access (zblit 0 d iobuf)) in
      sret ((Some buf, zlen d), ec)
  | Strm p => on_strs (Read p)
  end.

Definition ep_write (to : endpoint) (m : chunk_msg) : st W Z :=
  match to with
  | Sock k =>
      let! data := slift (access m.1) in
      let! b := slift (access (zslice 0 m.2 data)) in
      let! '(wn, wec) := on_sock k (AsyncWrite b) in
      sret wec
  | Strm p => on_strs (stream_Write entry m.1 m.2 p)
  end.

(** What follows the loop, by the types of the two ends. *)
Definition finish (from to : endpoint) : st W unit :=
  match from, to with
  | Strm _, Strm p => let! _ := on_strs (Close false p) in sret tt
  | Strm p, Sock k =>
      let! _ := on_strs (Close false p) in
      on_sock k (fun c => (IoClose c, Ok tt))
  | Sock _, Strm p => let! _ := on_strs (Close false p) in sret tt
  | Sock _, Sock _ => sret tt
  end.

(** From one await to the next. *)
Definition pump_step (from to : endpoint) (ps : pump) : st W pump :=
  match ps with
  | Reading =>
      let! '(m, ec) := ep_read from in
      if negb (ec =? 0) then let! _ := finish from to in sret Finished
      else let! _ := routine in sret (Writing m)
  | Writing m =>
      let! wec := ep_write to m in
      if negb (wec =? 0) then let! _ := finish from to in sret Finished
      else let! _ := routine in sret Reading
  | Finished => sret Finished
  end.

(** One loop alone. *)
Fixpoint run_pump (fuel : nat) (from to : endpoint) (ps : pump) : st W unit :=
  match ps with
  | Finished => sret tt
  | _ =>
      match fuel with
      | O => fun w => (w, Hang)
      | S fuel => let! ps := pump_step from to ps in run_pump fuel from to ps
      end
  end.

Definition transfer (fuel : nat) (from to : endpoint) : st W unit := run_pump fuel from to Reading.

(** ** Two loops at once

    [transfer(a, b) && transfer(b, a)]: the steps of the two loops in any order. *)
Inductive duplex_step (a b : endpoint) : W * pump * pump -> W * pump * pump -> Prop :=
| step_ab w w' p p' q : p <> Finished -> pump_step a b p w = (w', Ok p') ->
    duplex_step a b (w, p, q) (w', p', q)
| step_ba w w' p q q' : q <> Finished -> pump_step b a q w = (w', Ok q') ->
    duplex_step a b (w, p, q) (w', p, q').

(** The same with the order given: [Loop true] runs the loop from [a] to [b]; it ends when both loops
    returned. *)
Fixpoint duplex (sched : list (turn W)) (a b : endpoint) (p q : pump) : st W unit :=
  match p, q, sched with
  | Finished, Finished, _ => sret tt
  | _, _, [] => fun w => (w, Hang)
  | _, _, Loop true :: sched => let! p := pump_step a b p in duplex sched a b p q
  | _, _, Loop false :: sched => let! q := pump_step b a q in duplex sched a b p q
  | _, _, Meanwhile f :: sched => let! _ := smodify f in duplex sched a b p q
  end.

End transfer.

(** ** Streams of bytes that end *)

(** After the last byte a read reports an error: the peer has closed. *)
Class StreamEof (C : Type) `{IOConnection C, StreamView C} : Prop :=
  stream_eof : forall cap c, live c -> 0 < cap -> rx c = [] ->
    exists c' ec, AsyncRead cap c = (c', Ok ([], ec)) /\ ec <> 0 /\ rx c' = [] /\ tx c' = tx c /\ live c'.

#[export] Instance pipe_eof : @StreamEof Pipe.pipe Pipe.pipe_conn Pipe.pipe_view.
Proof.
  intros cap [[|ch t] s] Hl Hc Hr; cbn in *; [exists {| Pipe.chunks := []; Pipe.sent := s |}, 2; by split_and!|].
  apply Forall_cons in Hl as [Hne _]; by apply app_eq_nil in Hr as [-> _].
Qed.

(** ** Two sockets *)

(** What a loop has read and not written. *)
Definition inflight (p : pump) : bytes :=
  match p with Writing (Some buf, n) => ztake n buf | _ => [] end.

(** What holds of a loop whose source has the bytes [r] to come: the buffer is full up to its
    count, and the loop has returned only when the source had ended. *)
Definition pump_ok (r : bytes) (p : pump) : Prop :=
  match p with
  | Reading => True
  | Writing (Some buf, n) => 0 <= n <= zlen buf
  | Writing (None, _) => False
  | Finished => r = []
  end.

(** The steps a loop can still make. *)
Definition pump_cost (r : bytes) (p : pump) : nat :=
  (2 * length r + match p with Reading => 1 | Writing _ => 2 | Finished => 0 end)%nat.

Section two_sockets.
Context {C E F Wr Ch : Type} `{IOConnection C, !StreamView C, !ByteStream C, !StreamEof C}.
Context `{EventWriters E F Wr, DataChannel Ch}.
Variables (entry timed : bool) (iobuf : bytes).
Hypothesis iobuf_size : kMaxChunkSize <= zlen iobuf.
Implicit Types (w : World C E F Wr Ch) (c : C) (p q : pump).

(** Two sockets of the world in use. *)
Definition ends (w : World C E F Wr Ch) (a b : nat) (ca cb : C) : Prop :=
  socks w !! a = Some ca /\ socks w !! b = Some cb /\ live ca /\ live cb.

Lemma ends_sym w a b ca cb : ends w a b ca cb -> ends w b a cb ca.
Proof. unfold ends; tauto. Qed.

Lemma routine_run w : exists t, routine timed w = (set_io_time (fun _ => t) w, Ok tt).
Proof. unfold routine, smodify; destruct timed; [by exists (now w) | exists (latest_io_time w); by destruct w]. Qed.

Lemma read_data w a c :
  socks w !! a = Some c -> live c -> rx c <> [] ->
  exists c' d, ep_read iobuf (Sock a) w =
      (set_socks (insert a c') w, Ok ((Some (d ++ zdrop (zlen d) iobuf), zlen d), 0)) /\
    d <> [] /\ zlen d <= kMaxChunkSize /\ rx c = d ++ rx c' /\ tx c' = tx c /\ live c'.
Proof.
  intros Hc Hl Hr; destruct (stream_read kMaxChunkSize c Hl ltac:(done) Hr)
    as (c' & d & E1 & Hd & Hn & Hrx & Htx & Hl').
  exists c', d; unfold ep_read, on_sock; srun; rewrite Hc, E1, zblit_head by lia; by split_and!.
Qed.

Lemma read_eof w a c :
  socks w !! a = Some c -> live c -> rx c = [] ->
  exists c' ec m, ep_read iobuf (Sock a) w = (set_socks (insert a c') w, Ok (m, ec)) /\
    ec <> 0 /\ rx c' = [] /\ tx c' = tx c /\ live c'.
Proof.
  intros Hc Hl Hr; destruct (stream_eof kMaxChunkSize c Hl ltac:(done) Hr)
    as (c' & ec & E1 & Hec & Hrx & Htx & Hl').
  exists c', ec; unfold ep_read, on_sock; srun.
  rewrite Hc, E1, zblit_head by (rewrite zlen_nil; unfold kMaxChunkSize in *; lia); eauto 10.
Qed.

Lemma write_sock w b c buf n :
  socks w !! b = Some c -> live c -> 0 <= n <= zlen buf ->
  exists c', ep_write entry (Sock b) (Some buf, n) w = (set_socks (insert b c') w, Ok 0) /\
    tx c' = tx c ++ ztake n buf /\ rx c' = rx c /\ live c'.
Proof.
  intros Hc Hl Hn; destruct (stream_write (ztake n buf) c Hl) as (c' & E1 & Htx & Hrx & Hl').
  exists c'; unfold ep_write, on_sock; srun; cbn [fst snd].
  rewrite zslice_Some, zdrop_0, Hc, E1 by lia; by split_and!.
Qed.

(** One step of a loop between two sockets moves bytes and keeps them, and ends the loop only at
    the end of its source. *)
Lemma pump_step_sockets w a b ca cb p :
  a <> b -> ends w a b ca cb -> pump_ok (rx ca) p -> p <> Finished ->
  exists w' p' ca' cb', pump_step entry timed iobuf (Sock a) (Sock b) p w = (w', Ok p') /\
    ends w' a b ca' cb' /\ pump_ok (rx ca') p' /\
    tx cb' ++ inflight p' ++ rx ca' = tx cb ++ inflight p ++ rx ca /\
    tx ca' = tx ca /\ rx cb' = rx cb /\ strs w' = strs w /\
    (pump_cost (rx ca') p' < pump_cost (rx ca) p)%nat.
Proof.
  intros Hab (Ha & Hb & Hla & Hlb) Hok Hp; unfold ends; destruct p as [|[[buf|] n]|]; [|..|done|done].
  - cbn [pump_step]; srun; destruct (decide (rx ca = [])) as [Hr|Hr].
    + destruct (read_eof w a ca) as (ca' & ec & m & -> & Hec & Hrx & Htx & Hl'); [done..|].
      bool_false (ec =? 0); cbn; eexists _, Finished, ca', cb; split; [done|]; cbn.
      rewrite lookup_insert_eq, lookup_insert_ne, Hr, Hrx by done; split_and!; try done; lia.
    + destruct (read_data w a ca) as (ca' & d & -> & Hd & Hn & Hrx & Htx & Hl'); [done..|].
      cbn [Z.eqb negb]; destruct (routine_run (set_socks (insert a ca') w)) as (t & ->).
      eexists _, (Writing _), ca', cb; split; [done|]; cbn.
      rewrite lookup_insert_eq, lookup_insert_ne by done; split_and!; try done.
      * zlen_solve.
      * zlen_solve.
      * by rewrite ztake_app_exact, Hrx by done.
      * rewrite Hrx, length_app; apply zlen_pos in Hd; unfold zlen in Hd; lia.
  - cbn [pump_step pump_ok] in *; srun.
    destruct (write_sock w b cb buf n) as (cb' & -> & Htx & Hrx & Hl'); [done..|].
    cbn [Z.eqb negb]; destruct (routine_run (set_socks (insert b cb') w)) as (t & ->).
    eexists _, Reading, ca, cb'; split; [done|]; cbn.
    rewrite lookup_insert_eq, lookup_insert_ne by done; split_and!; try done; [|lia].
    by rewrite Htx, <- app_assoc.
Qed.

(** One loop alone, from any of its points. *)
Lemma run_pump_sockets fuel : forall w a b ca cb p,
  a <> b -> ends w a b ca cb -> pump_ok (rx ca) p -> (pump_cost (rx ca) p <= fuel)%nat ->
  exists w' ca' cb', run_pump entry timed iobuf fuel (Sock a) (Sock b) p w = (w', Ok tt) /\
    ends w' a b ca' cb' /\ rx ca' = [] /\ tx cb' = tx cb ++ inflight p ++ rx ca /\
    tx ca' = tx ca /\ rx cb' = rx cb /\ strs w' = strs w.
Proof.
  induction fuel as [|fuel IH]; intros w a b ca cb p Hab He Hok Hf.
  - destruct p; unfold pump_cost in Hf; [lia | lia |]; cbn in Hok.
    exists w, ca, cb; cbn; by rewrite Hok, app_nil_r.
  - destruct (decide (p = Finished)) as [->|Hp].
    { exists w, ca, cb; cbn in *; by rewrite Hok, app_nil_r. }
    destruct (pump_step_sockets w a b ca cb p)
      as (w1 & p1 & ca1 & cb1 & E1 & He1 & Hok1 & Hmv & Hta & Hrb & Hs & Hc); [done..|].
    destruct (IH w1 a b ca1 cb1 p1) as (w' & ca' & cb' & E2 & He2 & Hr & Ht & Hta' & Hrb' & Hs');
      [done | done | done | lia |].
    exists w', ca', cb'; split.
    { destruct p; [| |done]; cbn [run_pump]; unfold sbind at 1; by rewrite E1. }
    do 2 (split; [done|]); split; [by rewrite Ht, Hmv|]; split_and!; congruence.
Qed.

Abbreviation duplex_steps a b := (nsteps (duplex_step entry timed iobuf (Sock a) (Sock b))).

Lemma duplex_inv n a b x y ca0 cb0 w0 p0 q0 :
  a <> b -> duplex_steps a b n x y -> x = (w0, p0, q0) ->
  ends w0 a b ca0 cb0 -> pump_ok (rx ca0) p0 -> pump_ok (rx cb0) q0 ->
  exists w p q ca cb, y = (w, p, q) /\ ends w a b ca cb /\ pump_ok (rx ca) p /\ pump_ok (rx cb) q /\
    tx cb ++ inflight p ++ rx ca = tx cb0 ++ inflight p0 ++ rx ca0 /\
    tx ca ++ inflight q ++ rx cb = tx ca0 ++ inflight q0 ++ rx cb0 /\
    (n + (pump_cost (rx ca) p + pump_cost (rx cb) q) <= pump_cost (rx ca0) p0 + pump_cost (rx cb0) q0)%nat.
Proof.
  intros Hab Hs; revert w0 p0 q0 ca0 cb0.
  induction Hs as [x | n x y z Hst _ IH]; intros w0 p0 q0 ca0 cb0 -> He Hp Hq.
  { by exists w0, p0, q0, ca0, cb0. }
  inversion Hst as [w w' p p' q Hne E1 Hx Hy | w w' p q q' Hne E1 Hx Hy]; subst.
  - destruct (pump_step_sockets w0 a b ca0 cb0 p0)
      as (w1 & p1 & ca1 & cb1 & E1' & He1 & Hok1 & Hmv & Hta & Hrb & _ & Hc); [done..|].
    rewrite E1 in E1'; injection E1' as -> ->.
    destruct (IH w1 p1 q0 ca1 cb1) as (w2 & p2 & q2 & ca & cb & -> & ? & ? & ? & Hm1 & Hm2 & Hc2);
      [done.. | by rewrite Hrb|].
    exists w2, p2, q2, ca, cb; split_and!; try done; [by rewrite Hm1 | by rewrite Hm2, Hta, Hrb|].
    rewrite Hrb in Hc2; lia.
  - destruct (pump_step_sockets w0 b a cb0 ca0 q0)
      as (w1 & q1 & cb1 & ca1 & E1' & He1 & Hok1 & Hmv & Hta & Hrb & _ & Hc); [done | by apply ends_sym | done..|].
    rewrite E1 in E1'; injection E1' as -> ->.
    destruct (IH w1 p0 q1 ca1 cb1) as (w2 & p2 & q2 & ca & cb & -> & ? & ? & ? & Hm1 & Hm2 & Hc2);
      [done | by apply ends_sym | by rewrite Hrb | done |].
    exists w2, p2, q2, ca, cb; split_and!; try done; [by rewrite Hm1, Hta, Hrb | by rewrite Hm2|].
    rewrite Hrb in Hc2; lia.
Qed.

(** C13. Copying between two sockets terminates and is complete.  [transfer] returns after at most two
    steps for every byte of the source and one more, and then the destination has been given
    exactly the bytes of the source behind what it had; the other direction is untouched. *)
Theorem transfer_copies_and_terminates w a b ca cb :
  a <> b -> ends w a b ca cb ->
  exists w' ca' cb', transfer entry timed iobuf (2 * length (rx ca) + 1) (Sock a) (Sock b) w = (w', Ok tt) /\
    ends w' a b ca' cb' /\ rx ca' = [] /\ tx cb' = tx cb ++ rx ca /\ tx ca' = tx ca /\ rx cb' = rx cb.
Proof.
  intros Hab He; destruct (run_pump_sockets (2 * length (rx ca) + 1) w a b ca cb Reading)
    as (w' & ca' & cb' & E1 & He' & Hr & Ht & Hta & Hrb & _); [done | done | done | done |].
  by exists w', ca', cb'.
Qed.

(** C11. Both directions between two sockets at once, as in a direct relay.  While both sockets are live, so
    that each read gives a part of what is left or the end, and each write is accepted, then in whatever order
    the steps of the two loops are taken, at every point and for both directions what was delivered, what a
    loop holds and what is still to be read are together the original bytes in their order: nothing is lost,
    duplicated, reordered or sent to the wrong side.  Relays with a stream as one of their ends are not
    meant: there a chunk that waits in the channel can be lost. *)
Theorem duplex_conserves_bytes n w a b ca cb w' p q :
  a <> b -> ends w a b ca cb ->
  duplex_steps a b n (w, Reading, Reading) (w', p, q) ->
  exists ca' cb', ends w' a b ca' cb' /\
    tx cb' ++ inflight p ++ rx ca' = tx cb ++ rx ca /\
    tx ca' ++ inflight q ++ rx cb' = tx ca ++ rx cb.
Proof.
  intros Hab He Hs.
  destruct (duplex_inv n a b _ _ ca cb w Reading Reading Hab Hs eq_refl He I I)
    as (? & ? & ? & ca' & cb' & [= <- <- <-] & He' & _ & _ & Hd1 & Hd2 & _).
  by exists ca', cb'.
Qed.

(** C12. The two loops between two live sockets, as in a direct relay, both of whose peers end their
    sending: every schedule of their steps ends, and ends well.  A run has at most [2 * (|a| + |b|) + 2] steps;
    a state in which a loop has not returned has a next step, so no schedule gets stuck; and when both have
    returned, each side has been given all the bytes of the other. *)
Theorem duplex_completes n w a b ca cb w' p q :
  a <> b -> ends w a b ca cb ->
  duplex_steps a b n (w, Reading, Reading) (w', p, q) ->
  (n <= 2 * (length (rx ca) + length (rx cb)) + 2)%nat /\
  ((p, q) <> (Finished, Finished) ->
     exists y, duplex_step entry timed iobuf (Sock a) (Sock b) (w', p, q) y) /\
  ((p, q) = (Finished, Finished) -> exists ca' cb', ends w' a b ca' cb' /\
     tx cb' = tx cb ++ rx ca /\ tx ca' = tx ca ++ rx cb).
Proof.
  intros Hab He Hs.
  destruct (duplex_inv n a b _ _ ca cb w Reading Reading Hab Hs eq_refl He I I)
    as (? & ? & ? & ca' & cb' & [= <- <- <-] & He' & Hp & Hq & Hd1 & Hd2 & Hn).
  split; [unfold pump_cost in Hn; lia|]; split.
  - intros Hne; destruct (decide (p = Finished)) as [->|Hpf].
    + destruct (pump_step_sockets w' b a cb' ca' q) as (w2 & q2 & ? & ? & E1 & _);
        [done | by apply ends_sym | done | by intros -> |].
      eexists; apply step_ba; [by intros -> | exact E1].
    + destruct (pump_step_sockets w' a b ca' cb' p) as (w2 & p2 & ? & ? & E1 & _); [done..|].
      eexists; apply step_ab; [done | exact E1].
  - intros [= -> ->]; cbn in Hp, Hq, Hd1, Hd2; exists ca', cb'.
    rewrite Hp in Hd1; rewrite Hq in Hd2; by rewrite app_nil_r in Hd1, Hd2.
Qed.

End two_sockets.

(** ** A socket and a stream *)

(** A writer that accepts: every event that can be sent is sent.  [wsent wr evs e e'] says that from
    [e] to [e'] the writer sent exactly [evs], in this order. *)
Class WriterLog (E F Wr : Type) `{EventWriters E F Wr} := {
  accepts : Wr -> E -> Prop;
  wsent : Wr -> list MuxEvent -> E -> E -> Prop;
  wsent_nil : forall wr e, wsent wr [] e e;
  wsent_app : forall wr l k e e1 e2, wsent wr l e e1 -> wsent wr k e1 e2 -> wsent wr (l ++ k) e e2;
  writer_sends : forall wr ev e, accepts wr e -> sendable ev ->
    exists e' ev', call_writer wr ev e = (e', Ok (ev', true)) /\ wsent wr [ev] e e' /\ accepts wr e'
}.

(** The bytes a chunk event carries, and the chunks [transfer] makes. *)
Definition payload (ev : MuxEvent) : bytes :=
  match body ev with StreamChunk (Some buf) n => ztake n buf | _ => [] end.
Definition chunk_of (i : Z) (ev : MuxEvent) : Prop :=
  sid (head ev) = i /\ type (head ev) = EVENT_STREAM_CHUNK /\ 0 < zlen (payload ev) <= kMaxChunkSize /\ sendable ev.

Section socket_and_stream.
Context {C E F Wr Ch : Type} `{IOConnection C, !StreamView C, !ByteStream C, !StreamEof C}.
Context `{EventWriters E F Wr, DataChannel Ch}.
Variables (entry timed : bool) (iobuf : bytes).
Hypothesis iobuf_size : kMaxChunkSize <= zlen iobuf.
Hypothesis iobuf_bytes : is_bytes iobuf.
Implicit Types (w : World C E F Wr Ch) (s : Streams E F Wr Ch).

Context `{!WriterLog E F Wr}.

(** What the writer [wr] sent between two worlds. *)
Definition world_sent (wr : Wr) (evs : list MuxEvent) w w' : Prop := wsent wr evs (ms_env (strs w)) (ms_env (strs w')).

(** A stream through which events go out. *)
Definition sending (w : World C E F Wr Ch) (p : nat) (wr : Wr) (cid i : Z) : Prop :=
  exists o, objects (strs w) !! p = Some o /\ stream_closed o = false /\ event_writer o = Some wr /\
    accepts wr (ms_env (strs w)) /\ stream_client_id o = cid /\ stream_sid o = i /\ fits 32 i.

(** The streams in the table stay there, and what waits in a stream, its writer and its ids stay. *)
Definition stream_core (o : MuxStream F Wr Ch) :=
  (data_channel o, stream_closed o, event_writer o, stream_client_id o, stream_sid o).

Definition kept w w' : Prop :=
  (forall cid i p, Get cid i (strs w) = Some p -> Get cid i (strs w') = Some p) /\
  (forall p o, objects (strs w) !! p = Some o -> exists o', objects (strs w') !! p = Some o' /\ stream_core o' = stream_core o).

Lemma kept_refl w : kept w w.
Proof. split; [done|]; intros p o Ho; by exists o. Qed.

Lemma kept_trans w w1 w2 : kept w w1 -> kept w1 w2 -> kept w w2.
Proof.
  intros [Hg1 Ho1] [Hg2 Ho2]; split; [auto|]; intros p o Ho.
  destruct (Ho1 p o Ho) as (o1 & E1 & Hc1); destruct (Ho2 p o1 E1) as (o2 & E2 & Hc2).
  exists o2; split; [done | congruence].
Qed.

(** One object changed. *)
Lemma kept_alter p f w w' :
  g_streams (strs w') = g_streams (strs w) -> objects (strs w') = alter f p (objects (strs w)) ->
  (forall o, stream_core (f o) = stream_core o) -> kept w w'.
Proof.
  intros Hg Ho Hf; split; [intros cid i q; unfold Get; by rewrite Hg|]; intros q o Hq; rewrite Ho.
  destruct (decide (q = p)) as [->|Hne]; [rewrite lookup_alter_eq, Hq; by eexists | rewrite lookup_alter_ne by done; by exists o].
Qed.

Lemma close_sendable i : fits 32 i -> sendable (make_event i StreamCloseRequest).
Proof. intros Hi; split; [|done]; split; [exact Hi | done]. Qed.

Lemma write_strm w p wr cid i buf n :
  sending w p wr cid i -> 0 < n <= kMaxChunkSize -> n <= zlen buf -> is_bytes buf ->
  exists w' ev, ep_write entry (Strm p) (Some buf, n) w = (w', Ok 0) /\ sending w' p wr cid i /\
    world_sent wr [ev] w w' /\ chunk_of i ev /\
    payload ev = ztake n buf /\ socks w' = socks w /\ g_streams (strs w') = g_streams (strs w) /\ kept w w'.
Proof.
  intros (o & Ho & Hc & Hw & Ha & <- & <- & Hi) Hn Hb Hby.
  set (ev := chunk_event_of entry o (Some buf) n).
  assert (sendable ev) as Hse by (apply chunk_event_of_sendable; done || lia).
  destruct (writer_sends wr ev (ms_env (strs w)) Ha Hse) as (e & ev' & Hcall & Hlog & Ha').
  destruct (stream_Write_accepted (strs w) entry (Some buf) n p o wr e ev' Ho Hw Hcall) as (s' & E1 & He & Ho' & Ht).
  assert (payload ev = ztake n buf) as Hpay.
  { unfold payload, ev; cbn; rewrite wrap_small; [done|]; unfold fits, kMaxChunkSize in *; lia. }
  exists (set_strs (fun _ => s') w), ev; unfold ep_write, on_strs; cbn [fst snd]; rewrite E1.
  split; [done|]; cbn; split; [eexists; cbn; rewrite Ho', lookup_alter_eq, Ho; split; [done|]; subst e; by split_and!|].
  unfold world_sent; cbn; rewrite He; split; [done|]; split.
  - split; [done|]; split; [done|]; split; [rewrite Hpay, zlen_take; lia | done].
  - split; [done|]; split; [done|]; split; [done|]; by eapply kept_alter; [exact Ht | exact Ho' |].
Qed.

Lemma pump_steps_to_stream fuel : forall w a p wr cid i c,
  socks w !! a = Some c -> live c -> is_bytes (rx c) -> sending w p wr cid i -> (2 * length (rx c) + 1 <= fuel)%nat ->
  exists w' evs c' o', run_pump entry timed iobuf fuel (Sock a) (Strm p) Reading w = (w', Ok tt) /\
    world_sent wr (evs ++ [make_event i StreamCloseRequest]) w w' /\
    Forall (chunk_of i) evs /\ concat (payload <$> evs) = rx c /\
    socks w' !! a = Some c' /\ tx c' = tx c /\
    objects (strs w') !! p = Some o' /\ stream_closed o' = true /\
    g_streams (strs w') = delete (cid, i) (g_streams (strs w)).
Proof.
  induction fuel as [fuel IH] using lt_wf_ind; intros w a p wr cid i c Hc Hl Hby Hs Hf.
  destruct fuel as [|fuel]; [lia|]; cbn [run_pump pump_step]; srun.
  destruct (decide (rx c = [])) as [Hr|Hr].
  - destruct (read_eof iobuf iobuf_size w a c) as (c' & ec & m & -> & Hec & Hrx & Htx & Hl'); [done..|].
    bool_false (ec =? 0); cbn [negb finish]; srun; unfold on_strs.
    destruct Hs as (o & Ho & Hcl & Hw & Ha & <- & <- & Hi).
    destruct (writer_sends wr (make_event (stream_sid o) StreamCloseRequest) (ms_env (strs w)) Ha)
      as (e & ev' & Hcall & Hlog & Ha'); [by apply close_sendable|].
    destruct (Close_accepted (strs w) p o wr e ev' Ho Hcl Hw Hcall) as (s' & o' & HC & He & Ho' & Hcl' & Ht & _).
    cbn [strs set_socks]; rewrite HC.
    assert (forall f ps, ps = Finished -> run_pump entry timed iobuf f (Sock a) (Strm p) ps
      = sret (S := World C E F Wr Ch) tt) as Hfin by (by intros [|] ? ->).
    rewrite Hfin by done; eexists _, [], c', o'; split; [done|]; unfold world_sent; cbn.
    rewrite He, Hr, lookup_insert_eq; split_and!; try done; by constructor.
  - destruct (read_data iobuf iobuf_size w a c) as (c' & d & -> & Hd & Hn & Hrx & Htx & Hl'); [done..|].
    cbn [Z.eqb negb]; destruct (routine_run timed (set_socks (insert a c') w)) as (t & ->).
    destruct fuel as [|fuel]; [destruct (rx c); cbn in *; [done | lia]|]; cbn [run_pump pump_step]; srun.
    apply zlen_pos in Hd as Hd'; set (w1 := set_io_time _ _); rewrite Hrx in Hby; apply is_bytes_app in Hby as [Hbd Hbr].
    destruct (write_strm w1 p wr cid i (d ++ zdrop (zlen d) iobuf) (zlen d))
      as (w2 & ev & -> & Hs2 & Hlog & Hev & Hpay & Hso & Htab & _);
      [done | lia | zlen_solve | apply is_bytes_app; split; [done | auto with snova] |].
    cbn [Z.eqb negb]; destruct (routine_run timed w2) as (t2 & ->).
    destruct (IH fuel ltac:(lia) (set_io_time (fun _ => t2) w2) a p wr cid i c')
      as (w' & evs & c2 & o' & -> & Hlog' & Hevs & Hcat & Hc2 & Htx2 & Ho' & Hcl & Ht);
      [cbn; by rewrite Hso; unfold w1; cbn; rewrite lookup_insert_eq | done | done | done | |].
    { rewrite Hrx, length_app in Hf; unfold zlen in Hd'; lia. }
    exists w', (ev :: evs), c2, o'; split; [done|]; cbn in Ht |- *; unfold w1 in Hlog, Htab; cbn in Htab.
    split; [by apply (wsent_app _ [ev] _ _ (ms_env (strs w2)))|].
    rewrite Hcat, Hpay, ztake_app_exact, Ht, Htab by done; split_and!; try done; [by constructor | congruence].
Qed.

(** From a socket into a stream.  [transfer] returns after at most two steps for every byte and
    one more; the peer has then been sent the bytes of the socket in chunks of at most 8192 bytes
    under the id of the stream, in order and without loss, then exactly one close, and the
    stream is closed and out of the table. *)
Theorem socket_to_stream w a p wr cid i c :
  socks w !! a = Some c -> live c -> is_bytes (rx c) -> sending w p wr cid i ->
  exists w' evs o',
    transfer entry timed iobuf (2 * length (rx c) + 1) (Sock a) (Strm p) w = (w', Ok tt) /\
    world_sent wr (evs ++ [make_event i StreamCloseRequest]) w w' /\
    Forall (chunk_of i) evs /\ concat (payload <$> evs) = rx c /\
    objects (strs w') !! p = Some o' /\ stream_closed o' = true /\
    g_streams (strs w') !! (cid, i) = None.
Proof.
  intros Hc Hl Hby Hs; destruct (pump_steps_to_stream (2 * length (rx c) + 1) w a p wr cid i c Hc Hl Hby Hs ltac:(done))
    as (w' & evs & _ & o' & E1 & Hlog & Hevs & Hcat & _ & _ & Ho' & Hcl & Ht).
  exists w', evs, o'; split_and!; try done; by rewrite Ht, lookup_delete_eq.
Qed.

End socket_and_stream.

(** ** A stream and a socket *)

Section stream_and_socket.
Context {C E F Wr Ch : Type} `{IOConnection C, !StreamView C, !ByteStream C}.
Context `{EventWriters E F Wr, DataChannel Ch, !DataChannelOk Ch}.
Variables (entry timed : bool) (iobuf : bytes).
Implicit Types (w : World C E F Wr Ch) (s : Streams E F Wr Ch).

(** A run in which chunks arrive from the peer and the loop passes each of them on, then the
    peer closes the stream, and the loop notices. *)
Fixpoint feed (ms : list chunk_msg) (p k : nat) : st (World C E F Wr Ch) pump :=
  match ms with
  | [] =>
      let! _ := on_strs (Close true p) in
      pump_step entry timed iobuf (Strm p) (Sock k) Reading
  | m :: ms =>
      let! _ := on_strs (Offer m p) in
      let! ps := pump_step entry timed iobuf (Strm p) (Sock k) Reading in
      let! _ := pump_step entry timed iobuf (Strm p) (Sock k) ps in
      feed ms p k
  end.

Definition msg_ok (m : chunk_msg) : Prop :=
  match m.1 with Some buf => 0 <= m.2 <= zlen buf | None => False end.

(** A stream whose channel is empty. *)
Definition idle (w : World C E F Wr Ch) (p : nat) : Prop :=
  exists o, objects (strs w) !! p = Some o /\ stream_closed o = false /\ chan_items (data_channel o) = Some [].

Lemma offer_idle w p m :
  idle w p -> exists w' o, on_strs (Offer m p) w = (w', Ok 0) /\
    objects (strs w') !! p = Some o /\ stream_closed o = false /\
    chan_items (data_channel o) = Some [m] /\ socks w' = socks w /\ ms_env (strs w') = ms_env (strs w).
Proof.
  intros (o & Ho & Hcl & Hi); destruct (chan_send_empty m (data_channel o) Hi) as (c1 & Hsend & Hi1).
  unfold on_strs at 1, Offer, deref; srun; rewrite Ho, Hcl, (on_channel_spec (strs w) p o _ c1 (Ok tt)) by done.
  eexists _, _; split; [done|]; cbn; rewrite lookup_alter_eq, Ho; by split_and!.
Qed.

Lemma read_strm w p o m :
  objects (strs w) !! p = Some o -> stream_closed o = false -> chan_items (data_channel o) = Some [m] ->
  exists w', ep_read iobuf (Strm p) w = (w', Ok (m, 0)) /\ idle w' p /\
    socks w' = socks w /\ ms_env (strs w') = ms_env (strs w) /\ g_streams (strs w') = g_streams (strs w) /\
    (forall p', p' <> p -> objects (strs w') !! p' = objects (strs w) !! p').
Proof.
  intros Ho Hcl Hi; destruct (chan_receive_head m [] (data_channel o) Hi) as (c2 & Hrecv & Hi2).
  cbn [ep_read]; unfold on_strs, Read, deref; srun; rewrite Ho, Hcl, (on_channel_spec (strs w) p o _ c2 (Ok m)) by done.
  eexists; split; [done|]; unfold idle; cbn; rewrite lookup_alter_eq, Ho; split; [by eexists|].
  do 3 (split; [done|]); intros p' Hp; by rewrite lookup_alter_ne.
Qed.

(** The two turns that pass on a message that has arrived. *)
Lemma pump_message w p k c o m :
  objects (strs w) !! p = Some o -> stream_closed o = false -> chan_items (data_channel o) = Some [m] ->
  socks w !! k = Some c -> live c -> msg_ok m ->
  exists w2 w3 c',
    pump_step entry timed iobuf (Strm p) (Sock k) Reading w = (w2, Ok (Writing m)) /\
    pump_step entry timed iobuf (Strm p) (Sock k) (Writing m) w2 = (w3, Ok Reading) /\
    idle w3 p /\ socks w3 !! k = Some c' /\ live c' /\ tx c' = tx c ++ inflight (Writing m) /\ rx c' = rx c /\
    ms_env (strs w3) = ms_env (strs w) /\ g_streams (strs w3) = g_streams (strs w).
Proof.
  destruct m as [[buf|] n]; intros Ho Hcl Hi Hc Hl Hm; [cbn in Hm | done].
  destruct (read_strm w p o (Some buf, n) Ho Hcl Hi) as (w2 & E2 & Hid2 & Hs2 & He2 & Ht2 & _).
  destruct (routine_run timed w2) as (t & E2').
  destruct (write_sock entry (set_io_time (fun _ => t) w2) k c buf n) as (c' & E3 & Htx & Hrx & Hl');
    [cbn; congruence | done | done |].
  destruct (routine_run timed (set_socks (insert k c') (set_io_time (fun _ => t) w2))) as (t' & E3').
  eexists _, _, c'; cbn [pump_step]; unfold sbind.
  rewrite E2; cbn [Z.eqb negb]; rewrite E2'; split; [done|].
  rewrite E3; cbn [Z.eqb negb]; rewrite E3'; split; [done|].
  split; [done|]; cbn; rewrite lookup_insert_eq; split_and!; try done; congruence.
Qed.

Lemma feed_one w p k c m :
  idle w p -> socks w !! k = Some c -> live c -> msg_ok m ->
  exists w1 w2 w3 c', on_strs (Offer m p) w = (w1, Ok 0) /\
    pump_step entry timed iobuf (Strm p) (Sock k) Reading w1 = (w2, Ok (Writing m)) /\
    pump_step entry timed iobuf (Strm p) (Sock k) (Writing m) w2 = (w3, Ok Reading) /\
    idle w3 p /\ socks w3 !! k = Some c' /\ live c' /\ tx c' = tx c ++ inflight (Writing m) /\ rx c' = rx c /\
    ms_env (strs w3) = ms_env (strs w).
Proof.
  intros Hid Hc Hl Hm; destruct (offer_idle w p m Hid) as (w1 & o & E1 & Ho & Hcl & Hi & Hs1 & He1).
  destruct (pump_message w1 p k c o m) as (w2 & w3 & c' & E2 & E3 & Hid3 & Hc3 & Hl3 & Htx & Hrx & He & _);
    [done..|by rewrite Hs1 | done | done |].
  exists w1, w2, w3, c'; split_and!; try done; congruence.
Qed.

(** From a stream to a socket.  The chunks a peer sends are written to the socket in the order in
    which they came, each with exactly the bytes its length gives; when the peer closes the
    stream, the loop returns, the socket is closed and no event is sent back. *)
Theorem stream_to_socket ms : forall w p k c,
  idle w p -> socks w !! k = Some c -> live c -> Forall msg_ok ms ->
  exists w' c' o', feed ms p k w = (w', Ok Finished) /\ socks w' !! k = Some (IoClose c') /\
    tx c' = tx c ++ concat ((fun m => inflight (Writing m)) <$> ms) /\ rx c' = rx c /\
    objects (strs w') !! p = Some o' /\ stream_closed o' = true /\ ms_env (strs w') = ms_env (strs w).
Proof.
  induction ms as [|m ms IH]; intros w p k c Hid Hc Hl Hms.
  - destruct Hid as (o & Ho & Hcl & Hi); cbn [feed pump_step ep_read]; unfold on_strs, Close, Read, deref; srun.
    rewrite Ho, Hcl; unfold Remove, assign; srun; cbn [strs set_strs objects set_objects set_table].
    rewrite !lookup_alter_eq, Ho; cbn -[no_link alter]; unfold on_strs, on_sock; srun.
    unfold Close, deref; srun; cbn -[alter]; rewrite !lookup_alter_eq, Ho; cbn -[alter]; rewrite Hc.
    eexists _, c, _; split; [done|]; cbn -[alter]; rewrite lookup_insert_eq, !lookup_alter_eq, Ho, app_nil_r.
    by split_and!.
  - apply Forall_cons in Hms as [Hm Hms]; cbn [feed]; unfold sbind at 1.
    destruct (feed_one w p k c m) as (w1 & w2 & w3 & c1 & -> & E2 & E3 & Hid3 & Hc3 & Hl3 & Htx & Hrx & He3); [done..|].
    unfold sbind; rewrite E2, E3.
    destruct (IH w3 p k c1) as (w' & c' & o' & -> & Hc' & Htx' & Hrx' & Ho' & Hcl' & He); [done..|].
    exists w', c', o'; split_and!; try done; [by rewrite Htx', Htx, <- app_assoc | congruence..].
Qed.

End stream_and_socket.

(** ** Schedules *)

(** How often a schedule runs one of the loops. *)
Definition turns (side : bool) (sched : list bool) : nat := length (filter (fun b => b = side) sched).

Lemma turns_cons side d sched : turns side (d :: sched) = ((if decide (d = side) then 1 else 0) + turns side sched)%nat.
Proof. unfold turns; rewrite filter_cons; by case_decide. Qed.

Section schedules.
Context {C E F Wr Ch : Type} `{IOConnection C, !StreamView C, !ByteStream C, !StreamEof C}.
Context `{EventWriters E F Wr, DataChannel Ch}.
Variables (entry timed : bool) (iobuf : bytes).
Hypothesis iobuf_size : kMaxChunkSize <= zlen iobuf.
Implicit Types (w : World C E F Wr Ch) (p q : pump).

(** Running a loop that has returned changes nothing; a turn of a loop never costs it more. *)
Lemma turn_sockets w a b ca cb p :
  a <> b -> ends w a b ca cb -> pump_ok (rx ca) p ->
  exists w' p' ca' cb', pump_step entry timed iobuf (Sock a) (Sock b) p w = (w', Ok p') /\
    ends w' a b ca' cb' /\ pump_ok (rx ca') p' /\
    tx cb' ++ inflight p' ++ rx ca' = tx cb ++ inflight p ++ rx ca /\
    tx ca' = tx ca /\ rx cb' = rx cb /\ (pump_cost (rx ca') p' <= pump_cost (rx ca) p - 1)%nat.
Proof.
  intros Hab He Hok; destruct (decide (p = Finished)) as [->|Hp].
  - exists w, Finished, ca, cb; cbn in *; rewrite Hok in *; split_and!; try done; apply He.
  - destruct (pump_step_sockets entry timed iobuf iobuf_size w a b ca cb p)
      as (w' & p' & ca' & cb' & Es & He' & Hok' & Hmv & Hta & Hrb & _ & Hc); [done..|].
    exists w', p', ca', cb'; do 6 (split; [done|]); lia.
Qed.

Lemma duplex_cons (d : turn (World C E F Wr Ch)) sched a b p q w :
  (p, q) <> (Finished, Finished) ->
  duplex entry timed iobuf (d :: sched) a b p q w =
  match d with
  | Loop true => sbind (pump_step entry timed iobuf a b p) (fun p => duplex entry timed iobuf sched a b p q) w
  | Loop false => sbind (pump_step entry timed iobuf b a q) (fun q => duplex entry timed iobuf sched a b p q) w
  | Meanwhile f => duplex entry timed iobuf sched a b p q (f w)
  end.
Proof. by destruct p, q, d as [[]|]. Qed.

Lemma duplex_run sched : forall w a b ca cb p q,
  a <> b -> ends w a b ca cb -> pump_ok (rx ca) p -> pump_ok (rx cb) q ->
  (pump_cost (rx ca) p <= turns true sched)%nat -> (pump_cost (rx cb) q <= turns false sched)%nat ->
  exists w' ca' cb', duplex entry timed iobuf (Loop <$> sched) (Sock a) (Sock b) p q w = (w', Ok tt) /\
    ends w' a b ca' cb' /\ tx cb' = tx cb ++ inflight p ++ rx ca /\ tx ca' = tx ca ++ inflight q ++ rx cb.
Proof.
  induction sched as [|d sched IH]; intros w a b ca cb p q Hab He Hp Hq Hca Hcb;
    (destruct (decide ((p, q) = (Finished, Finished))) as [[= -> ->]|Hne];
      [exists w, ca, cb; cbn in Hp, Hq; rewrite Hp, Hq; cbn; by rewrite !app_nil_r|]).
  { exfalso; apply Hne; unfold pump_cost, turns in *; cbn in *; destruct p, q; try done; lia. }
  cbn [fmap list_fmap]; rewrite duplex_cons by done; rewrite turns_cons in Hca, Hcb; destruct d; unfold sbind.
  - destruct (turn_sockets w a b ca cb p) as (w1 & p1 & ca1 & cb1 & -> & He1 & Hok1 & Hmv & Hta & Hrb & Hc); [done..|].
    rewrite decide_True in Hca by done; rewrite decide_False in Hcb by done.
    destruct (IH w1 a b ca1 cb1 p1 q) as (w' & ca' & cb' & -> & He' & Htb & Ht);
      [done | done | done | by rewrite Hrb | lia | by rewrite Hrb |].
    exists w', ca', cb'; split; [done|]; split; [done|]; by rewrite Htb, Ht, Hmv, Hta, Hrb.
  - destruct (turn_sockets w b a cb ca q) as (w1 & q1 & cb1 & ca1 & -> & He1 & Hok1 & Hmv & Hta & Hrb & Hc);
      [done | by apply ends_sym | done |].
    rewrite decide_False in Hca by done; rewrite decide_True in Hcb by done.
    destruct (IH w1 a b ca1 cb1 p q1) as (w' & ca' & cb' & -> & He' & Htb & Ht);
      [done | by apply ends_sym | by rewrite Hrb | done | by rewrite Hrb | lia |].
    exists w', ca', cb'; split; [done|]; split; [done|]; by rewrite Htb, Ht, Hmv, Hta, Hrb.
Qed.

End schedules.

(** ** Witnesses *)

(** A writer that accepts everything. *)
Module TransferDemo.
Import Pipe StreamDemo.

Definition env : Type := list MuxEvent.

#[export] Instance all_writers : EventWriters env unit unit := {|
  make_writer _ := sret (Some tt);
  call_writer _ ev := fun log => (log ++ [ev], Ok (ev, true))
|}.

#[export] Instance all_writers_log : WriterLog env unit unit.
Proof.
  refine {| accepts _ _ := True; wsent _ evs e e' := e' = e ++ evs |}.
  - intros wr e; by rewrite app_nil_r.
  - intros wr l k e e1 e2 -> ->; by rewrite app_assoc.
  - intros wr ev e _ _; by eexists _, ev.
Defined.

Definition open_stream (i : Z) : MuxStream unit unit StreamDemo.chan :=
  {| event_writer_factory := tt; event_writer := Some tt; data_channel := Some []; write_bytes := 0;
     stream_client_id := 9; stream_sid := i; stream_is_tls := false; stream_closed := false |}.

Definition client : Pipe.pipe := {| Pipe.chunks := [bs "hel"; bs "lo"]; Pipe.sent := [] |}.
Definition site : Pipe.pipe := {| Pipe.chunks := [bs "world"]; Pipe.sent := [] |}.

(** Two sockets, 0 and 1, and a stream at pointer 0 with id 7. *)
Definition w0 : World Pipe.pipe env unit unit StreamDemo.chan :=
  {| socks := {[ 0%nat := client; 1%nat := site ]};
     strs := {| g_streams := {[ (9, 7) := 0%nat ]}; objects := {[ 0%nat := open_stream 7 ]};
                g_active_stream_size := 1; g_client_sid := 9; g_server_sid := 2; ms_env := [] |};
     latest_io_time := 0; now := 100 |}.

Definition buf0 : bytes := zrepeat kMaxChunkSize 0.

Lemma buf0_size : kMaxChunkSize <= zlen buf0.
Proof. unfold buf0; by rewrite zlen_repeat. Qed.

Lemma buf0_bytes : is_bytes buf0.
Proof. by apply Forall_replicate. Qed.

Lemma w0_ends : ends w0 0 1 client site.
Proof. unfold ends; split_and!; try done; repeat constructor; done. Qed.

End TransferDemo.

Section witnesses.
Import Pipe StreamDemo TransferDemo.

Lemma transfer_copies_and_terminates_witness :
  exists w' ca' cb', transfer true true buf0 11 (Sock 0) (Sock 1) w0 = (w', Ok tt) /\
    ends w' 0 1 ca' cb' /\ rx ca' = [] /\ tx cb' = bs "hello" /\ tx ca' = [] /\ rx cb' = bs "world".
Proof. exact (transfer_copies_and_terminates true true buf0 buf0_size w0 0 1 client site ltac:(done) w0_ends). Defined.

Lemma duplex_conserves_bytes_witness :
  exists w', nsteps (duplex_step true true buf0 (Sock 0) (Sock 1)) 1 (w0, Reading, Reading)
    (w', Writing (Some (bs "hel" ++ zdrop 3 buf0), 3), Reading) /\
  exists ca' cb', ends w' 0 1 ca' cb' /\
    tx cb' ++ bs "hel" ++ rx ca' = bs "hello" /\ tx ca' ++ rx cb' = bs "world".
Proof.
  eexists; match goal with |- ?P /\ _ => assert P as Hs end.
  { apply nsteps_once, step_ab; [done | vm_compute; reflexivity]. }
  split; [exact Hs|].
  apply (duplex_conserves_bytes true true buf0 buf0_size 1 w0 0 1 client site _ _ _ ltac:(done) w0_ends Hs).
Defined.

Lemma duplex_completes_witness :
  (0 <= 2 * (5 + 5) + 2)%nat /\ exists y, duplex_step true true buf0 (Sock 0) (Sock 1) (w0, Reading, Reading) y.
Proof.
  destruct (duplex_completes true true buf0 buf0_size 0 w0 0 1 client site w0 Reading Reading)
    as (Hn & Hp & _); [done | apply w0_ends | constructor |].
  split; [exact Hn | by apply Hp].
Defined.

Lemma socket_to_stream_witness :
  exists w' evs o', transfer true true buf0 11 (Sock 0) (Strm 0) w0 = (w', Ok tt) /\
    ms_env (strs w') = evs ++ [make_event 7 StreamCloseRequest] /\
    Forall (chunk_of 7) evs /\ concat (payload <$> evs) = bs "hello" /\
    objects (strs w') !! 0%nat = Some o' /\ stream_closed o' = true /\ g_streams (strs w') !! (9, 7) = None.
Proof.
  refine (socket_to_stream true true buf0 buf0_size buf0_bytes w0 0 0 tt 9 7 client eq_refl _ _ _);
    [repeat constructor; done | exact (is_bytes_bs "hello") | by exists (open_stream 7)].
Defined.

Lemma stream_to_socket_witness :
  exists w' c' o', feed true true buf0 [(Some (bs "chunk one"), 9); (Some (bs "two?"), 3)] 0 1 w0 = (w', Ok Finished) /\
    socks w' !! 1%nat = Some c' /\ tx c' = bs "chunk onetwo" /\ rx c' = bs "world" /\
    objects (strs w') !! 0%nat = Some o' /\ stream_closed o' = true /\ ms_env (strs w') = [].
Proof.
  refine (stream_to_socket true true buf0 [(Some (bs "chunk one"), 9); (Some (bs "two?"), 3)] w0 0 1 site _ eq_refl _ _);
    [by exists (open_stream 7) | repeat constructor; done | by repeat constructor].
Defined.

End witnesses.
