(* ===== verification/Connect.v ===== *)
(** * Outgoing connections

    The name resolution and connection helpers of src/snova/util/net_helper.cc: [resolve_endpoint],
    [get_connected_socket] and [connect_remote_via_http_proxy].  The resolver and the sockets of
    asio are a class of operations on a network. *)

From S2P Require Import Prelude IoBuf Io Text.

(** [async_resolve] of a host and a service yields an error code and the results;
    [async_connect] of a fresh socket yields an error code and the socket. *)
Class Network (N Ep C : Type) := {
  async_resolve : bytes -> bytes -> st N (Z * list Ep);
  async_connect : Ep -> st N (Z * C)
}.

(** [std::errc]. *)
Definition bad_address : Z := 14.
Definition connection_refused : Z := 111.

Section connect.
Context {N Ep C : Type} `{Network N Ep C, IOConnection C, AbslStrings}.

(** [do_resolve_endpoint]: the error code, or the endpoint that is stored. *)
Definition do_resolve_endpoint (host : bytes) (port : Z) : st N (Z + Ep) :=
  let! '(ec, results) := async_resolve host (to_string port) in
  if negb (ec =? 0) then sret (inl ec)
  else match results with
       | [] => sret (inl bad_address)
       | e :: _ => sret (inr e)
       end.

(** [get_connected_socket]; the flag for TCP is not used. *)
Definition get_connected_socket (host : bytes) (port : Z) (is_tcp : bool) : st N (option C) :=
  let! r := do_resolve_endpoint host port in
  match r with
  | inl _ => sret None
  | inr select_endpoint =>
      let! '(connect_ec, socket) := async_connect select_endpoint in
      if negb (connect_ec =? 0) then sret None else sret (Some socket)
  end.

(** ** Through an HTTP proxy *)

Definition conn_req (host : bytes) (port : Z) : bytes :=
  bs "CONNECT " ++ host ++ bs ":" ++ to_string port ++ bs " HTTP/1.1" ++ CRLF ++
  bs "Host: " ++ host ++ bs ":" ++ to_string port ++ CRLF ++
  bs "Connection: keep-alive" ++ CRLF ++
  bs "Proxy-Connection: keep-alive" ++ CRLF ++ CRLF.

(** The exchange on the connected socket; [read_buffer] is what [get_iobuf(kMaxChunkSize)]
    returned. *)
Definition proxy_exchange (fuel : nat) (read_buffer : bytes) (remote_host : bytes) (remote_port : Z) : st C Z :=
  let! '(wn, wec) := AsyncWrite (conn_req remote_host remote_port) in
  if negb (wec =? 0) then sret wec
  else
    let! '(read_buffer, readed_len, end_pos) := read_until fuel (CRLF ++ CRLF) read_buffer 0 in
    if end_pos <? 0 then sret connection_refused
    else
      let! response_view := slift (access (zslice 0 end_pos read_buffer)) in
      if StartsWith response_view (bs "HTTP/1.1 2") || StartsWith response_view (bs "HTTP/1.0 2")
      then sret 0 else sret connection_refused.

(** [connect_remote_via_http_proxy]: the error code, and the socket when it was connected. *)
Definition connect_remote_via_http_proxy (fuel : nat) (read_buffer : bytes) (remote_host : bytes) (remote_port : Z)
    (proxy_host : bytes) (proxy_port : Z) : st N (Z * option C) :=
  let! r := do_resolve_endpoint proxy_host proxy_port in
  match r with
  | inl ec => sret (ec, None)
  | inr proxy_endpoint =>
      let! '(connect_ec, socket) := async_connect proxy_endpoint in
      if negb (connect_ec =? 0) then sret (connect_ec, None)
      else
        let '(socket, r) := proxy_exchange fuel read_buffer remote_host remote_port socket in
        let! ec := slift r in sret (ec, Some socket)
  end.

(** The host name that is resolved and the endpoint that is dialled. *)
Lemma get_connected_socket_connects n n1 n2 host port tcp e es c :
  async_resolve host (to_string port) n = (n1, Ok (0, e :: es)) ->
  async_connect e n1 = (n2, Ok (0, c)) ->
  get_connected_socket host port tcp n = (n2, Ok (Some c)).
Proof. intros E1 E2; unfold get_connected_socket, do_resolve_endpoint; srun; rewrite E1; cbn; by rewrite E2. Qed.

Context `{!StreamView C, !ByteStream C}.

(** A proxy that is reached.  The request sent is exactly the CONNECT request for the target, and
    the tunnel is accepted exactly when the status line of the answer, whatever pieces it arrives
    in, has a status of the 200s in HTTP 1.0 or 1.1; otherwise the connection is refused. *)
Theorem http_proxy_connect n n1 n2 e es c fuel buf host port phost pport answer rest :
  async_resolve phost (to_string pport) n = (n1, Ok (0, e :: es)) ->
  async_connect e n1 = (n2, Ok (0, c)) -> live c ->
  bfind (CRLF ++ CRLF) (answer ++ CRLF ++ CRLF ++ rest) = Some (zlen answer) ->
  rx c = answer ++ CRLF ++ CRLF ++ rest -> 0 < zlen buf -> (length (rx c) < fuel)%nat ->
  exists c', connect_remote_via_http_proxy fuel buf host port phost pport n =
      (n2, Ok (if StartsWith answer (bs "HTTP/1.1 2") || StartsWith answer (bs "HTTP/1.0 2")
               then 0 else connection_refused, Some c')) /\
    tx c' = tx c ++ conn_req host port /\ live c'.
Proof.
  intros Er Ec Hl Hf Hrx Hb Hfuel; unfold connect_remote_via_http_proxy, do_resolve_endpoint; srun.
  rewrite Er; cbn [negb Z.eqb]; rewrite Ec; cbn [negb Z.eqb].
  unfold proxy_exchange; srun; destruct (stream_write (conn_req host port) c Hl) as (c1 & -> & Htx & Hrx1 & Hl1).
  cbn [negb Z.eqb].
  destruct (read_until_spec fuel (CRLF ++ CRLF) buf 0 c1 (zlen answer))
    as (c2 & buf2 & n2' & -> & Hn & Happ & Hp & Htx2 & Hl2); try done; try lia.
  { by rewrite ztake_0, Hrx1, Hrx. }
  { by rewrite Hrx1. }
  pose proof (zlen_nonneg answer); pose proof (zlen_nonneg (CRLF ++ CRLF)).
  bool_false (zlen answer <? 0); rewrite zslice_Some, zdrop_0 by lia.
  assert (ztake (zlen answer) buf2 = answer) as ->.
  { rewrite ztake_0, Hrx1, Hrx in Happ; apply (f_equal (ztake (zlen answer))) in Happ.
    cbn [app] in Happ; rewrite (ztake_app_exact answer) in Happ by done.
    rewrite ztake_app_le in Happ by (rewrite zlen_take; lia).
    unfold ztake in *; by rewrite take_take, Nat.min_l in Happ by lia. }
  exists c2; split; [by destruct (_ || _)|]; split; [by rewrite Htx2 | done].
Qed.

End connect.

(** ** Witness *)

(** A network with one host that answers every connection with the same bytes. *)
Module NetDemo.
Import Pipe.

#[export] Instance demo_net : Network unit Z pipe := {|
  async_resolve host service := sret (if decide (host = bs "proxy") then (0, [7]) else (1, []));
  async_connect e := sret (0, {| chunks := [bs "HTTP/1.1 200 OK"; CRLF ++ CRLF]; sent := [] |})
|}.

End NetDemo.

Section witnesses.
Import Pipe NetDemo RefAbsl.

Lemma http_proxy_connect_witness :
  exists c', connect_remote_via_http_proxy 30 (zrepeat 64 0) (bs "site") 443 (bs "proxy") 8080 tt =
      (tt, Ok (0, Some c')) /\ tx c' = conn_req (bs "site") 443 /\ live c'.
Proof.
  refine (http_proxy_connect tt tt tt 7 [] {| chunks := [bs "HTTP/1.1 200 OK"; CRLF ++ CRLF]; sent := [] |}
    30 (zrepeat 64 0) (bs "site") 443 (bs "proxy") 8080 (bs "HTTP/1.1 200 OK") []
    eq_refl eq_refl _ _ _ _ _); by vm_compute; repeat constructor.
Defined.

End witnesses.
