(* ===== verification/Relay.v ===== *)
(** * The relay

    src/snova/server/relay.cc: joins a local end, a client's socket or a stream of the peer, to the
    destination, either over a new socket ([direct]) or over a new stream of a session of the user,
    copies in both directions, and cleans up.  The copying is that of [Transfer], the timeout that
    of [TimeWheel]; the sessions are seen through the interface [RelayFactories], which the
    connection manager implements. *)

From S2P Require Import Prelude Endian IoBuf TimeWheel Text HttpHelper Sni NetHelper LocalProxy Connect.
From S2P Require Import PbMessages MuxEvent CipherContext Io AsyncMutex MuxConnection MuxStream MuxConnManager Transfer.

(** What the relay asks of the connection manager: the client id and the factory of a session
    towards the exit, and the factory of the session an event came from. *)
Class RelayFactories (E F : Type) := {
  relay_factory : bytes -> E -> res (option (Z * F));
  entry_factory : bytes -> Z -> E -> option F
}.

#[export] Instance manager_factories {C} `{HashOrder} : RelayFactories (MuxConnManager C) nat := {|
  relay_factory := GetRelayEventWriterFactory;
  entry_factory u cid := GetEventWriterFactory u cid MUX_ENTRY_CONN
|}.

(** The world of the copy loops with the network and the time wheel. *)
Record Relay (N C E F Wr Ch : Type) := {
  rworld : World C E F Wr Ch;
  net : N;
  wheel : TimeWheel
}.
Arguments Build_Relay {N C E F Wr Ch}. Arguments rworld {N C E F Wr Ch}.
Arguments net {N C E F Wr Ch}. Arguments wheel {N C E F Wr Ch}.

Section relay.
Context {N Ep C E F Wr Ch : Type} `{IOConnection C, Network N Ep C, EventWriters E F Wr, DataChannel Ch}.
Context `{!RelayFactories E F}.
Abbreviation R := (Relay N C E F Wr Ch).

(** [g_is_entry_node], [g_is_exit_node], [g_stream_io_timeout_secs], [get_iobuf], and the system
    clock in milliseconds. *)
Variables (entry exit_node : bool) (io_timeout_secs : Z) (get_iobuf : Z -> bytes) (now_ms : Z).

Definition on_world {A} (m : st (World C E F Wr Ch) A) : st R A := fun r =>
  let '(w, a) := m (rworld r) in ({| rworld := w; net := net r; wheel := wheel r |}, a).
Definition on_net {A} (m : st N A) : st R A := fun r =>
  let '(n, a) := m (net r) in ({| rworld := rworld r; net := n; wheel := wheel r |}, a).
Definition on_wheel {A} (f : TimeWheel -> TimeWheel * A) : st R A := fun r =>
  let '(t, a) := f (wheel r) in ({| rworld := rworld r; net := net r; wheel := t |}, Ok a).

(** [close_local], which is also what the timeout does. *)
Definition close_local (local : endpoint) : st (World C E F Wr Ch) unit :=
  match local with
  | Sock k => on_sock k (fun c => (IoClose c, Ok tt))
  | Strm p => let! _ := on_strs (Close false p) in sret tt
  end.

(** A scope with an [absl::Cleanup]: the clean-up runs when the scope is left, by a return or by an
    exception, and not while the coroutine is suspended. *)
Definition with_cleanup {A} (cleanup : R -> R) (m : st R A) : st R A := fun r =>
  match m r with
  | (r, Ok a) => (cleanup r, Ok a)
  | (r, Err rc) => (cleanup r, Err rc)
  | (r, Ub) => (r, Ub)
  | (r, Hang) => (r, Hang)
  end.

(** [try ... catch]. *)
Definition catch (m : st R unit) : st R unit := fun r =>
  match m r with
  | (r, Err _) => (r, Ok tt)
  | x => x
  end.

(** [transfer(a, b) && transfer(b, a)]; the routine is set when there is a timeout. *)
Definition both_ways (sched : list (turn (World C E F Wr Ch))) (a b : endpoint) : st R unit :=
  catch (on_world (duplex entry (0 <? io_timeout_secs) (get_iobuf kMaxChunkSize) sched a b Reading Reading)).

(** The new socket gets a name in the world. *)
Definition connect_remote (host : bytes) (port : Z) (tcp : bool) : st R (option nat) :=
  let! s := on_net (get_connected_socket host port tcp) in
  match s with
  | None => sret None
  | Some c =>
      let! r := sget in
      let k := fresh (dom (socks (rworld r))) in
      let! _ := on_world (smodify (set_socks (insert k c))) in
      sret (Some k)
  end.

(** The branch that connects; the socket is closed when its pointer goes out of scope. *)
Definition relay_to_socket (sched : list (turn (World C E F Wr Ch))) (local : endpoint) (readed_data : bytes) (ctx : RelayContext) : st R unit :=
  let! remote := connect_remote (LocalProxy.remote_host ctx) (LocalProxy.remote_port ctx) (LocalProxy.is_tcp ctx) in
  match remote with
  | None => sret tt
  | Some k =>
      let! _ := if 0 <? zlen readed_data
                then let! _ := on_world (on_sock k (AsyncWrite readed_data)) in sret tt
                else sret tt in
      let! _ := both_ways sched local (Sock k) in
      on_world (smodify (set_socks (alter IoClose k)))
  end.

(** The branch that opens a stream. *)
Definition relay_to_stream (sched : list (turn (World C E F Wr Ch))) (local : endpoint) (readed_data : bytes) (ctx : RelayContext) : st R unit :=
  let! r := sget in
  let! found := slift (relay_factory (LocalProxy.user ctx) (ms_env (strs (rworld r)))) in
  match found with
  | None => sret tt
  | Some (client_id, factory) =>
      let! stream_id := on_world (on_strs (NextID true)) in
      let! remote_stream := on_world (on_strs (New (Some factory) client_id stream_id)) in
      let! _ := on_world (on_strs (SetTLS (LocalProxy.is_tls ctx) remote_stream)) in
      with_cleanup (fun r => fst (on_world (on_strs (Remove client_id stream_id)) r))
        (let! _ := on_world (on_strs (Open (LocalProxy.remote_host ctx) (LocalProxy.remote_port ctx)
                                           (LocalProxy.is_tcp ctx) (LocalProxy.is_tls ctx) remote_stream)) in
         let! _ := if 0 <? zlen readed_data then
                     let! tmp_buf := slift (access (zblit 0 readed_data (get_iobuf (zlen readed_data)))) in
                     let! _ := on_world (on_strs (stream_Write entry (Some tmp_buf) (zlen readed_data) remote_stream)) in
                     sret tt
                   else sret tt in
         let! _ := both_ways sched local (Strm remote_stream) in
         let! _ := on_world (on_strs (Close false remote_stream)) in
         sret tt)
  end.

(** [do_relay]; [now] of the world is [time(nullptr)]. *)
Definition do_relay (sched : list (turn (World C E F Wr Ch))) (local : endpoint) (readed_data : bytes) (ctx : RelayContext) (direct : bool)
  : st R unit :=
  let! _ := on_world (smodify (fun w => set_io_time (fun _ => now w) w)) in
  let! task := if 0 <? io_timeout_secs
               then let! t := on_wheel (TimeWheel.Add now_ms (wrap 32 (io_timeout_secs * 1000))) in sret (Some t)
               else sret None in
  with_cleanup (fun r => match task with
                         | Some t => {| rworld := rworld r; net := net r; wheel := cancel t (wheel r) |}
                         | None => r end)
    (if exit_node || direct then relay_to_socket sched local readed_data ctx
     else relay_to_stream sched local readed_data ctx).

(** [relay] and [relay_direct] of a socket, which is closed when the coroutine ends; [relay] of a
    stream. *)
Definition relay_socket (sched : list (turn (World C E F Wr Ch))) (k : nat) (readed_data : bytes) (ctx : RelayContext) (direct : bool) : st R unit :=
  with_cleanup (fun r => fst (on_world (smodify (set_socks (alter IoClose k))) r))
    (do_relay sched (Sock k) readed_data ctx direct).

Definition relay_stream (sched : list (turn (World C E F Wr Ch))) (p : nat) (readed_data : bytes) (ctx : RelayContext) : st R unit :=
  let! _ := do_relay sched (Strm p) readed_data ctx false in
  let! _ := on_world (on_strs (Close false p)) in sret tt.

(** [relay_handler]: the coroutine spawned for a request to open a stream. *)
Definition relay_handler (sched : list (turn (World C E F Wr Ch))) (auth_user : bytes) (client_id : Z) (event : MuxEvent) : st R unit :=
  match body event with
  | StreamOpenRequest req =>
      let! r := sget in
      let factory := entry_factory auth_user client_id (ms_env (strs (rworld r))) in
      let local_stream_id := sid (head event) in
      let! local_stream := on_world (on_strs (New factory client_id local_stream_id)) in
      let! _ := on_world (on_strs (SetTLS (PbMessages.is_tls req) local_stream)) in
      with_cleanup (fun r => fst (on_world (on_strs (Remove client_id local_stream_id)) r))
        (let ctx := {| LocalProxy.user := auth_user; LocalProxy.remote_host := PbMessages.remote_host req;
                       LocalProxy.remote_port := wrap 16 (PbMessages.remote_port req);
                       LocalProxy.is_tls := PbMessages.is_tls req; LocalProxy.is_tcp := PbMessages.is_tcp req |} in
         let! _ := do_relay sched (Strm local_stream) [] ctx false in
         let! _ := on_world (on_strs (Close false local_stream)) in sret tt)
  | _ => sret tt
  end.

End relay.

(** ** The timeout *)

Section timeout.
Context {N Ep C E F Wr Ch : Type} `{IOConnection C, Network N Ep C, EventWriters E F Wr, DataChannel Ch}.
Context `{!RelayFactories E F}.
Variables (entry exit_node : bool) (io_timeout_secs : Z) (get_iobuf : Z -> bytes) (now_ms : Z).
Abbreviation R := (Relay N C E F Wr Ch).

(** The wheel is touched by nothing but the registration and the clean-up. *)
#[local] Instance keeps_on_world {A} (m : st _ A) : Preserves (@wheel N C E F Wr Ch) (on_world m).
Proof. intros r; unfold on_world; by destruct (m (rworld r)). Qed.
#[local] Instance keeps_on_net {A} (m : st _ A) : Preserves (@wheel N C E F Wr Ch) (on_net m).
Proof. intros r; unfold on_net; by destruct (m (net r)). Qed.
#[local] Instance keeps_catch (m : st R unit) : Preserves wheel m -> Preserves wheel (catch m).
Proof. intros Hm r; unfold catch; specialize (Hm r); by destruct (m r) as [r1 [a| | |]]. Qed.
#[local] Instance keeps_cleanup {A B} (m' : st _ B) (m : st R A) :
  Preserves wheel m -> Preserves wheel (with_cleanup (fun r => fst (on_world m' r)) m).
Proof.
  intros Hm r; unfold with_cleanup; specialize (Hm r); destruct (m r) as [r1 [a| | |]]; cbn in *; try done;
    by rewrite (keeps_on_world m' r1).
Qed.
#[local] Instance keeps_to_socket sched local d ctx :
  Preserves wheel (relay_to_socket (N := N) (Ep := Ep) (E := E) (F := F) (Wr := Wr) (Ch := Ch) entry io_timeout_secs get_iobuf sched local d ctx).
Proof. unfold relay_to_socket, connect_remote, both_ways; apply _. Qed.
#[local] Instance keeps_to_stream sched local d ctx :
  Preserves wheel (relay_to_stream (N := N) (C := C) entry io_timeout_secs get_iobuf sched local d ctx).
Proof. unfold relay_to_stream, both_ways; apply _. Qed.

(** The timeout of a relay ends with it.  However [do_relay] ends, by a return on any branch or by
    an exception, the task it registered, whose callback refers to the locals of the coroutine, is
    canceled, and the tasks of all other relays are as they were. *)
Theorem relay_timeout_canceled sched local d ctx direct (r r' : R) out :
  0 < io_timeout_secs ->
  do_relay entry exit_node io_timeout_secs get_iobuf now_ms sched local d ctx direct r = (r', out) -> returns out ->
  exists t task, tasks (wheel r) !! t = None /\ tasks (wheel r') !! t = Some task /\ canceled task = true /\
    forall q, q <> t -> tasks (wheel r') !! q = tasks (wheel r) !! q.
Proof.
  intros Ht; unfold do_relay, on_world at 1, smodify; srun.
  bool_true (0 <? io_timeout_secs); unfold on_wheel, TimeWheel.Add; cbn [rworld net wheel]; srun.
  set (t := fresh _); set (m := if exit_node || direct then _ else _).
  assert (Preserves wheel m) as Hm by (unfold m; apply _); clearbody m.
  unfold with_cleanup; match goal with |- context [m ?r1] => specialize (Hm r1); destruct (m r1) as [r2 o] end.
  cbn [wheel fst] in Hm; intros E1 Ho.
  assert (wheel r' = cancel t (wheel r2)) as Hw by (by destruct o; injection E1 as <- <-; cbn in Ho).
  exists t; eexists; split; [apply not_elem_of_dom, is_fresh|]; rewrite Hw, Hm; cbn; rewrite lookup_alter_eq, lookup_insert_eq.
  split; [done|]; split; [done|]; intros q Hq; by rewrite lookup_alter_ne, lookup_insert_ne.
Qed.

End timeout.

(** ** The two branches *)

Section branches.
Context {N Ep C E F Wr Ch : Type} `{IOConnection C, !StreamView C, !ByteStream C, !StreamEof C}.
Context `{Network N Ep C, EventWriters E F Wr, DataChannel Ch, !RelayFactories E F}.
Variables (entry exit_node : bool) (io_timeout_secs : Z) (get_iobuf : Z -> bytes) (now_ms : Z).
Hypothesis get_iobuf_size : forall n, n <= zlen (get_iobuf n).
Abbreviation R := (Relay N C E F Wr Ch).
Implicit Types (r : R) (c d : C).

(** What the set-up of [do_relay] leaves of the state, and what its end changes. *)
Lemma do_relay_body sched local data ctx direct r :
  exists r0 f, do_relay entry exit_node io_timeout_secs get_iobuf now_ms sched local data ctx direct r =
    with_cleanup f (if exit_node || direct then relay_to_socket entry io_timeout_secs get_iobuf sched local data ctx
                    else relay_to_stream entry io_timeout_secs get_iobuf sched local data ctx) r0 /\
    rworld r0 = set_io_time (fun _ => now (rworld r)) (rworld r) /\ net r0 = net r /\
    (forall r1, rworld (f r1) = rworld r1).
Proof.
  unfold do_relay, on_world at 1, smodify; srun; destruct (0 <? io_timeout_secs); unfold on_wheel; srun.
  - cbn [wheel]; destruct (TimeWheel.Add _ _ _) as [wh t].
    eexists _, (fun r => {| rworld := rworld r; net := net r; wheel := cancel t (wheel r) |}).
    by split; [reflexivity|].
  - eexists _, (fun r => r); by split; [reflexivity|].
Qed.

Lemma connect_remote_ok host port tcp r n d :
  get_connected_socket host port tcp (net r) = (n, Ok (Some d)) ->
  let k := fresh (dom (socks (rworld r))) in
  connect_remote host port tcp r =
    ({| rworld := set_socks (insert k d) (rworld r); net := n; wheel := wheel r |}, Ok (Some k)).
Proof. intros En; unfold connect_remote, on_net, on_world; srun; by rewrite En. Qed.

(** C14. A direct relay.  When the destination is reached, its socket is given the bytes that were
    already read and then all the client sends, the client is given all that the destination
    sends, whatever the order in which the two loops run, as long as each gets its turns; the
    relay then returns and the new socket is closed. *)
Theorem direct_relay_exchanges sched k c d n data ctx direct r :
  exit_node || direct = true ->
  socks (rworld r) !! k = Some c -> live c -> live d ->
  get_connected_socket (LocalProxy.remote_host ctx) (LocalProxy.remote_port ctx) (LocalProxy.is_tcp ctx) (net r)
    = (n, Ok (Some d)) ->
  (2 * length (rx c) + 1 <= turns true sched)%nat -> (2 * length (rx d) + 1 <= turns false sched)%nat ->
  exists r' kd c' d',
    do_relay entry exit_node io_timeout_secs get_iobuf now_ms (Loop <$> sched) (Sock k) data ctx direct r = (r', Ok tt) /\
    kd <> k /\ socks (rworld r') !! k = Some c' /\ socks (rworld r') !! kd = Some (IoClose d') /\
    tx d' = tx d ++ data ++ rx c /\ tx c' = tx c ++ rx d.
Proof.
  intros Hdir Hk Hlc Hld Hcon Ht1 Ht2.
  destruct (do_relay_body (Loop <$> sched) (Sock k) data ctx direct r) as (r0 & f & -> & Hw0 & Hn0 & Hf).
  rewrite Hdir; unfold with_cleanup, relay_to_socket, sbind at 1; rewrite <- Hn0 in Hcon.
  rewrite (connect_remote_ok _ _ _ _ _ _ Hcon); set (kd := fresh _).
  assert (kd <> k) as Hne.
  { intros Eq; assert (kd ∉ dom (socks (rworld r0))) as Hfr by apply is_fresh.
    apply Hfr; rewrite Eq, Hw0; apply elem_of_dom; by exists c. }
  cbv beta iota zeta; unfold sbind at 1; set (r1 := {| rworld := _; net := _; wheel := _ |}).
  assert (exists r2 d2, (if 0 <? zlen data
      then let! _ := on_world (on_sock kd (AsyncWrite data)) in sret tt else sret tt) r1 = (r2, Ok tt) /\
    ends (rworld r2) k kd c d2 /\ tx d2 = tx d ++ data /\ rx d2 = rx d) as (r2 & d2 & -> & He & Htd & Hrd).
  { destruct (Z.ltb_spec 0 (zlen data)) as [Hz|Hz].
    - destruct (stream_write data d Hld) as (d2 & Ew & Htd & Hrd & Hl2).
      unfold on_world, on_sock; srun; unfold r1; cbn; rewrite lookup_insert_eq, Ew.
      eexists _, d2; split; [done|]; unfold ends; cbn.
      rewrite !lookup_insert_eq, !lookup_insert_ne, Hw0 by done; by split_and!.
    - exists r1, d; split; [done|]; pose proof (zlen_nonneg data); rewrite (zlen_zero data) by lia.
      rewrite app_nil_r; unfold ends, r1; cbn; rewrite lookup_insert_eq, lookup_insert_ne, Hw0 by done; by split_and!. }
  unfold both_ways, catch, sbind, on_world at 1.
  destruct (duplex_run entry (0 <? io_timeout_secs) (get_iobuf kMaxChunkSize) ltac:(apply get_iobuf_size) sched
    (rworld r2) k kd c d2 Reading Reading) as (w' & c' & d' & -> & He' & Htd' & Htc');
    [by intros Eq | done | done | done | unfold pump_cost; lia | rewrite Hrd; unfold pump_cost; lia |].
  cbn [inflight app] in *; unfold on_world, smodify; eexists _, kd, c', d'; split; [done|]; rewrite Hf; cbn.
  destruct He' as (Hk' & Hkd' & _); rewrite lookup_alter_eq, lookup_alter_ne, Hk', Hkd' by done.
  split_and!; try done; [by rewrite Htd', Htd, <- app_assoc | by rewrite Htc', Hrd].
Qed.

(** A user without a session.  The client's socket is closed and nothing is sent to it or on any
    stream. *)
Theorem relay_without_session sched k c data ctx r :
  exit_node = false -> socks (rworld r) !! k = Some c ->
  relay_factory (LocalProxy.user ctx) (ms_env (strs (rworld r))) = Ok None ->
  exists r', relay_socket entry exit_node io_timeout_secs get_iobuf now_ms sched k data ctx false r = (r', Ok tt) /\
    socks (rworld r') = <[k := IoClose c]> (socks (rworld r)) /\ strs (rworld r') = strs (rworld r) /\ net r' = net r.
Proof.
  intros -> Hk Hf; unfold relay_socket, do_relay, with_cleanup, on_world, smodify; srun; cbn.
  assert (alter IoClose k (socks (rworld r)) = <[k := IoClose c]> (socks (rworld r))) as Ha.
  { apply map_eq; intros j; destruct (decide (j = k)) as [->|]; [by rewrite lookup_alter_eq, Hk, lookup_insert_eq|].
    by rewrite lookup_alter_ne, lookup_insert_ne. }
  destruct (0 <? io_timeout_secs); unfold relay_to_stream, on_wheel; srun; cbn; rewrite Hf; srun;
    eexists; (split; [done|]); cbn; by rewrite Ha.
Qed.

End branches.

(** ** Over a stream *)

Lemma on_world_ok {N C E F Wr Ch A} (m : st (World C E F Wr Ch) A) (r : Relay N C E F Wr Ch) w a :
  m (rworld r) = (w, a) -> on_world m r = ({| rworld := w; net := net r; wheel := wheel r |}, a).
Proof. intros Hm; unfold on_world; by rewrite Hm. Qed.


Definition open_event (i : Z) (host : bytes) (port : Z) (tcp tls : bool) : MuxEvent :=
  make_event i (StreamOpenRequest {| PbMessages.remote_host := snprintf_s 512 host;
    PbMessages.remote_port := port; PbMessages.is_tcp := tcp; PbMessages.is_tls := tls |}).

Lemma open_event_sendable i host port tcp tls :
  fits 32 i -> is_bytes host -> fits 16 port -> sendable (open_event i host port tcp tls).
Proof.
  intros Hi Hh Hp; split; [|by vm_compute]; unfold event_wf, open_event; cbn; split; [done|]; split; [done|]; split; [done|].
  pose proof (snprintf_s_wf 512 host ltac:(lia) Hh) as Hs; unfold pb_wf, pb_conforms; cbn.
  apply Forall2_cons; split; [done|]; apply Forall2_cons; split; [unfold pb_field_ok, fits in *; lia|].
  by repeat (apply Forall2_cons; split; [done|]).
Qed.

Section over_stream.
Context {N Ep C E F Wr Ch : Type} `{IOConnection C, !StreamView C, !ByteStream C, !StreamEof C}.
Context `{Network N Ep C, EventWriters E F Wr, DataChannel Ch, !DataChannelOk Ch, !WaitingChannel Ch, !RelayFactories E F, !WriterLog E F Wr}.
Variables (entry : bool) (io_timeout_secs : Z) (get_iobuf : Z -> bytes) (now_ms : Z).
Hypothesis get_iobuf_size : forall n, n <= zlen (get_iobuf n).
Hypothesis get_iobuf_bytes : forall n, is_bytes (get_iobuf n).
Abbreviation R := (Relay N C E F Wr Ch).
Implicit Types (r : R) (w : World C E F Wr Ch) (c : C).

(** One loop to its end, then the rest of the schedule. *)
Lemma duplex_first_loop timed iobuf n : forall (sched : list (turn (World C E F Wr Ch))) a b p q w w',
  run_pump entry timed iobuf n a b p w = (w', Ok tt) ->
  duplex entry timed iobuf (replicate n (Loop true) ++ sched) a b p q w =
  duplex entry timed iobuf sched a b Finished q w'.
Proof.
  induction n as [|n IH]; intros sched a b p q w w'; [by destruct p; intros [= ->]|].
  destruct (decide (p = Finished)) as [->|Hp].
  - intros [= ->]; destruct (decide (q = Finished)) as [->|Hq]; [by destruct sched|].
    cbn [replicate app]; rewrite duplex_cons by congruence; unfold sbind; cbn [pump_step]; unfold sret.
    apply IH; by destruct n.
  - intros Hrun; cbn [replicate app]; rewrite duplex_cons by congruence; unfold sbind.
    assert (run_pump entry timed iobuf (S n) a b p w =
      sbind (pump_step entry timed iobuf a b p) (fun ps => run_pump entry timed iobuf n a b ps) w) as Hs by (by destruct p).
    rewrite Hrun in Hs; unfold sbind in Hs.
    destruct (pump_step entry timed iobuf a b p w) as [w1 [p1| | |]]; try done; by apply IH.
Qed.

Lemma both_ways_ok sched a b r w :
  duplex entry (0 <? io_timeout_secs) (get_iobuf kMaxChunkSize) sched a b Reading Reading (rworld r) = (w, Ok tt) ->
  both_ways entry io_timeout_secs get_iobuf sched a b r = ({| rworld := w; net := net r; wheel := wheel r |}, Ok tt).
Proof. intros Ed; unfold both_ways, catch, on_world; by rewrite Ed. Qed.

(** The loop that reads from a stream that is closed. *)
Lemma closed_stream_ends timed iobuf w p k o c :
  objects (strs w) !! p = Some o -> stream_closed o = true -> socks w !! k = Some c ->
  pump_step entry timed iobuf (Strm p) (Sock k) Reading w = (set_socks (insert k (IoClose c)) w, Ok Finished).
Proof.
  intros Ho Hc Hk; cbn [pump_step ep_read]; unfold on_strs, Read, deref; srun; rewrite Ho, Hc; cbn -[Close].
  unfold on_strs, on_sock; srun; cbn -[Close]; rewrite (Close_closed false p (strs w) o Ho Hc); cbn; rewrite Hk.
  by destruct w.
Qed.

(** The loop that reads from a stream for which nothing has come waits. *)
Lemma idle_stream_waits timed iobuf w p k :
  idle w p -> exists w', pump_step entry timed iobuf (Strm p) (Sock k) Reading w = (w', Hang).
Proof.
  intros (o & Ho & Hcl & Hi); destruct (chan_receive_none _ Hi) as (c' & Hr).
  cbn [pump_step ep_read]; unfold on_strs, Read, deref; srun.
  rewrite Ho, Hcl, (on_channel_spec (strs w) p o _ c' Hang) by done; by eexists.
Qed.

(** After the loop into the stream has returned. *)
Lemma quiet_rest timed iobuf sched w p k o c :
  objects (strs w) !! p = Some o -> stream_closed o = true -> socks w !! k = Some c ->
  let rest s := duplex entry timed iobuf s (Sock k) (Strm p) Finished Reading w in
  (rest (Loop <$> sched)).2 = Hang \/ rest (Loop <$> sched) = rest [Loop false].
Proof.
  intros Ho Hcl Hk rest; unfold rest; induction sched as [|[] sched IH]; [by left|..]; cbn [fmap list_fmap];
    rewrite (duplex_cons _ _ _ (Loop _)) by done; [exact IH|].
  right; rewrite duplex_cons by done.
  rewrite !(sbind_ok _ _ _ _ _ (closed_stream_ends timed iobuf w p k o c Ho Hcl Hk)); by destruct sched.
Qed.

(** A chunk the loop has read. *)
Definition copies (ps : pump) : Prop :=
  match ps with
  | Reading => True
  | Writing (Some buf, n) => 0 < n <= kMaxChunkSize /\ n <= zlen buf /\ is_bytes buf
  | _ => False
  end.

Lemma pump_to_stream_step timed iobuf w p k wr cid i c ps :
  kMaxChunkSize <= zlen iobuf -> is_bytes iobuf ->
  socks w !! k = Some c -> live c -> is_bytes (rx c) -> sending w p wr cid i -> idle w p -> copies ps ->
  exists w' ps', pump_step entry timed iobuf (Sock k) (Strm p) ps w = (w', Ok ps') /\
    (ps' = Finished \/ exists c', socks w' !! k = Some c' /\ live c' /\ is_bytes (rx c') /\ sending w' p wr cid i /\ idle w' p /\ copies ps').
Proof.
  intros Hsz Hbs Hk Hl Hb Hs Hid Hps; destruct ps as [|[[buf|] n]|]; try done; cbn [pump_step]; srun.
  - destruct (decide (rx c = [])) as [Hr|Hr].
    + destruct (read_eof iobuf Hsz w k c) as (c' & ec & m & -> & Hec & _); [done..|].
      bool_false (ec =? 0); cbn [negb finish]; srun; unfold on_strs; destruct Hs as (o & Ho & Hcl & Hw & Ha & _ & <- & Hi).
      destruct (writer_sends wr (make_event (stream_sid o) StreamCloseRequest) (ms_env (strs w)) Ha)
        as (e & ev' & Hcall & _); [by apply close_sendable|].
      destruct (Close_accepted (strs w) p o wr e ev' Ho Hcl Hw Hcall) as (s' & o' & HC & _); cbn [strs set_socks]; rewrite HC.
      by eexists _, Finished; split; [|left].
    + destruct (read_data iobuf Hsz w k c) as (c' & d & -> & Hd & Hn & Hrx & _ & Hl'); [done..|].
      cbn [Z.eqb negb]; destruct (routine_run timed (set_socks (insert k c') w)) as (t & ->).
      eexists _, (Writing _); split; [done|]; right; exists c'; cbn; rewrite lookup_insert_eq; rewrite Hrx in Hb.
      apply is_bytes_app in Hb as [Hbd Hbr]; apply zlen_pos in Hd; split_and!; try done; [zlen_solve|].
      apply is_bytes_app; split; [done | auto with snova].
  - destruct Hps as (Hn & Hz & Hby); destruct (write_strm entry w p wr cid i buf n Hs Hn Hz Hby)
      as (w' & ev & -> & Hs' & _ & _ & _ & Hso & _ & _ & Hkp); cbn [Z.eqb negb].
    destruct (routine_run timed w') as (t & ->); eexists _, Reading; split; [done|]; right; exists c; cbn; rewrite Hso.
    destruct Hid as (o & Ho & Hcl & Hi); destruct (Hkp p o Ho) as (o' & Ho' & [= Hch Hcl' _ _ _]).
    split_and!; try done; exists o'; cbn; rewrite Hch, Hcl'; by split_and!.
Qed.

(** In every order of the two loops, the one from a stream for which nothing comes has to wait until the
    other, which ends in [w'], has returned. *)
Lemma quiet_order timed iobuf fuel sched : forall w p k wr cid i c ps w' o' c',
  kMaxChunkSize <= zlen iobuf -> is_bytes iobuf ->
  socks w !! k = Some c -> live c -> is_bytes (rx c) -> sending w p wr cid i -> idle w p -> copies ps ->
  run_pump entry timed iobuf fuel (Sock k) (Strm p) ps w = (w', Ok tt) ->
  objects (strs w') !! p = Some o' -> stream_closed o' = true -> socks w' !! k = Some c' ->
  (duplex entry timed iobuf (Loop <$> sched) (Sock k) (Strm p) ps Reading w).2 = Hang \/
  duplex entry timed iobuf (Loop <$> sched) (Sock k) (Strm p) ps Reading w =
    duplex entry timed iobuf [Loop false] (Sock k) (Strm p) Finished Reading w'.
Proof.
  revert fuel; induction sched as [|b sched IH]; intros fuel w p k wr cid i c ps w' o' c' Hsz Hbs Hk Hl Hb Hs Hid Hps Hrun Ho' Hcl' Hk'.
  { left; by destruct ps. }
  assert (ps <> Finished) as Hne by (by intros ->); cbn [fmap list_fmap]; destruct b; rewrite duplex_cons by congruence.
  - destruct (pump_to_stream_step timed iobuf w p k wr cid i c ps) as (w1 & ps1 & E1 & H1'); [done..|].
    rewrite (sbind_ok _ _ _ _ _ E1); destruct fuel as [|fuel]; [by destruct ps|].
    assert (run_pump entry timed iobuf (S fuel) (Sock k) (Strm p) ps w = run_pump entry timed iobuf fuel (Sock k) (Strm p) ps1 w1) as Hr1
      by (destruct ps; try done; exact (sbind_ok _ _ _ _ _ E1)).
    rewrite Hr1 in Hrun; destruct H1' as [->|(c1 & Hk1 & Hl1 & Hb1 & Hs1 & Hid1 & Hps1)].
    + assert (w1 = w') as -> by (by destruct fuel; injection Hrun). by apply (quiet_rest timed iobuf sched w' p k o' c').
    + by apply (IH fuel w1 p k wr cid i c1 ps1 w' o' c').
  - left; destruct (idle_stream_waits timed iobuf w p k Hid) as (w1 & E1); unfold sbind; by rewrite E1.
Qed.

(** The two loops play symmetric parts. *)
Definition swap_turn {W} (t : turn W) : turn W := match t with Loop ab => Loop (negb ab) | Meanwhile f => Meanwhile f end.

Lemma duplex_swap timed iobuf (sched : list (turn (World C E F Wr Ch))) : forall a b p q w,
  duplex entry timed iobuf (swap_turn <$> sched) b a q p w = duplex entry timed iobuf sched a b p q w.
Proof.
  induction sched as [|x sched IH]; intros a b p q w; [by destruct p, q|].
  destruct (decide ((p, q) = (Finished, Finished))) as [[= -> ->]|Hne]; [done|].
  assert ((q, p) <> (Finished, Finished)) as Hne' by congruence.
  cbn [fmap list_fmap]; rewrite !duplex_cons by done.
  destruct x as [[]|f]; cbn [swap_turn negb]; [..|apply IH];
    unfold sbind; destruct (pump_step _ _ _ _ _ _ w) as [w1 [z| | |]]; try done; apply IH.
Qed.

(** The loop into the stream runs to its end, then the other one. *)
Definition alone (n : nat) : list bool := replicate n true ++ [false].

(** Copying a socket into a stream for which nothing comes.  In every order in which no loop has to wait,
    and in that of [alone] in particular, the peer is sent the bytes of the socket in chunks, in order, and
    one close, and the socket is closed. *)
Lemma quiet_copy timed iobuf sched w p k wr cid i c :
  kMaxChunkSize <= zlen iobuf -> is_bytes iobuf ->
  socks w !! k = Some c -> live c -> is_bytes (rx c) -> sending w p wr cid i -> idle w p ->
  sched = alone (2 * length (rx c) + 1) \/ (duplex entry timed iobuf (Loop <$> sched) (Sock k) (Strm p) Reading Reading w).2 <> Hang ->
  exists w' evs c' o', duplex entry timed iobuf (Loop <$> sched) (Sock k) (Strm p) Reading Reading w = (w', Ok tt) /\
    world_sent wr (evs ++ [make_event i StreamCloseRequest]) w w' /\
    Forall (chunk_of i) evs /\ concat (payload <$> evs) = rx c /\
    socks w' !! k = Some (IoClose c') /\ tx c' = tx c /\ objects (strs w') !! p = Some o' /\ stream_closed o' = true.
Proof.
  intros Hsz Hbs Hk Hl Hb Hs Hid Hsched.
  destruct (pump_steps_to_stream entry timed iobuf Hsz Hbs (2 * length (rx c) + 1) w k p wr cid i c)
    as (w5 & evs & c' & o' & E5 & Hlog & Hev & Hcat & Hc5 & Htx & Ho5 & Hcl5 & _); [done..|].
  assert (duplex entry timed iobuf (Loop <$> sched) (Sock k) (Strm p) Reading Reading w =
    duplex entry timed iobuf [Loop false] (Sock k) (Strm p) Finished Reading w5) as ->.
  { destruct Hsched as [->|Hh].
    - unfold alone; rewrite fmap_app, fmap_replicate; exact (duplex_first_loop _ _ _ _ _ _ _ _ _ _ E5).
    - by destruct (quiet_order timed iobuf (2 * length (rx c) + 1) sched w p k wr cid i c Reading w5 o' c')
        as [|]; [done..|]. }
  rewrite duplex_cons, (sbind_ok _ _ _ _ _ (closed_stream_ends _ _ w5 p k o' c' Ho5 Hcl5 Hc5)) by done.
  eexists _, evs, c', o'; split; [done|]; cbn; rewrite lookup_insert_eq; by split_and!.
Qed.

(** An outcome of the copying that is no waiting is not waiting. *)
Lemma both_ways_waits sched a b r :
  (both_ways entry io_timeout_secs get_iobuf sched a b r).2 <> Hang ->
  (duplex entry (0 <? io_timeout_secs) (get_iobuf kMaxChunkSize) sched a b Reading Reading (rworld r)).2 <> Hang.
Proof. unfold both_ways, catch, on_world; by destruct (duplex _ _ _ _ _ _ _ _ _) as [w [| | |]]. Qed.

Lemma waits_first {S A B} (m : st S A) (k : A -> st S B) s : (sbind m k s).2 <> Hang -> (m s).2 <> Hang.
Proof. unfold sbind; by destruct (m s) as [s' [| | |]]. Qed.

Lemma waits_inside {A} cl (m : st R A) r : (with_cleanup cl m r).2 <> Hang -> (m r).2 <> Hang.
Proof. unfold with_cleanup; by destruct (m r) as [r' [| | |]]. Qed.

Lemma open_sends w p wr cid i host port tcp tls :
  sending w p wr cid i -> is_bytes host -> fits 16 port ->
  exists w', on_strs (Open host port tcp tls p) w = (w', Ok 0) /\ sending w' p wr cid i /\
    world_sent wr [open_event i host port tcp tls] w w' /\ socks w' = socks w /\ kept w w'.
Proof.
  intros (o & Ho & Hcl & Hw & Ha & <- & <- & Hi) Hh Hp.
  destruct (writer_sends wr (open_event (stream_sid o) host port tcp tls) (ms_env (strs w)) Ha)
    as (e & ev' & Hcall & Hlog & Ha'); [by apply open_event_sendable|].
  unfold on_strs, Open, deref, assign, MuxStream.WriteEvent; srun; rewrite Ho.
  erewrite WriteEvent_attempts_accepted; [| cbn; by rewrite lookup_alter_eq, Ho | exact Hw | exact Hcall].
  eexists; split; [done|]; split; [eexists; cbn; rewrite lookup_alter_eq, Ho; by split_and!|].
  split; [done|]; split; [done|]; by eapply (kept_alter p).
Qed.

(** The new stream of a relay. *)
Lemma new_sending w f cid i e wr :
  make_writer f (ms_env (strs w)) = (e, Ok (Some wr)) -> accepts wr e -> fits 32 i ->
  exists w' p, on_strs (New (Some f) cid i) w = (w', Ok p) /\ sending w' p wr cid i /\
    ms_env (strs w') = e /\ socks w' = socks w /\
    (exists o, objects (strs w') !! p = Some o /\ data_channel o = chan_new) /\
    (Get cid i (strs w) = None -> Get cid i (strs w') = Some p) /\ objects (strs w) !! p = None /\ kept w w'.
Proof.
  intros Hm Ha Hi; unfold on_strs, New, on_env; srun; rewrite Hm.
  eexists _, _; split; [done|]; cbn; split; [eexists; cbn; rewrite lookup_insert_eq; by split_and!|].
  do 2 (split; [done|]); rewrite lookup_insert_eq; split; [by eexists|].
  assert (objects (strs w) !! fresh (dom (objects (strs w))) = None) as Hfr by apply not_elem_of_dom, is_fresh.
  split; [unfold Get; cbn; intros ->; apply lookup_insert_eq|]; split; [done|]; split.
  - intros cid' i' q; unfold Get; cbn; intros Hq.
    destruct (g_streams (strs w) !! (cid, i)) eqn:Ei; [done|]; rewrite lookup_insert_ne; [done | congruence].
  - intros q o Hq; exists o; cbn; rewrite lookup_insert_ne; [done | congruence].
Qed.

Lemma set_tls_sending w p wr cid i b :
  sending w p wr cid i ->
  exists w', on_strs (SetTLS b p) w = (w', Ok tt) /\ sending w' p wr cid i /\
    ms_env (strs w') = ms_env (strs w) /\ socks w' = socks w /\ kept w w'.
Proof.
  intros (o & Ho & Hcl & Hw & Ha & <- & <- & Hi); eexists; split; [done|].
  split; [eexists; cbn; rewrite lookup_alter_eq, Ho; by split_and!|].
  split; [done|]; split; [done|]; by eapply (kept_alter p).
Qed.

(** The data that was read before the relay began. *)
Lemma first_data r p wr cid i data :
  sending (rworld r) p wr cid i -> zlen data <= kMaxChunkSize -> is_bytes data ->
  exists r' evs, (if 0 <? zlen data then
      let! tmp_buf := slift (access (zblit 0 data (get_iobuf (zlen data)))) in
      let! _ := on_world (on_strs (stream_Write entry (Some tmp_buf) (zlen data) p)) in sret tt
    else sret tt) r = (r', Ok tt) /\ sending (rworld r') p wr cid i /\
    world_sent wr evs (rworld r) (rworld r') /\
    Forall (chunk_of i) evs /\ concat (payload <$> evs) = data /\ socks (rworld r') = socks (rworld r) /\
    kept (rworld r) (rworld r').
Proof.
  intros Hs Hd Hb; destruct (Z.ltb_spec 0 (zlen data)) as [Hz|Hz].
  - unfold sbind, slift; rewrite zblit_head by apply get_iobuf_size; cbn [access].
    set (buf := data ++ _).
    destruct (write_strm entry (rworld r) p wr cid i buf (zlen data))
      as (w' & ev & Ew & Hs' & Hlog & Hev & Hpay & Hso & _ & Hkp);
      [done | lia | unfold buf; zlen_solve | apply is_bytes_app; split; [done | auto with snova] |].
    unfold on_world; cbn [ep_write fst snd] in Ew; rewrite Ew.
    eexists _, [ev]; split; [done|]; do 2 (split; [done|]); split; [by constructor|]; split; [|done].
    cbn; rewrite Hpay, app_nil_r; unfold buf; by rewrite ztake_app_exact.
  - exists r, []; split; [done|]; pose proof (zlen_nonneg data); rewrite (zlen_zero data) by lia.
    split; [done|]; split; [apply wsent_nil|]; split_and!; try done; apply kept_refl.
Qed.

(** Up to the copying: the stream is there, and the peer has been asked to open it and been sent the
    data that was read before. *)
Lemma relay_to_stream_set_up sched local data ctx r cid f e wr :
  zlen data <= kMaxChunkSize -> is_bytes data ->
  is_bytes (LocalProxy.remote_host ctx) -> fits 16 (LocalProxy.remote_port ctx) -> fits 32 (g_client_sid (strs (rworld r))) ->
  relay_factory (LocalProxy.user ctx) (ms_env (strs (rworld r))) = Ok (Some (cid, f)) ->
  make_writer f (ms_env (strs (rworld r))) = (e, Ok (Some wr)) -> accepts wr e ->
  let i := g_client_sid (strs (rworld r)) in
  exists r4 p evs,
    relay_to_stream entry io_timeout_secs get_iobuf sched local data ctx r =
      with_cleanup (fun r => fst (on_world (on_strs (Remove cid i)) r))
        (let! _ := both_ways entry io_timeout_secs get_iobuf sched local (Strm p) in
         let! _ := on_world (on_strs (Close false p)) in sret tt) r4 /\
    sending (rworld r4) p wr cid i /\
    wsent wr ([open_event i (LocalProxy.remote_host ctx) (LocalProxy.remote_port ctx)
                 (LocalProxy.is_tcp ctx) (LocalProxy.is_tls ctx)] ++ evs) e (ms_env (strs (rworld r4))) /\
    Forall (chunk_of i) evs /\ concat (payload <$> evs) = data /\ socks (rworld r4) = socks (rworld r) /\
    (exists o, objects (strs (rworld r4)) !! p = Some o /\ data_channel o = chan_new) /\
    (Get cid i (strs (rworld r)) = None -> Get cid i (strs (rworld r4)) = Some p) /\
    objects (strs (rworld r)) !! p = None /\ kept (rworld r) (rworld r4).
Proof.
  intros Hd Hdb Hhb Hpb Hsid Hf Hm Ha i; unfold relay_to_stream.
  erewrite (sbind_ok sget) by done; erewrite (sbind_ok (slift _)) by (unfold slift; by rewrite Hf); cbv beta iota.
  erewrite sbind_ok by (by apply on_world_ok); cbv beta iota.
  destruct (new_sending (set_strs (fun _ => set_client_sid (fun v => wrap 32 (v + 2)) (strs (rworld r))) (rworld r)) f cid i e wr)
    as (w1 & p & E1 & Hs1 & He1 & Hso1 & (o1 & Ho1 & Hch1) & Hg1 & Hfr & Hkp1); [done..|].
  erewrite sbind_ok by (by apply on_world_ok); cbv beta iota.
  destruct (set_tls_sending w1 p wr cid i (LocalProxy.is_tls ctx) Hs1) as (w2 & E2 & Hs2 & He2 & Hso2 & Hkp2).
  erewrite sbind_ok by (by apply on_world_ok); cbv beta iota.
  destruct (open_sends w2 p wr cid i (LocalProxy.remote_host ctx) (LocalProxy.remote_port ctx)
    (LocalProxy.is_tcp ctx) (LocalProxy.is_tls ctx) Hs2 Hhb Hpb) as (w3 & E3 & Hs3 & Hlog3 & Hso3 & Hkp3).
  match goal with |- context [with_cleanup _ _ ?r2] =>
    destruct (first_data {| rworld := w3; net := net r2; wheel := wheel r2 |} p wr cid i data)
      as (r4 & evs & E4 & Hs4 & Hlog4 & Hev4 & Hcat4 & Hso4 & Hkp4); [done..|] end.
  exists r4, p, evs; split.
  { unfold with_cleanup; erewrite sbind_ok by (by apply on_world_ok); cbv beta iota; by rewrite (sbind_ok _ _ _ _ _ E4). }
  split; [done|]; unfold world_sent in *; cbn [rworld] in *; rewrite He2, He1 in Hlog3.
  split; [exact (wsent_app _ _ _ _ _ _ Hlog3 Hlog4)|]; do 2 (split; [done|]); split; [by rewrite Hso4, Hso3, Hso2, Hso1|].
  pose proof (kept_trans _ _ _ Hkp2 (kept_trans _ _ _ Hkp3 Hkp4)) as [Hg Hob].
  split; [destruct (Hob p o1 Ho1) as (o' & Ho' & [= Hch _ _ _ _]); exists o'; by rewrite Hch|].
  split; [intros Hget; apply Hg; by apply Hg1|]; split; [exact Hfr|].
  exact (kept_trans _ _ _ Hkp1 (conj Hg Hob)).
Qed.

(** The stream branch alone. *)
Lemma relay_to_stream_events sched k c data ctx r cid f e wr :
  socks (rworld r) !! k = Some c -> live c -> is_bytes (rx c) -> zlen data <= kMaxChunkSize -> is_bytes data ->
  is_bytes (LocalProxy.remote_host ctx) -> fits 16 (LocalProxy.remote_port ctx) -> fits 32 (g_client_sid (strs (rworld r))) ->
  relay_factory (LocalProxy.user ctx) (ms_env (strs (rworld r))) = Ok (Some (cid, f)) ->
  make_writer f (ms_env (strs (rworld r))) = (e, Ok (Some wr)) -> accepts wr e ->
  let i := g_client_sid (strs (rworld r)) in
  let run := relay_to_stream entry io_timeout_secs get_iobuf (Loop <$> sched) (Sock k) data ctx r in
  sched = alone (2 * length (rx c) + 1) \/ run.2 <> Hang ->
  exists r' evs c', run = (r', Ok tt) /\
    wsent wr ([open_event i (LocalProxy.remote_host ctx) (LocalProxy.remote_port ctx)
                 (LocalProxy.is_tcp ctx) (LocalProxy.is_tls ctx)] ++ evs ++ [make_event i StreamCloseRequest])
      e (ms_env (strs (rworld r'))) /\
    Forall (chunk_of i) evs /\ concat (payload <$> evs) = data ++ rx c /\
    socks (rworld r') !! k = Some (IoClose c') /\ tx c' = tx c /\ Get cid i (strs (rworld r')) = None.
Proof.
  intros Hk Hl Hrb Hd Hdb Hhb Hpb Hsid Hf Hm Ha i run; unfold run; clear run.
  destruct (relay_to_stream_set_up (Loop <$> sched) (Sock k) data ctx r cid f e wr)
    as (r4 & p & evs & -> & Hs4 & Hlog4 & Hev4 & Hcat4 & Hso4 & (o & Ho & Hch) & _); [done..|]; intros Hsched.
  assert (idle (rworld r4) p) as Hid.
  { destruct Hs4 as (o4 & Ho4 & Hcl4 & _); rewrite Ho in Ho4; injection Ho4 as <-; exists o; rewrite Hch; split_and!; try done; apply chan_new_empty. }
  destruct (quiet_copy (0 <? io_timeout_secs) (get_iobuf kMaxChunkSize) sched (rworld r4) p k wr cid i c)
    as (w5 & evs' & c' & o' & E5 & Hlog5 & Hev5 & Hcat5 & Hc5 & Htx5 & Ho5 & Hcl5);
    [apply get_iobuf_size | apply get_iobuf_bytes | by rewrite ?Hso4.. | |].
  { destruct Hsched as [?|Hh]; [by left | right; apply both_ways_waits; eapply waits_first, waits_inside, Hh]. }
  unfold with_cleanup; erewrite sbind_ok by (by apply both_ways_ok).
  erewrite sbind_ok.
  2: { apply on_world_ok; unfold on_strs; cbn [rworld]; by rewrite (Close_closed false p (strs w5) o'). }
  eexists _, (evs ++ evs'), c'; split; [done|]; cbn; rewrite lookup_delete_eq.
  rewrite fmap_app, concat_app, Hcat4, Hcat5, <- app_assoc; split; [exact (wsent_app _ _ _ _ _ _ Hlog4 Hlog5)|].
  split; [by apply Forall_app | by split_and!].
Qed.

(** A client relayed over a stream.  When the user has a session, the peer sees, in this order, one
    request to open a new stream to the destination the client asked for, the bytes read before
    and all further bytes of the client in chunks of that stream, and one close; the relay returns,
    the client's socket is closed, and the stream is out of the table.  This holds in every order of the
    two copy loops in which none has to wait. *)
Theorem mux_relay_events sched k c data ctx r cid f e wr :
  socks (rworld r) !! k = Some c -> live c -> is_bytes (rx c) -> zlen data <= kMaxChunkSize -> is_bytes data ->
  is_bytes (LocalProxy.remote_host ctx) -> fits 16 (LocalProxy.remote_port ctx) -> fits 32 (g_client_sid (strs (rworld r))) ->
  relay_factory (LocalProxy.user ctx) (ms_env (strs (rworld r))) = Ok (Some (cid, f)) ->
  make_writer f (ms_env (strs (rworld r))) = (e, Ok (Some wr)) -> accepts wr e ->
  let i := g_client_sid (strs (rworld r)) in
  let run := do_relay entry false io_timeout_secs get_iobuf now_ms (Loop <$> sched) (Sock k) data ctx false r in
  sched = alone (2 * length (rx c) + 1) \/ run.2 <> Hang ->
  exists r' evs c', run = (r', Ok tt) /\
    wsent wr ([open_event i (LocalProxy.remote_host ctx) (LocalProxy.remote_port ctx)
                 (LocalProxy.is_tcp ctx) (LocalProxy.is_tls ctx)] ++ evs ++ [make_event i StreamCloseRequest])
      e (ms_env (strs (rworld r'))) /\
    Forall (chunk_of i) evs /\ concat (payload <$> evs) = data ++ rx c /\
    socks (rworld r') !! k = Some (IoClose c') /\ tx c' = tx c /\ Get cid i (strs (rworld r')) = None.
Proof.
  intros Hk Hl Hrb Hd Hdb Hhb Hpb Hsid Hf Hm Ha i run; unfold run; clear run.
  destruct (do_relay_body entry false io_timeout_secs get_iobuf now_ms (Loop <$> sched) (Sock k) data ctx false r)
    as (r0 & cl & -> & Hw0 & _ & Hcl); cbn [orb]; intros Hsched.
  destruct (relay_to_stream_events sched k c data ctx r0 cid f e wr) as (r' & evs & c' & Eb & Hb);
    [by rewrite ?Hw0.. | destruct Hsched as [?|Hh]; [by left | right; by apply waits_inside in Hh] |].
  unfold with_cleanup; rewrite Hw0 in Hb; rewrite Eb; exists (cl r'), evs, c'; by rewrite Hcl.
Qed.

End over_stream.

(** ** The handler of the peer's requests *)

Section handler.
Context {N Ep C E F Wr Ch : Type} `{IOConnection C, Network N Ep C, EventWriters E F Wr, !EventWritersOk E F Wr}.
Context `{DataChannel Ch, !RelayFactories E F}.
Variables (entry exit_node : bool) (io_timeout_secs : Z) (get_iobuf : Z -> bytes) (now_ms : Z).
Abbreviation R := (Relay N C E F Wr Ch).
Implicit Types (r : R) (w : World C E F Wr Ch).

(** After [Close] a stream is closed, whether it was before or not. *)
Lemma Close_closes b p (s s' : Streams E F Wr Ch) ec :
  Close b p s = (s', Ok ec) -> exists o, objects s' !! p = Some o /\ stream_closed o = true.
Proof.
  intros HC; destruct (objects s !! p) as [o|] eqn:Ho; [|by unfold Close, deref in HC; srun_in HC; rewrite Ho in HC].
  destruct (stream_closed o) eqn:Hc.
  - rewrite (Close_closed b p s o Ho Hc) in HC; injection HC as <- _; by exists o.
  - destruct (Close_open b p s o Ho Hc) as (s1 & ec1 & o' & HC' & _ & Hobj & Hcl & _).
    rewrite HC in HC'; injection HC' as -> ->; exists o'; by rewrite Hobj, lookup_insert_eq.
Qed.

(** C29. A relayed stream leaves nothing behind.  When the handler of a request to open a stream
    returns, whatever happened in between, the stream it created is closed and its id is free
    again. *)
Theorem relay_handler_cleans_up sched auth_user cid ev req r r' :
  body ev = StreamOpenRequest req ->
  relay_handler entry exit_node io_timeout_secs get_iobuf now_ms sched auth_user cid ev r = (r', Ok tt) ->
  let p := fresh (dom (objects (strs (rworld r)))) in
  (exists o, objects (strs (rworld r')) !! p = Some o /\ stream_closed o = true) /\
  Get cid (sid (head ev)) (strs (rworld r')) = None.
Proof.
  intros Hb; unfold relay_handler; rewrite Hb; intros Hr.
  apply sbind_inv in Hr as (r1 & ? & [= <- <-] & Hr); apply sbind_inv in Hr as (r2 & p & Hnew & Hr).
  assert (p = fresh (dom (objects (strs (rworld r))))) as <-.
  { unfold on_world, on_strs, New in Hnew; destruct (entry_factory _ _ _) as [f|]; [|done].
    unfold on_env in Hnew; srun_in Hnew; destruct (make_writer_returns f (ms_env (strs (rworld r)))) as (e & wr & Em).
    rewrite Em in Hnew; by injection Hnew as _ <-. }
  apply sbind_inv in Hr as (r3 & ? & _ & Hr); unfold with_cleanup in Hr.
  match type of Hr with context [sbind ?m ?k r3] => destruct (sbind m k r3) as [r4 o4] eqn:Eb end.
  destruct o4 as [[]| | |]; try done; injection Hr as <-; cbn.
  apply sbind_inv in Eb as (r5 & ? & _ & Eb); apply sbind_inv in Eb as (r6 & ec & Ec & [= <-]).
  unfold on_world, on_strs in Ec; destruct (Close false p (strs (rworld r5))) as [s6 o6] eqn:Es.
  injection Ec as <- ->; cbn; split; [by apply (Close_closes false p (strs (rworld r5)) s6 ec)|].
  apply lookup_delete_eq.
Qed.

(** The handler does not check the factory: when the session of the connection is gone by the time
    the coroutine runs, it ends with the exception of an empty function, which [do_relay] guards
    against in the same situation, and the peer is not told. *)
Theorem relay_handler_without_session sched auth_user cid ev req r :
  body ev = StreamOpenRequest req -> entry_factory auth_user cid (ms_env (strs (rworld r))) = None ->
  exists r', relay_handler entry exit_node io_timeout_secs get_iobuf now_ms sched auth_user cid ev r
    = (r', Err bad_function_call) /\ strs (rworld r') = strs (rworld r).
Proof.
  intros Hb Hf; unfold relay_handler; rewrite Hb; unfold on_world, on_strs, New; srun; rewrite Hf; srun.
  by eexists; split; [done|].
Qed.

(** The idle timeout of a relayed stream ends the copying: after its callback the loop that reads
    the stream returns at its next step and the remote socket is closed. *)
Theorem idle_timeout_ends_copying timed iobuf w p k o c :
  objects (strs w) !! p = Some o -> stream_closed o = false -> socks w !! k = Some c ->
  exists w1 w2, close_local (Strm p) w = (w1, Ok tt) /\
    pump_step entry timed iobuf (Strm p) (Sock k) Reading w1 = (w2, Ok Finished) /\
    socks w2 !! k = Some (IoClose c) /\ Get (stream_client_id o) (stream_sid o) (strs w2) = None.
Proof.
  intros Ho Hc Hk; destruct (Close_open false p (strs w) o Ho Hc) as (s' & ec & o' & HC & Ht & Hobj & Hcl & _).
  unfold close_local, on_strs at 1; srun; rewrite HC; eexists _, _; split; [done|].
  erewrite closed_stream_ends; [| cbn; by rewrite Hobj, lookup_insert_eq | done | done].
  split; [done|]; cbn; rewrite lookup_insert_eq; split; [done|]; unfold Get; by rewrite Ht, lookup_delete_eq.
Qed.

End handler.

(** ** Witnesses *)

Module RelayDemo.
Import Pipe StreamDemo TransferDemo.

(** One user with a session; one host. *)
#[export] Instance demo_factories : RelayFactories TransferDemo.env unit := {|
  relay_factory u _ := Ok (if decide (u = bs "alice") then Some (9, tt) else None);
  entry_factory u cid _ := if decide (u = bs "alice") then Some tt else None
|}.

#[export] Instance all_writers_ok : EventWritersOk TransferDemo.env unit unit.
Proof. split; [by intros f e; eexists _, _ | by intros w ev e; eexists _, _, _]. Qed.

#[export] Instance site_net : Network unit unit pipe := {|
  async_resolve host service := sret (if decide (host = bs "site") then (0, [tt]) else (1, []));
  async_connect _ := sret (0, site)
|}.

Definition r0 : Relay unit pipe TransferDemo.env unit unit chan :=
  {| rworld := w0; net := tt; wheel := TimeWheel_new 10 |}.

Definition ctx0 : RelayContext :=
  {| LocalProxy.user := bs "alice"; LocalProxy.remote_host := bs "site"; LocalProxy.remote_port := 80;
     LocalProxy.is_tls := false; LocalProxy.is_tcp := true |}.
Definition ctx1 : RelayContext :=
  {| LocalProxy.user := bs "bob"; LocalProxy.remote_host := bs "site"; LocalProxy.remote_port := 80;
     LocalProxy.is_tls := false; LocalProxy.is_tcp := true |}.

Definition bufs (n : Z) : bytes := zrepeat n 0.

Lemma bufs_size n : n <= zlen (bufs n).
Proof.
  unfold bufs; destruct (Z.le_ge_cases 0 n); [by rewrite zlen_repeat | pose proof (zlen_nonneg (zrepeat n 0)); lia].
Qed.

Lemma bufs_bytes n : is_bytes (bufs n).
Proof. by apply Forall_replicate. Qed.

Definition request : MuxEvent := open_event 33 (bs "site") 80 true false.

End RelayDemo.

Section witnesses.
Import Pipe StreamDemo TransferDemo RelayDemo.

Lemma relay_timeout_canceled_witness :
  exists r', do_relay true false 120 bufs 5000 [] (Sock 0) [] ctx1 false r0 = (r', Ok tt) /\
  exists t task, tasks (wheel r0) !! t = None /\ tasks (wheel r') !! t = Some task /\ canceled task = true /\
    forall q, q <> t -> tasks (wheel r') !! q = tasks (wheel r0) !! q.
Proof.
  eexists; match goal with |- ?P /\ _ => assert P as Hs by (vm_compute; reflexivity) end; split; [exact Hs|].
  apply (relay_timeout_canceled true false 120 bufs 5000 [] (Sock 0) [] ctx1 false r0 _ (Ok tt)); [lia | exact Hs | done].
Defined.

Lemma direct_relay_exchanges_witness :
  exists r' kd c' d', do_relay true false 120 bufs 5000 (Loop <$> concat (replicate 11 [true; false])) (Sock 0) (bs "GET ") ctx0 true r0 = (r', Ok tt) /\
    kd <> 0%nat /\ socks (rworld r') !! 0%nat = Some c' /\ socks (rworld r') !! kd = Some d' /\
    tx d' = bs "GET hello" /\ tx c' = bs "world".
Proof.
  refine (direct_relay_exchanges true false 120 bufs 5000 bufs_size (concat (replicate 11 [true; false])) 0 client site tt
    (bs "GET ") ctx0 true r0 eq_refl eq_refl _ _ eq_refl _ _); by vm_compute; repeat constructor.
Defined.

Lemma relay_without_session_witness :
  exists r', relay_socket true false 120 bufs 5000 [] 0 (bs "GET ") ctx1 false r0 = (r', Ok tt) /\
    socks (rworld r') = <[0%nat := client]> (socks (rworld r0)) /\ strs (rworld r') = strs (rworld r0) /\ net r' = net r0.
Proof. exact (relay_without_session true false 120 bufs 5000 [] 0 client (bs "GET ") ctx1 r0 eq_refl eq_refl eq_refl). Defined.

Lemma mux_relay_events_witness :
  exists r' evs c', do_relay true false 120 bufs 5000 (Loop <$> alone 11) (Sock 0) (bs "GET ") ctx0 false r0 = (r', Ok tt) /\
    ms_env (strs (rworld r')) =
      [open_event 9 (bs "site") 80 true false] ++ evs ++ [make_event 9 StreamCloseRequest] /\
    Forall (chunk_of 9) evs /\ concat (payload <$> evs) = bs "GET hello" /\
    socks (rworld r') !! 0%nat = Some c' /\ tx c' = [] /\ Get 9 9 (strs (rworld r')) = None.
Proof.
  refine (mux_relay_events true 120 bufs 5000 bufs_size bufs_bytes (alone 11) 0 client (bs "GET ") ctx0 r0 9 tt [] tt eq_refl _
    (is_bytes_bs "hello") _ (is_bytes_bs "GET ") (is_bytes_bs "site") _ _ eq_refl eq_refl I (or_introl eq_refl));
    [repeat constructor; done | done | by split | by split].
Defined.

Lemma relay_handler_cleans_up_witness :
  exists r', relay_handler true true 120 bufs 5000 [] (bs "alice") 9 (open_event 33 (bs "nowhere") 80 true false) r0 = (r', Ok tt) /\
  (exists o, objects (strs (rworld r')) !! 1%nat = Some o /\ stream_closed o = true) /\
  Get 9 33 (strs (rworld r')) = None.
Proof.
  eexists; match goal with |- ?P /\ _ => assert P as Hs by (vm_compute; reflexivity) end; split; [exact Hs|].
  exact (relay_handler_cleans_up true true 120 bufs 5000 [] (bs "alice") 9 (open_event 33 (bs "nowhere") 80 true false) _ r0 _
    eq_refl Hs).
Defined.

Lemma relay_handler_without_session_witness :
  exists r', relay_handler true false 120 bufs 5000 [] (bs "bob") 9 request r0 = (r', Err bad_function_call) /\
    strs (rworld r') = strs (rworld r0).
Proof.
  exact (relay_handler_without_session true false 120 bufs 5000 [] (bs "bob") 9 request _ r0 eq_refl eq_refl).
Defined.

Lemma idle_timeout_ends_copying_witness :
  exists w1 w2, close_local (Strm 0) w0 = (w1, Ok tt) /\
    pump_step true true buf0 (Strm 0) (Sock 1) Reading w1 = (w2, Ok Finished) /\
    socks w2 !! 1%nat = Some site /\ Get 9 7 (strs w2) = None.
Proof. exact (idle_timeout_ends_copying true true buf0 w0 0 1 (open_stream 7) site eq_refl eq_refl eq_refl). Defined.

End witnesses.
