(* ===== verification/TunnelServer.v ===== *)
(** * Tunnel servers

    src/snova/server/tunnel_server.cc: listening sockets that a peer asks an entry node to open,
    kept in two tables, by id and by listen address; and the destructor of a session
    (src/snova/mux/mux_conn_manager.cc), which closes the servers the session asked for.  The
    listening sockets of asio are a class of operations on a network. *)

From S2P Require Import Prelude Endian IoBuf Text HttpHelper Sni NetHelper LocalProxy Address Io Connect.
From S2P Require Import PbMessages MuxEvent CipherContext AsyncMutex MuxConnection MuxStream MuxConnManager.

(** [open], [bind] and [listen] of an acceptor, which is named by a handle, [async_accept], and
    the close of a listening socket.  [open] throws. *)
Class Acceptors (N Ep C : Type) := {
  tcp_open : Ep -> st N nat;
  tcp_bind : nat -> Ep -> st N Z;
  tcp_listen : nat -> st N Z;
  tcp_accept : nat -> st N (Z * C);
  tcp_close : nat -> N -> N
}.

Record TunnelServer := { ts_addr : bytes; ts_id : Z; tunnel_addr : bytes; ts_server : nat }.

(** The globals of the file, the network, and the accept loops that were spawned. *)
Record Tunnels (N : Type) := {
  g_tunnel_servers : gmap Z TunnelServer;
  g_tunnel_server_addr2ids : gmap bytes Z;
  g_tunnel_server_id_seed : Z;
  server_loops : list (nat * NetAddress);
  t_net : N
}.
Arguments Build_Tunnels {N}. Arguments g_tunnel_servers {N}. Arguments g_tunnel_server_addr2ids {N}.
Arguments g_tunnel_server_id_seed {N}. Arguments server_loops {N}. Arguments t_net {N}.

Definition address_in_use : Z := 98.

Section tunnels.
Context {N Ep C : Type} `{Network N Ep C, Acceptors N Ep C}.
Abbreviation T := (Tunnels N).

Definition tunnels_eta (r : T) : T :=
  {| g_tunnel_servers := g_tunnel_servers r; g_tunnel_server_addr2ids := g_tunnel_server_addr2ids r;
     g_tunnel_server_id_seed := g_tunnel_server_id_seed r; server_loops := server_loops r; t_net := t_net r |}.
Definition tupd (A : Type) : Type := (A -> A) -> T -> T.
Definition set_servers : tupd (gmap Z TunnelServer) := ltac:(setter tunnels_eta (@g_tunnel_servers N)).
Definition set_addr2ids : tupd (gmap bytes Z) := ltac:(setter tunnels_eta (@g_tunnel_server_addr2ids N)).
Definition set_seed : tupd Z := ltac:(setter tunnels_eta (@g_tunnel_server_id_seed N)).
Definition set_loops : tupd (list (nat * NetAddress)) := ltac:(setter tunnels_eta (@server_loops N)).
Definition set_t_net : tupd N := ltac:(setter tunnels_eta (@t_net N)).

Definition on_t_net {A} (m : st N A) : st T A := fun t =>
  let '(n, r) := m (t_net t) in (set_t_net (fun _ => n) t, r).

(** [close_tunnel_server]; its parameter is a [uint32_t]. *)
Definition close_tunnel_server (server_id : Z) (t : T) : T :=
  let server_id := wrap 32 server_id in
  match g_tunnel_servers t !! server_id with
  | None => t
  | Some tunnel_server =>
      let t := set_t_net (tcp_close (ts_server tunnel_server)) t in
      let t := set_servers (delete server_id) t in
      set_addr2ids (delete (ts_addr tunnel_server)) t
  end.

(** [~MuxSession]. *)
Definition session_destroy (s : MuxSession) (t : T) : T :=
  foldl (fun t server_id => close_tunnel_server server_id t) t (tunnel_servers s).

(** The context with which an accepted connection is relayed, with no data read before. *)
Definition handle_conn (flag_user : bytes) (dst_addr : NetAddress) : RelayContext :=
  {| LocalProxy.user := flag_user; LocalProxy.remote_host := Address.host dst_addr;
     LocalProxy.remote_port := Address.port dst_addr; LocalProxy.is_tls := false; LocalProxy.is_tcp := true |}.

(** The relays that the accept loop spawns before [async_accept] fails. *)
Fixpoint server_loop (fuel : nat) (flag_user : bytes) (server : nat) (dst_addr : NetAddress)
  : st N (list (C * RelayContext)) :=
  match fuel with
  | O => slift Hang
  | S fuel =>
      let! '(ec, client) := tcp_accept server in
      if negb (ec =? 0) then sret []
      else
        let! rest := server_loop fuel flag_user server dst_addr in
        sret ((client, handle_conn flag_user dst_addr) :: rest)
  end.

(** The listening socket, or the error; an acceptor that is not handed out is closed. *)
Definition open_acceptor (e : Ep) : st N (Z + nat) :=
  let! acceptor := tcp_open e in
  let! ec := tcp_bind acceptor e in
  if negb (ec =? 0) then let! _ := smodify (tcp_close acceptor) in sret (inl ec)
  else
    let! ec := tcp_listen acceptor in
    if negb (ec =? 0) then let! _ := smodify (tcp_close acceptor) in sret (inl ec)
    else sret (inr acceptor).

(** The part of [start_tunnel_server] that makes a new server. *)
Definition new_tunnel_server (server_addr : bytes) (listen_addr dst_addr : NetAddress) : st T (Z * Z) :=
  let! r := on_t_net (do_resolve_endpoint (Address.host listen_addr) (Address.port listen_addr)) in
  match r with
  | inl resolve_ec => sret (0, resolve_ec)
  | inr e =>
      let! a := on_t_net (open_acceptor e) in
      match a with
      | inl ec => sret (0, ec)
      | inr server_socket =>
          let! t := sget in
          let server_id := g_tunnel_server_id_seed t in
          let! _ := smodify (set_seed (fun v => wrap 64 (v + 1))) in
          let tunnel_server := {| ts_addr := server_addr; ts_id := server_id;
                                  tunnel_addr := NetAddress_String dst_addr; ts_server := server_socket |} in
          let! _ := smodify (set_servers (insert server_id tunnel_server)) in
          let! _ := smodify (set_addr2ids (insert server_addr server_id)) in
          let! _ := smodify (set_loops (fun l => l ++ [(server_socket, dst_addr)])) in
          sret (server_id, 0)
      end
  end.

(** The server that listens on an address already. *)
Definition exist_server (server_addr : bytes) (t : T) : option TunnelServer :=
  exist_id ← g_tunnel_server_addr2ids t !! server_addr; g_tunnel_servers t !! exist_id.

(** What [start_tunnel_server] answers at once, when a server listens on the address already: the id and the
    error code. *)
Definition exist_result (listen_addr dst_addr : NetAddress) (t : T) : option (Z * Z) :=
  match exist_server (NetAddress_String listen_addr) t with
  | Some s => Some (if decide (tunnel_addr s = NetAddress_String dst_addr) then (ts_id s, 0) else (0, address_in_use))
  | None => None
  end.

(** [start_tunnel_server].  Between its two parts the resolver is awaited; [tunnel_step] below lets other
    requests run there. *)
Definition start_tunnel_server (listen_addr dst_addr : NetAddress) : st T (Z * Z) :=
  let! t := sget in
  match exist_result listen_addr dst_addr t with
  | Some r => sret r
  | None => new_tunnel_server (NetAddress_String listen_addr) listen_addr dst_addr
  end.

End tunnels.

(** ** The handler of the peer's request *)

Section handler.
Context `{Platform} `{Nanopb} `{Aead}.
Context {N Ep C C' : Type} `{Network N Ep C, Acceptors N Ep C, IOConnection C', Clock C'}.

(** The handler works on the servers and on the connection manager. *)
Record TunnelState := { tunnels : Tunnels N; t_manager : MuxConnManager C' }.

Definition on_tunnels {A} (m : st (Tunnels N) A) : st TunnelState A := fun s =>
  let '(t, r) := m (tunnels s) in ({| tunnels := t; t_manager := t_manager s |}, r).
Definition on_manager {A} (m : st (MuxConnManager C') A) : st TunnelState A := fun s =>
  let '(c, r) := m (t_manager s) in ({| tunnels := tunnels s; t_manager := c |}, r).

Variable entry : bool.   (* g_is_entry_node *)

(** [tunnel_server_handler]; the session it looks up is created when there is none, so the check
    for an empty session never fires. *)
Definition tunnel_server_handler (auth_user : bytes) (client_id : Z) (event : MuxEvent)
  : st TunnelState (option MuxEvent) :=
  let respond (ok : bool) (id errc : Z) : st TunnelState (option MuxEvent) :=
    sret (Some (make_event 0 (TunnelOpenResponse {| tunnel_success := ok; tunnel_id := id; tunnel_errc := errc |}))) in
  match body event with
  | TunnelOpenRequest req =>
      if entry then
        let! session := on_manager (GetSession auth_user client_id MUX_EXIT_CONN) in
        let server_addr := {| schema := []; Address.host := bs "0.0.0.0"; Address.port := wrap 16 (tunnel_remote_port req); path := [] |} in
        let dst_addr := {| schema := []; Address.host := local_host req; Address.port := wrap 16 (local_port req); path := [] |} in
        let! '(server_id, ec) := on_tunnels (start_tunnel_server server_addr dst_addr) in
        if ec =? 0 then
          let! _ := on_manager (smodify (set_session_store (alter (fun s =>
            {| conns := conns s; tunnel_servers := tunnel_servers s ++ [server_id] |}) session))) in
          respond true server_id 0
        else respond false 0 ec
      else respond false 0 ERR_INVALID_EVENT
  | _ => respond false 0 ERR_INVALID_EVENT
  end.

End handler.

(** ** The tables *)

Section tables.
Context {N Ep C : Type} `{Network N Ep C, Acceptors N Ep C}.
Implicit Type t : Tunnels N.

(** Every address leads to a server that listens on it, every server has its id, below the seed, and every
    server whose address is not in [X] is found by its address. *)
Record tables_but (X : gset bytes) (t : Tunnels N) : Prop := {
  server_by_id_but : forall i s, g_tunnel_servers t !! i = Some s ->
    ts_id s = i /\ (ts_addr s ∉ X -> g_tunnel_server_addr2ids t !! ts_addr s = Some i) /\ 1 <= i < g_tunnel_server_id_seed t;
  id_by_addr_but : forall a i, g_tunnel_server_addr2ids t !! a = Some i ->
    exists s, g_tunnel_servers t !! i = Some s /\ ts_addr s = a
}.

(** The two tables are inverse to each other, and ids are below the seed. *)
Definition tables_ok (t : Tunnels N) : Prop := tables_but ∅ t.

Lemma server_by_id t : tables_ok t -> forall i s, g_tunnel_servers t !! i = Some s ->
  ts_id s = i /\ g_tunnel_server_addr2ids t !! ts_addr s = Some i /\ 1 <= i < g_tunnel_server_id_seed t.
Proof. intros Hok i s Hs; destruct (server_by_id_but _ _ Hok i s Hs) as (? & Ha & ?); split_and!; try done; try lia; by apply Ha, not_elem_of_empty. Qed.

Lemma id_by_addr t : tables_ok t -> forall a i, g_tunnel_server_addr2ids t !! a = Some i ->
  exists s, g_tunnel_servers t !! i = Some s /\ ts_addr s = a.
Proof. intros Hok; apply (id_by_addr_but _ _ Hok). Qed.

Definition tunnels_start (n : N) : Tunnels N :=
  {| g_tunnel_servers := ∅; g_tunnel_server_addr2ids := ∅; g_tunnel_server_id_seed := 1; server_loops := []; t_net := n |}.

Lemma tables_ok_start n : tables_ok (tunnels_start n).
Proof. split; intros ? ?; cbn; by rewrite lookup_empty. Qed.

(** Only the tables and the seed matter. *)
Lemma tables_but_ext X t t' :
  g_tunnel_servers t' = g_tunnel_servers t -> g_tunnel_server_addr2ids t' = g_tunnel_server_addr2ids t ->
  g_tunnel_server_id_seed t' = g_tunnel_server_id_seed t -> tables_but X t -> tables_but X t'.
Proof. intros E1 E2 E3 [Hi Ha]; split; rewrite ?E1, ?E2, ?E3; done. Qed.

Lemma tables_but_mono X Y t : X ⊆ Y -> tables_but X t -> tables_but Y t.
Proof.
  intros Hxy [Hi Ha]; split; [|done]; intros i s Hs; destruct (Hi i s Hs) as (? & Hx & ?); split_and!; try done; try lia.
  intros Hn; apply Hx; intros Hin; by apply Hn, Hxy.
Qed.

Lemma tables_but_close X i t : tables_but X t -> tables_but X (close_tunnel_server i t).
Proof.
  intros [Hi Ha]; unfold close_tunnel_server; destruct (g_tunnel_servers t !! wrap 32 i) as [s|] eqn:Es; [|done].
  destruct (Hi _ _ Es) as (Hid & Haddr & _); split; cbn.
  - intros j s' [Hne Hs']%lookup_delete_Some; destruct (Hi _ _ Hs') as (? & Haddr' & ?); split_and!; try done; try lia.
    intros Hn; rewrite lookup_delete_ne; [by apply Haddr'|]; intros Eq; specialize (Haddr' Hn); rewrite Eq in Haddr.
    specialize (Haddr Hn); congruence.
  - intros a j [Hne Hj]%lookup_delete_Some; destruct (Ha _ _ Hj) as (s' & Hs' & <-).
    exists s'; rewrite lookup_delete_ne; [done | congruence].
Qed.

Lemma tables_but_destroy X s t : tables_but X t -> tables_but X (session_destroy s t).
Proof.
  unfold session_destroy; revert t; induction (tunnel_servers s) as [|i l IH]; intros t Ht; [done|].
  by apply IH, tables_but_close.
Qed.

Lemma tables_ok_destroy s t : tables_ok t -> tables_ok (session_destroy s t).
Proof. apply tables_but_destroy. Qed.

(** A new server is added in both tables. *)
Lemma tables_but_insert X t a d k loops n :
  tables_but X t -> 1 <= g_tunnel_server_id_seed t < 2 ^ 64 - 1 -> (a ∉ X -> g_tunnel_server_addr2ids t !! a = None) ->
  tables_but X {| g_tunnel_servers := <[g_tunnel_server_id_seed t :=
                 {| ts_addr := a; ts_id := g_tunnel_server_id_seed t; tunnel_addr := d; ts_server := k |}]> (g_tunnel_servers t);
               g_tunnel_server_addr2ids := <[a := g_tunnel_server_id_seed t]> (g_tunnel_server_addr2ids t);
               g_tunnel_server_id_seed := wrap 64 (g_tunnel_server_id_seed t + 1);
               server_loops := loops; t_net := n |}.
Proof.
  intros [Hi Ha] Hseed Hn; rewrite wrap_small by (unfold fits; lia); split; cbn.
  - intros i s [[<- <-]|[Hne Hs]]%lookup_insert_Some; [cbn; rewrite lookup_insert_eq; split_and!; try done; lia|].
    destruct (Hi _ _ Hs) as (Hid & Haddr & ?); split_and!; try done; try lia; intros Hx; specialize (Haddr Hx).
    rewrite lookup_insert_ne; [done|]; intros ->; specialize (Hn Hx); congruence.
  - intros b i [[<- <-]|[Hne Hb]]%lookup_insert_Some; [eexists; by rewrite lookup_insert_eq|].
    destruct (Ha _ _ Hb) as (s & Hs & <-); destruct (Hi _ _ Hs) as (_ & _ & ?).
    exists s; rewrite lookup_insert_ne by lia; done.
Qed.

Lemma tables_ok_ext t t' :
  g_tunnel_servers t' = g_tunnel_servers t -> g_tunnel_server_addr2ids t' = g_tunnel_server_addr2ids t ->
  g_tunnel_server_id_seed t' = g_tunnel_server_id_seed t -> tables_ok t -> tables_ok t'.
Proof. apply tables_but_ext. Qed.

Lemma tables_ok_insert t a d k loops n :
  tables_ok t -> 1 <= g_tunnel_server_id_seed t < 2 ^ 64 - 1 -> g_tunnel_server_addr2ids t !! a = None ->
  tables_ok {| g_tunnel_servers := <[g_tunnel_server_id_seed t :=
                 {| ts_addr := a; ts_id := g_tunnel_server_id_seed t; tunnel_addr := d; ts_server := k |}]> (g_tunnel_servers t);
               g_tunnel_server_addr2ids := <[a := g_tunnel_server_id_seed t]> (g_tunnel_server_addr2ids t);
               g_tunnel_server_id_seed := wrap 64 (g_tunnel_server_id_seed t + 1);
               server_loops := loops; t_net := n |}.
Proof. intros Hok Hs Hn; by apply tables_but_insert. Qed.

Lemma exist_server_None X a t : tables_but X t -> exist_server a t = None -> g_tunnel_server_addr2ids t !! a = None.
Proof.
  intros [_ Ha]; unfold exist_server; destruct (_ !! a) as [i|] eqn:Ei; [|done]; cbn.
  destruct (Ha _ _ Ei) as (s & -> & _); done.
Qed.

Lemma do_resolve_error host port (n n1 : N) ec : do_resolve_endpoint host port n = (n1, Ok (inl ec)) -> ec <> 0.
Proof.
  unfold do_resolve_endpoint; srun; destruct (async_resolve _ _ n) as [n' [[ec' es]| | |]]; try done.
  destruct (Z.eqb_spec ec' 0); cbn; [by destruct es; intros [= <- <-] | by intros [= <- <-]].
Qed.

Lemma open_acceptor_error e (n n1 : N) ec : open_acceptor e n = (n1, Ok (inl ec)) -> ec <> 0.
Proof.
  unfold open_acceptor; srun; destruct (tcp_open e n) as [n2 [k| | |]]; try done.
  destruct (tcp_bind k e n2) as [n3 [ec'| | |]]; try done.
  destruct (Z.eqb_spec ec' 0); cbn; [|by intros [= <- <-]].
  destruct (tcp_listen k n3) as [n4 [ec2| | |]]; try done.
  destruct (Z.eqb_spec ec2 0); cbn; [done | by intros [= <- <-]].
Qed.

(** The tables with one more server. *)
Definition with_server (t t' : Tunnels N) (l d : NetAddress) : Prop :=
  exists k n, t' =
     {| g_tunnel_servers := <[g_tunnel_server_id_seed t :=
          {| ts_addr := NetAddress_String l; ts_id := g_tunnel_server_id_seed t;
             tunnel_addr := NetAddress_String d; ts_server := k |}]> (g_tunnel_servers t);
        g_tunnel_server_addr2ids := <[NetAddress_String l := g_tunnel_server_id_seed t]> (g_tunnel_server_addr2ids t);
        g_tunnel_server_id_seed := wrap 64 (g_tunnel_server_id_seed t + 1);
        server_loops := server_loops t ++ [(k, d)]; t_net := n |}.

Definition same_tables (t t' : Tunnels N) : Prop :=
  g_tunnel_servers t' = g_tunnel_servers t /\ g_tunnel_server_addr2ids t' = g_tunnel_server_addr2ids t /\
  g_tunnel_server_id_seed t' = g_tunnel_server_id_seed t /\ server_loops t' = server_loops t.

(** Whatever the network answers, the second part adds one server or changes no table. *)
Lemma new_tunnel_server_cases l d t t' r :
  new_tunnel_server (NetAddress_String l) l d t = (t', r) ->
  (same_tables t t' /\ forall id, r <> Ok (id, 0)) \/ (r = Ok (g_tunnel_server_id_seed t, 0) /\ with_server t t' l d).
Proof.
  unfold new_tunnel_server, on_t_net; srun.
  destruct (do_resolve_endpoint _ _ (t_net t)) as [n1 [[ec|e]| | |]] eqn:Er; try (intros [= <- <-]; by left).
  { intros [= <- <-]; left; split; [done|]; intros id [= _ ->]; by apply do_resolve_error in Er. }
  cbn [t_net set_t_net]; destruct (open_acceptor e n1) as [n2 [[ec|k]| | |]] eqn:Ea; intros [= <- <-]; try by left.
  { left; split; [done|]; intros id [= _ ->]; by apply open_acceptor_error in Ea. }
  right; split; [done|]; by exists k, n2.
Qed.

(** So does a start that nothing interrupts. *)
Lemma start_tunnel_server_cases l d t t' r :
  start_tunnel_server l d t = (t', r) ->
  (same_tables t t' /\
   forall id, r = Ok (id, 0) -> exists s, exist_server (NetAddress_String l) t = Some s /\ ts_id s = id /\
     tunnel_addr s = NetAddress_String d) \/
  (exist_server (NetAddress_String l) t = None /\ r = Ok (g_tunnel_server_id_seed t, 0) /\ with_server t t' l d).
Proof.
  unfold start_tunnel_server, exist_result; srun; destruct (exist_server _ t) as [s|] eqn:Ex.
  { case_decide; intros [= <- <-]; left; split; try done; intros id [=]; by exists s. }
  intros [[Hs Hr]|[Hr Hw]]%new_tunnel_server_cases; [left; split; [done|]; intros id ->; by destruct (Hr id) | by right].
Qed.

Lemma seed_pos_close i t : g_tunnel_server_id_seed (close_tunnel_server i t) = g_tunnel_server_id_seed t.
Proof. unfold close_tunnel_server; by case_match. Qed.

Lemma seed_pos_destroy s t : g_tunnel_server_id_seed (session_destroy s t) = g_tunnel_server_id_seed t.
Proof.
  unfold session_destroy; revert t; induction (tunnel_servers s) as [|i l IH]; intros t; [done|]; cbn.
  by rewrite IH, seed_pos_close.
Qed.

(** *** Requests that overlap

    The servers with the requests that wait for the resolver, and the addresses for which two requests were
    under way at once. *)
Record Requests := {
  r_tunnels : Tunnels N;
  r_pending : list (NetAddress * NetAddress);
  r_overlapped : gset bytes
}.

(** How many requests for an address wait. *)
Definition waiting (a : bytes) (pending : list (NetAddress * NetAddress)) : nat :=
  length (filter (fun q => NetAddress_String q.1 = a) pending).

(** What is done to the servers in the course of time.  A request is answered at once, or it waits for the
    resolver and makes its server afterwards; in between all other steps are possible. *)
Inductive tunnel_step : Requests -> Requests -> Prop :=
| step_answered l d r x : exist_result l d (r_tunnels r) = Some x -> tunnel_step r r
| step_lookup l d t pending X : exist_result l d t = None ->
    tunnel_step {| r_tunnels := t; r_pending := pending; r_overlapped := X |}
      {| r_tunnels := t; r_pending := (l, d) :: pending;
         r_overlapped := if decide (waiting (NetAddress_String l) pending = 0%nat) then X else {[NetAddress_String l]} ∪ X |}
| step_finish l d t t' pending pending' X x : g_tunnel_server_id_seed t < 2 ^ 64 - 1 ->
    pending ≡ₚ (l, d) :: pending' -> new_tunnel_server (NetAddress_String l) l d t = (t', x) ->
    tunnel_step {| r_tunnels := t; r_pending := pending; r_overlapped := X |}
      {| r_tunnels := t'; r_pending := pending'; r_overlapped := X |}
| step_network n t pending X :
    tunnel_step {| r_tunnels := t; r_pending := pending; r_overlapped := X |}
      {| r_tunnels := set_t_net (fun _ => n) t; r_pending := pending; r_overlapped := X |}
| step_close i t pending X :
    tunnel_step {| r_tunnels := t; r_pending := pending; r_overlapped := X |}
      {| r_tunnels := close_tunnel_server i t; r_pending := pending; r_overlapped := X |}
| step_destroy s t pending X :
    tunnel_step {| r_tunnels := t; r_pending := pending; r_overlapped := X |}
      {| r_tunnels := session_destroy s t; r_pending := pending; r_overlapped := X |}.

Definition requests_start (n : N) : Requests := {| r_tunnels := tunnels_start n; r_pending := []; r_overlapped := ∅ |}.

(** An address that was never asked for twice at once is free while a request for it waits. *)
Definition requests_ok (r : Requests) : Prop :=
  tables_but (r_overlapped r) (r_tunnels r) /\ 1 <= g_tunnel_server_id_seed (r_tunnels r) /\
  forall a, a ∉ r_overlapped r -> (waiting a (r_pending r) <= 1)%nat /\
    (waiting a (r_pending r) = 1%nat -> g_tunnel_server_addr2ids (r_tunnels r) !! a = None).

Lemma waiting_cons a l d pending :
  waiting a ((l, d) :: pending) = ((if decide (NetAddress_String l = a) then 1 else 0) + waiting a pending)%nat.
Proof. unfold waiting; rewrite filter_cons; cbn; by case_decide. Qed.

Lemma waiting_perm a p q : p ≡ₚ q -> waiting a p = waiting a q.
Proof. intros E; unfold waiting; by rewrite E. Qed.

Lemma requests_ok_lookup l d t pending X :
  exist_result l d t = None -> requests_ok {| r_tunnels := t; r_pending := pending; r_overlapped := X |} ->
  requests_ok {| r_tunnels := t; r_pending := (l, d) :: pending;
    r_overlapped := if decide (waiting (NetAddress_String l) pending = 0%nat) then X else {[NetAddress_String l]} ∪ X |}.
Proof.
  intros Hx (Hok & Hseed & Hw); cbn [r_tunnels r_pending r_overlapped] in *; set (Y := if decide _ then _ else _).
  assert (X ⊆ Y) as Hxy by (unfold Y; case_decide; [done | apply union_subseteq_r]).
  split; [by apply (tables_but_mono X)|]; split; [done|]; intros a Ha; cbn [r_tunnels r_pending r_overlapped] in *.
  destruct (Hw a) as [Hle Hn]; [intros Hin; by apply Ha, Hxy|].
  rewrite waiting_cons; destruct (decide (NetAddress_String l = a)) as [<-|Hne]; [|done].
  assert (waiting (NetAddress_String l) pending = 0%nat) as Hfree by (unfold Y in Ha; case_decide; [done | exfalso; apply Ha, elem_of_union_l, elem_of_singleton_2; done]).
  rewrite Hfree; split; [lia|]; intros _; eapply exist_server_None; [done|].
  unfold exist_result in Hx; by destruct (exist_server _ t).
Qed.

Lemma requests_ok_finish l d t t' pending pending' X x :
  g_tunnel_server_id_seed t < 2 ^ 64 - 1 -> pending ≡ₚ (l, d) :: pending' ->
  new_tunnel_server (NetAddress_String l) l d t = (t', x) ->
  requests_ok {| r_tunnels := t; r_pending := pending; r_overlapped := X |} ->
  requests_ok {| r_tunnels := t'; r_pending := pending'; r_overlapped := X |}.
Proof.
  intros Hb Hp Hn (Hok & Hseed & Hw); cbn [r_tunnels r_pending r_overlapped] in *.
  assert (forall a, a ∉ X -> waiting a pending = ((if decide (NetAddress_String l = a) then 1 else 0) + waiting a pending')%nat) as Hpw
    by (intros a _; rewrite (waiting_perm a _ _ Hp); apply waiting_cons).
  destruct (new_tunnel_server_cases l d t t' x Hn) as [[(E1 & E2 & E3 & _) _]|(_ & k & n & ->)].
  - split; [by apply (tables_but_ext X t)|]; split; [cbn; by rewrite E3|]; intros a Ha; destruct (Hw a Ha) as [Hle Hf].
    rewrite (Hpw a Ha) in Hle, Hf; cbn [r_tunnels r_pending]; rewrite E2; split; [lia|]; intros Hone; apply Hf; case_decide; lia.
  - split; [apply tables_but_insert; [done | lia|]|split; [cbn; rewrite wrap_small; unfold fits; lia|]]; cbn [r_tunnels r_pending g_tunnel_server_addr2ids].
    + intros Ha; destruct (Hw _ Ha) as [Hle Hf]; apply Hf; rewrite (Hpw _ Ha), decide_True in Hle |- * by done; lia.
    + intros a Ha; destruct (Hw a Ha) as [Hle Hf]; rewrite (Hpw a Ha) in Hle, Hf; split; [lia|]; intros Hone.
      case_decide; [lia|]; rewrite lookup_insert_ne by done; apply Hf; lia.
Qed.

(** What frees addresses keeps them free. *)
Lemma requests_ok_frees t t' pending X :
  (tables_but X t -> tables_but X t') -> g_tunnel_server_id_seed t' = g_tunnel_server_id_seed t ->
  (forall a, g_tunnel_server_addr2ids t !! a = None -> g_tunnel_server_addr2ids t' !! a = None) ->
  requests_ok {| r_tunnels := t; r_pending := pending; r_overlapped := X |} ->
  requests_ok {| r_tunnels := t'; r_pending := pending; r_overlapped := X |}.
Proof.
  intros Ht Hs Ha (Hok & Hseed & Hw); split; [by apply Ht|]; cbn in *; split; [by rewrite Hs|].
  intros a Hx; destruct (Hw a Hx); split; [done|]; eauto.
Qed.

Lemma close_frees i t a : g_tunnel_server_addr2ids t !! a = None -> g_tunnel_server_addr2ids (close_tunnel_server i t) !! a = None.
Proof. intros Ha; unfold close_tunnel_server; case_match; cbn; [apply lookup_delete_None; by right | done]. Qed.

Lemma destroy_frees s t a : g_tunnel_server_addr2ids t !! a = None -> g_tunnel_server_addr2ids (session_destroy s t) !! a = None.
Proof.
  unfold session_destroy; revert t; induction (tunnel_servers s) as [|i l IH]; intros t Ha; [done|]; by apply IH, close_frees.
Qed.

(** C28. Servers and addresses.  In every state that requests, closes and destroyed sessions can lead to, with
    requests that run while others wait for the resolver: every address in the table by address leads to a
    server that listens on it, every server has its own id, and every server is found by its address in turn,
    so the two tables are inverse to each other, unless two requests for this address were under way at
    once. *)
Theorem tunnel_tables_inverse n r :
  rtc tunnel_step (requests_start n) r ->
  tables_but (r_overlapped r) (r_tunnels r) /\ 1 <= g_tunnel_server_id_seed (r_tunnels r).
Proof.
  intros Hr; assert (requests_ok r) as (? & ? & _); [|done].
  remember (requests_start n) as r0 eqn:E0; assert (requests_ok r0) as Hok.
  { subst; split; [apply tables_ok_start|]; split; [done|]; intros a _; split; [cbn; lia | done]. }
  clear E0; induction Hr as [|r1 r2 r3 Hst _ IH]; [done|]; apply IH; destruct Hst.
  - done.
  - by apply requests_ok_lookup.
  - by eapply requests_ok_finish.
  - revert Hok; apply requests_ok_frees; [by apply tables_but_ext | done | by intros a Ha].
  - eapply requests_ok_frees; [apply tables_but_close | apply seed_pos_close | apply close_frees | done].
  - eapply requests_ok_frees; [apply tables_but_destroy | apply seed_pos_destroy | apply destroy_frees | done].
Qed.

(** Two requests for one address at once, which both find no server, as for port 0, where both can bind.  Both
    make a server; only the second one is found by the address, so a third request for the destination of
    the first is refused, and when the first server is closed the second one cannot be found any more. *)
Theorem overlapping_requests_orphan_server l d1 d2 t t1 t2 id1 id2 :
  1 <= g_tunnel_server_id_seed t < 2 ^ 32 - 1 ->
  new_tunnel_server (NetAddress_String l) l d1 t = (t1, Ok (id1, 0)) ->
  new_tunnel_server (NetAddress_String l) l d2 t1 = (t2, Ok (id2, 0)) ->
  id1 <> id2 /\ is_Some (g_tunnel_servers t2 !! id1) /\ g_tunnel_server_addr2ids t2 !! NetAddress_String l = Some id2 /\
  (NetAddress_String d1 <> NetAddress_String d2 -> exist_result l d1 t2 = Some (0, address_in_use)) /\
  let t3 := close_tunnel_server id1 t2 in
  is_Some (g_tunnel_servers t3 !! id2) /\ exist_server (NetAddress_String l) t3 = None.
Proof.
  intros Hs [[_ Hr]|([= ->] & k1 & n1 & ->)]%new_tunnel_server_cases; [by destruct (Hr id1)|].
  intros [[_ Hr]|([= ->] & k2 & n2 & ->)]%new_tunnel_server_cases; [by destruct (Hr id2)|].
  cbn [g_tunnel_server_id_seed g_tunnel_servers g_tunnel_server_addr2ids]; rewrite (wrap_small 64) by (unfold fits; lia).
  set (i := g_tunnel_server_id_seed t) in *; split; [lia|]; split; [rewrite lookup_insert_ne, lookup_insert_eq by lia; eauto|].
  split; [apply lookup_insert_eq|]; split.
  - intros Hne; unfold exist_result, exist_server; cbn; rewrite lookup_insert_eq; cbn; rewrite lookup_insert_eq.
    by rewrite decide_False by (cbn; congruence).
  - unfold close_tunnel_server; cbn; rewrite (wrap_small 32 i) by (unfold fits; lia).
    rewrite lookup_insert_ne, lookup_insert_eq by lia; cbn; split; [rewrite lookup_delete_ne, lookup_insert_eq by lia; eauto|].
    unfold exist_server; cbn; by rewrite lookup_delete_eq.
Qed.

(** After a successful start a server with that id listens on the address. *)
Lemma start_leaves_server l d t t' id :
  start_tunnel_server l d t = (t', Ok (id, 0)) ->
  exists s, exist_server (NetAddress_String l) t' = Some s /\ ts_id s = id /\ tunnel_addr s = NetAddress_String d.
Proof.
  intros Hs; destruct (start_tunnel_server_cases l d t t' _ Hs) as [[(E1 & E2 & _) Hr]|(_ & [= ->] & k & n' & ->)].
  - destruct (Hr id eq_refl) as (s & Ex & ?); exists s; unfold exist_server in *; by rewrite E1, E2.
  - eexists; unfold exist_server; cbn; rewrite lookup_insert_eq; cbn; by rewrite lookup_insert_eq.
Qed.

Lemma start_again l d d' t s :
  exist_server (NetAddress_String l) t = Some s -> tunnel_addr s = NetAddress_String d ->
  start_tunnel_server l d' t =
    (t, Ok (if decide (NetAddress_String d' = NetAddress_String d) then (ts_id s, 0) else (0, address_in_use))).
Proof.
  intros Ex Hd; unfold start_tunnel_server, exist_result; srun; rewrite Ex, Hd.
  destruct (decide (NetAddress_String d' = NetAddress_String d)) as [Eq|Hne]; [by rewrite decide_True|].
  by rewrite decide_False by congruence.
Qed.

(** Starting a server again.  Once a server was started, a request for the same listen address and
    destination is answered with the same id, one for another destination is refused with
    [address_in_use], and neither changes anything: no second socket, no second accept loop. *)
Theorem tunnel_start_idempotent t l d t' id :
  start_tunnel_server l d t = (t', Ok (id, 0)) ->
  start_tunnel_server l d t' = (t', Ok (id, 0)) /\
  forall d', NetAddress_String d' <> NetAddress_String d ->
    start_tunnel_server l d' t' = (t', Ok (0, address_in_use)).
Proof.
  intros (s & Ex & Hid & Hd)%start_leaves_server; split; [|intros d' Hne];
    rewrite (start_again l d _ t' s Ex Hd); [by rewrite decide_True, Hid | by rewrite decide_False].
Qed.

End tables.

(** ** Sessions and their servers *)

Section sessions.
Context `{Platform} `{Nanopb} `{Aead}.
Context {N Ep C C' : Type} `{Network N Ep C, Acceptors N Ep C, IOConnection C', Clock C'}.
Implicit Types (t : Tunnels N) (s : TunnelState (N := N) (C' := C')).

Lemma close_lookup i j t : fits 32 i ->
  g_tunnel_servers (close_tunnel_server i t) !! j = if decide (j = i) then None else g_tunnel_servers t !! j.
Proof.
  intros Hi; unfold close_tunnel_server; rewrite wrap_small by done; destruct (_ !! i) as [sv|] eqn:Es; cbn.
  - case_decide as Ej; [subst; apply lookup_delete_eq | by rewrite lookup_delete_ne by congruence].
  - case_decide as Ej; [by subst | done].
Qed.

Lemma session_destroy_lookup (ss : MuxSession) t i :
  Forall (fits 32) (tunnel_servers ss) ->
  g_tunnel_servers (session_destroy ss t) !! i =
    if decide (i ∈ tunnel_servers ss) then None else g_tunnel_servers t !! i.
Proof.
  intros Hf; unfold session_destroy; revert t.
  induction (tunnel_servers ss) as [|j l IH]; intros t; cbn -[decide]; [by rewrite decide_False by apply not_elem_of_nil|].
  apply Forall_cons in Hf as [Hj Hl]; rewrite (IH Hl), close_lookup by done.
  destruct (decide (i ∈ l)) as [Hi|Hi]; [by rewrite decide_True by (by right)|].
  destruct (decide (i = j)) as [->|Hij]; [by rewrite decide_True by (by left)|].
  rewrite decide_False; [done|]; by intros [?|?]%elem_of_cons.
Qed.

(** The end of a session closes exactly the servers it asked for: those whose ids it holds are gone
    from the table by id and their addresses are free, every other server is as it was, and the
    tables stay consistent. *)
Theorem session_destroy_closes (ss : MuxSession) t i sv :
  tables_ok t -> Forall (fits 32) (tunnel_servers ss) -> g_tunnel_servers t !! i = Some sv ->
  let t' := session_destroy ss t in
  tables_ok t' /\
  if decide (i ∈ tunnel_servers ss) then g_tunnel_servers t' !! i = None /\ exist_server (ts_addr sv) t' = None
  else g_tunnel_servers t' !! i = Some sv /\ exist_server (ts_addr sv) t' = Some sv.
Proof.
  intros Hok Hf Hi t'; assert (tables_ok t') as Hok' by (by apply tables_ok_destroy); split; [done|].
  assert (g_tunnel_servers t' !! i = if decide (i ∈ tunnel_servers ss) then None else Some sv) as Hl
    by (unfold t'; by rewrite session_destroy_lookup, Hi).
  destruct (decide (i ∈ tunnel_servers ss)) as [Hin|Hin].
  - split; [done|]; unfold exist_server; destruct (_ !! ts_addr sv) as [j|] eqn:Ej; [|done]; cbn.
    destruct (id_by_addr _ Hok' _ _ Ej) as (s' & Hs' & Ha'); exfalso.
    unfold t' in Hs'; rewrite session_destroy_lookup in Hs' by done; case_decide; [done|].
    destruct (server_by_id _ Hok _ _ Hs') as (_ & E1 & _), (server_by_id _ Hok _ _ Hi) as (_ & E2 & _).
    rewrite Ha', E2 in E1; injection E1 as ->; done.
  - split; [done|]; unfold exist_server; destruct (server_by_id _ Hok' _ _ Hl) as (_ & -> & _); by cbn.
Qed.

(** A server that two sessions asked for is not counted: both are given the same id, and when the
    first of them ends the server is closed under the second. *)
Theorem shared_tunnel_closed_with_first_session (s1 : MuxSession) t t' l d id :
  tables_ok t' -> Forall (fits 32) (tunnel_servers s1) -> id ∈ tunnel_servers s1 ->
  start_tunnel_server l d t = (t', Ok (id, 0)) ->
  start_tunnel_server l d t' = (t', Ok (id, 0)) /\ is_Some (g_tunnel_servers t' !! id) /\
  g_tunnel_servers (session_destroy s1 t') !! id = None.
Proof.
  intros Hok Hf Hin (sv & Ex & Hid & Hd)%start_leaves_server.
  split; [rewrite (start_again l d _ t' sv Ex Hd); by rewrite decide_True, Hid|]; split.
  - unfold exist_server in Ex; destruct (_ !! NetAddress_String l) as [j|] eqn:Ej; [|done]; cbn in Ex.
    destruct (server_by_id _ Hok _ _ Ex) as (E1 & _); rewrite <- Hid, E1; by eexists.
  - by rewrite session_destroy_lookup, decide_True.
Qed.

(** An id that does not fit the 32-bit parameter of [close_tunnel_server] does not close its server,
    and closes another one when the low half is in use. *)
Theorem wide_id_closes_another t j :
  fits 32 j -> g_tunnel_servers (close_tunnel_server (2 ^ 32 + j) t) = g_tunnel_servers (close_tunnel_server j t).
Proof.
  intros Hj; unfold close_tunnel_server; rewrite (wrap_small 32 j) by done.
  assert (wrap 32 (2 ^ 32 + j) = j) as ->; [|done].
  unfold wrap; rewrite Z.add_mod, Z_mod_same_full, Z.add_0_l, Z.mod_mod by done; by apply Z.mod_small.
Qed.

(** The request of a peer.  On an entry node the answer says what the start of the server said; a
    server that runs is added to the servers of the peer's session, a failure changes no session.
    On another node the request is refused and nothing changes. *)
Theorem tunnel_request_answered entry user cid i req s sp ss t' id ec :
  GetEventWriterFactory user cid MUX_EXIT_CONN (t_manager s) = Some sp ->
  session_store (t_manager s) !! sp = Some ss ->
  start_tunnel_server {| schema := []; Address.host := bs "0.0.0.0"; Address.port := wrap 16 (tunnel_remote_port req); path := [] |}
    {| schema := []; Address.host := local_host req; Address.port := wrap 16 (local_port req); path := [] |} (tunnels s)
    = (t', Ok (id, ec)) ->
  exists s', tunnel_server_handler entry user cid (make_event i (TunnelOpenRequest req)) s =
      (s', Ok (Some (make_event 0 (TunnelOpenResponse
        (if entry then if ec =? 0 then {| tunnel_success := true; tunnel_id := id; tunnel_errc := 0 |}
                       else {| tunnel_success := false; tunnel_id := 0; tunnel_errc := ec |}
         else {| tunnel_success := false; tunnel_id := 0; tunnel_errc := ERR_INVALID_EVENT |}))))) /\
    tunnels s' = (if entry then t' else tunnels s) /\
    session_store (t_manager s') !! sp =
      Some (if entry && (ec =? 0) then {| conns := conns ss; tunnel_servers := tunnel_servers ss ++ [id] |} else ss).
Proof.
  intros Hf Hss Hst; unfold tunnel_server_handler; cbn [body make_event]; destruct entry; [|by exists s].
  assert (GetSession user cid MUX_EXIT_CONN (t_manager s) = (t_manager s, Ok sp)) as Hg.
  { unfold GetEventWriterFactory in Hf; unfold GetSession, GetUserMuxConn; srun.
    destruct (mux_conns (t_manager s) !! user) as [u|]; [|done]; srun; change (sessions MUX_EXIT_CONN u !! cid = Some sp) in Hf; by rewrite Hf. }
  unfold on_manager, on_tunnels; srun; rewrite Hg; cbn [tunnels t_manager]; rewrite Hst.
  destruct (ec =? 0); cbn; eexists; (split; [done|]); split; try done; by cbn; rewrite lookup_alter_eq, Hss.
Qed.

End sessions.

(** ** Witnesses *)

(** A network whose state is the list of listening handles; every port can be bound once. *)
Module TunnelDemo.

Definition net : Type := list nat.

#[export] Instance demo_names : Network net unit unit := {|
  async_resolve host service := sret (0, [tt]);
  async_connect _ := sret (0, tt)
|}.

#[export] Instance demo_acceptors : Acceptors net unit unit := {|
  tcp_open _ := fun n => (n, Ok (length n));
  tcp_bind _ _ := sret 0;
  tcp_listen k := fun n => (k :: n, Ok 0);
  tcp_accept _ := sret (9, tt);
  tcp_close k n := filter (fun j => j <> k) n
|}.

Definition listen_on (p : Z) : NetAddress := {| schema := []; Address.host := bs "0.0.0.0"; Address.port := p; path := [] |}.
Definition dest (h : string) : NetAddress := {| schema := []; Address.host := bs h; Address.port := 22; path := [] |}.

(** One server, asked for by one session. *)
Definition one_server : Tunnels net := fst (start_tunnel_server (listen_on 8022) (dest "box") (tunnels_start [])).
Definition holder : MuxSession := {| conns := []; tunnel_servers := [1] |}.

(** Two requests, for two addresses, of which the second one is answered first. *)
Definition other_server : Tunnels net := fst (new_tunnel_server (NetAddress_String (listen_on 8023)) (listen_on 8023) (dest "hut") (tunnels_start [])).
Definition two_servers : Tunnels net := fst (new_tunnel_server (NetAddress_String (listen_on 8022)) (listen_on 8022) (dest "box") other_server).
Definition both : Requests := {| r_tunnels := two_servers; r_pending := []; r_overlapped := ∅ |}.

Lemma both_reached : rtc tunnel_step (requests_start []) both.
Proof.
  apply (rtc_l _ _ {| r_tunnels := tunnels_start []; r_pending := [(listen_on 8022, dest "box")]; r_overlapped := ∅ |}).
  { exact (step_lookup (listen_on 8022) (dest "box") (tunnels_start []) [] ∅ eq_refl). }
  apply (rtc_l _ _ {| r_tunnels := tunnels_start [];
    r_pending := [(listen_on 8023, dest "hut"); (listen_on 8022, dest "box")]; r_overlapped := ∅ |}).
  { exact (step_lookup (listen_on 8023) (dest "hut") (tunnels_start []) [(listen_on 8022, dest "box")] ∅ eq_refl). }
  apply (rtc_l _ _ {| r_tunnels := other_server; r_pending := [(listen_on 8022, dest "box")]; r_overlapped := ∅ |}).
  { eapply (step_finish (listen_on 8023) (dest "hut") _ _ _ _ _ (Ok (1, 0))); [done | done | vm_compute; reflexivity]. }
  apply rtc_once; eapply (step_finish (listen_on 8022) (dest "box") _ _ _ _ _ (Ok (2, 0))); [done | done | vm_compute; reflexivity].
Qed.

Lemma one_server_ok : tables_ok one_server.
Proof. apply (tables_ok_insert (tunnels_start [])); [apply tables_ok_start | done | done]. Qed.

End TunnelDemo.

Section witnesses.
Import ManagerDemo TunnelDemo.

Lemma tunnel_tables_inverse_witness :
  tables_but ∅ two_servers /\ ts_addr <$> (g_tunnel_servers two_servers !! 1) = Some (bs "0.0.0.0:8023") /\
  g_tunnel_server_addr2ids two_servers !! bs "0.0.0.0:8022" = Some 2.
Proof. split; [exact (proj1 (tunnel_tables_inverse [] both both_reached)) | by vm_compute]. Defined.

(** Port 0. *)
Lemma overlapping_requests_orphan_server_witness :
  let t1 := fst (new_tunnel_server (NetAddress_String (listen_on 0)) (listen_on 0) (dest "box") (tunnels_start [])) in
  let t2 := fst (new_tunnel_server (NetAddress_String (listen_on 0)) (listen_on 0) (dest "hut") t1) in
  is_Some (g_tunnel_servers t2 !! 1) /\ exist_server (bs "0.0.0.0:0") (close_tunnel_server 1 t2) = None.
Proof.
  intros t1 t2; destruct (overlapping_requests_orphan_server (listen_on 0) (dest "box") (dest "hut") (tunnels_start []) t1 t2 1 2
    ltac:(done) eq_refl eq_refl) as (_ & H1 & _ & _ & _ & H2); exact (conj H1 H2).
Defined.

Lemma tunnel_start_idempotent_witness :
  start_tunnel_server (listen_on 8022) (dest "box") one_server = (one_server, Ok (1, 0)) /\
  forall d', NetAddress_String d' <> NetAddress_String (dest "box") ->
    start_tunnel_server (listen_on 8022) d' one_server = (one_server, Ok (0, address_in_use)).
Proof. exact (tunnel_start_idempotent (tunnels_start []) (listen_on 8022) (dest "box") one_server 1 eq_refl). Defined.

Lemma session_destroy_closes_witness :
  let t' := session_destroy holder one_server in
  tables_ok t' /\ g_tunnel_servers t' !! 1 = None /\ exist_server (bs "0.0.0.0:8022") t' = None.
Proof.
  refine (session_destroy_closes holder one_server 1 _ one_server_ok _ eq_refl); by repeat constructor.
Defined.

Lemma shared_tunnel_closed_with_first_session_witness :
  start_tunnel_server (listen_on 8022) (dest "box") one_server = (one_server, Ok (1, 0)) /\
  is_Some (g_tunnel_servers one_server !! 1) /\ g_tunnel_servers (session_destroy holder one_server) !! 1 = None.
Proof.
  refine (shared_tunnel_closed_with_first_session holder (tunnels_start []) one_server (listen_on 8022) (dest "box") 1 _ _ _ eq_refl);
    [apply one_server_ok | by repeat constructor | by left].
Defined.

Lemma wide_id_closes_another_witness :
  g_tunnel_servers (close_tunnel_server (2 ^ 32 + 1) one_server) = g_tunnel_servers (close_tunnel_server 1 one_server).
Proof. exact (wide_id_closes_another one_server 1 ltac:(by split)). Defined.

Definition request0 : snova_TunnelOpenRequest :=
  {| local_host := bs "box"; local_port := 22; tunnel_remote_port := 8022; tunnel_is_tcp := true |}.

Lemma tunnel_request_answered_witness :
  exists s', tunnel_server_handler true alice 42 (make_event 3 (TunnelOpenRequest request0))
      {| tunnels := tunnels_start []; t_manager := ManagerDemo.manager |} =
      (s', Ok (Some (make_event 0 (TunnelOpenResponse {| tunnel_success := true; tunnel_id := 1; tunnel_errc := 0 |})))) /\
    tunnels s' = one_server /\
    session_store (t_manager s') !! 1%nat = Some {| conns := conns session1; tunnel_servers := tunnel_servers session1 ++ [1] |}.
Proof.
  exact (tunnel_request_answered true alice 42 3 request0 {| tunnels := tunnels_start []; t_manager := ManagerDemo.manager |}
    1%nat session1 one_server 1 0 eq_refl eq_refl eq_refl).
Defined.

End witnesses.
