(* ===== verification/EntryServer.v ===== *)
(** * The accept loop of the entry server

    src/snova/server/entry_server.cc around [handle_conn]: the accept loop with the socket buffer
    sizes, the counter of local connections, and, for the transparent proxy, [get_orig_dst] of
    src/snova/util/net_helper.cc.  The options of a socket are operations of asio that throw, and the
    original destination is what the kernel stores in a [sockaddr]. *)

From S2P Require Import Prelude Endian IoBuf Io Text Address NetHelper LocalProxy Connect TunnelServer.

(** [get_option] and [set_option] of a socket for its two buffer sizes; [Err] is an exception. *)
Class SocketOptions (C : Type) := {
  get_send_buffer_size : st C Z;
  set_send_buffer_size : Z -> st C unit;
  get_recv_buffer_size : st C Z;
  set_recv_buffer_size : Z -> st C unit
}.

(** [getsockopt] of [SO_ORIGINAL_DST] at the two levels: the bytes of the address and of the port in
    the structure that the kernel fills, [None] for an error. *)
Class OriginalDst (C : Type) := {
  original_dst_v4 : C -> option (bytes * bytes);
  original_dst_v6 : C -> option (bytes * bytes)
}.

(** The kernel stores whole addresses and ports. *)
Class OriginalDstOk (C : Type) `{OriginalDst C} : Prop := {
  dst_v4_bytes : forall c a p, original_dst_v4 c = Some (a, p) -> is_bytes a /\ zlen a = 4 /\ is_bytes p /\ zlen p = 2;
  dst_v6_bytes : forall c a p, original_dst_v6 c = Some (a, p) -> is_bytes a /\ zlen a = 16 /\ is_bytes p /\ zlen p = 2
}.

(** [ntohs] and [ntohl] on the integer that is loaded from the structure. *)
Definition ntoh `{Platform} (n : nat) (v : Z) : Z := absl_gntoh n v.

(** [get_orig_dst]: the endpoint, or [None] for the result -1. *)
Definition get_orig_dst `{Platform} {C} `{OriginalDst C} (c : C) : option (ip_address * Z) :=
  match original_dst_v4 c with
  | Some (sin_addr, sin_port) => Some (V4 (ntoh 4 (mem_load sin_addr)), ntoh 2 (mem_load sin_port))
  | None =>
      match original_dst_v6 c with
      | Some (sin6_addr, sin6_port) => Some (V6 (be_val sin6_addr), ntoh 2 (mem_load sin6_port))
      | None => None
      end
  end.

Section loop.
Context {C : Type} `{SocketOptions C}.

(** A [uint32_t] as an [int]. *)
Definition int_of_u32 (v : Z) : Z := if v <? 2 ^ 31 then v else v - 2 ^ 32.

(** A buffer size is set when one is configured and it is smaller than the current size, an [int]
    that is compared as an unsigned number. *)
Definition limit_buffer (get : st C Z) (set : Z -> st C unit) (size : Z) : st C unit :=
  if 0 <? size then
    let! current := get in
    if size <? wrap 32 current then set (int_of_u32 size) else sret tt
  else sret tt.

(** What the loop does with an accepted socket before it is handed over. *)
Definition tune_socket (g_entry_socket_send_buffer_size g_entry_socket_recv_buffer_size : Z) : st C unit :=
  let! _ := limit_buffer get_send_buffer_size set_send_buffer_size g_entry_socket_send_buffer_size in
  limit_buffer get_recv_buffer_size set_recv_buffer_size g_entry_socket_recv_buffer_size.

(** [server_loop]: the sockets whose handlers are spawned before the loop ends, and the exception
    that ends it when it is not an error of [async_accept]. *)
Fixpoint entry_server_loop {N Ep} `{Acceptors N Ep C} (fuel : nat) (snd_size rcv_size : Z) (server : nat)
  : st N (list C * option Z) :=
  match fuel with
  | O => slift Hang
  | S fuel =>
      let! '(ec, client) := tcp_accept server in
      if negb (ec =? 0) then sret ([], None)
      else
        match tune_socket snd_size rcv_size client with
        | (client, Ok _) =>
            let! '(clients, x) := entry_server_loop fuel snd_size rcv_size server in
            sret (client :: clients, x)
        | (_, Err e) => sret ([], Some e)
        | (_, Ub) => slift Ub
        | (_, Hang) => slift Hang
        end
  end.

End loop.

(** [handle_conn] as the loop spawns it: the counter, whose cleanup runs on every return, and the
    original destination on a redirect node. *)
Section handler.
Context `{Platform} {C : Type} `{IOConnection C, AbslStrings, AsioText, AsioIp, OriginalDst C}.

Definition entry_handle_conn (flag_user : bytes) (g_is_redirect_node : bool) (buffer : bytes)
  : st (Z * C) (option relay_call) := fun '(g_local_proxy_conn_num, sock) =>
  let entered := wrap 32 (g_local_proxy_conn_num + 1) in
  let orig_dst := if g_is_redirect_node then get_orig_dst sock else None in
  let '(sock, r) := LocalProxy.handle_conn flag_user orig_dst buffer sock in
  ((wrap 32 (entered - 1), sock), r).

End handler.

(** ** Facts *)

Section loop_facts.
Context {C N Ep : Type} `{SocketOptions C, Acceptors N Ep C}.
Implicit Types (c : C) (n : N).

(** The sockets [cs] are accepted, one after the other, from [n] to [n']. *)
Inductive accepting (server : nat) : N -> list C -> N -> Prop :=
| accepting_nil n : accepting server n [] n
| accepting_cons n n1 n2 c cs :
    tcp_accept server n = (n1, Ok (0, c)) -> accepting server n1 cs n2 -> accepting server n (c :: cs) n2.

Lemma entry_server_loop_app server snd rcv cs cs' n n' : forall fuel,
  accepting server n cs n' -> Forall2 (fun c c' => tune_socket snd rcv c = (c', Ok tt)) cs cs' ->
  entry_server_loop (length cs + fuel) snd rcv server n =
    (let! '(clients, x) := entry_server_loop fuel snd rcv server in sret (cs' ++ clients, x)) n'.
Proof.
  intros fuel Ha Ht; revert cs' Ht; induction Ha as [n|n n1 n2 c cs Hc _ IH]; intros cs' Ht.
  - apply Forall2_nil_inv_l in Ht as ->; cbn [length Nat.add app]; unfold sbind, sret.
    by destruct (entry_server_loop fuel snd rcv server n) as [n'' [[? ?]| | |]].
  - apply Forall2_cons_inv_l in Ht as (c' & cs'' & Hcc & Ht & ->); cbn [length Nat.add entry_server_loop].
    erewrite sbind_ok by exact Hc; cbn [negb Z.eqb]; rewrite Hcc; unfold sbind; rewrite (IH cs'' Ht); unfold sbind, sret.
    by destruct (entry_server_loop fuel snd rcv server n2) as [n'' [[? ?]| | |]].
Qed.

(** Every accepted connection is handed to a handler, in order and with its buffers limited, until
    the listening socket fails. *)
Theorem entry_loop_serves_every_connection server snd rcv cs cs' n n1 n2 ec c :
  accepting server n cs n1 -> Forall2 (fun c c' => tune_socket snd rcv c = (c', Ok tt)) cs cs' ->
  tcp_accept server n1 = (n2, Ok (ec, c)) -> ec <> 0 ->
  entry_server_loop (S (length cs)) snd rcv server n = (n2, Ok (cs', None)).
Proof.
  intros Ha Ht Hc Hec; replace (S (length cs)) with (length cs + 1)%nat by lia.
  rewrite (entry_server_loop_app server snd rcv cs cs' n n1 1 Ha Ht); cbn [entry_server_loop].
  srun; rewrite Hc; bool_false (ec =? 0); cbn [negb]; by rewrite app_nil_r.
Qed.

(** One socket whose option cannot be read or set ends the loop by an exception: its connection is
    dropped and none that comes later is accepted. *)
Theorem socket_option_error_ends_accepting server snd rcv cs cs' n n1 n2 c c' e fuel :
  accepting server n cs n1 -> Forall2 (fun c c' => tune_socket snd rcv c = (c', Ok tt)) cs cs' ->
  tcp_accept server n1 = (n2, Ok (0, c)) -> tune_socket snd rcv c = (c', Err e) ->
  entry_server_loop (length cs + S fuel) snd rcv server n = (n2, Ok (cs', Some e)).
Proof.
  intros Ha Ht Hc Hx; rewrite (entry_server_loop_app server snd rcv cs cs' n n1 (S fuel) Ha Ht); cbn [entry_server_loop].
  srun; rewrite Hc; cbn [negb Z.eqb]; rewrite Hx; by rewrite app_nil_r.
Qed.

End loop_facts.

(** ** Buffer sizes on Linux

    socket(7): the kernel doubles the value that is set, and the doubled value is the one that is
    read. *)

Section linux.
Context {C : Type} `{SocketOptions C}.

Class DoublesSendBuffer (view : C -> Z) : Prop := {
  get_send_view : forall c, get_send_buffer_size c = (c, Ok (view c));
  set_send_view : forall v c, 0 < v -> exists c', set_send_buffer_size v c = (c', Ok tt) /\ view c' = 2 * v
}.

Lemma limit_send_result view `{!DoublesSendBuffer view} size c :
  0 <= size < 2 ^ 31 -> 0 <= view c < 2 ^ 31 ->
  exists c', limit_buffer get_send_buffer_size set_send_buffer_size size c = (c', Ok tt) /\
    view c' = if (0 <? size) && (size <? view c) then 2 * size else view c.
Proof.
  intros Hs Hv; unfold limit_buffer; destruct (Z.ltb_spec 0 size); [|by exists c].
  erewrite sbind_ok by apply get_send_view; rewrite wrap_small by (unfold fits; lia); cbn [andb].
  destruct (Z.ltb_spec size (view c)); [|by exists c]; unfold int_of_u32; bool_true (size <? 2 ^ 31).
  destruct (set_send_view size c) as (c' & E & Hc); [lia|]; by exists c'.
Qed.

(** There the limit of a buffer can enlarge it: a configured size between half of the current size
    and the current size is below the current size, and is doubled. *)
Theorem limit_enlarges_send_buffer view `{!DoublesSendBuffer view} size c :
  0 < size < 2 ^ 31 -> view c < 2 ^ 31 -> size < view c < 2 * size ->
  exists c', limit_buffer get_send_buffer_size set_send_buffer_size size c = (c', Ok tt) /\ view c < view c'.
Proof.
  intros Hs Hv Hl; destruct (limit_send_result view size c) as (c' & E & Hc); [lia..|].
  exists c'; split; [done|]; rewrite Hc; bool_true (0 <? size); bool_true (size <? view c); cbn; lia.
Qed.

End linux.

(** ** The transparent proxy *)

Section redirect.
Context `{Platform, !PlatformOk} {C : Type} `{IOConnection C, AbslStrings, AsioText, AsioIp, OriginalDst C, !OriginalDstOk C}.
Variable flag_user : bytes.
Implicit Type c : C.

(** The destination is the address and the port in network byte order, on every machine; the IPv6
    level is asked when the IPv4 level has no answer. *)
Lemma get_orig_dst_network_order c :
  get_orig_dst c =
    match original_dst_v4 c, original_dst_v6 c with
    | Some (a, p), _ => Some (V4 (be_val a), be_val p)
    | None, Some (a, p) => Some (V6 (be_val a), be_val p)
    | None, None => None
    end.
Proof.
  unfold get_orig_dst, ntoh; destruct (original_dst_v4 c) as [[a p]|] eqn:E4.
  - destruct (dst_v4_bytes _ _ _ E4) as (Ha & Hla & Hp & Hlp); by rewrite !gntoh_network.
  - destruct (original_dst_v6 c) as [[a p]|] eqn:E6; [|done].
    destruct (dst_v6_bytes _ _ _ E6) as (Ha & Hla & Hp & Hlp); by rewrite gntoh_network.
Qed.

(** On a redirect node a connection to an IPv6 destination that speaks neither TLS nor HTTP is
    relayed directly to this destination with the bytes that were read, SOCKS greetings included,
    and the counter of local connections is as before. *)
Theorem redirected_connection_relayed num buffer c c1 d a p :
  original_dst_v4 c = None -> original_dst_v6 c = Some (a, p) -> zlen d <= zlen buffer ->
  AsyncRead kMaxChunkSize c = (c1, Ok (d, 0)) -> 3 <= zlen d ->
  zget d 0 <> Some 22 -> existsb (EqualsIgnoreCase (ztake 3 d)) http_methods = false -> fits 32 num ->
  entry_handle_conn flag_user true buffer (num, c) =
    ((num, c1), Ok (Some {| data := d; direct := true;
                     ctx := {| user := []; remote_host := addr_text (V6 (be_val a)); remote_port := be_val p;
                               is_tls := false; is_tcp := true |} |})).
Proof.
  intros Hv4 Hv6 Hl Hr Hn Hb Hm Hf; unfold entry_handle_conn; rewrite get_orig_dst_network_order, Hv4, Hv6.
  assert (LocalProxy.handle_conn flag_user (Some (V6 (be_val a), be_val p)) buffer c =
    (c1, Ok (relay_redirected (Some (V6 (be_val a), be_val p)) d))) as ->.
  - unfold LocalProxy.handle_conn; srun; cbn [redirect_address is_private_address]; srun; rewrite Hr; cbv beta iota.
    rewrite zblit_head by done; cbn [negb Z.eqb]; bool_false (zlen d =? 0); bool_false (zlen d <? 3).
    rewrite zslice_prefix by done; cbv beta iota; rewrite zslice_Some by lia; cbv beta iota.
    rewrite !zget_app_l by lia; destruct (zget_in_range d 0) as [b0 E0]; [lia|]; destruct (zget_in_range d 1) as [b1 E1]; [lia|].
    rewrite E0, E1; cbv beta iota; cbn [negb andb]; case Z.eqb_spec; [by intros ->|]; intros _.
    change (zdrop 0 d) with d; by rewrite Hm.
  - cbn [relay_redirected]; f_equal; f_equal; unfold wrap; unfold fits in Hf.
    rewrite Zminus_mod_idemp_l; replace (num + 1 - 1) with num by lia; by apply Z.mod_small.
Qed.

End redirect.

(** ** Witnesses *)

Module EntryDemo.
Export ProxyDemo RefAbsl Pipe.
#[export] Existing Instances little_endian little_endian_ok.

(** A socket is its two buffer sizes; the kernel doubles what is set. *)
Definition sock : Type := Z * Z.
#[export] Instance sock_options : SocketOptions sock := {|
  get_send_buffer_size := fun c => (c, Ok c.1);
  set_send_buffer_size := fun v c => ((2 * v, c.2), Ok tt);
  get_recv_buffer_size := fun c => (c, if c.2 =? 0 then Err 107 else Ok c.2);
  set_recv_buffer_size := fun v c => ((c.1, 2 * v), Ok tt)
|}.
#[export] Instance sock_doubles : DoublesSendBuffer (C := sock) fst.
Proof. split; [done|]; intros v c _; by eexists. Qed.

(** The network is the list of the connections that will come. *)
#[export] Instance sock_acceptors : Acceptors (list sock) unit sock := {|
  tcp_open _ := sret 0%nat; tcp_bind _ _ := sret 0; tcp_listen _ := sret 0; tcp_close _ n := n;
  tcp_accept _ := fun n => match n with c :: n => (n, Ok (0, c)) | [] => ([], Ok (125, (0, 0))) end
|}.

Lemma two_accepted : accepting 0 [(87040, 131072); (4096, 131072)] [(87040, 131072); (4096, 131072)] [].
Proof. repeat (econstructor; [reflexivity|]); constructor. Qed.

Lemma two_tuned : Forall2 (fun c c' => tune_socket 16384 0 c = (c', Ok tt))
  [(87040, 131072); (4096, 131072)] [(32768, 131072); (4096, 131072)].
Proof. repeat (constructor; [reflexivity|]); constructor. Qed.

#[export] Instance demo_dst : OriginalDst pipe := {|
  original_dst_v4 _ := None;
  original_dst_v6 _ := Some (zrepeat 15 0 ++ [1], [1; 187])
|}.
#[export] Instance demo_dst_ok : OriginalDstOk pipe.
Proof.
  split; [done|]; intros c a p [= <- <-]; split_and!; try done; apply (bool_decide_unpack _); by vm_compute.
Qed.

Definition ssh : pipe := {| chunks := [bs "SSH-2.0"]; sent := [] |}.

End EntryDemo.

Section witnesses.
Import EntryDemo.

Lemma entry_loop_serves_every_connection_witness :
  entry_server_loop 3 16384 0 0 [(87040, 131072); (4096, 131072)] = ([], Ok ([(32768, 131072); (4096, 131072)], None)).
Proof.
  exact (entry_loop_serves_every_connection 0 16384 0 _ _ _ [] [] 125 (0, 0) two_accepted two_tuned eq_refl ltac:(done)).
Defined.

Lemma socket_option_error_ends_accepting_witness :
  entry_server_loop 7 16384 1024 0 [(4096, 0); (4096, 131072)] = ([(4096, 131072)], Ok ([], Some 107)).
Proof.
  exact (socket_option_error_ends_accepting 0 16384 1024 [] [] [(4096, 0); (4096, 131072)] [(4096, 0); (4096, 131072)]
    [(4096, 131072)] (4096, 0) (4096, 0) 107 6 (accepting_nil 0 _) ltac:(constructor) eq_refl eq_refl).
Defined.

Lemma limit_enlarges_send_buffer_witness :
  exists c', limit_buffer get_send_buffer_size set_send_buffer_size 65536 (87040, 131072) = (c', Ok tt) /\ 87040 < c'.1.
Proof. exact (limit_enlarges_send_buffer fst 65536 (87040, 131072) ltac:(done) ltac:(done) ltac:(done)). Defined.

Lemma redirected_connection_relayed_witness :
  entry_handle_conn (bs "alice") true buf (7, ssh) =
    ((7, idle), Ok (Some {| data := bs "SSH-2.0"; direct := true;
       ctx := {| user := []; remote_host := bs "2001:db8::1"; remote_port := 443; is_tls := false; is_tcp := true |} |})).
Proof.
  exact (redirected_connection_relayed (bs "alice") 7 buf ssh idle (bs "SSH-2.0") (zrepeat 15 0 ++ [1]) [1; 187]
    eq_refl eq_refl ltac:(by vm_compute) eq_refl ltac:(by vm_compute) ltac:(by vm_compute) eq_refl ltac:(by split)).
Defined.

End witnesses.
