(* ===== verification/DnsOptions.v ===== *)
(** * Options of the DNS proxy

    src/snova/util/dns_options.cc: the name servers, the file of IPv4 networks and the test whether
    an address lies in one of them.  [absl::btree_map] is a list sorted by its keys. *)

From stdpp Require Import sorting.
From S2P Require Import Prelude IoBuf Io Text Address Connect.

(** asio's IPv4 networks: parsing (which throws), the network address, and the range of hosts as
    its first address and the one behind its last. *)
Class AsioNetworks (Nw : Type) := {
  make_network_v4 : bytes -> res Nw;
  network : Nw -> Z;
  hosts : Nw -> Z * Z
}.

(** [range.find(ip) != range.end()]. *)
Definition range_contains (r : Z * Z) (ip : Z) : bool := (r.1 <=? ip) && (ip <? r.2).

Abbreviation range_map := (list (Z * (Z * Z))).

(** [emplace] of a sorted map: a key that is present is kept and reported. *)
Fixpoint btree_emplace (k : Z) (v : Z * Z) (m : range_map) : range_map * bool :=
  match m with
  | [] => ([(k, v)], true)
  | (k', v') :: m' =>
      if k <? k' then ((k, v) :: m, true)
      else if k =? k' then (m, false)
      else let '(m', b) := btree_emplace k v m' in ((k', v') :: m', b)
  end.

(** [upper_bound]: the entries up to the position and those from it on. *)
Fixpoint upper_bound (ip : Z) (m : range_map) : range_map * range_map :=
  match m with
  | [] => ([], [])
  | (k, v) :: m' =>
      if ip <? k then ([], m)
      else let '(a, b) := upper_bound ip m' in ((k, v) :: a, b)
  end.

Section dns_options.
Context {Nw : Type} `{AsioNetworks Nw, AbslStrings}.

(** The loop over the lines of the file; [Err] is the exception of a line that is no network. *)
Fixpoint load_lines (lines : list bytes) : st range_map bool :=
  match lines with
  | [] => sret true
  | line :: lines =>
      let! v4_network := slift (make_network_v4 (StripAsciiWhitespace line)) in
      let! m := sget in
      let '(m', inserted) := btree_emplace (network v4_network) (hosts v4_network) m in
      let! _ := smodify (fun _ => m') in
      if inserted : bool then load_lines lines else sret false
  end.

(** [LoadIPRangeFromFile]; [None] is a file that cannot be opened. *)
Definition LoadIPRangeFromFile (file : option (list bytes)) : st range_map bool :=
  match file with
  | None => sret false
  | Some lines => load_lines lines
  end.

(** [MatchIPRanges]. *)
Definition MatchIPRanges (m : range_map) (ip : Z) : bool :=
  let '(before, found) := upper_bound ip m in
  match found with
  | [] => false
  | _ :: _ =>
      match last before with
      | None => false
      | Some (_, range) => range_contains range ip
      end
  end.

(** [Init]: the endpoints of the default and of the trusted name server. *)
Definition DNSOptions_Init {N Ep C} `{Network N Ep C} (default_ns trusted_ns : NetAddress) : st N (Z + Ep * Ep * Ep) :=
  let! d := do_resolve_endpoint (Address.host default_ns) (Address.port default_ns) in
  match d with
  | inl ec => sret (inl ec)
  | inr default_ns_endpoint =>
      let! t := do_resolve_endpoint (Address.host trusted_ns) (Address.port trusted_ns) in
      match t with
      | inl ec => sret (inl ec)
      | inr trusted_ns_endpoint =>
          let! t := do_resolve_endpoint (Address.host trusted_ns) (Address.port trusted_ns) in
          match t with
          | inl ec => sret (inl ec)
          | inr trusted_ns_tcp_endpoint => sret (inr (default_ns_endpoint, trusted_ns_endpoint, trusted_ns_tcp_endpoint))
          end
      end
  end.

(** ** Sorted maps *)

Definition keys_sorted (m : range_map) : Prop := StronglySorted Z.lt m.*1.

Lemma btree_emplace_fst k v m j : j ∈ (btree_emplace k v m).1.*1 <-> j = k \/ j ∈ m.*1.
Proof.
  induction m as [|[k' v'] m IH]; cbn [btree_emplace]; [cbn; rewrite elem_of_cons, elem_of_nil; tauto|].
  destruct (Z.ltb_spec k k'); [cbn; rewrite !elem_of_cons; tauto|].
  destruct (Z.eqb_spec k k') as [->|]; [cbn; rewrite !elem_of_cons; tauto|].
  destruct (btree_emplace k v m) as [m' b]; cbn in *; rewrite !elem_of_cons, IH; tauto.
Qed.

Lemma btree_emplace_sorted k v m : keys_sorted m -> keys_sorted (btree_emplace k v m).1.
Proof.
  unfold keys_sorted; induction m as [|[k' v'] m IH]; cbn [btree_emplace]; [by repeat constructor|].
  cbn [fmap list_fmap fst]; intros [Hs Hf]%StronglySorted_inv.
  destruct (Z.ltb_spec k k'); [cbn; constructor; [by constructor | constructor; [done|]]|].
  { rewrite Forall_forall in Hf |- *; intros j Hj; specialize (Hf j Hj); lia. }
  destruct (Z.eqb_spec k k'); [by constructor|].
  pose proof (btree_emplace_fst k v m) as Hin; destruct (btree_emplace k v m) as [m' b]; cbn in *; constructor; [by apply IH|].
  rewrite Forall_forall in Hf |- *; intros j [->|Hj]%Hin; [lia | by apply Hf].
Qed.

Lemma btree_emplace_true k v m m' x : btree_emplace k v m = (m', true) -> x ∈ m' <-> x = (k, v) \/ x ∈ m.
Proof.
  revert m'; induction m as [|[k' v'] m IH]; intros m'; cbn [btree_emplace].
  - intros [= <-]; rewrite elem_of_cons, elem_of_nil; tauto.
  - destruct (k <? k'); [intros [= <-]; rewrite elem_of_cons; tauto|].
    destruct (k =? k'); [done|].
    destruct (btree_emplace k v m) as [m1 b]; intros [= <- ->]; rewrite !elem_of_cons, (IH m1) by done; tauto.
Qed.

Lemma load_lines_spec lines : forall m m' b,
  load_lines lines m = (m', Ok b) -> keys_sorted m ->
  keys_sorted m' /\ (b = true -> forall x, x ∈ m' <-> x ∈ m \/
    exists line nw, line ∈ lines /\ make_network_v4 (StripAsciiWhitespace line) = Ok nw /\ x = (network nw, hosts nw)).
Proof.
  induction lines as [|line lines IH]; intros m m' b; cbn [load_lines].
  - intros [= <- <-] Hm; split; [done|]; intros _ x; split; [by left|]; intros [?|(? & ? & Hin & _)]; [done|].
    by apply not_elem_of_nil in Hin.
  - srun; destruct (make_network_v4 (StripAsciiWhitespace line)) as [nw| | |] eqn:En; try done.
    destruct (btree_emplace (network nw) (hosts nw) m) as [m1 ins] eqn:Ee; intros Hl Hm.
    pose proof (btree_emplace_sorted (network nw) (hosts nw) m Hm) as Hm1; rewrite Ee in Hm1; cbn in Hm1.
    destruct ins; [|by injection Hl as <- <-].
    destruct (IH m1 m' b Hl Hm1) as [Hs Hx]; split; [done|]; intros Hb x; rewrite (Hx Hb x).
    rewrite (btree_emplace_true _ _ _ _ x Ee); split.
    + intros [[->|Hin]|(l & nw' & Hin & Hn & ->)]; [right; exists line, nw; split; [by left | done] | by left |].
      right; exists l, nw'; split; [by right | done].
    + intros [Hin|(l & nw' & [->|Hin]%elem_of_cons & Hn & ->)]; [by left; right | left; left; congruence |].
      right; by exists l, nw'.
Qed.

Lemma upper_bound_spec ip m : keys_sorted m ->
  let '(a, b) := upper_bound ip m in
  m = a ++ b /\ Forall (fun x => x.1 <= ip) a /\ Forall (fun x => ip < x.1) b.
Proof.
  unfold keys_sorted; induction m as [|[k v] m IH]; cbn [upper_bound]; [intros _; by split_and!|].
  cbn [fmap list_fmap fst]; intros [Hs Hf]%StronglySorted_inv; destruct (Z.ltb_spec ip k).
  - split; [done|]; split; [done|]; constructor; [done|].
    rewrite Forall_fmap in Hf; eapply Forall_impl; [exact Hf|]; intros [k' v'] Hk; cbn in *; lia.
  - specialize (IH Hs); destruct (upper_bound ip m) as [a b]; destruct IH as (-> & Ha & Hb).
    split; [done|]; split; [by constructor | done].
Qed.

(** Networks that do not overlap: each range of hosts begins behind its network address and ends
    before the next network. *)
Definition ranges_ok (m : range_map) : Prop :=
  keys_sorted m /\
  forall k r, (k, r) ∈ m -> k <= r.1 /\ forall k' r', (k', r') ∈ m -> k < k' -> r.2 <= k'.

(** The reference: some network of the file contains the address. *)
Definition in_some_range (m : range_map) (ip : Z) : Prop := exists k r, (k, r) ∈ m /\ range_contains r ip = true.

Lemma sorted_before a k v b k' v' :
  keys_sorted (a ++ (k, v) :: b) -> (k', v') ∈ a -> k' < k.
Proof.
  unfold keys_sorted; rewrite fmap_app; induction a as [|[j w] a IH]; [by intros _ ?%not_elem_of_nil|].
  cbn [fmap list_fmap app]; intros [Hs Hf]%StronglySorted_inv [[= -> ->]|Hin]%elem_of_cons; [|by apply IH].
  rewrite Forall_app in Hf; destruct Hf as [_ Hf]; by apply Forall_cons in Hf as [Hf _].
Qed.

(** C25. The test against its reference.  For networks that do not overlap, [MatchIPRanges] finds an
    address exactly when it is in the range of a network and there is a network with a higher
    address in the file. *)
Theorem match_ip_ranges_spec m ip :
  ranges_ok m ->
  MatchIPRanges m ip = true <-> in_some_range m ip /\ exists k r, (k, r) ∈ m /\ ip < k.
Proof.
  intros [Hs Hr]; unfold MatchIPRanges; pose proof (upper_bound_spec ip m Hs) as Hu.
  destruct (upper_bound ip m) as [a b]; destruct Hu as (Em & Ha & Hb); split.
  - destruct b as [|[k2 r2] b]; [done|]; destruct (last a) as [[k r]|] eqn:El; [|done]; intros Hc; split.
    + exists k, r; split; [|done]; rewrite Em; apply elem_of_app; left; by apply last_Some_elem_of.
    + exists k2, r2; split; [rewrite Em; apply elem_of_app; right; by left | by apply Forall_cons in Hb as [Hb _]].
  - intros [(k & r & Hin & Hc) (k2 & r2 & Hin2 & Hlt)]; destruct b as [|x b].
    { rewrite Em, app_nil_r in Hin2; rewrite Forall_forall in Ha; apply Ha in Hin2; cbn in Hin2; lia. }
    unfold range_contains in Hc; apply andb_true_iff in Hc as [H1%Z.leb_le H2%Z.ltb_lt].
    destruct (Hr k r Hin) as [Hk Hnext].
    assert ((k, r) ∈ a) as Hina.
    { rewrite Em in Hin; apply elem_of_app in Hin as [?|Hin]; [done|].
      rewrite Forall_forall in Hb; apply Hb in Hin; cbn in Hin; lia. }
    destruct (last a) as [[k1 r1]|] eqn:El; [|by apply last_None in El as ->; apply not_elem_of_nil in Hina].
    apply last_Some in El as (a' & ->).
    apply elem_of_app in Hina as [Hina|Hina%list_elem_of_singleton].
    + assert (k < k1) as Hkk.
      { apply (sorted_before a' k1 r1 (x :: b) k r); [|done]; by rewrite Em, <- app_assoc in Hs. }
      assert ((k1, r1) ∈ m) as Hin1 by (rewrite Em; apply elem_of_app; left; apply elem_of_app; right; by left).
      pose proof (Hnext k1 r1 Hin1 Hkk); rewrite Forall_app in Ha; destruct Ha as [_ Ha].
      apply Forall_cons in Ha as [Ha _]; cbn in Ha; lia.
    + injection Hina as <- <-; unfold range_contains; apply andb_true_iff; split; [by apply Z.leb_le | by apply Z.ltb_lt].
Qed.

(** The network with the highest address never matches: every address in it is reported as not in
    the file, although the file lists it. *)
Theorem last_range_never_matches m k r ip :
  ranges_ok (m ++ [(k, r)]) -> range_contains r ip = true ->
  in_some_range (m ++ [(k, r)]) ip /\ MatchIPRanges (m ++ [(k, r)]) ip = false.
Proof.
  intros [Hs Hr] Hc; assert ((k, r) ∈ m ++ [(k, r)]) as Hin by (apply elem_of_app; right; by left).
  split; [by exists k, r|]; unfold MatchIPRanges; pose proof (upper_bound_spec ip _ Hs) as Hu.
  destruct (upper_bound ip (m ++ [(k, r)])) as [a b]; destruct Hu as (Em & _ & Hb).
  destruct b as [|y b]; [done|]; exfalso.
  destruct (Hr k r Hin) as [Hk _]; unfold range_contains in Hc; apply andb_true_iff in Hc as [H1%Z.leb_le _].
  assert ((k, r) ∈ y :: b) as Hinb.
  { apply (f_equal last) in Em; rewrite last_snoc, last_app_cons in Em; symmetry in Em; by apply last_Some_elem_of. }
  rewrite Forall_forall in Hb; apply Hb in Hinb; cbn in Hinb; lia.
Qed.

(** Loading.  A file that loads leaves a sorted map that holds exactly the network of every line,
    with its range of hosts; also when loading stops at a network that is listed twice the map is
    sorted. *)
Theorem load_ip_ranges lines m b :
  LoadIPRangeFromFile (Some lines) [] = (m, Ok b) ->
  keys_sorted m /\ (b = true -> forall x, x ∈ m <->
    exists line nw, line ∈ lines /\ make_network_v4 (StripAsciiWhitespace line) = Ok nw /\ x = (network nw, hosts nw)).
Proof.
  intros Hl; destruct (load_lines_spec lines [] m b Hl) as [Hs Hx]; [constructor|]; split; [done|].
  intros Hb x; rewrite (Hx Hb x), elem_of_nil; tauto.
Qed.

End dns_options.

(** ** Witnesses *)

Module NetworkDemo.
Import RefAbsl.

(** Networks written as a dotted address and a prefix length. *)
Definition parse_v4 (s : bytes) : res (Z * Z) :=
  match StrSplit (bs "/") s with
  | [a; p] =>
      do p <- stoi p;
      do l <- foldr (fun x r => do v <- stoi x; do l <- r; Ok (v :: l)) (Ok []) (StrSplit (bs ".") a);
      match l with
      | [a; b; c; d] => Ok (((a * 256 + b) * 256 + c) * 256 + d, p)
      | _ => Err kInvalidArgument
      end
  | _ => Err kInvalidArgument
  end.

Definition net_of (n : Z * Z) : Z := n.1 / 2 ^ (32 - n.2) * 2 ^ (32 - n.2).

#[export] Instance demo_networks : AsioNetworks (Z * Z) := {|
  make_network_v4 := parse_v4;
  network := net_of;
  hosts n := if n.2 =? 32 then (n.1, n.1 + 1) else (net_of n + 1, net_of n + 2 ^ (32 - n.2) - 1)
|}.

Definition lines0 : list bytes := [bs "20.1.0.0/16 "; bs "10.0.0.0/8"].
Definition map0 : range_map := [(167772160, (167772161, 184549375)); (335609856, (335609857, 335675391))].

Lemma map0_ok : ranges_ok map0.
Proof.
  split; [by repeat constructor|]; intros k r Hin.
  repeat (apply elem_of_cons in Hin as [[= -> ->]|Hin]); [| |by apply not_elem_of_nil in Hin]; cbn; (split; [done|]);
    intros k' r' Hin' Hlt; repeat (apply elem_of_cons in Hin' as [[= -> ->]|Hin']); try done; try lia;
    by apply not_elem_of_nil in Hin'.
Qed.

End NetworkDemo.

Section witnesses.
Import NetworkDemo RefAbsl.

Lemma match_ip_ranges_spec_witness :
  MatchIPRanges map0 167772170 = true <-> in_some_range map0 167772170 /\ exists k r, (k, r) ∈ map0 /\ 167772170 < k.
Proof. exact (match_ip_ranges_spec map0 167772170 map0_ok). Defined.

Lemma last_range_never_matches_witness :
  in_some_range map0 335609860 /\ MatchIPRanges map0 335609860 = false.
Proof.
  exact (last_range_never_matches [(167772160, (167772161, 184549375))] 335609856 (335609857, 335675391) 335609860 map0_ok eq_refl).
Defined.

Lemma load_ip_ranges_witness :
  LoadIPRangeFromFile (Some lines0) [] = (map0, Ok true) /\ keys_sorted map0.
Proof.
  split; [by vm_compute|].
  exact (proj1 (load_ip_ranges lines0 map0 true ltac:(by vm_compute))).
Defined.

End witnesses.
