(* ===== verification/DnsProxy.v ===== *)
(** * The DNS proxy

    src/snova/server/dns_proxy_server.cc: queries of local clients go to a default name server over
    UDP or to a trusted one over TLS or HTTPS, and the answers are matched to the clients by the
    transaction id.  The table of pending queries is [g_dns_states]; every entry has a timeout in
    the time wheel.  The bodies of the three loops are operations on one state, cut where a loop
    starts its next turn; UDP sockets are a class of operations. *)

From S2P Require Import Prelude Endian IoBuf TimeWheel Text HttpHelper NetHelper Address Io Connect DnsOptions.

(** [async_send_to] and [async_receive_from] (at most so many bytes). *)
Class UdpSocket (U Ep : Type) := {
  async_send_to : bytes -> Ep -> st U Z;
  async_receive_from : Z -> st U (bytes * Ep * Z)
}.

(** [absl::WebSafeBase64Escape]. *)
Class AbslEscaping := WebSafeBase64Escape : bytes -> bytes.

Record DNSProxyState (Ep : Type) := {
  orig_endpoint : Ep;
  orig_payload : bytes;
  cancel_ns_timeout : nat;
  disable_default_ns : bool;
  disable_trusted_ns : bool
}.
Arguments Build_DNSProxyState {Ep}. Arguments orig_endpoint {Ep}. Arguments orig_payload {Ep}.
Arguments cancel_ns_timeout {Ep}. Arguments disable_default_ns {Ep}. Arguments disable_trusted_ns {Ep}.

(** [g_dns_states], the time wheel, and the sockets of [DNSProxyServer].  [timeout_of] is the id that the
    timeout callback of a task has captured. *)
Record DNSProxy (N Ep U C : Type) := {
  g_dns_states : gmap Z (DNSProxyState Ep);
  dns_wheel : TimeWheel;
  timeout_of : gmap nat Z;
  dns_server : U;
  default_ns : U;
  trusted_ns : option C;
  dns_net : N
}.
Arguments Build_DNSProxy {N Ep U C}. Arguments g_dns_states {N Ep U C}. Arguments dns_wheel {N Ep U C}. Arguments timeout_of {N Ep U C}.
Arguments dns_server {N Ep U C}. Arguments default_ns {N Ep U C}. Arguments trusted_ns {N Ep U C}.
Arguments dns_net {N Ep U C}.

(** What the proxy reads of [DNSOptions]. *)
Record DNSOptions (Ep : Type) := {
  default_ns_endpoint : Ep;
  trusted_ns_tcp_endpoint : Ep;
  trusted_addr : NetAddress;
  trusted_ns_domains : list bytes;
  ip_range_map : range_map
}.
Arguments Build_DNSOptions {Ep}. Arguments default_ns_endpoint {Ep}. Arguments trusted_ns_tcp_endpoint {Ep}.
Arguments trusted_addr {Ep}. Arguments trusted_ns_domains {Ep}. Arguments ip_range_map {Ep}.

(** Conversion to [int]. *)
Definition to_int (z : Z) : Z := if wrap 32 z <? 2 ^ 31 then wrap 32 z else wrap 32 z - 2 ^ 32.

Section dns_proxy.
Context `{Platform} `{AbslStrings} `{AbslEscaping}.
Context {N Ep U C : Type} `{Network N Ep C, UdpSocket U Ep, IOConnection C}.
Abbreviation D := (DNSProxy N Ep U C).

Variables (options : DNSOptions Ep) (timeout_msecs : Z) (name_fuel : nat).

Definition dns_eta (r : D) : D :=
  {| g_dns_states := g_dns_states r; dns_wheel := dns_wheel r; timeout_of := timeout_of r; dns_server := dns_server r;
     default_ns := default_ns r; trusted_ns := trusted_ns r; dns_net := dns_net r |}.
Definition dnsupd (A : Type) : Type := (A -> A) -> D -> D.
Definition set_dns_states : dnsupd (gmap Z (DNSProxyState Ep)) := ltac:(setter dns_eta (@g_dns_states N Ep U C)).
Definition set_dns_wheel : dnsupd TimeWheel := ltac:(setter dns_eta (@dns_wheel N Ep U C)).
Definition set_timeout_of : dnsupd (gmap nat Z) := ltac:(setter dns_eta (@timeout_of N Ep U C)).
Definition set_dns_server : dnsupd U := ltac:(setter dns_eta (@dns_server N Ep U C)).
Definition set_default_ns : dnsupd U := ltac:(setter dns_eta (@default_ns N Ep U C)).
Definition set_trusted_ns : dnsupd (option C) := ltac:(setter dns_eta (@trusted_ns N Ep U C)).
Definition set_dns_net : dnsupd N := ltac:(setter dns_eta (@dns_net N Ep U C)).

(** Operations of the sockets. *)
Definition on_server {A} (m : st U A) : st D A := fun d =>
  let '(u, r) := m (dns_server d) in (set_dns_server (fun _ => u) d, r).
Definition on_default {A} (m : st U A) : st D A := fun d =>
  let '(u, r) := m (default_ns d) in (set_default_ns (fun _ => u) d, r).
Definition on_dns_net {A} (m : st N A) : st D A := fun d =>
  let '(n, r) := m (dns_net d) in (set_dns_net (fun _ => n) d, r).
Definition on_trusted {A} (m : st C A) : st D A := fun d =>
  match trusted_ns d with
  | None => (d, Ub)
  | Some c => let '(c, r) := m c in (set_trusted_ns (fun _ => Some c) d, r)
  end.

(** [memcpy(&txid, p, 2)]. *)
Definition load_txid (buffer : bytes) (off : Z) : res Z :=
  do d <- access (zslice off 2 buffer); Ok (mem_load d).

(** [dns_response]. *)
Definition dns_response (txid : Z) (payload : bytes) : st D unit :=
  let! d := sget in
  match g_dns_states d !! txid with
  | None => sret tt
  | Some state =>
      let! _ := smodify (set_dns_wheel (cancel (cancel_ns_timeout state))) in
      let! _ := smodify (set_dns_states (delete txid)) in
      let! _ := on_server (async_send_to payload (orig_endpoint state)) in
      sret tt
  end.

Definition dot_packet (payload : bytes) : bytes :=
  mem_store 2 (native_to_big 2 (wrap 16 (zlen payload))) ++ payload.

Definition doh_request (payload : bytes) : bytes :=
  bs "GET /" ++ path (trusted_addr options) ++ bs "?dns=" ++ WebSafeBase64Escape payload ++ bs " HTTP/1.1" ++ CRLF ++
  bs "Host: " ++ Address.host (trusted_addr options) ++ CRLF ++
  bs "Accept: application/dns-message" ++ CRLF ++ CRLF.

(** [dns_over_trusted]: the error code. *)
Definition dns_over_trusted (payload : bytes) : st D Z :=
  let! d := sget in
  match trusted_ns d with
  | None => sret 0
  | Some _ =>
      if decide (schema (trusted_addr options) = bs "dot") then
        let! '(wn, wec) := on_trusted (AsyncWrite (dot_packet payload)) in
        if negb (wec =? 0) then sret wec else sret 0
      else if decide (schema (trusted_addr options) = bs "doh") then
        let! '(wn, wec) := on_trusted (AsyncWrite (doh_request payload)) in
        if negb (wec =? 0) then sret wec else sret 0
      else sret 0
  end.

(** [absl::StrContains]. *)
Definition StrContains (s sub : bytes) : bool := match bfind sub s with Some _ => true | None => false end.

(** The callback of a query's timeout. *)
Definition query_timeout (txid : Z) : st D unit := smodify (set_dns_states (delete txid)).

(** What the time wheel runs for the task [p]: a timeout of a query, which has no [get_active_time], or one of
    another component, whose activity is [other]; what the latter's callback does are steps of its own. *)
Definition timer_active (other : nat -> option Z) (p : nat) (d : D) : option Z :=
  match timeout_of d !! p with Some _ => None | None => other p end.
Definition timer_callback (p : nat) (s : TimeWheel * D) : TimeWheel * D :=
  match timeout_of (snd s) !! p with
  | Some txid => (fst s, fst (query_timeout txid (snd s)))
  | None => s
  end.
Definition run_timer (other : nat -> option Z) (now : Z) (p : nat) (d : D) : D :=
  let '((w, d), _) := run_task (timer_active other) timer_callback now p (dns_wheel d, d) in
  set_dns_wheel (fun _ => w) d.

(** [handle_dns_query]; [buffer] is the whole buffer, [now] the time in milliseconds.  [emplace]
    does not replace an entry. *)
Definition handle_dns_query (now : Z) (src_endpoint : Ep) (buffer : bytes) (query_len : Z) : st D Z :=
  let! txid := slift (load_txid buffer 0) in
  let! '(parse_rc, parsed_domain) := slift (dns_parse_name name_fuel buffer 12 query_len) in
  let disable_default :=
    if negb (parse_rc =? 0) then false
    else existsb (StrContains parsed_domain) (trusted_ns_domains options) in
  let! d := sget in
  let '(w, task) := TimeWheel.Add now timeout_msecs (dns_wheel d) in
  let! _ := smodify (set_dns_wheel (fun _ => w)) in
  let! _ := smodify (set_timeout_of (insert task txid)) in
  let! query := slift (access (zslice 0 query_len buffer)) in
  let state := {| orig_endpoint := src_endpoint; orig_payload := if disable_default then [] else query;
                  cancel_ns_timeout := task; disable_default_ns := disable_default; disable_trusted_ns := false |} in
  let! _ := smodify (set_dns_states (fun t => match t !! txid with Some _ => t | None => <[txid := state]> t end)) in
  if negb disable_default then
    let! wec := on_default (async_send_to query (default_ns_endpoint options)) in
    if negb (wec =? 0) then sret wec else sret 0
  else
    let! _ := dns_over_trusted query in sret 0.

(** An answer of the default name server of [n] bytes at the front of [buffer]: whether one of its
    addresses is in the ranges, and what is done with it. *)
Definition matched_iprange (answers : list DNSAnswer) : bool :=
  existsb (fun ans => IsV4 ans && MatchIPRanges (ip_range_map options) (be_val (v4_ip ans))) answers.

Definition default_answer (buffer : bytes) (n : Z) : st D unit :=
  let! txid := slift (load_txid buffer 0) in
  let! '(rc, answers) := slift (dns_parse_answers name_fuel buffer n []) in
  let! payload := slift (access (zslice 0 n buffer)) in
  if (rc =? 0) && negb (matched_iprange answers) then
    let! d := sget in
    match g_dns_states d !! txid with
    | Some state =>
        if negb (disable_trusted_ns state) && negb (bool_decide (orig_payload state = [])) then
          let! _ := dns_over_trusted (orig_payload state) in sret tt
        else dns_response txid payload
    | None => dns_response txid payload
    end
  else dns_response txid payload.

(** One turn of [default_ns_loop]: the buffer is reused. *)
Definition default_ns_turn (buffer : bytes) : st D bytes :=
  let! '(dgram, src, ec) := on_default (async_receive_from kMaxChunkSize) in
  let! buffer := slift (access (zblit 0 dgram buffer)) in
  if ec =? 0 then let! _ := default_answer buffer (zlen dgram) in sret buffer
  else sret buffer.

(** One turn of [server_loop]; the query is handled by a coroutine of its own. *)
Definition server_turn (now : Z) (buffer : bytes) : st D unit :=
  let! '(dgram, endpoint, ec) := on_server (async_receive_from kMaxChunkSize) in
  let! buffer := slift (access (zblit 0 dgram buffer)) in
  if ec =? 0 then let! _ := handle_dns_query now endpoint buffer (zlen dgram) in sret tt
  else sret tt.

(** ** The trusted name server *)

(** Where an answer lies in the buffer: what is missing, its offset, its length and the length of
    all that belongs to it; [None] when more must be read, [Some None] when the server is dropped. *)
Definition frame : Type := Z * Z * Z * Z.

Definition dot_frame (buffer : bytes) (buffer_pos : Z) : res (option (option frame)) :=
  if buffer_pos <? 12 then Ok None
  else
    do b <- access (zslice 0 2 buffer);
    let answer_len := big_to_native 2 (mem_load b) in
    Ok (Some (Some (to_int (answer_len + 2 - buffer_pos), 2, answer_len, answer_len + 2))).

Definition doh_frame (buffer : bytes) (buffer_pos : Z) : res (option (option frame)) :=
  do dns_res_view <- access (zslice 0 buffer_pos buffer);
  match bfind (CRLF ++ CRLF) dns_res_view with
  | None => Ok None
  | Some hend_pos =>
      do headers <- access (zslice 0 hend_pos buffer);
      if negb (StrContains headers (bs "HTTP/1.1 200 OK")) then Ok (Some None)
      else
        match http_get_header headers (bs "Content-Length:") with
        | Ok content_length =>
            match SimpleAtoi content_length with
            | None => Ok (Some None)
            | Some content_len =>
                let expect_len := to_int (hend_pos + 4 + content_len) in
                let answer_len := wrap 16 content_len in
                Ok (Some (Some (to_int (expect_len - buffer_pos), wrap 32 (hend_pos + 4), answer_len,
                                wrap 32 (answer_len + hend_pos + 4))))
            end
        | Err _ => Ok (Some None)
        | Ub => Ub
        | Hang => Hang
        end
  end.

Definition is_trusted_ns_https : bool := bool_decide (schema (trusted_addr options) = bs "doh").

(** The rest of an answer is read to its place; [false] when the server is dropped. *)
Definition read_rest (fuel : nat) (buffer : bytes) (buffer_pos dns_res_rest : Z) : st D (bytes * Z * bool) :=
  if 0 <? dns_res_rest then
    let! '(d, ec) := on_trusted (read_exact fuel dns_res_rest []) in
    let! buffer := slift (access (zblit buffer_pos d buffer)) in
    if negb (ec =? 0) then
      let! _ := smodify (set_trusted_ns (fun _ => None)) in sret (buffer, buffer_pos, false)
    else sret (buffer, buffer_pos + dns_res_rest, true)
  else sret (buffer, buffer_pos, true).

(** The answer is sent to its client and what follows it is moved to the front. *)
Definition deliver (buffer : bytes) (buffer_pos answer_offset answer_len answer_chunk_len : Z) : st D (bytes * Z) :=
  let! txid := slift (load_txid buffer answer_offset) in
  let! payload := slift (access (zslice answer_offset answer_len buffer)) in
  let! _ := dns_response txid payload in
  if answer_chunk_len <? buffer_pos then
    let! rest := slift (access (zslice answer_chunk_len (buffer_pos - answer_chunk_len) buffer)) in
    let! buffer := slift (access (zblit 0 rest buffer)) in
    sret (buffer, buffer_pos - answer_chunk_len)
  else sret (buffer, 0).

(** One turn of [trusted_ns_loop], from the buffer and the count of bytes in it to the same. *)
Definition trusted_ns_turn (fuel : nat) (buffer : bytes) (buffer_pos : Z) : st D (bytes * Z) :=
  let! d := sget in
  let! pos := match trusted_ns d with
    | Some _ => sret (Some buffer_pos)
    | None =>
        let! '(ec, new_tls) := on_dns_net (async_connect (trusted_ns_tcp_endpoint options)) in
        if negb (ec =? 0) then sret None
        else let! _ := smodify (set_trusted_ns (fun _ => Some new_tls)) in sret (Some 0)
    end in
  match pos with
  | None => sret (buffer, buffer_pos)
  | Some buffer_pos =>
      let! '(data, rec) := on_trusted (AsyncRead (zlen buffer - buffer_pos)) in
      let! buffer := slift (access (zblit buffer_pos data buffer)) in
      if negb (rec =? 0) || (zlen data =? 0) then
        let! _ := smodify (set_trusted_ns (fun _ => None)) in sret (buffer, buffer_pos)
      else
        let buffer_pos := buffer_pos + zlen data in
        let! f := slift (if is_trusted_ns_https then doh_frame buffer buffer_pos else dot_frame buffer buffer_pos) in
        match f with
        | None => sret (buffer, buffer_pos)
        | Some None => let! _ := smodify (set_trusted_ns (fun _ => None)) in sret (buffer, buffer_pos)
        | Some (Some (dns_res_rest, answer_offset, answer_len, answer_chunk_len)) =>
            let! '(buffer, buffer_pos, ok) := read_rest fuel buffer buffer_pos dns_res_rest in
            if ok : bool then deliver buffer buffer_pos answer_offset answer_len answer_chunk_len
            else sret (buffer, buffer_pos)
        end
  end.

(** Some turns of the loop. *)
Fixpoint trusted_ns_loop (turns fuel : nat) (buffer : bytes) (buffer_pos : Z) : st D (bytes * Z) :=
  match turns with
  | O => sret (buffer, buffer_pos)
  | S turns =>
      let! '(buffer, buffer_pos) := trusted_ns_turn fuel buffer buffer_pos in
      trusted_ns_loop turns fuel buffer buffer_pos
  end.

End dns_proxy.

(** ** The start *)

(** [start_dns_proxy_server]: the error code, or the options with their endpoints and the server
    whose loops are spawned.  [bind] opens and binds the UDP socket, [w] is the time wheel of the
    process. *)
Definition start_dns_proxy_server {N Ep U C} `{Network N Ep C} (addr default_addr trusted : NetAddress) (domains : list bytes)
    (ranges : range_map) (bind : Ep -> st N (Z * U)) (default : U) (w : TimeWheel)
  : st N (Z + DNSOptions Ep * DNSProxy N Ep U C) :=
  let! i := DNSOptions_Init default_addr trusted in
  match i with
  | inl ec => sret (inl ec)
  | inr (default_ep, _, tcp_ep) =>
      let! e := do_resolve_endpoint (Address.host addr) (Address.port addr) in
      match e with
      | inl resolve_ec => sret (inl resolve_ec)
      | inr endpoint =>
          let! '(ec, server) := bind endpoint in
          if negb (ec =? 0) then sret (inl ec)
          else
            let! '(ec, tls) := async_connect tcp_ep in
            if negb (ec =? 0) then sret (inl ec)
            else
              let! n := sget in
              sret (inr ({| default_ns_endpoint := default_ep; trusted_ns_tcp_endpoint := tcp_ep; trusted_addr := trusted;
                            trusted_ns_domains := domains; ip_range_map := ranges |},
                         {| g_dns_states := ∅; dns_wheel := w; timeout_of := ∅; dns_server := server; default_ns := default;
                            trusted_ns := Some tls; dns_net := n |}))
      end
  end.

(** ** Pending queries *)

(** A UDP socket that sends: what was sent so far. *)
Class UdpSends (U Ep : Type) `{UdpSocket U Ep} := {
  udp_sent : U -> list (bytes * Ep);
  udp_sends : forall b e u, exists u', async_send_to b e u = (u', Ok 0) /\ udp_sent u' = udp_sent u ++ [(b, e)]
}.

Section pending.
Context `{Platform} `{AbslStrings} `{AbslEscaping}.
Context {N Ep U C : Type} `{Network N Ep C, UdpSocket U Ep, IOConnection C}.
Variables (options : DNSOptions Ep) (timeout_msecs : Z) (name_fuel : nat).
Implicit Type d : DNSProxy N Ep U C.

(** The table, the wheel and the captured ids; the socket to the default server. *)
Definition bookkeeping (d : DNSProxy N Ep U C) := (g_dns_states d, dns_wheel d, timeout_of d).

#[export] Instance book_on_server {A} (m : st U A) : Preserves bookkeeping (on_server (N := N) (C := C) (Ep := Ep) m).
Proof. intros d; unfold on_server; by destruct (m (dns_server d)). Qed.
#[export] Instance book_on_default {A} (m : st U A) : Preserves bookkeeping (on_default (N := N) (C := C) (Ep := Ep) m).
Proof. intros d; unfold on_default; by destruct (m (default_ns d)). Qed.
#[export] Instance book_on_trusted {A} (m : st C A) : Preserves bookkeeping (on_trusted (N := N) (U := U) (Ep := Ep) m).
Proof. intros d; unfold on_trusted; destruct (trusted_ns d) as [c|]; [by destruct (m c) | done]. Qed.
#[export] Instance book_over_trusted p : Preserves bookkeeping (dns_over_trusted (N := N) (U := U) (Ep := Ep) options p).
Proof. unfold dns_over_trusted; apply _. Qed.
#[export] Instance default_on_trusted {A} (m : st C A) : Preserves default_ns (on_trusted (N := N) (U := U) (Ep := Ep) m).
Proof. intros d; unfold on_trusted; destruct (trusted_ns d) as [c|]; [by destruct (m c) | done]. Qed.
#[export] Instance server_on_trusted {A} (m : st C A) : Preserves dns_server (on_trusted (N := N) (U := U) (Ep := Ep) m).
Proof. intros d; unfold on_trusted; destruct (trusted_ns d) as [c|]; [by destruct (m c) | done]. Qed.
#[export] Instance states_on_trusted {A} (m : st C A) : Preserves g_dns_states (on_trusted (N := N) (U := U) (Ep := Ep) m).
Proof. intros d; unfold on_trusted; destruct (trusted_ns d) as [c|]; [by destruct (m c) | done]. Qed.
#[export] Instance server_over_trusted p : Preserves dns_server (dns_over_trusted (N := N) (U := U) (Ep := Ep) options p).
Proof. unfold dns_over_trusted; apply _. Qed.
#[export] Instance states_over_trusted p : Preserves g_dns_states (dns_over_trusted (N := N) (U := U) (Ep := Ep) options p).
Proof. unfold dns_over_trusted; apply _. Qed.
#[export] Instance default_over_trusted p : Preserves default_ns (dns_over_trusted (N := N) (U := U) (Ep := Ep) options p).
Proof. unfold dns_over_trusted; apply _. Qed.

(** The timeout of the pending query [txid] is armed: its task waits in a slot of the wheel, or in the [queue]
    of the current run, is not canceled, and its callback erases this query. *)
Definition armed (queue : list nat) (d : DNSProxy N Ep U C) (txid : Z) (p : nat) : Prop :=
  timeout_of d !! p = Some txid /\ (exists t, tasks (dns_wheel d) !! p = Some t /\ canceled t = false) /\
  ((exists i, in_slot i p (dns_wheel d)) \/ p ∈ queue).

Definition timers_ok (queue : list nat) (d : DNSProxy N Ep U C) : Prop :=
  0 < zlen (time_wheel (dns_wheel d)) /\
  forall txid s, g_dns_states d !! txid = Some s -> armed queue d txid (cancel_ns_timeout s).

Lemma timers_ok_book queue d d' : bookkeeping d' = bookkeeping d -> timers_ok queue d -> timers_ok queue d'.
Proof. intros [= E1 E2 E3] Hok; unfold timers_ok, armed; by rewrite E1, E2, E3. Qed.

(** The wheel goes on in a way that does not touch the task [p]. *)
Lemma armed_keeps queue d d' txid p :
  armed queue d txid p -> keeps (dns_wheel d) (dns_wheel d') -> timeout_of d' !! p = timeout_of d !! p ->
  tasks (dns_wheel d') !! p = tasks (dns_wheel d) !! p -> armed queue d' txid p.
Proof.
  intros (Ht & Hc & Hs) Hk E1 E2; unfold armed; rewrite E1, E2; split_and!; try done.
  destruct Hs as [[i Hi]|?]; [left; exists i; by apply (keeps_slots _ _ Hk) | by right].
Qed.

(** The others stay armed when the timeout of an answered query is canceled. *)
Lemma timers_ok_response queue txid payload d d' r :
  dns_response txid payload d = (d', r) -> timers_ok queue d -> timers_ok queue d'.
Proof.
  unfold dns_response; srun; destruct (g_dns_states d !! txid) as [s|] eqn:Es; [|by intros [= <- _]].
  intros Hr Hok; set (d1 := set_dns_states (delete txid) (set_dns_wheel (cancel (cancel_ns_timeout s)) d)) in Hr.
  assert (timers_ok queue d1) as Hok1.
  { destruct Hok as [Hz Hok]; split; [done|]; intros q s' Hs'; cbn in Hs'; apply lookup_delete_Some in Hs' as [Hne Hs'].
    apply (armed_keeps queue d); [by apply Hok | apply cancel_keeps | done|]; cbn; apply lookup_alter_ne; intros Eq.
    destruct (Hok _ _ Es) as [E1 _], (Hok _ _ Hs') as [E2 _]; congruence. }
  destruct (on_server (async_send_to payload (orig_endpoint s)) d1) as [d2 o] eqn:Eo.
  apply (preserves_eq bookkeeping) in Eo; [|apply _].
  apply (timers_ok_book _ _ _ Eo) in Hok1; by destruct o; injection Hr as <- _.
Qed.

(** A new timeout is armed and leaves the others so. *)
Lemma armed_Add queue now timeout d txid w task :
  TimeWheel.Add now timeout (dns_wheel d) = (w, task) -> timers_ok queue d ->
  let d1 := set_timeout_of (insert task txid) (set_dns_wheel (fun _ => w) d) in
  armed queue d1 txid task /\ timers_ok queue d1.
Proof.
  intros Ea [Hz Hok] d1; pose proof (Add_keeps now timeout (dns_wheel d)) as Hk; rewrite Ea in Hk.
  unfold TimeWheel.Add in Ea; injection Ea as Ew Etask; cbn [fst] in Hk.
  assert (tasks (dns_wheel d) !! task = None) as Hnew by (rewrite <- Etask; apply not_elem_of_dom, is_fresh).
  split; [split; [|split]|split].
  - cbn; apply lookup_insert_eq.
  - cbn; rewrite <- Ew, Etask; cbn; rewrite lookup_insert_eq; eauto.
  - left; cbn; rewrite <- Ew, Etask; eexists; apply enqueue_in; by apply (idx_range _ (dns_wheel d)).
  - cbn; by rewrite (keeps_size _ _ Hk).
  - intros q s Hs; destruct (Hok q s Hs) as (E1 & (t & E2 & E3) & _).
    assert (cancel_ns_timeout s <> task) as Hne by congruence.
    apply (armed_keeps queue d); [by apply Hok | done | by cbn; rewrite lookup_insert_ne|].
    cbn; rewrite <- Ew, Etask; cbn; by rewrite lookup_insert_ne.
Qed.

Lemma timers_ok_query queue now src buffer n d d' r :
  handle_dns_query options timeout_msecs name_fuel now src buffer n d = (d', r) -> timers_ok queue d -> timers_ok queue d'.
Proof.
  unfold handle_dns_query; intros Hr Hok; unfold sbind at 1, slift at 1 in Hr.
  destruct (load_txid buffer 0) as [txid| | |]; try by injection Hr as <- _.
  unfold sbind at 1, slift at 1 in Hr.
  destruct (dns_parse_name name_fuel buffer 12 n) as [[rc dom]| | |]; try by injection Hr as <- _.
  unfold sbind at 1, sget in Hr; cbv beta iota in Hr.
  destruct (TimeWheel.Add now timeout_msecs (dns_wheel d)) as [w task] eqn:Ea; set (dis := if negb _ then _ else _) in Hr.
  unfold sbind at 1 2, smodify at 1 2 in Hr; destruct (armed_Add queue now timeout_msecs d txid w task Ea Hok) as [Harm Hok1].
  set (d1 := set_timeout_of _ _) in *.
  unfold sbind at 1, slift at 1 in Hr; destruct (zslice 0 n buffer) as [query|]; [|by injection Hr as <- _].
  cbn [access] in Hr; unfold sbind at 1, smodify in Hr.
  match type of Hr with (if _ then ?m1 else ?m2) ?d2 = _ => set (d2' := d2) in Hr;
    assert (Preserves bookkeeping m1) as Hp1 by apply _; assert (Preserves bookkeeping m2) as Hp2 by apply _ end.
  assert (timers_ok queue d2') as Hok2.
  { destruct Hok1 as [Hz Hok1]; split; [exact Hz|]; intros q s; unfold d2'; cbn [g_dns_states set_dns_states].
    destruct (g_dns_states d1 !! txid) as [s0|] eqn:E0; [apply Hok1|].
    intros [[<- <-]|[Hne Hs]]%lookup_insert_Some; [exact Harm | exact (Hok1 q s Hs)]. }
  eapply timers_ok_book; [|exact Hok2].
  destruct (negb dis); by apply (preserves_eq bookkeeping _) in Hr.
Qed.

#[export] Instance timers_preserved queue {A} (m : st (DNSProxy N Ep U C) A) : Preserves bookkeeping m -> Maintains (timers_ok queue) m | 10.
Proof. intros Hp d; by apply timers_ok_book. Qed.
#[export] Instance timers_response queue txid p : Maintains (timers_ok queue) (dns_response (N := N) (C := C) txid p) | 0.
Proof. intros d Hd; destruct (dns_response txid p d) as [d' r] eqn:Ed; by eapply timers_ok_response. Qed.
#[export] Instance timers_net {A} (m : st N A) : Preserves bookkeeping (on_dns_net (C := C) (U := U) (Ep := Ep) m).
Proof. intros d; unfold on_dns_net; by destruct (m (dns_net d)). Qed.
#[export] Instance timers_set_trusted g : Preserves bookkeeping (smodify (set_trusted_ns (N := N) (U := U) (Ep := Ep) (C := C) g)).
Proof. by apply preserves_smodify. Qed.
#[export] Instance timers_default_answer queue buf n :
  Maintains (timers_ok queue) (default_answer (N := N) (C := C) options name_fuel buf n).
Proof. unfold default_answer; apply _. Qed.
#[export] Instance timers_trusted_turn queue fuel buf pos :
  Maintains (timers_ok queue) (trusted_ns_turn (N := N) (U := U) options fuel buf pos).
Proof.
  unfold trusted_ns_turn, read_rest, deliver; repeat (apply _ || apply maintains_sbind || intros [] || intros ?); apply _.
Qed.

(** The timeout of a pending query when its turn in a run of the wheel comes: it waits again, or the query
    is erased. *)
Lemma timers_ok_task queue other now p d : timers_ok (p :: queue) d -> timers_ok queue (run_timer other now p d).
Proof.
  intros [Hz Hok]; unfold run_timer; cbn [run_task]; destruct (tasks (dns_wheel d) !! p) as [t|] eqn:Et.
  - destruct (canceled t) eqn:Ec; [|destruct (due _ _ _ _ _)].
    + split; [done|]; intros q s Hs; destruct (Hok q s Hs) as (E1 & (t' & E2 & E3) & [?|[Hp|?]%elem_of_cons]); split_and!; eauto.
      cbn in Hp; rewrite Hp in E2; congruence.
    + unfold timer_callback; cbn [fst snd]; destruct (timeout_of d !! p) as [txid|] eqn:Etx.
      * split; [done|]; intros q s Hs; cbn in Hs; apply lookup_delete_Some in Hs as [Hne Hs]; destruct (Hok q s Hs) as (E1 & E2 & [?|[Hp|?]%elem_of_cons]); split_and!; eauto.
        rewrite Hp in E1; congruence.
      * split; [done|]; intros q s Hs; destruct (Hok q s Hs) as (E1 & E2 & [?|[Hp|?]%elem_of_cons]); split_and!; eauto.
        rewrite Hp in E1; congruence.
    + set (i := GetIdxByMillsecs _ _); split; [by cbn; unfold zlen in *; rewrite length_alter|]; intros q s Hs; cbn in Hs.
      destruct (Hok q s Hs) as (E1 & E2 & E3); split; [done|]; split; [done|]; cbn [dns_wheel set_dns_wheel].
      destruct E3 as [[j Hj]|[->|?]%elem_of_cons]; [left; exists j; by apply (keeps_slots _ _ (enqueue_keeps i p _)) | | by right].
      left; exists i; by apply enqueue_in, idx_range.
  - split; [done|]; intros q s Hs; destruct (Hok q s Hs) as (E1 & (t' & E2 & E3) & [?|[Hp|?]%elem_of_cons]); split_and!; eauto.
    cbn in Hp; rewrite Hp in E2; congruence.
Qed.

(** What happens to the pending queries in the course of time: queries and answers, what other components
    do to the time wheel, and its runs, task by task, with the time they began with and the tasks of the
    moved queue that are left. *)
Inductive dns_step : DNSProxy N Ep U C * (Z * list nat) -> DNSProxy N Ep U C * (Z * list nat) -> Prop :=
| step_query now src buf n d d' r run :
    handle_dns_query options timeout_msecs name_fuel now src buf n d = (d', r) -> dns_step (d, run) (d', run)
| step_default buf n d d' r run : default_answer options name_fuel buf n d = (d', r) -> dns_step (d, run) (d', run)
| step_trusted fuel buf pos d d' r run : trusted_ns_turn options fuel buf pos d = (d', r) -> dns_step (d, run) (d', run)
| step_others w d run :
    keeps (dns_wheel d) w -> (forall p, is_Some (timeout_of d !! p) -> tasks w !! p = tasks (dns_wheel d) !! p) ->
    dns_step (d, run) (set_dns_wheel (fun _ => w) d, run)
| step_wheel_turn now now0 w queue d :
    take_slot now (dns_wheel d) = (w, queue) -> dns_step (d, (now0, [])) (set_dns_wheel (fun _ => w) d, (now, queue))
| step_wheel_task other now p queue d : dns_step (d, (now, p :: queue)) (run_timer other now p d, (now, queue)).

Lemma timers_ok_turn now w queue d :
  take_slot now (dns_wheel d) = (w, queue) -> timers_ok [] d -> timers_ok queue (set_dns_wheel (fun _ => w) d).
Proof.
  intros [= <- <-] [Hz Hok]; split; [by cbn; unfold zlen in *; rewrite length_insert|].
  intros q s Hs; destruct (Hok q s Hs) as (E1 & E2 & [(i & l & Hl & Hp)|Hn%not_elem_of_nil]); [|done].
  split; [done|]; split; [done|]; unfold in_slot; cbn; destruct (decide (i = GetIdxByMillsecs now (dns_wheel d))) as [->|Hne].
  - right; by rewrite Hl.
  - left; exists i, l; by rewrite list_lookup_insert_ne.
Qed.

(** C23. Every pending query has an armed timeout.  Whatever clients and servers send, and in whatever order
    queries, answers, runs of the time wheel and steps of other users of the wheel come, each pending query
    has a task of its own, not canceled, that waits in a slot of the wheel or in the queue of the current
    run and whose callback erases this very query; and when the turn of this task comes and it is due, the
    query is erased. *)
Theorem pending_queries_time_out d run0 d' now queue :
  g_dns_states d = ∅ -> 0 < zlen (time_wheel (dns_wheel d)) -> rtc dns_step (d, run0) (d', (now, queue)) ->
  forall txid s, g_dns_states d' !! txid = Some s ->
    armed queue d' txid (cancel_ns_timeout s) /\
    forall other now' t, tasks (dns_wheel d') !! cancel_ns_timeout s = Some t -> fits 64 now' ->
      0 <= create_time t <= now' -> TimeWheel.timeout_msecs t < now' - create_time t ->
      g_dns_states (run_timer other now' (cancel_ns_timeout s) d') !! txid = None.
Proof.
  intros Hd Hz Hr txid s Hs; assert (timers_ok run0.2 d) as Hok by (split; [done | rewrite Hd; by intros ? ?; rewrite lookup_empty]).
  assert (timers_ok queue d') as [_ Hok'].
  { clear Hd Hz Hs; remember (d, run0) as x eqn:Ex; remember (d', (now, queue)) as y eqn:Ey; revert d run0 Ex Hok.
    induction Hr as [x|x y z Hst _ IH]; intros d run0 -> Hok; [by simplify_eq|]; destruct y as [d1 run1].
    apply (IH Ey d1 run1 eq_refl); inversion Hst; subst; cbn [snd] in *.
    - by eapply timers_ok_query.
    - match goal with E : default_answer _ _ _ _ _ = _ |- _ => by apply (maintains_inv (timers_ok run1.2) _) in E end.
    - match goal with E : trusted_ns_turn _ _ _ _ _ = _ |- _ => by apply (maintains_inv (timers_ok run1.2) _) in E end.
    - destruct Hok as [Hz Hok]; split; [cbn; by erewrite keeps_size by done|]; intros q s' Hs'.
      apply (armed_keeps _ d); [by apply Hok | done | done|]; cbn; destruct (Hok q s' Hs') as (E1 & _); eauto.
    - by eapply timers_ok_turn.
    - by apply timers_ok_task. }
  destruct (Hok' txid s Hs) as (E1 & (t0 & E2 & E3) & E4); split; [by split_and!; eauto|].
  intros other now' t Ht Hn Hc Hdue; rewrite E2 in Ht; injection Ht as <-.
  unfold run_timer; cbn [run_task]; rewrite E2, E3; unfold due, active_time, timer_active; rewrite E1; cbn [default].
  rewrite wrap_small by (unfold fits in *; lia); bool_true (TimeWheel.timeout_msecs t0 <? now' - create_time t0).
  unfold timer_callback; cbn [fst snd]; rewrite E1; cbn; apply lookup_delete_eq.
Qed.

End pending.

(** ** Answers *)

Section answers.
Context `{Platform, !PlatformOk} `{AbslStrings} `{AbslEscaping}.
Context {N Ep U C : Type} `{Network N Ep C, UdpSocket U Ep, !UdpSends U Ep, IOConnection C, !StreamView C, !ByteStream C}.
Variables (options : DNSOptions Ep) (timeout_msecs : Z) (name_fuel : nat).
Implicit Type d : DNSProxy N Ep U C.

Lemma dns_response_known txid payload d s :
  g_dns_states d !! txid = Some s ->
  exists d', dns_response txid payload d = (d', Ok tt) /\ g_dns_states d' = delete txid (g_dns_states d) /\
    udp_sent (dns_server d') = udp_sent (dns_server d) ++ [(payload, orig_endpoint s)] /\
    dns_wheel d' = cancel (cancel_ns_timeout s) (dns_wheel d) /\ trusted_ns d' = trusted_ns d /\
    default_ns d' = default_ns d.
Proof.
  intros Hs; unfold dns_response, on_server; srun; rewrite Hs; cbn [dns_server set_dns_states set_dns_wheel].
  destruct (udp_sends payload (orig_endpoint s) (dns_server d)) as (u' & -> & Hu); eexists; split; [done|].
  by split_and!.
Qed.

(** The entry a query that is not for the trusted server makes, and where it is sent. *)
Lemma query_default now src buffer n query txid dom rc d :
  load_txid buffer 0 = Ok txid -> dns_parse_name name_fuel buffer 12 n = Ok (rc, dom) ->
  zslice 0 n buffer = Some query ->
  (rc <> 0 \/ existsb (StrContains dom) (trusted_ns_domains options) = false) ->
  exists d' task, handle_dns_query options timeout_msecs name_fuel now src buffer n d = (d', Ok 0) /\
    g_dns_states d' = (match g_dns_states d !! txid with Some _ => g_dns_states d | None =>
      <[txid := {| orig_endpoint := src; orig_payload := query; cancel_ns_timeout := task;
                   disable_default_ns := false; disable_trusted_ns := false |}]> (g_dns_states d) end) /\
    udp_sent (default_ns d') = udp_sent (default_ns d) ++ [(query, default_ns_endpoint options)] /\
    dns_server d' = dns_server d /\ trusted_ns d' = trusted_ns d.
Proof.
  intros Ht Hp Hz Hd; unfold handle_dns_query; srun; rewrite Ht, Hp.
  set (dis := if negb _ then _ else _); assert (dis = false) as Hdis.
  { unfold dis; destruct (Z.eqb_spec rc 0); cbn [negb]; [|done]; by destruct Hd. }
  rewrite Hdis; clearbody dis; destruct (TimeWheel.Add now timeout_msecs (dns_wheel d)) as [w task] eqn:Ew.
  rewrite Hz; cbn [negb]; unfold on_default; cbn [default_ns set_dns_states set_dns_wheel set_timeout_of].
  destruct (udp_sends query (default_ns_endpoint options) (default_ns d)) as (u' & -> & Hu).
  cbn [Z.eqb negb]; eexists _, task; split; [done|]; by split_and!.
Qed.

(** C21. A query and its answer.  A query for a name outside the trusted domains, or with no name that can be
    read, whose id is not pending, is sent unchanged to the default server; when that answers with an address in the ranges, the client that asked, and no other,
    gets the answer unchanged and the query is no longer pending. *)
Theorem query_answered_to_its_client now src buffer n query txid dom rc d buffer' n' answer answers :
  load_txid buffer 0 = Ok txid -> dns_parse_name name_fuel buffer 12 n = Ok (rc, dom) ->
  zslice 0 n buffer = Some query ->
  (rc <> 0 \/ existsb (StrContains dom) (trusted_ns_domains options) = false) ->
  g_dns_states d !! txid = None ->
  load_txid buffer' 0 = Ok txid -> dns_parse_answers name_fuel buffer' n' [] = Ok (0, answers) ->
  matched_iprange options answers = true -> zslice 0 n' buffer' = Some answer ->
  exists d1 d2, handle_dns_query options timeout_msecs name_fuel now src buffer n d = (d1, Ok 0) /\
    udp_sent (default_ns d1) = udp_sent (default_ns d) ++ [(query, default_ns_endpoint options)] /\
    default_answer options name_fuel buffer' n' d1 = (d2, Ok tt) /\
    udp_sent (dns_server d2) = udp_sent (dns_server d) ++ [(answer, src)] /\
    g_dns_states d2 = g_dns_states d.
Proof.
  intros Ht Hp Hz Hd Hnew Ht' Ha Hm Hz'.
  destruct (query_default now src buffer n query txid dom rc d Ht Hp Hz Hd) as (d1 & task & Eq & Hs1 & Hsent & Hsrv & _).
  rewrite Hnew in Hs1; destruct (dns_response_known txid answer d1 {| orig_endpoint := src; orig_payload := query;
    cancel_ns_timeout := task; disable_default_ns := false; disable_trusted_ns := false |})
    as (d2 & Er & Hs2 & Hsent2 & _); [by rewrite Hs1, lookup_insert_eq|].
  exists d1, d2; split; [done|]; split; [done|]; split.
  - unfold default_answer; srun; rewrite Ht', Ha, Hz', Hm; exact Er.
  - split; [by rewrite Hsent2, Hsrv|]; rewrite Hs2, Hs1, delete_insert_id; done.
Qed.

(** Two clients that use the same id at the same time.  The second query does not get an entry of
    its own: the answer goes to the first client, and the second one gets none. *)
Theorem colliding_query_never_answered now src buffer n query txid dom rc d s payload :
  load_txid buffer 0 = Ok txid -> dns_parse_name name_fuel buffer 12 n = Ok (rc, dom) ->
  zslice 0 n buffer = Some query ->
  (rc <> 0 \/ existsb (StrContains dom) (trusted_ns_domains options) = false) ->
  g_dns_states d !! txid = Some s ->
  exists d1 d2 d3, handle_dns_query options timeout_msecs name_fuel now src buffer n d = (d1, Ok 0) /\
    dns_response txid payload d1 = (d2, Ok tt) /\
    udp_sent (dns_server d2) = udp_sent (dns_server d) ++ [(payload, orig_endpoint s)] /\
    dns_response txid payload d2 = (d3, Ok tt) /\ dns_server d3 = dns_server d2.
Proof.
  intros Ht Hp Hz Hd Hs.
  destruct (query_default now src buffer n query txid dom rc d Ht Hp Hz Hd) as (d1 & task & Eq & Hs1 & _ & Hsrv & _).
  rewrite Hs in Hs1; destruct (dns_response_known txid payload d1 s) as (d2 & Er & Hs2 & Hsent & _); [by rewrite Hs1|].
  exists d1, d2, d2; split; [done|]; split; [done|]; split; [by rewrite Hsent, Hsrv|]; split; [|done].
  unfold dns_response; srun; by rewrite Hs2, lookup_delete_eq.
Qed.

(** What the trusted server is sent for a query. *)
Definition over_trusted (query : bytes) : bytes :=
  if decide (schema (trusted_addr options) = bs "dot") then be_bytes 2 (zlen query) ++ query
  else if decide (schema (trusted_addr options) = bs "doh") then doh_request options query else [].

Lemma dns_over_trusted_live query d c :
  trusted_ns d = Some c -> live c -> zlen query < 2 ^ 16 ->
  exists c', dns_over_trusted options query d = (set_trusted_ns (fun _ => Some c') d, Ok 0) /\ tx c' = tx c ++ over_trusted query.
Proof.
  intros Hc Hl Hq; unfold dns_over_trusted, over_trusted; srun; rewrite Hc; pose proof (zlen_nonneg query).
  assert (dot_packet query = be_bytes 2 (zlen query) ++ query) as Epk.
  { unfold dot_packet, native_to_big; rewrite wrap_small by (unfold fits; lia).
    by rewrite ghton_network by (unfold fits; cbn; lia). }
  repeat case_decide.
  - unfold on_trusted; rewrite Hc; destruct (stream_write (dot_packet query) c Hl) as (c' & -> & Htx & _).
    exists c'; by rewrite Htx, Epk.
  - unfold on_trusted; rewrite Hc; destruct (stream_write (doh_request options query) c Hl) as (c' & -> & Htx & _).
    exists c'; by rewrite Htx.
  - exists c; rewrite app_nil_r; split; [|done]; do 2 f_equal; by destruct d; cbn in *; subst.
Qed.

(** C24. A name of a trusted domain.  Nothing is sent to the default server, whatever the trusted server's
    scheme is, whether there is a connection to it or not, and whatever becomes of the write; the entry the
    query makes says so too.  Over a live connection the trusted server is sent exactly the query: behind
    its length in network order over TLS, in a request over HTTPS.  Without a connection nobody is. *)
Theorem trusted_domain_not_leaked now src buffer n query txid dom d :
  load_txid buffer 0 = Ok txid -> dns_parse_name name_fuel buffer 12 n = Ok (0, dom) ->
  zslice 0 n buffer = Some query -> existsb (StrContains dom) (trusted_ns_domains options) = true ->
  let '(d', r) := handle_dns_query options timeout_msecs name_fuel now src buffer n d in
  default_ns d' = default_ns d /\ dns_server d' = dns_server d /\
  (g_dns_states d !! txid = None -> exists s, g_dns_states d' !! txid = Some s /\
     orig_endpoint s = src /\ disable_default_ns s = true /\ orig_payload s = []) /\
  match trusted_ns d with
  | None => r = Ok 0 /\ trusted_ns d' = None
  | Some c => live c -> zlen query < 2 ^ 16 ->
      r = Ok 0 /\ exists c', trusted_ns d' = Some c' /\ tx c' = tx c ++ over_trusted query
  end.
Proof.
  intros Ht Hp Hz Hdom; unfold handle_dns_query; srun; rewrite Ht, Hp; cbn [negb Z.eqb]; rewrite Hdom.
  destruct (TimeWheel.Add now timeout_msecs (dns_wheel d)) as [w task]; rewrite Hz; cbn [negb].
  set (d1 := set_dns_states _ _); assert (trusted_ns d1 = trusted_ns d) as Htr by done.
  assert (forall d2 r, dns_over_trusted options query d1 = (d2, r) ->
    default_ns d2 = default_ns d1 /\ dns_server d2 = dns_server d1 /\ g_dns_states d2 = g_dns_states d1) as Hkeep.
  { intros d2 r E; split_and!;
      [apply (preserves_eq default_ns) in E | apply (preserves_eq dns_server) in E | apply (preserves_eq g_dns_states) in E]; done || apply _. }
  destruct (dns_over_trusted options query d1) as [d2 r] eqn:E; destruct (Hkeep d2 r eq_refl) as (Hdef & Hsrv & Hst).
  assert (match r with Ok _ => (d2, Ok 0) | Err e => (d2, Err e) | Ub => (d2, Ub) | Hang => (d2, Hang) end =
    (d2, rbind r (fun _ => Ok 0))) as Er by (by destruct r).
  match goal with |- let '(_, _) := ?x in _ => change x with (match r with Ok _ => (d2, Ok 0) | Err e => (d2, Err e) | Ub => (d2, Ub) | Hang => (d2, Hang) end) end.
  rewrite Er; split; [by rewrite Hdef|]; split; [by rewrite Hsrv|]; split.
  - intros Hn; rewrite Hst; unfold d1; cbn; rewrite Hn, lookup_insert_eq; eexists; by split_and!.
  - destruct (trusted_ns d) as [c|] eqn:Ec.
    + intros Hl Hq; destruct (dns_over_trusted_live query d1 c Htr Hl Hq) as (c' & E' & Htx).
      rewrite E in E'; injection E' as -> ->; split; [done|]; by exists c'.
    + unfold dns_over_trusted in E; revert E; srun; rewrite Htr; by intros [= <- <-].
Qed.

End answers.

(** ** Answers over TLS *)

(** A part of what is at the front of a buffer. *)
Lemma zslice_front (buf a m b : bytes) k : ztake k buf = a ++ m ++ b -> zslice (zlen a) (zlen m) buf = Some m.
Proof.
  intros E; rewrite <- (ztake_drop k buf), E, <- !app_assoc; by apply zslice_app.
Qed.

Lemma ztake_blit pos (d buf r : bytes) :
  zblit pos d buf = Some r -> ztake (pos + zlen d) r = ztake pos buf ++ d /\ zlen r = zlen buf.
Proof.
  intros (Hb1 & Hb2 & Hl & ->)%zblit_inv; split; [|done]; rewrite app_assoc; apply ztake_app_exact.
  rewrite zlen_app, zlen_take; [done|]; pose proof (zlen_nonneg d); lia.
Qed.

Section over_tls.
Context `{Platform, !PlatformOk} `{AbslStrings} `{AbslEscaping}.
Context {N Ep U C : Type} `{Network N Ep C, UdpSocket U Ep, !UdpSends U Ep, IOConnection C, !StreamView C, !ByteStream C}.
Variables (options : DNSOptions Ep) (timeout_msecs : Z) (name_fuel : nat).
Implicit Type d : DNSProxy N Ep U C.
Hypothesis dot : schema (trusted_addr options) = bs "dot".

Lemma to_int_small z : - 2 ^ 31 <= z < 2 ^ 31 -> to_int z = z.
Proof.
  intros Hz; unfold to_int, wrap; destruct (Z.lt_ge_cases z 0).
  - rewrite <- (Z.mod_unique_pos z (2 ^ 32) (-1) (z + 2 ^ 32)) by lia; bool_false (z + 2 ^ 32 <? 2 ^ 31); lia.
  - rewrite Z.mod_small by lia; by bool_true (z <? 2 ^ 31).
Qed.

Lemma dot_not_https : is_trusted_ns_https options = false.
Proof. unfold is_trusted_ns_https; rewrite dot; apply bool_decide_false; discriminate. Qed.

Lemma dot_frame_spec buffer pos n (l : bytes) :
  ztake pos buffer = be_bytes 2 n ++ l -> 12 <= pos <= zlen buffer -> zlen buffer < 2 ^ 31 -> fits 16 n ->
  dot_frame buffer pos = Ok (Some (Some (n + 2 - pos, 2, n, n + 2))).
Proof.
  intros E Hp Hb Hn; unfold dot_frame; bool_false (pos <? 12).
  pose proof (zslice_front buffer [] (be_bytes 2 n) l pos E) as Ez; rewrite zlen_be_bytes in Ez.
  change (zslice 0 2 buffer = Some (be_bytes 2 n)) in Ez; rewrite Ez; cbn [access rbind].
  unfold big_to_native; rewrite gntoh_network by (apply is_bytes_be_bytes || done).
  rewrite be_val_be_bytes by done; rewrite to_int_small by (unfold fits in Hn; lia); done.
Qed.

(** The end of a turn: the answer is at the front, behind its length. *)
Lemma deliver_spec buffer pos n msg rest d s :
  ztake pos buffer = be_bytes 2 n ++ msg ++ rest -> 0 <= pos <= zlen buffer -> zlen msg = n -> 2 <= n ->
  g_dns_states d !! mem_load (ztake 2 msg) = Some s ->
  exists d' buffer' pos', deliver buffer pos 2 n (n + 2) d = (d', Ok (buffer', pos')) /\
    udp_sent (dns_server d') = udp_sent (dns_server d) ++ [(msg, orig_endpoint s)] /\
    trusted_ns d' = trusted_ns d /\ 0 <= pos' <= zlen buffer' /\ zlen buffer' = zlen buffer /\ ztake pos' buffer' = rest.
Proof.
  intros E Hp Hm Hn Hs; unfold deliver, load_txid; srun.
  assert (zlen (be_bytes 2 n) = 2) as Hb2 by apply zlen_be_bytes.
  assert (pos = 2 + n + zlen rest) as Hpos.
  { apply (f_equal zlen) in E; rewrite zlen_take, !zlen_app, Hb2, Hm in E by lia; lia. }
  pose proof E as E0; rewrite <- (ztake_drop 2 msg), <- !app_assoc in E0.
  assert (zlen (ztake 2 msg) = 2) as Hb2' by (apply zlen_take; lia).
  pose proof (zslice_front _ _ _ _ _ E0) as Et; rewrite Hb2, Hb2' in Et; rewrite Et; cbn [access rbind].
  pose proof (zslice_front _ _ _ _ _ E) as Em; rewrite Hb2, Hm in Em; rewrite Em.
  destruct (dns_response_known (mem_load (ztake 2 msg)) msg d s Hs) as (d' & -> & _ & Hsent & _ & Htr & _).
  pose proof (zlen_nonneg rest); destruct (Z.ltb_spec (n + 2) pos).
  - rewrite app_assoc, <- (app_nil_r rest) in E; pose proof (zslice_front _ _ _ _ _ E) as Er.
    rewrite zlen_app, Hb2, Hm in Er; replace (pos - (n + 2)) with (zlen rest) by lia; rewrite (Z.add_comm n 2), Er.
    rewrite zblit_head by lia; eexists _, _, _; split; [done|]; split; [done|]; split; [done|].
    rewrite zlen_app, zlen_drop by lia; split; [lia|]; split; [lia|]; by apply ztake_app_exact.
  - assert (rest = []) as -> by (apply zlen_zero; lia); eexists _, buffer, 0; split; [done|].
    split; [done|]; split; [done|]; split; [lia | by split].
Qed.

(** C22. An answer of the trusted server over DNS over TLS (the scheme [dot]; not over HTTPS).  In whatever pieces an answer that fits the buffer arrives, the
    turn that has at least its first twelve bytes completes it, sends exactly the message to the
    client whose query has its id, stays within the buffer, and leaves exactly what follows the
    answer in the stream to be read next. *)
Theorem dot_answer_delivered fuel d c c1 data buffer pos msg rest s :
  trusted_ns d = Some c -> 0 <= pos -> pos + zlen data <= zlen buffer -> zlen buffer < 2 ^ 31 ->
  AsyncRead (zlen buffer - pos) c = (c1, Ok (data, 0)) -> data <> [] -> live c1 -> 12 <= pos + zlen data ->
  ztake pos buffer ++ data ++ rx c1 = be_bytes 2 (zlen msg) ++ msg ++ rest ->
  2 <= zlen msg < 2 ^ 16 -> zlen msg + 2 <= zlen buffer ->
  g_dns_states d !! mem_load (ztake 2 msg) = Some s -> (Z.to_nat (zlen msg) <= fuel)%nat ->
  exists d' c' buffer' pos', trusted_ns_turn options fuel buffer pos d = (d', Ok (buffer', pos')) /\
    udp_sent (dns_server d') = udp_sent (dns_server d) ++ [(msg, orig_endpoint s)] /\
    trusted_ns d' = Some c' /\ live c' /\ zlen buffer' = zlen buffer /\ 0 <= pos' <= zlen buffer' /\
    ztake pos' buffer' ++ rx c' = rest.
Proof.
  intros Hc Hp Hcap Hb Hread Hd Hl H12 Hall Hm Hfit Hs Hfuel; unfold trusted_ns_turn; srun; rewrite Hc; cbn [sret].
  unfold on_trusted at 1; rewrite Hc, Hread; rewrite zblit_Some by lia.
  destruct (zblit pos data buffer) as [b1|] eqn:Eb; [|rewrite zblit_Some in Eb by lia; done].
  destruct (ztake_blit _ _ _ _ Eb) as [Htk Hlb]; rewrite zblit_Some in Eb by lia; injection Eb as ->.
  apply zlen_pos in Hd as Hd'; bool_false (zlen data =? 0); cbn [negb Z.eqb orb].
  rewrite (app_assoc (ztake pos buffer)), <- Htk in Hall; set (P := pos + zlen data) in *; rewrite dot_not_https.
  set (n := zlen msg) in *; assert (zlen (be_bytes 2 n) = 2) as Hb2 by apply zlen_be_bytes.
  assert (zlen (ztake P b1) = P) as HP by (apply zlen_take; lia).
  rewrite app_assoc in Hall; destruct (app_eq_inv _ _ _ _ Hall) as [(k & Ek & Hrest)|(k & Ek & Hrest)].
  - rewrite <- app_assoc in Ek.
    rewrite (dot_frame_spec b1 P n (msg ++ k)) by (done || unfold fits; lia); unfold read_rest; srun.
    apply (f_equal zlen) in Ek as Ez; rewrite HP, !zlen_app, Hb2 in Ez; fold n in Ez; pose proof (zlen_nonneg k).
    bool_false (0 <? n + 2 - P).
    destruct (deliver_spec b1 P n msg k (set_trusted_ns (fun _ => Some c1) d) s)
      as (d' & b' & p' & -> & Hsent & Htr & Hp' & Hlb' & Htk'); [done | lia | done | lia | done |].
    exists d', c1, b', p'; rewrite Htk', Hrest; split_and!; try done; lia.
  - assert (exists l, ztake P b1 = be_bytes 2 n ++ l /\ msg = l ++ k) as (l & El & Emsg).
    { destruct (app_eq_inv _ _ _ _ Ek) as [(l & E1 & E2)|(l & E1 & E2)]; [|by exists l].
      exfalso; apply (f_equal zlen) in E1; rewrite zlen_app, Hb2, HP in E1; pose proof (zlen_nonneg l); lia. }
    rewrite (dot_frame_spec b1 P n l) by (done || unfold fits; lia); unfold read_rest; srun.
    assert (zlen k = n + 2 - P) as Hk.
    { apply (f_equal zlen) in Ek; rewrite !zlen_app, Hb2, HP in Ek; fold n in Ek; lia. }
    destruct (Z.ltb_spec 0 (n + 2 - P)).
    + unfold on_trusted; cbn [trusted_ns set_trusted_ns]; rewrite <- Hk.
      destruct (read_exact_spec fuel (zlen k) [] c1) as (c2 & -> & Hrx2 & _ & Hl2); [done | rewrite Hrest; zlen_solve | lia|].
      rewrite Hrest, ztake_app_exact, zdrop_app_exact in * by done; cbn [app].
      destruct (zblit P k b1) as [b2|] eqn:Eb2; [|rewrite zblit_Some in Eb2 by lia; done].
      destruct (ztake_blit _ _ _ _ Eb2) as [Htk2 Hlb2]; cbn [negb Z.eqb].
      destruct (deliver_spec b2 (P + zlen k) n msg [] (set_trusted_ns (fun _ => Some c2) (set_trusted_ns (fun _ => Some c1) d)) s)
        as (d' & b' & p' & -> & Hsent & Htr & Hp' & Hlb' & Htk');
        [by rewrite Htk2, app_nil_r, <- Ek | lia | done | lia | done |].
      exists d', c2, b', p'; rewrite Htk', Hrx2; split_and!; try done; lia.
    + assert (k = []) as -> by (apply zlen_zero; pose proof (zlen_nonneg k); lia); rewrite app_nil_r in Ek, Emsg.
      destruct (deliver_spec b1 P n msg [] (set_trusted_ns (fun _ => Some c1) d) s)
        as (d' & b' & p' & -> & Hsent & Htr & Hp' & Hlb' & Htk'); [by rewrite app_nil_r | lia | done | lia | done |].
      exists d', c1, b', p'; rewrite Htk', Hrest; split_and!; try done; lia.
Qed.

(** An answer that announces more than the buffer holds.  Nothing compares the length, of up to
    65535 bytes, with the buffer of 8192: the rest of the answer is written behind its end. *)
Theorem dot_oversize_answer_overflows fuel d c c1 data l n buffer :
  trusted_ns d = Some c -> AsyncRead (zlen buffer) c = (c1, Ok (data, 0)) -> live c1 ->
  data = be_bytes 2 n ++ l -> 12 <= zlen data <= zlen buffer -> zlen buffer < 2 ^ 31 ->
  fits 16 n -> zlen buffer < n + 2 -> n + 2 - zlen data <= zlen (rx c1) -> (Z.to_nat n <= fuel)%nat ->
  snd (trusted_ns_turn options fuel buffer 0 d) = Ub.
Proof.
  intros Hc Hread Hl Hdata H12 Hb Hn Hbig Hrx Hfuel; unfold trusted_ns_turn; srun; rewrite Hc; cbn [sret].
  unfold on_trusted at 1; rewrite Hc, Z.sub_0_r, Hread.
  destruct (zblit 0 data buffer) as [b1|] eqn:Eb; [|rewrite zblit_Some in Eb by lia; done].
  destruct (ztake_blit _ _ _ _ Eb) as [Htk Hlb]; bool_false (zlen data =? 0); cbn [negb Z.eqb orb].
  rewrite dot_not_https; rewrite Z.add_0_l in *; rewrite ztake_0 in Htk; cbn [app] in Htk; rewrite Hdata in Htk.
  assert (ztake (zlen data) b1 = be_bytes 2 n ++ l) as Hfront by (by rewrite <- Htk, Hdata).
  rewrite (dot_frame_spec b1 (zlen data) n l) by (done || lia).
  unfold read_rest; srun; bool_true (0 <? n + 2 - zlen data); unfold on_trusted; cbn [trusted_ns set_trusted_ns].
  destruct (read_exact_spec fuel (n + 2 - zlen data) [] c1) as (c2 & -> & _); [done | done | lia|]; cbn [app].
  destruct (zblit (zlen data) _ b1) as [b2|] eqn:Eb2; [|done]; exfalso.
  apply zblit_inv in Eb2 as (_ & Hle & _); rewrite zlen_take in Hle by lia; lia.
Qed.

End over_tls.

(** ** Witnesses *)

Module DnsProxyDemo.
Import DnsDemo Pipe RefAbsl.

Definition sock : Type := list (bytes * Z).

#[export] Instance demo_udp : UdpSocket sock Z := {|
  async_send_to b e := fun u => (u ++ [(b, e)], Ok 0);
  async_receive_from cap := slift Hang
|}.
#[export] Instance demo_udp_sends : UdpSends sock Z.
Proof. refine {| udp_sent := id |}; intros b e u; by eexists. Defined.
#[export] Instance demo_escape : AbslEscaping := Base64Escape.
#[export] Instance demo_dns_net : Network unit Z pipe := {|
  async_resolve host service := sret (0, [853]);
  async_connect e := sret (0, {| chunks := []; sent := [] |})
|}.

Definition options0 : DNSOptions Z :=
  {| default_ns_endpoint := 53; trusted_ns_tcp_endpoint := 853;
     trusted_addr := {| schema := bs "dot"; Address.host := bs "dns"; Address.port := 853; path := [] |};
     trusted_ns_domains := [bs "secret"];
     ip_range_map := [(16909056, (16909057, 16909311)); (33554432, (33554433, 50331647))] |}.

Definition header (txid : Z) (count : Z) : bytes := u16 txid ++ u16 256 ++ u16 1 ++ u16 count ++ [0; 0; 0; 0].
Definition query_of (txid : Z) (l : list bytes) : bytes := header txid 0 ++ enc_name l ++ u16 1 ++ u16 1.
Definition padded (m : bytes) : bytes := m ++ zrepeat 64 0.

(** The answer to query 4660: 1.2.3.4 and 93.184.216.34. *)
Definition records0 : list record := a_record <$> [[1; 2; 3; 4]; [93; 184; 216; 34]].
Definition answer0 : bytes := response 4660 33152 0 0 [asks 1] records0 [].

(** The server's answer over TLS to query 4660, in two pieces, followed by something else. *)
Definition tls_wire : bytes := be_bytes 2 (zlen answer0) ++ answer0 ++ [1; 2; 3].
Definition tls_conn : pipe := {| chunks := [ztake 20 tls_wire; zdrop 20 tls_wire]; sent := [] |}.

Definition proxy0 (c : pipe) : DNSProxy unit Z sock pipe :=
  {| g_dns_states := ∅; dns_wheel := TimeWheel_new 8; timeout_of := ∅; dns_server := []; default_ns := []; trusted_ns := Some c; dns_net := tt |}.

(** One pending query of client 7. *)
Definition asked (c : pipe) : DNSProxy unit Z sock pipe :=
  fst (handle_dns_query options0 500 4 1000 7 (padded (query_of 4660 labels)) (zlen (query_of 4660 labels)) (proxy0 c)).

Definition txid0 : Z := mem_load (u16 4660).
Definition entry0 : DNSProxyState Z :=
  {| orig_endpoint := 7; orig_payload := query_of 4660 labels; cancel_ns_timeout := 0; disable_default_ns := false;
     disable_trusted_ns := false |}.

End DnsProxyDemo.

Section witnesses.
Import DnsDemo Pipe RefAbsl DnsProxyDemo.

(** A query at second 1, whose timeout of 500 ms is looked at half a second and more later. *)
Lemma pending_queries_time_out_witness :
  armed [] (asked tls_conn) txid0 0 /\ g_dns_states (run_timer (fun _ => None) 1600 0 (asked tls_conn)) !! txid0 = None.
Proof.
  destruct (pending_queries_time_out options0 500 4 (proxy0 tls_conn) (0, []) (asked tls_conn) 0 [] eq_refl eq_refl) with (txid := txid0) (s := entry0)
    as [Ha He].
  - apply rtc_once; eapply (step_query _ _ _ 1000 7 (padded (query_of 4660 labels)) (zlen (query_of 4660 labels)) _ _ (Ok 0)).
    vm_compute; reflexivity.
  - by vm_compute.
  - split; [exact Ha|].
    exact (He (fun _ => None) 1600 {| TimeWheel.timeout_msecs := 500; create_time := 1000; canceled := false |} ltac:(by vm_compute)
      ltac:(by vm_compute) ltac:(by split; vm_compute) ltac:(by vm_compute)).
Defined.

Lemma query_answered_to_its_client_witness :
  exists d1 d2,
    handle_dns_query options0 500 4 1000 7 (padded (query_of 4660 labels)) (zlen (query_of 4660 labels)) (proxy0 tls_conn) = (d1, Ok 0) /\
    default_ns d1 = [(query_of 4660 labels, 53)] /\
    default_answer options0 4 (padded answer0) (zlen answer0) d1 = (d2, Ok tt) /\
    dns_server d2 = [(answer0, 7)] /\ g_dns_states d2 = ∅.
Proof.
  refine (query_answered_to_its_client options0 500 4 1000 7 (padded (query_of 4660 labels)) (zlen (query_of 4660 labels))
    (query_of 4660 labels) txid0 (bs "www.example.com") 0 (proxy0 tls_conn) (padded answer0) (zlen answer0) answer0
    (answer_of <$> records0) _ _ _ _ _ _ _ _ _); try (right; reflexivity); by vm_compute.
Defined.

Lemma colliding_query_never_answered_witness :
  exists d1 d2 d3,
    handle_dns_query options0 500 4 1001 8 (padded (query_of 4660 labels)) (zlen (query_of 4660 labels)) (asked tls_conn) = (d1, Ok 0) /\
    dns_response txid0 answer0 d1 = (d2, Ok tt) /\ dns_server d2 = [(answer0, 7)] /\
    dns_response txid0 answer0 d2 = (d3, Ok tt) /\ dns_server d3 = dns_server d2.
Proof.
  refine (colliding_query_never_answered options0 500 4 1001 8 (padded (query_of 4660 labels)) (zlen (query_of 4660 labels))
    (query_of 4660 labels) txid0 (bs "www.example.com") 0 (asked tls_conn) entry0 answer0 _ _ _ _ _);
    try (right; reflexivity); by vm_compute.
Defined.

Lemma trusted_domain_not_leaked_witness :
  let query := query_of 5 [bs "secret"; bs "org"] in
  let handled d := fst (handle_dns_query options0 500 4 1000 7 (padded query) (zlen query) d) in
  default_ns (handled (proxy0 tls_conn)) = [] /\
  (exists c', trusted_ns (handled (proxy0 tls_conn)) = Some c' /\ tx c' = be_bytes 2 28 ++ query) /\
  default_ns (handled (set_trusted_ns (fun _ => None) (proxy0 tls_conn))) = [].
Proof.
  intros query handled.
  pose proof (fun d : DNSProxy unit Z sock pipe => trusted_domain_not_leaked options0 500 4 1000 7 (padded query) (zlen query) query (mem_load (u16 5)) (bs "secret.org") d
    ltac:(by vm_compute) ltac:(by vm_compute) ltac:(by vm_compute) ltac:(by vm_compute)) as Hn.
  unfold handled; pose proof (Hn (proxy0 tls_conn)) as H1; pose proof (Hn (set_trusted_ns (fun _ => None) (proxy0 tls_conn))) as H2; clear Hn.
  destruct (handle_dns_query _ _ _ _ _ _ _ (proxy0 tls_conn)) as [d1 r1].
  destruct (handle_dns_query _ _ _ _ _ _ _ (set_trusted_ns _ _)) as [d2 r2].
  destruct H1 as (E1 & _ & _ & Hc), H2 as (E2 & _); split; [exact E1|]; split; [|exact E2].
  destruct (Hc ltac:(repeat constructor; discriminate) ltac:(by vm_compute)) as (_ & c' & Ec & Htx); exists c'; split; [exact Ec | exact Htx].
Defined.

Lemma dot_answer_delivered_witness :
  exists d' c' buffer' pos', trusted_ns_turn options0 100 (zrepeat 128 0) 0 (asked tls_conn) = (d', Ok (buffer', pos')) /\
    dns_server d' = [(answer0, 7)] /\ trusted_ns d' = Some c' /\ live c' /\ zlen buffer' = 128 /\
    0 <= pos' <= zlen buffer' /\ ztake pos' buffer' ++ rx c' = [1; 2; 3].
Proof.
  refine (dot_answer_delivered options0 _ 100 (asked tls_conn) tls_conn {| chunks := [zdrop 20 tls_wire]; sent := [] |}
    (ztake 20 tls_wire) (zrepeat 128 0) 0 answer0 [1; 2; 3] entry0 _ _ _ _ _ _ _ _ _ _ _ _ _); try by vm_compute.
  all: repeat constructor; discriminate.
Defined.

Lemma dot_oversize_answer_overflows_witness :
  snd (trusted_ns_turn options0 100 (zrepeat 32 0) 0 (asked tls_conn)) = Ub.
Proof.
  refine (dot_oversize_answer_overflows options0 _ 100 (asked tls_conn) tls_conn {| chunks := [zdrop 20 tls_wire]; sent := [] |}
    (ztake 20 tls_wire) (ztake 18 answer0) (zlen answer0) (zrepeat 32 0) _ _ _ _ _ _ _ _ _ _); try by vm_compute.
  all: repeat constructor; discriminate.
Defined.

End witnesses.
