(* ===== verification/MuxClient.v ===== *)
(** * The client side of the multiplexed connections

    src/snova/mux/mux_client.cc: how a node dials its connections, keeps the slots of its session
    filled and retires old connections; and the transport a connection runs on
    (src/snova/io/tcp_socket.cc, tls_socket.cc, ws_socket.cc).  OpenSSL's stream is a class of
    operations. *)

From S2P Require Import Prelude Endian IoBuf TimeWheel Text HttpHelper Address PbMessages MuxEvent CipherContext Io WsSocket Connect.
From S2P Require Import AsyncMutex MuxConnection MuxStream MuxConnManager.

(** ** Transports *)

(** [TlsSocket] over a socket, and its client handshake. *)
Class Tls (K L : Type) := {
  tls_new : K -> L;
  ClientHandshake : st L Z
}.

(** What [IOConnectionPtr] points to. *)
Inductive transport (K L : Type) :=
| TcpSocket (k : K)
| TlsSocket (l : L)
| WsTcp (w : WebSocket K)
| WsTls (w : WebSocket L).
Arguments TcpSocket {K L}. Arguments TlsSocket {K L}. Arguments WsTcp {K L}. Arguments WsTls {K L}.

Section transports.
Context {K L : Type} `{IOConnection K, IOConnection L, Tls K L} `{Platform} `{AbslStrings, OpenSSL}.
Variables (stack_k : WebSocket K -> bytes) (stack_l : WebSocket L -> bytes).

(** An operation of the object behind the pointer. *)
Definition lift_t {A B} (inj : A -> transport K L) (m : st A B) (a : A) : transport K L * res B :=
  let '(a, r) := m a in (inj a, r).

#[export] Instance transport_conn : IOConnection (transport K L) :=
  let _ := WebSocket_conn stack_k in
  let _ := WebSocket_conn stack_l in
  {|
    AsyncRead cap := fun t =>
      match t with
      | TcpSocket k => lift_t TcpSocket (AsyncRead cap) k
      | TlsSocket l => lift_t TlsSocket (AsyncRead cap) l
      | WsTcp w => lift_t WsTcp (AsyncRead cap) w
      | WsTls w => lift_t WsTls (AsyncRead cap) w
      end;
    AsyncWrite b := fun t =>
      match t with
      | TcpSocket k => lift_t TcpSocket (AsyncWrite b) k
      | TlsSocket l => lift_t TlsSocket (AsyncWrite b) l
      | WsTcp w => lift_t WsTcp (AsyncWrite b) w
      | WsTls w => lift_t WsTls (AsyncWrite b) w
      end;
    AsyncWriteV bufs := fun t =>
      match t with
      | TcpSocket k => lift_t TcpSocket (AsyncWriteV bufs) k
      | TlsSocket l => lift_t TlsSocket (AsyncWriteV bufs) l
      | WsTcp w => lift_t WsTcp (AsyncWriteV bufs) w
      | WsTls w => lift_t WsTls (AsyncWriteV bufs) w
      end;
    IoClose t :=
      match t with
      | TcpSocket k => TcpSocket (IoClose k)
      | TlsSocket l => TlsSocket (IoClose l)
      | WsTcp w => WsTcp (IoClose w)
      | WsTls w => WsTls (IoClose w)
      end
  |}.

Definition is_schema (l : list string) (a : NetAddress) : bool := existsb (fun s => bool_decide (schema a = bs s)) l.

(** The transport on a connected socket: the error code of a handshake, or the connection; [buf] is
    the buffer of the WebSocket, [now] is [time(nullptr)]. *)
Definition open_transport (a : NetAddress) (buf : bytes) (now : Z) (socket : K) : res (Z + transport K L) :=
  if is_schema ["tls"; "wss"] a then
    let '(tls_conn, r) := ClientHandshake (tls_new socket) in
    do handshake_ec <- r;
    if negb (handshake_ec =? 0) then Ok (inl handshake_ec)
    else if is_schema ["ws"; "wss"] a then
      let '(ws_conn, r) := AsyncConnect now (Address.host a) (WebSocket_new tls_conn buf) in
      do conn_ec <- r;
      if negb (conn_ec =? 0) then Ok (inl conn_ec) else Ok (inr (WsTls ws_conn))
    else Ok (inr (TlsSocket tls_conn))
  else if is_schema ["ws"; "wss"] a then
    let '(ws_conn, r) := AsyncConnect now (Address.host a) (WebSocket_new socket buf) in
    do conn_ec <- r;
    if negb (conn_ec =? 0) then Ok (inl conn_ec) else Ok (inr (WsTcp ws_conn))
  else Ok (inr (TcpSocket socket)).

End transports.

(** [TlsSocket::AsyncConnect] to an endpoint and to a host; the TLS host name is never set.  With it
    a network of TCP sockets is a network of TLS sockets, which is what the DNS proxy dials. *)
Section tls_connect.
Context {N Ep K L : Type} `{Network N Ep K, Tls K L}.

Definition TlsSocket_AsyncConnect (endpoint : Ep) : st N (Z * L) :=
  let! '(connect_ec, k) := async_connect endpoint in
  if negb (connect_ec =? 0) then sret (connect_ec, tls_new k)
  else
    let '(l, r) := ClientHandshake (tls_new k) in
    let! ec := slift r in
    sret (ec, l).

Definition TlsSocket_AsyncConnect_host (host : bytes) (port : Z) : st N (Z + Z * L) :=
  let! r := do_resolve_endpoint host port in
  match r with
  | inl ec => sret (inl ec)
  | inr endpoint => let! x := TlsSocket_AsyncConnect endpoint in sret (inr x)
  end.

Definition tls_network : Network N Ep L := {|
  async_resolve := async_resolve;
  async_connect := TlsSocket_AsyncConnect
|}.

End tls_connect.

(** ** The client *)

Definition invalid_argument : Z := 22.

(** The members of [MuxClient], the connection manager, the network, the time wheel, and the read
    loops that were spawned (connection and slot). *)
Record MuxClient (N C : Type) := {
  conn_type : MuxConnectionType;
  remote_session : nat;
  remote_mux_address : NetAddress;
  client_user : bytes;
  client_cipher_method : bytes;
  client_cipher_key : bytes;
  client_client_id : Z;
  c_manager : MuxConnManager C;
  c_net : N;
  c_wheel : TimeWheel;
  read_loops : list (nat * Z)
}.
Arguments Build_MuxClient {N C}. Arguments conn_type {N C}. Arguments remote_session {N C}.
Arguments remote_mux_address {N C}. Arguments client_user {N C}. Arguments client_cipher_method {N C}.
Arguments client_cipher_key {N C}. Arguments client_client_id {N C}. Arguments c_manager {N C}.
Arguments c_net {N C}. Arguments c_wheel {N C}. Arguments read_loops {N C}.

(** The flags the client reads: the roles, [g_conn_num_per_server], [g_connection_expire_secs], the
    HTTP proxy if one is set, and the remote tunnels (port, host, port). *)
Record ClientFlags := {
  role : NodeRole;
  conn_num_per_server : Z;
  expire_secs : Z;
  http_proxy : option (bytes * Z);
  remote_tunnels : list (Z * bytes * Z)
}.

Section client.
Context `{Platform} `{Nanopb} `{Aead} `{AbslStrings, OpenSSL}.
Context {N Ep K L : Type} `{Network N Ep K, IOConnection K, IOConnection L, Tls K L}.
Abbreviation C := (transport K L).
Context `{IOConnection C} `{Clock C}.
Abbreviation Cl := (MuxClient N C).
Variable flags : ClientFlags.

Definition client_eta (r : Cl) : Cl :=
  {| conn_type := conn_type r; remote_session := remote_session r; remote_mux_address := remote_mux_address r;
     client_user := client_user r; client_cipher_method := client_cipher_method r; client_cipher_key := client_cipher_key r;
     client_client_id := client_client_id r; c_manager := c_manager r; c_net := c_net r; c_wheel := c_wheel r;
     read_loops := read_loops r |}.
Definition cupd (A : Type) : Type := (A -> A) -> Cl -> Cl.
Definition set_conn_type : cupd MuxConnectionType := ltac:(setter client_eta (@conn_type N C)).
Definition set_remote_session : cupd nat := ltac:(setter client_eta (@remote_session N C)).
Definition set_remote_address : cupd NetAddress := ltac:(setter client_eta (@remote_mux_address N C)).
Definition set_client_user : cupd bytes := ltac:(setter client_eta (@client_user N C)).
Definition set_cipher_method : cupd bytes := ltac:(setter client_eta (@client_cipher_method N C)).
Definition set_cipher_key : cupd bytes := ltac:(setter client_eta (@client_cipher_key N C)).
Definition set_client_client_id : cupd Z := ltac:(setter client_eta (@client_client_id N C)).
Definition set_c_manager : cupd (MuxConnManager C) := ltac:(setter client_eta (@c_manager N C)).
Definition set_c_net : cupd N := ltac:(setter client_eta (@c_net N C)).
Definition set_c_wheel : cupd TimeWheel := ltac:(setter client_eta (@c_wheel N C)).
Definition set_read_loops : cupd (list (nat * Z)) := ltac:(setter client_eta (@read_loops N C)).

Definition on_c_manager {A} (m : st (MuxConnManager C) A) : st Cl A := fun s =>
  let '(c, r) := m (c_manager s) in (set_c_manager (fun _ => c) s, r).
Definition on_c_net {A} (m : st N A) : st Cl A := fun s =>
  let '(n, r) := m (c_net s) in (set_c_net (fun _ => n) s, r).

(** The slots of the session, and a store to one of them. *)
Definition slots (s : Cl) : list (option nat) :=
  match session_store (c_manager s) !! remote_session s with Some ss => conns ss | None => [] end.
Definition set_slot (i : Z) (v : option nat) : st Cl unit :=
  smodify (fun s => set_c_manager (set_session_store (alter (fun ss =>
    {| conns := <[Z.to_nat i := v]> (conns ss); tunnel_servers := tunnel_servers ss |}) (remote_session s))) s).

(** Dialling: directly or through the HTTP proxy. *)
Definition dial (fuel : nat) (buf : bytes) (a : NetAddress) : st N (Z + K) :=
  match http_proxy flags with
  | None =>
      let! r := do_resolve_endpoint (Address.host a) (Address.port a) in
      match r with
      | inl resolve_ec => sret (inl resolve_ec)
      | inr remote_endpoint =>
          let! '(ec, socket) := async_connect remote_endpoint in
          if negb (ec =? 0) then sret (inl ec) else sret (inr socket)
      end
  | Some (proxy_host, proxy_port) =>
      let! '(ec, socket) := connect_remote_via_http_proxy fuel buf (Address.host a) (Address.port a) proxy_host proxy_port in
      match socket with
      | Some socket => if negb (ec =? 0) then sret (inl ec) else sret (inr socket)
      | None => sret (inl ec)
      end
  end.

(** The remote tunnels are opened one after the other; [false] when one fails. *)
Fixpoint open_tunnels (l : list (Z * bytes * Z)) : st (MuxConnection C) bool :=
  match l with
  | [] => sret true
  | (rport, lhost, lport) :: l =>
      let! success := OpenTunnel rport lhost lport true in
      if negb success then sret false else open_tunnels l
  end.

(** The set-up of a connection on its transport: whether it is ready. *)
Definition set_up (idx0 : Z) (user : bytes) (client_id : Z) : st (MuxConnection C) bool :=
  let! auth_success := ClientAuth (role flags) user client_id in
  if negb auth_success then sret false
  else
    let! _ := smodify (set_idx (fun _ => idx0)) in
    let! _ := smodify (set_server_relay (fun b => g_is_exit_node (role flags) || b)) in
    open_tunnels (remote_tunnels flags).

(** [NewConnection]: the error code.  [buf1] and [buf2] are the buffers of the proxy exchange and of
    the WebSocket, [now] is [time(nullptr)], [jitter] is [random_uint64(0, 60)]. *)
Definition NewConnection (fuel : nat) (buf1 buf2 : bytes) (now jitter : Z) (idx0 : Z) : st Cl Z :=
  let! s := sget in
  if zlen (slots s) <=? idx0 then sret invalid_argument
  else
    let! r := on_c_net (dial fuel buf1 (remote_mux_address s)) in
    match r with
    | inl ec => sret ec
    | inr socket =>
        let! t := slift (open_transport (remote_mux_address s) buf2 now socket) in
        match t with
        | inl ec => sret ec
        | inr io_conn =>
            let! ctx := slift (access (CipherContext.New (client_cipher_method s) (client_cipher_key s))) in
            let conn := MuxConnection_new (conn_type s) io_conn ctx true false false (expire_secs flags) jitter in
            let '(conn, r) := set_up idx0 (client_user s) (client_client_id s) conn in
            let! ok := slift r in
            if negb ok then sret invalid_argument
            else
              let! s := sget in
              let p := fresh (dom (conn_store (c_manager s))) in
              let! _ := on_c_manager (smodify (set_conn_store (insert p conn))) in
              let! _ := smodify (set_read_loops (fun l => l ++ [(p, idx0)])) in
              let! _ := set_slot idx0 (Some p) in
              sret 0
        end
    end.

(** What the coroutine of a connection does when its read loop has ended. *)
Definition read_loop_ended (p : nat) (idx0 : Z) : st Cl unit :=
  let! s := sget in
  let! conn := slift (access (conn_store (c_manager s) !! p)) in
  if negb (retired conn) then set_slot idx0 None else sret tt.

(** ** Checking the slots *)

(** The task of a retired connection: 15 seconds after it was last active it is closed. *)
Definition close_retired (p : nat) : st Cl unit :=
  on_c_manager (smodify (set_conn_store (alter conn_Close p))).

(** The connection in slot [i] has expired. *)
Definition retire (now_ms : Z) (i : Z) (p : nat) : st Cl unit :=
  let! _ := on_c_manager (smodify (set_conn_store (alter (set_retired (fun _ => true)) p))) in
  let! _ := set_slot i None in
  let! s := sget in
  let! conn := slift (access (conn_store (c_manager s) !! p)) in
  let '(conn, r) := MuxConnection.WriteEvent (make_event 0 RetireConnRequest) conn in
  let! _ := on_c_manager (smodify (set_conn_store (insert p conn))) in
  let! _ := slift r in
  smodify (fun s => set_c_wheel (fun w => fst (TimeWheel.Add now_ms 15000 w)) s).

(** One turn of the inner loop of [CheckConnections]. *)
Definition check_slot (fuel : nat) (buf1 buf2 : bytes) (time now_ms jitter : Z) (i : Z) : st Cl unit :=
  let! s := sget in
  let! slot := slift (access (zget (slots s) i)) in
  match slot with
  | None => let! _ := NewConnection fuel buf1 buf2 time jitter i in sret tt
  | Some p =>
      let now := wrap 32 time in
      let! conn := slift (access (conn_store (c_manager s) !! p)) in
      let! _ := on_c_manager (smodify (set_conn_store (insert p (ResetCounter now conn)))) in
      if expire_at_unix_secs conn <? now then retire now_ms i p else sret tt
  end.

(** A round over the slots from [i] on. *)
Fixpoint check_from (fuel n : nat) (buf1 buf2 : bytes) (time now_ms jitter : Z) (i : Z) : st Cl unit :=
  match n with
  | O => sret tt
  | S n =>
      let! _ := check_slot fuel buf1 buf2 time now_ms jitter i in
      check_from fuel n buf1 buf2 time now_ms jitter (i + 1)
  end.

Definition CheckConnections (fuel : nat) (buf1 buf2 : bytes) (time now_ms jitter : Z) : st Cl unit :=
  check_from fuel (Z.to_nat (conn_num_per_server flags)) buf1 buf2 time now_ms jitter 0.

(** ** Init *)

Fixpoint dial_from (fuel n : nat) (buf1 buf2 : bytes) (time jitter : Z) (i : Z) : st Cl unit :=
  match n with
  | O => sret tt
  | S n =>
      let! _ := NewConnection fuel buf1 buf2 time jitter i in
      dial_from fuel n buf1 buf2 time jitter (i + 1)
  end.

(** [std::vector::resize]. *)
Definition slots_resize {A} (n : Z) (x : A) (l : list A) : list A := ztake n l ++ zrepeat (n - zlen l) x.

Definition Init (fuel : nat) (buf1 buf2 : bytes) (time jitter : Z) (remote_server user cipher_method cipher_key : bytes) : st Cl Z :=
  let! _ := smodify (set_client_user (fun _ => user)) in
  let! _ := smodify (set_conn_type (fun _ => if g_is_exit_node (role flags) then MUX_ENTRY_CONN else MUX_EXIT_CONN)) in
  let! s := sget in
  let! sp := on_c_manager (GetSession user (client_client_id s) (conn_type s)) in
  let! _ := smodify (set_remote_session (fun _ => sp)) in
  let! _ := on_c_manager (smodify (set_session_store (alter (fun ss =>
    {| conns := slots_resize (conn_num_per_server flags) None (conns ss); tunnel_servers := tunnel_servers ss |}) sp))) in
  match NetAddress_Parse remote_server with
  | Ok a =>
      let! _ := smodify (set_remote_address (fun _ => a)) in
      match CipherContext.New cipher_method cipher_key with
      | None => sret invalid_argument
      | Some _ =>
          let! _ := smodify (set_cipher_method (fun _ => cipher_method)) in
          let! _ := smodify (set_cipher_key (fun _ => cipher_key)) in
          let! ec := NewConnection fuel buf1 buf2 time jitter 0 in
          if negb (ec =? 0) then sret ec
          else
            let! _ := dial_from fuel (Z.to_nat (conn_num_per_server flags - 1)) buf1 buf2 time jitter 1 in
            sret 0
      end
  | Err ec => sret ec
  | Ub => slift Ub
  | Hang => slift Hang
  end.

End client.

(** ** What a new connection is *)

Section identity.
Context `{Platform} `{Nanopb} `{Aead}.
Context {C : Type} `{IOConnection C} `{Clock C}.

(** What reading and writing events leave alone. *)
Definition conn_ident (cn : MuxConnection C) := (type_ cn, idx cn, conn_client_id cn, is_authed cn, retired cn).

#[export] Instance ident_on_conn {A} (m : st C A) : Preserves conn_ident (on_conn m).
Proof. intros cn; unfold on_conn; by destruct (m (io_conn cn)). Qed.
#[export] Instance ident_unlock : Preserves conn_ident conn_Unlock.
Proof. done. Qed.

Ltac ident := repeat first [ apply preserves_smodify; intros; reflexivity | apply _
  | apply preserves_sbind; [|intros ?] | apply preserves_if | apply preserves_pair; intros ? ? | case_match ].

#[export] Instance ident_from_buffer b : Preserves conn_ident (ReadEventFromBuffer (C := C) b).
Proof. unfold ReadEventFromBuffer; ident. Qed.
#[export] Instance ident_read_loop fuel : forall cur, Preserves conn_ident (ReadEvent_loop (C := C) fuel cur).
Proof. induction fuel as [|fuel IH]; intros cur; cbn [ReadEvent_loop]; [done|]; ident. Qed.
#[export] Instance ident_read : Preserves conn_ident (ReadEvent (C := C)).
Proof. unfold ReadEvent; ident. Qed.
#[export] Instance ident_write ev : Preserves conn_ident (Write (C := C) ev).
Proof. unfold Write; ident. Qed.
#[export] Instance ident_write_event ev : Preserves conn_ident (MuxConnection.WriteEvent (C := C) ev).
Proof. unfold MuxConnection.WriteEvent; ident. Qed.
#[export] Instance ident_open_tunnel a b c d : Preserves conn_ident (OpenTunnel (C := C) a b c d).
Proof.
  unfold OpenTunnel, OpenTunnel_send; ident; intros cn; unfold OpenTunnel_recv.
  pose proof (ident_read cn) as Hr; destruct (ReadEvent cn) as [cn' [e| | |]]; cbn in *; try done; by destruct (body e).
Qed.

End identity.

(** ** The slots *)

Section client_facts.
Context `{Platform} `{Nanopb} `{Aead} `{AbslStrings, OpenSSL}.
Context {N Ep K L : Type} `{Network N Ep K, IOConnection K, IOConnection L, Tls K L}.
Abbreviation C := (transport K L).
Context `{IOConnection C} `{Clock C}.
Variable flags : ClientFlags.
Implicit Type s : MuxClient N C.

#[local] Instance open_tunnels_ident l : Preserves conn_ident (open_tunnels (K := K) (L := L) l).
Proof. induction l as [|[[rp lh] lp] l IH]; cbn [open_tunnels]; apply _. Qed.

(** A connection that was set up has passed the handshake under the client's id. *)
Lemma set_up_spec i user cid cn cn' :
  set_up flags i user cid cn = (cn', Ok true) ->
  is_authed cn' = true /\ idx cn' = i /\ conn_client_id cn' = cid /\ type_ cn' = type_ cn /\ retired cn' = retired cn.
Proof.
  unfold set_up; intros (cn1 & b & Ha & Hr)%sbind_inv; destruct b; [|by injection Hr]; cbn [negb] in Hr.
  assert (is_authed cn1 = true /\ conn_client_id cn1 = cid /\ type_ cn1 = type_ cn /\ retired cn1 = retired cn)
    as (Hau & Hid & Hty & Hre).
  { unfold ClientAuth in Ha; apply sbind_inv in Ha as (cn0 & ? & [= <- <-] & Ha).
    destruct (negb (is_local cn)) eqn:El; [by injection Ha|].
    apply sbind_inv in Ha as (cn2 & b & Hs & Ha); destruct b; [|by injection Ha]; cbn [negb] in Ha.
    unfold ClientAuth_send in Hs; apply sbind_inv in Hs as (? & ? & [= <- <-] & Hs); rewrite El in Hs.
    apply sbind_inv in Hs as (cn3 & ? & [= <- <-] & Hs); apply (preserves_eq conn_ident _) in Hs.
    unfold ClientAuth_recv in Ha; pose proof (ident_read cn2) as Hrd.
    destruct (ReadEvent cn2) as [cn4 [e| | |]]; cbn [fst] in Hrd; try done; destruct (body e); try done.
    injection Ha as <- ->; unfold conn_ident in *; cbn in *; split_and!; congruence. }
  apply sbind_inv in Hr as (cn2 & ? & [= <- <-] & Hr); apply sbind_inv in Hr as (cn3 & ? & [= <- <-] & Hr).
  apply (preserves_eq conn_ident _) in Hr.
  unfold conn_ident in Hr; cbn in Hr; split_and!; congruence.
Qed.

(** The session of the client. *)
Definition own_session s (ss : MuxSession) : Prop := session_store (c_manager s) !! remote_session s = Some ss.

Lemma slots_own s ss : own_session s ss -> slots s = conns ss.
Proof. unfold own_session, slots; by intros ->. Qed.

Lemma set_slot_spec i v s ss :
  own_session s ss -> 0 <= i ->
  exists s', set_slot i v s = (s', Ok tt) /\
    own_session s' {| conns := <[Z.to_nat i := v]> (conns ss); tunnel_servers := tunnel_servers ss |} /\
    conn_store (c_manager s') = conn_store (c_manager s) /\ read_loops s' = read_loops s /\
    c_wheel s' = c_wheel s /\ remote_session s' = remote_session s.
Proof.
  intros Hs Hi; unfold set_slot; srun; eexists; split; [done|]; unfold own_session; cbn.
  rewrite lookup_alter_eq, Hs; by split_and!.
Qed.

(** The two outcomes of [NewConnection]. *)
Lemma NewConnection_cases fuel b1 b2 now jitter i s ss s' r :
  own_session s ss -> 0 <= i ->
  NewConnection flags fuel b1 b2 now jitter i s = (s', r) ->
  (c_manager s' = c_manager s /\ read_loops s' = read_loops s /\ c_wheel s' = c_wheel s /\ remote_session s' = remote_session s) \/
  (r = Ok 0 /\ i < zlen (conns ss) /\ exists cn, let p := fresh (dom (conn_store (c_manager s))) in
   conn_store (c_manager s') = <[p := cn]> (conn_store (c_manager s)) /\
   own_session s' {| conns := <[Z.to_nat i := Some p]> (conns ss); tunnel_servers := tunnel_servers ss |} /\
   read_loops s' = read_loops s ++ [(p, i)] /\ c_wheel s' = c_wheel s /\ remote_session s' = remote_session s /\
   is_authed cn = true /\ idx cn = i /\ conn_client_id cn = client_client_id s /\ type_ cn = conn_type s /\ retired cn = false).
Proof.
  intros Hs Hi; unfold NewConnection; srun; rewrite (slots_own s ss Hs).
  destruct (Z.leb_spec (zlen (conns ss)) i); [intros [= <- <-]; by left|].
  unfold on_c_net; destruct (dial flags fuel b1 (remote_mux_address s) (c_net s)) as [n [[ec|k]| | |]];
    try (intros [= <- <-]; by left).
  destruct (open_transport _ b2 now k) as [[ec|t]| | |]; try (intros [= <- <-]; by left).
  destruct (CipherContext.New _ _) as [ctx|]; [|intros [= <- <-]; by left].
  destruct (set_up _ _ _ _ _) as [cn [[]| | |]] eqn:Eu; try (intros [= <- <-]; by left); cbn [negb].
  destruct (set_up_spec _ _ _ _ _ Eu) as (Hau & Hix & Hcid & Hty & Hre).
  unfold on_c_manager, set_slot, smodify; intros [= <- <-]; right; split; [done|]; split; [done|].
  exists cn; unfold own_session; cbn; rewrite lookup_alter_eq, Hs; split_and!; try done.
Qed.

(** A new connection.  When [NewConnection] reports success, exactly the slot it was called for holds
    a new connection that has passed the handshake with the client's id and role and whose read loop
    runs; in every other case the session, its slots and the connections are as they were. *)
Theorem new_connection_fills_slot fuel b1 b2 now jitter i s ss s' r :
  own_session s ss -> 0 <= i -> NewConnection flags fuel b1 b2 now jitter i s = (s', r) ->
  (slots s' = slots s /\ conn_store (c_manager s') = conn_store (c_manager s) /\ read_loops s' = read_loops s) \/
  (r = Ok 0 /\ i < zlen (slots s) /\ exists p cn, conn_store (c_manager s) !! p = None /\
     conn_store (c_manager s') = <[p := cn]> (conn_store (c_manager s)) /\
     slots s' = <[Z.to_nat i := Some p]> (slots s) /\ read_loops s' = read_loops s ++ [(p, i)] /\
     is_authed cn = true /\ idx cn = i /\ conn_client_id cn = client_client_id s /\ type_ cn = conn_type s).
Proof.
  intros Hs Hi Hn; rewrite (slots_own s ss Hs).
  destruct (NewConnection_cases _ _ _ _ _ _ _ _ _ _ Hs Hi Hn) as [(Hm & Hl & _ & Hr)|(-> & Hlt & cn & Hc & Ho & Hl & _ & _ & Hau & Hix & Hcid & Hty & _)].
  - left; unfold slots; by rewrite Hm, Hl, Hr, Hs.
  - right; split; [done|]; split; [done|]; eexists _, cn; split; [apply not_elem_of_dom, is_fresh|].
    rewrite (slots_own s' _ Ho); by split_and!.
Qed.

(** ** The invariant of the slots *)

(** The session has its slots, each slot is empty or holds an authenticated connection, and no
    connection is in two of them. *)
Definition slots_ok s : Prop := exists ss, own_session s ss /\ zlen (conns ss) = conn_num_per_server flags /\
  (forall j p, conns ss !! j = Some (Some p) -> exists cn, conn_store (c_manager s) !! p = Some cn /\ is_authed cn = true) /\
  (forall j k p, conns ss !! j = Some (Some p) -> conns ss !! k = Some (Some p) -> j = k).

Lemma slots_ok_same s s' :
  remote_session s' = remote_session s -> session_store (c_manager s') = session_store (c_manager s) ->
  (forall p cn, conn_store (c_manager s) !! p = Some cn -> exists cn', conn_store (c_manager s') !! p = Some cn' /\ is_authed cn' = is_authed cn) ->
  slots_ok s -> slots_ok s'.
Proof.
  intros E1 E2 Hc (ss & Ho & Hl & Hf & Hd); exists ss; unfold own_session in *; rewrite E1, E2; split_and!; try done.
  intros j p Hj; destruct (Hf j p Hj) as (cn & Hcn & Ha); destruct (Hc p cn Hcn) as (cn' & ? & ?); exists cn'; split; congruence.
Qed.

Lemma slots_ok_empty i s s' : 0 <= i -> set_slot i None s = (s', Ok tt) -> slots_ok s -> slots_ok s'.
Proof.
  intros Hi Hset (ss & Ho & Hl & Hf & Hd); destruct (set_slot_spec i None s ss Ho Hi) as (s1 & E1 & Ho1 & Hc & _).
  rewrite Hset in E1; injection E1 as <-; eexists; split; [exact Ho1|]; cbn; rewrite Hc; split_and!.
  - unfold zlen in *; by rewrite length_insert.
  - intros j p Hj; destruct (decide (j = Z.to_nat i)) as [->|Hne]; [|rewrite list_lookup_insert_ne in Hj by done; by apply (Hf j)].
    apply list_lookup_insert_Some in Hj as [(_ & ? & _)|(? & _)]; done.
  - intros j k p Hj Hk; apply list_lookup_insert_Some in Hj as [(_ & ? & _)|(_ & Hj)]; [done|].
    apply list_lookup_insert_Some in Hk as [(_ & ? & _)|(_ & Hk)]; [done|]; by apply (Hd j k p).
Qed.

Lemma slots_ok_new fuel b1 b2 now jitter i s s' r :
  0 <= i -> NewConnection flags fuel b1 b2 now jitter i s = (s', r) -> slots_ok s -> slots_ok s'.
Proof.
  intros Hi Hn (ss & Ho & Hl & Hf & Hd).
  destruct (NewConnection_cases _ _ _ _ _ _ _ _ _ _ Ho Hi Hn) as [(Hm & _ & _ & Hr)|(_ & Hlt & cn & Hc & Ho1 & _ & _ & _ & Hau & _)].
  - exists ss; unfold own_session in *; by rewrite Hm, Hr.
  - set (p := fresh _) in *; assert (conn_store (c_manager s) !! p = None) as Hp by (apply not_elem_of_dom, is_fresh).
    assert (forall j, conns ss !! j <> Some (Some p)) as Hnew by (intros j Hj; destruct (Hf j p Hj) as (? & ? & _); congruence).
    eexists; split; [exact Ho1|]; cbn; rewrite Hc; split_and!.
    + unfold zlen in *; by rewrite length_insert.
    + intros j q Hj; apply list_lookup_insert_Some in Hj as [(<- & [= <-] & _)|(_ & Hj)]; [exists cn; by rewrite lookup_insert_eq|].
      destruct (Hf j q Hj) as (cn' & Hq & ?); exists cn'; rewrite lookup_insert_ne by congruence; done.
    + intros j k q Hj Hk; apply list_lookup_insert_Some in Hj as [(<- & [= <-] & _)|(_ & Hj)];
        apply list_lookup_insert_Some in Hk as [(<- & Hk & _)|(_ & Hk)]; try done; [by apply Hnew in Hk | |by apply (Hd j k q)].
      injection Hk as <-; by apply Hnew in Hj.
Qed.

(** A change of one connection that keeps what it is. *)
Lemma slots_ok_conn p f s :
  (forall cn, is_authed (f cn) = is_authed cn) -> slots_ok s ->
  slots_ok (set_c_manager (fun m => set_conn_store (alter f p) m) s).
Proof.
  intros Hf; apply slots_ok_same; [done | done |]; cbn; intros q cn Hq; destruct (decide (p = q)) as [->|Hne].
  - exists (f cn); by rewrite lookup_alter_eq, Hq, Hf.
  - exists cn; by rewrite lookup_alter_ne.
Qed.

Lemma slots_ok_retire now_ms i p s s' r :
  0 <= i -> retire now_ms i p s = (s', r) -> slots_ok s -> slots_ok s'.
Proof.
  intros Hi; unfold retire, on_c_manager at 1, smodify at 1; intros Hr Hok; unfold sbind at 1 in Hr.
  set (s1 := set_c_manager _ s) in Hr.
  assert (slots_ok s1) as Hok1 by (by apply (slots_ok_conn p (set_retired (fun _ => true)))).
  destruct Hok1 as (ss & Ho & Hrest); destruct (set_slot_spec i None s1 ss Ho Hi) as (s2 & E2 & _).
  rewrite (sbind_ok _ _ _ _ _ E2) in Hr; assert (slots_ok s2) as Hok2 by (by apply (slots_ok_empty i s1); [| |exists ss]).
  unfold sbind at 1, sget in Hr; unfold sbind at 1, slift at 1 in Hr.
  destruct (conn_store (c_manager s2) !! p) as [cn|] eqn:Ec; [|by injection Hr as <- _]; cbn [access] in Hr.
  destruct (MuxConnection.WriteEvent _ cn) as [cn' w] eqn:Ew.
  apply (preserves_eq conn_ident _) in Ew.
  unfold on_c_manager, smodify, slift in Hr; unfold sbind at 1 in Hr; set (s3 := set_c_manager _ s2) in Hr.
  assert (slots_ok s3) as Hok3.
  { apply (slots_ok_same s2); [done | done | | done]; cbn; intros q cq Hq; destruct (decide (p = q)) as [<-|Hne].
    - exists cn'; rewrite lookup_insert_eq; split; [done|]; unfold conn_ident in Ew; congruence.
    - exists cq; by rewrite lookup_insert_ne. }
  unfold sbind in Hr; destruct w; injection Hr as <- _; try done; by apply (slots_ok_same s3); try done; eauto.
Qed.

Lemma slots_ok_check fuel b1 b2 time now_ms jitter i s s' r :
  0 <= i -> check_slot flags fuel b1 b2 time now_ms jitter i s = (s', r) -> slots_ok s -> slots_ok s'.
Proof.
  intros Hi; unfold check_slot; srun; intros Hr Hok; destruct (zget (slots s) i) as [[p|]|]; [| |by injection Hr as <- _].
  - destruct (conn_store (c_manager s) !! p) as [cn|] eqn:Ec; [|by injection Hr as <- _].
    unfold on_c_manager in Hr; cbn beta iota in Hr; set (s1 := set_c_manager _ s) in Hr.
    assert (slots_ok s1) as Hok1.
    { apply (slots_ok_same s); [done | done | | done]; cbn; intros q cq Hq; destruct (decide (p = q)) as [<-|Hne].
      - eexists; rewrite lookup_insert_eq; split; [done|]; cbn; congruence.
      - exists cq; by rewrite lookup_insert_ne. }
    destruct (_ <? _); [by apply (slots_ok_retire now_ms i p s1 s' r) | by injection Hr as <- _].
  - destruct (NewConnection flags fuel b1 b2 time jitter i s) as [s1 o] eqn:En.
    apply slots_ok_new in En; try done; by destruct o; injection Hr as <- _.
Qed.

(** What changes the slots in the course of time. *)
Inductive client_step : MuxClient N C -> MuxClient N C -> Prop :=
| step_dial fuel b1 b2 now jitter i s s' r : 0 <= i ->
    NewConnection flags fuel b1 b2 now jitter i s = (s', r) -> client_step s s'
| step_check fuel b1 b2 time now_ms jitter i s s' r : 0 <= i ->
    check_slot flags fuel b1 b2 time now_ms jitter i s = (s', r) -> client_step s s'
| step_ended p i s s' r : 0 <= i -> read_loop_ended p i s = (s', r) -> client_step s s'
| step_close p s s' r : close_retired p s = (s', r) -> client_step s s'.

(** C26. The slots of the client.  Whatever dials, checks, ended read loops and closed connections follow
    each other, and however they end, the session keeps its configured number of slots, every slot is
    empty or holds a connection that passed the handshake, and no connection is in two slots. *)
Theorem client_slots_invariant s s' :
  slots_ok s -> rtc client_step s s' -> slots_ok s'.
Proof.
  intros Hok Hr; induction Hr as [|s1 s2 s3 Hst _ IH]; [done|]; apply IH.
  destruct Hst as [fuel b1 b2 now jitter i s s' r Hi Hs|fuel b1 b2 time now_ms jitter i s s' r Hi Hs|p i s s' r Hi Hs|p s s' r Hs].
  - by eapply slots_ok_new.
  - by eapply slots_ok_check.
  - unfold read_loop_ended in Hs; srun_in Hs; destruct (conn_store (c_manager s) !! p) as [cn|]; [|by injection Hs as <- _].
    destruct (negb (retired cn)); [|by injection Hs as <- _].
    destruct Hok as (ss & Ho & Hrest); destruct (set_slot_spec i None s ss Ho Hi) as (s1 & E1 & _).
    rewrite Hs in E1; injection E1 as <- ->; apply (slots_ok_empty i s); [done | done | by exists ss].
  - unfold close_retired, on_c_manager in Hs; injection Hs as <- _; by apply (slots_ok_conn p conn_Close).
Qed.

(** ** Retirement *)

(** An expired connection.  The check takes it out of its slot and no other, marks it, tells the
    peer, and arms the timer that will close it; the end of its read loop then leaves the slot alone,
    so that a connection dialled into the slot in the meantime stays. *)
Theorem expired_connection_retired fuel b1 b2 time now_ms jitter i p cn cn1 b s ss :
  own_session s ss -> zget (conns ss) i = Some (Some p) -> conn_store (c_manager s) !! p = Some cn ->
  expire_at_unix_secs cn < wrap 32 time ->
  MuxConnection.WriteEvent (make_event 0 RetireConnRequest)
    (set_retired (fun _ => true) (ResetCounter (wrap 32 time) cn)) = (cn1, Ok b) ->
  exists s' task t, check_slot flags fuel b1 b2 time now_ms jitter i s = (s', Ok tt) /\
    slots s' = <[Z.to_nat i := None]> (slots s) /\ conn_store (c_manager s') = <[p := cn1]> (conn_store (c_manager s)) /\
    retired cn1 = true /\ tasks (c_wheel s) !! task = None /\ tasks (c_wheel s') !! task = Some t /\
    timeout_msecs t = 15000 /\ canceled t = false /\
    forall s2, conn_store (c_manager s2) !! p = Some cn1 -> read_loop_ended p i s2 = (s2, Ok tt).
Proof.
  intros Hs Hi Hc He Hw; pose proof (zget_Some_range _ _ _ Hi) as Hr.
  assert (retired cn1 = true) as Hret by (apply (preserves_eq conn_ident _) in Hw; unfold conn_ident in Hw; cbn in Hw; congruence).
  unfold check_slot; srun; rewrite (slots_own s ss Hs), Hi, Hc; unfold on_c_manager at 1.
  bool_true (expire_at_unix_secs cn <? wrap 32 time); unfold retire, on_c_manager at 1, smodify at 1; srun.
  set (s1 := set_c_manager _ _).
  assert (own_session s1 ss) as Hs1 by (unfold own_session; cbn; exact Hs).
  destruct (set_slot_spec i None s1 ss Hs1 ltac:(lia)) as (s2 & E2 & Ho2 & Hc2 & _ & Hw2 & _); rewrite E2.
  assert (conn_store (c_manager s2) = <[p := set_retired (fun _ => true) (ResetCounter (wrap 32 time) cn)]> (conn_store (c_manager s))) as Hst.
  { rewrite Hc2; cbn; apply map_eq; intros q; destruct (decide (p = q)) as [->|Hne].
    - by rewrite lookup_alter_eq, !lookup_insert_eq.
    - by rewrite lookup_alter_ne, !lookup_insert_ne. }
  rewrite Hst, lookup_insert_eq, Hw; unfold on_c_manager.
  eexists _, (fresh (dom (tasks (c_wheel s)))), _; split; [done|].
  split; [unfold slots in *; cbn; by rewrite Ho2|]; cbn; rewrite Hst, insert_insert_eq, Hw2; cbn.
  split; [done|]; split; [done|]; split; [apply not_elem_of_dom, is_fresh|]; rewrite lookup_insert_eq.
  do 3 (split; [done|]); intros s3 Hs3; unfold read_loop_ended; srun; by rewrite Hs3, Hret.
Qed.

End client_facts.

(** ** Witnesses *)

Module ClientDemo.
Export ConnDemo.
Import RefAbsl.

#[export] Instance demo_sha1 : OpenSSL := fun _ => zrepeat 20 7.
#[export] Instance demo_tls : Tls pipe pipe := {| tls_new k := k; ClientHandshake := sret 0 |}.
#[export] Instance demo_transport : IOConnection (transport pipe pipe) := transport_conn (fun _ => [1; 2; 3; 4]) (fun _ => [1; 2; 3; 4]).
#[export] Instance demo_clock : Clock (transport pipe pipe) := fun _ => 1700000000.

(** The server's answer to the handshake. *)
Definition welcome : pipe :=
  {| chunks := [frame_bytes (make_event 0 (AuthResponse {| authres_success := true; iv := 5 |}))]; sent := [] |}.

#[export] Instance welcome_net : Network unit unit pipe := {|
  async_resolve host service := sret (0, [tt]);
  async_connect _ := sret (0, welcome)
|}.

Definition flags0 : ClientFlags :=
  {| role := entry_role; conn_num_per_server := 2; expire_secs := 1800; http_proxy := None; remote_tunnels := [] |}.

Definition old_conn : MuxConnection (transport pipe pipe) :=
  set_authed (fun _ => true) (MuxConnection_new MUX_EXIT_CONN (TcpSocket quiet) ctx true false false 1800 30).

Definition session0 : MuxSession := {| conns := [None; Some 0%nat]; tunnel_servers := [] |}.

(** Two slots: the first is empty, the second holds a connection. *)
Definition client0 : MuxClient unit (transport pipe pipe) := {|
  conn_type := MUX_EXIT_CONN; remote_session := 0;
  remote_mux_address := {| schema := bs "tcp"; Address.host := bs "server"; Address.port := 48100; path := [] |};
  client_user := bs "alice"; client_cipher_method := bs "chacha20_poly1305"; client_cipher_key := bs "hello,world";
  client_client_id := 42;
  c_manager := {| mux_conns := ∅; session_store := {[ 0%nat := session0 ]}; conn_store := {[ 0%nat := old_conn ]} |};
  c_net := tt; c_wheel := TimeWheel_new 16; read_loops := [(0%nat, 1)] |}.

Lemma client0_ok : slots_ok flags0 client0.
Proof.
  exists session0; split; [reflexivity|]; split; [reflexivity|]; split.
  - intros [|[|j]] p Hj; cbn in Hj; [done | injection Hj as <-; by exists old_conn | done].
  - intros [|[|j]] [|[|k]] p Hj Hk; cbn in *; done.
Qed.

End ClientDemo.

Section witnesses.
Import ClientDemo RefAbsl.

Lemma new_connection_fills_slot_witness :
  let run := NewConnection flags0 100 [] [] 1700000000 7 0 client0 in
  snd run = Ok 0 /\
  ((slots (fst run) = slots client0 /\ conn_store (c_manager (fst run)) = conn_store (c_manager client0) /\
    read_loops (fst run) = read_loops client0) \/
   (snd run = Ok 0 /\ 0 < zlen (slots client0) /\ exists p cn, conn_store (c_manager client0) !! p = None /\
     conn_store (c_manager (fst run)) = <[p := cn]> (conn_store (c_manager client0)) /\
     slots (fst run) = <[0%nat := Some p]> (slots client0) /\ read_loops (fst run) = read_loops client0 ++ [(p, 0)] /\
     is_authed cn = true /\ idx cn = 0 /\ conn_client_id cn = 42 /\ type_ cn = MUX_EXIT_CONN)).
Proof.
  intros run; split; [by vm_compute|].
  exact (new_connection_fills_slot flags0 100 [] [] 1700000000 7 0 client0 session0 (fst run) (snd run)
    eq_refl ltac:(done) (surjective_pairing run)).
Defined.

Lemma client_slots_invariant_witness :
  slots_ok flags0 (fst (NewConnection flags0 100 [] [] 1700000000 7 0 client0)).
Proof.
  apply (client_slots_invariant flags0 client0); [apply client0_ok|].
  apply rtc_once; eapply (step_dial flags0 100 [] [] 1700000000 7 0); [done | apply surjective_pairing].
Defined.

Lemma expired_connection_retired_witness :
  exists s' cn1 task t, check_slot flags0 100 [] [] 1700009999 1700009999000 7 1 client0 = (s', Ok tt) /\
    slots s' = [None; None] /\ conn_store (c_manager s') = <[0%nat := cn1]> (conn_store (c_manager client0)) /\
    retired cn1 = true /\ tasks (c_wheel s') !! task = Some t /\ timeout_msecs t = 15000 /\ canceled t = false.
Proof.
  pose (run := MuxConnection.WriteEvent (make_event 0 RetireConnRequest)
    (set_retired (fun _ => true) (ResetCounter (wrap 32 1700009999) old_conn))).
  destruct (expired_connection_retired flags0 100 [] [] 1700009999 1700009999000 7 1 0 old_conn (fst run) true client0 session0)
    as (s' & task & t & E1 & Hs & Hc & Hr & _ & Ht & Hm & Hca & _);
    [reflexivity | reflexivity | reflexivity | by vm_compute | |].
  - etrans; [apply surjective_pairing|]; f_equal; by vm_compute.
  - exists s', (fst run), task, t; exact (conj E1 (conj Hs (conj Hc (conj Hr (conj Ht (conj Hm Hca)))))).
Defined.

End witnesses.
