(* ===== verification/MuxServer.v ===== *)
(** * The server side of the multiplexed connections

    src/snova/server/mux_server.cc: what a node does with an accepted connection of a peer: the
    transport, the handshake, the registration with the connection manager, the read loop of
    [MuxDispatch], and the clean-up. *)

From S2P Require Import Prelude Endian IoBuf TimeWheel Text HttpHelper Sni NetHelper LocalProxy Address PbMessages MuxEvent CipherContext Io WsSocket Connect.
From S2P Require Import AsyncMutex MuxConnection MuxStream MuxConnManager MuxDispatch TunnelServer MuxClient.

Inductive MuxTransportType := MUX_OVER_TCP | MUX_OVER_WEBSOCKET | MUX_OVER_TLS | MUX_OVER_TLS_WEBSOCKET.

(** The counter of the file, the streams with the connection manager as their environment, the
    relays that were spawned, the tunnel servers and the time wheel. *)
Record MuxServer (C Ch T : Type) := {
  g_mux_server_conn_num : Z;
  sv_streams : Streams (MuxConnManager C) nat (nat * Z) Ch;
  sv_spawned : list (bytes * Z * MuxEvent);
  sv_tunnels : T;
  sv_wheel : TimeWheel
}.
Arguments Build_MuxServer {C Ch T}. Arguments g_mux_server_conn_num {C Ch T}. Arguments sv_streams {C Ch T}.
Arguments sv_spawned {C Ch T}. Arguments sv_tunnels {C Ch T}. Arguments sv_wheel {C Ch T}.

Section server.
Context `{Platform} `{Nanopb} `{Aead} `{AbslStrings, OpenSSL}.
Context {K L Ch T : Type} `{IOConnection K}.
Abbreviation C := (transport K L).
Context `{IOConnection C} `{Clock C} `{HashOrder} `{DataChannel Ch}.
Abbreviation Sv := (MuxServer C Ch T).
Variable tunnel_handler : bytes -> Z -> MuxEvent -> st T (option MuxEvent).

Definition server_eta (r : Sv) : Sv :=
  {| g_mux_server_conn_num := g_mux_server_conn_num r; sv_streams := sv_streams r; sv_spawned := sv_spawned r;
     sv_tunnels := sv_tunnels r; sv_wheel := sv_wheel r |}.
Definition svupd (A : Type) : Type := (A -> A) -> Sv -> Sv.
Definition set_conn_num : svupd Z := ltac:(setter server_eta (@g_mux_server_conn_num C Ch T)).
Definition set_sv_streams : svupd (Streams (MuxConnManager C) nat (nat * Z) Ch) := ltac:(setter server_eta (@sv_streams C Ch T)).
Definition set_sv_wheel : svupd TimeWheel := ltac:(setter server_eta (@sv_wheel C Ch T)).

Definition sv_manager (s : Sv) : MuxConnManager C := ms_env (sv_streams s).
Definition on_sv_manager {A} (m : st (MuxConnManager C) A) : st Sv A := fun s =>
  let '(c, r) := m (sv_manager s) in (set_sv_streams (set_env (fun _ => c)) s, r).

(** The transport of an accepted socket; [None] when the connection is given up. *)
Definition accept_transport (ty : MuxTransportType) (buf : bytes) (sock : K) : res (option C) :=
  match ty with
  | MUX_OVER_TCP => Ok (Some (TcpSocket sock))
  | MUX_OVER_WEBSOCKET =>
      let '(ws_conn, r) := AsyncAccept (WebSocket_new sock buf) in
      do ec <- r;
      if negb (ec =? 0) then Ok None else Ok (Some (WsTcp ws_conn))
  | _ => Ok None
  end.

(** [ReadEventLoop] of the connection [p]: the loop works on the object in the store, on the streams
    and on the tunnel servers; the result is the number of calls of the retire callback. *)
Definition read_event_loop (fuel : nat) (p : nat) : st Sv Z := fun s =>
  match conn_store (sv_manager s) !! p with
  | None => (s, Ub)
  | Some c =>
      let '(d, r) := ReadEventLoop tunnel_handler fuel
        {| d_conn := c; d_streams := sv_streams s; d_spawned := sv_spawned s; d_retire_calls := 0; d_tunnels := sv_tunnels s |} in
      ({| g_mux_server_conn_num := g_mux_server_conn_num s;
          sv_streams := set_env (set_conn_store (insert p (d_conn d))) (d_streams d);
          sv_spawned := d_spawned d; sv_tunnels := d_tunnels d; sv_wheel := sv_wheel s |},
       do _ <- r; Ok (d_retire_calls d))
  end.

(** The retire callback, and so many calls of it. *)
Definition retire_callback (now_ms : Z) (mux_user : bytes) (p : nat) : st Sv unit :=
  let! s := sget in
  let! c := slift (access (conn_store (sv_manager s) !! p)) in
  let! _ := on_sv_manager (manager_Remove mux_user (conn_client_id c) p) in
  smodify (set_sv_wheel (fun w => fst (TimeWheel.Add now_ms 60000 w))).

Fixpoint retire_calls (n : nat) (now_ms : Z) (mux_user : bytes) (p : nat) : st Sv unit :=
  match n with
  | O => sret tt
  | S n => let! _ := retire_callback now_ms mux_user p in retire_calls n now_ms mux_user p
  end.

(** From the registration to the end of the connection. *)
Definition serve (fuel : nat) (now_ms : Z) (mux_user : bytes) (client_id : Z) (mux_conn : MuxConnection C) : st Sv unit :=
  let! s := sget in
  let p := fresh (dom (conn_store (sv_manager s))) in
  let! _ := on_sv_manager (smodify (set_conn_store (insert p mux_conn))) in
  let! '(_, i) := on_sv_manager (MuxConnManager.Add mux_user client_id p) in
  let! _ := on_sv_manager (smodify (set_conn_store (alter (set_idx (fun _ => i)) p))) in
  let! calls := read_event_loop fuel p in
  let! _ := retire_calls (Z.to_nat calls) now_ms mux_user p in
  let! _ := on_sv_manager (smodify (set_conn_store (alter conn_Close p))) in
  on_sv_manager (manager_Remove mux_user client_id p).

(** [handle_conn]; the counter is restored by the clean-up. *)
Definition handle_conn (fuel : nat) (role : NodeRole) (expire_secs jitter iv0 now_ms : Z) (buf : bytes)
    (ty : MuxTransportType) (cipher_method cipher_key : bytes) (sock : K) : st Sv unit := fun s =>
  let s := set_conn_num (fun n => wrap 32 (n + 1)) s in
  let '(s, r) :=
    (let! ctx := slift (access (CipherContext.New cipher_method cipher_key)) in
     let! io_conn := slift (accept_transport ty buf sock) in
     match io_conn with
     | None => sret tt
     | Some io_conn =>
         let mux_conn := MuxConnection_new MUX_ENTRY_CONN io_conn ctx false false false expire_secs jitter in
         let '(mux_conn, r) := ServerAuth role iv0 mux_conn in
         let! '(auth_user, client_id, auth_success) := slift r in
         if negb auth_success then sret tt
         else
           let mux_conn := set_retire_callback (fun _ => true) (set_server_relay (fun _ => true) mux_conn) in
           serve fuel now_ms auth_user client_id mux_conn
     end) s in
  match r with
  | Ok _ | Err _ => (set_conn_num (fun n => wrap 32 (n - 1)) s, r)
  | _ => (s, r)
  end.

(** The accept loop: the sockets whose handlers it spawns, with their transport, before
    [async_accept] fails. *)
Fixpoint mux_server_loop {N Ep} `{Acceptors N Ep K} (fuel : nat) (server : nat) (ty : MuxTransportType)
  : st N (list (K * MuxTransportType)) :=
  match fuel with
  | O => slift Hang
  | S fuel =>
      let! '(ec, client) := tcp_accept server in
      if negb (ec =? 0) then sret []
      else let! rest := mux_server_loop fuel server ty in sret ((client, ty) :: rest)
  end.

(** The transport [start_mux_server] chooses for a listen address. *)
Definition server_transport (server_address : NetAddress) : MuxTransportType :=
  if decide (schema server_address = bs "ws") then MUX_OVER_WEBSOCKET else MUX_OVER_TCP.

(** [start_mux_server]: the error code, and the socket with the transport of its accept loop. *)
Definition start_mux_server {N Ep} `{Network N Ep K, Acceptors N Ep K} (server_address : NetAddress)
    (cipher_method cipher_key : bytes) : st N (Z + nat * MuxTransportType) :=
  match CipherContext.New cipher_method cipher_key with
  | None => sret (inl invalid_argument)
  | Some _ =>
      let! r := do_resolve_endpoint (Address.host server_address) (Address.port server_address) in
      match r with
      | inl resolve_ec => sret (inl resolve_ec)
      | inr endpoint =>
          let! a := open_acceptor endpoint in
          match a with
          | inl ec => sret (inl ec)
          | inr acceptor => sret (inr (acceptor, server_transport server_address))
          end
      end
  end.

End server.

(** ** What the read loop leaves alone *)

Section loop_facts.
Context `{Platform} `{Nanopb} `{Aead}.
Context {C E F Wr Ch T : Type} `{IOConnection C} `{Clock C} `{EventWriters E F Wr} `{DataChannel Ch}.
Variable handler : bytes -> Z -> MuxEvent -> st T (option MuxEvent).
Implicit Type d : Dispatch C E F Wr Ch T.

(** The kind and the client of the connection, and the environment of the streams. *)
Definition loop_view (d : Dispatch C E F Wr Ch T) :=
  (type_ (d_conn d), conn_client_id (d_conn d), ms_env (d_streams d)).

#[local] Instance view_conn {A} (m : st (MuxConnection C) A) :
  Preserves conn_ident m -> Preserves loop_view (d_on_conn (E := E) (F := F) (Wr := Wr) (Ch := Ch) (T := T) m).
Proof.
  intros Hm d; unfold d_on_conn; specialize (Hm (d_conn d)); destruct (m (d_conn d)) as [c r].
  unfold loop_view, conn_ident in *; cbn in *; congruence.
Qed.
#[local] Instance view_streams {A} (m : st (Streams E F Wr Ch) A) :
  Preserves ms_env m -> Preserves loop_view (d_on_streams (C := C) (T := T) m).
Proof.
  intros Hm d; unfold d_on_streams; specialize (Hm (d_streams d)); destruct (m (d_streams d)) as [c r].
  unfold loop_view in *; cbn in *; congruence.
Qed.
#[local] Instance view_tunnels {A} (m : st T A) : Preserves loop_view (d_on_tunnels (C := C) (E := E) (F := F) (Wr := Wr) (Ch := Ch) m).
Proof. intros d; unfold d_on_tunnels; by destruct (m (d_tunnels d)). Qed.
#[local] Instance view_state v : Preserves loop_view (d_state (C := C) (E := E) (F := F) (Wr := Wr) (Ch := Ch) (T := T) v).
Proof. done. Qed.

#[local] Instance env_close p : Preserves ms_env (Close (E := E) (F := F) (Wr := Wr) (Ch := Ch) true p).
Proof.
  unfold Close; apply preserves_sbind; [done|]; intros o; apply preserves_if; [apply _|].
  repeat (apply preserves_sbind; [done | intros _]); apply _.
Qed.
#[local] Instance env_offer m p : Preserves ms_env (Offer (E := E) (F := F) (Wr := Wr) (Ch := Ch) m p).
Proof.
  unfold Offer; apply preserves_sbind; [done|]; intros o; apply preserves_if; [apply _|]; intros s.
  unfold on_channel, deref, assign; srun; destruct (objects s !! p); [|done].
  by destruct (chan_send m (data_channel _)) as [c [| | |]].
Qed.

#[local] Instance view_dispatch e : Preserves loop_view (dispatch_event (E := E) (F := F) (Wr := Wr) handler e).
Proof.
  unfold dispatch_event, on_retire, on_tunnel_open, on_stream_open, on_stream_close, on_stream_chunk, on_unknown_stream.
  repeat first [ apply _ | apply preserves_smodify; intros; reflexivity | apply preserves_sbind; [|intros ?]
               | apply preserves_if | case_match ].
Qed.

Lemma view_process : Preserves loop_view (ProcessReadEvent (E := E) (F := F) (Wr := Wr) handler).
Proof.
  intros d; unfold ProcessReadEvent; cbv zeta; set (d0 := fst (d_state STATE_READING d)).
  pose proof (preserves (f := loop_view) (m := d_on_conn ReadEvent) d0) as Hr.
  destruct (d_on_conn ReadEvent d0) as [d1 [e|rc| |]]; cbn [fst] in Hr; try exact Hr.
  etrans; [apply view_dispatch | exact Hr].
Qed.

Lemma view_read_loop fuel : Preserves loop_view (ReadEventLoop (E := E) (F := F) (Wr := Wr) handler fuel).
Proof.
  unfold ReadEventLoop; apply preserves_sbind; [|intros _; apply preserves_sbind; [done|]; intros _; by apply preserves_smodify].
  induction fuel as [|fuel IH]; cbn [ReadEventLoop_body]; [apply _|].
  apply preserves_sbind; [apply view_process|]; intros rc; apply preserves_if; [apply _ | apply IH].
Qed.

End loop_facts.

(** ** Registered connections *)

Section registration.
Context `{Platform} `{Nanopb} `{Aead}.
Context {C : Type} `{IOConnection C} `{Clock C} `{HashOrder}.
Implicit Type m : MuxConnManager C.

(** Some session holds the connection. *)
Definition held (m : MuxConnManager C) (q : nat) : Prop :=
  exists sp s, session_store m !! sp = Some s /\ Some q ∈ conns s.

(** Only the session of [user], [cid] and [ty] may hold the connection, once. *)
Definition only_in (user : bytes) (cid : Z) (ty : MuxConnectionType) (p : nat) (m : MuxConnManager C) : Prop :=
  forall sp s, session_store m !! sp = Some s -> Some p ∈ conns s ->
    GetEventWriterFactory user cid ty m = Some sp /\ (forall a b, conns s = a ++ Some p :: b -> Some p ∉ b).

Lemma once_suffix {A} (x : A) a b c d : x ∉ a -> x ∉ b -> a ++ x :: b = c ++ x :: d -> x ∉ d.
Proof.
  revert c; induction a as [|y a IH]; intros [|z c] Ha Hb; cbn; intros [=]; subst; try done.
  - by destruct Hb; apply elem_of_app; right; left.
  - by destruct Ha; left.
  - apply (IH c); [|done..]; intros Hx; by apply Ha; right.
Qed.

Lemma fresh_not_held m : manager_wf m -> ~ held m (fresh (dom (conn_store m))).
Proof.
  intros [_ Hw] (sp & s & Hs & Hp); destruct (Hw _ _ _ Hs Hp) as [c Hc].
  apply (is_fresh (dom (conn_store m))), elem_of_dom; by exists c.
Qed.

Lemma held_insert_session m sp s q :
  held (set_session_store (insert sp s) m) q -> Some q ∈ conns s \/ held m q.
Proof.
  intros (sp' & s' & Hs' & Hq); cbn in Hs'; apply lookup_insert_Some in Hs' as [[_ <-]|[_ Hs']]; [by left|].
  right; by exists sp', s'.
Qed.

Lemma GetSession_held user cid ty m m' sp :
  GetSession user cid ty m = (m', Ok sp) ->
  GetEventWriterFactory user cid ty m' = Some sp /\ conn_store m' = conn_store m /\ (forall q, held m' q -> held m q).
Proof.
  assert (exists u m1, GetUserMuxConn user m = (m1, Ok u) /\ mux_conns m1 !! user = Some u /\
    session_store m1 = session_store m /\ conn_store m1 = conn_store m) as (u & m1 & E & Hu & Hs & Hc).
  { unfold GetUserMuxConn; srun; destruct (mux_conns m !! user) as [u|] eqn:Eu; [by exists u, m|].
    eexists empty_user, _; split; [done|]; cbn; by rewrite lookup_insert_eq. }
  unfold GetSession; rewrite (sbind_ok _ _ _ _ _ E); destruct (sessions ty u !! cid) as [sp0|] eqn:Esp.
  - intros [= <- <-]; unfold GetEventWriterFactory; rewrite Hu; split; [exact Esp|]; split; [done|].
    intros q (sp & s & Hsp & Hq); rewrite Hs in Hsp; by exists sp, s.
  - srun; intros [= <- <-]; unfold GetEventWriterFactory; cbn; rewrite lookup_insert_eq; cbn.
    rewrite sessions_set, decide_True, lookup_insert_eq by done; split; [done|]; split; [done|].
    intros q Hq; destruct (held_insert_session m1 (fresh (dom (session_store m1))) empty_session q) as [Hin|(sp & s & Hsp & Hin)].
    + exact Hq.
    + by apply not_elem_of_nil in Hin.
    + rewrite Hs in Hsp; by exists sp, s.
Qed.

Lemma Add_held user cid p c m m' r :
  conn_store m !! p = Some c -> ~ held m p -> MuxConnManager.Add user cid p m = (m', Ok r) ->
  only_in user cid (type_ c) p m' /\ (forall q, held m' q -> q = p \/ held m q) /\ conn_store m' = conn_store m.
Proof.
  intros Hc Hp; unfold MuxConnManager.Add; srun; rewrite Hc.
  destruct (GetSession user cid (type_ c) m) as [m1 [sp| | |]] eqn:Eg; try done.
  destruct (GetSession_held _ _ _ _ _ _ Eg) as (Hf & Hcs & Hh).
  destruct (session_store m1 !! sp) as [s|] eqn:Hs; [|done]; destruct (add_conn p (conns s)) as [l i] eqn:Ea.
  intros [= <- <-]; destruct (add_conn_spec _ _ _ _ Ea) as (a & b & _ & _ & _ & -> & Hb).
  assert (forall q, Some q ∈ conns s -> q <> p) as Hne by (intros q Hq ->; apply Hp, Hh; by exists sp, s).
  assert (forall o, o ∈ a \/ o ∈ b -> o ∈ conns s) as Hab.
  { intros o Ho; destruct Hb as [->|[-> ->]]; [|by destruct Ho as [?|Ho]; [|apply not_elem_of_nil in Ho]].
    rewrite elem_of_app, elem_of_cons; tauto. }
  assert ((Some p ∉ a) /\ (Some p ∉ b)) as [Hpa Hpb] by (split; intros Hin; eapply Hne; eauto).
  split_and!; [|intros q Hq; apply held_insert_session in Hq as [Hq|Hq]; [|right; by apply Hh] | done].
  - intros sp' s' Hs' Hin; cbn in Hs'; apply lookup_insert_Some in Hs' as [[<- <-]|[_ Hs']]; cbn in *.
    + split; [done|]; intros x y Hxy; by apply (once_suffix (Some p) a b x y).
    + exfalso; apply Hp, Hh; by exists sp', s'.
  - cbn in Hq; apply elem_of_app in Hq as [Hq|[[= <-]|Hq]%elem_of_cons]; [|by left|]; right; apply Hh; exists sp, s; auto.
Qed.

Lemma Remove_held user cid cid' p c m m' :
  conn_store m !! p = Some c -> only_in user cid (type_ c) p m -> manager_Remove user cid' p m = (m', Ok tt) ->
  only_in user cid (type_ c) p m' /\ (cid' = cid -> ~ held m' p) /\ (forall q, held m' q -> held m q) /\
  conn_store m' = conn_store m.
Proof.
  intros Hc Ho; unfold manager_Remove; srun; rewrite Hc.
  destruct (mux_conns m !! user) as [u|] eqn:Hu.
  2: { intros [= <-]; split_and!; try done; intros -> (sp & s & Hs & Hp).
       destruct (Ho sp s Hs Hp) as [Hf _]; unfold GetEventWriterFactory in Hf; by rewrite Hu in Hf. }
  destruct (sessions (type_ c) u !! cid') as [sp|] eqn:Hsp.
  2: { intros [= <-]; split_and!; try done; intros -> (sp & s & Hs & Hp).
       destruct (Ho sp s Hs Hp) as [Hf _]; unfold GetEventWriterFactory in Hf; rewrite Hu in Hf; cbn in Hf; congruence. }
  destruct (session_store m !! sp) as [s|] eqn:Hs; [|done].
  rewrite remove_conn_spec by (try done; intros a b Hab; refine (proj2 (Ho sp s Hs _) a b Hab); rewrite Hab; apply elem_of_app; right; by left).
  set (l := _ <$> conns s); set (ae := _ && _); set (m1 := set_session_store (insert sp {| conns := l; tunnel_servers := _ |}) m).
  assert (forall q, Some q ∈ l -> Some q ∈ conns s /\ q <> p) as Hl.
  { intros q (x & Hx & Hin)%list_elem_of_fmap; case_decide as Hd; simplify_eq; split; [done | by intros ->]. }
  assert (forall q, held m1 q -> held m q) as Hh.
  { intros q [Hq|Hq]%held_insert_session; [apply Hl in Hq as [Hq _]; by exists sp, s | done]. }
  assert (forall sp' s', session_store m1 !! sp' = Some s' -> Some p ∈ conns s' -> sp' <> sp /\ session_store m !! sp' = Some s') as Hother.
  { intros sp' s' Hs' Hin; cbn in Hs'; apply lookup_insert_Some in Hs' as [[<- <-]|[? ?]]; [|done].
    by apply Hl in Hin as [_ []]. }
  assert (cid' = cid -> ~ held m1 p) as Hgone.
  { intros -> (sp' & s' & Hs' & Hin); destruct (Hother _ _ Hs' Hin) as [Hne Hs2].
    destruct (Ho _ _ Hs2 Hin) as [Hf _]; unfold GetEventWriterFactory in Hf; rewrite Hu in Hf; cbn in Hf; congruence. }
  destruct ae; intros [= <-]; (split; [|split; [done | split; done]]);
    intros sp' s' Hs' Hin; destruct (Hother _ _ Hs' Hin) as [Hne Hs2]; destruct (Ho _ _ Hs2 Hin) as [Hf Hu2]; (split; [|done]);
    [|exact Hf].
  unfold GetEventWriterFactory in *; rewrite Hu in Hf; cbn in *; rewrite lookup_insert_eq; cbn.
  rewrite sessions_set, decide_True by done; rewrite lookup_delete_ne; [done|]; intros ->; congruence.
Qed.

End registration.

(** ** The life of an accepted connection *)

Section server_facts.
Context `{Platform} `{Nanopb} `{Aead} `{AbslStrings, OpenSSL}.
Context {K L Ch T : Type} `{IOConnection K}.
Abbreviation C := (transport K L).
Context `{IOConnection C} `{Clock C} `{HashOrder} `{DataChannel Ch}.
Variable handler : bytes -> Z -> MuxEvent -> st T (option MuxEvent).
Implicit Type s : MuxServer C Ch T.

#[local] Instance num_on_manager {A} (m : st (MuxConnManager C) A) : Preserves g_mux_server_conn_num (on_sv_manager (K := K) (L := L) (Ch := Ch) (T := T) m).
Proof. intros s; unfold on_sv_manager; by destruct (m (sv_manager s)). Qed.
#[local] Instance num_retire now user p : Preserves g_mux_server_conn_num (retire_callback (K := K) (L := L) (Ch := Ch) (T := T) now user p).
Proof. unfold retire_callback; repeat (apply preserves_sbind; [apply _ | intros ?]); by apply preserves_smodify. Qed.
#[local] Instance num_retires n now user p : Preserves g_mux_server_conn_num (retire_calls (K := K) (L := L) (Ch := Ch) (T := T) n now user p).
Proof. induction n as [|n IH]; cbn [retire_calls]; apply _. Qed.
#[local] Instance num_read_loop fuel p : Preserves g_mux_server_conn_num (read_event_loop (K := K) (L := L) handler fuel p).
Proof. intros s; unfold read_event_loop; destruct (_ !! p); [|done]; by destruct (ReadEventLoop _ _ _). Qed.
#[local] Instance num_serve fuel now user cid cn : Preserves g_mux_server_conn_num (serve (K := K) (L := L) handler fuel now user cid cn).
Proof. unfold serve; apply _. Qed.

(** The counter.  [handle_conn] counts the connection while it runs: when it returns or throws, the
    counter has the value it had before. *)
Theorem conn_counter_restored fuel role expire jitter iv0 now buf ty method key sock s s' r :
  handle_conn handler fuel role expire jitter iv0 now buf ty method key sock s = (s', r) ->
  fits 32 (g_mux_server_conn_num s) ->
  match r with Ok _ | Err _ => g_mux_server_conn_num s' = g_mux_server_conn_num s | _ => True end.
Proof.
  unfold handle_conn; cbv zeta; set (s0 := set_conn_num _ s).
  match goal with |- context [?m s0] => set (body := m) end.
  assert (Preserves g_mux_server_conn_num body) as Hp.
  { unfold body; repeat first [ apply _ | apply preserves_sbind; [|intros ?] | case_match ]. }
  specialize (Hp s0); clearbody body; destruct (body s0) as [s1 r1]; cbn in Hp; intros E Hf.
  assert (wrap 32 (g_mux_server_conn_num s1 - 1) = g_mux_server_conn_num s) as Hw.
  { rewrite Hp; unfold wrap, fits in *; rewrite Zminus_mod_idemp_l, Z.add_simpl_r; by apply Z.mod_small. }
  by destruct r1; injection E as <- <-.
Qed.

(** The end of the read loop, the retire callbacks, and the invariant of the registration. *)
Lemma on_manager_inv {A} (m : st (MuxConnManager C) A) s s' a :
  on_sv_manager m s = (s', Ok a) -> m (sv_manager s) = (sv_manager s', Ok a).
Proof. unfold on_sv_manager; destruct (m (sv_manager s)) as [c r]; by intros [= <- ->]. Qed.

(** What holds of the manager while the connection [p] of type [ty] is served. *)
Definition serving (user : bytes) (cid : Z) (ty : MuxConnectionType) (p : nat) (m0 m : MuxConnManager C) : Prop :=
  (exists c, conn_store m !! p = Some c /\ type_ c = ty) /\ only_in user cid ty p m /\
  (forall q, held m q -> q = p \/ held m0 q).

Lemma serving_store user cid ty p m0 m f :
  serving user cid ty p m0 m -> (forall c, type_ (f c) = type_ c) -> serving user cid ty p m0 (set_conn_store (alter f p) m).
Proof.
  intros ((c & Hc & Ht) & Ho & Hh) Hf; split; [|done]; exists (f c); cbn; rewrite lookup_alter_eq, Hc; by rewrite Hf.
Qed.

Lemma serving_remove user cid cid' ty p m0 m m' :
  serving user cid ty p m0 m -> manager_Remove user cid' p m = (m', Ok tt) ->
  serving user cid ty p m0 m' /\ (cid' = cid -> ~ held m' p).
Proof.
  intros ((c & Hc & <-) & Ho & Hh) E; destruct (Remove_held _ _ _ _ _ _ _ Hc Ho E) as (Ho' & Hg & Hh' & Hst).
  split; [|done]; split; [by exists c; rewrite Hst|]; split; [done|]; intros q Hq; by apply Hh, Hh'.
Qed.

Lemma serving_read_loop fuel user cid ty p m0 s s' n :
  serving user cid ty p m0 (sv_manager s) -> read_event_loop (K := K) (L := L) handler fuel p s = (s', Ok n) ->
  serving user cid ty p m0 (sv_manager s').
Proof.
  intros ((c & Hc & Ht) & Ho & Hh); unfold read_event_loop; rewrite Hc; set (d := Build_Dispatch _ _ _ _ _).
  pose proof (view_read_loop handler fuel d) as Hv; destruct (ReadEventLoop handler fuel d) as [d' r].
  intros [= <- _]; unfold loop_view in Hv; cbn in Hv; injection Hv as Hty _ Henv.
  unfold sv_manager; cbn; rewrite Henv; split; [|by split].
  exists (d_conn d'); cbn; rewrite lookup_insert_eq; split; congruence.
Qed.

Lemma serving_retires n now user cid ty p m0 : forall s s',
  serving user cid ty p m0 (sv_manager s) -> retire_calls n now user p s = (s', Ok tt) -> serving user cid ty p m0 (sv_manager s').
Proof.
  induction n as [|n IH]; intros s s' Hs; cbn [retire_calls]; [by intros [= <-]|].
  intros (s1 & [] & E1 & E2)%sbind_inv; refine (IH s1 s' _ E2); clear IH E2.
  unfold retire_callback in E1; apply sbind_inv in E1 as (s2 & x & [= -> ->] & E1).
  apply sbind_inv in E1 as (s3 & c & E0 & E1); injection E0 as -> _.
  apply sbind_inv in E1 as (s4 & [] & E3%on_manager_inv & [= <-]).
  exact (proj1 (serving_remove _ _ _ _ _ _ _ _ Hs E3)).
Qed.

Lemma serve_unregisters fuel now user cid cn s s' :
  manager_wf (sv_manager s) -> serve (K := K) (L := L) handler fuel now user cid cn s = (s', Ok tt) ->
  forall q, held (sv_manager s') q -> held (sv_manager s) q.
Proof.
  intros Hwf E; unfold serve in E; apply sbind_inv in E as (? & x & [= <- <-] & E).
  pose proof (fresh_not_held _ Hwf) as Hp; revert E Hp; set (p := fresh _); intros E Hp.
  apply sbind_inv in E as (s2 & [] & E1%on_manager_inv & E); injection E1 as E1.
  apply sbind_inv in E as (s3 & [sp i] & E2%on_manager_inv & E).
  apply sbind_inv in E as (s4 & [] & E3%on_manager_inv & E); injection E3 as E3.
  apply sbind_inv in E as (s5 & n & E4 & E); apply sbind_inv in E as (s6 & [] & E5 & E).
  apply sbind_inv in E as (s7 & [] & E6%on_manager_inv & E7%on_manager_inv); injection E6 as E6.
  assert (serving user cid (type_ cn) p (sv_manager s) (sv_manager s3)) as Hs3.
  { destruct (Add_held user cid p cn (sv_manager s2) (sv_manager s3) (sp, i)) as (Ho & Hh & Hst); try done.
    - rewrite <- E1; cbn; by rewrite lookup_insert_eq.
    - by rewrite <- E1.
    - split; [exists cn; rewrite Hst, <- E1; cbn; by rewrite lookup_insert_eq|]; split; [done|].
      intros q Hq; destruct (Hh q Hq) as [->|Hq']; [by left|]; right; by rewrite <- E1 in Hq'. }
  apply (serving_store _ _ _ _ _ _ (set_idx (fun _ => i))) in Hs3; [|done]; rewrite E3 in Hs3.
  apply (serving_read_loop fuel _ _ _ _ _ _ _ _ Hs3) in E4; apply (serving_retires _ _ _ _ _ _ _ _ _ E4) in E5.
  apply (serving_store _ _ _ _ _ _ conn_Close) in E5; [|done]; rewrite E6 in E5.
  destruct (serving_remove _ _ _ _ _ _ _ _ E5 E7) as [(_ & _ & Hh) Hg]; intros q Hq.
  destruct (Hh q Hq) as [->|?]; [by destruct (Hg eq_refl) | done].
Qed.

(** C27. Clean-up.  When the handler of an accepted connection returns, no session holds a connection that
    it did not hold before: the connection is unregistered, also when the peer retired it, and no
    other connection was registered in its name. *)
Theorem served_connection_unregistered fuel role expire jitter iv0 now buf ty method key sock s s' :
  manager_wf (sv_manager s) ->
  handle_conn handler fuel role expire jitter iv0 now buf ty method key sock s = (s', Ok tt) ->
  forall q, held (sv_manager s') q -> held (sv_manager s) q.
Proof.
  intros Hwf; unfold handle_conn; cbv zeta; set (s0 := set_conn_num _ s).
  match goal with |- context [?m s0] => destruct (m s0) as [s1 [u| | |]] eqn:E end; try done.
  intros [= <- ->]; change (forall q, held (sv_manager s1) q -> held (sv_manager s0) q).
  assert (manager_wf (sv_manager s0)) as Hwf0 by exact Hwf; clearbody s0; clear Hwf.
  apply sbind_inv in E as (? & ctx & [= <- _] & E); apply sbind_inv in E as (? & io & [= <- _] & E).
  destruct io as [io|]; [|by injection E as <-].
  destruct (ServerAuth _ _ _) as [cn r]; apply sbind_inv in E as (? & [[user cid] ok] & [= <- _] & E).
  destruct ok; [|by injection E as <-]; exact (serve_unregisters _ _ _ _ _ _ _ Hwf0 E).
Qed.

(** A listen address of a TLS scheme is served as a bare TCP transport, while the client of the same
    address speaks TLS. *)
Theorem tls_listen_address_served_plain (a : NetAddress) :
  schema a <> bs "ws" -> server_transport a = MUX_OVER_TCP.
Proof. intros Ha; unfold server_transport; by rewrite decide_False. Qed.

End server_facts.

(** ** Witnesses *)

Module ServerDemo.
Export ClientDemo ManagerDemo StreamDemo RefAbsl.

(** A client that authenticates, retires the connection and then closes. *)
Definition retire_bytes : bytes :=
  match Encrypt wbuf (UpdateNonce 1000 ctx, make_event 0 RetireConnRequest) with (_, Ok w) => w | _ => [] end.
Definition caller : pipe := {| chunks := [frame_bytes alice_request; retire_bytes]; sent := [] |}.
Definition no_tunnels (user : bytes) (cid : Z) (e : MuxEvent) : st unit (option MuxEvent) := sret None.

Definition server0 : MuxServer (transport pipe pipe) chan unit := {|
  g_mux_server_conn_num := 3;
  sv_streams := {| g_streams := ∅; objects := ∅; g_active_stream_size := 0; g_client_sid := 1; g_server_sid := 2;
                   ms_env := {| mux_conns := ∅; session_store := ∅; conn_store := ∅ |} |};
  sv_spawned := []; sv_tunnels := tt; sv_wheel := TimeWheel_new 16 |}.

Abbreviation served := (handle_conn no_tunnels 10 exit_role 1800 7 1000 1700000000000 [] MUX_OVER_TCP
  (bs "chacha20_poly1305") (bs "hello,world") caller server0).

Lemma server0_wf : manager_wf (sv_manager server0).
Proof. by split; intros *; cbn; rewrite lookup_empty. Qed.

Lemma served_returns : served = (fst served, Ok tt).
Proof.
  assert (snd served = Ok tt) as Hr by (vm_compute; reflexivity); rewrite (surjective_pairing served) at 1; by rewrite Hr.
Qed.

End ServerDemo.

Section witnesses.
Import ServerDemo.


Lemma conn_counter_restored_witness :
  served = (fst served, Ok tt) /\ g_mux_server_conn_num (fst served) = g_mux_server_conn_num server0.
Proof.
  split; [exact served_returns|].
  exact (conn_counter_restored no_tunnels 10 exit_role 1800 7 1000 1700000000000 [] MUX_OVER_TCP
    (bs "chacha20_poly1305") (bs "hello,world") caller server0 (fst served) (Ok tt) served_returns ltac:(by vm_compute)).
Defined.

Lemma served_connection_unregistered_witness :
  size (tasks (sv_wheel (fst served))) = 1%nat /\
  forall q, ~ held (sv_manager (fst served)) q.
Proof.
  split; [by vm_compute|]; intros q Hq.
  destruct (served_connection_unregistered no_tunnels 10 exit_role 1800 7 1000 1700000000000 [] MUX_OVER_TCP
    (bs "chacha20_poly1305") (bs "hello,world") caller server0 (fst served) server0_wf served_returns q Hq) as (sp & x & Hx & _).
  discriminate Hx.
Defined.

Lemma tls_listen_address_served_plain_witness :
  server_transport {| schema := bs "tls"; Address.host := []; Address.port := 443; path := [] |} = MUX_OVER_TCP.
Proof. apply (tls_listen_address_served_plain); discriminate. Defined.

End witnesses.
