(* ===== verification/Stat.v ===== *)
(** * Statistics

    src/snova/util/stat.h and .cc, the statistics functions that the other parts register
    (io/io.cc, mux/mux_conn_manager.cc, server/entry_server.cc, server/mux_server.cc), and the
    reports of the sessions, which also close the connections that were idle for too long.  The hash
    maps are [gmap]s with an arbitrary order of traversal; [absl::btree_map] is a list sorted by its
    keys. *)

From stdpp Require Import sorting.
From S2P Require Import Prelude Endian IoBuf PbMessages MuxEvent CipherContext Io AsyncMutex MuxConnection MuxStream MuxConnManager Text TimeWheel HttpHelper WsSocket MuxClient MuxServer.

(** ** Sorted maps with strings as keys *)

(** [operator<] of [std::string]. *)
Fixpoint str_lt (a b : bytes) : bool :=
  match a, b with
  | _, [] => false
  | [], _ :: _ => true
  | x :: a, y :: b => if x <? y then true else if x =? y then str_lt a b else false
  end.

Lemma str_lt_irrefl a : str_lt a a = false.
Proof. induction a as [|x a IH]; [done|]; cbn; by rewrite Z.ltb_irrefl, Z.eqb_refl. Qed.

Lemma str_lt_trans a b c : str_lt a b = true -> str_lt b c = true -> str_lt a c = true.
Proof.
  revert b c; induction a as [|x a IH]; intros [|y b] [|z c]; try done; cbn.
  destruct (Z.ltb_spec x y), (Z.ltb_spec y z), (Z.ltb_spec x z), (Z.eqb_spec x y), (Z.eqb_spec y z),
    (Z.eqb_spec x z); try done; try lia; apply IH.
Qed.

Lemma str_lt_total a b : str_lt a b = false -> a = b \/ str_lt b a = true.
Proof.
  revert b; induction a as [|x a IH]; intros [|y b]; cbn; try (by auto).
  destruct (Z.ltb_spec x y), (Z.eqb_spec x y), (Z.ltb_spec y x), (Z.eqb_spec y x); try done; try lia; auto.
  subst; intros [->| ->]%IH; auto.
Qed.

Definition key_lt (a b : bytes) : Prop := str_lt a b = true.

#[export] Instance key_lt_trans : Transitive key_lt.
Proof. intros a b c; apply str_lt_trans. Qed.

Abbreviation btree V := (list (bytes * V)).

Section btree.
Context {V : Type}.
Implicit Types (m : btree V) (f : option V -> V).

(** [m\[k\]] as it is assigned to or worked on: the entry is made where the order wants it when it
    is missing. *)
Fixpoint btree_update (k : bytes) (f : option V -> V) (m : btree V) : btree V :=
  match m with
  | [] => [(k, f None)]
  | (k', v) :: m' =>
      if str_lt k k' then (k, f None) :: m
      else if bool_decide (k = k') then (k', f (Some v)) :: m'
      else (k', v) :: btree_update k f m'
  end.

Fixpoint btree_get (k : bytes) (m : btree V) : option V :=
  match m with
  | [] => None
  | (k', v) :: m' => if decide (k = k') then Some v else btree_get k m'
  end.

Definition btree_ok (m : btree V) : Prop := StronglySorted key_lt m.*1.

Lemma btree_get_lt k m : Forall (key_lt k) m.*1 -> btree_get k m = None.
Proof.
  induction m as [|[k' v] m IH]; [done|]; cbn; intros [Hk Hm]%Forall_cons.
  case_decide; [|by apply IH]; subst; unfold key_lt in Hk; by rewrite str_lt_irrefl in Hk.
Qed.

Lemma btree_get_update k f m j : btree_ok m ->
  btree_get j (btree_update k f m) = if decide (j = k) then Some (f (btree_get k m)) else btree_get j m.
Proof.
  unfold btree_ok; induction m as [|[k' v] m IH]; cbn; intros Hs; [done|].
  apply StronglySorted_cons in Hs as [Hm Hs]; destruct (str_lt k k') eqn:E; cbn.
  - assert (k <> k') by (intros ->; by rewrite str_lt_irrefl in E).
    rewrite (decide_False (P := k = k')) by done; rewrite (btree_get_lt k m); [done|].
    eapply Forall_impl; [done|]; intros x Hx; by apply (key_lt_trans k k').
  - case_bool_decide; subst; cbn; repeat (case_decide; subst); try done; rewrite IH by done; by repeat case_decide.
Qed.

Lemma btree_update_keys k f m x : x ∈ (btree_update k f m).*1 -> x = k \/ x ∈ m.*1.
Proof.
  induction m as [|[k' v] m IH]; cbn; [rewrite list_elem_of_singleton; by left|].
  destruct (str_lt k k'); cbn; [rewrite elem_of_cons; tauto|].
  case_bool_decide; cbn; rewrite !elem_of_cons; tauto.
Qed.

Lemma btree_update_ok k f m : btree_ok m -> btree_ok (btree_update k f m).
Proof.
  unfold btree_ok; induction m as [|[k' v] m IH]; cbn; intros Hs; [repeat constructor|].
  pose proof Hs as [Hm Hs']%StronglySorted_cons; destruct (str_lt k k') eqn:E; cbn.
  - apply StronglySorted_cons; split; [|done]; constructor; [done|].
    eapply Forall_impl; [done|]; intros x Hx; by apply (key_lt_trans k k').
  - case_bool_decide; cbn; [done|]; apply StronglySorted_cons; split; [|by apply IH].
    apply Forall_forall; intros x [->|Hx]%btree_update_keys; [|by rewrite Forall_forall in Hm; apply Hm].
    by destruct (str_lt_total k k' E).
Qed.

(** Two sorted maps with the same entries are the same list. *)
Lemma btree_ext m m' : btree_ok m -> btree_ok m' -> (forall k, btree_get k m = btree_get k m') -> m = m'.
Proof.
  unfold btree_ok; revert m'; induction m as [|[k v] m IH]; intros [|[k' v'] m'] Hm Hm' He; [done| | |].
  - specialize (He k'); cbn in He; by rewrite decide_True in He.
  - specialize (He k); cbn in He; by rewrite decide_True in He.
  - cbn in Hm, Hm'; apply StronglySorted_cons in Hm as [Hk Hm]; apply StronglySorted_cons in Hm' as [Hk' Hm'].
    assert (k = k') as <-.
    { destruct (decide (k = k')) as [|Hn]; [done|]; exfalso.
      destruct (str_lt k k') eqn:E; [|destruct (str_lt_total k k' E) as [|E']; [done|]].
      - pose proof (He k) as Hg; cbn in Hg; rewrite decide_True, decide_False in Hg by done.
        rewrite btree_get_lt in Hg; [done|]; eapply Forall_impl; [done|]; intros x Hx; by apply (key_lt_trans k k').
      - pose proof (He k') as Hg; cbn in Hg; rewrite decide_False, decide_True in Hg by done.
        rewrite btree_get_lt in Hg; [done|]; eapply Forall_impl; [done|]; intros x Hx; by apply (key_lt_trans k' k). }
    pose proof (He k) as Hg; cbn in Hg; rewrite !decide_True in Hg by done; injection Hg as <-; f_equal.
    apply IH; try done; intros j; specialize (He j); cbn in He; case_decide; [subst|done].
    by rewrite !btree_get_lt.
Qed.

End btree.

(** ** The table and its text *)

Definition StatKeyValue : Type := gmap bytes bytes.
Definition StatValues : Type := gmap bytes StatKeyValue.

(** A statistics function reads the globals [W] of the program and may change them. *)
Definition CollectStatFunc (W : Type) : Type := st W StatValues.

(** The order in which a hash table with strings as keys is traversed. *)
Class StrHash := str_order : forall A : Type, gmap bytes A -> list (bytes * A).
Arguments str_order {_ A}.
Class StrHashOk `{StrHash} : Prop := str_order_perm : forall A (t : gmap bytes A), str_order t ≡ₚ map_to_list t.

Definition StatTable : Type := btree (btree bytes).

(** The globals of the file, the log and the rest of the program. *)
Record Stats (W : Type) := {
  g_stat_table : StatTable;
  g_stat_funcs : list (CollectStatFunc W);
  stat_log : list bytes;
  stat_world : W
}.
Arguments Build_Stats {W}. Arguments g_stat_table {W}. Arguments g_stat_funcs {W}.
Arguments stat_log {W}. Arguments stat_world {W}.

Section stats.
Context {W : Type} `{StrHash}.

Definition stats_eta (r : Stats W) : Stats W := {|
  g_stat_table := g_stat_table r; g_stat_funcs := g_stat_funcs r; stat_log := stat_log r; stat_world := stat_world r |}.
Definition stupd (A : Type) : Type := (A -> A) -> Stats W -> Stats W.
Definition set_stat_table : stupd StatTable := ltac:(setter stats_eta (@g_stat_table W)).
Definition set_stat_funcs : stupd (list (CollectStatFunc W)) := ltac:(setter stats_eta (@g_stat_funcs W)).
Definition set_stat_log : stupd (list bytes) := ltac:(setter stats_eta (@stat_log W)).
Definition set_stat_world : stupd W := ltac:(setter stats_eta (@stat_world W)).

Definition on_stat_world {A} (m : st W A) : st (Stats W) A := fun s =>
  let '(w, r) := m (stat_world s) in (set_stat_world (fun _ => w) s, r).

(** [register_stat_func]. *)
Definition register_stat_func (func : CollectStatFunc W) : st (Stats W) unit :=
  smodify (set_stat_funcs (fun l => l ++ [func])).

(** [g_stat_table\[sec\]\[k\] = v], for the entries of a section and for the sections of a function. *)
Definition table_set (sec k v : bytes) : StatTable -> StatTable :=
  btree_update sec (fun map => btree_update k (fun _ => v) (default [] map)).

Definition add_section (t : StatTable) (x : bytes * StatKeyValue) : StatTable :=
  foldl (fun t kv => table_set x.1 kv.1 kv.2 t) t (str_order x.2).

Definition add_values (t : StatTable) (stat_vals : StatValues) : StatTable :=
  foldl add_section t (str_order stat_vals).

Fixpoint collect_stats (funcs : list (CollectStatFunc W)) : st (Stats W) unit :=
  match funcs with
  | [] => sret tt
  | f :: funcs =>
      let! stat_vals := on_stat_world f in
      let! _ := smodify (set_stat_table (fun t => add_values t stat_vals)) in
      collect_stats funcs
  end.

Definition line_text (kv : bytes * bytes) : bytes := bs "  " ++ kv.1 ++ bs ": " ++ kv.2 ++ [10].
Definition section_text (s : bytes * btree bytes) : bytes :=
  bs "[" ++ s.1 ++ bs "]:" ++ [10] ++ mjoin (line_text <$> s.2) ++ [10].
Definition stats_text (t : StatTable) : bytes :=
  bs "======================Stats=====================" ++ [10] ++ mjoin (section_text <$> t).

(** [print_stats]. *)
Definition print_stats : st (Stats W) unit :=
  let! _ := smodify (set_stat_table (fun _ => [])) in
  let! s := sget in
  let! _ := collect_stats (g_stat_funcs s) in
  let! s := sget in
  if decide (g_stat_table s = []) then sret tt
  else smodify (set_stat_log (fun l => l ++ [stats_text (g_stat_table s)])).

(** [start_stat_timer]: the first [n] turns of its loop; an exception of a statistics function ends
    the coroutine. *)
Fixpoint start_stat_timer (n : nat) : st (Stats W) unit :=
  match n with
  | O => sret tt
  | S n => let! _ := print_stats in start_stat_timer n
  end.

End stats.

(** ** What is collected *)

Section table.
Context `{StrHash, !StrHashOk}.

(** The reference: the value of an entry is the one of the last function that reports it. *)
Definition reported (sec k : bytes) (v : StatValues) : option bytes := v !! sec ≫= lookup k.
Definition last_reported (vs : list StatValues) (sec k : bytes) : option bytes :=
  foldl (fun o v => match reported sec k v with Some x => Some x | None => o end) None vs.

Definition table_get (t : StatTable) (sec k : bytes) : option bytes := btree_get sec t ≫= btree_get k.

(** Sections and keys in order, no section without entries. *)
Definition table_ok (t : StatTable) : Prop :=
  btree_ok t /\ forall sec m, btree_get sec t = Some m -> btree_ok m /\ m <> [].

Lemma table_ok_nil : table_ok [].
Proof. split; [apply SSorted_nil | done]. Qed.

Lemma btree_update_not_nil {V} k (f : option V -> V) m : btree_update k f m <> [].
Proof. destruct m as [|[k' v] m]; cbn; [done|]; by repeat case_match. Qed.

Lemma table_set_ok sec k v t : table_ok t -> table_ok (table_set sec k v t).
Proof.
  intros [Ht Hm]; split; [by apply btree_update_ok|]; intros sec' m; unfold table_set.
  rewrite btree_get_update by done; case_decide; [|by apply Hm]; intros [= <-].
  split; [|apply btree_update_not_nil]; apply btree_update_ok.
  destruct (btree_get sec t) eqn:E; cbn; [by eapply Hm | apply SSorted_nil].
Qed.

Lemma table_get_set sec k v t sec' k' : table_ok t ->
  table_get (table_set sec k v t) sec' k' =
    if decide (sec' = sec /\ k' = k) then Some v else table_get t sec' k'.
Proof.
  intros [Ht Hm]; unfold table_get, table_set; rewrite btree_get_update by done.
  destruct (decide (sec' = sec)) as [->|Hs]; [|by rewrite decide_False by (by intros [])].
  cbn; rewrite btree_get_update; [|destruct (btree_get sec t) eqn:E; cbn; [by eapply Hm | apply SSorted_nil]].
  destruct (decide (k' = k)) as [->|Hk]; [by rewrite decide_True|].
  rewrite decide_False by (by intros []); by destruct (btree_get sec t).
Qed.

(** The entries of one section. *)
Lemma add_section_get (l : list (bytes * bytes)) sec : forall t sec' k',
  table_ok t -> NoDup l.*1 ->
  table_ok (foldl (fun t kv => table_set sec kv.1 kv.2 t) t l) /\
  table_get (foldl (fun t kv => table_set sec kv.1 kv.2 t) t l) sec' k' =
    if decide (sec' = sec) then
      match (list_to_map l : gmap bytes bytes) !! k' with Some x => Some x | None => table_get t sec' k' end
    else table_get t sec' k'.
Proof.
  induction l as [|[k v] l IH]; intros t sec' k' Ht Hl; cbn [foldl]; [by rewrite list_to_map_nil, lookup_empty; case_decide|].
  rewrite list_to_map_cons; cbn [fst snd].
  cbn in Hl; apply NoDup_cons in Hl as [Hk Hl]; destruct (IH (table_set sec k v t) sec' k') as [Ho Hg];
    [by apply table_set_ok | done |]; split; [done|]; rewrite Hg, table_get_set by done.
  destruct (decide (sec' = sec)) as [->|]; [|by rewrite decide_False by (by intros [])].
  destruct (decide (k' = k)) as [->|Hn].
  - rewrite lookup_insert_eq, decide_True by done.
    by rewrite (proj1 (not_elem_of_list_to_map _ _)) by done.
  - by rewrite lookup_insert_ne, decide_False by (done || by intros []).
Qed.

Lemma add_values_list (l : list (bytes * StatKeyValue)) : forall t sec k,
  table_ok t -> NoDup l.*1 ->
  table_ok (foldl add_section t l) /\
  table_get (foldl add_section t l) sec k =
    match (list_to_map l : gmap bytes StatKeyValue) !! sec ≫= lookup k with Some x => Some x | None => table_get t sec k end.
Proof.
  induction l as [|[s m] l IH]; intros t sec k Ht Hl; cbn [foldl]; [done|]; rewrite list_to_map_cons.
  cbn in Hl; apply NoDup_cons in Hl as [Hs Hl].
  assert (NoDup (str_order m).*1) as Hn by (rewrite str_order_perm; apply NoDup_fst_map_to_list).
  destruct (add_section_get (str_order m) s t sec k Ht Hn) as [Ho Hg].
  destruct (IH (add_section t (s, m)) sec k Ho Hl) as [Ho' Hg']; split; [done|]; rewrite Hg'; unfold add_section at 1.
  cbn [fst snd]; rewrite Hg, (list_to_map_proper _ _ Hn (str_order_perm _ m)), list_to_map_to_list.
  destruct (decide (sec = s)) as [->|]; [|by rewrite lookup_insert_ne].
  by rewrite lookup_insert_eq, (proj1 (not_elem_of_list_to_map _ _)) by done.
Qed.

Lemma add_values_get t v sec k : table_ok t ->
  table_ok (add_values t v) /\
  table_get (add_values t v) sec k = match reported sec k v with Some x => Some x | None => table_get t sec k end.
Proof.
  intros Ht; unfold add_values.
  assert (NoDup (str_order v).*1) as Hn by (rewrite str_order_perm; apply NoDup_fst_map_to_list).
  destruct (add_values_list (str_order v) t sec k Ht Hn) as [Ho Hg]; split; [done|]; rewrite Hg.
  unfold reported; by rewrite (list_to_map_proper _ _ Hn (str_order_perm _ v)), list_to_map_to_list.
Qed.

End table.

(** ** The reports of the sessions

    [now sp] is what [time(nullptr)] returns in the report of the session [sp]. *)

Section reports.
Context `{Platform} `{Nanopb} `{Aead}.
Context {C : Type} `{IOConnection C} `{Clock C} `{HashOrder, StrHash}.
Variables (now : nat -> Z) (g_connection_max_inactive_secs : Z).

(** [MuxConnection::GetReadState]. *)
Definition GetReadState (c : MuxConnection C) : bytes :=
  let s := read_state c in
  if s =? STATE_INIT then bs "STATE_INIT"
  else if s =? STATE_READING then bs "STATE_READING"
  else if s =? STATE_READED then bs "STATE_READED"
  else if s =? STATE_CLOSING_STREAM then bs "STATE_CLOSING_STREAM"
  else if s =? STATE_OFFER_CHUNK then bs "STATE_OFFER_CHUNK"
  else if s =? STATE_READ_LOOP_EXIT then bs "STATE_READ_LOOP_EXIT"
  else bs "unknown:" ++ to_string s.

(** [fmt::format("[{}]...", i)]. *)
Definition slot_key (i : Z) (name : bytes) : bytes := bs "[" ++ to_string i ++ bs "]" ++ name.

Definition inactive_secs (t : Z) (c : MuxConnection C) : Z := wrap 32 (t - GetLastActiveUnixSecs c).

(** The entries of a connection, in the order in which they are assigned. *)
Definition conn_entries (t : Z) (c : MuxConnection C) : list (bytes * bytes) := [
  (bs "inactive_secs", to_string (inactive_secs t c));
  (bs "recv_bytes", to_string (recv_bytes c));
  (bs "send_bytes", to_string (send_bytes c));
  (bs "latest_30s_recv_bytes", to_string (GetLatestWindowRecvBytes c));
  (bs "latest_30s_send_bytes", to_string (GetLatestWindowSendBytes c)) ].

Definition conn_report (t i : Z) (c : MuxConnection C) (kv : StatKeyValue) : StatKeyValue :=
  foldl (fun kv e => <[slot_key i e.1 := e.2]> kv) kv (conn_entries t c).

(** The loop of [MuxSession::ReportStatInfo]; [t] is a [uint32_t], and so is the difference. *)
Fixpoint report_conns (t i : Z) (l : list (option nat)) (kv : StatKeyValue) : st (MuxConnManager C) StatKeyValue :=
  match l with
  | [] => sret kv
  | None :: l => report_conns t (i + 1) l (<[slot_key i [] := bs "NULL"]> kv)
  | Some p :: l =>
      let! m := sget in
      let! c := slift (access (conn_store m !! p)) in
      let kv := conn_report t i c kv in
      let! _ := if g_connection_max_inactive_secs <? inactive_secs t c
                then smodify (set_conn_store (insert p (conn_Close c))) else sret tt in
      report_conns t (i + 1) l kv
  end.

Definition session_ReportStatInfo (sp : nat) (kv : StatKeyValue) : st (MuxConnManager C) StatKeyValue :=
  let! m := sget in
  let! s := slift (access (session_store m !! sp)) in
  report_conns (wrap 32 (now sp)) 0 (conns s) kv.

Definition type_name (ty : MuxConnectionType) : bytes :=
  match ty with MUX_ENTRY_CONN => bs "ENTRY" | MUX_EXIT_CONN => bs "EXIT" end.

(** [fmt::format("[{}]MuxConnection:{}:{}", type, user, client_id)]. *)
Definition section_name (ty : MuxConnectionType) (user : bytes) (client_id : Z) : bytes :=
  bs "[" ++ type_name ty ++ bs "]MuxConnection:" ++ user ++ bs ":" ++ to_string client_id.

(** The loops of [MuxConnManager::ReportStatInfo], from the inside. *)
Fixpoint report_sessions (ty : MuxConnectionType) (user : bytes) (l : list (Z * nat)) (stats : StatValues)
  : st (MuxConnManager C) StatValues :=
  match l with
  | [] => sret stats
  | (client_id, sp) :: l =>
      let sec := section_name ty user client_id in
      let! kv := session_ReportStatInfo sp (default ∅ (stats !! sec)) in
      report_sessions ty user l (<[sec := kv]> stats)
  end.

Definition report_user (user : bytes) (u : UserMuxConn) (stats : StatValues) : st (MuxConnManager C) StatValues :=
  let! stats := report_sessions MUX_ENTRY_CONN user (hash_order (sessions MUX_ENTRY_CONN u)) stats in
  report_sessions MUX_EXIT_CONN user (hash_order (sessions MUX_EXIT_CONN u)) stats.

Fixpoint report_users (l : list (bytes * UserMuxConn)) (stats : StatValues) : st (MuxConnManager C) StatValues :=
  match l with
  | [] => sret stats
  | (user, u) :: l => let! stats := report_user user u stats in report_users l stats
  end.

Definition manager_ReportStatInfo (stats : StatValues) : st (MuxConnManager C) StatValues :=
  let! m := sget in report_users (str_order (mux_conns m)) stats.

End reports.

(** ** The statistics functions of the program *)

(** The globals they read: those of the server with its streams and the connection manager, the
    buffer pool, and the counters of mux_connection.cc and entry_server.cc. *)
Record Process (C Ch T : Type) := {
  pr_server : MuxServer C Ch T;
  pr_pool : IOBufPool;
  g_mux_conn_num : Z;
  g_mux_conn_num_in_loop : Z;
  g_local_proxy_conn_num : Z
}.
Arguments pr_server {C Ch T}. Arguments pr_pool {C Ch T}. Arguments g_mux_conn_num {C Ch T}.
Arguments g_mux_conn_num_in_loop {C Ch T}. Arguments g_local_proxy_conn_num {C Ch T}.
Arguments Build_Process {C Ch T}.

Section functions.
Context `{Platform} `{Nanopb} `{Aead}.
Context {C Ch T : Type} `{IOConnection C} `{Clock C} `{HashOrder, StrHash}.
Variables (now : nat -> Z) (g_connection_max_inactive_secs : Z).
Abbreviation Pr := (Process C Ch T).

Definition process_eta (r : Pr) : Pr := {|
  pr_server := pr_server r; pr_pool := pr_pool r; g_mux_conn_num := g_mux_conn_num r;
  g_mux_conn_num_in_loop := g_mux_conn_num_in_loop r; g_local_proxy_conn_num := g_local_proxy_conn_num r |}.
Definition prupd (A : Type) : Type := (A -> A) -> Pr -> Pr.
Definition set_pr_server : prupd (MuxServer C Ch T) := ltac:(setter process_eta (@pr_server C Ch T)).
Definition set_mux_conn_num : prupd Z := ltac:(setter process_eta (@g_mux_conn_num C Ch T)).

Definition pr_manager (s : Pr) : MuxConnManager C := ms_env (sv_streams (pr_server s)).
Definition set_pr_manager (m : MuxConnManager C) (s : Pr) : Pr :=
  set_pr_server (fun sv => {| g_mux_server_conn_num := g_mux_server_conn_num sv;
    sv_streams := set_env (fun _ => m) (sv_streams sv); sv_spawned := sv_spawned sv;
    sv_tunnels := sv_tunnels sv; sv_wheel := sv_wheel sv |}) s.
Definition on_pr_manager {A} (m : st (MuxConnManager C) A) : st Pr A := fun s =>
  let '(c, r) := m (pr_manager s) in (set_pr_manager c s, r).

(** [MuxStream::Size] and [ActiveSize]; the constructor and the destructor of a connection. *)
Definition stream_Size (s : Pr) : Z := Z.of_nat (size (g_streams (sv_streams (pr_server s)))).
Definition stream_ActiveSize (s : Pr) : Z := g_active_stream_size (sv_streams (pr_server s)).
Definition conn_created : st Pr unit := smodify (set_mux_conn_num (fun n => wrap 32 (n + 1))).
Definition conn_destroyed : st Pr unit := smodify (set_mux_conn_num (fun n => wrap 32 (n - 1))).

(** The function of [register_io_stat]. *)
Definition io_values (s : Pr) : StatValues :=
  let p := pr_pool s in
  {[ bs "IOBuf" := list_to_map [
    (bs "pool_size", to_string (zlen (g_io_bufs p)));
    (bs "pool_bytes", to_string (g_iobuf_pool_bytes p));
    (bs "active_iobuf_num", to_string (g_active_iobuf_num p));
    (bs "active_iobuf_bytes", to_string (g_active_iobuf_bytes p)) ] ]}.
Definition io_stat : CollectStatFunc Pr := let! s := sget in sret (io_values s).

(** The two functions of [MuxConnManager::RegisterStat]. *)
Definition mux_values (s : Pr) : StatValues :=
  {[ bs "Mux" := list_to_map [
    (bs "stream_num", to_string (stream_Size s));
    (bs "stream_active_num", to_string (stream_ActiveSize s));
    (bs "connection_num", to_string (g_mux_conn_num s));
    (bs "connection_active_num", to_string (g_mux_conn_num_in_loop s)) ] ]}.
Definition mux_stat : CollectStatFunc Pr := let! s := sget in sret (mux_values s).
Definition sessions_stat : CollectStatFunc Pr :=
  on_pr_manager (manager_ReportStatInfo now g_connection_max_inactive_secs ∅).

(** The functions of [start_entry_server] and of [start_mux_server]. *)
Definition entry_stat : CollectStatFunc Pr :=
  let! s := sget in
  sret {[ bs "LocalServer" := {[ bs "local_proxy_conn_num" := to_string (g_local_proxy_conn_num s) ]} ]}.
Definition server_stat : CollectStatFunc Pr :=
  let! s := sget in
  sret {[ bs "MuxServer" := {[ bs "mux_server_conn_num" := to_string (g_mux_server_conn_num (pr_server s)) ]} ]}.

Definition register_io_stat : st (Stats Pr) unit := register_stat_func io_stat.
Definition RegisterStat : st (Stats Pr) unit :=
  let! _ := register_stat_func mux_stat in register_stat_func sessions_stat.

(** [init_stats] of main. *)
Definition init_stats : st (Stats Pr) unit :=
  let! _ := register_io_stat in RegisterStat.

End functions.

(** ** Which connections are closed *)

Section closing.
Context `{Platform} `{Nanopb} `{Aead}.
Context {C : Type} `{IOConnection C} `{Clock C}.
Variables (now : nat -> Z) (max_inactive : Z).
Implicit Types (m : MuxConnManager C) (c : MuxConnection C) (P Q : nat -> MuxConnection C -> Prop).

(** From [m] to [m'] exactly the connections of which [P] holds were closed, possibly repeatedly,
    and nothing else changed. *)
Definition closed_when P m m' : Prop :=
  mux_conns m' = mux_conns m /\ session_store m' = session_store m /\
  forall q, match conn_store m !! q with
            | None => conn_store m' !! q = None
            | Some c => exists n, conn_store m' !! q = Some (Nat.iter n conn_Close c) /\ (P q c <-> (0 < n)%nat)
            end.

(** Closing does not change whether [P] holds. *)
Definition close_stable P : Prop := forall q c, P q (conn_Close c) <-> P q c.

Lemma close_stable_iter P n q c : close_stable P -> P q (Nat.iter n conn_Close c) <-> P q c.
Proof. unfold close_stable; intros Hp; induction n as [|n IH]; [done|]; cbn; by rewrite Hp. Qed.

Lemma closed_when_refl P m : (forall q c, ~ P q c) -> closed_when P m m.
Proof.
  intros Hp; split_and!; try done; intros q; case_match eqn:E; [|done].
  exists 0%nat; split; [done|]; split; [intros Hq; by destruct (Hp _ _ Hq) | lia].
Qed.

Lemma closed_when_trans P Q m m1 m2 :
  close_stable Q -> closed_when P m m1 -> closed_when Q m1 m2 -> closed_when (fun q c => P q c \/ Q q c) m m2.
Proof.
  intros Hs (Hu & Hss & Hc) (Hu' & Hss' & Hc'); split_and!; [congruence..|]; intros q; specialize (Hc q); specialize (Hc' q).
  destruct (conn_store m !! q) as [c|]; [|by rewrite Hc in Hc'].
  destruct Hc as (n & E & Hn); rewrite E in Hc'; destruct Hc' as (n' & E' & Hn').
  exists (n' + n)%nat; rewrite Nat.iter_add; split; [done|].
  rewrite close_stable_iter in Hn' by done; rewrite Hn, Hn'; lia.
Qed.

Lemma closed_when_ext_in P Q m m' :
  (forall q c, conn_store m !! q = Some c -> P q c <-> Q q c) -> closed_when P m m' -> closed_when Q m m'.
Proof.
  intros He (Hu & Hs & Hc); split_and!; [done..|]; intros q; specialize (Hc q); case_match eqn:E; [|done].
  destruct Hc as (n & ? & Hn); exists n; by rewrite <- He.
Qed.

Lemma closed_when_ext P Q m m' : (forall q c, P q c <-> Q q c) -> closed_when P m m' -> closed_when Q m m'.
Proof. intros He; apply closed_when_ext_in; auto. Qed.

Lemma closed_when_dom P m m' q : closed_when P m m' -> is_Some (conn_store m !! q) -> is_Some (conn_store m' !! q).
Proof. intros (_ & _ & Hc) [c E]; specialize (Hc q); rewrite E in Hc; destruct Hc as (n & -> & _); eauto. Qed.

(** Idle for longer than allowed, in the [uint32_t] arithmetic of the report. *)
Definition idle (t : Z) c : Prop := max_inactive < inactive_secs t c.

Lemma idle_stable t (l : list (option nat)) : close_stable (fun q c => Some q ∈ l /\ idle t c).
Proof. done. Qed.

Lemma close_if_idle t p c m : conn_store m !! p = Some c ->
  closed_when (fun q c => q = p /\ idle t c) m
    (if max_inactive <? inactive_secs t c then set_conn_store (insert p (conn_Close c)) m else m).
Proof.
  intros Hc; case Z.ltb_spec; intros Hi.
  - split_and!; try done; intros q; cbn; destruct (decide (q = p)) as [->|Hq].
    + rewrite Hc, lookup_insert_eq; exists 1%nat; split; [done|]; split; [lia | done].
    + rewrite lookup_insert_ne by done; case_match; [|done]; exists 0%nat; split; [done|]; split; [by intros []|lia].
  - split_and!; try done; intros q; case_match eqn:E; [|done]; exists 0%nat; split; [done|].
    split; [|lia]; intros [-> Hd]; rewrite Hc in E; injection E as <-; unfold idle in Hd; lia.
Qed.

(** What is reported of a slot. *)
Definition slot_reported (store : gmap nat (MuxConnection C)) (t i : Z) (x : option nat) (kv : StatKeyValue) : Prop :=
  match x with
  | None => kv !! slot_key i [] = Some (bs "NULL")
  | Some p => exists c, store !! p = Some c /\
      forall name v, (name, v) ∈ conn_entries t c -> kv !! slot_key i name = Some v
  end.

Lemma slot_key_inj i j a b : fits 64 i -> fits 64 j -> slot_key i a = slot_key j b -> i = j /\ a = b.
Proof.
  intros Hi Hj; unfold slot_key; change (bs "[") with [91]; change (bs "]") with [93]; intros E; injection E as E.
  assert (forall v k, fits 64 v -> dec_prefix 0 (to_string v ++ 93 :: k) = (v, 93 :: k)) as Hd.
  { intros v k Hv; unfold fits in Hv; rewrite dec_prefix_app by (apply to_string_digits; lia).
    unfold to_string; rewrite (dec_prefix_dec 20 v []) by (simpl; lia); done. }
  pose proof (Hd i a Hi) as Ha; pose proof (Hd j b Hj) as Hb; rewrite E, Hb in Ha; by injection Ha as -> ->.
Qed.

End closing.

Lemma slot_cons (q p : nat) (l : list (option nat)) (Q : Prop) :
  (q = p /\ Q) \/ (Some q ∈ l /\ Q) <-> Some q ∈ Some p :: l /\ Q.
Proof. rewrite elem_of_cons; assert (Some q = Some p <-> q = p) by (split; congruence); tauto. Qed.

Lemma slot_cons_none (q : nat) (l : list (option nat)) : Some q ∈ None :: l <-> Some q ∈ l.
Proof. rewrite elem_of_cons; split; [by intros [|] | by right]. Qed.

Section report_facts.
Context `{Platform} `{Nanopb} `{Aead}.
Context {C : Type} `{IOConnection C} `{Clock C} `{HashOrder, StrHash}.
Variables (now : nat -> Z) (max_inactive : Z).
Implicit Types (m : MuxConnManager C) (c : MuxConnection C).

Definition slots_ok m (l : list (option nat)) : Prop := forall p, Some p ∈ l -> is_Some (conn_store m !! p).

(** The report of a list of slots closes the idle connections among them. *)
Lemma report_conns_closes t : forall l i kv m, slots_ok m l ->
  exists m' kv', report_conns max_inactive t i l kv m = (m', Ok kv') /\
    closed_when (fun q c => Some q ∈ l /\ idle max_inactive t c) m m'.
Proof.
  induction l as [|[p|] l IH]; intros i kv m Hl; cbn [report_conns].
  - exists m, kv; split; [done|]; apply closed_when_refl; intros q c [Hq _]; by apply not_elem_of_nil in Hq.
  - destruct (Hl p) as [c Hc]; [by left|].
    pose proof (close_if_idle max_inactive t p c m Hc) as H1'.
    set (m1 := if max_inactive <? inactive_secs t c then _ else m) in H1'.
    destruct (IH (i + 1) (conn_report t i c kv) m1) as (m' & kv' & E & Hcl).
    { intros q Hq; eapply closed_when_dom; [exact H1'|]; apply Hl; by right. }
    exists m', kv'; split.
    + srun; rewrite Hc; rewrite <- E; subst m1; by case (max_inactive <? inactive_secs t c).
    + pose proof (closed_when_trans _ _ _ _ _ (idle_stable max_inactive t l) H1' Hcl) as Ht.
      eapply closed_when_ext; [|exact Ht]; intros q d; cbn; apply slot_cons.
  - destruct (IH (i + 1) (<[slot_key i [] := bs "NULL"]> kv) m) as (m' & kv' & E & Hcl).
    { intros q Hq; apply Hl; by right. }
    exists m', kv'; split; [done|]; eapply closed_when_ext; [|exact Hcl].
    intros q d; cbn; by rewrite slot_cons_none.
Qed.

(** Idle in one of the sessions [sps]. *)
Definition idle_in m (sps : list nat) (q : nat) c : Prop :=
  exists sp s, sp ∈ sps /\ session_store m !! sp = Some s /\ Some q ∈ conns s /\ idle max_inactive (wrap 32 (now sp)) c.

Lemma idle_in_stable m sps : close_stable (idle_in m sps).
Proof. done. Qed.

Lemma idle_in_app m a b q c : idle_in m (a ++ b) q c <-> idle_in m a q c \/ idle_in m b q c.
Proof.
  split.
  - intros (sp & s & [Ha|Hb]%elem_of_app & Hs); [left | right]; by exists sp, s.
  - intros [(sp & s & Ha & Hs)|(sp & s & Hb & Hs)]; exists sp, s; (split; [apply elem_of_app; by auto | done]).
Qed.

Lemma idle_in_store m m' sps q c : session_store m' = session_store m -> idle_in m' sps q c <-> idle_in m sps q c.
Proof. unfold idle_in; by intros ->. Qed.

(** The sessions exist and hold connections that exist. *)
Definition reportable m (sps : list nat) : Prop :=
  forall sp, sp ∈ sps -> exists s, session_store m !! sp = Some s /\ slots_ok m (conns s).

Lemma reportable_closed P m m' sps : closed_when P m m' -> reportable m sps -> reportable m' sps.
Proof.
  intros Hc Hr sp Hsp; destruct (Hr sp Hsp) as (s & Hs & Hl); exists s; split.
  - by destruct Hc as (_ & -> & _).
  - intros p Hp; eapply closed_when_dom; [done|]; by apply Hl.
Qed.

Lemma reportable_app m a b : reportable m (a ++ b) -> reportable m a /\ reportable m b.
Proof. intros Hr; split; intros sp Hsp; apply Hr, elem_of_app; auto. Qed.

(** A report that closes exactly the idle connections of [sps]. *)
Definition reports (f : StatValues -> st (MuxConnManager C) StatValues) (sps : list nat) : Prop :=
  forall stats m, reportable m sps ->
    exists m' stats', f stats m = (m', Ok stats') /\ closed_when (idle_in m sps) m m'.

Lemma reports_ret : reports sret [].
Proof.
  intros stats m _; exists m, stats; split; [done|]; apply closed_when_refl.
  intros q c (sp & s & Hsp & _); by apply not_elem_of_nil in Hsp.
Qed.

Lemma reports_seq f g a b : reports f a -> reports g b -> reports (fun stats => let! stats := f stats in g stats) (a ++ b).
Proof.
  intros Hf Hg stats m [Ha Hb]%reportable_app; destruct (Hf stats m Ha) as (m1 & s1 & E1 & H1').
  destruct (Hg s1 m1) as (m2 & s2 & E2 & H2'); [by eapply reportable_closed|].
  exists m2, s2; split; [by erewrite sbind_ok by exact E1|].
  eapply closed_when_ext; [|eapply closed_when_trans; [apply idle_in_stable | exact H1' | exact H2']].
  intros q c; cbn; rewrite idle_in_app; destruct H1' as (_ & Hs & _); by rewrite (idle_in_store m m1).
Qed.

Lemma session_reports sp sec :
  reports (fun stats => let! kv := session_ReportStatInfo now max_inactive sp (default ∅ (stats !! sec)) in
                        sret (<[sec := kv]> stats)) [sp].
Proof.
  intros stats m Hr; destruct (Hr sp) as (s & Hs & Hl); [by left|].
  destruct (report_conns_closes (wrap 32 (now sp)) (conns s) 0 (default ∅ (stats !! sec)) m Hl) as (m' & kv' & E & Hc).
  exists m', (<[sec := kv']> stats); split.
  - unfold session_ReportStatInfo; srun; rewrite Hs; by rewrite E.
  - eapply closed_when_ext; [|exact Hc]; intros q c; unfold idle_in; cbn; setoid_rewrite list_elem_of_singleton.
    split; [intros []; by eauto 8|]; intros (? & s' & -> & Hs' & ? & ?).
    rewrite Hs in Hs'; by injection Hs' as ->.
Qed.

Lemma reports_ext f g sps : (forall stats m, f stats m = g stats m) -> reports f sps -> reports g sps.
Proof. intros He Hf stats m Hr; rewrite <- He; by apply Hf. Qed.

Lemma sessions_report ty user : forall l, reports (report_sessions now max_inactive ty user l) l.*2.
Proof.
  induction l as [|[cid sp] l IH]; [exact reports_ret|].
  eapply reports_ext; [|apply (reports_seq _ _ [sp] _ (session_reports sp (section_name ty user cid)) IH)].
  intros stats m; cbn [report_sessions]; unfold sbind, sret.
  destruct (session_ReportStatInfo now max_inactive sp _ m) as [m1 [| | |]]; done.
Qed.

Definition user_sps (u : UserMuxConn) : list nat :=
  (hash_order (sessions MUX_ENTRY_CONN u)).*2 ++ (hash_order (sessions MUX_EXIT_CONN u)).*2.

Lemma users_report : forall l, reports (report_users now max_inactive l) (l ≫= (fun x => user_sps x.2)).
Proof.
  induction l as [|[user u] l IH]; [exact reports_ret|].
  apply (reports_seq (report_user now max_inactive user u)); [|done].
  apply (reports_seq (report_sessions now max_inactive MUX_ENTRY_CONN user _)); apply sessions_report.
Qed.

(** The entries that a report assigns. *)
Lemma entries_other i j name (l : list (bytes * bytes)) (kv : StatKeyValue) : fits 64 i -> fits 64 j -> j <> i ->
  foldl (fun kv e => <[slot_key i e.1 := e.2]> kv) kv l !! slot_key j name = kv !! slot_key j name.
Proof.
  intros Hi Hj Hn; revert kv; induction l as [|[k v] l IH]; intros kv; [done|]; cbn [foldl]; rewrite IH.
  apply lookup_insert_ne; intros [-> _]%slot_key_inj; done.
Qed.

Lemma entries_assigned i (l : list (bytes * bytes)) : fits 64 i -> NoDup l.*1 -> forall (kv : StatKeyValue) name,
  foldl (fun kv e => <[slot_key i e.1 := e.2]> kv) kv l !! slot_key i name =
    match (list_to_map l : gmap bytes bytes) !! name with Some v => Some v | None => kv !! slot_key i name end.
Proof.
  intros Hi; induction l as [|[k v] l IH]; intros Hl kv name; cbn [foldl]; [by rewrite list_to_map_nil, lookup_empty|].
  cbn in Hl; apply NoDup_cons in Hl as [Hk Hl]; rewrite IH, list_to_map_cons by done; cbn [fst snd].
  destruct (decide (name = k)) as [->|Hn].
  - rewrite (proj1 (not_elem_of_list_to_map l k)) by done. rewrite lookup_insert_eq; apply lookup_insert_eq.
  - rewrite lookup_insert_ne by done; case_match; [done|]; apply lookup_insert_ne.
    by intros [_ ->]%slot_key_inj.
Qed.

Lemma conn_entries_nodup t c : NoDup (conn_entries t c).*1.
Proof. apply (bool_decide_unpack _); vm_compute; exact I. Qed.

Lemma conn_entries_closed t n c : conn_entries t (Nat.iter n conn_Close c) = conn_entries t c.
Proof. induction n as [|n IH]; [done|]; exact IH. Qed.

(** Every connection of [m] is one of [store], possibly closed. *)
Definition from_store (store : gmap nat (MuxConnection C)) m : Prop :=
  forall p c, conn_store m !! p = Some c -> exists n d, store !! p = Some d /\ c = Nat.iter n conn_Close d.

Lemma from_store_close store t p c m : conn_store m !! p = Some c -> from_store store m ->
  from_store store (if max_inactive <? inactive_secs t c then set_conn_store (insert p (conn_Close c)) m else m).
Proof.
  intros Hc Hm; case (max_inactive <? inactive_secs t c); [|done]; intros q d; cbn.
  destruct (decide (q = p)) as [->|]; [|rewrite lookup_insert_ne by done; apply Hm].
  rewrite lookup_insert_eq; intros [= <-]; destruct (Hm _ _ Hc) as (n & d & Hd & ->); by exists (S n), d.
Qed.

Lemma slot_reported_kept (store : gmap nat (MuxConnection C)) t i x (kv kv' : StatKeyValue) :
  (forall name, kv' !! slot_key i name = kv !! slot_key i name) -> slot_reported store t i x kv -> slot_reported store t i x kv'.
Proof.
  intros He; destruct x as [p|]; unfold slot_reported; [|by rewrite He]; intros (c & Hc & Hv); exists c; split; [done|].
  intros name v Hn; rewrite He; by apply Hv.
Qed.

(** The report of the first slot. *)
Lemma report_conns_step store t x l i kv m m' kv' :
  0 <= i -> fits 64 i -> from_store store m ->
  report_conns max_inactive t i (x :: l) kv m = (m', Ok kv') ->
  exists m1 kv1, report_conns max_inactive t (i + 1) l kv1 m1 = (m', Ok kv') /\
    from_store store m1 /\ slot_reported store t i x kv1 /\
    forall j name, 0 <= j < i -> kv1 !! slot_key j name = kv !! slot_key j name.
Proof.
  intros Hi Hf Hm; destruct x as [p|]; cbn [report_conns].
  - srun; destruct (conn_store m !! p) as [c|] eqn:Hc; [|done]; intros E.
    exists (if max_inactive <? inactive_secs t c then set_conn_store (insert p (conn_Close c)) m else m), (conn_report t i c kv).
    split; [rewrite <- E; by case (max_inactive <? inactive_secs t c)|]; split; [by eapply from_store_close|].
    destruct (Hm _ _ Hc) as (n & d & Hd & ->).
    split; [|intros j name Hj; apply entries_other; unfold fits in *; lia].
    exists d; split; [done|]; intros name v Hv; unfold conn_report; rewrite entries_assigned by (done || apply conn_entries_nodup).
    rewrite conn_entries_closed; apply elem_of_list_to_map in Hv; [|apply conn_entries_nodup]; by rewrite Hv.
  - intros E; exists m, (<[slot_key i [] := bs "NULL"]> kv); split_and!; [done..| |].
    + apply lookup_insert_eq.
    + intros j name Hj; apply lookup_insert_ne; intros [-> _]%slot_key_inj; unfold fits in *; lia.
Qed.

(** The report of one slot is kept by the reports of those behind it. *)
Lemma report_conns_entries store t : forall l i kv m m' kv',
  0 <= i -> fits 64 (i + zlen l) -> from_store store m ->
  report_conns max_inactive t i l kv m = (m', Ok kv') ->
  (forall j name, 0 <= j < i -> kv' !! slot_key j name = kv !! slot_key j name) /\
  (forall j x, zget l j = Some x -> slot_reported store t (i + j) x kv').
Proof.
  induction l as [|x l IH]; intros i kv m m' kv' Hi Hf Hm.
  { intros [= <- <-]; split; [done|]; intros j y; unfold zget; by case_match. }
  rewrite zlen_cons in Hf; pose proof (zlen_nonneg l); intros (m1 & kv1 & E & Hm1 & Hx & Hkv)%(report_conns_step store);
    [|done | unfold fits in *; lia | done].
  destruct (IH (i + 1) kv1 m1 m' kv') as [Ho Hr]; try done; [lia | unfold fits in *; lia |].
  split; [intros j name Hj; rewrite Ho by lia; by apply Hkv|].
  intros j y Hj; pose proof (zget_Some_range _ _ _ Hj); destruct (decide (j = 0)) as [->|Hj0].
  - rewrite zget_0 in Hj; injection Hj as ->; rewrite Z.add_0_r; eapply slot_reported_kept; [|exact Hx].
    intros name; apply Ho; lia.
  - replace j with ((j - 1) + 1) in Hj by lia; rewrite zget_cons in Hj by lia.
    replace (i + j) with (i + 1 + (j - 1)) by lia; by apply Hr.
Qed.

End report_facts.

(** ** Theorems *)

Section print.
Context {W : Type} `{StrHash, !StrHashOk}.
Implicit Types (s : Stats W) (fs : list (CollectStatFunc W)).

(** The values of the functions, called one after the other. *)
Fixpoint run_funcs (fs : list (CollectStatFunc W)) : st W (list StatValues) :=
  match fs with
  | [] => sret []
  | f :: fs => let! v := f in let! vs := run_funcs fs in sret (v :: vs)
  end.

Lemma run_funcs_cons f fs w w1 w2 v vs :
  f w = (w1, Ok v) -> run_funcs fs w1 = (w2, Ok vs) -> run_funcs (f :: fs) w = (w2, Ok (v :: vs)).
Proof. intros Ef Er; cbn [run_funcs]; erewrite sbind_ok by exact Ef; by erewrite sbind_ok by exact Er. Qed.

Lemma collect_stats_run fs : forall s w vs, run_funcs fs (stat_world s) = (w, Ok vs) ->
  collect_stats fs s = (set_stat_table (fun t => foldl add_values t vs) (set_stat_world (fun _ => w) s), Ok tt).
Proof.
  induction fs as [|f fs IH]; intros s w vs; cbn [run_funcs collect_stats].
  - intros [= <- <-]; by destruct s.
  - intros (w1 & v & Ef & (w2 & vs' & Er & [= <- <-])%sbind_inv)%sbind_inv.
    unfold on_stat_world at 1; srun; rewrite Ef; by erewrite IH by exact Er.
Qed.

Lemma foldl_values vs : forall t, table_ok t -> table_ok (foldl add_values t vs) /\ forall sec k,
  table_get (foldl add_values t vs) sec k =
    foldl (fun o v => match reported sec k v with Some x => Some x | None => o end) (table_get t sec k) vs.
Proof.
  induction vs as [|v vs IH]; intros t Ht; [done|]; cbn [foldl].
  destruct (IH (add_values t v)) as [Ho Hg]; [by apply (add_values_get t v [] [])|]; split; [done|].
  intros sec k; rewrite Hg; f_equal; by apply add_values_get.
Qed.

Lemma table_not_empty sec k x v vs : reported sec k v = Some x -> v ∈ vs -> foldl add_values [] vs <> [].
Proof.
  intros Hx Hv Ht; destruct (foldl_values vs [] table_ok_nil) as [_ Hg]; specialize (Hg sec k); rewrite Ht in Hg; cbn in Hg.
  assert (forall o, o <> None \/ v ∈ vs ->
    foldl (fun o v => match reported sec k v with Some x => Some x | None => o end) o vs <> None) as Hs; [|by eapply Hs; [right|]].
  clear Ht Hg Hv; induction vs as [|v' vs IH]; intros o Ho; cbn.
  - destruct Ho as [|Ho]; [done|]; by apply not_elem_of_nil in Ho.
  - apply IH; destruct Ho as [Ho|[->|]%elem_of_cons]; [left; by case_match | left; by rewrite Hx | by right].
Qed.

Lemma table_ext t t' : table_ok t -> table_ok t' -> (forall sec k, table_get t sec k = table_get t' sec k) -> t = t'.
Proof.
  intros [Ht Hm] [Ht' Hm'] He; apply btree_ext; [done..|]; intros sec.
  unfold table_get in He; pose proof (He sec) as Hs.
  destruct (btree_get sec t) as [m|] eqn:E, (btree_get sec t') as [m'|] eqn:E'; cbn in Hs; [|exfalso..|done].
  - f_equal; apply btree_ext; [by eapply Hm | by eapply Hm' | done].
  - destruct (Hm _ _ E) as [_ Hn]; destruct m as [|[k v] m]; [done|]; specialize (Hs k); cbn in Hs; by rewrite decide_True in Hs.
  - destruct (Hm' _ _ E') as [_ Hn]; destruct m' as [|[k v] m']; [done|]; specialize (Hs k); cbn in Hs; by rewrite decide_True in Hs.
Qed.

Lemma print_stats_run s w vs : run_funcs (g_stat_funcs s) (stat_world s) = (w, Ok vs) ->
  exists s', print_stats s = (s', Ok tt) /\ stat_world s' = w /\ g_stat_funcs s' = g_stat_funcs s /\
    g_stat_table s' = foldl add_values [] vs /\
    stat_log s' = stat_log s ++ (if decide (g_stat_table s' = []) then [] else [stats_text (g_stat_table s')]).
Proof.
  intros Hr; unfold print_stats, smodify at 1; erewrite sbind_ok by done; unfold sget at 1; erewrite sbind_ok by done.
  erewrite sbind_ok by (apply collect_stats_run; exact Hr); unfold sget; erewrite sbind_ok by done; cbn.
  case_decide as Ht; eexists; (split; [done|]); cbn; [|by rewrite decide_False].
  by rewrite decide_True, app_nil_r.
Qed.

(** The table that [print_stats] prints is sorted by section and key, has no empty section, and
    holds for every entry the value of the last function that reports it.  Text is logged when there
    is an entry, and the entries determine it: every sorted table with the same entries has this
    text, whatever the order in which the hash maps are traversed. *)
Theorem stats_last_value_printed s w vs :
  run_funcs (g_stat_funcs s) (stat_world s) = (w, Ok vs) ->
  exists s', print_stats s = (s', Ok tt) /\ stat_world s' = w /\ table_ok (g_stat_table s') /\
    (forall sec k, table_get (g_stat_table s') sec k = last_reported vs sec k) /\
    forall t, table_ok t -> (forall sec k, table_get t sec k = last_reported vs sec k) ->
      stat_log s' = stat_log s ++ (if decide (t = []) then [] else [stats_text t]).
Proof.
  intros (s' & E & Hw & _ & Ht & Hl)%print_stats_run; destruct (foldl_values vs [] table_ok_nil) as [Ho Hg].
  exists s'; rewrite Ht in *; split_and!; try done; intros t Ht' Hg'; rewrite Hl.
  assert (foldl add_values [] vs = t) as ->; [|done]; apply table_ext; try done; intros sec k; by rewrite Hg, Hg'.
Qed.

End print.

Section idle_theorems.
Context `{Platform} `{Nanopb} `{Aead}.
Context {C Ch T : Type} `{IOConnection C} `{Clock C} `{HashOrder, !HashOrderOk, StrHash, !StrHashOk}.
Variables (now : nat -> Z) (max_inactive : Z).
Abbreviation Pr := (Process C Ch T).
Implicit Types (m : MuxConnManager C) (c : MuxConnection C) (s : Stats Pr).

(** Registered in a session of a user, and idle for too long when the session is reported. *)
Definition registered_idle m (q : nat) c : Prop :=
  exists user u ty cid sp ss, mux_conns m !! user = Some u /\ sessions ty u !! cid = Some sp /\
    session_store m !! sp = Some ss /\ Some q ∈ conns ss /\ idle max_inactive (wrap 32 (now sp)) c.

Lemma hash_order_snd (t : gmap Z nat) sp : sp ∈ (hash_order t).*2 <-> exists cid, t !! cid = Some sp.
Proof.
  rewrite list_elem_of_fmap; split.
  - intros ([cid sp'] & -> & Hi); rewrite hash_order_perm in Hi; apply elem_of_map_to_list in Hi; by exists cid.
  - intros [cid Hc]; exists (cid, sp); split; [done|]; rewrite hash_order_perm; by apply elem_of_map_to_list.
Qed.

Lemma user_sps_elem u sp : sp ∈ user_sps u <-> exists ty cid, sessions ty u !! cid = Some sp.
Proof.
  unfold user_sps; rewrite elem_of_app, !hash_order_snd; split.
  - intros [[cid ?]|[cid ?]]; eauto.
  - intros ([] & cid & ?); eauto.
Qed.

Lemma all_sps_elem m sp :
  sp ∈ (str_order (mux_conns m) ≫= (fun x => user_sps x.2)) <->
  exists user u ty cid, mux_conns m !! user = Some u /\ sessions ty u !! cid = Some sp.
Proof.
  rewrite list_elem_of_bind; split.
  - intros ([user u] & (ty & cid & Hs)%user_sps_elem & Hu); rewrite str_order_perm in Hu.
    apply elem_of_map_to_list in Hu; by exists user, u, ty, cid.
  - intros (user & u & ty & cid & Hu & Hs); exists (user, u); split; [by apply user_sps_elem; eauto|].
    rewrite str_order_perm; by apply elem_of_map_to_list.
Qed.

(** The report of the connection manager. *)
Lemma manager_reports m stats : manager_wf m ->
  exists m' stats', manager_ReportStatInfo now max_inactive stats m = (m', Ok stats') /\
    closed_when (registered_idle m) m m'.
Proof.
  intros [Hw1 Hw2]; destruct (users_report now max_inactive (str_order (mux_conns m)) stats m) as (m' & stats' & E & Hc).
  { intros sp (user & u & ty & cid & Hu & Hs)%all_sps_elem; destruct (Hw1 _ _ _ _ _ Hu Hs) as [ss Hss].
    exists ss; split; [done|]; intros p Hp; by eapply Hw2. }
  exists m', stats'; split; [exact E|]; eapply closed_when_ext; [|exact Hc]; intros q c; split.
  - intros (sp & ss & (user & u & ty & cid & Hu & Hs)%all_sps_elem & Hi); by exists user, u, ty, cid, sp, ss.
  - intros (user & u & ty & cid & sp & ss & Hu & Hs & Hi); exists sp, ss; split; [|done].
    apply all_sps_elem; by exists user, u, ty, cid.
Qed.

(** The functions of the servers only read. *)
Definition server_funcs (l : list (CollectStatFunc Pr)) : Prop := Forall (fun f => f = entry_stat \/ f = server_stat) l.

Lemma server_funcs_run l w : server_funcs l -> exists vs, run_funcs l w = (w, Ok vs).
Proof.
  induction 1 as [|f l Hf _ (vs & IH)]; [by exists []|].
  destruct Hf as [-> | ->]; eexists; by eapply run_funcs_cons.
Qed.

(** Where the clock does not go back, idle means that the last byte was sent or received more than
    the limit ago. *)
Lemma idle_seconds t c : 0 <= GetLastActiveUnixSecs c <= t -> t < 2 ^ 32 ->
  idle max_inactive (wrap 32 t) c <-> max_inactive < t - GetLastActiveUnixSecs c.
Proof.
  intros Hl Ht; unfold idle, inactive_secs; rewrite (wrap_small 32 t) by (unfold fits; lia).
  by rewrite wrap_small by (unfold fits; lia).
Qed.

(** Registered in a session of a user, and without a byte for more than the limit. *)
Definition registered_silent m (q : nat) c : Prop :=
  exists user u ty cid sp ss, mux_conns m !! user = Some u /\ sessions ty u !! cid = Some sp /\
    session_store m !! sp = Some ss /\ Some q ∈ conns ss /\ max_inactive < now sp - GetLastActiveUnixSecs c.

(** What printing closes, in the arithmetic of the report. *)
Lemma print_closes s l :
  g_stat_funcs s = [io_stat; mux_stat; sessions_stat now max_inactive] ++ l -> server_funcs l ->
  manager_wf (pr_manager (stat_world s)) ->
  exists s' text, print_stats s = (s', Ok tt) /\ stat_log s' = stat_log s ++ [text] /\
    closed_when (registered_idle (pr_manager (stat_world s))) (pr_manager (stat_world s)) (pr_manager (stat_world s')) /\
    stat_world s' = set_pr_manager (pr_manager (stat_world s')) (stat_world s).
Proof.
  intros Hf Hl Hw; destruct (manager_reports (pr_manager (stat_world s)) ∅ Hw) as (m' & stats & Em & Hc).
  destruct (server_funcs_run l (set_pr_manager m' (stat_world s)) Hl) as [vs Ev].
  assert (run_funcs (g_stat_funcs s) (stat_world s) =
    (set_pr_manager m' (stat_world s), Ok (io_values (stat_world s) :: mux_values (stat_world s) :: stats :: vs))) as Hr.
  { rewrite Hf; cbn [app]; do 2 (eapply run_funcs_cons; [done|]); eapply run_funcs_cons; [|exact Ev].
    unfold sessions_stat, on_pr_manager; by rewrite Em. }
  destruct (print_stats_run s _ _ Hr) as (s' & E & Ew & _ & Et & Elog); exists s', (stats_text (g_stat_table s')).
  rewrite decide_False in Elog; [rewrite Ew; by destruct (stat_world s), m'|].
  rewrite Et; eapply (table_not_empty (bs "IOBuf") (bs "pool_size")); [|by left]; done.
Qed.

(** C37. With the functions that [init_stats] and the servers register, and while no connection was active at a
    time after the clock of the report (it was not set back), printing the statistics closes exactly the
    registered connections on which the last byte was sent or received more than the limit ago, whatever the
    order of the hash tables; no other connection, session or table changes, and one text is logged. *)
Theorem stats_close_idle_connections s l :
  g_stat_funcs s = [io_stat; mux_stat; sessions_stat now max_inactive] ++ l -> server_funcs l ->
  manager_wf (pr_manager (stat_world s)) ->
  (forall sp q c, conn_store (pr_manager (stat_world s)) !! q = Some c -> 0 <= GetLastActiveUnixSecs c <= now sp /\ now sp < 2 ^ 32) ->
  exists s' text, print_stats s = (s', Ok tt) /\ stat_log s' = stat_log s ++ [text] /\
    closed_when (registered_silent (pr_manager (stat_world s))) (pr_manager (stat_world s)) (pr_manager (stat_world s')) /\
    stat_world s' = set_pr_manager (pr_manager (stat_world s')) (stat_world s).
Proof.
  intros Hf Hl Hw Ht; destruct (print_closes s l Hf Hl Hw) as (s' & text & E & Elog & Hc & Ew).
  exists s', text; do 2 (split; [done|]); split; [|done]; eapply closed_when_ext_in; [|exact Hc].
  intros q c Hq; unfold registered_idle, registered_silent; split; intros (user & u & ty & cid & sp & ss & Hu & Hs & Hss & Hin & Hi);
    exists user, u, ty, cid, sp, ss; do 4 (split; [done|]); destruct (Ht sp q c Hq); by apply idle_seconds.
Qed.

End idle_theorems.

Section session_theorems.
Context `{Platform} `{Nanopb} `{Aead}.
Context {C : Type} `{IOConnection C} `{Clock C}.
Variables (now : nat -> Z) (max_inactive : Z).
Implicit Types (m : MuxConnManager C) (c : MuxConnection C).

(** The report of a session has, for every slot, either the mark of an empty slot or the idle time
    and the traffic of the connection in it, under keys that no other slot uses. *)
Theorem session_report_complete m sp s kv :
  manager_wf m -> session_store m !! sp = Some s -> fits 64 (zlen (conns s)) ->
  exists m' kv', session_ReportStatInfo now max_inactive sp kv m = (m', Ok kv') /\
    forall i x, zget (conns s) i = Some x -> slot_reported (conn_store m) (wrap 32 (now sp)) i x kv'.
Proof.
  intros [_ Hw] Hs Hf.
  destruct (report_conns_closes max_inactive (wrap 32 (now sp)) (conns s) 0 kv m) as (m' & kv' & E & _).
  { intros p Hp; by eapply Hw. }
  exists m', kv'; split; [unfold session_ReportStatInfo; srun; by rewrite Hs|].
  destruct (report_conns_entries max_inactive (conn_store m) (wrap 32 (now sp)) (conns s) 0 kv m m' kv') as [_ Hr]; try done.
  intros p c Hc; by exists 0%nat, c.
Qed.

(** A clock that was set back makes an active connection idle: the difference wraps around, and the
    next report closes the connection. *)
Theorem clock_set_back_closes_connection m p c t :
  conn_store m !! p = Some c -> 0 <= t < GetLastActiveUnixSecs c -> GetLastActiveUnixSecs c < 2 ^ 32 ->
  0 <= max_inactive < 2 ^ 32 - (GetLastActiveUnixSecs c - t) ->
  exists kv, report_conns max_inactive (wrap 32 t) 0 [Some p] ∅ m = (set_conn_store (insert p (conn_Close c)) m, Ok kv).
Proof.
  intros Hc Ht Hl Hm; eexists; cbn [report_conns]; srun; rewrite Hc.
  rewrite (proj2 (Z.ltb_lt _ _)); [done|]; unfold inactive_secs; rewrite (wrap_small 32 t) by (unfold fits; lia).
  unfold wrap; rewrite <- (Z.mod_unique_pos (t - GetLastActiveUnixSecs c) (2 ^ 32) (-1) (2 ^ 32 - (GetLastActiveUnixSecs c - t))); lia.
Qed.

End session_theorems.

(** ** Witnesses *)

Module StatDemo.
Export ManagerDemo StreamDemo.

#[export] Instance demo_str_hash : StrHash := fun A t => map_to_list t.
#[export] Instance demo_str_hash_ok : StrHashOk.
Proof. by intros A t. Qed.

(** A program whose connections never carried a byte, a thousand seconds after the epoch. *)
Definition process0 : Process pipe chan unit := {|
  pr_server := {| g_mux_server_conn_num := 3; sv_streams := stream_world; sv_spawned := []; sv_tunnels := tt;
                  sv_wheel := TimeWheel_new 16 |};
  pr_pool := pool_init; g_mux_conn_num := 3; g_mux_conn_num_in_loop := 2; g_local_proxy_conn_num := 1 |}.
Definition at_1000 (sp : nat) : Z := 1000.
Definition stats0 : Stats (Process pipe chan unit) := {|
  g_stat_table := []; g_stat_funcs := [io_stat; mux_stat; sessions_stat at_1000 300] ++ [entry_stat; server_stat];
  stat_log := []; stat_world := process0 |}.

Lemma servers0 : server_funcs (C := pipe) (Ch := chan) (T := unit) [entry_stat; server_stat].
Proof. constructor; [by left|]; constructor; [by right | constructor]. Qed.

Example init_stats_registers :
  g_stat_funcs (init_stats at_1000 300 {| g_stat_table := []; g_stat_funcs := []; stat_log := []; stat_world := process0 |}).1
  = [io_stat; mux_stat; sessions_stat at_1000 300].
Proof. reflexivity. Qed.

(** Two functions that report the same entry. *)
Definition say (v : bytes) : CollectStatFunc unit := sret {[ bs "A" := {[ bs "x" := v ]} ]}.
Definition two : Stats unit := {| g_stat_table := []; g_stat_funcs := [say (bs "1"); say (bs "2")]; stat_log := []; stat_world := tt |}.

End StatDemo.

Section witnesses.
Import StatDemo.

Lemma stats_last_value_printed_witness :
  exists s', print_stats two = (s', Ok tt) /\
    stat_log s' = [stats_text [(bs "A", [(bs "x", bs "2")])]].
Proof.
  destruct (stats_last_value_printed two tt [{[ bs "A" := {[ bs "x" := bs "1" ]} ]}; {[ bs "A" := {[ bs "x" := bs "2" ]} ]}]
    eq_refl) as (s' & E & _ & Ho & Hg & Hl).
  exists s'; split; [exact E|]; injection E as E; rewrite <- E; vm_compute; reflexivity.
Defined.

Lemma stats_close_idle_connections_witness :
  exists s' text, print_stats stats0 = (s', Ok tt) /\ stat_log s' = [text] /\
    closed_when (registered_silent at_1000 300 manager) manager (pr_manager (stat_world s')).
Proof.
  destruct (stats_close_idle_connections at_1000 300 stats0 [entry_stat; server_stat] eq_refl servers0 manager_ok)
    as (s' & text & E & Hl & Hc & _).
  - intros sp q c Hq; assert (map_Forall (fun _ c => 0 <= GetLastActiveUnixSecs c <= 1000) (conn_store manager)) as Hf
      by (apply (bool_decide_unpack _); by vm_compute).
    split; [exact (Hf q c Hq) | done].
  - exact (ex_intro _ s' (ex_intro _ text (conj E (conj Hl Hc)))).
Defined.

Lemma session_report_complete_witness :
  exists m' kv', session_ReportStatInfo at_1000 300 0 ∅ manager = (m', Ok kv') /\
    forall i x, zget (conns session0) i = Some x -> slot_reported (conn_store manager) (wrap 32 1000) i x kv'.
Proof. exact (session_report_complete at_1000 300 manager 0 session0 ∅ manager_ok eq_refl ltac:(by split)). Defined.

Lemma clock_set_back_closes_connection_witness :
  exists kv, report_conns 300 (wrap 32 4) 0 [Some 1%nat] ∅
    (set_conn_store (insert 1%nat (set_last_read (fun _ => 5) link)) manager) =
    (set_conn_store (insert 1%nat (conn_Close (set_last_read (fun _ => 5) link)))
      (set_conn_store (insert 1%nat (set_last_read (fun _ => 5) link)) manager), Ok kv).
Proof.
  exact (clock_set_back_closes_connection 300 (set_conn_store (insert 1%nat (set_last_read (fun _ => 5) link)) manager)
    1 (set_last_read (fun _ => 5) link) 4 eq_refl ltac:(by split) ltac:(done) ltac:(by split)).
Defined.

End witnesses.
