(* ===== verification/Main.v ===== *)
(** * The main program

    src/snova/app/snova.cc and src/snova/util/flags.cc: from the parsed command line to the services
    that are started.  Parsing the command line is CLI11's; [exit(-1)] ends the program with the
    error -1, an exception that nothing catches with its own code.  Spawning a coroutine appends it
    to the list of services, in the order of the spawns; the coroutines are those of the other files. *)

From S2P Require Import Prelude IoBuf Text Address Io Connect DnsOptions TunnelServer.
From S2P Require Import PbMessages MuxEvent MuxConnection.

(** ** Flags *)

Record GlobalFlags := {
  g_http_proxy_port : Z;
  http_proxy_host_ : bytes;
  remote_server_ : bytes;
  user_ : bytes;
  local_tunnels_ : list LocalTunnelOption.opt;
  remote_tunnels_ : list RemoteTunnelOption.opt
}.

Definition flags_eta (r : GlobalFlags) : GlobalFlags := {|
  g_http_proxy_port := g_http_proxy_port r; http_proxy_host_ := http_proxy_host_ r; remote_server_ := remote_server_ r;
  user_ := user_ r; local_tunnels_ := local_tunnels_ r; remote_tunnels_ := remote_tunnels_ r |}.
Definition fupd (A : Type) : Type := (A -> A) -> GlobalFlags -> GlobalFlags.
Definition set_proxy_port : fupd Z := ltac:(setter flags_eta g_http_proxy_port).
Definition SetHttpProxyHost (s : bytes) : GlobalFlags -> GlobalFlags :=
  (ltac:(setter flags_eta http_proxy_host_) : fupd bytes) (fun _ => s).
Definition SetRemoteServer (s : bytes) : GlobalFlags -> GlobalFlags :=
  (ltac:(setter flags_eta remote_server_) : fupd bytes) (fun _ => s).
Definition SetUser (s : bytes) : GlobalFlags -> GlobalFlags :=
  (ltac:(setter flags_eta user_) : fupd bytes) (fun _ => s).
Definition AddLocalTunnelOption (o : LocalTunnelOption.opt) : GlobalFlags -> GlobalFlags :=
  (ltac:(setter flags_eta local_tunnels_) : fupd (list LocalTunnelOption.opt)) (fun l => l ++ [o]).
Definition AddRemoteTunnelOption (o : RemoteTunnelOption.opt) : GlobalFlags -> GlobalFlags :=
  (ltac:(setter flags_eta remote_tunnels_) : fupd (list RemoteTunnelOption.opt)) (fun l => l ++ [o]).

Definition flags_start : GlobalFlags := {|
  g_http_proxy_port := 0; http_proxy_host_ := []; remote_server_ := []; user_ := [];
  local_tunnels_ := []; remote_tunnels_ := [] |}.

(** ** The command line, and what is started *)

Record Options := {
  o_role : NodeRole;
  multi_listens : list bytes;
  auth_user_opt : bytes;
  proxy_server : bytes;
  remote_server : bytes;
  client_cipher : bytes * bytes;
  server_cipher : bytes * bytes;
  local_tunnel_opts : list bytes;
  remote_tunnel_opts : list bytes;
  ip_range_file : bytes;
  default_ns_opt : bytes;
  trusted_ns_opt : bytes;
  stat_log_period_secs : Z
}.

(** The variables before the command line is parsed. *)
Definition default_cipher : bytes * bytes := (bs "chacha20_poly1305", bs "default cipher key").
Definition default_options : Options := {|
  o_role := {| g_is_entry_node := false; g_is_middle_node := false; g_is_exit_node := false |};
  multi_listens := []; auth_user_opt := bs "demo_user"; proxy_server := []; remote_server := [];
  client_cipher := default_cipher; server_cipher := default_cipher; local_tunnel_opts := []; remote_tunnel_opts := [];
  ip_range_file := []; default_ns_opt := []; trusted_ns_opt := []; stat_log_period_secs := 60 |}.

(** The names given to [add_option], in its order. *)
Definition option_names : list bytes := bs <$>
  ["--log_file"; "--max_log_file_size"; "--max_log_file_num"; "--alsologtostderr"; "--listen"; "--user"; "--proxy"; "--remote";
   "--conn_num_per_server"; "--conn_expire_secs"; "--conn_max_inactive_secs"; "--max_iobuf_pool_size"; "--stream_io_timeout_secs";
   "--stat_log_period_secs"; "--client_cipher_method"; "--client_cipher_key"; "--server_cipher_method"; "--server_cipher_key";
   "--entry"; "--middle"; "--exit"; "--redirect"; "--entry_socket_send_buffer_size"; "--entry_socket_recv_buffer_size";
   "-L"; "-R"; "--ip_range_file"; "--default_ns"; "--trusted_ns"; "--trusted_ns_domains"; "--dns_proxy_timeout"]%string.

(** Options that differ from the default in the role and the listen addresses. *)
Definition plain_node (role : NodeRole) (addrs : list bytes) : Options := {|
  o_role := role; multi_listens := addrs; auth_user_opt := auth_user_opt default_options;
  proxy_server := proxy_server default_options; remote_server := remote_server default_options;
  client_cipher := client_cipher default_options; server_cipher := server_cipher default_options;
  local_tunnel_opts := local_tunnel_opts default_options; remote_tunnel_opts := remote_tunnel_opts default_options;
  ip_range_file := ip_range_file default_options; default_ns_opt := default_ns_opt default_options;
  trusted_ns_opt := trusted_ns_opt default_options; stat_log_period_secs := stat_log_period_secs default_options |}.

Record NameServers := { ns_default : option NetAddress; ns_trusted : option NetAddress; ns_ranges : range_map }.

Inductive service :=
| RunMuxClient (user : bytes) (cipher : bytes * bytes)
| RunMuxServer (a : NetAddress) (cipher : bytes * bytes)
| RunDnsProxy (a : NetAddress) (ns : NameServers)
| RunEntryServer (a : NetAddress)
| RunLocalTunnels (l : list LocalTunnelOption.opt)
| RunStatTimer (period : Z)
| RunTimeWheel.

Definition error_exit {S A} : st S A := sfail (-1).

Section main.
Context `{AbslStrings}.
Context {Nw : Type} `{AsioNetworks Nw}.
Variable files : bytes -> option (list bytes).   (* the files that can be opened, by their names *)

(** The address of a name server; both blocks of the source are alike. *)
Definition parse_ns (text : bytes) : st GlobalFlags (option NetAddress) :=
  if decide (text = []) then sret None else
  match NetAddress_Parse text with
  | Ok a =>
      sret (Some (if port a =? 0
                  then {| schema := schema a; host := host a; port := 53; path := path a |} else a))
  | _ => error_exit
  end.

Definition load_ranges (file : bytes) : st GlobalFlags range_map :=
  if decide (file = []) then sret [] else
  let '(m, r) := LoadIPRangeFromFile (Nw := Nw) (files file) [] in
  let! success := slift r in
  if negb success then error_exit else sret m.

Definition parse_proxy (proxy : bytes) : st GlobalFlags unit :=
  if decide (proxy = []) then sret tt else
  if negb (StartsWith proxy (bs "http://")) then error_exit else
  match StrSplit [COLON] (zdrop 7 proxy) with
  | [h; p] =>
      match stoi p with
      | Ok v => let! _ := smodify (set_proxy_port (fun _ => wrap 16 v)) in smodify (SetHttpProxyHost h)
      | _ => error_exit
      end
  | _ => error_exit
  end.

(** The number of roles chosen, as the sum the source forms. *)
Definition role_count (r : NodeRole) : Z :=
  Z.b2z (g_is_entry_node r) + Z.b2z (g_is_middle_node r) + Z.b2z (g_is_exit_node r).

Definition check_roles (o : Options) : st GlobalFlags unit :=
  let r := o_role o in
  if negb (g_is_entry_node r) && negb (g_is_middle_node r) && negb (g_is_exit_node r) then error_exit
  else if 1 <? role_count r then error_exit
  else if g_is_middle_node r && bool_decide (multi_listens o = []) then error_exit
  else if g_is_entry_node r && (bool_decide (multi_listens o = []) && bool_decide (local_tunnel_opts o = [])) then error_exit
  else if negb (bool_decide (local_tunnel_opts o = [])) && negb (g_is_entry_node r) then error_exit
  else if negb (bool_decide (remote_tunnel_opts o = [])) && negb (g_is_exit_node r) then error_exit
  else sret tt.

Definition no_local_opt : LocalTunnelOption.opt :=
  {| LocalTunnelOption.local_port := 0; LocalTunnelOption.remote_host := []; LocalTunnelOption.remote_port := 0 |}.
Definition no_remote_opt : RemoteTunnelOption.opt :=
  {| RemoteTunnelOption.remote_port := 0; RemoteTunnelOption.local_host := []; RemoteTunnelOption.local_port := 0 |}.

Fixpoint add_local_tunnels (l : list bytes) : st GlobalFlags unit :=
  match l with
  | [] => sret tt
  | addr :: l =>
      let '(ok, opt) := LocalTunnelOption_Parse addr no_local_opt in
      if negb ok then error_exit
      else let! _ := smodify (AddLocalTunnelOption opt) in add_local_tunnels l
  end.

Fixpoint add_remote_tunnels (l : list bytes) : st GlobalFlags unit :=
  match l with
  | [] => sret tt
  | addr :: l =>
      let '(ok, opt) := RemoteTunnelOption_Parse addr no_remote_opt in
      if negb ok then error_exit
      else let! _ := smodify (AddRemoteTunnelOption opt) in add_remote_tunnels l
  end.

(** The loop over the listen addresses; [n] is [dns_server_count]. *)
Fixpoint parse_listens (range_file : bytes) (ns : NameServers) (n : Z) (l : list bytes) : st GlobalFlags (list NetAddress) :=
  match l with
  | [] => sret []
  | v :: l =>
      match NetAddress_Parse v with
      | Ok a =>
          let! n :=
            if decide (schema a = bs "dns") then
              if 0 <? n then error_exit
              else if decide (range_file = []) then error_exit
              else match ns_trusted ns, ns_default ns with
                   | Some _, Some _ => sret (wrap 32 (n + 1))
                   | _, _ => error_exit
                   end
            else sret n in
          let! rest := parse_listens range_file ns n l in
          sret (a :: rest)
      | _ => error_exit
      end
  end.

(** The service of a listen address. *)
Definition service_of (o : Options) (ns : NameServers) (a : NetAddress) : service :=
  let r := o_role o in
  let is_mux_server :=
    if g_is_exit_node r || g_is_middle_node r then true
    else negb (bool_decide (schema a = []) || bool_decide (schema a = bs "socks5")) in
  let is_dns_server := bool_decide (schema a = bs "dns") in
  let is_mux_server := if is_dns_server then false else is_mux_server in
  if is_mux_server then RunMuxServer a (server_cipher o)
  else if is_dns_server then
    RunDnsProxy (if port a =? 0 then {| schema := schema a; host := host a; port := 53; path := path a |} else a) ns
  else RunEntryServer a.

(** [main], from the parsed options to [ctx.run()]. *)
Definition main (o : Options) : st GlobalFlags (list service) :=
  let! default_ns := parse_ns (default_ns_opt o) in
  let! trusted_ns := parse_ns (trusted_ns_opt o) in
  let! ranges := load_ranges (ip_range_file o) in
  let ns := {| ns_default := default_ns; ns_trusted := trusted_ns; ns_ranges := ranges |} in
  let! _ := parse_proxy (proxy_server o) in
  let! _ := check_roles o in
  let! _ := add_local_tunnels (local_tunnel_opts o) in
  let! _ := add_remote_tunnels (remote_tunnel_opts o) in
  let! _ := smodify (SetRemoteServer (remote_server o)) in
  let! _ := smodify (SetUser (auth_user_opt o)) in
  let client := if decide (remote_server o = []) then [] else [RunMuxClient (auth_user_opt o) (client_cipher o)] in
  let! listen_addrs := parse_listens (ip_range_file o) ns 0 (multi_listens o) in
  let! flags := sget in
  sret (client ++ (service_of o ns <$> listen_addrs) ++
        (if decide (local_tunnel_opts o = []) then [] else [RunLocalTunnels (local_tunnels_ flags)]) ++
        (if 0 <? stat_log_period_secs o then [RunStatTimer (stat_log_period_secs o)] else []) ++ [RunTimeWheel]).

End main.

(** ** The coroutine of the local tunnels *)

Section local_tunnels.
Context {N Ep C : Type} `{Network N Ep C, Acceptors N Ep C}.

Definition tunnel_src (o : LocalTunnelOption.opt) : NetAddress :=
  {| schema := []; host := bs "0.0.0.0"; port := LocalTunnelOption.local_port o; path := [] |}.
Definition tunnel_dst (o : LocalTunnelOption.opt) : NetAddress :=
  {| schema := []; host := LocalTunnelOption.remote_host o; port := LocalTunnelOption.remote_port o; path := [] |}.

Fixpoint start_local_tunnels (l : list LocalTunnelOption.opt) : st (Tunnels N) unit :=
  match l with
  | [] => sret tt
  | o :: l =>
      let! '(_, ec) := start_tunnel_server (tunnel_src o) (tunnel_dst o) in
      if negb (ec =? 0) then error_exit else start_local_tunnels l
  end.

(** [start_entry_server]: the error code, or the listening socket of its accept loop. *)
Definition start_entry_server (server_address : NetAddress) : st N (Z + nat) :=
  let! r := do_resolve_endpoint (host server_address) (port server_address) in
  match r with
  | inl resolve_ec => sret (inl resolve_ec)
  | inr endpoint => open_acceptor endpoint
  end.

End local_tunnels.

(** ** Which command lines start the program *)

Section main_facts.
Context `{AbslStrings}.
Context {Nw : Type} `{AsioNetworks Nw}.
Variable files : bytes -> option (list bytes).
Implicit Types (o : Options) (f : GlobalFlags).

Definition is_dns (a : NetAddress) : Prop := schema a = bs "dns".
#[export] Instance is_dns_dec a : Decision (is_dns a).
Proof. unfold is_dns; apply _. Defined.

(** An option that is absent or an address; the listen addresses. *)
Definition ns_ok (text : bytes) : Prop := text = [] \/ exists a, NetAddress_Parse text = Ok a.
Definition listens (l : list bytes) (addrs : list NetAddress) : Prop :=
  Forall2 (fun v a => NetAddress_Parse v = Ok a) l addrs.

(** A command line without mistakes. *)
Record valid_options (o : Options) : Prop := {
  v_default_ns : ns_ok (default_ns_opt o);
  v_trusted_ns : ns_ok (trusted_ns_opt o);
  v_ranges : ip_range_file o = [] \/ exists m, LoadIPRangeFromFile (Nw := Nw) (files (ip_range_file o)) [] = (m, Ok true);
  v_proxy : proxy_server o = [] \/ (StartsWith (proxy_server o) (bs "http://") = true /\
    exists h p v, StrSplit [COLON] (zdrop 7 (proxy_server o)) = [h; p] /\ stoi p = Ok v);
  v_role : role_count (o_role o) = 1;
  v_listen : g_is_exit_node (o_role o) = true \/ multi_listens o <> [] \/
    (g_is_entry_node (o_role o) = true /\ local_tunnel_opts o <> []);
  v_local : local_tunnel_opts o = [] \/ g_is_entry_node (o_role o) = true;
  v_remote : remote_tunnel_opts o = [] \/ g_is_exit_node (o_role o) = true;
  v_local_opts : Forall (fun a => is_Some (parse_tunnel_opt a)) (local_tunnel_opts o);
  v_remote_opts : Forall (fun a => is_Some (parse_tunnel_opt a)) (remote_tunnel_opts o);
  v_listens : exists addrs, listens (multi_listens o) addrs /\
    (filter is_dns addrs = [] \/
     (exists a, filter is_dns addrs = [a]) /\ ip_range_file o <> [] /\ default_ns_opt o <> [] /\ trusted_ns_opt o <> [])
}.

Lemma parse_ns_spec text f :
  (ns_ok text -> exists x, parse_ns text f = (f, Ok x)) /\
  (forall f' x, parse_ns text f = (f', Ok x) -> ns_ok text /\ f' = f /\ (x = None <-> text = [])).
Proof.
  unfold parse_ns, ns_ok; case_decide as Ht.
  - split; [by eexists|]; intros f' x [= <- <-]; split; [auto|]; split; [done|]; by split.
  - destruct (NetAddress_Parse text) as [a|e| |] eqn:E;
      try (split; [intros [?|[a' ?]]; done | intros f' x [=]]).
    split; [by eexists|]; intros f' x [= <- <-]; split; [right; by exists a|]; split; [done|]; by split.
Qed.

Lemma load_ranges_spec file f :
  (file = [] \/ (exists m, LoadIPRangeFromFile (Nw := Nw) (files file) [] = (m, Ok true)) ->
     exists m, load_ranges (Nw := Nw) files file f = (f, Ok m)) /\
  (forall f' m, load_ranges (Nw := Nw) files file f = (f', Ok m) ->
     f' = f /\ (file = [] \/ LoadIPRangeFromFile (Nw := Nw) (files file) [] = (m, Ok true))).
Proof.
  unfold load_ranges; case_decide as Hf; [split; [by eexists|]; intros f' m [= <- <-]; auto|].
  destruct (LoadIPRangeFromFile (files file) []) as [m0 [[]| | |]]; srun; split; try (intros [?|[m ?]]; [done | congruence]);
    try (intros f' m [=]; subst; auto); by eexists.
Qed.

Lemma parse_proxy_spec proxy f :
  (proxy = [] \/ (StartsWith proxy (bs "http://") = true /\ exists h p v, StrSplit [COLON] (zdrop 7 proxy) = [h; p] /\ stoi p = Ok v)) <->
  exists f', parse_proxy proxy f = (f', Ok tt).
Proof.
  unfold parse_proxy; case_decide as Hp; [split; eauto|].
  destruct (StartsWith proxy (bs "http://")); cbn [negb]; [|by split; [intros [|[]]|intros [??]]].
  destruct (StrSplit [COLON] (zdrop 7 proxy)) as [|h [|p [|]]] eqn:Es;
    try (split; [intros [?|(_ & ? & ? & ? & ? & _)]; done | by intros [??]]).
  destruct (stoi p) as [v| | |] eqn:Ev;
    try (split; [intros [?|(_ & h' & p' & v' & [= <- <-] & ?)]; [done | congruence] | by intros [??]]).
  split; [intros _; eexists; reflexivity|]; intros _; right; eauto 6.
Qed.

Lemma check_roles_spec o f :
  (role_count (o_role o) = 1 /\
   (g_is_exit_node (o_role o) = true \/ multi_listens o <> [] \/ (g_is_entry_node (o_role o) = true /\ local_tunnel_opts o <> [])) /\
   (local_tunnel_opts o = [] \/ g_is_entry_node (o_role o) = true) /\
   (remote_tunnel_opts o = [] \/ g_is_exit_node (o_role o) = true)) <-> check_roles o f = (f, Ok tt).
Proof.
  unfold check_roles, role_count; destruct (o_role o) as [[] [] []]; cbn;
    destruct (multi_listens o), (local_tunnel_opts o), (remote_tunnel_opts o); cbn; split; intros Hx; try done; try (by destruct Hx);
    try (split_and!; auto; fail); destruct Hx as (_ & Ha & Hb & Hc);
    repeat match goal with Hor : _ \/ _ |- _ => destruct Hor as [?|Hor] end; try done; destruct_and?; done.
Qed.

Lemma check_roles_flags o f f' : check_roles o f = (f', Ok tt) -> f' = f.
Proof. unfold check_roles; repeat case_match; by intros [=]. Qed.

Lemma add_local_tunnels_spec l : forall f,
  Forall (fun a => is_Some (parse_tunnel_opt a)) l <-> exists f', add_local_tunnels l f = (f', Ok tt).
Proof.
  induction l as [|a l IH]; intros f; cbn [add_local_tunnels]; [split; [by eexists | done]|].
  rewrite Forall_cons; unfold LocalTunnelOption_Parse; destruct (parse_tunnel_opt a) as [[[p h] q]|]; cbn [negb].
  - srun; rewrite <- IH; split; [by intros [] | by split].
  - split; [by intros [[] _] | by intros []].
Qed.

Lemma add_remote_tunnels_spec l : forall f,
  Forall (fun a => is_Some (parse_tunnel_opt a)) l <-> exists f', add_remote_tunnels l f = (f', Ok tt).
Proof.
  induction l as [|a l IH]; intros f; cbn [add_remote_tunnels]; [split; [by eexists | done]|].
  rewrite Forall_cons; unfold RemoteTunnelOption_Parse; destruct (parse_tunnel_opt a) as [[[p h] q]|]; cbn [negb].
  - srun; rewrite <- IH; split; [by intros [] | by split].
  - split; [by intros [[] _] | by intros []].
Qed.

(** The loop accepts one DNS address, if the proxy is configured. *)
Lemma parse_listens_spec file ns l : forall n f f' addrs, 0 <= n <= 1 ->
  parse_listens file ns n l f = (f', Ok addrs) <->
  f' = f /\ listens l addrs /\
  (filter is_dns addrs = [] \/
   n = 0 /\ (exists a, filter is_dns addrs = [a]) /\ file <> [] /\ is_Some (ns_default ns) /\ is_Some (ns_trusted ns)).
Proof.
  induction l as [|v l IH]; intros n f f' addrs Hn; cbn [parse_listens].
  - split; [intros [= <- <-]; split_and!; [done | constructor | by left]|].
    intros (-> & Hl & _); by inversion Hl.
  - destruct (NetAddress_Parse v) as [a|e| |] eqn:Ev;
      try (split; [done|]; intros (_ & Hl & _); inversion Hl; congruence).
    assert (forall m, 0 <= m <= 1 ->
      (let! rest := parse_listens file ns m l in sret (a :: rest)) f = (f', Ok addrs) <->
      exists as1, addrs = a :: as1 /\ parse_listens file ns m l f = (f', Ok as1)) as Hrest.
    { intros m _; srun; split; [|by intros (as1 & -> & ->)].
      destruct (parse_listens file ns m l f) as [f1 [r| | |]]; intros [=]; subst; eauto. }
    case_decide as Hd.
    + destruct (Z.ltb_spec 0 n).
      { split; [done|]; intros (_ & Hl & Hc); inversion Hl as [|? b ? bs1 Hb Hbs]; subst.
        assert (b = a) as -> by congruence; rewrite filter_cons_True in Hc by done; destruct Hc as [?|[? _]]; [done | lia]. }
      assert (n = 0) as -> by lia.
      case_decide as Hf; [|destruct (ns_trusted ns) as [t|] eqn:Et; [destruct (ns_default ns) as [d|] eqn:Ed|]].
      3, 4, 1: split; [done|]; intros (_ & Hl & Hc); inversion Hl as [|? b ? bs1 Hb Hbs]; subst;
        assert (b = a) as -> by congruence; rewrite filter_cons_True in Hc by done;
        destruct Hc as [?|(_ & _ & ? & Hs1 & Hs2)]; [done|]; (done || by destruct Hs1 || by destruct Hs2).
      rewrite (sbind_ok _ _ f f 1) by done; rewrite Hrest by lia; split.
      * intros (as1 & -> & Hp); apply IH in Hp as (-> & Hl & [Hc|[? _]]); [|done|lia].
        split; [done|]; split; [by constructor|]; right; rewrite filter_cons_True, Hc by done; eauto 6.
      * intros (-> & Hl & Hc); inversion Hl as [|? b ? bs1 Hb Hbs]; subst; assert (b = a) as -> by congruence.
        exists bs1; split; [done|]; apply IH; [lia|]; split; [done|]; split; [done|]; left.
        rewrite filter_cons_True in Hc by done; destruct Hc as [?|(_ & [c [= _ ?]] & _)]; done.
    + rewrite (sbind_ok _ _ f f n) by done; rewrite Hrest by lia; split.
      * intros (as1 & -> & Hp); apply IH in Hp as (-> & Hl & Hc); [|lia].
        split; [done|]; split; [by constructor|]; by rewrite filter_cons_False by done.
      * intros (-> & Hl & Hc); inversion Hl as [|? b ? bs1 Hb Hbs]; subst; assert (b = a) as -> by congruence.
        exists bs1; split; [done|]; apply IH; [lia|]; by rewrite filter_cons_False in Hc by done.
Qed.

(** The steps of a successful run. *)
Lemma main_inv o f f' l :
  main (Nw := Nw) files o f = (f', Ok l) ->
  valid_options o /\ exists d t ranges addrs f2,
    parse_ns (default_ns_opt o) f = (f, Ok d) /\ parse_ns (trusted_ns_opt o) f = (f, Ok t) /\ listens (multi_listens o) addrs /\
    load_ranges (Nw := Nw) files (ip_range_file o) f = (f, Ok ranges) /\
    (filter is_dns addrs = [] \/ (exists a, filter is_dns addrs = [a]) /\ ip_range_file o <> [] /\ is_Some d /\ is_Some t) /\
    l = (if decide (remote_server o = []) then [] else [RunMuxClient (auth_user_opt o) (client_cipher o)]) ++
        (service_of o {| ns_default := d; ns_trusted := t; ns_ranges := ranges |} <$> addrs) ++
        (if decide (local_tunnel_opts o = []) then [] else [RunLocalTunnels (local_tunnels_ f2)]) ++
        (if 0 <? stat_log_period_secs o then [RunStatTimer (stat_log_period_secs o)] else []) ++ [RunTimeWheel].
Proof.
  unfold main; intros E.
  apply sbind_inv in E as (f1 & d & E1 & E); pose proof E1 as E1'; apply parse_ns_spec in E1' as (Hd & -> & Hd0).
  apply sbind_inv in E as (f1 & t & E2 & E); pose proof E2 as E2'; apply parse_ns_spec in E2' as (Ht & -> & Ht0).
  apply sbind_inv in E as (f1 & ranges & E3 & E); pose proof E3 as E3'; apply load_ranges_spec in E3' as (-> & Hr).
  apply sbind_inv in E as (f1 & [] & E4 & E); apply sbind_inv in E as (f2 & [] & E5 & E).
  pose proof (check_roles_flags _ _ _ E5) as ->; apply check_roles_spec in E5 as (H1r & H2r & H3r & H4r).
  apply sbind_inv in E as (f2 & [] & E6 & E); apply sbind_inv in E as (f3 & [] & E7 & E).
  apply sbind_inv in E as (f4 & [] & _ & E); apply sbind_inv in E as (f5 & [] & _ & E).
  apply sbind_inv in E as (f6 & addrs & E8 & E); injection E as <- <-.
  apply parse_listens_spec in E8 as (_ & Hl & Hc); [|lia].
  assert (forall x (t0 : bytes), (x = None <-> t0 = []) -> is_Some (x : option NetAddress) -> t0 <> []) as Hns.
  { intros x t0 [_ Hx] [y ->] ->; by discriminate Hx. }
  split.
  - split; try done.
    + destruct Hr; eauto.
    + apply (parse_proxy_spec _ f); eauto.
    + apply (add_local_tunnels_spec _ f1); eauto.
    + apply (add_remote_tunnels_spec _ f2); eauto.
    + exists addrs; split; [done|]; destruct Hc as [?|(_ & ? & ? & ? & ?)]; [by left|]; right; eauto 8.
  - exists d, t, ranges, addrs, f6; split_and!; try done; destruct Hc as [?|(_ & ? & ? & ? & ?)]; auto.
Qed.

Lemma main_runs o f : valid_options o -> exists f' l, main (Nw := Nw) files o f = (f', Ok l).
Proof.
  intros [Hd Ht Hr Hp Hrole Hli Hlo Hre Hlos Hres (addrs & Hl & Hc)]; unfold main.
  destruct (proj1 (parse_ns_spec _ f) Hd) as [d E1]; rewrite (sbind_ok _ _ _ _ _ E1).
  destruct (proj1 (parse_ns_spec _ f) Ht) as [t E2]; rewrite (sbind_ok _ _ _ _ _ E2).
  destruct (proj1 (load_ranges_spec _ f) Hr) as [ranges E3]; rewrite (sbind_ok _ _ _ _ _ E3).
  apply (parse_proxy_spec _ f) in Hp as [f1 E4]; rewrite (sbind_ok _ _ _ _ _ E4).
  rewrite (sbind_ok _ _ f1 f1 tt) by (by apply check_roles_spec).
  apply (add_local_tunnels_spec _ f1) in Hlos as [f2 E5]; rewrite (sbind_ok _ _ _ _ _ E5).
  apply (add_remote_tunnels_spec _ f2) in Hres as [f3 E6]; rewrite (sbind_ok _ _ _ _ _ E6).
  apply parse_ns_spec in E1 as (_ & _ & Hd0); apply parse_ns_spec in E2 as (_ & _ & Ht0).
  do 2 (erewrite sbind_ok by reflexivity).
  match goal with |- exists f' l, sbind _ _ ?fl = _ => set (f4 := fl) end.
  rewrite (sbind_ok _ _ f4 f4 addrs); [by do 2 eexists|].
  apply parse_listens_spec; [lia|]; split; [done|]; split; [done|]; destruct Hc as [?|(? & ? & Hdn & Htn)]; [by left|].
  right; split_and!; try done; cbn; apply not_eq_None_Some; [by rewrite Hd0 | by rewrite Ht0].
Qed.

(** C38. Options.  The program gets to its event loop exactly when the command line has no mistake: one
    role, the listen addresses and tunnel options that role needs and none it may not have, every
    text readable, and at most one DNS listen address, which comes with the ranges and both name
    servers; otherwise it ends with an error. *)
Theorem main_starts_iff_valid o f :
  (exists f' l, main (Nw := Nw) files o f = (f', Ok l)) <-> valid_options o.
Proof. split; [intros (f' & l & E); by apply main_inv in E as [? _] | apply main_runs]. Qed.

(** The services that listen, and which one an address calls for. *)
Definition is_listener (x : service) : bool :=
  match x with RunMuxServer _ _ | RunDnsProxy _ _ | RunEntryServer _ => true | _ => false end.
Inductive serves (o : Options) (ns : NameServers) (a : NetAddress) : service -> Prop :=
| serves_dns b : is_dns a -> host b = host a -> port b = (if port a =? 0 then 53 else port a) -> serves o ns a (RunDnsProxy b ns)
| serves_entry : g_is_entry_node (o_role o) = true -> schema a = [] \/ schema a = bs "socks5" -> serves o ns a (RunEntryServer a)
| serves_mux : ~ is_dns a -> g_is_entry_node (o_role o) = false \/ (schema a <> [] /\ schema a <> bs "socks5") ->
    serves o ns a (RunMuxServer a (server_cipher o)).

Lemma service_of_serves o ns a : role_count (o_role o) = 1 -> serves o ns a (service_of o ns a).
Proof.
  intros Hr; unfold service_of; case_bool_decide as Hd; [cbn -[Z.eqb]; constructor; [done | by destruct (port a =? 0)..]|].
  unfold role_count in Hr; destruct (o_role o) as [[] [] []] eqn:Eo; cbn in *; try lia;
    repeat case_bool_decide; cbn; constructor; rewrite ?Eo; auto.
Qed.

Lemma service_of_listener o ns a : is_listener (service_of o ns a) = true.
Proof. unfold service_of; by repeat case_match. Qed.

Lemma filter_listeners o ns addrs l1 l2 :
  Forall (fun x => is_listener x = false) l1 -> Forall (fun x => is_listener x = false) l2 ->
  filter is_listener (l1 ++ (service_of o ns <$> addrs) ++ l2) = service_of o ns <$> addrs.
Proof.
  assert (forall l, Forall (fun x => is_listener x = false) l -> filter is_listener l = []) as Hn.
  { induction 1 as [|x l Hx _ IH]; [done|]; rewrite filter_cons_False; [done|]; cbn; rewrite Hx; exact id. }
  intros H1l H2l; rewrite !filter_app, (Hn l1), (Hn l2), app_nil_r by done; cbn [app].
  induction addrs as [|a addrs IH]; [done|]; cbn [fmap list_fmap]; rewrite filter_cons_True; [by rewrite IH|].
  rewrite service_of_listener; exact I.
Qed.

(** C39. Services.  A program that runs serves every listen address once and in order: the DNS address by
    the DNS proxy, an address of an entry node without a scheme or with [socks5] by the local proxy
    and every other one as a mux server; at most one DNS proxy is started, and it has both name
    servers, so that the pointers its start dereferences are not null. *)
Theorem main_services o f f' l :
  main (Nw := Nw) files o f = (f', Ok l) ->
  exists addrs ns, listens (multi_listens o) addrs /\ Forall2 (serves o ns) addrs (filter is_listener l) /\
    zlen (filter is_dns addrs) <= 1 /\
    (forall a ns', RunDnsProxy a ns' ∈ l -> is_Some (ns_default ns') /\ is_Some (ns_trusted ns')).
Proof.
  intros E; apply main_inv in E as ([_ _ _ _ Hrole _ _ _ _ _ _] & d & t & ranges & addrs & f2 & _ & _ & Hl & _ & Hc & El).
  set (ns := Build_NameServers _ _ _) in El; exists addrs, ns.
  assert (filter is_listener l = service_of o ns <$> addrs) as Hfl.
  { rewrite El; apply filter_listeners; repeat case_match; by repeat constructor. }
  clear El; split; [done|]; split; [|split].
  - rewrite Hfl; apply Forall2_fmap_r, Forall_Forall2_diag, Forall_forall; intros a _; by apply service_of_serves.
  - destruct Hc as [->|([a ->] & _)]; unfold zlen; cbn; lia.
  - intros a ns' Hin; assert (RunDnsProxy a ns' ∈ service_of o ns <$> addrs) as Hin'
      by (rewrite <- Hfl; by apply list_elem_of_filter).
    apply list_elem_of_fmap in Hin' as (b & Hb & Hbin); unfold service_of in Hb.
    destruct (decide (is_dns b)) as [Hdb|Hdb]; unfold is_dns in Hdb; [|by rewrite (bool_decide_false _ Hdb) in Hb; repeat case_match].
    rewrite (bool_decide_true _ Hdb) in Hb; injection Hb as _ ->.
    destruct Hc as [Hn|(_ & _ & ? & ?)]; [|done].
    assert (b ∈ filter is_dns addrs) as Hbf by (by apply list_elem_of_filter); rewrite Hn in Hbf; by apply not_elem_of_nil in Hbf.
Qed.

(** The command line registers no name twice, which the parser would refuse with an exception. *)
Theorem option_names_distinct : NoDup option_names.
Proof. apply (bool_decide_unpack _); by vm_compute. Qed.

(** The defaults.  Without a role the program ends with -1.  A node with one role and one listen address
    that is no DNS address, and all else left at its default, serves that address, prints the statistics
    every 60 seconds and runs the time wheel. *)
Theorem default_node_services role v a f :
  main (Nw := Nw) files default_options f = (f, Err (-1)) /\
  (role_count role = 1 -> NetAddress_Parse v = Ok a -> schema a <> bs "dns" ->
   exists f' ns, main (Nw := Nw) files (plain_node role [v]) f =
     (f', Ok [service_of (plain_node role [v]) ns a; RunStatTimer 60; RunTimeWheel])).
Proof.
  split; [done|]; intros Hr Hv Ha.
  assert (forall g, parse_ns [] g = (g, Ok None)) as Hn by done.
  assert (forall g, load_ranges (Nw := Nw) files [] g = (g, Ok [])) as Hl by done.
  assert (forall g, parse_proxy [] g = (g, Ok tt)) as Hp by done.
  assert (forall g, check_roles (plain_node role [v]) g = (g, Ok tt)) as Hc.
  { intros g; apply check_roles_spec; split; [done|]; split; [right; left; discriminate | by split; left]. }
  unfold main; srun; cbn -[parse_listens service_of check_roles]; rewrite !Hn, Hl, Hp, Hc; cbn -[parse_listens service_of].
  cbn [parse_listens]; rewrite Hv; srun; rewrite decide_False by done; by eexists _, _.
Qed.

(** Roles.  Two programs that run accept each other in the handshake exactly when they were started
    in different roles. *)
Theorem started_roles_accept o1 o2 f1 f2 f1' f2' l1 l2 user cid :
  main (Nw := Nw) files o1 f1 = (f1', Ok l1) -> main (Nw := Nw) files o2 f2 = (f2', Ok l2) ->
  invalid_role (o_role o1) (auth_request (o_role o2) user cid) = true <-> o_role o1 = o_role o2.
Proof.
  intros [[_ _ _ _ Hb1 _ _ _ _ _ _] _]%main_inv [[_ _ _ _ Hb2 _ _ _ _ _ _] _]%main_inv; unfold role_count in *.
  destruct (o_role o1) as [[] [] []], (o_role o2) as [[] [] []]; cbn in *; try lia; unfold invalid_role; cbn; by split.
Qed.

End main_facts.

(** ** The servers of the local tunnels *)

Section tunnel_facts.
Context {N Ep C : Type} `{Network N Ep C, Acceptors N Ep C}.
Implicit Type t : Tunnels N.

(** A start keeps the tables and the servers that listen. *)
Lemma start_keeps l d t t' r :
  tables_ok t -> 1 <= g_tunnel_server_id_seed t < 2 ^ 64 - 1 -> start_tunnel_server l d t = (t', r) ->
  tables_ok t' /\ g_tunnel_server_id_seed t <= g_tunnel_server_id_seed t' <= g_tunnel_server_id_seed t + 1 /\
  (forall a s, exist_server a t = Some s -> exist_server a t' = Some s).
Proof.
  intros Hok Hseed Hs; destruct (start_tunnel_server_cases l d t t' r Hs) as [[(E1 & E2 & E3 & _) _]|(Hn & _ & k & n & ->)].
  - split; [by apply (tables_ok_ext t)|]; split; [lia|]; intros a s; unfold exist_server; by rewrite E1, E2.
  - split; [apply tables_ok_insert; [done | lia | by eapply exist_server_None]|]; cbn; rewrite wrap_small by (unfold fits; lia); split; [lia|].
    intros a s Ha; unfold exist_server in *; cbn; destruct (g_tunnel_server_addr2ids t !! a) as [i|] eqn:Ei; [|done].
    destruct (decide (a = NetAddress_String l)) as [->|Hne].
    + apply (exist_server_None ∅) in Hn; [congruence | done].
    + rewrite lookup_insert_ne, Ei by done; cbn in Ha |- *; rewrite lookup_insert_ne; [done|].
      destruct Hok as [Hi _]; destruct (Hi _ _ Ha) as (_ & _ & ?); lia.
Qed.

(** The seed of the ids does not wrap around within this many starts. *)
Definition ids_left (n : nat) t : Prop := 1 <= g_tunnel_server_id_seed t /\ g_tunnel_server_id_seed t + Z.of_nat n < 2 ^ 64.

Lemma local_tunnels_keep l : forall t t',
  tables_ok t -> ids_left (length l) t -> start_local_tunnels l t = (t', Ok tt) ->
  (forall a s, exist_server a t = Some s -> exist_server a t' = Some s) /\
  (forall o, o ∈ l -> exists s, exist_server (NetAddress_String (tunnel_src o)) t' = Some s /\
     tunnel_addr s = NetAddress_String (tunnel_dst o)).
Proof.
  induction l as [|o l IH]; intros t t' Hok [Hs1 Hs2]; cbn [start_local_tunnels length] in *.
  { intros [= <-]; split; [done|]; intros o Ho; by apply not_elem_of_nil in Ho. }
  intros (t1 & [id ec] & E1 & E2)%sbind_inv; destruct (Z.eqb_spec ec 0) as [->|]; [|done]; cbn [negb] in E2.
  destruct (start_keeps _ _ _ _ _ Hok ltac:(lia) E1) as (Hok1 & Hseed & Hk).
  destruct (IH t1 t' Hok1 ltac:(unfold ids_left; lia) E2) as [Hk1 Hall]; split; [eauto|].
  intros o' [->|Ho]%elem_of_cons; [|by apply Hall].
  destruct (start_leaves_server _ _ _ _ _ E1) as (s & Hx & _ & Hd); eauto.
Qed.

(** Local tunnels.  When the coroutine of the local tunnels has not ended the program, every [-L]
    option has a server that listens on its port and leads to its target; two options for one port
    have the same target. *)
Theorem local_tunnels_listen l t t' :
  tables_ok t -> ids_left (length l) t -> start_local_tunnels l t = (t', Ok tt) ->
  (forall o, o ∈ l -> exists s, exist_server (NetAddress_String (tunnel_src o)) t' = Some s /\
     tunnel_addr s = NetAddress_String (tunnel_dst o)) /\
  (forall o1 o2, o1 ∈ l -> o2 ∈ l -> LocalTunnelOption.local_port o1 = LocalTunnelOption.local_port o2 ->
     NetAddress_String (tunnel_dst o1) = NetAddress_String (tunnel_dst o2)).
Proof.
  intros Hok Hi E; destruct (local_tunnels_keep l t t' Hok Hi E) as [_ Hall]; split; [done|].
  intros o1 o2 Ho1 Ho2 Hp; destruct (Hall o1 Ho1) as (s1 & Hx1 & <-); destruct (Hall o2 Ho2) as (s2 & Hx2 & <-).
  unfold tunnel_src in *; rewrite Hp in Hx1; congruence.
Qed.

End tunnel_facts.

(** ** Witnesses *)

Module MainDemo.
Export RefAbsl TunnelDemo.

#[export] Instance demo_networks : AsioNetworks (Z * Z) :=
  {| make_network_v4 := fun _ => Ok (0, 0); network := fst; hosts := id |}.

Definition no_files (f : bytes) : option (list bytes) := None.
Definition role_entry : NodeRole := {| g_is_entry_node := true; g_is_middle_node := false; g_is_exit_node := false |}.
Definition role_exit : NodeRole := {| g_is_entry_node := false; g_is_middle_node := false; g_is_exit_node := true |}.

(** An entry node with a local proxy and a tunnel, and an exit node. *)
Definition entry_options : Options := {|
  o_role := role_entry; multi_listens := [bs "127.0.0.1:1080"; bs "ws://:8080"]; auth_user_opt := bs "alice";
  proxy_server := bs "http://10.0.0.1:3128"; remote_server := bs "wss://example.com:443";
  client_cipher := (bs "chacha20_poly1305", bs "k"); server_cipher := (bs "chacha20_poly1305", bs "k");
  local_tunnel_opts := [bs "2222:box:22"]; remote_tunnel_opts := []; ip_range_file := [];
  default_ns_opt := []; trusted_ns_opt := []; stat_log_period_secs := 60 |}.
Definition exit_options : Options := {|
  o_role := role_exit; multi_listens := []; auth_user_opt := bs "alice"; proxy_server := [];
  remote_server := bs "tls://example.com"; client_cipher := (bs "chacha20_poly1305", bs "k");
  server_cipher := (bs "chacha20_poly1305", bs "k"); local_tunnel_opts := [];
  remote_tunnel_opts := [bs "2222:localhost:22"]; ip_range_file := []; default_ns_opt := []; trusted_ns_opt := [];
  stat_log_period_secs := 0 |}.
Definition tunnel0 : LocalTunnelOption.opt :=
  {| LocalTunnelOption.local_port := 2222; LocalTunnelOption.remote_host := bs "box"; LocalTunnelOption.remote_port := 22 |}.

End MainDemo.

Section witnesses.
Import MainDemo.

Lemma main_services_witness :
  let l := [RunMuxClient (bs "alice") (bs "chacha20_poly1305", bs "k");
            RunEntryServer {| schema := []; host := bs "127.0.0.1"; port := 1080; path := [] |};
            RunMuxServer {| schema := bs "ws"; host := bs "0.0.0.0"; port := 8080; path := [] |} (bs "chacha20_poly1305", bs "k");
            RunLocalTunnels [tunnel0]; RunStatTimer 60; RunTimeWheel] in
  exists addrs ns, listens (multi_listens entry_options) addrs /\ Forall2 (serves entry_options ns) addrs (filter is_listener l) /\
    zlen (filter is_dns addrs) <= 1 /\
    (forall a ns', RunDnsProxy a ns' ∈ l -> is_Some (ns_default ns') /\ is_Some (ns_trusted ns')).
Proof.
  intros l; refine (main_services (Nw := Z * Z) no_files entry_options flags_start
    (fst (main (Nw := Z * Z) no_files entry_options flags_start)) l _); vm_compute; reflexivity.
Defined.

Lemma started_roles_accept_witness :
  invalid_role role_entry (auth_request role_exit (bs "alice") 42) = true <-> role_entry = role_exit.
Proof.
  refine (started_roles_accept (Nw := Z * Z) no_files entry_options exit_options flags_start flags_start _ _ _ _ (bs "alice") 42 _ _);
    vm_compute; reflexivity.
Defined.

Lemma local_tunnels_listen_witness :
  let run := start_local_tunnels [tunnel0; tunnel0] (tunnels_start ([] : net)) in
  snd run = Ok tt /\
  (forall o, o ∈ [tunnel0; tunnel0] -> exists s, exist_server (NetAddress_String (tunnel_src o)) (fst run) = Some s /\
     tunnel_addr s = NetAddress_String (tunnel_dst o)).
Proof.
  intros run; split; [by vm_compute|].
  refine (proj1 (local_tunnels_listen [tunnel0; tunnel0] (tunnels_start ([] : net)) (fst run) (tables_ok_start _) _ _)); by vm_compute.
Defined.

Lemma default_node_services_witness :
  let a := {| schema := []; host := bs "127.0.0.1"; port := 1080; path := [] |} in
  exists f' ns, main (Nw := Z * Z) no_files (plain_node role_entry [bs "127.0.0.1:1080"]) flags_start =
    (f', Ok [service_of (plain_node role_entry [bs "127.0.0.1:1080"]) ns a; RunStatTimer 60; RunTimeWheel]).
Proof.
  intros a; refine (proj2 (default_node_services (Nw := Z * Z) no_files role_entry (bs "127.0.0.1:1080") a flags_start) _ _ _);
    [reflexivity | vm_compute; reflexivity | vm_compute; discriminate].
Defined.

End witnesses.
