(* ===== verification/EndToEnd.v ===== *)
(** * From the entry node to the destination

    The components of the two nodes together: what the relay of an entry node does to open a stream
    (src/snova/mux/mux_stream.cc) becomes, over a connection of the session
    (src/snova/mux/mux_conn_manager.cc, mux_connection.cc), a relay coroutine of the exit node
    (src/snova/server/relay.cc), which answers with the bytes of the destination. *)

From S2P Require Import Prelude Endian IoBuf TimeWheel Text HttpHelper Sni NetHelper LocalProxy Connect.
From S2P Require Import PbMessages MuxEvent CipherContext Io AsyncMutex MuxConnection MuxStream MuxConnManager MuxDispatch Transfer Relay.

(** ** Opening a stream *)

Section open.
Context `{Platform, !PlatformOk} `{Nanopb, !NanopbOk} `{Aead, !AeadOk}.
Context {C D E F Wr Ch Ch' T : Type} `{IOConnection C} `{Clock C} `{!StreamView C, !ByteStream C}.
Context `{IOConnection D} `{Clock D} `{!StreamView D, !ByteStream D} `{DataChannel Ch, DataChannel Ch'}.
Context `{EventWriters E F Wr}.
Variable handler : bytes -> Z -> MuxEvent -> st T (option MuxEvent).

(** The connection that the writer of stream [p] stands for. *)
Definition writes_to (s : Streams (MuxConnManager C) nat (nat * Z) Ch) (p : nat) (o : MuxStream nat (nat * Z) Ch)
    (sp : nat) (i : Z) (q : nat) (c : MuxConnection C) : Prop :=
  objects s !! p = Some o /\ event_writer o = Some (sp, i) /\
  (exists sess, session_store (ms_env s) !! sp = Some sess /\ zget (conns sess) i = Some (Some q)) /\
  conn_store (ms_env s) !! q = Some c.

(** A connection ready to write. *)
Definition can_write (c : MuxConnection C) (key : bytes) : Prop :=
  conn_wf c /\ cipher_key (cipher_ctx c) = Some key /\ live (io_conn c) /\ mutex_free (write_mutex c).

Lemma call_writer_frame s p o sp i q c key ev :
  writes_to s p o sp i q c -> can_write c key -> event_wf ev -> body_max (body ev) <= kMaxChunkSize ->
  exists c' w k, call_writer (sp, i) ev (ms_env s) =
      (set_conn_store (insert q c') (ms_env s), Ok (set_head (with_len k (head ev)) ev, true)) /\
    frame_of key (encrypt_iv (cipher_ctx c)) (delivered k ev) w /\ body_size (body ev) k /\
    tx (io_conn c') = tx (io_conn c) ++ w.
Proof.
  intros (_ & _ & (sess & Hse & Hi) & Hq) (Hc & Hk & Hl & Hm) He Hb.
  destruct (Write_frame c key ev Hc Hk Hl Hm He Hb) as (c' & w & k & E1 & _ & Hbs & Hf & _ & _ & _ & Ht & _).
  exists c', w, k; split; [|done]; cbn [call_writer session_writers]; unfold session_call_writer; rewrite Hse.
  apply zget_Some_range in Hi as Hi'; bool_false (zlen (conns sess) <=? i); by rewrite Hi, Hq, E1.
Qed.

(** A request to open a stream, from the entry node to the exit node.  [Open] on a stream of the
    entry node puts one frame on the chosen connection and on no other; the exit node that reads
    this frame spawns exactly one relay, for the user and the client of that connection, whose
    request names the stream's id and the host, the port and the kind asked for, and changes no
    stream. *)
Theorem open_spawns_relay (s : Streams (MuxConnManager C) nat (nat * Z) Ch) (d : Dispatch D E F Wr Ch' T)
    p o sp i q c key host port tcp tls :
  writes_to s p o sp i q c -> can_write c key -> fits 32 (stream_sid o) ->
  cstring_wf 512 host -> fits 16 port ->
  conn_wf (d_conn d) -> cipher_key (cipher_ctx (d_conn d)) = Some key -> live (io_conn (d_conn d)) ->
  encrypt_iv (cipher_ctx c) = decrypt_iv (cipher_ctx (d_conn d)) -> has_server_relay (d_conn d) = true ->
  exists s' c' w, Open host port tcp tls p s = (s', Ok 0) /\
    conn_store (ms_env s') = <[q := c']> (conn_store (ms_env s)) /\ tx (io_conn c') = tx (io_conn c) ++ w /\
    forall rest, pending (d_conn d) ++ rx (io_conn (d_conn d)) = w ++ rest ->
      exists d' e, ProcessReadEvent handler d = (d', Ok 0) /\
        d_spawned d' = d_spawned d ++ [(conn_user (d_conn d), conn_client_id (d_conn d), e)] /\
        sid (head e) = stream_sid o /\
        body e = StreamOpenRequest {| PbMessages.remote_host := host; PbMessages.remote_port := port;
                                      PbMessages.is_tcp := tcp; PbMessages.is_tls := tls |} /\
        d_streams d' = d_streams d /\ pending (d_conn d') ++ rx (io_conn (d_conn d')) = rest.
Proof.
  intros Hw Hc Hsid Hhost Hport Hd Hkd Hld Hiv Hrel.
  assert (is_bytes host) as Hhb by (eapply Forall_impl; [apply Hhost|]; unfold is_byte; intros ? ?; cbn in *; lia).
  set (ev := open_event (stream_sid o) host port tcp tls).
  destruct (open_event_sendable (stream_sid o) host port tcp tls Hsid Hhb Hport) as [Hev Hmax].
  destruct (call_writer_frame s p o sp i q c key ev Hw Hc Hev Hmax) as (c' & w & k & Ecall & Hf & Hbs & Htx).
  destruct Hw as (Ho & Hwr & _ & _).
  eexists _, c', w; unfold Open, deref, assign, MuxStream.WriteEvent; srun; rewrite Ho.
  erewrite WriteEvent_attempts_accepted; [| cbn; by rewrite lookup_alter_eq, Ho | exact Hwr | exact Ecall].
  split; [done|]; split; [done|]; split; [done|]; intros rest Hrest; rewrite Hiv in Hf.
  destruct (ProcessReadEvent_frame handler d key (delivered k ev) w rest) as (cd & (_ & _ & Hp & _ & _ & Hkeep) & ->).
  { split_and!; try done; by apply delivered_len. }
  unfold reader_keeps in Hkeep; cbn in Hkeep; injection Hkeep as _ _ _ Hu Hcid _ _ _ _ _ _ Hsr _ _ _ _.
  unfold dispatch_event; cbn -[snprintf_s]; unfold on_stream_open; srun; cbn -[snprintf_s]; rewrite Hsr, Hrel; srun.
  eexists _, _; split; [done|]; cbn -[snprintf_s]; rewrite Hu, Hcid; split; [done|]; split; [done|].
  split; [|done]; unfold delivered, ev, open_event; cbn -[snprintf_s]; by rewrite snprintf_s_id.
Qed.

End open.

(** ** The exit node *)

Section exit_relay.
Context {N Ep C E F Wr Ch : Type} `{IOConnection C, !StreamView C, !ByteStream C, !StreamEof C}.
Context `{Network N Ep C, EventWriters E F Wr, DataChannel Ch, !DataChannelOk Ch, !WaitingChannel Ch, !RelayFactories E F, !WriterLog E F Wr}.
Variables (entry : bool) (io_timeout_secs : Z) (get_iobuf : Z -> bytes) (now_ms : Z).
Hypothesis get_iobuf_size : forall n, n <= zlen (get_iobuf n).
Hypothesis get_iobuf_bytes : forall n, is_bytes (get_iobuf n).
Abbreviation R := (Relay N C E F Wr Ch).
Implicit Types (r : R) (w : World C E F Wr Ch) (d : C).

(** The branch that connects, for a stream whose destination sends and then closes. *)
Lemma relay_to_socket_answers sched p wr cid i ctx r n d :
  sending (rworld r) p wr cid i -> idle (rworld r) p -> live d -> is_bytes (rx d) ->
  get_connected_socket (LocalProxy.remote_host ctx) (LocalProxy.remote_port ctx) (LocalProxy.is_tcp ctx) (net r)
    = (n, Ok (Some d)) ->
  let run := relay_to_socket entry io_timeout_secs get_iobuf (swap_turn <$> (Loop <$> sched)) (Strm p) [] ctx r in
  sched = alone (2 * length (rx d) + 1) \/ run.2 <> Hang ->
  exists r' evs k d' o', run = (r', Ok tt) /\
    world_sent wr (evs ++ [make_event i StreamCloseRequest]) (rworld r) (rworld r') /\
    Forall (chunk_of i) evs /\ concat (payload <$> evs) = rx d /\
    socks (rworld r') !! k = Some (IoClose d') /\ objects (strs (rworld r')) !! p = Some o' /\ stream_closed o' = true.
Proof.
  intros Hs Hid Hl Hb Hcon run; unfold run, relay_to_socket; erewrite sbind_ok by (by apply connect_remote_ok).
  cbv beta iota; set (k := fresh _); set (r1 := Build_Relay _ _ _).
  rewrite (sbind_ok _ _ r1 r1 tt) by done; intros Hsched.
  destruct (quiet_copy entry (0 <? io_timeout_secs) (get_iobuf kMaxChunkSize) sched (rworld r1) p k wr cid i d)
    as (w2 & evs & d2 & o' & E2 & Hlog & Hev & Hcat & Hk & Htx & Ho & Hcl);
    [apply get_iobuf_size | apply get_iobuf_bytes | by cbn; rewrite lookup_insert_eq | done.. | |].
  { destruct Hsched as [?|Hh]; [by left | right]; apply waits_first, both_ways_waits in Hh; by rewrite duplex_swap in Hh. }
  erewrite sbind_ok by (apply both_ways_ok; by rewrite duplex_swap).
  eexists _, evs, k, (IoClose d2), o'; split; [done|]; cbn; rewrite lookup_alter_eq, Hk; by split_and!.
Qed.

(** The answer of a destination.  On an exit node, the relay of a request to open a stream connects to
    the requested destination; when that sends its bytes and closes, the client's node is sent all of
    them, in order, in chunks under the id of its stream, and one close; the relay returns, the socket
    is closed and the id is free, in every order of the two copy loops in which none has to wait. *)
Theorem exit_relay_answers sched auth_user cid ev req r f e wr n d :
  body ev = StreamOpenRequest req ->
  entry_factory auth_user cid (ms_env (strs (rworld r))) = Some f ->
  make_writer f (ms_env (strs (rworld r))) = (e, Ok (Some wr)) -> accepts wr e -> live d -> is_bytes (rx d) ->
  fits 32 (sid (head ev)) ->
  get_connected_socket (PbMessages.remote_host req) (wrap 16 (PbMessages.remote_port req)) (PbMessages.is_tcp req) (net r)
    = (n, Ok (Some d)) ->
  let run := relay_handler entry true io_timeout_secs get_iobuf now_ms (swap_turn <$> (Loop <$> sched)) auth_user cid ev r in
  sched = alone (2 * length (rx d) + 1) \/ run.2 <> Hang ->
  exists r' evs k d', run = (r', Ok tt) /\
    wsent wr (evs ++ [make_event (sid (head ev)) StreamCloseRequest]) e (ms_env (strs (rworld r'))) /\
    Forall (chunk_of (sid (head ev))) evs /\ concat (payload <$> evs) = rx d /\
    socks (rworld r') !! k = Some (IoClose d') /\ Get cid (sid (head ev)) (strs (rworld r')) = None.
Proof.
  intros Hb Hf Hm Ha Hl Hrb Hsid Hcon run; unfold run, relay_handler; rewrite Hb; erewrite (sbind_ok sget) by done; rewrite Hf.
  destruct (new_sending (rworld r) f cid (sid (head ev)) e wr Hm Ha Hsid) as (w1 & p & E1 & Hs1 & He1 & _ & (o1 & Ho1 & Hch1) & _).
  erewrite sbind_ok by (by apply on_world_ok); cbv beta iota.
  destruct (set_tls_sending w1 p wr cid (sid (head ev)) (PbMessages.is_tls req) Hs1) as (w2 & E2 & Hs2 & He2 & _ & Hkp2).
  destruct Hkp2 as [_ Hkp2]; destruct (Hkp2 p o1 Ho1) as (o2 & Ho2 & [= Hch2 _ _ _ _]).
  assert (idle w2 p) as Hid2.
  { destruct Hs2 as (o & Ho & Hcl & _); rewrite Ho2 in Ho; injection Ho as <-; exists o2; rewrite Hch2, Hch1; split_and!; try done; apply chan_new_empty. }
  erewrite sbind_ok by (by apply on_world_ok); cbv beta iota zeta; cbn [rworld net wheel]; intros Hsched.
  match goal with |- context [do_relay _ _ _ _ _ ?sc ?l ?dt ?ctx ?b] =>
    match goal with |- context [with_cleanup _ (sbind _ _) ?r2] =>
      destruct (do_relay_body entry true io_timeout_secs get_iobuf now_ms sc l dt ctx b r2) as (r3 & cl & E3 & Hw3 & Hn3 & Hcl);
      destruct (relay_to_socket_answers sched p wr cid (sid (head ev)) ctx r3 n d)
        as (r4 & evs & k & d' & o' & E4 & Hlog & Hev & Hcat & Hk & Ho & Hclo)
    end end; [by rewrite Hw3 | by rewrite Hw3 | done | done | by rewrite Hn3 | |].
  { destruct Hsched as [?|Hh]; [by left | right]; apply waits_inside, waits_first in Hh.
    rewrite E3 in Hh; by apply waits_inside in Hh. }
  cbn [orb] in E3; unfold with_cleanup in E3; rewrite E4 in E3; unfold with_cleanup; rewrite (sbind_ok _ _ _ _ _ E3).
  erewrite sbind_ok.
  2: { apply on_world_ok; unfold on_strs; rewrite Hcl; by rewrite (Close_closed false p (strs (rworld r4)) o'). }
  unfold world_sent in Hlog; rewrite Hw3 in Hlog; cbn in Hlog; rewrite He2, He1 in Hlog.
  eexists _, evs, k, d'; split; [done|]; cbn; rewrite lookup_delete_eq; by split_and!.
Qed.

End exit_relay.

(** ** Witnesses *)

Section open_witness.
Import DispatchDemo ManagerDemo.

Lemma open_spawns_relay_witness :
  let d := process open_event with_stream7 in
  exists s' c' w, Open (bs "example.com") 443 true false 0 stream_world = (s', Ok 0) /\
    tx (io_conn c') = tx (io_conn link) ++ w /\
    forall rest, pending (d_conn d) ++ rx (io_conn (d_conn d)) = w ++ rest ->
      exists d' e, ProcessReadEvent no_tunnels d = (d', Ok 0) /\ d_spawned d' = [([], 0, e)] /\ sid (head e) = 7.
Proof.
  intros d; destruct (open_spawns_relay no_tunnels stream_world d 0 chunk_stream 0 2 1 link key (bs "example.com") 443 true false)
    as (s' & c' & w & E1 & _ & Ht & Hr).
  - split; [reflexivity|]; split; [reflexivity|]; split; [by exists session0 | reflexivity].
  - split; [apply conn_on_wf|]; split; [reflexivity|]; split; [constructor | by split].
  - by vm_compute.
  - apply (bool_decide_unpack _); by vm_compute.
  - by vm_compute.
  - apply conn_on_wf.
  - reflexivity.
  - live_pieces.
  - reflexivity.
  - reflexivity.
  - exists s', c', w; split; [exact E1|]; split; [exact Ht|]; intros rest Hrest.
    destruct (Hr rest Hrest) as (d' & e & E2 & Hs & Hsid & _); exists d', e; exact (conj E2 (conj Hs Hsid)).
Defined.

End open_witness.

Section exit_witness.
Import Pipe StreamDemo TransferDemo RelayDemo.

Lemma exit_relay_answers_witness :
  exists r' evs k d', relay_handler false true 120 bufs 5000 (swap_turn <$> (Loop <$> alone 11)) (bs "alice") 9 request r0 = (r', Ok tt) /\
    ms_env (strs (rworld r')) = evs ++ [make_event 33 StreamCloseRequest] /\
    Forall (chunk_of 33) evs /\ concat (payload <$> evs) = bs "world" /\
    socks (rworld r') !! k = Some d' /\ Get 9 33 (strs (rworld r')) = None.
Proof.
  refine (exit_relay_answers false 120 bufs 5000 bufs_size bufs_bytes (alone 11) (bs "alice") 9 request _ r0 tt [] tt tt site
    eq_refl eq_refl eq_refl I _ (is_bytes_bs "world") _ eq_refl (or_introl eq_refl)); [by repeat constructor | by split].
Defined.

End exit_witness.
