(* ===== verification/Arrival.v ===== *)
(** * Frames that arrive while a stream is copied

    The frames of a stream arrive on a multiplexed connection whose read loop (ReadEventLoop of
    src/snova/mux/mux_connection.cc, the dispatch of what arrives, mux/mux_stream.cc) puts the chunks into
    the channel of the stream, while a copy loop (io/transfer.cc) takes them out.  Both are coroutines of
    one thread.  This file has the frames, the writers of the connection manager, one turn of the read
    loop, and the orders in which the turns of the two loops can follow one another. *)

From S2P Require Import Prelude Endian IoBuf TimeWheel Text HttpHelper Sni NetHelper LocalProxy Connect.
From S2P Require Import PbMessages MuxEvent CipherContext Io AsyncMutex MuxConnection MuxStream MuxConnManager MuxDispatch Transfer Relay EndToEnd.

(** ** Frames one after the other *)

Section frames.
Context `{Platform} `{Nanopb} `{Aead}.

Lemma frames_of_app key es1 : forall v es2 w1 w2,
  frames_of key v es1 w1 -> frames_of key (counter_after v (length es1)) es2 w2 ->
  frames_of key v (es1 ++ es2) (w1 ++ w2).
Proof.
  induction es1 as [|e es1 IH]; intros v es2 w1 w2; cbn [frames_of app length]; [by intros ->|].
  intros (w & rest & -> & Hf & Hl & Hr) H2'; rewrite counter_after_S in H2'.
  exists w, (rest ++ w2); rewrite <- app_assoc; split_and!; try done; by apply IH.
Qed.

Lemma frames_of_app_inv key es1 : forall v es2 wire,
  frames_of key v (es1 ++ es2) wire ->
  exists w1 w2, wire = w1 ++ w2 /\ frames_of key v es1 w1 /\ frames_of key (counter_after v (length es1)) es2 w2.
Proof.
  induction es1 as [|e es1 IH]; intros v es2 wire; cbn [frames_of app length]; [by exists [], wire|].
  intros (w & rest & -> & Hf & Hl & Hr); destruct (IH _ _ _ Hr) as (w1 & w2 & -> & Hr1 & Hr2).
  exists (w ++ w1), w2; rewrite counter_after_S, app_assoc; split_and!; try done; by exists w, w1.
Qed.

Lemma counter_after_add v a b : counter_after v (a + b) = counter_after (counter_after v a) b.
Proof. unfold counter_after; by rewrite Nat.add_comm, Nat.iter_add. Qed.

(** The frames of chunks and the close at their end. *)
Lemma frames_of_close key v i evs es wire :
  delivery (evs ++ [make_event i StreamCloseRequest]) es -> frames_of key v es wire ->
  exists es1 w1 f, delivery evs es1 /\ frames_of key v es1 w1 /\ wire = w1 ++ f /\
    frame_of key (counter_after v (length evs)) (delivered 0 (make_event i StreamCloseRequest)) f /\
    length es = S (length evs).
Proof.
  intros Hd Hfs; apply Forall2_app_inv_l in Hd as (es1 & es2 & Hd1 & Hd2 & ->).
  apply Forall2_cons_inv_l in Hd2 as (e' & ? & (n0 & Hn0 & ->) & ->%Forall2_nil_inv_l & ->); cbn in Hn0; subst n0.
  apply frames_of_app_inv in Hfs as (w1 & w2 & -> & Hf1 & Hf2); rewrite <- (Forall2_length _ _ _ Hd1) in Hf2.
  destruct Hf2 as (f & ? & -> & Hf & _ & Hnil); cbn in Hnil; subst; rewrite app_nil_r.
  exists es1, w1, f; rewrite length_app, <- (Forall2_length _ _ _ Hd1), Nat.add_1_r; by split_and!.
Qed.

(** [wire] is what one relayed stream puts on a connection: a request to open [i], [m] chunks with the
    bytes [data], and a close. *)
Definition stream_wire (key : bytes) (v i : Z) (host : bytes) (port : Z) (tcp tls : bool) (data : bytes) (m : nat) (wire : bytes) : Prop :=
  exists evs es, delivery ([open_event i host port tcp tls] ++ evs ++ [make_event i StreamCloseRequest]) es /\
    frames_of key v es wire /\ Forall (chunk_of i) evs /\ concat (payload <$> evs) = data /\ length evs = m.

(** The counter behind such frames. *)
Definition counter_behind (v : Z) (m : nat) : Z := counter_after v (S (S m)).

End frames.

(** ** The connection manager sends what its writers are given *)

Section manager_log.
Context `{Platform, !PlatformOk} `{Nanopb, !NanopbOk} `{Aead, !AeadOk}.
Context {C : Type} `{IOConnection C} `{Clock C} `{!StreamView C, !ByteStream C} `{HashOrder}.
Implicit Types (m : MuxConnManager C) (c : MuxConnection C) (wr : nat * Z).

(** The connection that a writer stands for. *)
Definition slot_of wr m (q : nat) c : Prop :=
  exists sess, session_store m !! wr.1 = Some sess /\ zget (conns sess) wr.2 = Some (Some q) /\ conn_store m !! q = Some c.

Definition writer_ready wr m : Prop := exists q c key, slot_of wr m q c /\ can_write c key.

(** What a writer leaves to the reader of its connection. *)
Definition reader_part c :=
  (decrypt_iv (cipher_ctx c), pending c, rx (io_conn c), conn_user c, conn_client_id c, has_server_relay c).

(** From [m] to [m'] the connection of the writer was given exactly the frames of [evs], and no other
    connection changed. *)
Definition frames_sent wr (evs : list MuxEvent) m m' : Prop :=
  mux_conns m' = mux_conns m /\ session_store m' = session_store m /\
  forall q c key, slot_of wr m q c -> can_write c key ->
    exists c' wire es', conn_store m' = <[q := c']> (conn_store m) /\ can_write c' key /\ delivery evs es' /\
      frames_of key (encrypt_iv (cipher_ctx c)) es' wire /\ tx (io_conn c') = tx (io_conn c) ++ wire /\
      encrypt_iv (cipher_ctx c') = counter_after (encrypt_iv (cipher_ctx c)) (length evs) /\
      reader_part c' = reader_part c.

Lemma frames_sent_nil wr m : frames_sent wr [] m m.
Proof.
  split; [done|]; split; [done|]; intros q c key (sess & _ & _ & Hq) Hc.
  exists c, [], []; rewrite insert_id, app_nil_r by done; split_and!; try done; constructor.
Qed.

Lemma frames_sent_app wr l k m m1 m2 :
  frames_sent wr l m m1 -> frames_sent wr k m1 m2 -> frames_sent wr (l ++ k) m m2.
Proof.
  intros (Hu & Hs & Hf) (Hu' & Hs' & Hf'); split; [congruence|]; split; [congruence|]; intros q c key Hslot Hc.
  destruct (Hf q c key Hslot Hc) as (c1 & w1 & es1 & E1 & Hc1 & Hd1 & Hf1 & Ht1 & Hi1 & Hp1).
  destruct (Hf' q c1 key) as (c2 & w2 & es2 & E2 & Hc2 & Hd2 & Hf2 & Ht2 & Hi2 & Hp2); [|done|].
  { destruct Hslot as (sess & Hse & Hz & _); exists sess; rewrite Hs, E1, lookup_insert_eq; by split_and!. }
  exists c2, (w1 ++ w2), (es1 ++ es2); rewrite E2, E1, insert_insert_eq; split; [done|]; split; [done|].
  split; [by apply Forall2_app|]; split.
  - apply frames_of_app; [done|]; rewrite Hi1 in Hf2; by rewrite <- (Forall2_length _ _ _ Hd1).
  - split; [by rewrite Ht2, Ht1, app_assoc|]; split; [by rewrite Hi2, Hi1, length_app, counter_after_add | congruence].
Qed.

(** One event. *)
Lemma writer_sends_frame wr ev m : writer_ready wr m -> sendable ev ->
  exists m' ev', call_writer wr ev m = (m', Ok (ev', true)) /\ frames_sent wr [ev] m m' /\ writer_ready wr m'.
Proof.
  intros (q & c & key & (sess & Hse & Hi & Hq) & Hc & Hk & Hl & Hm) [He Hb]; destruct wr as [sp i]; cbn [fst snd] in *.
  destruct (Write_frame c key ev Hc Hk Hl Hm He Hb)
    as (c' & w & k & E1 & Hc' & Hbs & Hf & Hk' & Hiv & Hdv & Ht & Hr & Hl' & Hw).
  assert (can_write c' key) as Hcw by (split_and!; try done; unfold writer_keeps in Hw; congruence).
  exists (set_conn_store (insert q c') m), (set_head (with_len k (head ev)) ev); split.
  - cbn [call_writer session_writers]; unfold session_call_writer; rewrite Hse.
    apply zget_Some_range in Hi as Hi'; bool_false (zlen (conns sess) <=? i); by rewrite Hi, Hq, E1.
  - split; [|exists q, c', key; split; [|done]; exists sess; cbn; by rewrite lookup_insert_eq].
    split; [done|]; split; [done|]; intros q2 c2 key2 (sess2 & Hse2 & Hi2 & Hq2) (_ & Hk2 & _); cbn [fst snd] in *.
    assert (q2 = q /\ c2 = c /\ key2 = key) as (-> & -> & ->) by (split_and!; congruence).
    exists c', w, [delivered k ev]; split; [done|]; split; [done|]; split; [constructor; [by exists k | constructor]|].
    unfold writer_keeps in Hw; injection Hw as _ _ Hrb Hrd Hu Hcid _ _ _ _ _ _ Hsr _ _ _ _.
    split; [exists w, []; rewrite app_nil_r; split_and!; try done; by apply delivered_len|].
    split; [done|]; split; [by rewrite Hiv|]; unfold reader_part, pending; congruence.
Qed.

(** Whatever happens to a connection, the session of a client has a writer or says that it has none. *)
Lemma entry_writer_wf m q c user cid f :
  manager_wf m -> GetEventWriterFactory user cid MUX_ENTRY_CONN m = Some f ->
  exists ow, make_writer f (set_conn_store (insert q c) m) = (set_conn_store (insert q c) m, Ok ow).
Proof.
  intros Hwf Hf; apply (manager_wf_insert _ q c) in Hwf.
  unfold GetEventWriterFactory in Hf; apply bind_Some in Hf as (u & Hu & Hc).
  destruct (proj1 Hwf user u MUX_ENTRY_CONN cid f Hu Hc) as [s Hse].
  destruct (make_writer_spec _ f s Hwf Hse) as (ow & Hm & _); by exists ow.
Qed.

#[export] Instance manager_log : WriterLog (MuxConnManager C) nat (nat * Z) := {|
  accepts := writer_ready;
  wsent := frames_sent;
  wsent_nil := frames_sent_nil;
  wsent_app := frames_sent_app;
  writer_sends := writer_sends_frame
|}.

End manager_log.

(** ** The exit node *)

(** Reading from a connection that was closed here fails, and what was written stays written. *)
Class ClosedEnds (K : Type) `{IOConnection K, StreamView K} : Prop := {
  closed_tx : forall c, tx (IoClose c) = tx c;
  closed_read : forall cap c, exists c' ec, AsyncRead cap (IoClose c) = (c', Ok ([], ec)) /\ ec <> 0 /\ tx c' = tx c
}.

(** [Close] for a stream that the peer closed sends nothing. *)
Lemma Close_by_remote {E F Wr Ch : Type} `{EventWriters E F Wr} `{DataChannel Ch} (s : Streams E F Wr Ch) p o :
  objects s !! p = Some o -> stream_closed o = false ->
  exists s' o', Close true p s = (s', Ok 0) /\ objects s' !! p = Some o' /\ stream_closed o' = true /\
    ms_env s' = ms_env s /\ (forall p', p' <> p -> objects s' !! p' = objects s !! p').
Proof.
  intros Ho Hc; unfold Close, deref, Remove, assign; srun; rewrite Ho, Hc.
  eexists _, _; split; [done|]; cbn; rewrite !lookup_alter_eq, Ho; do 3 (split; [done|]).
  intros p' Hp; by rewrite !lookup_alter_ne.
Qed.

Section exit_node.
Context `{Platform, !PlatformOk} `{Nanopb, !NanopbOk} `{Aead, !AeadOk}.
Context {K D Ch T : Type} `{IOConnection K, !StreamView K, !ByteStream K, !ClosedEnds K}.
Context `{IOConnection D} `{Clock D} `{!StreamView D, !ByteStream D} `{HashOrder}.
Context `{DataChannel Ch, !DataChannelOk Ch}.
Variable handler : bytes -> Z -> MuxEvent -> st T (option MuxEvent).
Abbreviation W := (World K (MuxConnManager D) nat (nat * Z) Ch).
Implicit Types (w : W) (c : MuxConnection D) (t : T).

(** One turn of the read loop of the connection [q], which is the object in the store: the next
    event is read and dispatched.  The result is the code, the relays to spawn and the tunnels. *)
Definition read_turn (q : nat) (t : T) : st W (Z * list (bytes * Z * MuxEvent) * T) := fun w =>
  match conn_store (ms_env (strs w)) !! q with
  | None => (w, Ub)
  | Some c =>
      let '(d, r) := ProcessReadEvent handler
        {| d_conn := c; d_streams := strs w; d_spawned := []; d_retire_calls := 0; d_tunnels := t |} in
      (set_strs (fun _ => set_env (set_conn_store (insert q (d_conn d))) (d_streams d)) w,
       do rc <- r; Ok (rc, d_spawned d, d_tunnels d))
  end.

(** The connection [q] of client [cid] reads with [key] and counter [v], and [input] is to come. *)
Definition reading w (q : nat) (key : bytes) (v : Z) (user : bytes) (cid : Z) (input : bytes) : Prop :=
  exists c, conn_store (ms_env (strs w)) !! q = Some c /\ conn_wf c /\ cipher_key (cipher_ctx c) = Some key /\
    live (io_conn c) /\ decrypt_iv (cipher_ctx c) = v /\ conn_user c = user /\ conn_client_id c = cid /\
    pending c ++ rx (io_conn c) = input.

(** Requests to open a stream are served. *)
Definition relays w (q : nat) : Prop := exists c, conn_store (ms_env (strs w)) !! q = Some c /\ has_server_relay c = true.

(** Between the two worlds the connection [q] and the stream [p] changed. *)
Definition arrived (q p : nat) w w' : Prop :=
  (forall p', p' <> p -> objects (strs w') !! p' = objects (strs w) !! p') /\
  exists c, ms_env (strs w') = set_conn_store (insert q c) (ms_env (strs w)).

(** A turn with a frame to come. *)
Lemma read_turn_frame w q t key v user cid e f rest :
  reading w q key v user cid (f ++ rest) -> frame_of key v e f -> len (head e) <= kMaxChunkSize + 128 ->
  exists c, (forall s st, reading (set_strs (fun _ => set_env (set_conn_store (insert q (set_read_state st c))) s) w)
               q key (wrap 64 (v + 1)) user cid rest) /\
    conn_user c = user /\ conn_client_id c = cid /\ (relays w q -> has_server_relay c = true) /\
    read_turn q t w =
      let '(d, r) := dispatch_event handler e
        {| d_conn := c; d_streams := strs w; d_spawned := []; d_retire_calls := 0; d_tunnels := t |} in
      (set_strs (fun _ => set_env (set_conn_store (insert q (d_conn d))) (d_streams d)) w,
       do rc <- r; Ok (rc, d_spawned d, d_tunnels d)).
Proof.
  intros (c0 & Hq & Hc & Hk & Hl & Hv & Hu & Hcid & Hin) Hf Hlen; subst v.
  destruct (ProcessReadEvent_frame (T := T) handler
    {| d_conn := c0; d_streams := strs w; d_spawned := []; d_retire_calls := 0; d_tunnels := t |} key e f rest)
    as (c & (Hc1 & (_ & Hk1 & _ & Hd1) & Hp & _ & Hl1 & Hkeep) & E1); [by split_and!|].
  unfold reader_keeps in Hkeep; cbn in Hkeep, Hk1, Hd1; injection Hkeep as _ _ _ Hu1 Hcid1 _ _ _ _ _ _ Hsr1 _ _ _ _.
  exists c; split; [|split; [congruence|]; split; [congruence|]; split; [|]].
  - intros s st; exists (set_read_state st c).
    cbn; rewrite lookup_insert_eq; split; [done|]; split; [by destruct Hc1 as (? & ? & ? & ?)|].
    split_and!; try done; congruence.
  - intros (c2 & Hq2 & Hs2); congruence.
  - unfold read_turn; rewrite Hq, E1; done.
Qed.

(** The event is a chunk of an open stream that waits. *)
Lemma read_turn_chunk w q t key v user cid e f rest p o chunk n :
  reading w q key v user cid (f ++ rest) -> frame_of key v e f -> len (head e) <= kMaxChunkSize + 128 ->
  type (head e) = EVENT_STREAM_CHUNK -> body e = StreamChunk chunk n ->
  Get cid (sid (head e)) (strs w) = Some p -> objects (strs w) !! p = Some o -> stream_closed o = false ->
  chan_items (data_channel o) = Some [] ->
  exists w' o', read_turn q t w = (w', Ok (0, [], t)) /\ reading w' q key (wrap 64 (v + 1)) user cid rest /\
    objects (strs w') !! p = Some o' /\ stream_closed o' = false /\ chan_items (data_channel o') = Some [(chunk, n)] /\
    g_streams (strs w') = g_streams (strs w) /\ socks w' = socks w /\ arrived q p w w'.
Proof.
  intros Hr Hf Hlen Hty Hb Hget Ho Hcl Hi.
  destruct (read_turn_frame w q t key v user cid e f rest Hr Hf Hlen) as (c & Hrd & _ & Hcid & _ & ->).
  destruct (chan_send_empty (chunk, n) (data_channel o) Hi) as (ch & Hs & Hi1).
  unfold dispatch_event; rewrite Hty; cbn -[on_stream_chunk]; unfold on_stream_chunk; srun.
  cbn [d_conn d_streams]; rewrite Hcid, Hget, Hb; unfold d_state, d_on_streams; srun.
  cbn [d_conn d_streams set_d_conn]; unfold Offer, deref; srun; rewrite Ho, Hcl.
  rewrite (on_channel_spec (strs w) p o _ ch (Ok tt) Ho Hs); cbn -[set_strs set_env].
  eexists _, (set_channel (fun _ => ch) o); split; [done|]; split; [apply Hrd|].
  cbn; rewrite lookup_alter_eq, Ho; do 5 (split; [done|]).
  split; [intros p' Hp; cbn; by rewrite lookup_alter_ne | by eexists].
Qed.

(** The event closes the stream. *)
Lemma read_turn_close w q t key v user cid e f rest p o :
  reading w q key v user cid (f ++ rest) -> frame_of key v e f -> len (head e) <= kMaxChunkSize + 128 ->
  type (head e) = EVENT_STREAM_CLOSE ->
  Get cid (sid (head e)) (strs w) = Some p -> objects (strs w) !! p = Some o -> stream_closed o = false ->
  exists w' o', read_turn q t w = (w', Ok (0, [], t)) /\ reading w' q key (wrap 64 (v + 1)) user cid rest /\
    objects (strs w') !! p = Some o' /\ stream_closed o' = true /\ socks w' = socks w /\ arrived q p w w'.
Proof.
  intros Hr Hf Hlen Hty Hget Ho Hcl.
  destruct (read_turn_frame w q t key v user cid e f rest Hr Hf Hlen) as (c & Hrd & _ & Hcid & _ & ->).
  destruct (Close_by_remote (strs w) p o Ho Hcl) as (s' & o' & HC & Ho' & Hcl' & He' & Hot').
  unfold dispatch_event; rewrite Hty; cbn -[on_stream_close]; unfold on_stream_close; srun.
  cbn [d_conn d_streams]; rewrite Hcid, Hget; unfold d_on_streams; cbn [d_streams]; rewrite HC; cbn -[set_strs set_env].
  eexists _, o'; split; [done|]; split; [specialize (Hrd s' (fun x => x)); by destruct c|].
  do 3 (split; [done|]); split; [exact Hot' | exists c; cbn; by rewrite He'].
Qed.

(** The event asks for a stream: a relay is to be spawned. *)
Lemma read_turn_open w q t key v user cid e f rest req :
  reading w q key v user cid (f ++ rest) -> frame_of key v e f -> len (head e) <= kMaxChunkSize + 128 ->
  type (head e) = EVENT_STREAM_OPEN -> body e = StreamOpenRequest req -> relays w q ->
  exists w' c, read_turn q t w = (w', Ok (0, [(user, cid, e)], t)) /\ reading w' q key (wrap 64 (v + 1)) user cid rest /\
    strs w' = set_env (set_conn_store (insert q c)) (strs w) /\ socks w' = socks w.
Proof.
  intros Hr Hf Hlen Hty Hb Hrel.
  destruct (read_turn_frame w q t key v user cid e f rest Hr Hf Hlen) as (c & Hrd & Hu & Hcid & Hsr & ->).
  unfold dispatch_event; rewrite Hty; cbn -[on_stream_open]; unfold on_stream_open; srun; rewrite Hb; cbn [d_conn]; rewrite (Hsr Hrel).
  cbn; rewrite Hu, Hcid; eexists _, c; split; [done|]; split; [specialize (Hrd (strs w) (fun x => x)); by destruct c | done].
Qed.

(** *** Copying to the destination while the connection is read *)

Variables (entry timed : bool) (iobuf : bytes).

(** What a chunk looks like when it arrives. *)
Lemma delivered_chunk i ev n : chunk_of i ev -> body_size (body ev) n ->
  sid (head (delivered n ev)) = i /\ type (head (delivered n ev)) = EVENT_STREAM_CHUNK /\
  body (delivered n ev) = StreamChunk (Some (payload ev)) (zlen (payload ev)).
Proof.
  intros (Hs & Ht & Hp & (_ & _ & _ & Hb) & _) Hn; split; [done|]; split; [done|].
  unfold payload in *; cbn; destruct (body ev) as [| | | |[buf|] k| | | | |] eqn:Eb; try (exfalso; unfold zlen in Hp; cbn in Hp; lia).
  destruct Hb as [Hk0 [Hk _]]; assert (zlen (ztake k buf) = k) as Hlen by (apply zlen_take; lia).
  rewrite Hlen in Hp |- *; cbn [received]; by bool_false (k =? 0).
Qed.

Lemma chunk_payload_bytes i ev : chunk_of i ev -> is_bytes (payload ev).
Proof.
  intros (_ & _ & _ & (_ & _ & _ & Hb) & _); unfold payload; destruct (body ev) as [| | | |[buf|] k| | | | |]; try constructor.
  destruct Hb as (_ & _ & Hby); auto with snova.
Qed.

End exit_node.

(** ** Orders

    The turns of the read loop ([true]) and of the copy loop ([false]) for one stream that carries [m]
    chunks and a close.  A send into the full channel and a receive from the empty one wait, so not every
    sequence of turns is possible. *)

(** Where the copy loop is: at its read, at its write, or past its end. *)
Inductive copier := Takes | Gives | Returned.

Record order_state := { unread : nat; waiting : bool; peer_closed : bool; at_turn : copier }.

#[export] Instance copier_eq : EqDecision copier.
Proof. solve_decision. Defined.

(** The state after a turn; [None] when the loop has to wait or has nothing left to do. *)
Definition order_turn (reads : bool) (s : order_state) : option order_state :=
  if reads then
    if peer_closed s then None
    else match unread s with
         | O => Some {| unread := 0; waiting := waiting s; peer_closed := true; at_turn := at_turn s |}
         | S n => if waiting s then None
                  else Some {| unread := n; waiting := true; peer_closed := false; at_turn := at_turn s |}
         end
  else
    match at_turn s with
    | Returned => None
    | Gives => Some {| unread := unread s; waiting := waiting s; peer_closed := peer_closed s; at_turn := Takes |}
    | Takes =>
        if peer_closed s then Some {| unread := unread s; waiting := waiting s; peer_closed := true; at_turn := Returned |}
        else if waiting s then Some {| unread := unread s; waiting := false; peer_closed := false; at_turn := Gives |}
        else None
    end.

Fixpoint order_run (sched : list bool) (s : order_state) : option order_state :=
  match sched with
  | [] => Some s
  | b :: sched => s ← order_turn b s; order_run sched s
  end.

Definition order_start (m : nat) : order_state := {| unread := m; waiting := false; peer_closed := false; at_turn := Takes |}.

(** [Some overtaken] for the sequences of turns after which the copy loop has returned; [overtaken] says
    that a chunk was still in the channel when the close was read. *)
Definition order (m : nat) (sched : list bool) : option bool :=
  s ← order_run sched (order_start m);
  if decide (at_turn s = Returned) then Some (waiting s) else None.

(** Every chunk is passed on before the next frame is read. *)
Definition in_step (m : nat) : list bool := mjoin (replicate m [true; false; false]) ++ [true; false].

Lemma order_in_step m : order m (in_step m) = Some false.
Proof. unfold order, in_step, order_start; induction m as [|m IH]; [done|]; exact IH. Qed.

(** No order gets stuck. *)
Lemma order_progress m sched s :
  order_run sched (order_start m) = Some s -> at_turn s <> Returned -> exists b s', order_turn b s = Some s'.
Proof.
  intros _ Hne; destruct s as [n wt cl c]; cbn in *.
  destruct c; [|by exists false; eexists | done]; destruct cl; [by exists false; eexists|].
  destruct wt; [by exists false; eexists|]; exists true; destruct n; by eexists.
Qed.

(** ** Sinks

    What a copy loop writes to, seen from the stream [p] it reads: an operation on [p], and a turn of
    the read loop of the connection [q], leave it alone. *)
Section orders.
Context `{Platform, !PlatformOk} `{Nanopb, !NanopbOk} `{Aead, !AeadOk}.
Context {K L Ch T : Type} `{IOConnection K}.
Context `{IOConnection L} `{Clock L} `{!StreamView L, !ByteStream L} `{HashOrder}.
Context `{DataChannel Ch, !DataChannelOk Ch}.
Variable handler : bytes -> Z -> MuxEvent -> st T (option MuxEvent).
Variables (entry timed : bool) (iobuf : bytes) (q : nat) (t : T) (p : nat).
Abbreviation W := (World K (MuxConnManager L) nat (nat * Z) Ch).
Implicit Types (w : W) (ps : pump).

(** Only the stream [p] and the connection [q] changed. *)
Definition aside w w' : Prop :=
  socks w' = socks w /\ (forall p', p' <> p -> objects (strs w') !! p' = objects (strs w) !! p') /\
  (ms_env (strs w') = ms_env (strs w) \/ exists c, ms_env (strs w') = set_conn_store (insert q c) (ms_env (strs w))).

(** What waits in [p] and what is to come on [q] is the same. *)
Definition source_kept w w' : Prop :=
  (forall key v user cid input, reading w q key v user cid input -> reading w' q key v user cid input) /\
  (forall o, objects (strs w) !! p = Some o ->
     exists o', objects (strs w') !! p = Some o' /\ data_channel o' = data_channel o /\ stream_closed o' = stream_closed o).

(** The message of a chunk. *)
Definition message (ev : MuxEvent) : chunk_msg := (Some (payload ev), zlen (payload ev)).

(** [open w s]: the sink takes more and was given [s]; [ended w s]: the copy loop has returned. *)
Class Sink (dst : endpoint) (open ended : W -> bytes -> Prop) : Prop := {
  sink_aside : forall w w' s, open w s -> aside w w' -> open w' s;
  sink_takes : forall i ev w s, open w s -> chunk_of i ev ->
    exists w', pump_step entry timed iobuf (Strm p) dst (Writing (message ev)) w = (w', Ok Reading) /\
      open w' (s ++ payload ev) /\ g_streams (strs w') = g_streams (strs w) /\ source_kept w w';
  sink_ends : forall w s o, open w s -> objects (strs w) !! p = Some o -> stream_closed o = true ->
    exists w', pump_step entry timed iobuf (Strm p) dst Reading w = (w', Ok Finished) /\ ended w' s /\ source_kept w w'
}.

(** *** What a turn does

    The stream [i] of the client has [evs] still to come and [wait] in its channel, and then a close;
    [vend] is the counter behind it, [rest] what follows. *)
Section turns.
Context {dst : endpoint} {open ended : W -> bytes -> Prop} `{!Sink dst open ended}.
Variables (key user : bytes) (cid i vend : Z) (rest : bytes).

Definition passing (evs wait : list MuxEvent) (s : bytes) w : Prop :=
  exists v es wire o,
    reading w q key v user cid (wire ++ rest) /\ delivery (evs ++ [make_event i StreamCloseRequest]) es /\
    frames_of key v es wire /\ counter_after v (length es) = vend /\ Forall (chunk_of i) evs /\ Forall (chunk_of i) wait /\
    Get cid i (strs w) = Some p /\ objects (strs w) !! p = Some o /\ stream_closed o = false /\
    chan_items (data_channel o) = Some (message <$> wait) /\ open w s.

(** The close has arrived. *)
Definition closing (s : bytes) w : Prop :=
  exists o, reading w q key vend user cid rest /\ objects (strs w) !! p = Some o /\ stream_closed o = true /\ open w s.

(** The copy loop has returned. *)
Definition returned (s : bytes) w : Prop :=
  exists o, reading w q key vend user cid rest /\ objects (strs w) !! p = Some o /\ stream_closed o = true /\ ended w s.

Lemma passing_take evs ev s w : passing evs [ev] s w ->
  exists w', pump_step entry timed iobuf (Strm p) dst Reading w = (w', Ok (Writing (message ev))) /\ passing evs [] s w'.
Proof.
  intros (v & es & wire & o & Hr & Hd & Hf & Hv & Hev & _ & Hget & Ho & Hcl & Hi & Hs).
  destruct (read_strm iobuf w p o (message ev) Ho Hcl Hi) as (w1 & E1 & (o1 & Ho1 & Hcl1 & Hi1) & Hso & He & Hg & Hot).
  destruct (routine_run timed w1) as (tm & E2); exists (set_io_time (fun _ => tm) w1).
  cbn [pump_step]; unfold sbind; rewrite E1; cbn [Z.eqb negb]; rewrite E2; split; [done|].
  exists v, es, wire, o1; unfold reading, Get in *; cbn; rewrite He, Hg; split_and!; try done.
  eapply sink_aside; [exact Hs|]; split; [done|]; split; [exact Hot | by left].
Qed.

Lemma passing_give evs wait ev s w : passing evs wait s w -> chunk_of i ev ->
  exists w', pump_step entry timed iobuf (Strm p) dst (Writing (message ev)) w = (w', Ok Reading) /\
    passing evs wait (s ++ payload ev) w'.
Proof.
  intros (v & es & wire & o & Hr & Hd & Hf & Hv & Hev & Hw & Hget & Ho & Hcl & Hi & Hs) Hc.
  destruct (sink_takes i ev w s Hs Hc) as (w' & E' & Hs' & Hg & Hrd & Hk); exists w'; split; [done|].
  destruct (Hk o Ho) as (o' & Ho' & Hch & Hcl').
  exists v, es, wire, o'; unfold Get in *; rewrite Hg, Hch, Hcl'; split_and!; try done; by apply Hrd.
Qed.

Lemma passing_chunk evs ev s w : passing (ev :: evs) [] s w ->
  exists w', read_turn handler q t w = (w', Ok (0, [], t)) /\ passing evs [ev] s w'.
Proof.
  intros (v & es & wire & o & Hr & Hd & Hf & Hv & Hev & _ & Hget & Ho & Hcl & Hi & Hs).
  apply Forall2_cons_inv_l in Hd as (e' & es' & (n & Hn & ->) & Hd & ->); apply Forall_cons in Hev as [Hev Hevs].
  destruct Hf as (f & wire' & -> & Hf & Hl1 & Hfs); rewrite <- app_assoc in Hr.
  destruct (delivered_chunk i ev n Hev Hn) as (Hsid & Hty & Hb).
  destruct (read_turn_chunk handler w q t key v user cid (delivered n ev) f (wire' ++ rest) p o (Some (payload ev)) (zlen (payload ev)))
    as (w' & o' & E' & Hr' & Ho' & Hcl' & Hi' & Hg & Hso & Hot & c & He); [done..|by rewrite Hsid | done | done | done |].
  exists w'; split; [done|]; exists (wrap 64 (v + 1)), es', wire', o'; unfold Get in *; rewrite Hg.
  cbn [length] in Hv; rewrite counter_after_S in Hv; split_and!; try done; [by constructor|].
  eapply sink_aside; [exact Hs|]; split; [done|]; split; [exact Hot | right; by exists c].
Qed.

Lemma passing_close wait s w : passing [] wait s w ->
  exists w', read_turn handler q t w = (w', Ok (0, [], t)) /\ closing s w'.
Proof.
  intros (v & es & wire & o & Hr & Hd & Hf & Hv & Hev & _ & Hget & Ho & Hcl & Hi & Hs).
  destruct (frames_of_close _ _ _ _ _ _ Hd Hf) as (es1 & w1 & f & Hd1 & Hf1 & -> & Hfr & Hlen).
  apply Forall2_nil_inv_l in Hd1 as ->; cbn in Hf1; subst w1.
  destruct (read_turn_close handler w q t key v user cid _ f rest p o Hr Hfr ltac:(done) eq_refl Hget Ho Hcl)
    as (w' & o' & E' & Hr' & Ho' & Hcl' & Hso & Hot & c & He).
  exists w'; split; [done|]; rewrite Hlen in Hv; cbn [length] in Hv; rewrite counter_after_S in Hv; cbn in Hv.
  exists o'; rewrite <- Hv; split_and!; try done.
  eapply sink_aside; [exact Hs|]; split; [done|]; split; [exact Hot | right; by exists c].
Qed.

Lemma closing_give ev s w : closing s w -> chunk_of i ev ->
  exists w', pump_step entry timed iobuf (Strm p) dst (Writing (message ev)) w = (w', Ok Reading) /\ closing (s ++ payload ev) w'.
Proof.
  intros (o & Hr & Ho & Hcl & Hs) Hc; destruct (sink_takes i ev w s Hs Hc) as (w' & E' & Hs' & Hg & Hrd & Hk).
  destruct (Hk o Ho) as (o' & Ho' & _ & Hcl'); exists w'; split; [done|]; exists o'; split_and!; try done; [by apply Hrd | congruence].
Qed.

Lemma closing_end s w : closing s w ->
  exists w', pump_step entry timed iobuf (Strm p) dst Reading w = (w', Ok Finished) /\ returned s w'.
Proof.
  intros (o & Hr & Ho & Hcl & Hs); destruct (sink_ends w s o Hs Ho Hcl) as (w' & E' & Hs' & Hrd & Hk).
  destruct (Hk o Ho) as (o' & Ho' & _ & Hcl'); exists w'; split; [done|]; exists o'; split_and!; try done; [by apply Hrd | congruence].
Qed.

(** *** Whole runs *)

Lemma message_bytes ev : inflight (Writing (message ev)) = payload ev.
Proof. cbn; by rewrite ztake_all by lia. Qed.

(** The turns of an order in the world of the copy loops. *)
Definition order_turns (sched : list bool) : list (turn W) :=
  (fun b : bool => if b then Meanwhile (fun w => (read_turn handler q t w).1) else Loop true) <$> sched.

(** Where the copy loop is, with the chunk it holds. *)
Definition stands (c : copier) ps : Prop :=
  match c, ps with
  | Takes, Reading | Returned, Finished => True
  | Gives, Writing m => exists ev, chunk_of i ev /\ m = message ev
  | _, _ => False
  end.

Definition some_wait (wait : list MuxEvent) : bool := match wait with [] => false | _ => true end.

(** After the close. *)
Lemma arrival_closing tail sched : forall n wt c ps s w final,
  order_run sched {| unread := n; waiting := wt; peer_closed := true; at_turn := c |} = Some final ->
  at_turn final = Returned -> c <> Returned -> stands c ps -> closing s w ->
  exists w', duplex entry timed iobuf (order_turns sched ++ tail) (Strm p) dst ps Reading w
      = duplex entry timed iobuf tail (Strm p) dst Finished Reading w' /\
    returned (s ++ inflight ps) w' /\ waiting final = wt.
Proof.
  induction sched as [|b sched IH]; intros n wt c ps s w final Hrun Hfin Hc Hst Hw; [by injection Hrun as <-|].
  destruct b; [done|]; destruct c; [| |done]; cbn in Hrun; cbn [order_turns fmap list_fmap app].
  - destruct ps; try done; destruct sched as [|b2 sched]; [|by destruct b2]; injection Hrun as <-.
    destruct (closing_end s w Hw) as (w' & E & Hw'); exists w'; rewrite duplex_cons, (sbind_ok _ _ _ _ _ E) by done.
    split; [done|]; cbn; by rewrite app_nil_r.
  - destruct ps as [|m|]; try done; destruct Hst as (ev & Hev & ->).
    destruct (closing_give ev s w Hw Hev) as (w1 & E & Hw1); rewrite duplex_cons, (sbind_ok _ _ _ _ _ E) by done.
    destruct (IH n wt Takes Reading (s ++ payload ev) w1 final) as (w' & E' & Hw' & Hwt); [done..|].
    exists w'; split; [done|]; split; [|done]; rewrite message_bytes; cbn in Hw'; by rewrite app_nil_r in Hw'.
Qed.

Lemma arrival_passing tail sched : forall evs wait c ps s w final,
  order_run sched {| unread := length evs; waiting := some_wait wait; peer_closed := false; at_turn := c |} = Some final ->
  at_turn final = Returned -> c <> Returned -> stands c ps -> (length wait <= 1)%nat -> passing evs wait s w ->
  exists w' s' lost, duplex entry timed iobuf (order_turns sched ++ tail) (Strm p) dst ps Reading w
      = duplex entry timed iobuf tail (Strm p) dst Finished Reading w' /\
    returned s' w' /\ s' ++ concat (payload <$> lost) = s ++ inflight ps ++ concat (payload <$> wait) ++ concat (payload <$> evs) /\
    length lost = (if waiting final then 1 else 0)%nat /\ Forall (chunk_of i) lost.
Proof.
  induction sched as [|b sched IH]; intros evs wait c ps s w final Hrun Hfin Hc Hst Hlen Hw; [by injection Hrun as <-|].
  cbn [order_turns fmap list_fmap app]; destruct b; [|destruct c; [| |done]]; cbn in Hrun.
  - rewrite duplex_cons by (by destruct ps, c); destruct evs as [|ev evs]; cbn in Hrun.
    + destruct (passing_close wait s w Hw) as (w1 & E & Hw1); rewrite E; cbn [fst].
      destruct (arrival_closing tail sched 0 (some_wait wait) c ps s w1 final) as (w' & E' & Hw' & Hwt); [done..|].
      exists w', (s ++ inflight ps), wait; rewrite Hwt, !app_nil_r, <- app_assoc; do 3 (split; [done|]).
      split; [destruct wait as [|? [|]]; cbn in *; lia|]; by destruct Hw as (_ & _ & _ & _ & _ & _ & _ & _ & _ & ? & _).
    + destruct wait as [|]; [|done]; destruct (passing_chunk evs ev s w Hw) as (w1 & E & Hw1); rewrite E; cbn [fst].
      destruct (IH evs [ev] c ps s w1 final) as (w' & s' & lost & E' & Hw' & Heq & Hl); [done..|].
      exists w', s', lost; split; [done|]; split; [done|]; cbn in Heq |- *; by rewrite app_nil_r in Heq.
  - destruct ps; try done; destruct wait as [|ev [|]]; [done | | cbn in Hlen; lia].
    assert (chunk_of i ev) as Hev
      by (destruct Hw as (_ & _ & _ & _ & _ & _ & _ & _ & _ & Hw & _); by apply Forall_cons in Hw as [? _]).
    destruct (passing_take evs ev s w Hw) as (w1 & E & Hw1); rewrite duplex_cons, (sbind_ok _ _ _ _ _ E) by done.
    destruct (IH evs [] Gives (Writing (message ev)) s w1 final) as (w' & s' & lost & E' & Hw' & Heq & Hl);
      [done | done | done | by exists ev | cbn; lia | done |].
    exists w', s', lost; split; [done|]; split; [done|]; rewrite message_bytes in Heq; cbn in Heq |- *; by rewrite app_nil_r.
  - destruct ps as [|m|]; try done; destruct Hst as (ev & Hev & ->).
    destruct (passing_give evs wait ev s w Hw Hev) as (w1 & E & Hw1); rewrite duplex_cons, (sbind_ok _ _ _ _ _ E) by done.
    destruct (IH evs wait Takes Reading (s ++ payload ev) w1 final) as (w' & s' & lost & E' & Hw' & Heq & Hl); [done..|].
    exists w', s', lost; split; [done|]; split; [done|]; rewrite message_bytes; rewrite <- app_assoc in Heq; by rewrite Heq.
Qed.

(** A stream whose frames are to come, copied in any order: everything is passed on, but for the last chunk
    when the close overtakes it. *)
Lemma order_passes tail m sched overtaken evs w s :
  order m sched = Some overtaken -> length evs = m -> passing evs [] s w ->
  exists w' s' lost, duplex entry timed iobuf (order_turns sched ++ tail) (Strm p) dst Reading Reading w
      = duplex entry timed iobuf tail (Strm p) dst Finished Reading w' /\
    returned s' w' /\ s' ++ concat (payload <$> lost) = s ++ concat (payload <$> evs) /\
    length lost = (if overtaken then 1 else 0)%nat /\ Forall (chunk_of i) lost.
Proof.
  unfold order; intros (final & Hrun & Hfin)%bind_Some <- Hw; case_decide as Hret; [|done]; injection Hfin as <-.
  apply (arrival_passing tail sched evs [] Takes Reading s w final); try done; cbn; lia.
Qed.

End turns.
End orders.

(** What was given out of [total]: all of it, or all but a last chunk that the close overtook. *)
Definition given (overtaken : bool) (total sent : bytes) : Prop :=
  exists missing, total = sent ++ missing /\ zlen missing <= kMaxChunkSize /\ (overtaken = false -> missing = []).

Lemma given_all total : given false total total.
Proof. exists []; by rewrite app_nil_r. Qed.

Lemma given_lost i (overtaken : bool) total sent (lost : list MuxEvent) :
  sent ++ concat (payload <$> lost) = total -> length lost = (if overtaken then 1 else 0)%nat -> Forall (chunk_of i) lost ->
  given overtaken total sent.
Proof.
  intros <- Hl Hc; exists (concat (payload <$> lost)); split; [done|].
  destruct lost as [|ev [|]]; [by destruct overtaken | | by destruct overtaken]; apply Forall_cons in Hc as [(_ & _ & Hn & _) _].
  cbn; rewrite app_nil_r; split; [lia | by destruct overtaken].
Qed.

(** ** Copying to a socket *)

Section socket.
Context `{Platform, !PlatformOk} `{Nanopb, !NanopbOk} `{Aead, !AeadOk}.
Context {K L Ch T : Type} `{IOConnection K, !StreamView K, !ByteStream K, !ClosedEnds K}.
Context `{IOConnection L} `{Clock L} `{!StreamView L, !ByteStream L} `{HashOrder}.
Context `{DataChannel Ch, !DataChannelOk Ch}.
Variable handler : bytes -> Z -> MuxEvent -> st T (option MuxEvent).
Variables (entry timed : bool) (iobuf : bytes) (q : nat) (t : T) (p : nat).
Abbreviation W := (World K (MuxConnManager L) nat (nat * Z) Ch).
Implicit Types (w : W).

(** The socket [k], which had been sent [base] before. *)
Definition sock_open (base : bytes) (k : nat) w (s : bytes) : Prop :=
  exists d, socks w !! k = Some d /\ live d /\ tx d = base ++ s.
Definition sock_ended (base : bytes) (k : nat) w (s : bytes) : Prop :=
  exists d, socks w !! k = Some (IoClose d) /\ tx d = base ++ s.

#[export] Instance sock_sink base k : Sink entry timed iobuf q p (Sock k) (sock_open base k) (sock_ended base k).
Proof.
  split.
  - intros w w' s (d & Hk & Hl & Ht) (Hs & _); exists d; by rewrite Hs.
  - intros i ev w s (d & Hk & Hl & Ht) _.
    destruct (write_sock entry w k d (payload ev) (zlen (payload ev)) Hk Hl) as (d' & E1 & Htx & _ & Hl');
      [pose proof (zlen_nonneg (payload ev)); lia|].
    destruct (routine_run timed (set_socks (insert k d') w)) as (tm & E2).
    exists (set_io_time (fun _ => tm) (set_socks (insert k d') w)); cbn [pump_step]; unfold sbind, message.
    rewrite E1; cbn [Z.eqb negb]; rewrite E2; split; [done|]; split.
    + exists d'; cbn; rewrite lookup_insert_eq, Htx, Ht, ztake_all, app_assoc by lia; by split_and!.
    + split; [done|]; split; [done|]; intros o Ho; by exists o.
  - intros w s o (d & Hk & Hl & Ht) Ho Hcl; rewrite (closed_stream_ends entry timed iobuf w p k o d Ho Hcl Hk).
    eexists; split; [done|]; split; [exists d; cbn; by rewrite lookup_insert_eq|].
    split; [done|]; intros o' Ho'; by exists o'.
Qed.

(** In every order both loops return: the one that reads the stream closes the socket, the one that reads
    the socket, which has been quiet, finds it closed. *)
Lemma order_delivers sched overtaken key v user cid i k evs es wire rest w d :
  kMaxChunkSize <= zlen iobuf -> order (length evs) sched = Some overtaken -> reading w q key v user cid (wire ++ rest) ->
  delivery (evs ++ [make_event i StreamCloseRequest]) es -> frames_of key v es wire -> Forall (chunk_of i) evs ->
  Get cid i (strs w) = Some p -> idle w p -> socks w !! k = Some d -> live d ->
  exists w' d' o', duplex entry timed iobuf (order_turns handler q t sched ++ [Loop false]) (Strm p) (Sock k) Reading Reading w = (w', Ok tt) /\
    reading w' q key (counter_after v (length es)) user cid rest /\
    socks w' !! k = Some d' /\ given overtaken (tx d ++ concat (payload <$> evs)) (tx d') /\
    objects (strs w') !! p = Some o' /\ stream_closed o' = true.
Proof.
  intros Hbuf Hord Hr Hd Hfs Hev Hget (o & Ho & Hcl & Hi) Hk Hl.
  destruct (order_passes handler entry timed iobuf q t p (dst := Sock k) (open := sock_open (tx d) k) (ended := sock_ended (tx d) k)
    key user cid i (counter_after v (length es)) rest [Loop false] (length evs) sched overtaken evs w [])
    as (w1 & s' & lost & E1 & (o1 & Hr1 & Ho1 & Hcl1 & d1 & Hk1 & Ht1) & Heq & Hlost); [done | done | |].
  { exists v, es, wire, o; split_and!; try done; exists d; by rewrite app_nil_r. }
  destruct (closed_read kMaxChunkSize d1) as (d' & ec & Erd & Hec & Htx).
  rewrite E1, duplex_cons by done; cbn [pump_step ep_read]; unfold on_sock; srun; cbn; rewrite Hk1, Erd.
  rewrite zblit_head by (rewrite zlen_nil; unfold kMaxChunkSize in *; lia).
  bool_false (ec =? 0); cbn -[Close]; unfold on_strs; srun; cbn -[Close]; rewrite (Close_closed false p (strs w1) o1 Ho1 Hcl1).
  eexists _, d', o1; split; [done|]; cbn; rewrite lookup_insert_eq; do 2 (split; [done|]); split; [|done].
  apply (given_lost i overtaken _ _ lost); [|apply Hlost..].
  by rewrite Htx, Ht1, <- app_assoc, Heq.
Qed.

End socket.
