(* ===== verification/Passage.v ===== *)
(** * The passage of a client's bytes

    The whole way from a client of the entry node to the destination, and the way of the answer: the relay
    and the copy loops of both nodes (src/snova/server/relay.cc, io/transfer.cc), streams
    (mux/mux_stream.cc), the sessions (mux/mux_conn_manager.cc), the multiplexed connection with its frames
    (mux/mux_connection.cc, cipher_context.cc, mux_event.cc) and the dispatch of what arrives, in every
    order of the coroutines of a node.  Both nodes run with the real connection manager, whose connections
    are shared by the writers and by the read loop. *)

From S2P Require Import Prelude Endian IoBuf TimeWheel Text HttpHelper Sni NetHelper LocalProxy Connect.
From S2P Require Import PbMessages MuxEvent CipherContext Io AsyncMutex MuxConnection MuxStream MuxConnManager MuxDispatch Transfer Relay EndToEnd Arrival.

(** ** The relay of the exit node *)

Section exit_relay.
Context `{Platform, !PlatformOk} `{Nanopb, !NanopbOk} `{Aead, !AeadOk}.
Context {N Ep K D Ch T : Type} `{IOConnection K, !StreamView K, !ByteStream K, !ClosedEnds K} `{Network N Ep K}.
Context `{IOConnection D} `{Clock D} `{!StreamView D, !ByteStream D} `{HashOrder}.
Context `{DataChannel Ch, !DataChannelOk Ch}.
Variable handler : bytes -> Z -> MuxEvent -> st T (option MuxEvent).
Variables (entry : bool) (io_timeout_secs : Z) (get_iobuf : Z -> bytes) (now_ms : Z).
Hypothesis get_iobuf_size : forall n, n <= zlen (get_iobuf n).
Abbreviation W := (World K (MuxConnManager D) nat (nat * Z) Ch).
Abbreviation R := (Relay N K (MuxConnManager D) nat (nat * Z) Ch).
Implicit Types (w : W) (r : R) (d : K).

(** The turns of a relay whose stream is read in the given order: when the loop that reads the stream
    has returned, the other one finds its end closed and returns. *)
Definition in_order (q : nat) (t : T) (sched : list bool) : list (turn W) := order_turns handler q t sched ++ [Loop false].

(** The branch that connects. *)
Lemma relay_to_socket_passes sched overtaken q t key v user cid i p evs es' wire rest ctx r n d :
  order (length evs) sched = Some overtaken -> reading (rworld r) q key v user cid (wire ++ rest) ->
  delivery (evs ++ [make_event i StreamCloseRequest]) es' -> frames_of key v es' wire -> Forall (chunk_of i) evs ->
  Get cid i (strs (rworld r)) = Some p -> idle (rworld r) p -> live d ->
  get_connected_socket (LocalProxy.remote_host ctx) (LocalProxy.remote_port ctx) (LocalProxy.is_tcp ctx) (net r)
    = (n, Ok (Some d)) ->
  exists r' k d' o', relay_to_socket entry io_timeout_secs get_iobuf (in_order q t sched) (Strm p) [] ctx r = (r', Ok tt) /\
    reading (rworld r') q key (counter_after v (length es')) user cid rest /\
    socks (rworld r') !! k = Some (IoClose d') /\ given overtaken (tx d ++ concat (payload <$> evs)) (tx d') /\
    objects (strs (rworld r')) !! p = Some o' /\ stream_closed o' = true.
Proof.
  intros Hord Hr Hd Hfs Hev Hget Hid Hl Hcon; unfold relay_to_socket; erewrite sbind_ok by (by apply connect_remote_ok).
  cbv beta iota; set (k := fresh _); set (r1 := Build_Relay _ _ _); rewrite (sbind_ok _ _ r1 r1 tt) by done.
  destruct (order_delivers handler entry (0 <? io_timeout_secs) (get_iobuf kMaxChunkSize) q t p sched overtaken key v user cid i k
    evs es' wire rest (rworld r1) d)
    as (w4 & d4 & o4 & E4 & Hr4 & Hk4 & Htx4 & Ho4 & Hcl4); [apply get_iobuf_size | done.. | by cbn; rewrite lookup_insert_eq | done |].
  erewrite sbind_ok by (by apply both_ways_ok).
  eexists _, k, d4, o4; split; [done|]; cbn; rewrite lookup_alter_eq, Hk4; by split_and!.
Qed.

(** A new stream. *)
Lemma new_idle w f cid i e wr :
  make_writer f (ms_env (strs w)) = (e, Ok wr) -> Get cid i (strs w) = None ->
  exists w' p, on_strs (New (Some f) cid i) w = (w', Ok p) /\ idle w' p /\ Get cid i (strs w') = Some p /\
    ms_env (strs w') = e /\ socks w' = socks w /\ g_client_sid (strs w') = g_client_sid (strs w).
Proof.
  intros Hm Hg; unfold Get in *; unfold on_strs, New, on_env; srun; rewrite Hm; eexists _, _; split; [done|].
  cbn; rewrite Hg, lookup_insert_eq; split; [|done]; unfold idle; cbn; rewrite lookup_insert_eq.
  eexists; split; [done|]; split; [done | apply chan_new_empty].
Qed.

Lemma set_tls_idle w p b :
  idle w p -> exists w', on_strs (SetTLS b p) w = (w', Ok tt) /\ idle w' p /\ g_streams (strs w') = g_streams (strs w) /\
    ms_env (strs w') = ms_env (strs w) /\ socks w' = socks w /\ g_client_sid (strs w') = g_client_sid (strs w).
Proof.
  intros (o & Ho & Hcl & Hi); eexists; split; [done|]; split; [|done].
  eexists; cbn; rewrite lookup_alter_eq, Ho; by split_and!.
Qed.

(** The coroutine of a request to open a stream. *)
Lemma handler_passes sched overtaken q t key v user cid ev req evs es' wire rest r f e wr n d :
  order (length evs) sched = Some overtaken ->
  body ev = StreamOpenRequest req -> entry_factory user cid (ms_env (strs (rworld r))) = Some f ->
  make_writer f (ms_env (strs (rworld r))) = (e, Ok wr) -> Get cid (sid (head ev)) (strs (rworld r)) = None ->
  reading (rworld r) q key v user cid (wire ++ rest) ->
  delivery (evs ++ [make_event (sid (head ev)) StreamCloseRequest]) es' -> frames_of key v es' wire ->
  Forall (chunk_of (sid (head ev))) evs -> live d ->
  get_connected_socket (PbMessages.remote_host req) (wrap 16 (PbMessages.remote_port req)) (PbMessages.is_tcp req) (net r)
    = (n, Ok (Some d)) ->
  exists r' k d', relay_handler entry true io_timeout_secs get_iobuf now_ms (in_order q t sched) user cid ev r = (r', Ok tt) /\
    reading (rworld r') q key (counter_after v (length es')) user cid rest /\
    socks (rworld r') !! k = Some (IoClose d') /\ given overtaken (tx d ++ concat (payload <$> evs)) (tx d') /\
    Get cid (sid (head ev)) (strs (rworld r')) = None.
Proof.
  intros Hord Hb Hf Hm Hget Hr Hd Hfs Hev Hl Hcon.
  assert (e = ms_env (strs (rworld r))) as -> by (cbn in Hm; unfold session_make_writer in Hm; congruence).
  unfold relay_handler; rewrite Hb; erewrite (sbind_ok sget) by done; rewrite Hf.
  destruct (new_idle (rworld r) f cid (sid (head ev)) _ wr Hm Hget) as (w1 & p & E1 & Hid1 & Hget1 & He1 & _).
  erewrite sbind_ok by (by apply on_world_ok); cbv beta iota.
  destruct (set_tls_idle w1 p (PbMessages.is_tls req) Hid1) as (w2 & E2 & Hid2 & Hg2 & He2 & _).
  erewrite sbind_ok by (by apply on_world_ok); cbv beta iota zeta; unfold with_cleanup at 1; cbn [rworld net wheel].
  match goal with |- context [do_relay _ _ _ _ _ ?sc ?l ?dt ?ctx ?b] =>
    match goal with |- context [sbind _ _ ?r2] =>
      destruct (do_relay_body entry true io_timeout_secs get_iobuf now_ms sc l dt ctx b r2) as (r3 & cl & E3 & Hw3 & Hn3 & Hcl);
      destruct (relay_to_socket_passes sched overtaken q t key v user cid (sid (head ev)) p evs es' wire rest ctx r3 n d)
        as (r4 & k & d' & o' & E4 & Hr4 & Hk & Htx & Ho & Hclo)
    end end; [done | unfold reading; rewrite Hw3; cbn; by rewrite He2, He1 | done | done | done
             | rewrite Hw3; unfold Get in *; cbn; by rewrite Hg2 | by rewrite Hw3 | done | by rewrite Hn3 |].
  cbn [orb] in E3; unfold with_cleanup in E3; rewrite E4 in E3; rewrite (sbind_ok _ _ _ _ _ E3).
  erewrite sbind_ok.
  2: { apply on_world_ok; unfold on_strs; rewrite Hcl; by rewrite (Close_closed false p (strs (rworld r4)) o'). }
  eexists _, k, d'; split; [done|]; cbn; rewrite lookup_delete_eq; by split_and!.
Qed.

End exit_relay.

(** ** From the client to the destination *)

Section passage.
Context `{Platform, !PlatformOk} `{Nanopb, !NanopbOk} `{Aead, !AeadOk} `{HashOrder}.
(** The entry node: the client's socket, the link of its connections. *)
Context {N Ep C L Ch : Type} `{IOConnection C, !StreamView C, !ByteStream C, !StreamEof C} `{Network N Ep C}.
Context `{IOConnection L} `{Clock L} `{!StreamView L, !ByteStream L} `{DataChannel Ch, !DataChannelOk Ch, !WaitingChannel Ch}.
(** The exit node: the destination's socket, the link of its connections. *)
Context {N' Ep' K L' Ch' T : Type} `{IOConnection K, !StreamView K, !ByteStream K, !ClosedEnds K} `{Network N' Ep' K}.
Context `{IOConnection L'} `{Clock L'} `{!StreamView L', !ByteStream L'} `{DataChannel Ch', !DataChannelOk Ch'}.
Variable handler : bytes -> Z -> MuxEvent -> st T (option MuxEvent).
Variables (io_timeout_secs io_timeout_secs' now_ms now_ms' : Z) (get_iobuf get_iobuf' : Z -> bytes).
Hypothesis get_iobuf_size : forall n, n <= zlen (get_iobuf n).
Hypothesis get_iobuf_bytes : forall n, is_bytes (get_iobuf n).
Hypothesis get_iobuf_size' : forall n, n <= zlen (get_iobuf' n).

(** The exit node [r] can serve a stream [i] of [client_id] that is asked for over the connection [q]:
    the session is there, the id is free, and the destination answers with the socket [d]. *)
Definition serves (r : Relay N' K (MuxConnManager L') nat (nat * Z) Ch') q user client_id i host port tcp (d : K) : Prop :=
  relays (rworld r) q /\ manager_wf (ms_env (strs (rworld r))) /\ is_Some (GetEventWriterFactory user client_id MUX_ENTRY_CONN (ms_env (strs (rworld r)))) /\
  Get client_id i (strs (rworld r)) = None /\ live d /\
  exists n, get_connected_socket host port tcp (net r) = (n, Ok (Some d)).

(** What is put on the link for one relayed client, read by the exit node in any order. *)
Lemma stream_wire_served (r : Relay N' K (MuxConnManager L') nat (nat * Z) Ch')
    q t key v user cid i host port tcp tls data m wire rest d :
  stream_wire key v i host port tcp tls data m wire -> cstring_wf 512 host -> fits 16 port ->
  serves r q user cid i host port tcp d -> reading (rworld r) q key v user cid (wire ++ rest) ->
  exists r1 ev, on_world (read_turn handler q t) r = (r1, Ok (0, [(user, cid, ev)], t)) /\
    forall sched overtaken, order m sched = Some overtaken ->
    exists r2 k d',
      relay_handler false true io_timeout_secs' get_iobuf' now_ms' (in_order handler q t sched) user cid ev r1 = (r2, Ok tt) /\
      socks (rworld r2) !! k = Some (IoClose d') /\ given overtaken (tx d ++ data) (tx d') /\
      reading (rworld r2) q key (counter_behind v m) user cid rest /\
      Get cid i (strs (rworld r2)) = None.
Proof.
  intros (evs & es' & Hd & Hfs & Hev & <- & <-) Hhost Hport (Hrel & Hwf & (f & Hfac) & Hget & Hl & n & Hcon) Hr.
  pose proof (Forall2_length _ _ _ Hd) as Hlen; rewrite !length_app in Hlen; apply Forall2_cons_inv_l in Hd as (e1 & es & (n1 & Hn1 & ->) & Hd & ->).
  destruct Hfs as (w1 & w2 & -> & Hf1 & Hlen1 & Hfs); rewrite <- app_assoc in Hr.
  destruct (read_turn_open handler (rworld r) q t key v user cid (delivered n1 (open_event i host port tcp tls)) w1 (w2 ++ rest)
    {| PbMessages.remote_host := host; PbMessages.remote_port := port; PbMessages.is_tcp := tcp; PbMessages.is_tls := tls |})
    as (w' & c & E1 & Hr1 & Hs1 & Hso1); [done..| | done |].
  { unfold delivered, open_event; cbn -[snprintf_s]; by rewrite snprintf_s_id. }
  destruct (entry_writer_wf _ q c user cid f Hwf Hfac) as (wr & Hm).
  set (r1 := {| rworld := w'; net := net r; wheel := wheel r |}).
  exists r1, (delivered n1 (open_event i host port tcp tls)); split; [by apply on_world_ok|]; intros sched overtaken Hord.
  destruct (handler_passes handler false io_timeout_secs' get_iobuf' now_ms' get_iobuf_size' sched overtaken q t key (wrap 64 (v + 1)) user cid
    (delivered n1 (open_event i host port tcp tls))
    {| PbMessages.remote_host := host; PbMessages.remote_port := port; PbMessages.is_tcp := tcp; PbMessages.is_tls := tls |}
    evs es w2 rest r1 f (ms_env (strs w')) wr n d) as (r2 & k & d' & E2 & Hr2 & Hk & Htx & Hg2);
    [done | by unfold delivered, open_event; cbn -[snprintf_s]; rewrite snprintf_s_id
    | by cbn; rewrite Hs1 | by cbn; rewrite Hs1 | by cbn; rewrite Hs1 | done | done | done | done | done | by cbn; rewrite wrap_small |].
  exists r2, k, d'; unfold counter_behind; rewrite counter_after_S.
  replace (S (length evs)) with (length es) by (cbn in Hlen; lia); by split_and!.
Qed.

(** What the relay of a client puts on the connection its session chose, in any order of its two loops
    in which none has to wait, while nothing comes for its stream. *)
Lemma relay_sends_stream sched (r : Relay N C (MuxConnManager L) nat (nat * Z) Ch) k c data ctx cid f wr q l key :
  socks (rworld r) !! k = Some c -> live c -> is_bytes (rx c) -> zlen data <= kMaxChunkSize -> is_bytes data ->
  cstring_wf 512 (LocalProxy.remote_host ctx) -> fits 16 (LocalProxy.remote_port ctx) ->
  fits 32 (g_client_sid (strs (rworld r))) ->
  GetRelayEventWriterFactory (LocalProxy.user ctx) (ms_env (strs (rworld r))) = Ok (Some (cid, f)) ->
  make_writer f (ms_env (strs (rworld r))) = (ms_env (strs (rworld r)), Ok (Some wr)) ->
  slot_of wr (ms_env (strs (rworld r))) q l -> can_write l key ->
  let i := g_client_sid (strs (rworld r)) in
  let run := do_relay true false io_timeout_secs get_iobuf now_ms (Loop <$> sched) (Sock k) data ctx false r in
  sched = alone (2 * length (rx c) + 1) \/ run.2 <> Hang ->
  exists r' c' l' wire m, run = (r', Ok tt) /\
    socks (rworld r') !! k = Some (IoClose c') /\ Get cid i (strs (rworld r')) = None /\
    conn_store (ms_env (strs (rworld r'))) = <[q := l']> (conn_store (ms_env (strs (rworld r)))) /\
    tx (io_conn l') = tx (io_conn l) ++ wire /\
    stream_wire key (encrypt_iv (cipher_ctx l)) i (LocalProxy.remote_host ctx) (LocalProxy.remote_port ctx)
      (LocalProxy.is_tcp ctx) (LocalProxy.is_tls ctx) (data ++ rx c) m wire /\
    encrypt_iv (cipher_ctx l') = counter_behind (encrypt_iv (cipher_ctx l)) m.
Proof.
  intros Hk Hl Hrb Hd Hdb Hhost Hport Hsid Hf Hm Hslot Hcw i run Hsched.
  assert (is_bytes (LocalProxy.remote_host ctx)) as Hhb
    by (eapply Forall_impl; [apply Hhost|]; unfold is_byte; intros ? ?; cbn in *; lia).
  destruct (mux_relay_events true io_timeout_secs get_iobuf now_ms get_iobuf_size get_iobuf_bytes sched k c data ctx r cid f
    (ms_env (strs (rworld r))) wr) as (r1 & evs & c' & E1 & (_ & _ & Hsent) & Hev & Hcat & Hsk & _ & Hget);
    [done.. | by exists q, l, key | exact Hsched |].
  destruct (Hsent q l key Hslot Hcw) as (l' & wire & es' & Ecs & _ & Hdel & Hfs & Htx & Hiv & _).
  exists r1, c', l', wire, (length evs); do 5 (split; [done|]).
  split; [by exists evs, es'|]; rewrite Hiv, !length_app; unfold counter_behind; f_equal; cbn; lia.
Qed.

(** C1. The bytes of a client reach the destination it asked for.  An entry node relays a client over a
    stream, for which nothing comes back meanwhile: in every order of its two copy loops in which none has
    to wait, it puts a sequence of frames on the connection its session chose, and returns; running the loop
    from the client to its end first is such an order.  Any exit node with the same key and counter that
    reads those frames, and for which the destination answers the connection attempt and is then quiet,
    spawns one relay for the client and user of its connection.  In every order of the read loop of the
    connection and the copy loop of that relay, the destination is given the bytes read before and the
    bytes the client sent, in order, except that a last chunk that was still in the channel of the stream
    when the close was read is missing; the destination is closed, the relay returns, the connection is ready
    for what follows the frames, and the id of the stream is free on both nodes. *)
Theorem bytes_reach_destination sched (r : Relay N C (MuxConnManager L) nat (nat * Z) Ch) k c data ctx cid f wr q l key :
  socks (rworld r) !! k = Some c -> live c -> is_bytes (rx c) -> zlen data <= kMaxChunkSize -> is_bytes data ->
  cstring_wf 512 (LocalProxy.remote_host ctx) -> fits 16 (LocalProxy.remote_port ctx) ->
  fits 32 (g_client_sid (strs (rworld r))) ->
  GetRelayEventWriterFactory (LocalProxy.user ctx) (ms_env (strs (rworld r))) = Ok (Some (cid, f)) ->
  make_writer f (ms_env (strs (rworld r))) = (ms_env (strs (rworld r)), Ok (Some wr)) ->
  slot_of wr (ms_env (strs (rworld r))) q l -> can_write l key ->
  let i := g_client_sid (strs (rworld r)) in
  let run := do_relay true false io_timeout_secs get_iobuf now_ms (Loop <$> sched) (Sock k) data ctx false r in
  sched = alone (2 * length (rx c) + 1) \/ run.2 <> Hang ->
  exists r' c' l' wire m, run = (r', Ok tt) /\
    socks (rworld r') !! k = Some (IoClose c') /\ Get cid i (strs (rworld r')) = None /\
    conn_store (ms_env (strs (rworld r'))) = <[q := l']> (conn_store (ms_env (strs (rworld r)))) /\
    tx (io_conn l') = tx (io_conn l) ++ wire /\
    forall (x : Relay N' K (MuxConnManager L') nat (nat * Z) Ch') q' t user cid' rest d,
      serves x q' user cid' i (LocalProxy.remote_host ctx) (LocalProxy.remote_port ctx) (LocalProxy.is_tcp ctx) d ->
      reading (rworld x) q' key (encrypt_iv (cipher_ctx l)) user cid' (wire ++ rest) ->
      exists x1 ev, on_world (read_turn handler q' t) x = (x1, Ok (0, [(user, cid', ev)], t)) /\
        forall sched' overtaken, order m sched' = Some overtaken ->
        exists x2 kd d',
          relay_handler false true io_timeout_secs' get_iobuf' now_ms' (in_order handler q' t sched') user cid' ev x1 = (x2, Ok tt) /\
          socks (rworld x2) !! kd = Some (IoClose d') /\ given overtaken (tx d ++ data ++ rx c) (tx d') /\
          reading (rworld x2) q' key (encrypt_iv (cipher_ctx l')) user cid' rest /\
          Get cid' i (strs (rworld x2)) = None.
Proof.
  intros Hk Hl Hrb Hd Hdb Hhost Hport Hsid Hf Hm Hslot Hcw i run Hsched.
  destruct (relay_sends_stream sched r k c data ctx cid f wr q l key) as (r' & c' & l' & wire & m & E & Hsk & Hget & Ecs & Htx & Hw & Hiv); [done..|].
  exists r', c', l', wire, m; do 5 (split; [done|]); intros x q' t user cid' rest d Hserve Hread; rewrite Hiv.
  by apply (stream_wire_served x q' t key (encrypt_iv (cipher_ctx l)) user cid' i (LocalProxy.remote_host ctx)
    (LocalProxy.remote_port ctx) (LocalProxy.is_tcp ctx) (LocalProxy.is_tls ctx) (data ++ rx c) m wire rest d).
Qed.

End passage.

(** ** The way back *)

Section answer.
Context `{Platform, !PlatformOk} `{Nanopb, !NanopbOk} `{Aead, !AeadOk} `{HashOrder}.
(** The entry node: the client's socket, the link of its connections. *)
Context {N Ep C L Ch T : Type} `{IOConnection C, !StreamView C, !ByteStream C, !ClosedEnds C} `{Network N Ep C}.
Context `{IOConnection L} `{Clock L} `{!StreamView L, !ByteStream L} `{DataChannel Ch, !DataChannelOk Ch, !WaitingChannel Ch}.
Variable handler : bytes -> Z -> MuxEvent -> st T (option MuxEvent).
Variables (io_timeout_secs io_timeout_secs' now_ms now_ms' : Z) (get_iobuf get_iobuf' : Z -> bytes).
Hypothesis get_iobuf_size : forall n, n <= zlen (get_iobuf n).
Hypothesis get_iobuf_bytes : forall n, is_bytes (get_iobuf n).
Hypothesis get_iobuf_size' : forall n, n <= zlen (get_iobuf' n).
Hypothesis get_iobuf_bytes' : forall n, is_bytes (get_iobuf' n).
Abbreviation W := (World C (MuxConnManager L) nat (nat * Z) Ch).
Abbreviation R := (Relay N C (MuxConnManager L) nat (nat * Z) Ch).
Implicit Types (w : W) (r : R).

(** Writers do not disturb readers, not even those of the same connection. *)
Lemma reading_sent w w' wr evs q l key q' key' v user cid input :
  frames_sent wr evs (ms_env (strs w)) (ms_env (strs w')) -> slot_of wr (ms_env (strs w)) q l -> can_write l key ->
  reading w q' key' v user cid input -> reading w' q' key' v user cid input.
Proof.
  intros (_ & _ & Hs) Hslot Hcw (c & Hq' & Hc & Hk & Hl & Hv & Hu & Hcid & Hin).
  destruct (Hs q l key Hslot Hcw) as (l' & _ & _ & Ecs & (Hc' & Hk' & Hl' & _) & _ & _ & _ & _ & Hp).
  destruct (decide (q' = q)) as [->|Hne].
  - destruct Hslot as (_ & _ & _ & Hq); rewrite Hq in Hq'; injection Hq' as <-.
    unfold reader_part in Hp; injection Hp as Hd' Hp' Hr' Hu' Hi' _.
    exists l'; rewrite Ecs, lookup_insert_eq; split; [done|]; split; [done|].
    split; [destruct Hcw as (_ & Hk0 & _); congruence|]; split_and!; congruence.
  - exists c; rewrite Ecs, lookup_insert_ne by done; by split_and!.
Qed.

(** The relay of a client that has sent its request and waits: the frames of the answer arrive. *)
Lemma relay_to_stream_answered sched overtaken k c data ctx r cid f wr q l key q' t key' v user evs es' wire rest :
  socks (rworld r) !! k = Some c -> live c -> zlen data <= kMaxChunkSize -> is_bytes data ->
  is_bytes (LocalProxy.remote_host ctx) -> fits 16 (LocalProxy.remote_port ctx) -> fits 32 (g_client_sid (strs (rworld r))) ->
  GetRelayEventWriterFactory (LocalProxy.user ctx) (ms_env (strs (rworld r))) = Ok (Some (cid, f)) ->
  make_writer f (ms_env (strs (rworld r))) = (ms_env (strs (rworld r)), Ok (Some wr)) ->
  slot_of wr (ms_env (strs (rworld r))) q l -> can_write l key ->
  let i := g_client_sid (strs (rworld r)) in
  order (length evs) sched = Some overtaken ->
  Get cid i (strs (rworld r)) = None -> reading (rworld r) q' key' v user cid (wire ++ rest) ->
  delivery (evs ++ [make_event i StreamCloseRequest]) es' -> frames_of key' v es' wire -> Forall (chunk_of i) evs ->
  exists r' c',
    relay_to_stream true io_timeout_secs get_iobuf (swap_turn <$> in_order handler q' t sched) (Sock k) data ctx r = (r', Ok tt) /\
    socks (rworld r') !! k = Some c' /\ given overtaken (tx c ++ concat (payload <$> evs)) (tx c') /\
    reading (rworld r') q' key' (counter_after v (length es')) user cid rest /\
    Get cid i (strs (rworld r')) = None.
Proof.
  intros Hk Hl Hd Hdb Hhb Hpb Hsid Hf Hm Hslot Hcw i Hord Hget Hr Hdel Hfs Hev.
  destruct (relay_to_stream_set_up true io_timeout_secs get_iobuf get_iobuf_size get_iobuf_bytes
    (swap_turn <$> in_order handler q' t sched) (Sock k) data ctx r cid f (ms_env (strs (rworld r))) wr)
    as (r4 & p & evs0 & -> & Hs4 & Hlog4 & _ & _ & Hso4 & (o & Ho & Hch) & Hg4 & _); [done..| by exists q, l, key |].
  assert (idle (rworld r4) p) as Hid.
  { destruct Hs4 as (o4 & Ho4 & Hcl4 & _); rewrite Ho in Ho4; injection Ho4 as <-.
    exists o; rewrite Hch; by split_and!; [..|apply chan_new_empty]. }
  pose proof (reading_sent _ _ _ _ _ _ _ _ _ _ _ _ _ Hlog4 Hslot Hcw Hr) as Hr4.
  destruct (order_delivers handler true (0 <? io_timeout_secs) (get_iobuf kMaxChunkSize) q' t p sched overtaken key' v user cid i k
    evs es' wire rest (rworld r4) c) as (w5 & c5 & o5 & E5 & Hr5 & Hk5 & Htx5 & Ho5 & Hcl5);
    [apply get_iobuf_size | done.. | by apply Hg4 | done | by rewrite Hso4 | done |].
  unfold with_cleanup; erewrite sbind_ok by (apply both_ways_ok; by rewrite duplex_swap).
  erewrite sbind_ok.
  2: { apply on_world_ok; unfold on_strs; cbn [rworld]; by rewrite (Close_closed false p (strs w5) o5). }
  eexists _, c5; split; [done|]; cbn; unfold Get; cbn; rewrite lookup_delete_eq; by split_and!.
Qed.

(** The exit node: the destination's socket, the link of its connections. *)
Context {N' Ep' K L' Ch' : Type} `{IOConnection K, !StreamView K, !ByteStream K, !StreamEof K} `{Network N' Ep' K}.
Context `{IOConnection L'} `{Clock L'} `{!StreamView L', !ByteStream L'} `{DataChannel Ch', !DataChannelOk Ch', !WaitingChannel Ch'}.

(** C2. The answer of the destination reaches the client.  On the exit node the relay of a request copies what
    the destination sends, until it closes, while nothing more comes from the client: in every order of its
    two copy loops in which none has to wait, it puts frames on the connection its session chose, and
    returns.  A client of an entry node that was relayed under the same stream id, over connections with
    the same key and counter, and that is quiet now, is sent exactly those bytes, in order, in every order
    of the read loop of the connection and the copy loop to the client, except that a last chunk that was
    still in the channel when the close was read is missing; its relay returns, the connection is ready for
    what follows the frames, and the id is free on both nodes. *)
Theorem answer_reaches_client sched (x : Relay N' K (MuxConnManager L') nat (nat * Z) Ch') user' cid' ev req f' wr' q' l' key n d :
  body ev = StreamOpenRequest req -> fits 32 (sid (head ev)) ->
  GetEventWriterFactory user' cid' MUX_ENTRY_CONN (ms_env (strs (rworld x))) = Some f' ->
  make_writer f' (ms_env (strs (rworld x))) = (ms_env (strs (rworld x)), Ok (Some wr')) ->
  slot_of wr' (ms_env (strs (rworld x))) q' l' -> can_write l' key -> live d -> is_bytes (rx d) ->
  get_connected_socket (PbMessages.remote_host req) (wrap 16 (PbMessages.remote_port req)) (PbMessages.is_tcp req) (net x)
    = (n, Ok (Some d)) ->
  let run := relay_handler false true io_timeout_secs' get_iobuf' now_ms' (swap_turn <$> (Loop <$> sched)) user' cid' ev x in
  sched = alone (2 * length (rx d) + 1) \/ run.2 <> Hang ->
  exists x' kd d' l2 wire m, run = (x', Ok tt) /\
    socks (rworld x') !! kd = Some (IoClose d') /\ Get cid' (sid (head ev)) (strs (rworld x')) = None /\
    conn_store (ms_env (strs (rworld x'))) = <[q' := l2]> (conn_store (ms_env (strs (rworld x)))) /\
    tx (io_conn l2) = tx (io_conn l') ++ wire /\
    forall r k c data ctx cid f wr q l key0 q2 t user rest sched' overtaken,
      socks (rworld r) !! k = Some c -> live c -> zlen data <= kMaxChunkSize -> is_bytes data ->
      is_bytes (LocalProxy.remote_host ctx) -> fits 16 (LocalProxy.remote_port ctx) ->
      g_client_sid (strs (rworld r)) = sid (head ev) ->
      GetRelayEventWriterFactory (LocalProxy.user ctx) (ms_env (strs (rworld r))) = Ok (Some (cid, f)) ->
      make_writer f (ms_env (strs (rworld r))) = (ms_env (strs (rworld r)), Ok (Some wr)) ->
      slot_of wr (ms_env (strs (rworld r))) q l -> can_write l key0 ->
      Get cid (sid (head ev)) (strs (rworld r)) = None ->
      reading (rworld r) q2 key (encrypt_iv (cipher_ctx l')) user cid (wire ++ rest) ->
      order m sched' = Some overtaken ->
      exists r' c',
        do_relay true false io_timeout_secs get_iobuf now_ms (swap_turn <$> in_order handler q2 t sched') (Sock k) data ctx false r
          = (r', Ok tt) /\
        socks (rworld r') !! k = Some c' /\ given overtaken (tx c ++ rx d) (tx c') /\
        reading (rworld r') q2 key (encrypt_iv (cipher_ctx l2)) user cid rest /\
        Get cid (sid (head ev)) (strs (rworld r')) = None.
Proof.
  intros Hb Hsid Hf' Hm' Hslot' Hcw' Hld Hrb Hcon run Hsched.
  destruct (exit_relay_answers false io_timeout_secs' get_iobuf' now_ms' get_iobuf_size' get_iobuf_bytes' sched user' cid' ev req x f'
    (ms_env (strs (rworld x))) wr' n d) as (x' & evs & kd & d' & E1 & (_ & _ & Hsent) & Hev & Hcat & Hkd & Hget');
    [done | exact Hf' | exact Hm' | by exists q', l', key | done.. | exact Hsched |].
  destruct (Hsent q' l' key Hslot' Hcw') as (l2 & wire & es' & Ecs & _ & Hdel & Hfs & Htx & Hiv & _).
  exists x', kd, d', l2, wire, (length evs); do 5 (split; [done|]).
  intros r k c data ctx cid f wr q l key0 q2 t user rest sched' overtaken Hk Hl Hd Hdb Hhb Hpb Hi Hf Hm Hslot Hcw Hget Hr Hord.
  destruct (do_relay_body true false io_timeout_secs get_iobuf now_ms
    (swap_turn <$> in_order handler q2 t sched') (Sock k) data ctx false r) as (r0 & cl & -> & Hw0 & _ & Hcl).
  cbn [orb]; unfold with_cleanup.
  destruct (relay_to_stream_answered sched' overtaken k c data ctx r0 cid f wr q l key0 q2 t key (encrypt_iv (cipher_ctx l')) user evs es' wire rest)
    as (r1 & c' & -> & Hc' & Htxc & Hr1 & Hg1); [rewrite ?Hw0; cbn; by rewrite ?Hi..|].
  exists (cl r1), c'; rewrite Hcl; split; [done|]; split; [done|]; split; [by rewrite <- Hcat|].
  rewrite Hw0 in Hg1; cbn in Hg1; rewrite Hi in Hg1; split; [|done]; by rewrite Hiv, (Forall2_length _ _ _ Hdel).
Qed.

End answer.

(** ** Witnesses *)

Module PassageDemo.
Export ManagerDemo StreamDemo RelayDemo.

(** A socket that can be closed. *)
Record sock := { is_open : bool; side : pipe }.

Definition on_side {A} (closed : A) (m : st pipe A) : st sock A := fun s =>
  if is_open s then let '(p, r) := m (side s) in ({| is_open := true; side := p |}, r) else (s, Ok closed).

#[export] Instance sock_conn : IOConnection sock := {|
  AsyncRead cap := on_side ([], 9) (AsyncRead cap);
  AsyncWrite b := on_side (0, 9) (AsyncWrite b);
  AsyncWriteV bufs := on_side (0, 9) (AsyncWriteV bufs);
  IoClose s := {| is_open := false; side := side s |}
|}.

#[export] Instance sock_view : StreamView sock := {|
  live s := is_open s = true /\ live (side s);
  rx s := rx (side s);
  tx s := tx (side s)
|}.

#[export] Instance sock_stream : ByteStream sock.
Proof.
  split.
  - intros cap [b p] [Hb Hl]; cbn in Hb; subst; intros Hc Hr.
    destruct (stream_read cap p Hl Hc Hr) as (p' & d & E & ? & ? & ? & ? & ?).
    exists {| is_open := true; side := p' |}, d; cbn -[Pipe.read]; unfold on_side; cbn -[Pipe.read].
    cbn -[Pipe.read] in E; rewrite E; by split_and!.
  - intros b [o p] [Hb Hl]; cbn in Hb; subst; by eexists.
  - intros b [o p] [Hb Hl]; cbn in Hb; subst; by eexists.
Qed.

#[export] Instance sock_closed : ClosedEnds sock.
Proof. split; [done|]; intros cap s; by eexists _, 9. Qed.

Definition destination : sock := {| is_open := true; side := {| chunks := []; sent := [] |} |}.

#[export] Instance exit_net : Network unit unit sock := {|
  async_resolve host service := sret (if decide (host = bs "site") then (0, [tt]) else (1, []));
  async_connect _ := sret (0, destination)
|}.

(** A node with the given connections and sockets, and no stream. *)
Definition node {C} (m : MuxConnManager pipe) (sockets : gmap nat C) : Relay unit C (MuxConnManager pipe) nat (nat * Z) chan := {|
  rworld := {| socks := sockets;
               strs := {| g_streams := ∅; objects := ∅; g_active_stream_size := 0; g_client_sid := 9; g_server_sid := 2;
                          ms_env := m |};
               latest_io_time := 0; now := 100 |};
  net := tt; wheel := TimeWheel_new 10 |}.

(** The connection of alice's client 42, to which [wire] arrives byte by byte. *)
Definition trickle (wire : bytes) : pipe := {| chunks := (fun b => [b]) <$> wire; sent := [] |}.
Definition alice_link (wire : bytes) : MuxConnection pipe :=
  set_client_id (fun _ => 42) (set_user (fun _ => alice) (conn_on (trickle wire) false)).
Definition alice_manager (wire : bytes) : MuxConnManager pipe := {|
  mux_conns := {[ alice := {| entry_sessions := {[ 42 := 0%nat ]}; exit_sessions := {[ 42 := 0%nat ]} |} ]};
  session_store := {[ 0%nat := {| conns := [Some 0%nat]; tunnel_servers := [] |} ]};
  conn_store := {[ 0%nat := alice_link wire ]} |}.

(** The entry node, whose client sends "hello" and closes; the exit node; and an entry node whose client
    waits for an answer. *)
Definition entry_world : Relay unit pipe _ _ _ _ := node (alice_manager []) {[ 0%nat := TransferDemo.client ]}.
Definition exit_world (wire : bytes) : Relay unit sock _ _ _ _ := node (alice_manager wire) ∅.
Definition exit_site : Relay unit pipe _ _ _ _ := node (alice_manager []) ∅.
Definition waiting_world (wire : bytes) : Relay unit sock _ _ _ _ := node (alice_manager wire) {[ 0%nat := destination ]}.

Lemma trickle_rx wire : rx (trickle wire) = wire.
Proof. cbn; induction wire as [|b wire IH]; cbn; [done | by f_equal]. Qed.

Lemma trickle_live wire : live (trickle wire).
Proof. cbn; apply Forall_fmap, Forall_true; done. Qed.

Lemma alice_manager_wf wire : manager_wf (alice_manager wire).
Proof.
  split.
  - intros user u ty cid sp Hu Hc; cbn in Hu; apply lookup_singleton_Some in Hu as [<- <-].
    destruct ty; cbn in Hc; apply lookup_singleton_Some in Hc as [<- <-]; by eexists.
  - intros sp s p Hs Hp; cbn in Hs; apply lookup_singleton_Some in Hs as [<- <-]; cbn in Hp.
    apply list_elem_of_singleton in Hp as [= ->]; by eexists.
Qed.

Lemma exit_serves wire i : serves (exit_world wire) 0 alice 42 i (bs "site") 80 true destination.
Proof.
  split; [by exists (alice_link wire)|]; split; [apply alice_manager_wf|]; split; [by exists 0%nat|]; split; [done|].
  split; [repeat constructor | by exists tt].
Qed.

Lemma alice_can_write wire : can_write (alice_link wire) key.
Proof.
  split; [exact (conn_on_wf (trickle wire) false)|]; split; [reflexivity|]; split; [apply trickle_live | by split].
Qed.

Lemma alice_reading {C} wire (sockets : gmap nat C) :
  reading (rworld (node (alice_manager wire) sockets)) 0 key (encrypt_iv ctx) alice 42 (wire ++ []).
Proof.
  exists (alice_link wire); split; [done|]; split; [exact (conn_on_wf (trickle wire) false)|].
  split; [reflexivity|]; split; [apply trickle_live|]; split; [reflexivity|]; do 2 (split; [done|]).
  assert (pending (alice_link wire) = []) as -> by (by vm_compute).
  rewrite app_nil_r; exact (trickle_rx wire).
Qed.

Lemma alice_slot wire : slot_of (0%nat, 0) (alice_manager wire) 0 (alice_link wire).
Proof. by exists {| conns := [Some 0%nat]; tunnel_servers := [] |}. Qed.

End PassageDemo.

Section witnesses.
Import PassageDemo.

Lemma bytes_reach_destination_witness :
  exists r' m wire,
    do_relay true false 120 bufs 5000 (Loop <$> alone 11) (Sock 0) (bs "GET ") ctx0 false entry_world = (r', Ok tt) /\
    exists x1 ev x2 kd d',
      on_world (read_turn DispatchDemo.no_tunnels 0 tt) (exit_world wire) = (x1, Ok (0, [(alice, 42, ev)], tt)) /\
      relay_handler false true 60 bufs 6000 (in_order DispatchDemo.no_tunnels 0 tt (in_step m)) alice 42 ev x1 = (x2, Ok tt) /\
      socks (rworld x2) !! kd = Some (IoClose d') /\ tx d' = bs "GET hello".
Proof.
  destruct (bytes_reach_destination DispatchDemo.no_tunnels 120 60 5000 6000 bufs bufs bufs_size bufs_bytes bufs_size (alone 11)
    entry_world 0 TransferDemo.client (bs "GET ") ctx0 42 0%nat (0%nat, 0) 0%nat (alice_link []) key)
    as (r' & c' & l' & wire & m & E1 & _ & _ & _ & _ & Hx).
  - reflexivity.
  - repeat constructor; done.
  - exact (is_bytes_bs "hello").
  - done.
  - exact (is_bytes_bs "GET ").
  - apply (bool_decide_unpack _); by vm_compute.
  - by split.
  - by split.
  - by vm_compute.
  - by vm_compute.
  - apply alice_slot.
  - apply alice_can_write.
  - left; reflexivity.
  - exists r', m, wire; split; [exact E1|].
    destruct (Hx (exit_world wire) 0%nat tt alice 42 [] destination (exit_serves wire _) (alice_reading wire ∅))
      as (x1 & ev & E2 & Hs); destruct (Hs (in_step m) false (order_in_step m)) as (x2 & kd & d' & E3 & Hk & (miss & Ht & _ & Hm) & _).
    exists x1, ev, x2, kd, d'; rewrite (Hm eq_refl), app_nil_r in Ht; exact (conj E2 (conj E3 (conj Hk (eq_sym Ht)))).
Defined.

Lemma answer_reaches_client_witness :
  exists x' m wire,
    relay_handler false true 60 bufs 6000 (swap_turn <$> (Loop <$> alone 11)) alice 42
      (Relay.open_event 9 (bs "site") 80 true false) exit_site = (x', Ok tt) /\
    exists r' c', do_relay true false 120 bufs 5000 (swap_turn <$> in_order DispatchDemo.no_tunnels 0 tt (in_step m)) (Sock 0) (bs "GET ")
        ctx0 false (waiting_world wire) = (r', Ok tt) /\
      socks (rworld r') !! 0%nat = Some c' /\ tx c' = bs "world".
Proof.
  destruct (answer_reaches_client (C := sock) (T := unit) DispatchDemo.no_tunnels 120 60 5000 6000 bufs bufs
    bufs_size bufs_bytes bufs_size bufs_bytes (alone 11) exit_site alice 42 (Relay.open_event 9 (bs "site") 80 true false)
    {| PbMessages.remote_host := bs "site"; PbMessages.remote_port := 80; PbMessages.is_tcp := true; PbMessages.is_tls := false |}
    0%nat (0%nat, 0) 0%nat (alice_link []) key tt TransferDemo.site)
    as (x' & kd & d' & l2 & wire & m & E1 & _ & _ & _ & _ & Hr).
  - by vm_compute.
  - by split.
  - reflexivity.
  - by vm_compute.
  - apply alice_slot.
  - apply alice_can_write.
  - by repeat constructor.
  - exact (is_bytes_bs "world").
  - reflexivity.
  - left; reflexivity.
  - exists x', m, wire; split; [exact E1|].
    destruct (Hr (waiting_world wire) 0%nat destination (bs "GET ") ctx0 42 0%nat (0%nat, 0) 0%nat (alice_link wire) key 0%nat tt alice []
      (in_step m) false)
      as (r' & c' & E2 & Hc & (miss & Ht & _ & Hms) & _); [reflexivity | by repeat constructor | done | exact (is_bytes_bs "GET ")
      | exact (is_bytes_bs "site") | by split | reflexivity | by vm_compute | by vm_compute | apply alice_slot
      | apply alice_can_write | reflexivity | apply alice_reading | apply order_in_step |].
    exists r', c'; rewrite (Hms eq_refl), app_nil_r in Ht; exact (conj E2 (conj Hc (eq_sym Ht))).
Defined.

End witnesses.
