(* ===== verification/Middle.v ===== *)
(** * A node in the middle

    A middle node serves the streams of its clients over streams of its own towards the next node
    (src/snova/server/relay.cc with a stream at both ends, io/transfer.cc).  What arrives on one
    connection leaves on another, under another stream id and another key. *)

From S2P Require Import Prelude Endian IoBuf TimeWheel Text HttpHelper Sni NetHelper LocalProxy Connect.
From S2P Require Import PbMessages MuxEvent CipherContext Io AsyncMutex MuxConnection MuxStream MuxConnManager MuxDispatch Transfer Relay EndToEnd Arrival Passage.

Section middle.
Context `{Platform, !PlatformOk} `{Nanopb, !NanopbOk} `{Aead, !AeadOk}.
Context {N Ep K L Ch T : Type} `{IOConnection K} `{Network N Ep K}.
Context `{IOConnection L} `{Clock L} `{!StreamView L, !ByteStream L} `{HashOrder}.
Context `{DataChannel Ch, !DataChannelOk Ch}.
Variable handler : bytes -> Z -> MuxEvent -> st T (option MuxEvent).
Variables (io_timeout_secs : Z) (get_iobuf : Z -> bytes) (now_ms : Z).
Hypothesis get_iobuf_size : forall n, n <= zlen (get_iobuf n).
Hypothesis get_iobuf_bytes : forall n, is_bytes (get_iobuf n).
Abbreviation W := (World K (MuxConnManager L) nat (nat * Z) Ch).
Abbreviation R := (Relay N K (MuxConnManager L) nat (nat * Z) Ch).
Implicit Types (w : W) (r : R) (c : MuxConnection L) (wr : nat * Z).

(** ** What has left over the next connection *)

(** The connection [q] of the writer, [c] at the beginning, has been given the frames of [evs]. *)
Definition sent_on w wr (q : nat) c (key : bytes) (evs : list MuxEvent) : Prop :=
  exists c' es wire, slot_of wr (ms_env (strs w)) q c' /\ can_write c' key /\ delivery evs es /\
    frames_of key (encrypt_iv (cipher_ctx c)) es wire /\ tx (io_conn c') = tx (io_conn c) ++ wire /\
    encrypt_iv (cipher_ctx c') = counter_after (encrypt_iv (cipher_ctx c)) (length evs).

Lemma sent_on_nil w wr q c key : slot_of wr (ms_env (strs w)) q c -> can_write c key -> sent_on w wr q c key [].
Proof. intros Hs Hc; exists c, [], []; rewrite app_nil_r; split_and!; try done; constructor. Qed.

Lemma sent_on_app w w' wr q c key evs evs' :
  sent_on w wr q c key evs -> world_sent wr evs' w w' -> sent_on w' wr q c key (evs ++ evs').
Proof.
  intros (c1 & es1 & w1 & Hs1 & Hc1 & Hd1 & Hf1 & Ht1 & Hi1) (_ & Hse & Hf); destruct (Hf q c1 key Hs1 Hc1)
    as (c2 & w2 & es2 & Ecs & Hc2 & Hd2 & Hf2 & Ht2 & Hi2 & _).
  exists c2, (es1 ++ es2), (w1 ++ w2); split.
  { destruct Hs1 as (sess & Hs & Hz & _); exists sess; rewrite Hse, Ecs, lookup_insert_eq; by split_and!. }
  split; [done|]; split; [by apply Forall2_app|]; split.
  - apply frames_of_app; [done|]; rewrite Hi1 in Hf2; by rewrite <- (Forall2_length _ _ _ Hd1).
  - by rewrite Ht2, Ht1, app_assoc, Hi2, Hi1, length_app, counter_after_add.
Qed.

Lemma sent_on_aside w w' q0 p wr q c key evs :
  aside q0 p w w' -> q0 <> q -> sent_on w wr q c key evs -> sent_on w' wr q c key evs.
Proof.
  intros (_ & _ & Hs) Hq (c1 & es & wire & (sess & Hse & Hz & Hc) & Hrest).
  exists c1, es, wire; split; [|done]; exists sess.
  destruct Hs as [->|(c0 & ->)]; [done|]; cbn; by rewrite lookup_insert_ne.
Qed.

Lemma sent_on_accepts w wr q c key evs : sent_on w wr q c key evs -> accepts wr (ms_env (strs w)).
Proof. intros (c1 & _ & _ & Hs & Hc & _); exists q, c1, key; by split. Qed.

Lemma sending_objects w w' p wr cid i :
  sending w p wr cid i -> objects (strs w') !! p = objects (strs w) !! p -> accepts wr (ms_env (strs w')) ->
  sending w' p wr cid i.
Proof. intros (o & Ho & Hcl & Hw & _ & Hrest) Ho' Ha; exists o; rewrite Ho'; do 3 (split; [done|]); by split. Qed.

(** ** Passing on what arrives *)

(** The stream [p2] with id [j] of the next node, after [out]. *)
Definition strm_open wr (q2 : nat) c2 key2 cid2 j (p2 : nat) out w (s : bytes) : Prop :=
  sending w p2 wr cid2 j /\ exists evs, sent_on w wr q2 c2 key2 (out ++ evs) /\
    Forall (chunk_of j) evs /\ concat (payload <$> evs) = s.
Definition strm_ended wr (q2 : nat) c2 key2 j (p2 : nat) out w (s : bytes) : Prop :=
  (exists o2, objects (strs w) !! p2 = Some o2 /\ stream_closed o2 = true) /\
  exists evs, sent_on w wr q2 c2 key2 (out ++ evs ++ [make_event j StreamCloseRequest]) /\
    Forall (chunk_of j) evs /\ concat (payload <$> evs) = s.

(** What a writer leaves alone. *)
Lemma sent_keeps_source w w' q p wr q2 c2 key2 evs evs' :
  sent_on w wr q2 c2 key2 evs -> world_sent wr evs' w w' ->
  (forall o, objects (strs w) !! p = Some o ->
     exists o', objects (strs w') !! p = Some o' /\ data_channel o' = data_channel o /\ stream_closed o' = stream_closed o) ->
  source_kept q p w w'.
Proof.
  intros (c1 & es1 & wire1 & Hslot & Hcw & _) Hlog Ho; split; [|done].
  intros key v user cid input Hr; eapply reading_sent; [exact Hlog | exact Hslot | exact Hcw | exact Hr].
Qed.

Lemma strm_sink timed iobuf q p wr q2 c2 key2 cid2 j p2 out :
  p2 <> p -> q <> q2 ->
  Sink false timed iobuf q p (Strm p2) (strm_open wr q2 c2 key2 cid2 j p2 out) (strm_ended wr q2 c2 key2 j p2 out).
Proof.
  intros Hne Hq; split.
  - intros w w' s (Hs & evs & Hon & Hrest) Ha; pose proof (sent_on_aside _ _ _ _ _ _ _ _ _ Ha Hq Hon) as Hon'.
    split; [|by exists evs]; apply (sending_objects w); [done | by apply Ha | by eapply sent_on_accepts].
  - intros i ev w s (Hs & evs & Hon & Hev & <-) Hc; pose proof (chunk_payload_bytes i ev Hc) as Hby; destruct Hc as (_ & _ & Hn & _).
    destruct (write_strm false w p2 wr cid2 j (payload ev) (zlen (payload ev)) Hs Hn ltac:(done) Hby)
      as (w1 & ev' & E1 & Hs1 & Hlog & Hev' & Hpay & _ & Hg & _ & Hob).
    destruct (routine_run timed w1) as (tm & E2); exists (set_io_time (fun _ => tm) w1).
    cbn [pump_step]; unfold sbind, message; rewrite E1; cbn [Z.eqb negb]; rewrite E2; split; [done|]; split.
    + split; [exact Hs1|]; exists (evs ++ [ev']); rewrite app_assoc.
      split; [by apply (sent_on_app w)|]; split; [apply Forall_app; split; [done | by constructor]|].
      rewrite fmap_app, concat_app; cbn; by rewrite Hpay, ztake_all, app_nil_r by lia.
    + split; [exact Hg|]; eapply sent_keeps_source; [exact Hon | exact Hlog|]; intros o Ho.
      destruct (Hob p o Ho) as (o' & Ho' & [= Hd' Hc' _ _ _]); by exists o'.
  - intros w s o (Hs & evs & Hon & Hev & <-) Ho Hcl.
    destruct Hs as (o2 & Ho2 & Hcl2 & Hw2 & Ha & _ & <- & Hfit).
    destruct (writer_sends wr (make_event (stream_sid o2) StreamCloseRequest) (ms_env (strs w)) Ha)
      as (e & ev' & Hcall & Hlog & _); [by apply close_sendable|].
    destruct (Close_accepted (strs w) p2 o2 wr e ev' Ho2 Hcl2 Hw2 Hcall) as (s' & o2' & HC & He & Ho2' & Hcl2' & Ht & Hot).
    cbn [pump_step ep_read]; unfold on_strs, Read, deref; srun; rewrite Ho, Hcl; cbn -[Close].
    unfold on_strs; srun; cbn -[Close]; rewrite HC; eexists; split; [done|]; rewrite <- He in Hlog.
    split; [split; [by exists o2'|]; exists evs; rewrite app_assoc; split; [by apply (sent_on_app w) | done]|].
    eapply sent_keeps_source; [exact Hon | exact Hlog|]; intros o' Ho'; exists o'; cbn; by rewrite Hot.
Qed.

(** ** The relay *)

(** In every order both loops return and the close goes out. *)
Lemma order_forwards timed iobuf sched overtaken w q t key v user cid wire rest i p wr q2 c2 key2 cid2 j p2 out evs es :
  p2 <> p -> q <> q2 -> order (length evs) sched = Some overtaken ->
  reading w q key v user cid (wire ++ rest) -> Get cid i (strs w) = Some p -> idle w p ->
  sending w p2 wr cid2 j -> sent_on w wr q2 c2 key2 out ->
  delivery (evs ++ [make_event i StreamCloseRequest]) es -> frames_of key v es wire -> Forall (chunk_of i) evs ->
  exists w' evs' o o2,
    duplex false timed iobuf (in_order handler q t sched) (Strm p) (Strm p2) Reading Reading w = (w', Ok tt) /\
    reading w' q key (counter_after v (length es)) user cid rest /\
    sent_on w' wr q2 c2 key2 (out ++ evs' ++ [make_event j StreamCloseRequest]) /\
    Forall (chunk_of j) evs' /\ given overtaken (concat (payload <$> evs)) (concat (payload <$> evs')) /\
    objects (strs w') !! p = Some o /\ stream_closed o = true /\
    objects (strs w') !! p2 = Some o2 /\ stream_closed o2 = true.
Proof.
  intros Hne Hq Hord Hr Hget (o & Ho & Hcl & Hi) Hs Hon Hd Hfs Hev.
  destruct (order_passes handler false timed iobuf q t p (dst := Strm p2) (open := strm_open wr q2 c2 key2 cid2 j p2 out)
    (ended := strm_ended wr q2 c2 key2 j p2 out) (Sink0 := strm_sink timed iobuf q p wr q2 c2 key2 cid2 j p2 out Hne Hq)
    key user cid i (counter_after v (length es)) rest [Loop false] (length evs) sched overtaken evs w [])
    as (w1 & s' & lost & E1 & (o1 & Hr1 & Ho1 & Hcl1 & (o2 & Ho2 & Hcl2) & evs' & Hon1 & Hev1 & <-) & Heq & Hlost & Hlc); [done | done | |].
  { exists v, es, wire, o; split_and!; try done; split; [done|]; exists []; rewrite app_nil_r; by split_and!. }
  unfold in_order; rewrite E1, duplex_cons by done; erewrite sbind_ok.
  2: { cbn [pump_step ep_read]; unfold on_strs, Read, deref; srun; rewrite Ho2, Hcl2; cbn -[Close].
       unfold on_strs; srun; cbn -[Close]; by rewrite (Close_closed false p (strs w1) o1). }
  eexists _, evs', o1, o2; split; [done|]; do 3 (split; [done|]); split; [by apply (given_lost i overtaken _ _ lost) | by split_and!].
Qed.

(** The branch that opens a stream, for a client that is a stream. *)
Lemma relay_to_stream_forwards sched overtaken r ctx q t key v user cid wire rest i p f2 wr q2 c2 key2 cid2 evs es :
  let j := g_client_sid (strs (rworld r)) in
  order (length evs) sched = Some overtaken -> reading (rworld r) q key v user cid (wire ++ rest) -> Get cid i (strs (rworld r)) = Some p -> idle (rworld r) p ->
  is_bytes (LocalProxy.remote_host ctx) -> fits 16 (LocalProxy.remote_port ctx) -> fits 32 j ->
  GetRelayEventWriterFactory (LocalProxy.user ctx) (ms_env (strs (rworld r))) = Ok (Some (cid2, f2)) ->
  make_writer f2 (ms_env (strs (rworld r))) = (ms_env (strs (rworld r)), Ok (Some wr)) ->
  slot_of wr (ms_env (strs (rworld r))) q2 c2 -> can_write c2 key2 -> q <> q2 ->
  delivery (evs ++ [make_event i StreamCloseRequest]) es -> frames_of key v es wire -> Forall (chunk_of i) evs ->
  exists r' evs' o,
    relay_to_stream false io_timeout_secs get_iobuf (in_order handler q t sched) (Strm p) [] ctx r = (r', Ok tt) /\
    reading (rworld r') q key (counter_after v (length es)) user cid rest /\
    sent_on (rworld r') wr q2 c2 key2
      ([open_event j (LocalProxy.remote_host ctx) (LocalProxy.remote_port ctx) (LocalProxy.is_tcp ctx) (LocalProxy.is_tls ctx)]
       ++ evs' ++ [make_event j StreamCloseRequest]) /\
    Forall (chunk_of j) evs' /\ given overtaken (concat (payload <$> evs)) (concat (payload <$> evs')) /\
    objects (strs (rworld r')) !! p = Some o /\ stream_closed o = true.
Proof.
  intros j Hord Hr Hget Hid Hhb Hpb Hj Hf Hm Hslot Hcw Hq Hd Hfs Hev.
  destruct (relay_to_stream_set_up false io_timeout_secs get_iobuf get_iobuf_size get_iobuf_bytes
    (in_order handler q t sched) (Strm p) [] ctx r cid2 f2 (ms_env (strs (rworld r))) wr)
    as (r4 & p2 & evs0 & -> & Hs4 & Hlog4 & Hev4 & Hcat4 & _ & _ & _ & Hfr & Hg4 & Hob4);
    [done | constructor | done.. | by exists q2, c2, key2 |].
  destruct Hid as (o & Ho & Hcl & Hi); destruct (Hob4 p o Ho) as (o4 & Ho4 & [= Hd4 Hc4 _ _ _]).
  pose proof (sent_on_nil _ _ _ _ _ Hslot Hcw) as Hon; pose proof (sent_on_app _ _ _ _ _ _ _ _ Hon Hlog4) as Hon4.
  assert (evs0 = []) as -> by (destruct evs0 as [|e0 ?]; [done|]; apply Forall_cons in Hev4 as [(_ & _ & Hz & _) _];
    cbn in Hcat4; apply app_eq_nil in Hcat4 as [He0 _]; rewrite He0 in Hz; unfold zlen in Hz; cbn in Hz; lia).
  rewrite app_nil_r in Hon4.
  destruct (order_forwards (0 <? io_timeout_secs) (get_iobuf kMaxChunkSize) sched overtaken (rworld r4) q t key v user cid wire rest i p
    wr q2 c2 key2 cid2 j p2 [open_event j (LocalProxy.remote_host ctx) (LocalProxy.remote_port ctx) (LocalProxy.is_tcp ctx)
      (LocalProxy.is_tls ctx)] evs es)
    as (w5 & evs' & o5 & o2 & E5 & Hr5 & Hon5 & Hev5 & Hcat5 & Ho5 & Hcl5 & Ho2 & Hcl2);
    [congruence | done | done | eapply reading_sent; [exact Hlog4 | exact Hslot | exact Hcw | exact Hr] | by apply Hg4
    | exists o4; rewrite Hd4, Hc4; by split_and! | done..|].
  unfold with_cleanup; erewrite sbind_ok by (by apply both_ways_ok).
  erewrite sbind_ok.
  2: { apply on_world_ok; unfold on_strs; cbn [rworld]; by rewrite (Close_closed false p2 (strs w5) o2). }
  eexists _, evs', o5; split; [done|]; cbn; split; [exact Hr5|]; split; [exact Hon5 | by split_and!].
Qed.

(** A new connection object for [q] is nothing to the choice in a session without it. *)
Lemma select_loop_insert (store : gmap nat (MuxConnection L)) q c l : forall k best,
  Some q ∉ l -> select_loop (<[q := c]> store) k best l = select_loop store k best l.
Proof.
  induction l as [|[p|] l IH]; intros k best Hq; cbn [select_loop]; [done| |].
  - apply not_elem_of_cons in Hq as [Hp Hq]; rewrite lookup_insert_ne by congruence.
    destruct (store !! p); cbn [access rbind]; [|done]; destruct best as [[? b]|]; [|by apply IH].
    case_match; by apply IH.
  - apply not_elem_of_cons in Hq as [_ Hq]; by apply IH.
Qed.

Lemma make_writer_insert (m : MuxConnManager L) f sess q c wr :
  session_store m !! f = Some sess -> Some q ∉ conns sess -> make_writer f m = (m, Ok (Some wr)) ->
  make_writer f (set_conn_store (insert q c) m) = (set_conn_store (insert q c) m, Ok (Some wr)).
Proof.
  cbn; unfold session_make_writer; cbn; intros -> Hq [= Hm]; cbn [access rbind] in *; by rewrite select_loop_insert, Hm.
Qed.

Lemma make_writer_session (m m' : MuxConnManager L) f wr : make_writer f m = (m', Ok (Some wr)) -> wr.1 = f.
Proof.
  cbn; unfold session_make_writer; destruct (session_store m !! f) as [sess|]; cbn [access rbind]; [|done].
  destruct (select_loop _ _ _ _) as [[k|]| | |]; cbn [rbind]; intros [=]; by subst.
Qed.

(** The coroutine of a request to open a stream. *)
Lemma handler_forwards sched overtaken q t key v user cid ev req evs es wire rest r f e ow f2 wr q2 c2 key2 cid2 :
  let j := g_client_sid (strs (rworld r)) in
  order (length evs) sched = Some overtaken -> body ev = StreamOpenRequest req -> entry_factory user cid (ms_env (strs (rworld r))) = Some f ->
  make_writer f (ms_env (strs (rworld r))) = (e, Ok ow) -> Get cid (sid (head ev)) (strs (rworld r)) = None ->
  reading (rworld r) q key v user cid (wire ++ rest) ->
  is_bytes (PbMessages.remote_host req) -> fits 16 (PbMessages.remote_port req) -> fits 32 j ->
  GetRelayEventWriterFactory user (ms_env (strs (rworld r))) = Ok (Some (cid2, f2)) ->
  make_writer f2 (ms_env (strs (rworld r))) = (ms_env (strs (rworld r)), Ok (Some wr)) ->
  slot_of wr (ms_env (strs (rworld r))) q2 c2 -> can_write c2 key2 -> q <> q2 ->
  delivery (evs ++ [make_event (sid (head ev)) StreamCloseRequest]) es -> frames_of key v es wire ->
  Forall (chunk_of (sid (head ev))) evs ->
  exists r' evs', relay_handler false false io_timeout_secs get_iobuf now_ms (in_order handler q t sched) user cid ev r = (r', Ok tt) /\
    reading (rworld r') q key (counter_after v (length es)) user cid rest /\
    sent_on (rworld r') wr q2 c2 key2
      ([open_event j (PbMessages.remote_host req) (PbMessages.remote_port req) (PbMessages.is_tcp req) (PbMessages.is_tls req)]
       ++ evs' ++ [make_event j StreamCloseRequest]) /\
    Forall (chunk_of j) evs' /\ given overtaken (concat (payload <$> evs)) (concat (payload <$> evs')) /\
    Get cid (sid (head ev)) (strs (rworld r')) = None.
Proof.
  intros j Hord Hb Hf Hm Hget Hr Hhb Hpb Hj Hf2 Hm2 Hslot Hcw Hq Hd Hfs Hev.
  assert (e = ms_env (strs (rworld r))) as -> by (cbn in Hm; unfold session_make_writer in Hm; congruence).
  unfold relay_handler; rewrite Hb; erewrite (sbind_ok sget) by done; rewrite Hf.
  destruct (new_idle (rworld r) f cid (sid (head ev)) _ ow Hm Hget) as (w1 & p & E1 & Hid1 & Hget1 & He1 & _ & Hsid1).
  erewrite sbind_ok by (by apply on_world_ok); cbv beta iota.
  destruct (set_tls_idle w1 p (PbMessages.is_tls req) Hid1) as (w2 & E2 & Hid2 & Hg2 & He2 & _ & Hsid2).
  erewrite sbind_ok by (by apply on_world_ok); cbv beta iota zeta; unfold with_cleanup at 1; cbn [rworld net wheel].
  match goal with |- context [do_relay _ _ _ _ _ ?sc ?l ?dt ?ctx ?b] =>
    match goal with |- context [sbind _ _ ?r2] =>
      destruct (do_relay_body false false io_timeout_secs get_iobuf now_ms sc l dt ctx b r2) as (r3 & cl & E3 & Hw3 & _ & Hcl);
      destruct (relay_to_stream_forwards sched overtaken r3 ctx q t key v user cid wire rest (sid (head ev)) p f2 wr q2 c2 key2 cid2 evs es)
        as (r4 & evs' & o & E4 & Hr4 & Hon4 & Hev4 & Hcat4 & Ho & Hclo)
    end end.
  all: try (rewrite ?Hw3; cbn; rewrite ?He2, ?He1, ?Hsid2, ?Hsid1, ?wrap_small by done; done).
  { unfold reading; rewrite Hw3; cbn; by rewrite He2, He1. }
  { rewrite Hw3; unfold Get in *; cbn; by rewrite Hg2. }
  cbn [orb] in E3; unfold with_cleanup in E3; rewrite E4 in E3; rewrite (sbind_ok _ _ _ _ _ E3).
  erewrite sbind_ok.
  2: { apply on_world_ok; unfold on_strs; rewrite Hcl; by rewrite (Close_closed false p (strs (rworld r4)) o). }
  rewrite Hw3 in Hon4, Hev4; cbn in Hon4, Hev4; rewrite Hsid2, Hsid1, wrap_small in Hon4 by done; rewrite Hsid2, Hsid1 in Hev4.
  eexists _, evs'; split; [done|]; cbn; rewrite lookup_delete_eq; by split_and!.
Qed.

(** The node [r] can pass on a stream [i] of [cid] that is asked for over the connection [q]: the session
    of the client is there, the id is free, and the user has a session to the next node, without [q],
    whose writer [wr] is the connection [c2] in slot [q2]. *)
Definition forwards r (q : nat) user cid i wr (q2 : nat) c2 (key2 : bytes) : Prop :=
  let m := ms_env (strs (rworld r)) in
  relays (rworld r) q /\ manager_wf m /\ is_Some (GetEventWriterFactory user cid MUX_ENTRY_CONN m) /\
  Get cid i (strs (rworld r)) = None /\ fits 32 (g_client_sid (strs (rworld r))) /\
  (exists cid2 f2 sess, GetRelayEventWriterFactory user m = Ok (Some (cid2, f2)) /\
     session_store m !! f2 = Some sess /\ (Some q ∉ conns sess) /\ make_writer f2 m = (m, Ok (Some wr))) /\
  slot_of wr m q2 c2 /\ can_write c2 key2.

(** A middle node passes a stream on.  When the frames of a client's stream arrive on a connection, the
    request to open it, chunks and a close, the read loop spawns one relay; that relay opens one
    stream towards the next node and returns after it has put on the chosen connection, under its
    own stream id, key and counter, the frames of a stream to the same destination with the bytes that
    arrived, in every order of its coroutines, but for a last chunk that the close overtook.  The connection it read from is ready for what follows, and the client's stream
    id is free again. *)
Theorem middle_node_forwards r q t key v user cid i host port tcp tls data m wire rest wr q2 c2 key2 :
  stream_wire key v i host port tcp tls data m wire -> cstring_wf 512 host -> fits 16 port ->
  reading (rworld r) q key v user cid (wire ++ rest) -> forwards r q user cid i wr q2 c2 key2 ->
  let j := g_client_sid (strs (rworld r)) in
  exists r1 ev, on_world (read_turn handler q t) r = (r1, Ok (0, [(user, cid, ev)], t)) /\
    forall sched overtaken, order m sched = Some overtaken ->
    exists r2 c2' m' wire' data',
      relay_handler false false io_timeout_secs get_iobuf now_ms (in_order handler q t sched) user cid ev r1 = (r2, Ok tt) /\
      conn_store (ms_env (strs (rworld r2))) !! q2 = Some c2' /\ tx (io_conn c2') = tx (io_conn c2) ++ wire' /\
      given overtaken data data' /\ stream_wire key2 (encrypt_iv (cipher_ctx c2)) j host port tcp tls data' m' wire' /\
      encrypt_iv (cipher_ctx c2') = counter_behind (encrypt_iv (cipher_ctx c2)) m' /\
      reading (rworld r2) q key (counter_behind v m) user cid rest /\ Get cid i (strs (rworld r2)) = None.
Proof.
  intros (evs & es & Hd & Hfs & Hev & <- & <-) Hhost Hport Hr
    (Hrel & Hwf & (f & Hfac) & Hget & Hj & (cid2 & f2 & sess & Hf2 & Hse & Hq & Hm2) & Hslot & Hcw) j.
  pose proof (Forall2_length _ _ _ Hd) as Hlen; rewrite !length_app in Hlen.
  apply Forall2_cons_inv_l in Hd as (e1 & es1 & (n1 & Hn1 & ->) & Hd & ->).
  destruct Hfs as (w1 & w2 & -> & Hf1 & Hlen1 & Hfs); rewrite <- app_assoc in Hr.
  set (req := {| PbMessages.remote_host := host; PbMessages.remote_port := port; PbMessages.is_tcp := tcp; PbMessages.is_tls := tls |}).
  assert (body (delivered n1 (open_event i host port tcp tls)) = StreamOpenRequest req) as Hb
    by (unfold delivered, open_event; cbn -[snprintf_s]; by rewrite snprintf_s_id).
  destruct (read_turn_open handler (rworld r) q t key v user cid (delivered n1 (open_event i host port tcp tls)) w1 (w2 ++ rest) req)
    as (w' & c & E1 & Hr1 & Hs1 & _); [done..|].
  destruct (entry_writer_wf _ q c user cid f Hwf Hfac) as (ow & Hm).
  assert (is_bytes host) as Hhb by (eapply Forall_impl; [apply Hhost|]; unfold is_byte; intros ? ?; cbn in *; lia).
  assert (q <> q2) as Hqq.
  { intros ->; apply Hq; destruct Hslot as (sess' & Hse' & Hz & _); rewrite (make_writer_session _ _ _ _ Hm2) in Hse'.
    rewrite Hse in Hse'; injection Hse' as <-; unfold zget in Hz; case_match; try done; by eapply list_elem_of_lookup_2. }
  eexists _, (delivered n1 (open_event i host port tcp tls)); split; [by apply on_world_ok|]; intros sched overtaken Hord.
  destruct (handler_forwards sched overtaken q t key (wrap 64 (v + 1)) user cid (delivered n1 (open_event i host port tcp tls)) req evs es1 w2 rest
    {| rworld := w'; net := net r; wheel := wheel r |} f (ms_env (strs w')) ow f2 wr q2 c2 key2 cid2)
    as (r2 & evs' & E2 & Hr2 & (c2' & es' & wire' & Hs2 & _ & Hd2 & Hf2' & Ht2 & Hi2) & Hev2 & Hcat & Hg2);
    [..|].
  all: try (cbn; rewrite ?Hs1; done).
  { cbn [rworld]; rewrite Hs1; by apply (make_writer_insert _ f2 sess). }
  { destruct Hslot as (sess' & Hse' & Hz & Hc2); exists sess'; cbn [rworld]; rewrite Hs1; cbn; by rewrite lookup_insert_ne. }
  cbn [rworld] in Hd2, Hev2; rewrite Hs1 in Hd2, Hev2.
  exists r2, c2', (length evs'), wire', (concat (payload <$> evs')).
  split; [exact E2|]; destruct Hs2 as (_ & _ & _ & Hc2'); do 3 (split; [done|]).
  split; [by exists evs', es'|]; unfold counter_behind; split; [rewrite Hi2, !length_app; f_equal; cbn; lia|].
  rewrite counter_after_S; replace (S (length evs)) with (length es1) by (cbn in Hlen; lia); by split.
Qed.

End middle.

(** ** From the client over a middle node to the destination *)

Section chain.
Context `{Platform, !PlatformOk} `{Nanopb, !NanopbOk} `{Aead, !AeadOk} `{HashOrder}.
(** The sockets, links and channels of the entry node, the middle node and the exit node. *)
Context {N1 Ep1 C L1 Ch1 : Type} `{IOConnection C, !StreamView C, !ByteStream C, !StreamEof C} `{Network N1 Ep1 C}.
Context `{IOConnection L1} `{Clock L1} `{!StreamView L1, !ByteStream L1} `{DataChannel Ch1, !DataChannelOk Ch1, !WaitingChannel Ch1}.
Context {N2 Ep2 C2 L2 Ch2 T2 : Type} `{IOConnection C2} `{Network N2 Ep2 C2}.
Context `{IOConnection L2} `{Clock L2} `{!StreamView L2, !ByteStream L2} `{DataChannel Ch2, !DataChannelOk Ch2}.
Context {N3 Ep3 K L3 Ch3 T3 : Type} `{IOConnection K, !StreamView K, !ByteStream K, !ClosedEnds K} `{Network N3 Ep3 K}.
Context `{IOConnection L3} `{Clock L3} `{!StreamView L3, !ByteStream L3} `{DataChannel Ch3, !DataChannelOk Ch3}.
Variables (handler2 : bytes -> Z -> MuxEvent -> st T2 (option MuxEvent)) (handler3 : bytes -> Z -> MuxEvent -> st T3 (option MuxEvent)).
Variables (secs1 secs2 secs3 now1 now2 now3 : Z) (iobuf1 iobuf2 iobuf3 : Z -> bytes).
Hypothesis iobuf1_size : forall n, n <= zlen (iobuf1 n).
Hypothesis iobuf1_bytes : forall n, is_bytes (iobuf1 n).
Hypothesis iobuf2_size : forall n, n <= zlen (iobuf2 n).
Hypothesis iobuf2_bytes : forall n, is_bytes (iobuf2 n).
Hypothesis iobuf3_size : forall n, n <= zlen (iobuf3 n).

(** C4. The bytes of a client cross a middle node.  The entry node relays the client, for which nothing comes back
    meanwhile, and returns; the middle node reads the frames of its connection and puts frames of its own on
    the connection to the exit node, which reads those, although the three nodes use two keys and two
    stream ids.  In every order of the coroutines of the three nodes in which none has to wait, the middle node
    passes on what the client sent, in order, except for a last chunk that the close overtook there, and
    the destination, which is quiet, is given what the middle node passed on, except for a last chunk that
    the close overtook at the exit node; it is closed, and the relays return. *)
Theorem bytes_cross_middle_node sched1 (r : Relay N1 C (MuxConnManager L1) nat (nat * Z) Ch1) k c data ctx cid f wr q l key :
  socks (rworld r) !! k = Some c -> live c -> is_bytes (rx c) -> zlen data <= kMaxChunkSize -> is_bytes data ->
  cstring_wf 512 (LocalProxy.remote_host ctx) -> fits 16 (LocalProxy.remote_port ctx) ->
  fits 32 (g_client_sid (strs (rworld r))) ->
  GetRelayEventWriterFactory (LocalProxy.user ctx) (ms_env (strs (rworld r))) = Ok (Some (cid, f)) ->
  make_writer f (ms_env (strs (rworld r))) = (ms_env (strs (rworld r)), Ok (Some wr)) ->
  slot_of wr (ms_env (strs (rworld r))) q l -> can_write l key ->
  let run := do_relay true false secs1 iobuf1 now1 (Loop <$> sched1) (Sock k) data ctx false r in
  sched1 = alone (2 * length (rx c) + 1) \/ run.2 <> Hang ->
  exists r' l' wire1 m1, run = (r', Ok tt) /\
    conn_store (ms_env (strs (rworld r'))) !! q = Some l' /\ tx (io_conn l') = tx (io_conn l) ++ wire1 /\
    forall (y : Relay N2 C2 (MuxConnManager L2) nat (nat * Z) Ch2) qy ty user2 cid2 rest2 wr2 q2 l2 key2,
      forwards y qy user2 cid2 (g_client_sid (strs (rworld r))) wr2 q2 l2 key2 ->
      reading (rworld y) qy key (encrypt_iv (cipher_ctx l)) user2 cid2 (wire1 ++ rest2) ->
      exists y1 ev2, on_world (read_turn handler2 qy ty) y = (y1, Ok (0, [(user2, cid2, ev2)], ty)) /\
        forall sched2 overtaken2, order m1 sched2 = Some overtaken2 ->
        exists y2 l2' wire2 m2 data2,
          relay_handler false false secs2 iobuf2 now2 (in_order handler2 qy ty sched2) user2 cid2 ev2 y1 = (y2, Ok tt) /\
          conn_store (ms_env (strs (rworld y2))) !! q2 = Some l2' /\ tx (io_conn l2') = tx (io_conn l2) ++ wire2 /\
          given overtaken2 (data ++ rx c) data2 /\
          forall (x : Relay N3 K (MuxConnManager L3) nat (nat * Z) Ch3) qx tx3 user3 cid3 rest3 d,
            serves x qx user3 cid3 (g_client_sid (strs (rworld y))) (LocalProxy.remote_host ctx) (LocalProxy.remote_port ctx)
              (LocalProxy.is_tcp ctx) d ->
            reading (rworld x) qx key2 (encrypt_iv (cipher_ctx l2)) user3 cid3 (wire2 ++ rest3) ->
            exists x1 ev3, on_world (read_turn handler3 qx tx3) x = (x1, Ok (0, [(user3, cid3, ev3)], tx3)) /\
              forall sched3 overtaken3, order m2 sched3 = Some overtaken3 ->
              exists x2 kd d',
                relay_handler false true secs3 iobuf3 now3 (in_order handler3 qx tx3 sched3) user3 cid3 ev3 x1 = (x2, Ok tt) /\
                socks (rworld x2) !! kd = Some (IoClose d') /\ given overtaken3 (tx d ++ data2) (tx d').
Proof.
  intros Hk Hl Hrb Hd Hdb Hhost Hport Hsid Hf Hm Hslot Hcw run Hsched.
  destruct (relay_sends_stream secs1 now1 iobuf1 iobuf1_size iobuf1_bytes sched1 r k c data ctx cid f wr q l key)
    as (r' & c' & l' & wire1 & m1 & E & _ & _ & Ecs & Htx & Hw & _); [done..|].
  exists r', l', wire1, m1; split; [done|]; split; [rewrite Ecs; apply lookup_insert_eq|]; split; [done|].
  intros y qy ty user2 cid2 rest2 wr2 q2 l2 key2 Hfw Hry.
  destruct (middle_node_forwards handler2 secs2 iobuf2 now2 iobuf2_size iobuf2_bytes y qy ty key _ user2 cid2 _ _ _ _ _ _ m1 wire1 rest2
    wr2 q2 l2 key2 Hw Hhost Hport Hry Hfw) as (y1 & ev2 & Ey1 & Hy).
  exists y1, ev2; split; [done|]; intros sched2 overtaken2 Hord2.
  destruct (Hy sched2 overtaken2 Hord2) as (y2 & l2' & m2 & wire2 & data2 & Ey2 & Hq2 & Htx2 & Hgiven & Hw2 & _).
  exists y2, l2', wire2, m2, data2; do 4 (split; [done|]); intros x qx tx3 user3 cid3 rest3 d Hs Hrx.
  destruct (stream_wire_served handler3 secs3 now3 iobuf3 iobuf3_size x qx tx3 key2 _ user3 cid3 _ _ _ _ _ _ m2 wire2 rest3 d
    Hw2 Hhost Hport Hs Hrx) as (x1 & ev3 & Ex1 & Hx).
  exists x1, ev3; split; [done|]; intros sched3 overtaken3 Hord3.
  destruct (Hx sched3 overtaken3 Hord3) as (x2 & kd & d' & Ex2 & Hkd & Htxd & _); exists x2, kd, d'; by split_and!.
Qed.

End chain.

(** ** Witnesses *)

Module MiddleDemo.
Export PassageDemo.

Definition chunk9 : MuxEvent := make_event 9 (StreamChunk (Some (bs "hello")) 5).
Definition stream_events : list MuxEvent :=
  [Relay.open_event 9 (bs "site") 80 true false] ++ [chunk9] ++ [make_event 9 StreamCloseRequest].

Lemma chunk9_ok : chunk_of 9 chunk9.
Proof.
  split; [done|]; split; [done|]; split; [done|]; split; [|done].
  repeat split; try done; try (by vm_compute); apply (is_bytes_bs "hello").
Qed.

Lemma stream_events_sendable : Forall sendable stream_events.
Proof.
  repeat constructor; try apply chunk9_ok; try (by apply close_sendable).
  all: apply (open_event_sendable 9 (bs "site") 80 true false); [done | apply (is_bytes_bs "site") | done].
Qed.

(** The client's connection 0, on which [wire] arrives, and the connection 1 to the next node. *)
Definition middle_manager (wire : bytes) : MuxConnManager pipe := {|
  mux_conns := {[ alice := {| entry_sessions := {[ 42 := 0%nat ]}; exit_sessions := {[ 7 := 1%nat ]} |} ]};
  session_store := {[ 0%nat := {| conns := [Some 0%nat]; tunnel_servers := [] |};
                      1%nat := {| conns := [Some 1%nat]; tunnel_servers := [] |} ]};
  conn_store := {[ 0%nat := alice_link wire; 1%nat := link ]} |}.
Definition middle_world (wire : bytes) : Relay unit sock _ _ _ _ := node (middle_manager wire) ∅.

Lemma middle_manager_wf wire : manager_wf (middle_manager wire).
Proof.
  split.
  - intros user u ty cid sp Hu Hc; cbn in Hu; apply lookup_singleton_Some in Hu as [<- <-].
    destruct ty; cbn in Hc; apply lookup_singleton_Some in Hc as [<- <-]; by eexists.
  - intros sp s p Hs Hp; cbn in Hs.
    apply lookup_insert_Some in Hs as [[<- <-]|[_ [<- <-]%lookup_singleton_Some]]; cbn in Hp;
      apply list_elem_of_singleton in Hp as [= ->]; by eexists.
Qed.

Lemma middle_reading wire : reading (rworld (middle_world wire)) 0 key (encrypt_iv ctx) alice 42 (wire ++ []).
Proof. destruct (alice_reading (C := sock) wire ∅) as (c & [= <-] & Hrest); by exists (alice_link wire). Qed.

Lemma middle_forwards wire i : Get 42 i (strs (rworld (middle_world wire))) = None ->
  forwards (middle_world wire) 0 alice 42 i (1%nat, 0) 1%nat link key.
Proof.
  intros Hg; split; [by exists (alice_link wire)|]; split; [apply middle_manager_wf|]; split; [by exists 0%nat|].
  split; [done|]; split; [by split|]; split.
  - exists 7, 1%nat, {| conns := [Some 1%nat]; tunnel_servers := [] |}; split; [by vm_compute|]; split; [done|].
    split; [by apply (bool_decide_unpack _) | by vm_compute].
  - split; [by exists {| conns := [Some 1%nat]; tunnel_servers := [] |}|].
    split; [apply conn_on_wf|]; split; [reflexivity|]; split; [constructor | by split].
Qed.

End MiddleDemo.

Section witnesses.
Import MiddleDemo.

Lemma middle_node_forwards_witness :
  exists wire r1 ev r2 m' wire',
    on_world (read_turn DispatchDemo.no_tunnels 0 tt) (middle_world wire) = (r1, Ok (0, [(alice, 42, ev)], tt)) /\
    relay_handler false false 60 bufs 6000 (in_order DispatchDemo.no_tunnels 0 tt (in_step 1)) alice 42 ev r1 = (r2, Ok tt) /\
    stream_wire key (encrypt_iv ctx) 9 (bs "site") 80 true false (bs "hello") m' wire'.
Proof.
  destruct (WriteEvents_frames stream_events link key) as (_ & wire & es & _ & _ & Hd & Hf & _).
  { apply conn_on_wf. }
  { reflexivity. }
  { constructor. }
  { by split. }
  { exact stream_events_sendable. }
  exists wire.
  destruct (middle_node_forwards DispatchDemo.no_tunnels 60 bufs 6000 bufs_size bufs_bytes (middle_world wire) 0 tt key (encrypt_iv ctx)
    alice 42 9 (bs "site") 80 true false (bs "hello") 1 wire [] (1%nat, 0) 1%nat link key)
    as (r1 & ev & E1 & Hs).
  - exists [chunk9], es; exact (conj Hd (conj Hf (conj (Forall_cons_2 _ _ _ chunk9_ok (Forall_nil_2 _)) (conj eq_refl eq_refl)))).
  - apply (bool_decide_unpack _); by vm_compute.
  - by split.
  - apply middle_reading.
  - by apply middle_forwards.
  - destruct (Hs (in_step 1) false eq_refl) as (r2 & c2' & m' & wire' & data' & E2 & _ & _ & (miss & Hd' & _ & Hm) & Hw & _).
    rewrite (Hm eq_refl), app_nil_r in Hd'; rewrite <- Hd' in Hw; exists r1, ev, r2, m', wire'; exact (conj E1 (conj E2 Hw)).
Defined.

Lemma bytes_cross_middle_node_witness :
  exists r' m1 wire1 y1 ev2 y2 m2 wire2 x1 ev3 x2 kd d',
    do_relay true false 120 bufs 5000 (Loop <$> alone 11) (Sock 0) (bs "GET ") ctx0 false entry_world = (r', Ok tt) /\
    on_world (read_turn DispatchDemo.no_tunnels 0 tt) (middle_world wire1) = (y1, Ok (0, [(alice, 42, ev2)], tt)) /\
    relay_handler false false 60 bufs 6000 (in_order DispatchDemo.no_tunnels 0 tt (in_step m1)) alice 42 ev2 y1 = (y2, Ok tt) /\
    on_world (read_turn DispatchDemo.no_tunnels 0 tt) (exit_world wire2) = (x1, Ok (0, [(alice, 42, ev3)], tt)) /\
    relay_handler false true 60 bufs 6000 (in_order DispatchDemo.no_tunnels 0 tt (in_step m2)) alice 42 ev3 x1 = (x2, Ok tt) /\
    socks (rworld x2) !! kd = Some (IoClose d') /\ tx d' = bs "GET hello".
Proof.
  destruct (bytes_cross_middle_node (C2 := sock) DispatchDemo.no_tunnels DispatchDemo.no_tunnels 120 60 60 5000 6000 6000 bufs bufs bufs
    bufs_size bufs_bytes bufs_size bufs_bytes bufs_size (alone 11) entry_world 0 TransferDemo.client (bs "GET ") ctx0 42 0%nat (0%nat, 0) 0%nat
    (alice_link []) key) as (r' & l' & wire1 & m1 & E1 & _ & _ & Hy).
  - reflexivity.
  - repeat constructor; done.
  - exact (is_bytes_bs "hello").
  - done.
  - exact (is_bytes_bs "GET ").
  - apply (bool_decide_unpack _); by vm_compute.
  - by split.
  - by split.
  - by vm_compute.
  - by vm_compute.
  - apply alice_slot.
  - apply alice_can_write.
  - left; reflexivity.
  - destruct (Hy (middle_world wire1) 0%nat tt alice 42 [] (1%nat, 0) 1%nat link key (middle_forwards wire1 _ eq_refl) (middle_reading wire1))
      as (y1 & ev2 & Ey1 & Hy2).
    destruct (Hy2 (in_step m1) false (order_in_step m1)) as (y2 & l2' & wire2 & m2 & data2 & Ey2 & _ & _ & (miss2 & Hd2 & _ & Hm2) & Hx).
    destruct (Hx (exit_world wire2) 0%nat tt alice 42 [] destination (exit_serves wire2 _) (alice_reading wire2 ∅)) as (x1 & ev3 & Ex1 & Hx2).
    destruct (Hx2 (in_step m2) false (order_in_step m2)) as (x2 & kd & d' & Ex2 & Hk & miss3 & Hd3 & _ & Hm3).
    rewrite (Hm2 eq_refl), app_nil_r in Hd2; rewrite (Hm3 eq_refl), app_nil_r, <- Hd2 in Hd3.
    exists r', m1, wire1, y1, ev2, y2, m2, wire2, x1, ev3, x2, kd, d'.
    exact (conj E1 (conj Ey1 (conj Ey2 (conj Ex1 (conj Ex2 (conj Hk (eq_sym Hd3))))))).
Defined.

End witnesses.
