(* ===== verification/Interleaving.v ===== *)
(** * Every order of the read loop and the copy loop

    The read loop of a connection (src/snova/mux/mux_connection.cc) puts the chunks of a stream into the
    channel of the stream, and the copy loop of its relay (src/snova/io/transfer.cc) takes them out.
    Both are coroutines of one thread: they run in any order, except that a send into a full channel and
    a receive from an empty one wait.  This file considers every such order. *)

From S2P Require Import Prelude Endian IoBuf TimeWheel Text HttpHelper Sni NetHelper LocalProxy Connect.
From S2P Require Import PbMessages MuxEvent CipherContext Io AsyncMutex MuxConnection MuxStream MuxConnManager MuxDispatch Transfer Relay EndToEnd Arrival Passage.

Section interleaving.
Context `{Platform, !PlatformOk} `{Nanopb, !NanopbOk} `{Aead, !AeadOk}.
Context {K L Ch T : Type} `{IOConnection K, !StreamView K, !ByteStream K, !ClosedEnds K}.
Context `{IOConnection L} `{Clock L} `{!StreamView L, !ByteStream L}.
Context `{DataChannel Ch, !DataChannelOk Ch, !WaitingChannel Ch}.
Variable handler : bytes -> Z -> MuxEvent -> st T (option MuxEvent).
Variables (entry timed : bool) (iobuf : bytes).
Variables (q : nat) (t : T) (p k : nat).
Abbreviation W := (World K (MuxConnManager L) nat (nat * Z) Ch).
Implicit Types (w : W) (d : K) (ps : pump).

(** ** Turns *)

(** One turn of the read loop ([true]) or of the copy loop ([false]); [Hang] when it has to wait. *)
Definition node_turn (reads : bool) (x : W * pump) : res (W * pump) :=
  let '(w, ps) := x in
  if reads then let '(w', r) := read_turn handler q t w in do _ <- r; Ok (w', ps)
  else match ps with
       | Finished => Hang
       | _ => let '(w', r) := pump_step entry timed iobuf (Strm p) (Sock k) ps w in do ps' <- r; Ok (w', ps')
       end.

(** A sequence of turns, none of which has to wait. *)
Fixpoint node_run (sched : list bool) (x : W * pump) : res (W * pump) :=
  match sched with
  | [] => Ok x
  | b :: sched => do x <- node_turn b x; node_run sched x
  end.

Lemma node_run_app s1 s2 : forall x, node_run (s1 ++ s2) x = (do y <- node_run s1 x; node_run s2 y).
Proof. induction s1 as [|b s1 IH]; intros x; [done|]; cbn; destruct (node_turn b x); cbn; auto. Qed.

(** *** What a turn does *)

(** A chunk for a stream whose channel is full: the read loop waits. *)
Lemma turn_full w key v user cid e f rest o chunk n x l ps :
  reading w q key v user cid (f ++ rest) -> frame_of key v e f -> len (head e) <= kMaxChunkSize + 128 ->
  type (head e) = EVENT_STREAM_CHUNK -> body e = StreamChunk chunk n ->
  Get cid (sid (head e)) (strs w) = Some p -> objects (strs w) !! p = Some o -> stream_closed o = false ->
  chan_items (data_channel o) = Some (x :: l) -> node_turn true (w, ps) = Hang.
Proof.
  intros Hr Hf Hlen Hty Hb Hget Ho Hcl Hi; unfold node_turn.
  destruct (read_turn_frame handler w q t key v user cid e f rest Hr Hf Hlen) as (c & _ & _ & Hcid & _ & ->).
  destruct (chan_send_full (chunk, n) _ _ _ Hi) as (ch & Hs).
  unfold dispatch_event; rewrite Hty; cbn -[on_stream_chunk]; unfold on_stream_chunk; srun.
  cbn [d_conn d_streams]; rewrite Hcid, Hget, Hb; unfold d_state, d_on_streams; srun.
  cbn [d_conn d_streams set_d_conn]; unfold Offer, deref; srun; rewrite Ho, Hcl.
  by rewrite (on_channel_spec (strs w) p o _ ch Hang Ho Hs).
Qed.

(** ** The invariant

    The client's stream [i] carries the chunks [evs] and then a close, [key] being the key of the
    connection. *)
Section invariant.
Variables (key user : bytes) (cid i : Z) (total rest : bytes).

Variable base : bytes.
Abbreviation passing_to := (Arrival.passing (open := sock_open base k) q p key user cid i).
Abbreviation closing_to := (Arrival.closing (open := sock_open base k) q p key user cid).
Abbreviation returned_to := (Arrival.returned (ended := sock_ended base k) q p key user cid).

(** What the copy loop holds is a chunk. *)
Definition holds_chunk ps : Prop := match ps with Writing m => exists ev, chunk_of i ev /\ m = message ev | _ => True end.

(** The stream is open.  [evs] are the chunks that are still to come, [waiting] is the one in the channel:
    what the destination was given, what the copy loop holds, what waits and what is to come make up
    [total]. *)
Definition passing (evs waiting : list MuxEvent) (x : W * pump) : Prop :=
  let '(w, ps) := x in exists vend s, passing_to vend rest evs waiting s w /\ (length waiting <= 1)%nat /\
    ps <> Finished /\ holds_chunk ps /\
    base ++ s ++ inflight ps ++ concat (payload <$> waiting) ++ concat (payload <$> evs) = total.

(** The close has arrived, and [lost] was in the channel. *)
Definition closing (lost : list MuxEvent) (x : W * pump) : Prop :=
  let '(w, ps) := x in exists vend s,
    (if decide (ps = Finished) then returned_to vend rest s w else closing_to vend rest s w) /\
    holds_chunk ps /\ base ++ s ++ inflight ps ++ concat (payload <$> lost) = total.

(** How many turns can follow. *)
Definition pump_turns ps : nat := match ps with Reading => 1 | Writing _ => 2 | Finished => 0 end.
Definition turns_left (evs waiting : list MuxEvent) ps : nat := 3 * length evs + 2 * length waiting + pump_turns ps + 1.

(** A turn of the copy loop while the stream is open. *)
Lemma passing_copy evs waiting w ps : passing evs waiting (w, ps) ->
  match ps, waiting with
  | Reading, [] => node_turn false (w, ps) = Hang
  | Reading, ev :: _ => exists w', node_turn false (w, ps) = Ok (w', Writing (message ev)) /\ passing evs [] (w', Writing (message ev))
  | _, _ => exists w', node_turn false (w, ps) = Ok (w', Reading) /\ passing evs waiting (w', Reading)
  end.
Proof.
  intros (vend & s & Hp & Hlen & Hne & Hh & Ht); destruct ps as [|m|]; [| |done].
  - destruct waiting as [|ev [|]]; [| | cbn in Hlen; lia].
    + destruct Hp as (_ & _ & _ & o & _ & _ & _ & _ & _ & _ & _ & Ho & Hcl & Hi & _).
      destruct (idle_stream_waits entry timed iobuf w p k) as (w' & E); [by exists o|]; unfold node_turn; by rewrite E.
    + assert (chunk_of i ev) as Hev by (destruct Hp as (_ & _ & _ & _ & _ & _ & _ & _ & _ & Hw & _); by apply Forall_cons in Hw as [? _]).
      destruct (passing_take entry timed iobuf q p key user cid i vend rest evs ev s w Hp) as (w' & E & Hp').
      exists w'; unfold node_turn; rewrite E; split; [done|]; exists vend, s; split; [done|]; split; [cbn; lia|].
      split; [done|]; split; [by exists ev|]; rewrite message_bytes; cbn in Ht |- *; by rewrite app_nil_r in Ht.
  - destruct Hh as (ev & Hev & ->).
    destruct (passing_give entry timed iobuf q p key user cid i vend rest evs waiting ev s w Hp Hev) as (w' & E & Hp').
    exists w'; unfold node_turn; rewrite E; split; [done|]; exists vend, (s ++ payload ev); split_and!; try done.
    rewrite message_bytes in Ht; by rewrite <- app_assoc.
Qed.

(** A turn of the read loop while the stream is open: the next chunk goes into the channel, if that is
    empty, or the close arrives. *)
Lemma passing_read evs waiting w ps : passing evs waiting (w, ps) ->
  match evs, waiting with
  | [], _ => exists w', node_turn true (w, ps) = Ok (w', ps) /\ closing waiting (w', ps)
  | ev :: evs', [] => exists w', node_turn true (w, ps) = Ok (w', ps) /\ passing evs' [ev] (w', ps)
  | _, _ => node_turn true (w, ps) = Hang
  end.
Proof.
  intros (vend & s & Hp & Hlen & Hne & Hh & Ht); destruct evs as [|ev evs].
  - destruct (passing_close handler entry timed iobuf q t p key user cid i vend rest waiting s w Hp) as (w' & E & Hp').
    exists w'; unfold node_turn; rewrite E; split; [done|]; exists vend, s; rewrite decide_False by done.
    cbn in Ht; rewrite app_nil_r in Ht; by split_and!.
  - destruct waiting as [|ev0 waiting].
    + destruct (passing_chunk handler entry timed iobuf q t p key user cid i vend rest evs ev s w Hp) as (w' & E & Hp').
      exists w'; unfold node_turn; rewrite E; split; [done|]; exists vend, s; cbn in Ht |- *; rewrite app_nil_r; by split_and!.
    + destruct Hp as (v & es & wire & o & Hr & Hd & Hf & _ & Hev & _ & Hget & Ho & Hcl & Hi & _).
      apply Forall2_cons_inv_l in Hd as (e' & es' & (n & Hn & ->) & Hd & ->); apply Forall_cons in Hev as [Hev Hevs].
      destruct Hf as (f & wire' & -> & Hf & Hl1 & Hfs); rewrite <- app_assoc in Hr.
      destruct (delivered_chunk i ev n Hev Hn) as (Hsid & Hty & Hb).
      by apply (turn_full w key v user cid (delivered n ev) f (wire' ++ rest) o (Some (payload ev)) (zlen (payload ev))
        (message ev0) (message <$> waiting) ps); rewrite ?Hsid.
Qed.

(** A turn of the copy loop after the close. *)
Lemma closing_copy lost w ps : closing lost (w, ps) ->
  match ps with
  | Finished => node_turn false (w, ps) = Hang
  | Reading => exists w', node_turn false (w, ps) = Ok (w', Finished) /\ closing lost (w', Finished)
  | Writing _ => exists w', node_turn false (w, ps) = Ok (w', Reading) /\ closing lost (w', Reading)
  end.
Proof.
  intros (vend & s & Hc & Hh & Ht); destruct ps as [|m|]; [| |done]; rewrite decide_False in Hc by done.
  - destruct (closing_end entry timed iobuf q p key user cid vend rest s w Hc) as (w' & E & Hc').
    exists w'; unfold node_turn; rewrite E; split; [done|]; exists vend, s; by rewrite decide_True.
  - destruct Hh as (ev & Hev & ->).
    destruct (closing_give entry timed iobuf q p key user cid i vend rest ev s w Hc Hev) as (w' & E & Hc').
    exists w'; unfold node_turn; rewrite E; split; [done|]; exists vend, (s ++ payload ev); rewrite decide_False by done.
    rewrite message_bytes in Ht; by rewrite <- app_assoc.
Qed.

(** What the destination was given. *)
Lemma passing_prefix evs waiting w ps : passing evs waiting (w, ps) ->
  exists d, socks w !! k = Some d /\ tx d ++ inflight ps ++ concat (payload <$> waiting) ++ concat (payload <$> evs) = total.
Proof.
  intros (vend & s & (_ & _ & _ & _ & _ & _ & _ & _ & _ & _ & _ & _ & _ & _ & d & Hk & _ & Htx) & _ & _ & _ & Ht).
  exists d; rewrite Htx, <- app_assoc; by split.
Qed.

Lemma closing_prefix lost w ps : closing lost (w, ps) ->
  exists d, socks w !! k = Some d /\ tx d ++ inflight ps ++ concat (payload <$> lost) = total.
Proof.
  intros (vend & s & Hc & _ & Ht); case_decide as Hps.
  - destruct Hc as (_ & _ & _ & _ & d & Hk & Htx); exists (IoClose d); rewrite closed_tx, Htx, <- app_assoc; by split.
  - destruct Hc as (_ & _ & _ & _ & d & Hk & _ & Htx); exists d; rewrite Htx, <- app_assoc; by split.
Qed.

(** ** Runs *)

Lemma node_run_cons b sched x y : node_run (b :: sched) x = Ok y ->
  exists x1, node_turn b x = Ok x1 /\ node_run sched x1 = Ok y.
Proof. cbn [node_run]; destruct (node_turn b x) as [x1| | |]; cbn; try done; eauto. Qed.

Lemma reads_true sched : turns true (true :: sched) = S (turns true sched).
Proof. by rewrite turns_cons, decide_True. Qed.
Lemma reads_false sched : turns true (false :: sched) = turns true sched.
Proof. by rewrite turns_cons, decide_False. Qed.

Lemma run_closing sched : forall lost x y,
  closing lost x -> node_run sched x = Ok y -> turns true sched = 0%nat ->
  closing lost y /\ (length sched + pump_turns y.2 <= pump_turns x.2)%nat.
Proof.
  induction sched as [|b sched IH]; intros lost [w ps] y Hx E Hn; [by injection E as <-|].
  destruct b; [rewrite reads_true in Hn; lia | rewrite reads_false in Hn]; apply node_run_cons in E as (x1 & E1 & E).
  pose proof (closing_copy lost w ps Hx) as Hc; destruct ps as [|m|]; [| |congruence];
    destruct Hc as (w' & E' & Hx'); rewrite E' in E1; injection E1 as <-;
    destruct (IH lost _ y Hx' E Hn) as [Hy Hle]; split; try done; cbn in *; lia.
Qed.

(** Where a run can have got, and in how many turns. *)
Definition run_from (evs waiting : list MuxEvent) (sched : list bool) (x y : W * pump) : Prop :=
  (exists pre waiting' evs', passing evs' waiting' y /\ waiting ++ evs = pre ++ waiting' ++ evs' /\
     (turns true sched + length evs' = length evs)%nat /\
     (length sched + turns_left evs' waiting' y.2 <= turns_left evs waiting x.2)%nat) \/
  (exists pre lost, closing lost y /\ waiting ++ evs = pre ++ lost /\ (length lost <= 1)%nat /\
     turns true sched = S (length evs) /\ (length sched + pump_turns y.2 <= turns_left evs waiting x.2)%nat).

Lemma run_from_step b sched evs waiting evs1 waiting1 x x1 y pre :
  run_from evs1 waiting1 sched x1 y -> waiting ++ evs = pre ++ waiting1 ++ evs1 ->
  (turns true [b] + length evs1 = length evs)%nat ->
  (S (turns_left evs1 waiting1 x1.2) <= turns_left evs waiting x.2)%nat ->
  run_from evs waiting (b :: sched) x y.
Proof.
  intros Hr Hpre Hb Hlt; unfold run_from; cbn [length].
  assert (turns true (b :: sched) = turns true [b] + turns true sched)%nat as -> by (rewrite !turns_cons; unfold turns; cbn; lia).
  destruct Hr as [(pre' & w' & evs' & Hy & Heq & Hn & Hl)|(pre' & lost & Hy & Heq & Hlen & Hn & Hl)]; [left|right].
  - exists (pre ++ pre'), w', evs'; rewrite Hpre, Heq, app_assoc; split_and!; try done; lia.
  - exists (pre ++ pre'), lost; rewrite Hpre, Heq, app_assoc; split_and!; try done; lia.
Qed.

Lemma run_passing sched : forall evs waiting x y,
  passing evs waiting x -> node_run sched x = Ok y -> (turns true sched <= S (length evs))%nat ->
  run_from evs waiting sched x y.
Proof.
  induction sched as [|b sched IH]; intros evs waiting [w ps] y Hx E Hn.
  { injection E as <-; left; by exists [], waiting, evs. }
  apply node_run_cons in E as (x1 & E1 & E); destruct b.
  - pose proof (passing_read evs waiting w ps Hx) as Hc; destruct evs as [|ev evs].
    + destruct Hc as (w' & E' & Hx'); rewrite E' in E1; injection E1 as <-; rewrite reads_true in Hn; cbn in Hn.
      destruct (run_closing sched waiting (w', ps) y Hx' E ltac:(lia)) as [Hy Hle].
      destruct Hx as (_ & _ & _ & Hlen & _).
      right; exists [], waiting; rewrite app_nil_r, reads_true; unfold turns_left; cbn in *; split_and!; try done; lia.
    + destruct waiting as [|ev0 waiting]; [|congruence]; destruct Hc as (w' & E' & Hx'); rewrite E' in E1; injection E1 as <-.
      rewrite reads_true in Hn; cbn in Hn.
      eapply (run_from_step true sched (ev :: evs) [] evs [ev] (w, ps) (w', ps) y []); [|done|done|unfold turns_left; cbn; lia].
      apply IH; [done | done | lia].
  - rewrite reads_false in Hn; pose proof (passing_copy evs waiting w ps Hx) as Hc.
    destruct ps as [|m|].
    + destruct waiting as [|ev waiting]; [congruence|]; destruct Hc as (w' & E' & Hx'); rewrite E' in E1; injection E1 as <-.
      assert (waiting = []) as -> by (destruct Hx as (_ & _ & _ & Hlen & _); destruct waiting; [done|cbn in Hlen; lia]).
      eapply (run_from_step false sched evs [ev] evs [] (w, Reading) (w', Writing (message ev)) y [ev]);
        [by apply IH | done | done | unfold turns_left; cbn; lia].
    + destruct Hc as (w' & E' & Hx'); rewrite E' in E1; injection E1 as <-.
      eapply (run_from_step false sched evs waiting evs waiting (w, Writing m) (w', Reading) y []);
        [by apply IH | done | done | unfold turns_left; cbn; lia].
    + done.
Qed.

(** Some turn is possible until the copy loop has returned. *)
Lemma passing_enabled evs waiting x : passing evs waiting x -> exists b y, node_turn b x = Ok y.
Proof.
  destruct x as [w ps]; intros Hx; pose proof (passing_read _ _ _ _ Hx) as Hr; pose proof (passing_copy _ _ _ _ Hx) as Hc.
  destruct ps as [|m|]; [|destruct Hc as (w' & E & _); eauto..].
  destruct waiting as [|ev waiting]; [exists true | exists false]; [|destruct Hc as (w' & E & _); eauto].
  destruct evs; destruct Hr as (w' & E & _); eauto.
Qed.

Lemma closing_enabled lost x : closing lost x -> x.2 <> Finished -> exists y, node_turn false x = Ok y.
Proof.
  destruct x as [w ps]; intros Hx Hne; pose proof (closing_copy _ _ _ Hx) as Hc.
  destruct ps; [destruct Hc as (w' & E & _); eauto.. | done].
Qed.

End invariant.

(** ** Theorems *)

(** A stream whose chunks [evs] and close are to come. *)
Definition stream_arrives w d key user cid i evs rest : Prop :=
  exists v es wire, reading w q key v user cid (wire ++ rest) /\ delivery (evs ++ [make_event i StreamCloseRequest]) es /\
    frames_of key v es wire /\ Forall (chunk_of i) evs /\ Get cid i (strs w) = Some p /\ idle w p /\
    socks w !! k = Some d /\ live d.

Lemma stream_arrives_passing w d key user cid i evs rest : stream_arrives w d key user cid i evs rest ->
  passing key user cid i (tx d ++ concat (payload <$> evs)) rest (tx d) evs [] (w, Reading).
Proof.
  intros (v & es & wire & Hr & Hd & Hf & Hev & Hget & (o & Ho & Hcl & Hi) & Hk & Hl).
  exists (counter_after v (length es)), []; split; [|split; [cbn; lia | done]].
  exists v, es, wire, o; split_and!; try done; exists d; by rewrite app_nil_r.
Qed.

(** C3. Every order of the turns of the read loop and of the copy loop, however often either has to wait for
    the other: what the destination was given is at every point a prefix of what the client sent; no
    order has more than [3 n + 2] turns for [n] chunks, and until the copy loop has returned some turn is
    possible; when it has returned, at most the last chunk is missing, and only if it was still in the
    channel when the close arrived. *)
Theorem every_order_delivers_prefix w d key user cid i evs rest sched w' ps :
  stream_arrives w d key user cid i evs rest ->
  node_run sched (w, Reading) = Ok (w', ps) -> (turns true sched <= S (length evs))%nat ->
  (length sched <= 3 * length evs + 2)%nat /\
  (ps = Finished \/ exists b y, node_turn b (w', ps) = Ok y /\ (b = true -> turns true sched <= length evs)%nat) /\
  exists d', socks w' !! k = Some d' /\ tx d' `prefix_of` tx d ++ concat (payload <$> evs) /\
    (ps = Finished -> exists lost, lost `suffix_of` evs /\ (length lost <= 1)%nat /\
       tx d' ++ concat (payload <$> lost) = tx d ++ concat (payload <$> evs)).
Proof.
  intros Ha E Hn; apply stream_arrives_passing in Ha as Hx.
  destruct (run_passing _ _ _ _ _ _ _ sched evs [] _ _ Hx E Hn)
    as [(pre & waiting & evs' & Hy & Heq & Ht & Hle)|(pre & lost & Hy & Heq & Hlen & Ht & Hle)]; cbn [snd app] in *.
  - split; [unfold turns_left in Hle; cbn in Hle; lia|].
    split; [right; destruct (passing_enabled _ _ _ _ _ _ _ _ _ _ Hy) as (b & y & Eb); exists b, y; split; [done|]; intros _; lia|].
    destruct (passing_prefix _ _ _ _ _ _ _ _ _ _ _ Hy) as (d' & Hk & Htot); destruct Hy as (_ & _ & _ & _ & Hne & _).
    exists d'; split; [done|]; split; [rewrite <- Htot; by apply prefix_app_r|]; by intros ->.
  - split; [unfold turns_left in Hle; cbn in Hle; lia|]; split.
    { destruct (decide (ps = Finished)) as [|Hne]; [by left|]; right.
      destruct (closing_enabled _ _ _ _ _ _ _ _ _ Hy Hne) as (y & Ey); by exists false, y. }
    destruct (closing_prefix _ _ _ _ _ _ _ _ _ _ Hy) as (d' & Hk & Htot); exists d'; split; [done|].
    split; [rewrite <- Htot; by apply prefix_app_r|]; intros ->; exists lost; split; [by exists pre|]; by split.
Qed.

(** The close of the peer overtakes a chunk.  When the copy loop still writes one chunk while the next one
    waits in the channel, and the close arrives, the waiting chunk is not delivered: [Close] marks the
    stream as closed, and [Read] looks at the mark before it looks into the channel. *)
Theorem close_overtakes_chunk w d key user cid i e1 e2 rest :
  stream_arrives w d key user cid i [e1; e2] rest ->
  exists w' d', node_run [true; false; true; true; false; false] (w, Reading) = Ok (w', Finished) /\
    socks w' !! k = Some d' /\ tx d' = tx d ++ payload e1.
Proof.
  intros Ha; apply stream_arrives_passing, passing_read in Ha as (w1 & E1 & H1x).
  apply passing_copy in H1x as (w2 & E2 & H2x); apply passing_read in H2x as (w3 & E3 & H3x).
  apply passing_read in H3x as (w4 & E4 & H4x); apply closing_copy in H4x as (w5 & E5 & H5x).
  apply closing_copy in H5x as (w6 & E6 & H6x); apply closing_prefix in H6x as (d' & Hk & Ht).
  exists w6, d'; cbn [node_run]; rewrite E1; cbn [rbind]; rewrite E2; cbn [rbind]; rewrite E3; cbn [rbind]; rewrite E4; cbn [rbind].
  rewrite E5; cbn [rbind]; rewrite E6; split; [done|]; split; [done|].
  cbn in Ht; rewrite app_nil_r, !app_assoc in Ht; by apply app_inv_tail in Ht.
Qed.

End interleaving.

(** ** Witnesses *)

Module InterleavingDemo.
Export PassageDemo.

Definition chunk7 (b : bytes) : MuxEvent := make_event 7 (StreamChunk (Some b) (zlen b)).
Definition two_chunks : list MuxEvent := [chunk7 (bs "hello "); chunk7 (bs "world")].

Lemma two_chunks_ok : Forall (chunk_of 7) two_chunks.
Proof.
  repeat constructor; try done; try (by vm_compute).
  all: try apply (is_bytes_bs "hello "); apply (is_bytes_bs "world").
Qed.

(** The stream 7 of alice's client 42, and a destination. *)
Definition stream_node (wire : bytes) : World sock (MuxConnManager pipe) nat (nat * Z) chan :=
  {| socks := {[ 0%nat := destination ]};
     strs := {| g_streams := {[ (42, 7) := 0%nat ]}; objects := {[ 0%nat := chunk_stream ]}; g_active_stream_size := 1;
                g_client_sid := 9; g_server_sid := 2; ms_env := alice_manager wire |};
     latest_io_time := 0; now := 100 |}.

Lemma stream_node_arrives : exists wire, stream_arrives 0 0 0 (stream_node wire) destination key alice 42 7 two_chunks [].
Proof.
  destruct (WriteEvents_frames (two_chunks ++ [make_event 7 StreamCloseRequest]) link key)
    as (_ & wire & es & _ & _ & Hd & Hf & _).
  { apply conn_on_wf. }
  { reflexivity. }
  { constructor. }
  { by split. }
  { apply Forall_app; split; [|by constructor; [apply close_sendable|]].
    eapply Forall_impl; [exact two_chunks_ok | by intros ? (_ & _ & _ & ?)]. }
  exists wire, (encrypt_iv ctx), es, wire; split.
  { destruct (alice_reading (C := sock) wire ∅) as (c & [= <-] & Hrest); by exists (alice_link wire). }
  split; [done|]; split; [exact Hf|]; split; [apply two_chunks_ok|]; split; [done|].
  split; [by exists chunk_stream|]; split; [done | by repeat constructor].
Qed.

End InterleavingDemo.

Section witnesses.
Import InterleavingDemo.

Lemma close_overtakes_chunk_witness :
  exists wire w' d', node_run DispatchDemo.no_tunnels false true (bufs kMaxChunkSize) 0 tt 0 0 [true; false; true; true; false; false]
      (stream_node wire, Reading) = Ok (w', Finished) /\
    socks w' !! 0%nat = Some d' /\ tx d' = bs "hello ".
Proof.
  destruct stream_node_arrives as [wire Ha]; exists wire.
  exact (close_overtakes_chunk DispatchDemo.no_tunnels false true (bufs kMaxChunkSize) 0 tt 0 0 (stream_node wire) destination key alice
    42 7 (chunk7 (bs "hello ")) (chunk7 (bs "world")) [] Ha).
Defined.

Lemma every_order_delivers_prefix_witness :
  exists wire w', let sched := [true; false; true; true; false; false] in
    node_run DispatchDemo.no_tunnels false true (bufs kMaxChunkSize) 0 tt 0 0 sched (stream_node wire, Reading) = Ok (w', Finished) /\
    (length sched <= 8)%nat /\
    exists d', socks w' !! 0%nat = Some d' /\ tx d' `prefix_of` bs "hello world" /\
      exists lost, lost `suffix_of` two_chunks /\ (length lost <= 1)%nat /\ tx d' ++ concat (payload <$> lost) = bs "hello world".
Proof.
  destruct stream_node_arrives as [wire Ha].
  destruct (close_overtakes_chunk DispatchDemo.no_tunnels false true (bufs kMaxChunkSize) 0 tt 0 0 (stream_node wire) destination key alice
    42 7 (chunk7 (bs "hello ")) (chunk7 (bs "world")) [] Ha) as (w' & _ & E & _).
  exists wire, w'; split; [exact E|].
  destruct (every_order_delivers_prefix DispatchDemo.no_tunnels false true (bufs kMaxChunkSize) 0 tt 0 0 (stream_node wire) destination
    key alice 42 7 two_chunks [] [true; false; true; true; false; false] w' Finished Ha E) as (Hlen & _ & d' & Hk & Hp & Hl).
  - vm_compute; lia.
  - split; [exact Hlen|]; exists d'; split; [exact Hk|]; split; [exact Hp | exact (Hl eq_refl)].
Defined.

End witnesses.
