(* ===== verification/ClientPath.v ===== *)
(** * A client of the local proxy

    The whole coroutine of an accepted connection: [handle_conn] of src/snova/server/entry_server.cc with
    the handlers of socks5.cc, tls.cc and http.cc, the counter of local connections, and the relay that the
    handler calls (src/snova/server/relay.cc); and its composition with the exit node, from the greeting of
    a client to what the destination receives. *)

From S2P Require Import Prelude Endian IoBuf TimeWheel Text HttpHelper Sni NetHelper LocalProxy Connect EntryServer.
From S2P Require Import PbMessages MuxEvent CipherContext Io AsyncMutex MuxConnection MuxStream MuxConnManager MuxDispatch Transfer Relay EndToEnd Arrival Passage.

(** ** The coroutine *)

Section client.
Context `{Platform} {N Ep C E F Wr Ch : Type} `{IOConnection C, Network N Ep C, EventWriters E F Wr, DataChannel Ch}.
Context `{!RelayFactories E F} `{AbslStrings, AsioText, AsioIp, OriginalDst C}.
Abbreviation R := (Relay N C E F Wr Ch).

(** As for the relay, with [GlobalFlags::GetUser()] and [g_is_redirect_node]. *)
Variables (entry exit_node : bool) (io_timeout_secs : Z) (get_iobuf : Z -> bytes) (now_ms : Z).
Variables (flag_user : bytes) (g_is_redirect_node : bool).

(** The front end on the accepted socket. *)
Definition front_end (c : C) : C * res (option relay_call) :=
  LocalProxy.handle_conn flag_user (if g_is_redirect_node then get_orig_dst c else None) (get_iobuf kMaxChunkSize) c.

(** What follows the front end.  The socket is moved into the relay, or closed when the coroutine ends. *)
Definition front_end_relays (sched : list (turn (World C E F Wr Ch))) (k : nat) : st R unit := fun r =>
  let close r := fst (on_world (smodify (set_socks (alter IoClose k))) r) in
  match on_world (on_sock k front_end) r with
  | (r, Ok (Some call)) =>
      relay_socket entry exit_node io_timeout_secs get_iobuf now_ms sched k (data call) (ctx call) (direct call) r
  | (r, Ok None) => (close r, Ok tt)
  | (r, Err e) => (close r, Err e)
  | (r, Ub) => (r, Ub)
  | (r, Hang) => (r, Hang)
  end.

(** [handle_conn] on the socket [k], with [g_local_proxy_conn_num]. *)
Definition handle_client (sched : list (turn (World C E F Wr Ch))) (k : nat) : st (Z * R) unit := fun '(num, r) =>
  let entered := wrap 32 (num + 1) in
  match front_end_relays sched k r with
  | (r, Ok a) => ((wrap 32 (entered - 1), r), Ok a)
  | (r, Err e) => ((wrap 32 (entered - 1), r), Err e)
  | (r, Ub) => ((entered, r), Ub)
  | (r, Hang) => ((entered, r), Hang)
  end.

(** What the front end leaves to the relay. *)
Lemma handle_client_relays sched num r k c c1 call :
  socks (rworld r) !! k = Some c -> front_end c = (c1, Ok (Some call)) -> fits 32 num ->
  handle_client sched k (num, r) =
    let '(r', res) := relay_socket entry exit_node io_timeout_secs get_iobuf now_ms sched k (data call) (ctx call) (direct call)
      {| rworld := set_socks (insert k c1) (rworld r); net := net r; wheel := wheel r |} in
    ((match res with Ok _ | Err _ => num | Ub | Hang => wrap 32 (num + 1) end, r'), res).
Proof.
  intros Hk Hc Hn; unfold handle_client, front_end_relays; rewrite (on_world_ok _ r (set_socks (insert k c1) (rworld r)) (Ok (Some call)))
    by (unfold on_sock; by rewrite Hk, Hc).
  assert (wrap 32 (wrap 32 (num + 1) - 1) = num) as Hw.
  { unfold wrap, fits in *; rewrite Zminus_mod_idemp_l; by rewrite Z.add_simpl_r, Z.mod_small. }
  by destruct (relay_socket _ _ _ _ _ _ _ _ _ _ _) as [r' [| | |]]; rewrite ?Hw.
Qed.

End client.

(** ** What a client's bytes go through *)

Section front.
Context {C : Type} `{IOConnection C, !StreamView C, !ByteStream C, !StreamEof C} `{AbslStrings, AsioText, AsioIp}.
Implicit Type c : C.

Lemma read_splits cap c c' d :
  live c -> 0 < cap -> AsyncRead cap c = (c', Ok (d, 0)) -> rx c = d ++ rx c' /\ tx c' = tx c /\ live c'.
Proof.
  intros Hl Hc Er; destruct (decide (rx c = [])) as [Hr|Hr].
  - destruct (stream_eof cap c Hl Hc Hr) as (c2 & ec & E2 & Hec & _); congruence.
  - destruct (stream_read cap c Hl Hc Hr) as (c2 & d2 & E2 & _ & _ & Hs & Ht & Hl2).
    rewrite Er in E2; injection E2 as -> ->; by split_and!.
Qed.

Lemma write_adds b c c' x : live c -> AsyncWrite b c = (c', x) -> tx c' = tx c ++ b /\ rx c' = rx c /\ live c'.
Proof. intros Hl Ew; destruct (stream_write b c Hl) as (c2 & E2 & ?); congruence. Qed.

(** A session takes the request and the first bytes, and gives the two replies. *)
Lemma session_splits cap c request first c4 :
  live c -> 0 < cap -> session c cap request first c4 ->
  rx c = request ++ first ++ rx c4 /\ tx c4 = tx c ++ [5; 0] ++ [5; 0; 0; 1; 0; 0; 0; 0; 0; 0] /\ live c4.
Proof.
  intros Hl Hc (c1 & c2 & c3 & w1 & w2 & E1 & E2 & E3 & E4).
  apply write_adds in E1 as (Ht1 & Hr1 & Hl1); [|done]; apply read_splits in E2 as (Hr2 & Ht2 & Hl2); [|done..].
  apply write_adds in E3 as (Ht3 & Hr3 & Hl3); [|done]; apply read_splits in E4 as (Hr4 & Ht4 & Hl4); [|done..].
  split; [by rewrite <- Hr4, Hr3, <- Hr2|]; split; [by rewrite Ht4, Ht3, Ht2, Ht1, <- app_assoc | done].
Qed.

(** The greeting of RFC 1928. *)
Definition socks5_greeting (methods : bytes) : bytes := [5; zlen methods] ++ methods.

Lemma greeting_accepted methods rest : 0 ∈ methods -> greeting_ok (socks5_greeting methods ++ rest).
Proof.
  intros Hm; unfold greeting_ok, socks5_greeting.
  change (zget (([5; zlen methods] ++ methods) ++ rest) 1) with (Some (zlen methods)); cbv iota beta.
  by rewrite <- app_assoc, (zslice_app 2 (zlen methods) [5; zlen methods] rest methods).
Qed.

(** A client that greets is given to the SOCKS5 handler. *)
Lemma greeting_dispatched flag_user buffer c c0 methods :
  AsyncRead kMaxChunkSize c = (c0, Ok (socks5_greeting methods, 0)) -> 0 ∈ methods -> zlen (socks5_greeting methods) <= zlen buffer ->
  LocalProxy.handle_conn flag_user None buffer c =
    handle_socks5_connection flag_user (socks5_greeting methods ++ zdrop (zlen (socks5_greeting methods)) buffer) c0.
Proof.
  intros Hr Hm Hl; assert (3 <= zlen (socks5_greeting methods)) as Hn.
  { unfold socks5_greeting; destruct methods; [by apply elem_of_nil in Hm | zlen_solve]. }
  unfold LocalProxy.handle_conn; cbn [redirect_address]; srun; rewrite Hr; cbv beta iota.
  rewrite zblit_head by done; cbn [negb Z.eqb]; bool_false (zlen (socks5_greeting methods) =? 0); bool_false (zlen (socks5_greeting methods) <? 3).
  rewrite zslice_prefix by done; cbv beta iota; rewrite zslice_Some by lia; cbv beta iota.
  by rewrite !zget_app_l by lia.
Qed.

End front.

(** ** From the client to the destination *)

Section path.
Context `{Platform, !PlatformOk} `{Nanopb, !NanopbOk} `{Aead, !AeadOk} `{HashOrder}.
Context `{AbslStrings, !AbslStringsOk, AsioText, AsioIp}.
(** The entry node: the client's socket, the link of its connections. *)
Context {N Ep C L Ch : Type} `{IOConnection C, !StreamView C, !ByteStream C, !StreamEof C, OriginalDst C} `{Network N Ep C}.
Context `{IOConnection L} `{Clock L} `{!StreamView L, !ByteStream L} `{DataChannel Ch, !DataChannelOk Ch, !WaitingChannel Ch}.
(** The exit node: the destination's socket, the link of its connections. *)
Context {N' Ep' K L' Ch' T : Type} `{IOConnection K, !StreamView K, !ByteStream K, !ClosedEnds K} `{Network N' Ep' K}.
Context `{IOConnection L'} `{Clock L'} `{!StreamView L', !ByteStream L'} `{DataChannel Ch', !DataChannelOk Ch'}.
Variable handler : bytes -> Z -> MuxEvent -> st T (option MuxEvent).
Variables (io_timeout_secs io_timeout_secs' now_ms now_ms' : Z) (get_iobuf get_iobuf' : Z -> bytes).
Hypothesis get_iobuf_size : forall n, n <= zlen (get_iobuf n).
Hypothesis get_iobuf_bytes : forall n, is_bytes (get_iobuf n).
Hypothesis get_iobuf_size' : forall n, n <= zlen (get_iobuf' n).
Variables (flag_user : bytes) (redirect : bool).
Abbreviation Entry := (Relay N C (MuxConnManager L) nat (nat * Z) Ch).
Abbreviation Exit := (Relay N' K (MuxConnManager L') nat (nat * Z) Ch').

(** The session of [user] in [r] is open: its writer [wr] is the connection [l] at [q], with [key]. *)
Definition session_open (r : Entry) (user : bytes) (cid : Z) (q : nat) (l : MuxConnection L) (key : bytes) : Prop :=
  exists f wr, GetRelayEventWriterFactory user (ms_env (strs (rworld r))) = Ok (Some (cid, f)) /\
    make_writer f (ms_env (strs (rworld r))) = (ms_env (strs (rworld r)), Ok (Some wr)) /\
    slot_of wr (ms_env (strs (rworld r))) q l /\ can_write l key.

(** Every exit node that reads [wire] from the link spawns one relay, and in every order of its read loop
    and that relay's copy loop gives [data] to the destination, but for an overtaken last chunk. *)
Definition destination_gets (host : bytes) (port i : Z) (key : bytes) (v v' : Z) (wire : bytes) (m : nat) (data : bytes) : Prop :=
  forall (x : Exit) q t user cid rest d,
    serves x q user cid i host port true d -> reading (rworld x) q key v user cid (wire ++ rest) ->
    exists x1 ev, on_world (read_turn handler q t) x = (x1, Ok (0, [(user, cid, ev)], t)) /\
      forall sched overtaken, order m sched = Some overtaken ->
      exists x2 kd d',
        relay_handler false true io_timeout_secs' get_iobuf' now_ms' (in_order handler q t sched) user cid ev x1 = (x2, Ok tt) /\
        socks (rworld x2) !! kd = Some (IoClose d') /\ given overtaken (tx d ++ data) (tx d') /\
        reading (rworld x2) q key v' user cid rest.

(** Whatever the front end speaks with the client: what it hands to the relay and what the client sends
    afterwards reach the destination. *)
Lemma client_reaches_destination sched num (r : Entry) k c c1 call cid q l key :
  socks (rworld r) !! k = Some c -> front_end get_iobuf flag_user redirect c = (c1, Ok (Some call)) ->
  direct call = false -> LocalProxy.is_tcp (ctx call) = true ->
  live c1 -> is_bytes (rx c1) -> is_bytes (data call) -> zlen (data call) <= kMaxChunkSize ->
  cstring_wf 512 (LocalProxy.remote_host (ctx call)) -> fits 16 (LocalProxy.remote_port (ctx call)) ->
  fits 32 num -> fits 32 (g_client_sid (strs (rworld r))) ->
  session_open r (LocalProxy.user (ctx call)) cid q l key ->
  let run := handle_client true false io_timeout_secs get_iobuf now_ms flag_user redirect (Loop <$> sched) k (num, r) in
  sched = alone (2 * length (rx c1) + 1) \/ run.2 <> Hang ->
  exists r' c' l' wire m, run = ((num, r'), Ok tt) /\
    socks (rworld r') !! k = Some (IoClose c') /\ Get cid (g_client_sid (strs (rworld r))) (strs (rworld r')) = None /\
    conn_store (ms_env (strs (rworld r'))) = <[q := l']> (conn_store (ms_env (strs (rworld r)))) /\
    tx (io_conn l') = tx (io_conn l) ++ wire /\
    destination_gets (LocalProxy.remote_host (ctx call)) (LocalProxy.remote_port (ctx call)) (g_client_sid (strs (rworld r)))
      key (encrypt_iv (cipher_ctx l)) (encrypt_iv (cipher_ctx l')) wire m (data call ++ rx c1).
Proof.
  intros Hk Hfe Hdir Htcp Hl Hrb Hdb Hdl Hhost Hport Hn Hsid (f & wr & Hf & Hm & Hslot & Hcw) run; subst run.
  rewrite (handle_client_relays true false io_timeout_secs get_iobuf now_ms flag_user redirect _ num r k c c1 call) by done.
  unfold relay_socket, with_cleanup; rewrite Hdir; set (r1 := Build_Relay _ _ _); intros Hsched.
  destruct (relay_sends_stream io_timeout_secs now_ms get_iobuf get_iobuf_size get_iobuf_bytes
    sched r1 k c1 (data call) (ctx call) cid f wr q l key)
    as (r' & c' & l' & wire & m & E & Hsk & Hget & Ecs & Htx & Hw & Hiv); [by cbn; rewrite ?lookup_insert_eq..| |].
  { destruct Hsched as [->|Hh]; [by left | right]; intros Hrun; apply Hh; revert Hrun; by destruct (do_relay _ _ _ _ _ _ _ _ _ _ _) as [? [| | |]]. }
  rewrite E; eexists _, (IoClose c'), l', wire, m; split; [done|].
  split; [by cbn; rewrite lookup_alter_eq, Hsk|]; do 3 (split; [done|]).
  intros x q' t user cid' rest d Hserve Hread; rewrite Hiv.
  destruct (stream_wire_served handler io_timeout_secs' now_ms' get_iobuf' get_iobuf_size' x q' t key (encrypt_iv (cipher_ctx l)) user cid'
    (g_client_sid (strs (rworld r))) (LocalProxy.remote_host (ctx call)) (LocalProxy.remote_port (ctx call))
    (LocalProxy.is_tcp (ctx call)) (LocalProxy.is_tls (ctx call)) (data call ++ rx c1) m wire rest d)
    as (x1 & ev & E1 & Hx); [done..| by rewrite Htcp | done |].
  exists x1, ev; split; [done|]; intros sched' overtaken Hord; destruct (Hx sched' overtaken Hord) as (x2 & kd & d' & E2 & Hkd & Htxd & Hrd & _).
  by exists x2, kd, d'.
Qed.

(** Where a SOCKS5 client that asks for [a] and [port] and then sends [first] is relayed to: to what it
    asked for, unless it talks TLS and names a server.  Then that server is taken, at the port asked for
    when the request has an address, and at 443 when it has a domain.  No relay is made for a record of a
    version before 3 or a hello that names no server. *)
Definition socks5_destination (a : socks5_addr) (port : Z) (first : bytes) : option (bytes * Z) :=
  if decide (3 < zlen first /\ zget first 0 = Some 22) then
    if decide (default 0 (zget first 1) < 3) then None else
    match parse_sni first with
    | Ok sni => if decide (sni = bs "courier.push.apple.com") then None
                else Some (sni, match a with SDomain _ => 443 | _ => port end)
    | _ => None
    end
  else Some (addr_host a, port).

Lemma socks5_destination_relayed (c : C) buf a port first c4 host dport :
  greeting_ok buf -> addr_wf a -> fits 16 port -> 300 <= zlen buf -> zlen first <= zlen buf ->
  session c (zlen buf) (socks5_request a port) first c4 -> socks5_destination a port first = Some (host, dport) ->
  fits 16 dport /\ exists tls, handle_socks5_connection flag_user buf c =
    (c4, Ok (Some {| data := first; direct := false;
       ctx := {| LocalProxy.user := flag_user; LocalProxy.remote_host := host; LocalProxy.remote_port := dport;
                 LocalProxy.is_tls := tls; LocalProxy.is_tcp := true |} |})).
Proof.
  intros Hg Ha Hp Hb Hf Hs; unfold socks5_destination; case_decide as Htls.
  - destruct Htls as [Hl Hb0]; case_decide as Hver; [done|]; destruct (zget_in_range first 1) as [ver Ev]; [lia|].
    destruct (parse_sni first) as [sni| | |] eqn:Esni; [|done..]; case_decide; [done|]; intros [= <- <-]; split; [by destruct a|].
    exists true; apply (socks5_domain_tls_port_lost flag_user c buf a port first c4 ver); try done; rewrite Ev in Hver; cbn in Hver; lia.
  - intros [= <- <-]; split; [done|]; exists false; apply socks5_connect_relayed; try done.
    destruct (decide (3 < zlen first)) as [Hl|]; [right | left; lia].
    intros Hb0; apply Htls; split; [done|]; destruct first; [by vm_compute in Hl|]; cbn in Hb0; by subst.
Qed.


(** What the front end makes of a TLS hello with a server name. *)
Lemma hello_dispatched orig_dst ep buffer (c c1 : C) d sni :
  redirect_address orig_dst = Ok ep -> AsyncRead kMaxChunkSize c = (c1, Ok (d, 0)) -> zlen d <= zlen buffer -> 3 <= zlen d ->
  zget d 0 = Some 22 -> zget d 1 = Some 3 -> parse_sni d = Ok sni -> sni <> bs "courier.push.apple.com" ->
  LocalProxy.handle_conn flag_user orig_dst buffer c =
    (c1, Ok (Some {| data := d; direct := false;
       ctx := {| LocalProxy.user := flag_user; LocalProxy.remote_host := sni;
                 LocalProxy.remote_port := match ep with Some (_, p) => p | None => 443 end;
                 LocalProxy.is_tls := true; LocalProxy.is_tcp := true |} |})).
Proof.
  intros Hr Hrd Hl Hn Hb0 Hb1 Hsni Hne; unfold LocalProxy.handle_conn; srun; rewrite Hr, Hrd; cbv beta iota.
  rewrite zblit_head by done; cbn [negb Z.eqb]; bool_false (zlen d =? 0); bool_false (zlen d <? 3).
  rewrite zslice_prefix by done; cbv beta iota; rewrite zslice_Some by lia; cbv beta iota.
  rewrite !zget_app_l by lia; rewrite Hb0, Hb1; change (22 =? 5) with false; change (22 =? 4) with false; rewrite !andb_false_r.
  cbn [Z.eqb Pos.eqb]; change (3 <? 3) with false; cbv iota.
  unfold handle_tls_connection; rewrite Hsni, decide_False by done; by destruct ep as [[? ?]|].
Qed.

(** A TLS client, of the proxy port or redirected by the kernel.  When its hello arrives in one read and
    names a server, this server receives the hello and everything behind it, at the port the connection
    was redirected from, or at 443, in the orders and up to the chunk of [destination_gets]. *)
Theorem tls_client_reaches_server sched num (r : Entry) k c c1 ep hello sni cid q l key :
  socks (rworld r) !! k = Some c -> live c -> is_bytes (rx c) ->
  redirect_address (if redirect then get_orig_dst c else None) = Ok ep ->
  let port := match ep with Some (_, p) => p | None => 443 end in
  AsyncRead kMaxChunkSize c = (c1, Ok (hello, 0)) -> 3 <= zlen hello <= kMaxChunkSize -> zget hello 0 = Some 22 -> zget hello 1 = Some 3 ->
  parse_sni hello = Ok sni -> sni <> bs "courier.push.apple.com" ->
  cstring_wf 512 sni -> fits 16 port -> fits 32 num -> fits 32 (g_client_sid (strs (rworld r))) ->
  session_open r flag_user cid q l key ->
  let run := handle_client true false io_timeout_secs get_iobuf now_ms flag_user redirect (Loop <$> sched) k (num, r) in
  sched = alone (2 * length (rx c1) + 1) \/ run.2 <> Hang ->
  exists r' c' l' wire m, run = ((num, r'), Ok tt) /\
    socks (rworld r') !! k = Some (IoClose c') /\ Get cid (g_client_sid (strs (rworld r))) (strs (rworld r')) = None /\
    conn_store (ms_env (strs (rworld r'))) = <[q := l']> (conn_store (ms_env (strs (rworld r)))) /\
    tx (io_conn l') = tx (io_conn l) ++ wire /\
    destination_gets sni port (g_client_sid (strs (rworld r)))
      key (encrypt_iv (cipher_ctx l)) (encrypt_iv (cipher_ctx l')) wire m (rx c).
Proof.
  intros Hk Hl Hb Hep port Hrd Hn Hb0 Hb1 Hsni Hne Hhost Hp Hnum Hsid Hopen run Hsched.
  destruct (read_splits kMaxChunkSize _ _ _ Hl ltac:(done) Hrd) as (Hr & _ & Hl1); rewrite Hr in Hb |- *.
  apply Forall_app in Hb as [Hhb Hb1r]; pose proof (get_iobuf_size kMaxChunkSize) as Hbuf.
  eapply (client_reaches_destination sched num r k c c1 {| data := hello; direct := false;
    ctx := {| LocalProxy.user := flag_user; LocalProxy.remote_host := sni; LocalProxy.remote_port := port;
              LocalProxy.is_tls := true; LocalProxy.is_tcp := true |} |}); try done; [|cbn; lia].
  apply hello_dispatched; try done; lia.
Qed.

(** An HTTP client.  Its relay call has no user, so unless sessions were opened for the empty user no
    session is found: whatever sessions the configured user has, the socket is closed, and nothing is sent
    to the client or on any connection. *)
Theorem http_client_not_relayed sched num (r : Entry) k c c1 b meth rest tail host port :
  let head := meth ++ 32 :: rest in
  socks (rworld r) !! k = Some c -> redirect = false ->
  AsyncRead kMaxChunkSize c = (c1, Ok (head ++ head_end ++ tail, 0)) -> zlen (head ++ head_end ++ tail) <= kMaxChunkSize ->
  zget head 0 = Some b -> b ∉ [4; 5; 22] -> existsb (EqualsIgnoreCase (ztake 3 (head ++ head_end ++ tail))) http_methods = true ->
  bfind head_end (head ++ head_end ++ tail) = Some (zlen head) -> StripAsciiWhitespace head = head -> 32 ∉ meth ->
  parse_http_hostport head = Ok (host ++ 58 :: to_string port) -> 58 ∉ host -> 0 < port < 65536 ->
  EqualsIgnoreCase meth (bs "CONNECT") = false -> fits 32 num ->
  mux_conns (ms_env (strs (rworld r))) !! [] = None ->
  exists r', handle_client true false io_timeout_secs get_iobuf now_ms flag_user redirect sched k (num, r) = ((num, r'), Ok tt) /\
    socks (rworld r') = <[k := IoClose c1]> (socks (rworld r)) /\ strs (rworld r') = strs (rworld r) /\ net r' = net r.
Proof.
  intros head Hk Hred Hrd Hl Hb Hnb Hm Hf Hst Hsp Hh Hc Hp Hcon Hnum Huser; pose proof (get_iobuf_size kMaxChunkSize) as Hbuf.
  set (req := head ++ head_end ++ tail) in *.
  assert (4 <= zlen req) as Hlen by (unfold req, head_end; zlen_solve).
  assert (front_end get_iobuf flag_user redirect c = (c1, Ok (Some {| data := req; direct := false;
      ctx := {| LocalProxy.user := []; LocalProxy.remote_host := host; LocalProxy.remote_port := port;
                LocalProxy.is_tls := false; LocalProxy.is_tcp := true |} |}))) as Hfe.
  { unfold front_end, LocalProxy.handle_conn; rewrite Hred; cbn [redirect_address]; srun; rewrite Hrd; cbv beta iota.
    rewrite zblit_head by lia; cbn [negb Z.eqb]; bool_false (zlen req =? 0); bool_false (zlen req <? 3).
    rewrite zslice_prefix by done; cbv beta iota; rewrite zslice_Some by lia; cbv beta iota.
    assert (0 < zlen head) as Hh0 by (apply zget_Some_range in Hb; lia).
    destruct (zget_in_range req 1) as [b1 Eb1]; [lia|].
    rewrite !zget_app_l, Eb1 by lia; unfold req at 1; rewrite zget_app_l, Hb by lia.
    rewrite !elem_of_cons in Hnb; bool_false (b =? 5); bool_false (b =? 4); bool_false (b =? 22); cbn [andb negb]; cbv iota.
    rewrite zdrop_0, Hm; rewrite (http_request_relayed c1 _ (zlen req) meth rest tail host port) by (done || by apply zslice_prefix).
    by rewrite Hcon. }
  rewrite (handle_client_relays true false io_timeout_secs get_iobuf now_ms flag_user redirect _ num r k c c1 _ Hk Hfe) by done.
  cbn [data ctx direct].
  destruct (relay_without_session true false io_timeout_secs get_iobuf now_ms sched k c1 req
    {| LocalProxy.user := []; LocalProxy.remote_host := host; LocalProxy.remote_port := port;
       LocalProxy.is_tls := false; LocalProxy.is_tcp := true |}
    {| rworld := set_socks (insert k c1) (rworld r); net := net r; wheel := wheel r |}) as (r' & E & Hs & Hst' & Hnet);
    [done | by cbn; rewrite lookup_insert_eq | by cbn; unfold GetRelayEventWriterFactory; rewrite Huser |].
  rewrite E; exists r'; split; [done|]; split; [by rewrite Hs; cbn; rewrite insert_insert_eq | done].
Qed.

End path.

(** ** Witnesses *)

Module ClientDemo.
Export RefAbsl ProxyDemo EntryDemo PassageDemo.

(** A client of an entry node with the given input. *)
Definition client_of (input : list bytes) : pipe := {| chunks := input; sent := [] |}.
Definition entry_with (input : list bytes) : Relay unit pipe (MuxConnManager pipe) nat (nat * Z) chan :=
  node (alice_manager []) {[ 0%nat := client_of input ]}.

Definition site_request : bytes := socks5_request (SDomain (bs "site")) 80.
Definition socks5_input : list bytes := [socks5_greeting [0]; site_request; bs "GET "; bs "hello"].
Definition replied : bytes := [5; 0] ++ [5; 0; 0; 1; 0; 0; 0; 0; 0; 0].

Lemma site_session :
  session {| chunks := [site_request; bs "GET "; bs "hello"]; sent := [] |} (zlen (bufs kMaxChunkSize)) site_request (bs "GET ")
    {| chunks := [bs "hello"]; sent := replied |}.
Proof.
  exists {| chunks := [site_request; bs "GET "; bs "hello"]; sent := [5; 0] |},
    {| chunks := [bs "GET "; bs "hello"]; sent := [5; 0] |}, {| chunks := [bs "GET "; bs "hello"]; sent := replied |}, (2, 0), (10, 0).
  by split_and!; vm_compute.
Qed.

Lemma alice_session input : session_open (entry_with input) alice 42 0 (alice_link []) key.
Proof.
  exists 0%nat, (0%nat, 0); split; [by vm_compute|]; split; [by vm_compute|]; split; [apply alice_slot | apply alice_can_write].
Qed.

End ClientDemo.

Section witnesses.
Import ClientDemo.


Lemma tls_client_reaches_server_witness :
  let hello := hello_record sample_hello in
  exists r' (l' : MuxConnection pipe) wire m,
    handle_client true false 120 bufs 5000 alice true (Loop <$> alone 9) 0 (3, entry_with [hello; bs "more"]) = ((3, r'), Ok tt) /\
    destination_gets (T := unit) (K := sock) (Ch' := chan) (L' := pipe) DispatchDemo.no_tunnels 60 6000 bufs (bs "example.com") 443 9
      key (encrypt_iv ctx) (encrypt_iv (cipher_ctx l')) wire m (hello ++ bs "more").
Proof.
  intros hello.
  destruct (tls_client_reaches_server (K := sock) (Ch' := chan) (L' := pipe) DispatchDemo.no_tunnels 120 60 5000 6000 bufs bufs bufs_size bufs_bytes bufs_size
    alice true (alone 9) 3 (entry_with [hello; bs "more"]) 0 (client_of [hello; bs "more"]) (client_of [bs "more"])
    (Some (V6 1, 443)) hello (bs "example.com") 42 0%nat (alice_link []) key)
    as (r' & c' & l' & wire & m & E1 & _ & _ & _ & _ & Hx).
  - reflexivity.
  - repeat constructor; done.
  - apply (bool_decide_unpack _); by vm_compute.
  - by vm_compute.
  - by vm_compute.
  - by split; vm_compute.
  - by vm_compute.
  - by vm_compute.
  - by vm_compute.
  - by vm_compute.
  - apply (bool_decide_unpack _); by vm_compute.
  - by split.
  - by split.
  - by split.
  - apply alice_session.
  - left; reflexivity.
  - exists r', l', wire, m; split; [exact E1 | exact Hx].
Defined.

Lemma http_client_not_relayed_witness :
  let req := get_more ++ head_end in
  exists r', handle_client true false 120 bufs 5000 alice false [] 0 (3, entry_with [req]) = ((3, r'), Ok tt) /\
    Transfer.socks (rworld r') = <[0%nat := client_of []]> {[0%nat := client_of [req]]} /\ strs (rworld r') = strs (rworld (entry_with [req])).
Proof.
  intros req.
  destruct (http_client_not_relayed 120 5000 bufs bufs_size alice false [] 3 (entry_with [req]) 0 (client_of [req]) (client_of [])
    71 (bs "GET") (zdrop 4 get_more) [] (bs "a.com") 8080) as (r' & E & Hs & Hst & _);
    try (by vm_compute); try (by apply (bool_decide_unpack _); vm_compute); try (by split).
  exists r'; exact (conj E (conj Hs Hst)).
Defined.

End witnesses.
