(* ===== verification/ConnInvariant.v ===== *)
(** * The invariant of a connection

    Every method of src/snova/mux/mux_connection.cc keeps the sizes of the buffers, the span of
    unread bytes inside its buffer, the counters of the cipher in range and the bytes in the read
    buffer bytes, whatever the peer sends and however the transport behaves. *)

From S2P Require Import Prelude Endian IoBuf PbMessages MuxEvent CipherContext Io AsyncMutex MuxConnection.

(** ** Invariants and what was read *)

Section maintains.
Context {S : Type} (P : S -> Prop).

(** After a read of the state the invariant is known of it, after a check its success. *)
Lemma maintains_get {B} (k : S -> st S B) : (forall s, P s -> Maintains P (k s)) -> Maintains P (sbind sget k).
Proof. intros Hk s Hs; unfold sbind, sget; by apply Hk. Qed.

Lemma maintains_check {A B} (r : res A) (k : A -> st S B) :
  (forall a, r = Ok a -> Maintains P (k a)) -> Maintains P (sbind (slift r) k).
Proof. intros Hk s Hs; unfold sbind, slift; destruct r as [a| | |]; try done; by apply (Hk a). Qed.

End maintains.

Lemma zblit_length {A} off (d l r : list A) : access (zblit off d l) = Ok r -> zlen r = zlen l.
Proof.
  destruct (zblit off d l) as [x|] eqn:E; [|done]; intros [= <-].
  apply zblit_inv in E as (? & ? & ? & ->); zlen_solve.
Qed.

Section cipher.
Context `{Platform} `{Nanopb} `{Aead}.

Definition enc_ok (p : CipherContext * MuxEvent) : Prop := ctx_wf p.1.

Lemma enc_ok_buffer eb : zlen eb = kMaxChunkSize + kEventHeadSize + kReservedBufferSize ->
  Maintains enc_ok (smodify (fun '(c, e) => (set_encode_buffer eb c, e))).
Proof. intros Hb [c e] (_ & ? & ? & ? & ?); unfold enc_ok, ctx_wf; cbn in *; by split_and!. Qed.

Lemma Encrypt_body_typed plain out : Maintains enc_ok (Encrypt_body plain out).
Proof.
  apply maintains_get; intros [c e] (Hb & _); apply maintains_sbind; [apply _|]; intros b; apply maintains_sbind.
  - destruct plain; [apply _|]; apply maintains_check; intros eb Heb; apply maintains_sbind; [|intros; apply _].
    apply enc_ok_buffer; by rewrite (zblit_length _ _ _ _ Heb).
  - intros out'; apply maintains_sbind; [|intros; apply _]; by intros [c' e'].
Qed.

Lemma Encrypt_seal_typed key plain b out : Maintains enc_ok (Encrypt_seal key plain b out).
Proof.
  apply maintains_get; intros [c e] (Hb & _); do 2 (apply maintains_sbind; [apply _|]; intros ?).
  apply maintains_check; intros eb Heb; apply maintains_sbind; [apply enc_ok_buffer; by rewrite (zblit_length _ _ _ _ Heb)|].
  intros _; do 4 (apply maintains_sbind; [apply _|]; intros ?); apply maintains_sbind; [apply _|].
  intros [out' n]; apply maintains_sbind; [|intros; apply _].
  intros [c' e'] (? & ? & ? & ? & ?); unfold enc_ok, ctx_wf; cbn -[wrap] in *; split_and!; try done; by apply wrap_range.
Qed.

Lemma Encrypt_typed out : Maintains enc_ok (Encrypt out).
Proof.
  apply maintains_get; intros [c e] _; apply maintains_if; [apply _|]; destruct (cipher_key c) as [key|]; [|apply _].
  apply maintains_sbind; [apply Encrypt_body_typed|]; intros [b o]; apply Encrypt_seal_typed.
Qed.

Lemma UpdateNonce_wf v c : fits 64 v -> ctx_wf c -> ctx_wf (UpdateNonce v c).
Proof. intros Hv (? & ? & ? & ? & ?); unfold ctx_wf; cbn; by split_and!. Qed.

End cipher.

(** ** The methods *)

Section methods.
Context `{Platform, !PlatformOk} `{Nanopb, !NanopbOk} `{Aead, !AeadOk}.
Context {C : Type} `{IOConnection C, !IOConnectionOk C} `{Clock C}.
Implicit Type cn : MuxConnection C.

Definition conn_typed (cn : MuxConnection C) : Prop := conn_wf cn /\ is_bytes (read_buffer cn).

(** A change of a member that the invariant does not speak of. *)
Lemma typed_same cn cn' :
  (cipher_ctx cn', read_buffer cn', write_buffer cn', readable_data cn') =
  (cipher_ctx cn, read_buffer cn, write_buffer cn, readable_data cn) -> conn_typed cn -> conn_typed cn'.
Proof. intros [= E1 E2 E3 E4]; unfold conn_typed, conn_wf; by rewrite E1, E2, E3, E4. Qed.

Lemma typed_smodify (f : MuxConnection C -> MuxConnection C) :
  (forall cn, (cipher_ctx (f cn), read_buffer (f cn), write_buffer (f cn), readable_data (f cn)) =
    (cipher_ctx cn, read_buffer cn, write_buffer cn, readable_data cn)) -> Maintains conn_typed (smodify f).
Proof. intros Hf cn; apply typed_same, Hf. Qed.

#[local] Instance typed_on_conn {A} (m : st C A) : Maintains conn_typed (on_conn m).
Proof. intros cn; unfold on_conn; destruct (m (io_conn cn)); by apply typed_same. Qed.
#[local] Instance typed_unlock : Maintains conn_typed (conn_Unlock (C := C)).
Proof. by apply typed_smodify. Qed.

Lemma typed_cipher ctx : ctx_wf ctx -> Maintains conn_typed (smodify (set_cipher (fun _ => ctx))).
Proof. intros Hc cn ((_ & ? & ? & ?) & ?); unfold conn_typed, conn_wf; cbn in *; by split_and!. Qed.

Ltac typed := first [ apply _ | by apply typed_smodify ].

(** [Write], whatever the event and the transport. *)
Lemma Write_typed ev : Maintains conn_typed (Write (C := C) ev).
Proof.
  apply maintains_get; intros cn ((Hc & _ & Hw & _) & _); destruct (Lock (write_mutex cn)) as [m o].
  apply maintains_sbind; [typed|]; intros _.
  assert (Maintains conn_typed (slift (A := MuxEvent * bool) (S := MuxConnection C) Hang)) as Hh by apply _.
  destruct o; try exact Hh; (apply maintains_sbind; [typed|]; intros _);
    pose proof (Encrypt_typed (write_buffer cn) (cipher_ctx cn, ev) Hc) as He;
    destruct (Encrypt (write_buffer cn) (cipher_ctx cn, ev)) as [[ctx ev'] r]; cbn in He;
    (apply maintains_sbind; [by apply typed_cipher|]); intros _;
    (destruct r as [w|rc| |]; [| by apply maintains_sbind; [typed | intros; typed] | typed | typed]).
  all: apply maintains_check; intros stored Hs; apply maintains_sbind.
  1, 3: intros cn' ((? & ? & ? & ?) & ?); unfold conn_typed, conn_wf; cbn; split_and!; try done;
    by rewrite (zblit_length _ _ _ _ Hs).
  all: intros _; apply maintains_sbind; [typed|]; intros [n0 ec0]; apply maintains_sbind; [typed|]; intros _.
  all: apply maintains_if; [typed|]; apply maintains_sbind; [typed|]; intros _; apply maintains_sbind; [typed|]; intros; typed.
Qed.

Lemma ReadEvent_typed cn cn' r :
  conn_typed cn -> ReadEvent cn = (cn', r) -> match r with Ok _ | Err _ => conn_typed cn' | _ => True end.
Proof.
  intros [Hw Hb] E; pose proof (ReadEvent_safe cn Hw Hb) as Hs; rewrite E in Hs; destruct r; try done; by destruct Hs as (? & ? & _).
Qed.

(** The steps in the life of a connection.  The counter of an answer to the handshake is a
    [uint64_t]. *)
Inductive conn_step : MuxConnection C -> MuxConnection C -> Prop :=
| step_read cn cn' r : ReadEvent cn = (cn', r) -> r <> Ub -> r <> Hang -> conn_step cn cn'
| step_write cn cn' ev r : Write ev cn = (cn', r) -> conn_step cn cn'
| step_client cn cn' user b : ClientAuth_recv user cn = (cn', Ok b) ->
    (forall e a, snd (ReadEvent cn) = Ok e -> body e = AuthResponse a -> fits 64 (iv a)) -> conn_step cn cn'
| step_server cn cn' role iv0 x : fits 64 iv0 -> ServerAuth role iv0 cn = (cn', Ok x) -> conn_step cn cn'
| step_tunnel cn cn' b : OpenTunnel_recv cn = (cn', Ok b) -> conn_step cn cn'
| step_client_id cn v : conn_step cn (set_client_id (fun _ => v) cn)
| step_retired cn : conn_step cn (set_retired (fun _ => true) cn)
| step_idx cn v : conn_step cn (set_idx (fun _ => v) cn)
| step_relay cn : conn_step cn (set_server_relay (fun _ => true) cn)
| step_callback cn : conn_step cn (set_retire_callback (fun _ => true) cn)
| step_state cn v : conn_step cn (set_read_state (fun _ => v) cn)
| step_unmatch cn v : conn_step cn (set_last_unmatch (fun _ => v) cn)
| step_reset cn now : conn_step cn (ResetCounter now cn)
| step_close cn : conn_step cn (conn_Close cn).

Lemma ServerAuth_typed role iv0 cn cn' x :
  fits 64 iv0 -> conn_typed cn -> ServerAuth role iv0 cn = (cn', Ok x) -> conn_typed cn'.
Proof.
  intros Hv Ht; unfold ServerAuth; destruct (is_local cn); [by intros [= <- _]|].
  destruct (ReadEvent cn) as [c1 [e|rc| |]] eqn:E1; try done; pose proof (ReadEvent_typed _ _ _ Ht E1) as Ht1; cbn in Ht1;
    [|by intros [= <- _]].
  destruct (body e); try (by intros [= <- _]); case_match; [by intros [= <- _]|].
  match goal with |- ?m c1 = _ -> _ => assert (Maintains conn_typed m) as Hm end.
  { apply maintains_sbind; [typed|]; intros _; apply maintains_sbind.
    { apply maintains_sbind; [apply Write_typed|]; intros [? ?]; typed. }
    intros ok; apply maintains_sbind; [|intros _; apply maintains_sbind; [typed|]; intros _; apply maintains_sbind; [typed|]; intros; typed].
    destruct ok; [|typed]; intros c2 ((Hc & ? & ? & ?) & ?); unfold conn_typed, conn_wf; cbn.
    split_and!; try done; by apply UpdateNonce_wf. }
  intros E2; exact (maintains_inv conn_typed _ _ _ _ E2 Ht1).
Qed.

Lemma conn_step_typed cn cn' : conn_step cn cn' -> conn_typed cn -> conn_typed cn'.
Proof.
  destruct 1 as [cn cn' r E ? ?|cn cn' ev r E|cn cn' user b E Hiv|cn cn' role iv0 x Hv E|cn cn' b E|cn v|cn|cn v|cn|cn|cn v|cn v|cn now|cn];
    intros Ht; try (by eapply typed_same).
  - pose proof (ReadEvent_typed _ _ _ Ht E) as Hr; by destruct r.
  - exact (maintains_inv conn_typed (Write ev) (Maintains0 := Write_typed ev) _ _ _ E Ht).
  - unfold ClientAuth_recv in E; destruct (ReadEvent cn) as [c1 [e|rc| |]] eqn:E1; try done;
      pose proof (ReadEvent_typed _ _ _ Ht E1) as Ht1; cbn in Ht1; [|by injection E as <- _].
    destruct (body e) as [|a| | | | | | | |] eqn:Eb; try (by injection E as <- _); injection E as <- _.
    destruct (authres_success a); [|done]; destruct Ht1 as ((Hc & ? & ? & ?) & ?); unfold conn_typed, conn_wf; cbn.
    split_and!; try done; apply UpdateNonce_wf; [by apply (Hiv e) | done].
  - by eapply ServerAuth_typed.
  - unfold OpenTunnel_recv in E; destruct (ReadEvent cn) as [c1 [e|rc| |]] eqn:E1; try done;
      pose proof (ReadEvent_typed _ _ _ Ht E1) as Ht1; cbn in Ht1; [|by injection E as <- _].
    by destruct (body e); try done; injection E as <- _.
Qed.

(** C10. A connection is well formed for all its life.  From its constructor on, through every sequence of
    reads, writes, handshakes, tunnel requests, counter resets and closes, whatever the peer sends
    and however the transport answers: the buffers keep their sizes, the unread bytes lie inside the
    read buffer, the counters of the cipher are 64-bit values and the buffers of the cipher have the
    sizes its operations rely on. *)
Theorem connection_well_typed ty io method key ctx local relay callback expire jitter cn :
  CipherContext.New method key = Some ctx ->
  rtc conn_step (MuxConnection_new ty io ctx local relay callback expire jitter) cn -> conn_typed cn.
Proof.
  intros Hctx Hr; assert (conn_typed (MuxConnection_new ty io ctx local relay callback expire jitter)) as Ht.
  { split; [by eapply MuxConnection_new_wf, New_wf|]; cbn; unfold zrepeat; by apply Forall_replicate. }
  induction Hr as [|x y z Hxy _ IH]; [done|]; by apply IH, (conn_step_typed x).
Qed.

End methods.

(** ** Witnesses *)

Section witnesses.
Import ConnDemo.

(** A connection that reads zeros, then writes, then closes. *)
Lemma connection_well_typed_witness :
  let cn := conn_on (tt : ZeroConn.conn) true in
  let cn1 := fst (ReadEvent cn) in
  conn_typed (conn_Close (fst (Write (make_event 7 StreamCloseRequest) cn1))).
Proof.
  intros cn cn1; refine (connection_well_typed MUX_ENTRY_CONN (tt : ZeroConn.conn) (bs "chacha20_poly1305") (bs "hello,world") ctx true true true 1800 30 _ eq_refl _).
  refine (rtc_l _ _ cn1 _ _ (rtc_l _ _ (fst (Write (make_event 7 StreamCloseRequest) cn1)) _ _ (rtc_once _ _ (step_close _)))).
  - refine (step_read cn cn1 (snd (ReadEvent cn)) (surjective_pairing _) _ _); by vm_compute.
  - refine (step_write cn1 _ (make_event 7 StreamCloseRequest) (snd (Write (make_event 7 StreamCloseRequest) cn1)) (surjective_pairing _)).
Defined.

End witnesses.
